(* ===== verification/_CoqProject ===== *)
-Q . S2P
Prelude.v
Memory.v
Machine.v
Vga.v
Console.v
Multiboot.v
Pmm.v
Heap.v
Vmm.v
Vfs.v
Ramfs.v
Mkramfs.v
Arch.v
Timer.v
Keyboard.v
Process.v
Usermode.v
Scheduler.v
Syscall.v
Exec.v
Kmain.v
Ulib.v
Uprog.v
Shell.v
ShellSpec.v
Boot.v
Interrupt.v
Running.v
Invariant.v
Steps.v
Lifecycle.v
