(* ===== verification/Prelude.v ===== *)
(** * AnubhavOS (lightstreak-os): verification development

    AnubhavOS is a 32-bit x86 teaching kernel: GRUB loads it, it sets up
    descriptor tables and interrupts, takes over physical and virtual memory,
    runs kernel threads under a preemptive round-robin scheduler, serves ten
    system calls over an in-memory filesystem and starts an interactive shell.
    This library translates the C sources under [src/kernel], [src/userspace]
    and [src/tools], and the assembly of the context switch, the interrupt stubs
    and the program entry, into executable Rocq functions and proves what makes
    each part correct, alone and together.

    ** Parts, and where they are modelled

    - [Prelude.v]: machine integers ([include/types.h]) as [Z] with explicit
      wrap-around ([u8], [u16], [u32], [s32]); shared list, bit and arithmetic
      lemmas; the hint database [os] and the tactics of the development.
    - [Memory.v]: byte-addressed RAM, the little-endian loads and stores
      ([ld8], [ld32], [st8], [st32]), block copies and C strings in RAM.
    - [Machine.v]: the state every component can reach: RAM, the VGA text
      buffer with the driver's variables, and the trace of port writes and
      privileged instructions ([kernel/arch/io.h]).
    - [Vga.v] ([kernel/drivers/vga.c]) and [Console.v] ([print_uint] ..
      [kprintf], [khalt] of [kernel/kernel.c]): output.
    - [Multiboot.v] ([include/multiboot.h]): the boot loader's structures, read
      from RAM.
    - [Pmm.v] ([kernel/mm/pmm.c]): the bitmap frame allocator.
    - [Heap.v] ([kernel/mm/heap.c]): the first-fit allocator over block headers
      that are bytes of RAM.
    - [Vmm.v] ([kernel/mm/vmm.c]): two-level page tables in RAM, proved against
      the processor's table walk.  It reaches frames through the class
      [FrameAllocator]; [Pmm] is its instance.
    - [Vfs.v] ([kernel/fs/vfs.c]): the filesystem switch over the record
      [fs_ops] of a driver's entry points, with the class [FileSystem] stating
      what a driver promises; [Ramfs.v] ([kernel/fs/ramfs.c]) is its instance
      and also holds the initramfs loader.
    - [Mkramfs.v] ([tools/mkramfs.c]): the host tool that packs a directory
      into the image the loader unpacks.
    - [Arch.v] ([kernel/arch/gdt.c], [tss.c], [idt.c], [irq.c], [isr.c]):
      descriptor tables, gates, the PIC and the interrupt dispatchers.
    - [Timer.v] ([kernel/drivers/timer.c], with [timer_irq_tick] of
      [kernel/kernel.c], the handler of its interrupt) and [Keyboard.v]
      ([kernel/drivers/keyboard.c]).
    - [Process.v] ([kernel/proc/process.c], [context_switch.asm]): control
      blocks and kernel stacks in heap memory, and the context switch
      instruction by instruction.
    - [Usermode.v]: [Vmm.v], [Process.v] and the descriptor tables of [Arch.v]
      together: user address spaces and entry to ring 3.
    - [Scheduler.v] ([kernel/proc/scheduler.c]): the circular run queue.
    - [Syscall.v] ([kernel/syscall/syscall.c]): the ten calls and their
      dispatcher.
    - [Exec.v] ([kernel/proc/exec.c]): the program loader, over the contracts
      of the filesystem, the heap, process creation and the run queue.
    - [Kmain.v] ([kmain] of [kernel/kernel.c]): the boot sequence, composed of
      the initialisations above, executed on an example machine.
    - [Ulib.v] ([userspace/lib/string.c], [syscall_wrappers.h]): the user
      library; string functions over RAM, programs as a small monad over the
      kernel state, and the wrappers through [int 0x80] and the dispatcher.
    - [Uprog.v]: a logic for user programs, by the text they show and the RAM
      they touch.
    - [Shell.v] ([userspace/shell/shell.c]): the shell, function by function;
      with its entry [crt0.asm]; [ShellSpec.v] states its command language and
      proves it.
    - [Boot.v]: [kmain] proved stage by stage on every machine the boot loader
      leaves well placed, and joined to the shell.
    - [Interrupt.v] ([kernel/arch/idt.asm]): the stubs instruction by
      instruction, between the processor's interrupt delivery and [iret],
      around the handlers above.
    - [Running.v]: the trap path on the state [kmain] hands over.
    - [Invariant.v]: the invariant of the kernel's state, kept by every system
      call; [Steps.v]: the machine after boot as a transition system of
      programs, interrupts, calls and switches.
    - [Lifecycle.v] ([boot/boot.asm], [gdt.asm], [shell_trampoline] of
      [kernel/proc/exec.c]): from the boot loader's jump to [kmain], and from
      the shell's exit to the second shell and the halt.

    ** How state and operations correspond

    The static variables of a C file are one record ([pmm], [heap], [vmm],
    [vfs], [ramfs], [kbd], [timer], [sched], ...), named as in the source.  An
    operation is a function from that record and the machine to its result and
    the new states; early returns and error codes are the branches of the
    function.  Objects the code reaches through computed pointers (block
    headers, page tables, [process_t], stacks, user buffers) are bytes of RAM
    at the offsets the i686 ABI gives them, so that overlap and corruption can
    be expressed; arrays indexed by constants or bounded counters are lists.
    Integer arithmetic that can leave its width is wrapped where the C code
    wraps.  Undefined behaviour (a store outside an array) and a loop that
    needs more fuel than it is given are [None].

    Addresses the linker or the assembler chooses (end of the kernel image,
    interrupt stubs, static tables, thread entry points) are arguments.
    The interrupts that arrive while a call waits for a key are an explicit
    sequence ([wake]): a key's scancode goes to the keyboard driver, a timer
    interrupt advances the clock, so time passes between the characters of a
    session.  RAM is indexed by physical address, which equals the kernel's
    pointers in the first 8 MB.

    ** What the theorems show

    - Output: [vga_putchar_refines_terminal] (a linear terminal of 2000 cells),
      [kprintf_writes_text] (the text of a format's pieces, its numbers as
      [numeral]s, defined by division and remainder apart from the code's digit
      loop), [kprintf_decimal_roundtrip].
    - Frames: [pmm_init_free_frames] (against the regions' true 64-bit extents),
      [pmm_alloc_page_first_fit], [pmm_alloc_free_roundtrip]; defect
      [crossing_region_frees_nothing].
    - Heap: the chain of headers represents a list of blocks ([heap_inv]);
      [kmalloc_refines_first_fit], [kmalloc_isolation], [kfree_releases_block],
      [kmalloc_kfree_roundtrip], [kzalloc_zeroes]; defect
      [kmalloc_huge_request_succeeds] (the three sizes the rounding wraps, which
      the theorems on [kmalloc] leave out).
    - Paging: [vmm_init_identity_maps], [vmm_map_page_maps],
      [vmm_unmap_page_unmaps], [vmm_map_page_isolated],
      [vmm_create_user_directory_clones]; defect [frames_above_identity_map].
    - Files: the file table represents a finite map from names to contents
      ([ramfs_create_refines_insert] for names of fewer than 64 characters,
      [ramfs_write_refines_splice] for every length, [initramfs_load_unpacks],
      [ramfs_readdir_lists]), and packing a host directory and loading it is
      a round trip ([mkramfs_load_roundtrip]); any [FileSystem] gives
      [vfs_write_read_roundtrip]; defects [ramfs_write_wraps_out_of_bounds] and
      [ramfs_create_long_name_duplicates].
    - Hardware tables: [gdt_set_entry_decodes], [gdt_init_flat_model],
      [idt_init_gates], [irq_handler_acks_then_dispatches]; defects
      [tss_limit_covers_iomap], [idt_init_enables_interrupts_before_lidt].
    - Devices: [keyboard_buffers_typed_text] (a bounded FIFO),
      [keyboard_getchar_delivers_in_order], [timer_programs_requested_rate].
    - Threads: [process_create_starts_entry], [context_switch_roundtrip],
      [process_create_destroy_roundtrip], [scheduler_add_inserts],
      [scheduler_remove_unlinks], [scheduler_tick_picks_next_ready],
      [scheduler_round_robin]; [exec_starts_program] joins the filesystem, heap,
      process and scheduler models.
    - User mode: [process_create_user_enters_ring3] (the [iret] frame, the
      segments and the directory), [user_space_isolated] (an invariant of user
      directories kept by every mapping: ring 3 reaches only what was mapped).
    - Boot: [kmain_launches_shell] (for every well-placed machine, the state the
      shell starts in, component by component, its files those [boot_files]
      keeps of the initramfs next to the kernel's own [hello.txt]; a packed
      [hello.txt], which the Makefile always packs, is dropped),
      [boot_serves_sessions] (from power-on to any session at the prompt, with
      any number of timer interrupts before it); [heap_placed_after_modules];
      [boot_reaches_shell] runs the whole [kmain] on a machine with a packed
      image, and [kmain_bad_magic_halts] covers the refused boot.
    - Traps: [interrupts_transparent], [syscalls_return] (the wrappers' model of
      [int 0x80] is what gate, stub and handler do; [goes_on] lists the
      registers the caller keeps) and [exceptions_halt]; defect
      [ring3_loses_data_segments].
    - The running system: [kernel_invariant] (in every state programs,
      interrupts, calls and exits can reach, every component's invariant holds)
      and [system_calls_in_bounds] (there no call leaves its arrays but the
      write to a file whose position plus length reaches [2 ^ 32], the defect
      [ramfs_write_wraps_out_of_bounds]).
    - Start and end: [power_on_launches_shell], [exit_restarts_then_halts],
      [second_shell_serves].
    - System calls: [sys_read_sequential], [sys_write_sequential],
      [sys_open_close_roundtrip], [sys_exit_never_returns],
      [sys_ps_lists_ring].
    - User library: [wrappers_reach_kernel], [strcmp_orders_strings],
      [itoa_decimal_roundtrip], [copies_are_exact].
    - Shell: [readline_edits_line] (the line editor), [cat_prints_file],
      [shell_round_serves] and [shell_session_transcript] (every command's
      text, end to end through library, trap, calls, filesystem, keyboard, clock
      and screen), [shell_never_goes_wrong].

    ** Fuel and bounds

    Loops whose bound the code states (64 files, 32 descriptors, 63 name
    characters, the scheduler's 64-step search, [sys_ps]'s [max]) recurse on
    that bound.  The heap walk has one step per 16-byte header the heap can
    hold ([heap_fuel]); its theorems prove that this always suffices under the
    heap invariant.  The memory-map walk has the map's length in bytes as fuel,
    and [pmm_init_free_frames] proves termination for maps whose entries
    advance.  C strings read from RAM are cut at 4096 characters for paths
    ([PATH_FUEL]) and 64 for stored names, beyond every string the file table
    can hold.  The user library's NUL-terminated loops follow 4096 characters
    ([STR_FUEL]), more than any string the shell prints; [readline] has one step
    per character that can still be read ([stdin_fuel]), [cat] one per 512 bytes
    of the largest file and one more, the prompt loop one round per character,
    and the shell's theorems prove that these always suffice.
    [scheduler_remove] needs one step per queued process.

    ** Not modelled

    The Multiboot header of [boot.asm] (data for the boot loader); the
    descriptor caches the processor fills from GDTR and IDTR (the loads are trace
    events); TLB contents beyond the [invlpg] events; the page faults of kernel
    stores to frames above the identity-mapped 8 MB, which [vmm_map_page] and
    [vmm_create_user_directory] make once the lower frames are taken
    ([frames_above_identity_map]); no part of the boot or of the shell calls
    them.
    The shell runs in the kernel's address space and ring, as [exec] and [kmain]
    start it.  Interrupts are delivered where code waits for them, in
    [keyboard_getchar].  Elsewhere, during the boot after [irq_init] and between
    two instructions of a command, a hardware interrupt is proved transparent
    to the code it interrupts ([interrupts_transparent]: it moves the clock, or
    buffers a key) and is not interleaved with the model's steps; system calls
    run with interrupts off.  The theorems on sessions therefore start from any
    clock and count the timer interrupts taken while the shell waits for its
    characters, and the replies depend on the clock only through the time at
    which the line is complete.  The C stack a handler uses below its frame
    belongs to the memory programs may change.  The idle loops ([sti; hlt])
    compute nothing and are addresses.
    Headers only declare what the C files define. *)

From stdpp Require Export base list numbers gmap.
From Stdlib Require Export ZArith Lia.
#[export] Set Default Goal Selector "!".
Global Open Scope Z_scope.

Ltac Zify.zify_post_hook ::= Z.to_euclidean_division_equations.

(** ** Scope and notations *)

Declare Scope os_scope.
Delimit Scope os_scope with os.
Notation "'0x8000_0000'" := 2147483648 (only parsing) : os_scope.
Notation W32 := 4294967296 (only parsing).

(** ** Machine integers

    [include/types.h] fixes [uint8_t], [uint16_t], [uint32_t] and [int32_t];
    values are kept as [Z] and every C operation that can leave the width is
    wrapped explicitly. *)

Definition u8 (x : Z) : Z := x mod 256.
Definition u16 (x : Z) : Z := x mod 65536.
Definition u32 (x : Z) : Z := x mod W32.

(** Conversion of a 32-bit pattern to [int32_t] (two's complement). *)
Definition s32 (x : Z) : Z :=
  let y := u32 x in if y <? 2147483648 then y else y - W32.

Definition is_u8 (x : Z) : Prop := 0 <= x < 256.
Definition is_u32 (x : Z) : Prop := 0 <= x < W32.
Definition is_s32 (x : Z) : Prop := -2147483648 <= x < 2147483648.

(** C truth values: [0] is false, anything else true. *)
Definition ctrue (x : Z) : bool := negb (x =? 0).

Create HintDb os discriminated.
#[export] Hint Constants Opaque : os.
Create Rewrite HintDb os.

Lemma u8_range x : 0 <= u8 x < 256.
Proof. unfold u8. lia. Qed.

Lemma u16_range x : 0 <= u16 x < 65536.
Proof. unfold u16. lia. Qed.

Lemma u32_range x : 0 <= u32 x < W32.
Proof. unfold u32. lia. Qed.

Lemma u32_small x : 0 <= x < W32 -> u32 x = x.
Proof. unfold u32. apply Z.mod_small. Qed.

Lemma u8_small x : 0 <= x < 256 -> u8 x = x.
Proof. unfold u8. apply Z.mod_small. Qed.

Lemma u16_small x : 0 <= x < 65536 -> u16 x = x.
Proof. unfold u16. apply Z.mod_small. Qed.

Lemma u32_idem x : u32 (u32 x) = u32 x.
Proof. apply u32_small, u32_range. Qed.

Lemma u32_sub_small x : - W32 <= x < 0 -> u32 x = x + W32.
Proof. unfold u32. lia. Qed.

Lemma s32_range x : is_s32 (s32 x).
Proof.
  unfold s32, is_s32. pose proof (u32_range x).
  destruct (Z.ltb_spec (u32 x) 2147483648); lia.
Qed.

Lemma s32_u32 x : is_s32 x -> s32 (u32 x) = x.
Proof.
  unfold is_s32, s32. intros H. rewrite u32_idem.
  destruct (Z.ltb_spec (u32 x) 2147483648); unfold u32 in *; lia.
Qed.

Lemma s32_small x : 0 <= x < 2147483648 -> s32 x = x.
Proof.
  intros H. unfold s32. rewrite u32_small by lia.
  destruct (Z.ltb_spec x 2147483648); lia.
Qed.

#[export] Hint Resolve u8_range u16_range u32_range s32_range : os.
#[export] Hint Rewrite u32_idem : os.
#[export] Hint Rewrite u32_small u8_small u16_small s32_small using lia : os.

(** ** Boolean tests on [Z] *)

Ltac zbool_step :=
  match goal with
  | H : (_ =? _) = true |- _ => apply Z.eqb_eq in H
  | H : (_ =? _) = false |- _ => apply Z.eqb_neq in H
  | H : (_ <? _) = true |- _ => apply Z.ltb_lt in H
  | H : (_ <? _) = false |- _ => apply Z.ltb_ge in H
  | H : (_ <=? _) = true |- _ => apply Z.leb_le in H
  | H : (_ <=? _) = false |- _ => apply Z.leb_gt in H
  | H : (_ && _) = true |- _ => apply andb_prop in H; destruct H
  | H : (_ && _) = false |- _ => apply andb_false_iff in H
  | H : (_ || _) = false |- _ => apply orb_false_iff in H; destruct H
  | H : (_ || _) = true |- _ => apply orb_true_iff in H
  | H : negb _ = true |- _ => apply negb_true_iff in H
  | H : negb _ = false |- _ => apply negb_false_iff in H
  end.

(** Reflects every boolean comparison in the hypotheses. *)
Ltac zbool := repeat zbool_step.

(** Case analysis on the first conditional of the goal, reflected. *)
Ltac zcase :=
  match goal with
  | |- context [if ?b then _ else _] =>
      lazymatch b with
      | context [if _ then _ else _] => fail
      | _ => let E := fresh "E" in destruct b eqn:E; zbool
      end
  end.

(** ** Counted loops

    [for_ lo hi body s] is [for (i = lo; i < hi; i++) s = body(i, s)], for
    loops whose body changes neither the index nor the bound. *)

Fixpoint iter_from {S} (n : nat) (i : Z) (body : Z -> S -> S) (s : S) : S :=
  match n with
  | O => s
  | Datatypes.S n' => iter_from n' (i + 1) body (body i s)
  end.

Definition for_ {S} (lo hi : Z) (body : Z -> S -> S) (s : S) : S :=
  iter_from (Z.to_nat (hi - lo)) lo body s.

Lemma iter_from_ind {S} (P : Z -> S -> Prop) (body : Z -> S -> S) n i s :
  P i s ->
  (forall j t, i <= j < i + Z.of_nat n -> P j t -> P (j + 1) (body j t)) ->
  P (i + Z.of_nat n) (iter_from n i body s).
Proof.
  revert i s. induction n as [|n IH]; intros i s H0 Hstep; simpl.
  - by rewrite Z.add_0_r.
  - replace (i + Z.of_nat (Datatypes.S n)) with (i + 1 + Z.of_nat n) by lia.
    apply IH; [apply Hstep; [lia | done] |].
    intros j t Hj. apply Hstep. lia.
Qed.

(** The invariant rule for counted loops. *)
Lemma for_ind {S} (P : Z -> S -> Prop) (body : Z -> S -> S) lo hi s :
  P lo s ->
  (forall j t, lo <= j < hi -> P j t -> P (j + 1) (body j t)) ->
  P (Z.max lo hi) (for_ lo hi body s).
Proof.
  intros H0 Hstep. unfold for_.
  replace (Z.max lo hi) with (lo + Z.of_nat (Z.to_nat (hi - lo))) by lia.
  apply iter_from_ind; [done |]. intros j t Hj. apply Hstep. lia.
Qed.

Lemma for_empty {S} lo hi (body : Z -> S -> S) s : hi <= lo -> for_ lo hi body s = s.
Proof. intros H. unfold for_. by replace (Z.to_nat (hi - lo)) with O by lia. Qed.

Lemma iter_from_app {S} n k i (body : Z -> S -> S) s :
  iter_from (n + k) i body s = iter_from k (i + Z.of_nat n) body (iter_from n i body s).
Proof.
  revert i s. induction n as [|n IH]; intros i s; simpl.
  - by rewrite Z.add_0_r.
  - rewrite IH. f_equal. lia.
Qed.

(** One more iteration at the end of a counted loop. *)
Lemma for_snoc {S} lo hi (body : Z -> S -> S) s :
  lo <= hi -> for_ lo (hi + 1) body s = body hi (for_ lo hi body s).
Proof.
  intros H. unfold for_.
  replace (Z.to_nat (hi + 1 - lo)) with (Z.to_nat (hi - lo) + 1)%nat by lia.
  rewrite iter_from_app. simpl. f_equal. lia.
Qed.

Lemma iter_from_ext {S} n i (f g : Z -> S -> S) s :
  (forall j t, i <= j < i + Z.of_nat n -> f j t = g j t) -> iter_from n i f s = iter_from n i g s.
Proof.
  revert i s. induction n as [|n IH]; intros i s H; simpl; [done |].
  rewrite H by lia. apply IH. intros j t Hj. apply H. lia.
Qed.

Lemma for_ext {S} lo hi (f g : Z -> S -> S) s :
  (forall j t, lo <= j < hi -> f j t = g j t) -> for_ lo hi f s = for_ lo hi g s.
Proof. intros H. unfold for_. apply iter_from_ext. intros j t Hj. apply H. lia. Qed.

#[global] Opaque for_.

(** ** Arrays as lists indexed by [Z] *)

Definition aget {A} (d : A) (l : list A) (i : Z) : A := default d (l !! Z.to_nat i).
Definition aset {A} (l : list A) (i : Z) (x : A) : list A := <[Z.to_nat i := x]> l.
Definition alen {A} (l : list A) : Z := Z.of_nat (length l).

Section Arrays.
Context {A : Type} (d : A).
Implicit Types (l : list A).

Lemma alen_aset l i x : alen (aset l i x) = alen l.
Proof. unfold alen, aset. by rewrite length_insert. Qed.

Lemma aget_aset_eq l i x : 0 <= i < alen l -> aget d (aset l i x) i = x.
Proof.
  unfold alen, aget, aset. intros H.
  rewrite list_lookup_insert_eq by lia. done.
Qed.

Lemma aget_aset_ne l i j x : 0 <= i -> 0 <= j -> i <> j -> aget d (aset l i x) j = aget d l j.
Proof. intros. unfold aget, aset. rewrite list_lookup_insert_ne by lia. done. Qed.

Lemma aset_out l i x : alen l <= i -> aset l i x = l.
Proof. unfold alen, aset. intros. apply list_insert_ge. lia. Qed.

Lemma aget_replicate n x i : 0 <= i < Z.of_nat n -> aget d (replicate n x) i = x.
Proof. intros. unfold aget. rewrite lookup_replicate_2 by lia. done. Qed.

Lemma aget_ext l l' :
  length l = length l' -> (forall i, 0 <= i < alen l -> aget d l i = aget d l' i) -> l = l'.
Proof.
  unfold alen, aget. intros Hl H. apply list_eq_same_length with (length l); [done .. |].
  intros i x y Hi Hx Hy. specialize (H (Z.of_nat i) ltac:(lia)).
  rewrite Nat2Z.id, Hx, Hy in H. done.
Qed.

Lemma aget_Forall (P : A -> Prop) l i : Forall P l -> P d -> P (aget d l i).
Proof.
  intros Hl Hd. unfold aget. destruct (l !! _) eqn:E; simpl; [| done].
  eapply Forall_lookup_1; eauto.
Qed.

Lemma Forall_aset (P : A -> Prop) l i x : Forall P l -> P x -> Forall P (aset l i x).
Proof. intros. unfold aset. by apply Forall_insert. Qed.

(** [for (i = 0; i < n; i++) l[b + i] = g(i)]. *)
Lemma aset_loop (g : Z -> A) b n l :
  0 <= b -> 0 <= n -> b + n <= alen l ->
  let l' := for_ 0 n (fun i l => aset l (b + i) (g i)) l in
  alen l' = alen l /\
  forall v, 0 <= v -> aget d l' v = if (b <=? v) && (v <? b + n) then g (v - b) else aget d l v.
Proof.
  intros Hb Hn Hl l'. pose (P := fun k (t : list A) => alen t = alen l /\
    forall v, 0 <= v -> aget d t v = if (b <=? v) && (v <? b + k) then g (v - b) else aget d l v).
  assert (H : P (Z.max 0 n) l'); [| replace (Z.max 0 n) with n in H by lia; exact H].
  apply for_ind.
  - split; [done |]. intros v Hv. by replace ((b <=? v) && (v <? b + 0)) with false by lia.
  - intros k t Hk [Ht Hv]. split; [by rewrite alen_aset |]. intros v H0.
    destruct (Z.eq_dec v (b + k)) as [->|Hne].
    + rewrite aget_aset_eq by lia. replace ((b <=? b + k) && (b + k <? b + (k + 1))) with true by lia.
      f_equal. lia.
    + rewrite aget_aset_ne by lia. rewrite Hv by done.
      by replace ((b <=? v) && (v <? b + (k + 1))) with ((b <=? v) && (v <? b + k)) by lia.
Qed.

Lemma alen_nonneg l : 0 <= alen l.
Proof. unfold alen. lia. Qed.
End Arrays.

#[export] Hint Rewrite @alen_aset : os.
#[export] Hint Resolve Forall_aset : os.

(** ** Counting *)

(** The number of [i] in [0, n) with [p i]. *)
Fixpoint count (p : Z -> bool) (n : nat) : Z :=
  match n with
  | O => 0
  | S n' => count p n' + Z.b2z (p (Z.of_nat n'))
  end.

Lemma count_range p n : 0 <= count p n <= Z.of_nat n.
Proof. induction n as [|n IH]; simpl count; [done |]. destruct (p _); simpl; lia. Qed.

Lemma count_ext p q n :
  (forall i, 0 <= i < Z.of_nat n -> p i = q i) -> count p n = count q n.
Proof.
  induction n as [|n IH]; intros H; simpl; [done |].
  rewrite IH by (intros; apply H; lia). rewrite H by lia. done.
Qed.

(** Changing the predicate at one point changes the count by one. *)
Lemma count_upd p q n k :
  0 <= k < Z.of_nat n -> (forall i, 0 <= i < Z.of_nat n -> i <> k -> p i = q i) ->
  count q n = count p n + Z.b2z (q k) - Z.b2z (p k).
Proof.
  induction n as [|n IH]; intros Hk H; [lia |]. cbn [count].
  destruct (Z.eq_dec k (Z.of_nat n)) as [->|Hne].
  - rewrite (count_ext p q n) by (intros; apply H; lia). lia.
  - rewrite IH; [| lia | intros; apply H; lia]. rewrite (H (Z.of_nat n)) by lia. lia.
Qed.

Lemma count_true n : count (fun _ => true) n = Z.of_nat n.
Proof. induction n as [|n IH]; cbn [count]; [done |]. rewrite IH. cbn [Z.b2z]. lia. Qed.

Lemma count_false p n : (forall i, 0 <= i < Z.of_nat n -> p i = false) -> count p n = 0.
Proof.
  induction n as [|n IH]; intros H; cbn [count]; [done |].
  rewrite IH by (intros; apply H; lia). rewrite H by lia. done.
Qed.

(** ** Bits of 32-bit words *)

Lemma testbit_u32_high w k : 0 <= w < W32 -> 32 <= k -> Z.testbit w k = false.
Proof.
  intros Hw Hk. rewrite Z.testbit_eqb by lia.
  rewrite Z.div_small; [done |]. split; [lia |].
  apply Z.lt_le_trans with (2 ^ 32); [lia |]. apply Z.pow_le_mono_r; lia.
Qed.

Lemma u32_bits w : 0 <= w -> (forall k, 32 <= k -> Z.testbit w k = false) -> 0 <= w < W32.
Proof.
  intros H0 H. split; [done |]. destruct (Z.eq_dec w 0); [lia |].
  change W32 with (2 ^ 32). apply Z.log2_lt_pow2; [lia |].
  destruct (Z.le_gt_cases 32 (Z.log2 w)) as [Hle|]; [| done].
  specialize (H _ Hle). rewrite Z.bit_log2 in H by lia. done.
Qed.

(** A word of 32 set bits is [0xFFFFFFFF]. *)
Lemma all_ones w :
  0 <= w < W32 -> (forall k, 0 <= k < 32 -> Z.testbit w k = true) -> w = 0xFFFFFFFF.
Proof.
  intros Hw H. change 0xFFFFFFFF with (Z.ones 32). apply Z.bits_inj'. intros k Hk.
  destruct (Z.lt_ge_cases k 32).
  - rewrite H, Z.ones_spec_low by lia. done.
  - rewrite Z.ones_spec_high, testbit_u32_high by lia. done.
Qed.

Lemma all_ones_or_zero_bit w :
  0 <= w < W32 -> w = 0xFFFFFFFF \/ exists k, 0 <= k < 32 /\ Z.testbit w k = false.
Proof.
  intros Hw. destruct (decide (Forall (fun k => Z.testbit w (Z.of_nat k) = true) (seq 0 32))) as [H|H].
  - left. apply all_ones; [done |]. intros k Hk. rewrite Forall_forall in H.
    specialize (H (Z.to_nat k)). rewrite Z2Nat.id in H by lia.
    apply H, list_elem_of_In, in_seq. lia.
  - right. apply not_Forall_Exists in H; [| apply _]. apply Exists_exists in H.
    destruct H as (k & Hk & Hb). exists (Z.of_nat k).
    apply list_elem_of_In, in_seq in Hk. split; [lia |].
    by apply not_true_is_false.
Qed.
