(* ===== verification/Memory.v ===== *)
(** * Memory: byte-addressed RAM

    Every object the kernel reaches through a pointer it computed (heap
    blocks, page tables, process control blocks, kernel stacks, Multiboot
    structures, user buffers) lives in one RAM, a finite map from addresses to
    bytes; unwritten cells read as [0].  The accessors are the little-endian
    loads and stores an i686 compiler emits for [uint8_t] and [uint32_t]
    objects.  Addresses are not wrapped inside one access: a 4-byte access
    never starts in the last three bytes of the address space. *)
From S2P Require Import Prelude.

Abbreviation ram := (gmap Z Z).

Definition ld8 (m : ram) (a : Z) : Z := u8 (default 0 (m !! a)).
Definition st8 (m : ram) (a v : Z) : ram := <[a := u8 v]> m.

Definition ld32 (m : ram) (a : Z) : Z :=
  ld8 m a + 256 * ld8 m (a + 1) + 65536 * ld8 m (a + 2) + 16777216 * ld8 m (a + 3).

Definition st32 (m : ram) (a v : Z) : ram :=
  st8 (st8 (st8 (st8 m a v) (a + 1) (v / 256)) (a + 2) (v / 65536)) (a + 3) (v / 16777216).

(** [b[lo..lo+n)] with a counted loop: [for (i = 0; i < n; i++) d[i] = f(i)]. *)
Definition fill8 (m : ram) (a n : Z) (f : Z -> Z) : ram :=
  for_ 0 n (fun i m => st8 m (a + i) (f i)) m.

(** [for (i = 0; i < n; i++) d[i] = f(i)] on an array of words. *)
Definition fill32 (m : ram) (a n : Z) (f : Z -> Z) : ram :=
  for_ 0 n (fun i m => st32 m (a + 4 * i) (f i)) m.

(** [for (i = 0; i < n; i++) d[i] = s[i]] on arrays of words. *)
Definition copy32 (m : ram) (d s n : Z) : ram :=
  for_ 0 n (fun i m => st32 m (d + 4 * i) (ld32 m (s + 4 * i))) m.

(** The bytes of an object of [n] bytes at [a]. *)
Definition bytes (m : ram) (a n : Z) : list Z :=
  (fun i => ld8 m (a + Z.of_nat i)) <$> seq 0 (Z.to_nat n).

(** A NUL-terminated string at [a], at most [n] characters. *)
Fixpoint cstr_at (n : nat) (m : ram) (a : Z) : list Z :=
  match n with
  | O => []
  | S n' => if ld8 m a =? 0 then [] else ld8 m a :: cstr_at n' m (a + 1)
  end.

(** Two memories agree on [lo, hi). *)
Definition same_on (lo hi : Z) (m m' : ram) : Prop :=
  forall a, lo <= a < hi -> ld8 m a = ld8 m' a.

Lemma ld8_range m a : 0 <= ld8 m a < 256.
Proof. apply u8_range. Qed.

Lemma ld8_st8_eq m a v : ld8 (st8 m a v) a = u8 v.
Proof. unfold ld8, st8. rewrite lookup_insert_eq. simpl. apply u8_small, u8_range. Qed.

Lemma ld8_st8_ne m a b v : a <> b -> ld8 (st8 m a v) b = ld8 m b.
Proof. intros. unfold ld8, st8. by rewrite lookup_insert_ne. Qed.

Lemma ld8_st8 m a b v : ld8 (st8 m a v) b = if a =? b then u8 v else ld8 m b.
Proof. zcase; subst; [apply ld8_st8_eq | by apply ld8_st8_ne]. Qed.

Lemma ld32_range m a : 0 <= ld32 m a < W32.
Proof.
  unfold ld32. pose proof (ld8_range m a). pose proof (ld8_range m (a + 1)).
  pose proof (ld8_range m (a + 2)). pose proof (ld8_range m (a + 3)). lia.
Qed.

#[export] Hint Resolve ld8_range ld32_range : os.

(** The four bytes of a 32-bit word rebuild it. *)
Lemma bytes4_eq v :
  u8 v + 256 * u8 (v / 256) + 65536 * u8 (v / 65536) + 16777216 * u8 (v / 16777216) = u32 v.
Proof.
  unfold u8, u32.
  replace (v / 65536) with (v / 256 / 256) by (rewrite Z.div_div by lia; done).
  replace (v / 16777216) with (v / 256 / 256 / 256) by (rewrite !Z.div_div by lia; done).
  change W32 with (256 * (256 * (256 * 256))).
  rewrite (Z.rem_mul_r v) by lia. rewrite (Z.rem_mul_r (v / 256)) by lia.
  rewrite (Z.rem_mul_r (v / 256 / 256)) by lia. ring.
Qed.

Lemma ld32_st32_eq m a v : ld32 (st32 m a v) a = u32 v.
Proof.
  unfold ld32, st32. rewrite !ld8_st8.
  repeat (zcase; try lia). apply bytes4_eq.
Qed.

Lemma ld8_st32_ne m a b v : b < a \/ a + 4 <= b -> ld8 (st32 m a v) b = ld8 m b.
Proof. intros. unfold st32. rewrite !ld8_st8. repeat (zcase; try lia). Qed.

Lemma ld32_st32_ne m a b v :
  b + 4 <= a \/ a + 4 <= b -> ld32 (st32 m a v) b = ld32 m b.
Proof. intros. unfold ld32. rewrite !ld8_st32_ne by lia. done. Qed.

Lemma ld32_st8_ne m a b v : a < b \/ b + 4 <= a -> ld32 (st8 m a v) b = ld32 m b.
Proof. intros. unfold ld32. rewrite !ld8_st8_ne by lia. done. Qed.

Lemma ld32_same_on lo hi m m' a :
  same_on lo hi m m' -> lo <= a -> a + 4 <= hi -> ld32 m a = ld32 m' a.
Proof. intros H ??. unfold ld32. rewrite !H by lia. done. Qed.

#[export] Hint Rewrite ld32_st32_eq ld8_st8_eq : os.
#[export] Hint Rewrite ld32_st32_ne ld8_st32_ne ld32_st8_ne ld8_st8_ne using lia : os.

Lemma same_on_refl lo hi m : same_on lo hi m m.
Proof. done. Qed.

Lemma same_on_trans lo hi m1 m2 m3 : same_on lo hi m1 m2 -> same_on lo hi m2 m3 -> same_on lo hi m1 m3.
Proof. intros H1 H2 a Ha. by rewrite H1, H2. Qed.

Lemma same_on_sub lo hi lo' hi' m m' :
  same_on lo hi m m' -> lo <= lo' -> hi' <= hi -> same_on lo' hi' m m'.
Proof. intros H ?? a Ha. apply H. lia. Qed.

Lemma same_on_sym lo hi m m' : same_on lo hi m m' -> same_on lo hi m' m.
Proof. intros H a Ha. symmetry. auto. Qed.

#[export] Instance same_on_equivalence lo hi : Equivalence (same_on lo hi).
Proof.
  split; [intros ?; apply same_on_refl | intros ???; by apply same_on_sym |].
  intros ???. apply same_on_trans.
Qed.

Lemma same_on_st32 lo hi m a v : a + 4 <= lo \/ hi <= a -> same_on lo hi m (st32 m a v).
Proof. intros H b Hb. rewrite ld8_st32_ne by lia. done. Qed.

Lemma same_on_st8 lo hi m a v : a < lo \/ hi <= a -> same_on lo hi m (st8 m a v).
Proof. intros H b Hb. rewrite ld8_st8_ne by lia. done. Qed.

#[export] Hint Resolve same_on_refl same_on_st32 same_on_st8 : os.

(** Reading back what [fill8] wrote. *)
Lemma ld8_fill8 m a n f b :
  ld8 (fill8 m a n f) b = if (a <=? b) && (b <? a + n) then u8 (f (b - a)) else ld8 m b.
Proof.
  unfold fill8.
  assert (H : forall k, 0 <= k -> ld8 (for_ 0 k (fun i m => st8 m (a + i) (f i)) m) b =
            if (a <=? b) && (b <? a + k) then u8 (f (b - a)) else ld8 m b).
  { intros k Hk. revert k Hk. apply (natlike_ind (fun k => _ = _)).
    - rewrite for_empty by lia. zcase; [lia | done].
    - intros k Hk IH. unfold Z.succ. rewrite for_snoc by lia. rewrite ld8_st8, IH.
      repeat (zcase; try lia); first [done | do 2 f_equal; lia]. }
  destruct (Z.le_ge_cases 0 n); [by apply H |].
  rewrite for_empty by lia. zcase; [lia | done].
Qed.

Lemma ld32_fill8_ne m a n f b : b + 4 <= a \/ a + n <= b -> ld32 (fill8 m a n f) b = ld32 m b.
Proof.
  intros H. unfold ld32. rewrite !ld8_fill8.
  repeat (zcase; try lia).
Qed.

Lemma same_on_fill8 lo hi m a n f : a + n <= lo \/ hi <= a -> same_on lo hi m (fill8 m a n f).
Proof. intros H b Hb. rewrite ld8_fill8. zcase; [lia | done]. Qed.

#[export] Hint Resolve same_on_fill8 : os.

Lemma length_bytes m a n : length (bytes m a n) = Z.to_nat n.
Proof. unfold bytes. by rewrite length_fmap, length_seq. Qed.

Lemma bytes_lookup m a n i : 0 <= i < n -> aget 0 (bytes m a n) i = ld8 m (a + i).
Proof.
  intros. unfold aget, bytes. rewrite list_lookup_fmap, lookup_seq_lt by lia.
  simpl. f_equal. lia.
Qed.

Lemma bytes_same_on m m' a n : same_on a (a + n) m m' -> bytes m a n = bytes m' a n.
Proof.
  intros H. unfold bytes. apply list_fmap_ext. intros i x Hx.
  apply lookup_seq in Hx. apply H. lia.
Qed.

(** A word loop writes [n] words and nothing else. *)
Lemma word_loop_spec m a n (g : Z -> ram -> Z) (v : Z -> Z) :
  0 <= n -> (forall i t, 0 <= i < n -> (forall x, x < a \/ a + 4 * n <= x -> ld8 t x = ld8 m x) -> g i t = v i) ->
  let m' := for_ 0 n (fun i t => st32 t (a + 4 * i) (g i t)) m in
  (forall x, x < a \/ a + 4 * n <= x -> ld8 m' x = ld8 m x) /\
  forall j, 0 <= j < n -> ld32 m' (a + 4 * j) = u32 (v j).
Proof.
  intros Hn Hg m'. pose (P := fun k (t : ram) =>
    (forall x, x < a \/ a + 4 * n <= x -> ld8 t x = ld8 m x) /\
    forall j, 0 <= j < k -> ld32 t (a + 4 * j) = u32 (v j)).
  assert (H : P (Z.max 0 n) m'); [| replace (Z.max 0 n) with n in H by lia; exact H].
  apply for_ind; [split; [done | lia] |].
  intros k t Hk [Hfr Hv]. rewrite (Hg k t Hk Hfr). split.
  - intros x Hx. rewrite ld8_st32_ne by lia. by apply Hfr.
  - intros j Hj. destruct (Z.eq_dec j k) as [->|]; [apply ld32_st32_eq |].
    rewrite ld32_st32_ne by lia. apply Hv. lia.
Qed.

Lemma ld8_fill32 m a n f x : 0 <= n -> x < a \/ a + 4 * n <= x -> ld8 (fill32 m a n f) x = ld8 m x.
Proof. intros Hn. by apply (word_loop_spec m a n (fun i _ => f i) f Hn). Qed.

Lemma ld32_fill32 m a n f j : 0 <= j < n -> ld32 (fill32 m a n f) (a + 4 * j) = u32 (f j).
Proof. intros Hj. apply (word_loop_spec m a n (fun i _ => f i) f ltac:(lia)); [done | lia]. Qed.

Lemma ld32_fill32_ne m a n f x :
  0 <= n -> x + 4 <= a \/ a + 4 * n <= x -> ld32 (fill32 m a n f) x = ld32 m x.
Proof. intros Hn Hx. unfold ld32. by rewrite !ld8_fill32 by lia. Qed.

(** The bytes [l] are stored from [a] on. *)
Definition bytes_at (m : ram) (a : Z) (l : list Z) : Prop :=
  forall i x, l !! i = Some x -> ld8 m (a + Z.of_nat i) = x.

Lemma bytes_at_app m a l1 l2 :
  bytes_at m a (l1 ++ l2) <-> bytes_at m a l1 /\ bytes_at m (a + alen l1) l2.
Proof.
  unfold bytes_at, alen. split.
  - intros H. split; intros i x Hx; [apply H; by apply lookup_app_l_Some |].
    rewrite <- (H (length l1 + i)%nat x); [f_equal; lia |]. rewrite lookup_app_r by lia. rewrite <- Hx. f_equal. lia.
  - intros [H1 H2] i x [Hx|[Hle Hx]]%lookup_app_Some; [by apply H1 |].
    rewrite <- (H2 _ _ Hx). f_equal. lia.
Qed.

Lemma bytes_at_cons m a x l : bytes_at m a (x :: l) <-> ld8 m a = x /\ bytes_at m (a + 1) l.
Proof.
  change (x :: l) with ([x] ++ l). rewrite bytes_at_app. change (alen [x]) with 1.
  assert (H : bytes_at m a [x] <-> ld8 m a = x); [| by rewrite H].
  split; [intros H; rewrite <- (H O x eq_refl); f_equal; lia |].
  intros <- [|[|i]] y; intros [= <-]. f_equal. lia.
Qed.

(** The four bytes of a word, little-endian. *)
Definition le32 (v : Z) : list Z := [u8 v; u8 (v / 256); u8 (v / 65536); u8 (v / 16777216)].

Lemma bytes_at_le32 m a v : bytes_at m a (le32 v) -> ld32 m a = u32 v.
Proof.
  unfold le32. rewrite !bytes_at_cons. intros (H0 & H1 & H2 & H3 & _).
  replace (a + 1 + 1) with (a + 2) in * by lia. replace (a + 2 + 1) with (a + 3) in * by lia.
  unfold ld32. rewrite H0, H1, H2, H3. apply bytes4_eq.
Qed.

(** A stored string with its terminator is the C string read back. *)
Lemma bytes_at_cstr n m a s :
  bytes_at m a (s ++ [0]) -> Forall (fun c => c <> 0) s -> (length s < n)%nat -> cstr_at n m a = s.
Proof.
  revert a s. induction n as [|n IH]; intros a s Hb Hs Hn; [lia |]. cbn [cstr_at].
  destruct s as [|c s]; cbn [app] in Hb; rewrite bytes_at_cons in Hb; destruct Hb as [Hc Hb].
  - by rewrite Hc.
  - rewrite Hc. apply Forall_cons in Hs as [Hne Hs]. destruct (Z.eqb_spec c 0); [done |].
    f_equal. apply IH; [done | done | cbn in Hn; lia].
Qed.

Lemma bytes_at_bytes m a l : bytes_at m a l -> bytes m a (alen l) = l.
Proof.
  intros H. apply list_eq. intros i. unfold bytes. rewrite list_lookup_fmap.
  unfold alen. rewrite Nat2Z.id. destruct (l !! i) as [x|] eqn:E.
  - rewrite lookup_seq_lt by (by apply lookup_lt_Some in E). cbn. f_equal. by apply H.
  - rewrite lookup_seq_ge by (by apply lookup_ge_None_1). done.
Qed.

Lemma bytes_bytes_at m a l : bytes m a (alen l) = l -> bytes_at m a l.
Proof.
  intros H i x Hx. rewrite <- H in Hx. unfold bytes in Hx. rewrite list_lookup_fmap in Hx.
  destruct (seq 0 (Z.to_nat (alen l)) !! i) as [j|] eqn:E; [| done]. injection Hx as <-.
  apply lookup_seq in E as [-> _]. done.
Qed.

Section Copy32.
Context (m : ram) (d s n : Z) (Hn : 0 <= n) (Hdisj : d + 4 * n <= s \/ s + 4 * n <= d).

Lemma copy32_spec :
  (forall x, x < d \/ d + 4 * n <= x -> ld8 (copy32 m d s n) x = ld8 m x) /\
  forall j, 0 <= j < n -> ld32 (copy32 m d s n) (d + 4 * j) = ld32 m (s + 4 * j).
Proof using Hn Hdisj.
  destruct (word_loop_spec m d n (fun i t => ld32 t (s + 4 * i)) (fun i => ld32 m (s + 4 * i)) Hn) as [H1 H2].
  { intros i t Hi Ht. unfold ld32. by rewrite !Ht by lia. }
  split; [exact H1 |]. intros j Hj. transitivity (u32 (ld32 m (s + 4 * j))); [by apply H2 |].
  apply u32_small, ld32_range.
Qed.
End Copy32.

(** [for (i = 0; i < n; i++) d[i] = s[i]] between disjoint regions. *)
Lemma copy_bytes_spec dst src n r :
  0 <= dst -> dst + n <= W32 -> 0 <= src -> src + n <= W32 -> dst + n <= src \/ src + n <= dst -> 0 <= n ->
  let r' := for_ 0 n (fun i r => st8 r (u32 (dst + i)) (ld8 r (u32 (src + i)))) r in
  bytes r' dst n = bytes r src n /\ forall x, x < dst \/ dst + n <= x -> ld8 r' x = ld8 r x.
Proof.
  intros Hd Hdn Hs Hsn Hdis Hn r'.
  pose (P := fun k (t : ram) => (forall x, x < dst \/ dst + n <= x -> ld8 t x = ld8 r x) /\
    forall i, 0 <= i < k -> ld8 t (dst + i) = ld8 r (src + i)).
  assert (H : P (Z.max 0 n) r').
  { apply for_ind; [split; [done | lia] |]. intros k t Hk [Hf Hv].
    rewrite (u32_small (dst + k)), (u32_small (src + k)), Hf by lia. split.
    - intros x Hx. rewrite ld8_st8_ne by lia. by apply Hf.
    - intros i Hi. destruct (Z.eq_dec i k) as [->|]; [rewrite ld8_st8_eq; apply u8_small, ld8_range |].
      rewrite ld8_st8_ne by lia. apply Hv. lia. }
  replace (Z.max 0 n) with n in H by lia. destruct H as [Hf Hv]. split; [| exact Hf].
  unfold bytes. apply list_fmap_ext. intros i x Hx. apply lookup_seq in Hx. apply Hv. lia.
Qed.

(** [for (i = 0; i < n; i++) d[i] = f(i)], with the pointer wrapped. *)
Lemma fill_loop_eq r a n f :
  0 <= a -> a + n <= W32 -> for_ 0 n (fun i b => st8 b (u32 (a + i)) (f i)) r = fill8 r a n f.
Proof. intros Hp Hs. unfold fill8. apply for_ext. intros j t Hj. by rewrite u32_small by lia. Qed.

Lemma bytes_at_ext m a l l' : bytes_at m a l -> l = l' -> bytes_at m a l'.
Proof. by intros ? <-. Qed.

Lemma bytes_at_same m m' a l : same_on a (a + alen l) m m' -> bytes_at m a l -> bytes_at m' a l.
Proof.
  intros Hs H i x Hx. rewrite <- (H i x Hx). symmetry. apply Hs. apply lookup_lt_Some in Hx. unfold alen. lia.
Qed.

Lemma bytes_at_fill8 m a l : Forall is_u8 l -> bytes_at (fill8 m a (alen l) (fun i => aget 0 l i)) a l.
Proof.
  intros Hl i x Hx. pose proof (lookup_lt_Some _ _ _ Hx) as Hi. rewrite ld8_fill8. unfold alen.
  replace ((a <=? a + Z.of_nat i) && (a + Z.of_nat i <? a + Z.of_nat (length l))) with true by lia.
  replace (a + Z.of_nat i - a) with (Z.of_nat i) by lia. unfold aget. rewrite Nat2Z.id, Hx. cbn.
  apply u8_small. rewrite Forall_lookup in Hl. by apply (Hl i x).
Qed.
