(* ===== verification/Machine.v ===== *)
(** * Machine: RAM, the VGA driver's variables and the device trace

    The kernel's console is reached from every component ([kprintf]), so the
    state it changes travels with RAM in one record.  [vga_mem] is the text
    buffer at [VGA_ADDRESS] (device memory, one 16-bit cell per entry), the
    three [vga_*] fields are the static variables of kernel/drivers/vga.c, and
    [io] lists, newest first, the port writes and privileged instructions the
    kernel has executed. *)
From S2P Require Import Prelude Memory.

Inductive ioev :=
| Outb (port val : Z)          (** [outb] of kernel/arch/io.h *)
| Sti | CliHlt | StiHlt        (** [sti], [cli; hlt], [sti; hlt] *)
| Lgdt (base limit : Z)        (** [gdt_flush] *)
| Lidt (base limit : Z)        (** [idt_flush] *)
| Ltr (sel : Z)                (** [tss_flush] *)
| Invlpg (va : Z)
| SetCr0 (v : Z)
| SetCr3 (v : Z).

Record mach := Mach {
  m_ram : ram;
  vga_mem : list Z;
  vga_col : Z;
  vga_row : Z;
  vga_color : Z;
  io : list ioev;
}.

Definition set_ram (f : ram -> ram) (m : mach) : mach :=
  Mach (f (m_ram m)) (vga_mem m) (vga_col m) (vga_row m) (vga_color m) (io m).
Definition set_vga_mem (b : list Z) (m : mach) : mach :=
  Mach (m_ram m) b (vga_col m) (vga_row m) (vga_color m) (io m).
Definition set_vga_col (c : Z) (m : mach) : mach :=
  Mach (m_ram m) (vga_mem m) c (vga_row m) (vga_color m) (io m).
Definition set_vga_row (r : Z) (m : mach) : mach :=
  Mach (m_ram m) (vga_mem m) (vga_col m) r (vga_color m) (io m).
Definition set_vga_color (c : Z) (m : mach) : mach :=
  Mach (m_ram m) (vga_mem m) (vga_col m) (vga_row m) c (io m).
Definition do_io (e : ioev) (m : mach) : mach :=
  Mach (m_ram m) (vga_mem m) (vga_col m) (vga_row m) (vga_color m) (e :: io m).

(** [outb(port, val)] and [io_wait()] of kernel/arch/io.h. *)
Definition outb (port val : Z) (m : mach) : mach := do_io (Outb (u16 port) (u8 val)) m.
Definition io_wait (m : mach) : mach := outb 0x80 0 m.

(** Memory accessors lifted to the machine. *)
Definition mld32 (m : mach) (a : Z) : Z := ld32 (m_ram m) a.
Definition mld8 (m : mach) (a : Z) : Z := ld8 (m_ram m) a.
Definition mst32 (a v : Z) (m : mach) : mach := set_ram (fun r => st32 r a v) m.
Definition mst8 (a v : Z) (m : mach) : mach := set_ram (fun r => st8 r a v) m.

(** The result of a call that may never return: [khalt] and the calls that
    end in it stop the machine. *)
Inductive outcome (A : Type) :=
| Ret (a : A)
| Halted (m : mach).
Arguments Ret {A} a.
Arguments Halted {A} m.

Lemma m_ram_do_io e m : m_ram (do_io e m) = m_ram m.
Proof. done. Qed.

Lemma m_ram_outb p v m : m_ram (outb p v m) = m_ram m.
Proof. done. Qed.

Lemma m_ram_set_vga_mem b m : m_ram (set_vga_mem b m) = m_ram m.
Proof. done. Qed.

Lemma m_ram_set_vga_col c m : m_ram (set_vga_col c m) = m_ram m.
Proof. done. Qed.

Lemma m_ram_set_vga_row r m : m_ram (set_vga_row r m) = m_ram m.
Proof. done. Qed.

Lemma m_ram_set_vga_color c m : m_ram (set_vga_color c m) = m_ram m.
Proof. done. Qed.

Lemma m_ram_set_ram f m : m_ram (set_ram f m) = f (m_ram m).
Proof. done. Qed.

Lemma m_ram_mst32 a v m : m_ram (mst32 a v m) = st32 (m_ram m) a v.
Proof. done. Qed.

Lemma m_ram_mst8 a v m : m_ram (mst8 a v m) = st8 (m_ram m) a v.
Proof. done. Qed.

#[export] Hint Rewrite m_ram_do_io m_ram_outb m_ram_set_vga_mem m_ram_set_vga_col
  m_ram_set_vga_row m_ram_set_vga_color m_ram_set_ram m_ram_mst32 m_ram_mst8 : os.

(** ** Traces: what was executed between two states was port writes only *)

Definition is_outb (e : ioev) : bool := match e with Outb _ _ => true | _ => false end.

Definition io_outs (m m' : mach) : Prop :=
  exists tr, forallb is_outb tr = true /\ io m' = tr ++ io m.

#[export] Instance io_outs_preorder : PreOrder io_outs.
Proof.
  split; [intros m; by exists [] |]. intros m1 m2 m3 (t1 & F1 & E1) (t2 & F2 & E2).
  exists (t2 ++ t1). by rewrite forallb_app, F1, F2, E2, E1, app_assoc.
Qed.

Lemma io_outs_outb p v m : io_outs m (outb p v m).
Proof. by exists [Outb (u16 p) (u8 v)]. Qed.

(** The power-on machine used by concrete runs. *)
Definition mach0 : mach := Mach ∅ (replicate 2000 0) 0 0 0 [].
