(* ===== verification/Vga.v ===== *)
(** * Vga: the 80x25 text console (kernel/drivers/vga.h, vga.c) *)
From S2P Require Import Prelude Memory Machine.

Definition VGA_COLS := 80.
Definition VGA_ROWS := 25.
Definition VGA_CTRL_PORT := 0x3D4.
Definition VGA_DATA_PORT := 0x3D5.
Definition VGA_CURSOR_HI := 14.
Definition VGA_CURSOR_LO := 15.

(** The 16 palette entries; [vga_color_code] is the enumerator's value. *)
Inductive vga_color_t :=
| VGA_COLOR_BLACK | VGA_COLOR_BLUE | VGA_COLOR_GREEN | VGA_COLOR_CYAN
| VGA_COLOR_RED | VGA_COLOR_MAGENTA | VGA_COLOR_BROWN | VGA_COLOR_LIGHT_GREY
| VGA_COLOR_DARK_GREY | VGA_COLOR_LIGHT_BLUE | VGA_COLOR_LIGHT_GREEN | VGA_COLOR_LIGHT_CYAN
| VGA_COLOR_LIGHT_RED | VGA_COLOR_LIGHT_MAGENTA | VGA_COLOR_YELLOW | VGA_COLOR_WHITE.

Definition vga_color_code (c : vga_color_t) : Z :=
  match c with
  | VGA_COLOR_BLACK => 0 | VGA_COLOR_BLUE => 1 | VGA_COLOR_GREEN => 2
  | VGA_COLOR_CYAN => 3 | VGA_COLOR_RED => 4 | VGA_COLOR_MAGENTA => 5
  | VGA_COLOR_BROWN => 6 | VGA_COLOR_LIGHT_GREY => 7 | VGA_COLOR_DARK_GREY => 8
  | VGA_COLOR_LIGHT_BLUE => 9 | VGA_COLOR_LIGHT_GREEN => 10 | VGA_COLOR_LIGHT_CYAN => 11
  | VGA_COLOR_LIGHT_RED => 12 | VGA_COLOR_LIGHT_MAGENTA => 13 | VGA_COLOR_YELLOW => 14
  | VGA_COLOR_WHITE => 15
  end.

Definition vga_make_color (fg bg : vga_color_t) : Z :=
  u8 (Z.lor (vga_color_code fg) (Z.shiftl (vga_color_code bg) 4)).

Definition vga_entry (c color : Z) : Z :=
  u16 (Z.lor (u8 c) (Z.shiftl color 8)).

Definition vga_update_cursor (m : mach) : mach :=
  let pos := u16 (vga_row m * VGA_COLS + vga_col m) in
  let m := outb VGA_CTRL_PORT VGA_CURSOR_HI m in
  let m := outb VGA_DATA_PORT (Z.shiftr pos 8) m in
  let m := outb VGA_CTRL_PORT VGA_CURSOR_LO m in
  outb VGA_DATA_PORT (Z.land pos 0xFF) m.

(** [vga_buf[i] = x] *)
Definition vga_store (i x : Z) (m : mach) : mach := set_vga_mem (aset (vga_mem m) i x) m.

(** One row of the copy loop: row [row] is copied over row [row - 1]. *)
Definition scroll_row (row : Z) (m : mach) : mach :=
  for_ 0 VGA_COLS (fun col m =>
    vga_store ((row - 1) * VGA_COLS + col)
              (aget 0 (vga_mem m) (row * VGA_COLS + col)) m) m.

Definition blank (m : mach) : Z := vga_entry 32 (vga_color m).

(** Scroll the screen up by one row: move every row up, blank the last one. *)
Definition vga_scroll (m : mach) : mach :=
  let m := for_ 1 VGA_ROWS scroll_row m in
  let m :=
    for_ 0 VGA_COLS (fun col m =>
      vga_store ((VGA_ROWS - 1) * VGA_COLS + col) (blank m) m) m in
  set_vga_row (VGA_ROWS - 1) m.

Definition vga_set_color (color : Z) (m : mach) : mach := set_vga_color color m.

Definition vga_get_default_color : Z := vga_make_color VGA_COLOR_LIGHT_GREY VGA_COLOR_BLACK.

Definition vga_clear (m : mach) : mach :=
  let m :=
    for_ 0 (VGA_ROWS * VGA_COLS) (fun i m => vga_store i (blank m) m) m in
  vga_update_cursor (set_vga_col 0 (set_vga_row 0 m)).

Definition vga_init (m : mach) : mach :=
  vga_clear (set_vga_color (vga_make_color VGA_COLOR_LIGHT_GREY VGA_COLOR_BLACK) m).

(** The four control characters and the printable case of [vga_putchar], up to
    the scroll test; the counters are [uint8_t]. *)
Definition put_step (c : Z) (m : mach) : mach :=
  if c =? 10 then set_vga_row (u8 (vga_row m + 1)) (set_vga_col 0 m)
  else if c =? 13 then set_vga_col 0 m
  else if c =? 9 then
    let m := set_vga_col (u8 (Z.land (vga_col m + 8) (Z.lnot 7))) m in
    if VGA_COLS <=? vga_col m
    then set_vga_row (u8 (vga_row m + 1)) (set_vga_col 0 m) else m
  else if c =? 8 then
    if 0 <? vga_col m
    then let m := set_vga_col (u8 (vga_col m - 1)) m in
         vga_store (vga_row m * VGA_COLS + vga_col m) (vga_entry 32 (vga_color m)) m
    else m
  else
    let m := vga_store (vga_row m * VGA_COLS + vga_col m) (vga_entry c (vga_color m)) m in
    let m := set_vga_col (u8 (vga_col m + 1)) m in
    if VGA_COLS <=? vga_col m
    then set_vga_row (u8 (vga_row m + 1)) (set_vga_col 0 m) else m.

Definition vga_putchar (c : Z) (m : mach) : mach :=
  let m := put_step c m in
  let m := if VGA_ROWS <=? vga_row m then vga_scroll m else m in
  vga_update_cursor m.

(** [while ( *str ) vga_putchar( *str++ )], on the characters before the NUL. *)
Fixpoint vga_puts (str : list Z) (m : mach) : mach :=
  match str with
  | [] => m
  | c :: str' => if c =? 0 then m else vga_puts str' (vga_putchar c m)
  end.

(** ** Scrolling as a list operation *)

(** Invariant rule specialised to loops that only store into the buffer. *)
Lemma vga_store_fields i x m :
  m_ram (vga_store i x m) = m_ram m /\ vga_col (vga_store i x m) = vga_col m /\
  vga_row (vga_store i x m) = vga_row m /\ vga_color (vga_store i x m) = vga_color m /\
  io (vga_store i x m) = io m /\ alen (vga_mem (vga_store i x m)) = alen (vga_mem m).
Proof. repeat split. apply alen_aset. Qed.

(** Everything but the cells is as before. *)
Definition same_but_cells (m m' : mach) : Prop :=
  m_ram m' = m_ram m /\ vga_col m' = vga_col m /\ vga_row m' = vga_row m /\
  vga_color m' = vga_color m /\ io m' = io m /\ length (vga_mem m') = length (vga_mem m).

Lemma same_but_cells_refl m : same_but_cells m m.
Proof. repeat split. Qed.

Lemma same_but_cells_store i x m m' :
  same_but_cells m m' -> same_but_cells m (vga_store i x m').
Proof.
  unfold same_but_cells. intros (?&?&?&?&?&?). repeat split; try done.
  unfold vga_store. simpl. unfold aset. by rewrite length_insert.
Qed.

Lemma aget_store m i j x :
  0 <= i < alen (vga_mem m) -> 0 <= j ->
  aget 0 (vga_mem (vga_store i x m)) j = if i =? j then x else aget 0 (vga_mem m) j.
Proof.
  intros. unfold vga_store. simpl. zcase.
  - subst. by rewrite aget_aset_eq.
  - by rewrite aget_aset_ne by lia.
Qed.

Lemma scroll_row_spec row m :
  1 <= row < 25 -> alen (vga_mem m) = 2000 ->
  same_but_cells m (scroll_row row m) /\
  forall j, 0 <= j < 2000 ->
    aget 0 (vga_mem (scroll_row row m)) j =
    if ((row - 1) * 80 <=? j) && (j <? row * 80) then aget 0 (vga_mem m) (j + 80)
    else aget 0 (vga_mem m) j.
Proof.
  intros Hr Hl. unfold scroll_row, VGA_COLS.
  pose proof (for_ind (fun col t => same_but_cells m t /\ forall j, 0 <= j < 2000 ->
    aget 0 (vga_mem t) j = if ((row - 1) * 80 <=? j) && (j <? (row - 1) * 80 + col)
      then aget 0 (vga_mem m) (j + 80) else aget 0 (vga_mem m) j)) as Hind.
  specialize (Hind (fun col m => vga_store ((row - 1) * 80 + col)
              (aget 0 (vga_mem m) (row * 80 + col)) m) 0 80 m).
  destruct Hind as [Hs Hj].
  - split; [apply same_but_cells_refl |]. intros j Hj. zcase; [lia | done].
  - intros col t Hc [Hs Ht]. split; [by apply same_but_cells_store |].
    intros j Hj. assert (Hlt : alen (vga_mem t) = 2000).
    { unfold alen in *. destruct Hs as (?&?&?&?&?&->). done. }
    rewrite aget_store by lia. rewrite !Ht by lia.
    repeat (zcase; try lia); try done. f_equal. lia.
  - split; [done |]. intros j Hj'. rewrite Hj by done.
    replace ((row - 1) * 80 + Z.max 0 80) with (row * 80) by lia. done.
Qed.

Lemma scroll_rows_spec m :
  alen (vga_mem m) = 2000 ->
  let m' := for_ 1 25 scroll_row m in
  same_but_cells m m' /\
  forall j, 0 <= j < 2000 -> aget 0 (vga_mem m') j =
    if j <? 1920 then aget 0 (vga_mem m) (j + 80) else aget 0 (vga_mem m) j.
Proof.
  intros Hl. pose proof (for_ind (fun row t => same_but_cells m t /\
    forall j, 0 <= j < 2000 -> aget 0 (vga_mem t) j =
      if j <? (row - 1) * 80 then aget 0 (vga_mem m) (j + 80) else aget 0 (vga_mem m) j)
    scroll_row 1 25 m) as Hind.
  apply Hind; clear Hind.
  - split; [apply same_but_cells_refl |]. intros j Hj. zcase; [lia | done].
  - intros row t Hr [Hs Ht].
    assert (Hlt : alen (vga_mem t) = 2000).
    { unfold alen in *. destruct Hs as (?&?&?&?&?&->). done. }
    destruct (scroll_row_spec row t Hr Hlt) as [Hs' Ht'].
    split. { unfold same_but_cells in *. intuition congruence. }
    intros j Hj. rewrite Ht' by done.
    zcase; rewrite !Ht by lia; repeat (zcase; try lia); try done.
Qed.

(** A loop that stores the same value in [n] consecutive cells from [k]. *)
Lemma fill_spec k n e m :
  0 <= k -> 0 <= n -> k + n <= alen (vga_mem m) ->
  (forall t, same_but_cells m t -> e t = e m) ->
  let m' := for_ 0 n (fun i t => vga_store (k + i) (e t) t) m in
  same_but_cells m m' /\ forall j, 0 <= j -> aget 0 (vga_mem m') j =
    if (k <=? j) && (j <? k + n) then e m else aget 0 (vga_mem m) j.
Proof.
  intros Hk Hn Hhi He m'.
  pose proof (for_ind (fun i t => same_but_cells m t /\ forall j, 0 <= j ->
    aget 0 (vga_mem t) j = if (k <=? j) && (j <? k + i) then e m else aget 0 (vga_mem m) j)
    (fun i t => vga_store (k + i) (e t) t) 0 n m) as Hind.
  fold m' in Hind. rewrite Z.max_r in Hind by lia. apply Hind; clear Hind m'.
  - split; [apply same_but_cells_refl |]. intros j Hj. zcase; [lia | done].
  - intros i t Hi [Hs Ht]. split; [by apply same_but_cells_store |].
    intros j Hj. rewrite He by done. unfold same_but_cells, alen in *.
    rewrite aget_store by (unfold alen; lia). rewrite Ht by done.
    repeat (zcase; try lia); done.
Qed.

Lemma blank_same m t : same_but_cells m t -> blank t = blank m.
Proof. unfold blank. intros (?&?&?&->&_). done. Qed.

(** The two loops of [vga_scroll] are one shift of the screen by a row. *)
Lemma vga_scroll_spec m :
  length (vga_mem m) = 2000%nat ->
  vga_scroll m =
    set_vga_row 24 (set_vga_mem (drop 80 (vga_mem m) ++ replicate 80 (blank m)) m).
Proof.
  intros Hl. unfold vga_scroll.
  destruct (scroll_rows_spec m) as [Hs Hj]; [unfold alen; lia |].
  change VGA_ROWS with 25. set (m1 := for_ 1 25 scroll_row m) in *. clearbody m1.
  destruct (fill_spec ((25 - 1) * VGA_COLS) VGA_COLS blank m1) as [Hs2 Hj2];
    [unfold VGA_COLS; lia .. | destruct Hs as (_&_&_&_&_&E); unfold alen, VGA_COLS;
     rewrite E; lia | apply blank_same |].
  set (m2 := for_ 0 VGA_COLS _ m1) in *. clearbody m2. unfold VGA_COLS in Hj2.
  rewrite (blank_same m m1) in Hj2 by done.
  destruct Hs as (?&?&?&?&?&?), Hs2 as (?&?&?&?&?&?).
  assert (Hmem : vga_mem m2 = drop 80 (vga_mem m) ++ replicate 80 (blank m)).
  { apply aget_ext with 0.
    - rewrite length_app, length_drop, length_replicate. lia.
    - intros j Hr. unfold alen in Hr. rewrite Hj2 by lia. unfold aget at 2.
      zcase.
      + rewrite lookup_app_r by (rewrite length_drop; lia).
        rewrite length_drop, lookup_replicate_2 by lia. done.
      + rewrite Hj by lia. zcase; [| lia].
        rewrite lookup_app_l by (rewrite length_drop; lia).
        rewrite lookup_drop. unfold aget. do 2 f_equal. lia. }
  unfold set_vga_row, set_vga_mem. simpl. rewrite Hmem. f_equal; congruence.
Qed.

(** ** Well-formedness and the linear terminal *)

(** The buffer has 2000 cells, the cursor is on the screen, the attribute is a byte. *)
Definition vga_wf (m : mach) : Prop :=
  length (vga_mem m) = 2000%nat /\ 0 <= vga_col m < 80 /\ 0 <= vga_row m < 25 /\
  0 <= vga_color m < 256.

(** What the driver promises: a tape of 2000 cells with one linear cursor. *)
Record term := Term { cells : list Z; cursor : Z }.

Definition term_step (color c : Z) (t : term) : term :=
  let sp := vga_entry 32 color in
  if c =? 10 then Term (cells t) ((cursor t / 80 + 1) * 80)
  else if c =? 13 then Term (cells t) (cursor t / 80 * 80)
  else if c =? 9 then Term (cells t) ((cursor t / 8 + 1) * 8)
  else if c =? 8 then
    if cursor t mod 80 =? 0 then t
    else Term (aset (cells t) (cursor t - 1) sp) (cursor t - 1)
  else Term (aset (cells t) (cursor t) (vga_entry c color)) (cursor t + 1).

Definition term_put (color c : Z) (t : term) : term :=
  let t := term_step color c t in
  if 2000 <=? cursor t
  then Term (drop 80 (cells t) ++ replicate 80 (vga_entry 32 color)) (cursor t - 80)
  else t.

Definition term_of (m : mach) : term := Term (vga_mem m) (vga_row m * 80 + vga_col m).

(** The four port writes that program the hardware cursor. *)
Definition cursor_io (pos : Z) : list ioev :=
  [Outb 0x3D5 (pos mod 256); Outb 0x3D4 15; Outb 0x3D5 (pos / 256); Outb 0x3D4 14].

Lemma vga_update_cursor_spec m :
  0 <= vga_row m * 80 + vga_col m < 2000 ->
  vga_update_cursor m =
    Mach (m_ram m) (vga_mem m) (vga_col m) (vga_row m) (vga_color m)
         (cursor_io (vga_row m * 80 + vga_col m) ++ io m).
Proof.
  intros H. unfold vga_update_cursor, VGA_COLS. rewrite u16_small by lia.
  set (p := vga_row m * 80 + vga_col m) in *.
  unfold outb, do_io, cursor_io. simpl.
  rewrite Z.shiftr_div_pow2 by lia.
  replace (Z.land p 255) with (p mod 256) by (symmetry; apply (Z.land_ones p 8); lia).
  change (2 ^ 8) with 256. rewrite (u8_small (p / 256)), (u8_small (p mod 256)) by lia.
  done.
Qed.

Lemma tab_stop col : 0 <= col -> Z.land (col + 8) (Z.lnot 7) = (col / 8 + 1) * 8.
Proof.
  intros H. change 7 with (Z.ones 3). rewrite <- Z.ldiff_land.
  rewrite Z.ldiff_ones_r by lia. rewrite Z.shiftr_div_pow2, Z.shiftl_mul_pow2 by lia.
  change (2 ^ 3) with 8. lia.
Qed.

(** The step moves the linear cursor as the tape does, possibly one row past the screen. *)
Lemma put_step_spec c m :
  vga_wf m ->
  let m' := put_step c m in
  term_of m' = term_step (vga_color m) c (term_of m) /\
  length (vga_mem m') = 2000%nat /\ 0 <= vga_col m' < 80 /\ 0 <= vga_row m' <= 25 /\
  (vga_row m' = 25 -> vga_col m' = 0) /\
  vga_color m' = vga_color m /\ m_ram m' = m_ram m /\ io m' = io m.
Proof.
  intros (Hl & Hc & Hr & Hk). unfold put_step, term_step, term_of, VGA_COLS. simpl.
  destruct m as [rm vm col row color tr]; simpl in *.
  rewrite tab_stop by lia.
  repeat (zcase; simpl; rewrite ?u8_small in * by lia; try lia);
    repeat split; simpl; unfold aset; rewrite ?length_insert; try lia; try done;
    f_equal; try lia; f_equal; lia.
Qed.

Lemma vga_putchar_unfold c m :
  vga_putchar c m =
    let m := put_step c m in
    vga_update_cursor (if VGA_ROWS <=? vga_row m then vga_scroll m else m).
Proof. done. Qed.

#[local] Arguments replicate : simpl never.
#[local] Arguments drop : simpl never.

(** The whole of [vga_putchar]: the tape step, the frame, the hardware cursor. *)
Lemma vga_putchar_spec c m :
  vga_wf m ->
  let m' := vga_putchar c m in
  term_of m' = term_put (vga_color m) c (term_of m) /\ vga_wf m' /\
  vga_color m' = vga_color m /\ m_ram m' = m_ram m /\
  io m' = cursor_io (cursor (term_of m')) ++ io m.
Proof.
  intros Hwf. pose proof (put_step_spec c m Hwf) as (Ht & Hl & Hc & Hr & Hr0 & Hk & Hm & Hi).
  destruct Hwf as (_ & _ & _ & Hcol). rewrite vga_putchar_unfold. cbv zeta.
  unfold term_put. rewrite <- Ht. clear Ht. set (p := put_step c m) in *. clearbody p.
  unfold VGA_ROWS. simpl cursor at 1. destruct (Z.leb_spec 25 (vga_row p)) as [H25|H25].
  - assert (Hrow : vga_row p = 25) by lia. specialize (Hr0 Hrow).
    rewrite vga_scroll_spec by done. rewrite vga_update_cursor_spec by (simpl; lia).
    simpl. zcase; [| lia]. unfold vga_wf, term_of, blank. simpl.
    rewrite Hk, Hi, length_app, length_drop, length_replicate, Hrow, Hr0.
    repeat split; try done; lia.
  - rewrite vga_update_cursor_spec by lia. simpl. zcase; [lia |].
    unfold vga_wf, term_of. simpl. rewrite Hk, Hi. repeat split; try done; lia.
Qed.

(** No console operation touches RAM, whatever the state of the driver. *)
Lemma m_ram_for {A B} (body : Z -> A -> A) (f : A -> B) lo hi s :
  (forall i t, f (body i t) = f t) -> f (for_ lo hi body s) = f s.
Proof.
  intros H. apply (for_ind (fun _ t => f t = f s)); [done |].
  intros i t _ IH. by rewrite H.
Qed.

Lemma m_ram_vga_store i x m : m_ram (vga_store i x m) = m_ram m.
Proof. done. Qed.

Lemma m_ram_vga_update_cursor m : m_ram (vga_update_cursor m) = m_ram m.
Proof. done. Qed.

#[export] Hint Rewrite m_ram_vga_store m_ram_vga_update_cursor : os.

Lemma m_ram_vga_scroll m : m_ram (vga_scroll m) = m_ram m.
Proof.
  unfold vga_scroll. rewrite m_ram_set_vga_row, (m_ram_for _ m_ram) by (intros; apply m_ram_vga_store).
  apply (m_ram_for _ m_ram). intros i t. apply (m_ram_for _ m_ram). intros. apply m_ram_vga_store.
Qed.

Lemma m_ram_vga_clear m : m_ram (vga_clear m) = m_ram m.
Proof.
  unfold vga_clear. autorewrite with os.
  apply (m_ram_for _ m_ram). intros. apply m_ram_vga_store.
Qed.

Lemma m_ram_put_step c m : m_ram (put_step c m) = m_ram m.
Proof. unfold put_step. repeat (zcase; autorewrite with os); done. Qed.

Lemma m_ram_vga_putchar c m : m_ram (vga_putchar c m) = m_ram m.
Proof.
  rewrite vga_putchar_unfold. cbv zeta. rewrite m_ram_vga_update_cursor.
  zcase; [rewrite m_ram_vga_scroll |]; apply m_ram_put_step.
Qed.

(** The trace of the driver: port writes only. *)
Lemma io_vga_scroll m : io (vga_scroll m) = io m.
Proof.
  unfold vga_scroll. transitivity (io (for_ 1 VGA_ROWS scroll_row m)).
  - apply (m_ram_for _ io). done.
  - apply (m_ram_for _ io). intros i t. apply (m_ram_for _ io). done.
Qed.

Lemma io_put_step c m : io (put_step c m) = io m.
Proof. unfold put_step. repeat zcase; done. Qed.

Lemma io_outs_update_cursor m : io_outs m (vga_update_cursor m).
Proof. unfold vga_update_cursor. cbv zeta. do 4 (etransitivity; [| apply io_outs_outb]). reflexivity. Qed.

Lemma io_outs_vga_putchar c m : io_outs m (vga_putchar c m).
Proof.
  rewrite vga_putchar_unfold. cbv zeta. etransitivity; [| apply io_outs_update_cursor].
  exists []. split; [done |]. zcase; rewrite ?io_vga_scroll; apply io_put_step.
Qed.

Lemma m_ram_vga_puts s m : m_ram (vga_puts s m) = m_ram m.
Proof.
  revert m. induction s as [|c s IH]; intros m; simpl; [done |].
  zcase; [done |]. by rewrite IH, m_ram_vga_putchar.
Qed.

#[export] Hint Rewrite m_ram_vga_clear m_ram_vga_putchar m_ram_vga_puts : os.
#[global] Opaque vga_putchar.

(** [vga_init] and [vga_clear] establish the invariant on a 2000-cell buffer. *)
Lemma vga_clear_spec m :
  length (vga_mem m) = 2000%nat -> 0 <= vga_color m < 256 ->
  vga_wf (vga_clear m) /\ cursor (term_of (vga_clear m)) = 0 /\
  cells (term_of (vga_clear m)) = replicate 2000 (blank m).
Proof.
  intros Hl Hc. unfold vga_clear.
  destruct (fill_spec 0 (VGA_ROWS * VGA_COLS) blank m) as [Hs Hj];
    [lia | done | unfold alen, VGA_ROWS, VGA_COLS; lia | apply blank_same |].
  change (fun i t => vga_store (0 + i) (blank t) t)
    with (fun i t => vga_store i (blank t) t) in Hs, Hj.
  set (m1 := for_ 0 _ _ m) in *. clearbody m1. destruct Hs as (?&?&?&?&?&?).
  rewrite vga_update_cursor_spec by (simpl; lia). unfold vga_wf, term_of. simpl.
  repeat split; try congruence; try lia.
  apply aget_ext with 0; [rewrite length_replicate; congruence |].
  intros j Hr. unfold alen in Hr. rewrite Hj by lia. unfold VGA_ROWS, VGA_COLS.
  zcase; [| lia]. rewrite aget_replicate; [done | lia].
Qed.

(** C35. [vga_putchar] refines a linear terminal: printable characters, newline,
    carriage return, tab and backspace move a single cursor over 2000 cells
    exactly as [term_put] says, scrolling when the tape is exhausted; the
    cursor stays on the screen, RAM is untouched, and the port writes program
    the hardware cursor with the same linear position.  Backspace moves the
    cursor back within its line and erases the cell it reaches, as vga.c
    does; the table in docs/drivers.md says "no erase". *)
Theorem vga_putchar_refines_terminal (m : mach) (c : Z) :
  vga_wf m ->
  let m' := vga_putchar c m in
  term_of m' = term_put (vga_color m) c (term_of m) /\ vga_wf m' /\
  m_ram m' = m_ram m /\ 0 <= cursor (term_of m') < 2000 /\
  exists hi lo, io m' = Outb 0x3D5 lo :: Outb 0x3D4 15 :: Outb 0x3D5 hi :: Outb 0x3D4 14 :: io m /\
    hi * 256 + lo = cursor (term_of m').
Proof.
  intros Hwf. destruct (vga_putchar_spec c m Hwf) as (Ht & Hw & _ & Hm & Hio).
  cbv zeta. split_and!; try done.
  - destruct Hw as (_ & ? & ? & _). simpl. lia.
  - destruct Hw as (_ & ? & ? & _). simpl. lia.
  - do 2 eexists. split; [exact Hio |]. lia.
Qed.

(** A newline on the last row of a cleared screen scrolls. *)
Lemma vga_putchar_refines_terminal_witness :
  let m := set_vga_row 24 (vga_init mach0) in
  vga_wf m /\ term_of (vga_putchar 10 m) = term_put (vga_color m) 10 (term_of m).
Proof.
  assert (H : vga_wf (set_vga_row 24 (vga_init mach0))) by (vm_compute; repeat split; congruence).
  split; [exact H |]. exact (proj1 (vga_putchar_refines_terminal _ 10 H)).
Defined.
