(* ===== verification/Console.v ===== *)
(** * Console: formatted output (kernel/kernel.c, print_uint .. kprintf) *)
From stdpp Require Import strings.
From S2P Require Import Prelude Memory Machine Vga.

(** ** String literals *)

(** The bytes of a C string literal (without its NUL). *)
Fixpoint lit (s : string) : list Z :=
  match s with
  | EmptyString => []
  | String c s' => Z.of_N (Ascii.N_of_ascii c) :: lit s'
  end.

Definition nl : list Z := [10].

(** ** print_uint, print_int *)

(** [digits[d]] of the table "0123456789abcdef". *)
Definition digit_char (d : Z) : Z := if d <? 10 then 48 + d else 97 + (d - 10).

(** The loop [while (n > 0) { buf[i++] = digits[n % base]; n /= base; }]: the
    stored digits, least significant first.  [room] is what is left of
    [char buf[32]]; [None] is a store past its end. *)
Fixpoint digits_loop (room : nat) (n base : Z) : option (list Z) :=
  if n =? 0 then Some []
  else match room with
       | O => None
       | S room' => ds ← digits_loop room' (n / base) base; Some (digit_char (n mod base) :: ds)
       end.

(** [while (i-- > 0) vga_putchar(buf[i])] after the loop above: the digits are
    emitted from the last stored to the first. *)
Definition uint_chars (n base : Z) : option (list Z) :=
  if n =? 0 then Some [48] else (@rev Z) <$> digits_loop 32 n base.

Definition put_all (cs : list Z) (m : mach) : mach := fold_left (fun m c => vga_putchar c m) cs m.

Definition print_uint (n base : Z) (m : mach) : option mach :=
  cs ← uint_chars n base; Some (put_all cs m).

(** [n] is an [int32_t]; the magnitude is computed as [(uint32_t)(-(n + 1)) + 1]. *)
Definition print_int (n : Z) (m : mach) : option mach :=
  if n <? 0 then print_uint (u32 (u32 (- (n + 1)) + 1)) 10 (vga_putchar 45 m)
  else print_uint (u32 n) 10 m.

(** ** kprintf *)

(** One variadic argument: a pointer to characters ([None] is NULL) or a
    32-bit word. *)
Inductive arg :=
| AStr (s : option (list Z))
| AInt (w : Z).

(** The loop over the format string.  [None] is undefined behaviour: a
    specifier at the very end of the format makes the loop step over the NUL
    and read on, and a missing or ill-typed argument reads a foreign stack
    slot. *)
Fixpoint kprintf (fmt : list Z) (ap : list arg) (m : mach) {struct fmt} : option mach :=
  match fmt with
  | [] => Some m
  | c :: fmt' =>
      if negb (c =? 37) then kprintf fmt' ap (vga_putchar c m)
      else
        match fmt' with
        | [] => None
        | k :: fmt'' =>
            if k =? 115 (* s *) then
              match ap with
              | AStr s :: ap' =>
                  kprintf fmt'' ap' (vga_puts (default (lit "(null)") s) m)
              | _ => None
              end
            else if k =? 100 (* d *) then
              match ap with
              | AInt n :: ap' => m ← print_int (s32 n) m; kprintf fmt'' ap' m
              | _ => None
              end
            else if k =? 117 (* u *) then
              match ap with
              | AInt n :: ap' => m ← print_uint (u32 n) 10 m; kprintf fmt'' ap' m
              | _ => None
              end
            else if (k =? 120) || (k =? 88) (* x X *) then
              match ap with
              | AInt n :: ap' => m ← print_uint (u32 n) 16 m; kprintf fmt'' ap' m
              | _ => None
              end
            else if k =? 99 (* c *) then
              match ap with
              | AInt n :: ap' => kprintf fmt'' ap' (vga_putchar (u8 n) m)
              | _ => None
              end
            else if k =? 112 (* p *) then
              match ap with
              | AInt n :: ap' =>
                  m ← print_uint (u32 n) 16 (vga_puts (lit "0x") m); kprintf fmt'' ap' m
              | _ => None
              end
            else if k =? 37 then kprintf fmt'' ap (vga_putchar 37 m)
            else kprintf fmt'' ap (vga_putchar k (vga_putchar 37 m))
        end
  end.

(** A call site: the machine after the call.  The formats of the kernel are
    well formed ([kprintf_defined]), so the default is never taken. *)
Definition klog (fmt : list Z) (ap : list arg) (m : mach) : mach := default m (kprintf fmt ap m).

(** [debug_print]: one port write to 0xE9 per character. *)
Fixpoint debug_print (str : list Z) (m : mach) : mach :=
  match str with
  | [] => m
  | c :: str' => if c =? 0 then m else debug_print str' (outb 0xE9 c m)
  end.

(** [khalt]: interrupts off, then [hlt] forever; the caller never resumes. *)
Definition khalt {A} (m : mach) : outcome A := Halted (do_io CliHlt m).

(** ** Digits are the number *)

Definition digit_val (c : Z) : Z := if c <? 97 then c - 48 else c - 97 + 10.

(** Reads a numeral, most significant digit first. *)
Definition parse_uint (base : Z) (cs : list Z) : Z :=
  fold_left (fun n c => n * base + digit_val c) cs 0.

Lemma digit_val_char d : 0 <= d < 16 -> digit_val (digit_char d) = d.
Proof. intros. unfold digit_val, digit_char. repeat (zcase; try lia). Qed.

Lemma digits_loop_total room n base :
  2 <= base -> 0 <= n < base ^ Z.of_nat room -> exists ds, digits_loop room n base = Some ds.
Proof.
  intros Hb. revert n. induction room as [|room IH]; intros n Hn.
  - simpl in *. assert (n = 0) by lia. subst. by eexists.
  - rewrite Nat2Z.inj_succ, Z.pow_succ_r in Hn by lia. simpl. zcase; [by eexists |].
    destruct (IH (n / base)) as [ds ->]; [| by eexists].
    split; [apply Z.div_pos; lia | apply Z.div_lt_upper_bound; lia].
Qed.

Lemma digits_loop_sound room n base ds :
  2 <= base <= 16 -> 0 <= n -> digits_loop room n base = Some ds ->
  fold_right (fun c acc => digit_val c + base * acc) 0 ds = n /\ (length ds <= room)%nat /\
  (0 < n -> ds <> []).
Proof.
  intros Hb. revert n ds. induction room as [|room IH]; intros n ds Hn; simpl.
  - zcase; intros; simplify_eq/=. split_and!; [lia | lia | intros ??; lia].
  - zcase; intros; simplify_eq/=; [split_and!; [lia | lia | intros ??; lia] |].
    destruct (digits_loop room (n / base) base) eqn:E'; simplify_eq/=.
    destruct (IH (n / base) l) as (IH1 & IH2 & _); [apply Z.div_pos; lia | done |].
    rewrite IH1, digit_val_char by (pose proof (Z.mod_pos_bound n base); lia).
    pose proof (Z.div_mod n base). split_and!; [lia | lia | done].
Qed.

Lemma digits_loop_chars room n base ds :
  2 <= base <= 16 -> 0 <= n -> digits_loop room n base = Some ds -> Forall (fun c => 48 <= c) ds.
Proof.
  intros Hb. revert n ds. induction room as [|room IH]; intros n ds Hn; simpl; zcase;
    intros; simplify_eq/=; try (by constructor).
  destruct (digits_loop room (n / base) base) eqn:E'; simplify_eq/=. constructor.
  - unfold digit_char. pose proof (Z.mod_pos_bound n base). zcase; lia.
  - eapply IH; [| done]. apply Z.div_pos; lia.
Qed.

Lemma parse_uint_rev base ds :
  parse_uint base (rev ds) = fold_right (fun c acc => digit_val c + base * acc) 0 ds.
Proof.
  unfold parse_uint. rewrite <- fold_left_rev_right, rev_involutive.
  induction ds as [|d ds IH]; simpl; lia.
Qed.

(** The text printed for [n] in any base from 2 to 16. *)
Lemma uint_chars_spec n base :
  2 <= base <= 16 -> 0 <= n < W32 ->
  exists cs, uint_chars n base = Some cs /\ parse_uint base cs = n /\
             (1 <= length cs <= 32)%nat /\ Forall (fun c => 48 <= c) cs.
Proof.
  intros Hb Hn. unfold uint_chars. zcase.
  { exists [48]. subst. split_and!; simpl; try done; try lia. by repeat constructor. }
  destruct (digits_loop_total 32 n base) as [ds Hds]; [lia | |].
  { split; [lia |]. apply Z.lt_le_trans with (2 ^ 32); [lia |]. apply Z.pow_le_mono_l. lia. }
  rewrite Hds. simpl. exists (rev ds). rewrite parse_uint_rev, length_rev.
  destruct (digits_loop_sound 32 n base ds) as (H1 & H2 & H3); [lia | lia | done |].
  pose proof (digits_loop_chars 32 n base ds ltac:(lia) ltac:(lia) Hds) as H4.
  split_and!; [done | done | | done | by apply Forall_rev].
  destruct ds; [by destruct H3; [lia |] | simpl; lia].
Qed.

Lemma put_all_app cs cs' m : put_all (cs ++ cs') m = put_all cs' (put_all cs m).
Proof. apply fold_left_app. Qed.

Lemma print_uint_eq n base m cs : uint_chars n base = Some cs -> print_uint n base m = Some (put_all cs m).
Proof. unfold print_uint. by intros ->. Qed.

Lemma m_ram_put_all cs m : m_ram (put_all cs m) = m_ram m.
Proof.
  revert m. induction cs as [|c cs IH]; intros m; simpl; [done |].
  unfold put_all in IH. by rewrite IH, m_ram_vga_putchar.
Qed.

#[export] Hint Rewrite m_ram_put_all : os.

(** ** Numerals *)

(** The reference: the positional expansion of [n] to [places] digits, most
    significant first, the digit of place [p] being [n / base ^ p mod base]. *)
Fixpoint expand (places : nat) (base n : Z) : list Z :=
  match places with
  | O => []
  | S p => aget 0 (lit "0123456789abcdef") (n / base ^ Z.of_nat p mod base) :: expand p base n
  end.

Fixpoint strip_zeros (cs : list Z) : list Z :=
  match cs with [] => [] | c :: cs' => if c =? 48 then strip_zeros cs' else cs end.

(** The numeral of a number below [2 ^ 32]: without leading zeros, ["0"] for 0. *)
Definition numeral (base n : Z) : list Z :=
  match strip_zeros (expand 32 base n) with [] => [48] | cs => cs end.

Lemma digit_char_table d : 0 <= d < 16 -> digit_char d = aget 0 (lit "0123456789abcdef") d.
Proof.
  intros Hd. assert (E : forallb (fun i => digit_char (Z.of_nat i) =? aget 0 (lit "0123456789abcdef") (Z.of_nat i)) (seq 0 16) = true)
    by (vm_compute; reflexivity).
  rewrite forallb_forall in E. specialize (E (Z.to_nat d)). rewrite Z2Nat.id, Z.eqb_eq in E by lia. apply E. apply in_seq. lia.
Qed.

Lemma expand_snoc places base n :
  2 <= base <= 16 -> 0 <= n -> expand (S places) base n = expand places base (n / base) ++ [digit_char (n mod base)].
Proof.
  intros Hb Hn. induction places as [|p IH].
  - cbn [expand app]. rewrite Z.pow_0_r, Z.div_1_r, digit_char_table by lia. done.
  - remember (S p) as q eqn:Eq. cbn [expand]. rewrite IH. subst q. cbn [expand app]. do 2 f_equal.
    rewrite Z.div_div by lia. do 2 f_equal. rewrite <- Z.pow_succ_r by lia. f_equal. lia.
Qed.

Lemma rev_nil_inv (l : list Z) : rev l = [] -> l = [].
Proof. intros H. apply (f_equal (@rev Z)) in H. by rewrite rev_involutive in H. Qed.

Lemma strip_zeros_snoc l c :
  strip_zeros (l ++ [c]) = match strip_zeros l with [] => strip_zeros [c] | cs => cs ++ [c] end.
Proof.
  induction l as [|x l IH]; [done |]. cbn [app strip_zeros]. destruct (x =? 48); [exact IH | done].
Qed.

Lemma digit_char_zero d : 0 <= d < 16 -> (digit_char d =? 48) = (d =? 0).
Proof. intros. unfold digit_char. repeat (zcase; try lia). Qed.

(** The digit loop stores the places from the lowest up. *)
Lemma digits_loop_expand room n base ds :
  2 <= base <= 16 -> 0 <= n -> digits_loop room n base = Some ds -> rev ds = strip_zeros (expand room base n).
Proof.
  intros Hb. revert n ds. induction room as [|room IH]; intros n ds Hn; [cbn [digits_loop]; by destruct (n =? 0); intros [= <-] |].
  rewrite expand_snoc, strip_zeros_snoc by done. cbn [digits_loop].
  assert (Hz : strip_zeros (expand room base 0) = []).
  { specialize (IH 0 [] ltac:(lia)). destruct room; symmetry; by apply IH. }
  destruct (Z.eqb_spec n 0) as [->|Hne].
  { intros [= <-]. rewrite Z.div_0_l, Hz, Zmod_0_l by lia. done. }
  pose proof (Z.mod_pos_bound n base ltac:(lia)) as Hm. pose proof (Z.div_pos n base Hn ltac:(lia)) as Hd.
  destruct (digits_loop room (n / base) base) as [ds'|] eqn:E; [| done]. intros [= <-]. cbn [rev].
  destruct (Z.eq_dec (n / base) 0) as [E0|E0].
  - rewrite E0 in *. rewrite Hz. specialize (IH 0 ds' ltac:(lia) E). rewrite Hz in IH. rewrite IH. cbn [app strip_zeros].
    rewrite digit_char_zero by lia. replace (n mod base =? 0) with false by (pose proof (Z.div_mod n base ltac:(lia)); lia). done.
  - rewrite <- (IH (n / base) ds' Hd E). destruct (rev ds') eqn:Er; [| done].
    destruct (digits_loop_sound room (n / base) base ds' Hb Hd E) as (_ & _ & H). destruct H; [lia | by apply rev_nil_inv].
Qed.

Lemma uint_chars_numeral n base : 2 <= base <= 16 -> 0 <= n < W32 -> uint_chars n base = Some (numeral base n).
Proof.
  intros Hb Hn. destruct (uint_chars_spec n base Hb Hn) as (cs & Hcs & _). rewrite Hcs. unfold uint_chars, numeral in *.
  destruct (Z.eqb_spec n 0) as [->|Hne].
  - injection Hcs as <-. by rewrite <- (digits_loop_expand 32 0 base []) by done.
  - destruct (digits_loop 32 n base) as [ds|] eqn:E; [| done]. injection Hcs as <-.
    rewrite <- (digits_loop_expand 32 n base ds) by (done || lia). destruct (rev ds) eqn:Er; [| done].
    destruct (digits_loop_sound 32 n base ds Hb ltac:(lia) E) as (_ & _ & H). destruct H; [lia |]. by apply rev_nil_inv.
Qed.

(** The numeral is one of the number. *)
Lemma numeral_value n base : 2 <= base <= 16 -> 0 <= n < W32 -> parse_uint base (numeral base n) = n.
Proof.
  intros Hb Hn. destruct (uint_chars_spec n base Hb Hn) as (cs & Hcs & Hp & _). rewrite uint_chars_numeral in Hcs by done. by injection Hcs as ->.
Qed.

(** ** What kprintf writes *)

(** The characters of a C string: everything before the first NUL. *)
Fixpoint cstr (s : list Z) : list Z :=
  match s with
  | [] => []
  | c :: s' => if c =? 0 then [] else c :: cstr s'
  end.

Definition int_chars (n : Z) : option (list Z) :=
  if n <? 0 then (cons 45) <$> uint_chars (- n) 10 else uint_chars n 10.

(** The text of one conversion [%k] and the arguments it leaves. *)
Definition conv (k : Z) (ap : list arg) : option (list Z * list arg) :=
  let word (f : Z -> option (list Z)) :=
    match ap with AInt n :: ap' => cs ← f n; Some (cs, ap') | _ => None end in
  if k =? 115 then
    match ap with AStr s :: ap' => Some (cstr (default (lit "(null)") s), ap') | _ => None end
  else if k =? 100 then word (fun n => int_chars (s32 n))
  else if k =? 117 then word (fun n => uint_chars (u32 n) 10)
  else if (k =? 120) || (k =? 88) then word (fun n => uint_chars (u32 n) 16)
  else if k =? 99 then word (fun n => Some [u8 n])
  else if k =? 112 then word (fun n => cs ← uint_chars (u32 n) 16; Some (lit "0x" ++ cs))
  else if k =? 37 then Some ([37], ap)
  else Some ([37; k], ap).

(** Reference: the whole text of a formatted message. *)
Fixpoint kformat (fmt : list Z) (ap : list arg) : option (list Z) :=
  match fmt with
  | [] => Some []
  | c :: fmt' =>
      if negb (c =? 37) then cs ← kformat fmt' ap; Some (c :: cs)
      else
        match fmt' with
        | [] => None
        | k :: fmt'' => '(t, ap') ← conv k ap; cs ← kformat fmt'' ap'; Some (t ++ cs)
        end
  end.

Lemma vga_puts_put_all s m : vga_puts s m = put_all (cstr s) m.
Proof.
  revert m. induction s as [|c s IH]; intros m; simpl; [done |].
  zcase; [done |]. by rewrite IH.
Qed.

Lemma print_int_eq n m :
  is_s32 n -> print_int n m = (fun cs => put_all cs m) <$> int_chars n.
Proof.
  unfold is_s32, print_int, int_chars, print_uint. intros Hn. zcase.
  - rewrite (u32_small (- (n + 1))) by lia. rewrite u32_small by lia.
    replace (- (n + 1) + 1) with (- n) by lia. by destruct (uint_chars (- n) 10).
  - rewrite u32_small by lia. by destruct (uint_chars n 10).
Qed.

(** Strong induction on the format: the loop consumes one or two characters. *)
Lemma fmt_ind (P : list Z -> Prop) :
  P [] -> (forall c, P [c]) ->
  (forall c k f, P (k :: f) -> P f -> P (c :: k :: f)) -> forall f, P f.
Proof.
  intros H0 H1 H2. assert (H : forall f, P f /\ forall c, P (c :: f)).
  { induction f as [|k f [IH IH']]; [by split |]. split; [apply IH' |]. intros c. by apply H2. }
  intros f. apply H.
Qed.

Lemma kprintf_plain c f ap m :
  (c =? 37) = false -> kprintf (c :: f) ap m = kprintf f ap (vga_putchar c m).
Proof. simpl. by intros ->. Qed.

Lemma kformat_plain c f ap :
  (c =? 37) = false -> kformat (c :: f) ap = (cs ← kformat f ap; Some (c :: cs)).
Proof. simpl. by intros ->. Qed.

Lemma kprintf_kformat fmt ap m :
  kprintf fmt ap m = (fun cs => put_all cs m) <$> kformat fmt ap.
Proof.
  revert ap m. induction fmt as [|c|c k f IH1 IH2] using fmt_ind; intros ap m.
  - done.
  - simpl. destruct (c =? 37); done.
  - destruct (c =? 37) eqn:E.
    2: { rewrite kprintf_plain, kformat_plain, IH1 by done. by destruct (kformat (k :: f) ap). }
    cbn [kprintf kformat]. rewrite E. cbn [negb]. unfold conv, print_uint. clear E IH1.
    repeat (zcase; [lazymatch goal with
                    | |- match ap with _ => _ end = _ => destruct ap as [|[s|n] ap]; try done
                    | _ => idtac
                    end; rewrite ?IH2, ?vga_puts_put_all |]).
    + simpl. destruct (kformat f ap); [| done]. simpl. by rewrite put_all_app.
    + rewrite print_int_eq by apply s32_range. destruct (int_chars (s32 n)); [| done]. simpl.
      rewrite IH2. destruct (kformat f ap); [| done]. simpl. by rewrite put_all_app.
    + destruct (uint_chars (u32 n) 10); [| done]. simpl. rewrite IH2.
      destruct (kformat f ap); [| done]. simpl. by rewrite put_all_app.
    + destruct (uint_chars (u32 n) 16); [| done]. simpl. rewrite IH2.
      destruct (kformat f ap); [| done]. simpl. by rewrite put_all_app.
    + simpl. by destruct (kformat f ap).
    + destruct (uint_chars (u32 n) 16); [| done]. simpl. rewrite IH2.
      destruct (kformat f ap); [| done]. simpl. by rewrite put_all_app.
    + simpl. by destruct (kformat f ap).
    + rewrite IH2. simpl. by destruct (kformat f ap).
Qed.

(** ** Definedness of a call site *)

(** The conversions of [fmt] have arguments of the right kind in [ap] and no
    ['%'] is the last character. *)
Fixpoint fmt_ok (fmt : list Z) (ap : list arg) : bool :=
  match fmt with
  | [] => true
  | c :: fmt' =>
      if negb (c =? 37) then fmt_ok fmt' ap
      else
        match fmt' with
        | [] => false
        | k :: fmt'' =>
            if k =? 115 then match ap with AStr _ :: ap' => fmt_ok fmt'' ap' | _ => false end
            else if existsb (Z.eqb k) [100; 117; 120; 88; 99; 112] then
              match ap with AInt _ :: ap' => fmt_ok fmt'' ap' | _ => false end
            else fmt_ok fmt'' ap
        end
  end.

Lemma int_chars_spec n :
  is_s32 n -> exists cs, int_chars n = Some cs /\ (length cs <= 33)%nat /\
    (if n <? 0 then exists ds, cs = 45 :: ds /\ - parse_uint 10 ds = n else parse_uint 10 cs = n /\ Forall (fun c => 48 <= c) cs).
Proof.
  unfold is_s32, int_chars. intros Hn. zcase.
  - destruct (uint_chars_spec (- n) 10) as (cs & -> & Hp & Hl & _); [lia | lia |].
    exists (45 :: cs). simpl. split_and!; [done | lia |]. exists cs. split; [done | lia].
  - destruct (uint_chars_spec n 10) as (cs & -> & Hp & Hl & Hf); [lia | lia |].
    exists cs. split_and!; [done | lia | done | done].
Qed.

Lemma conv_ok k ap :
  fmt_ok [37; k] ap = true ->
  exists t, conv k ap = Some (t, if (k =? 115) || existsb (Z.eqb k) [100; 117; 120; 88; 99; 112]
                                 then tail ap else ap).
Proof.
  unfold fmt_ok, conv. cbn [negb Z.eqb Pos.eqb existsb].
  pose proof (fun n => uint_chars_spec (u32 n) 10 ltac:(lia) (u32_range n)) as H10.
  pose proof (fun n => uint_chars_spec (u32 n) 16 ltac:(lia) (u32_range n)) as H16.
  pose proof (fun n => int_chars_spec (s32 n) (s32_range n)) as Hi.
  destruct (k =? 115), (k =? 100), (k =? 117), (k =? 120), (k =? 88), (k =? 99), (k =? 112);
    cbn [orb]; destruct ap as [|[s|n] ap]; intros H; try done;
    try (eexists; reflexivity); try (zcase; eexists; reflexivity);
    destruct (H10 n) as (? & E10 & _), (H16 n) as (? & E16 & _), (Hi n) as (? & Ei & _);
    rewrite ?E10, ?E16, ?Ei; eexists; reflexivity.
Qed.

Lemma kformat_ok fmt ap : fmt_ok fmt ap = true -> exists cs, kformat fmt ap = Some cs.
Proof.
  revert ap. induction fmt as [|c|c k f IH1 IH2] using fmt_ind; intros ap.
  - by eexists.
  - simpl. destruct (c =? 37); [done |]. by eexists.
  - destruct (c =? 37) eqn:E; cbn [fmt_ok]; rewrite E; cbn [negb]; intros H.
    + destruct (conv_ok k ap) as [t Ht].
      { cbn [fmt_ok]. rewrite Z.eqb_refl. cbn [negb].
        repeat (zcase; [destruct ap as [|[]]; done |]). done. }
      cbn [kformat]. rewrite E. cbn [negb]. rewrite Ht. cbn [mbind option_bind].
      destruct (k =? 115); [| destruct (existsb _ _)]; cbn [orb].
      * destruct ap as [|[] ap]; try done. cbn [tail]. destruct (IH2 ap H) as [cs ->]. by eexists.
      * destruct ap as [|[] ap]; try done. cbn [tail]. destruct (IH2 ap H) as [cs ->]. by eexists.
      * destruct (IH2 ap H) as [cs ->]. by eexists.
    + rewrite kformat_plain by done. destruct (IH1 ap H) as [cs ->]. by eexists.
Qed.

Lemma m_ram_kprintf fmt ap m m' : kprintf fmt ap m = Some m' -> m_ram m' = m_ram m.
Proof.
  rewrite kprintf_kformat. destruct (kformat fmt ap); [| done].
  intros [= <-]. apply m_ram_put_all.
Qed.

Lemma m_ram_klog fmt ap m : m_ram (klog fmt ap m) = m_ram m.
Proof.
  unfold klog. destruct (kprintf fmt ap m) eqn:E; simpl; [| done]. by eapply m_ram_kprintf.
Qed.

Lemma io_outs_put_all cs m : io_outs m (put_all cs m).
Proof.
  revert m. induction cs as [|c cs IH]; intros m; simpl; [reflexivity |].
  transitivity (vga_putchar c m); [apply io_outs_vga_putchar | apply IH].
Qed.

Lemma io_outs_klog fmt ap m : io_outs m (klog fmt ap m).
Proof.
  unfold klog. rewrite kprintf_kformat. destruct (kformat fmt ap); simpl; [| reflexivity].
  apply io_outs_put_all.
Qed.

Lemma m_ram_debug_print s m : m_ram (debug_print s m) = m_ram m.
Proof.
  revert m. induction s as [|c s IH]; intros m; simpl; [done |]. zcase; [done |]. by rewrite IH.
Qed.

#[export] Hint Rewrite m_ram_klog m_ram_debug_print : os.

Lemma vga_wf_put_all cs m : vga_wf m -> vga_wf (put_all cs m).
Proof.
  revert m. induction cs as [|c cs IH]; intros m H; simpl; [done |].
  apply IH. apply (vga_putchar_spec c m H).
Qed.

Lemma vga_wf_klog fmt ap m : vga_wf m -> vga_wf (klog fmt ap m).
Proof.
  intros H. unfold klog. rewrite kprintf_kformat. destruct (kformat fmt ap); simpl; [by apply vga_wf_put_all | done].
Qed.

Lemma vga_wf_debug_print s m : vga_wf m -> vga_wf (debug_print s m).
Proof.
  revert m. induction s as [|c s IH]; intros m H; simpl; [done |]. zcase; [done |]. by apply IH.
Qed.

Create HintDb screen.
#[export] Hint Resolve vga_wf_klog vga_wf_debug_print : screen.

#[global] Opaque klog.

(** The signed numeral a decimal conversion prints. *)
Definition parse_int (cs : list Z) : Z :=
  match cs with
  | 45 :: ds => - parse_uint 10 ds
  | _ => parse_uint 10 cs
  end.

Lemma parse_int_digits cs : Forall (fun c => 48 <= c) cs -> parse_int cs = parse_uint 10 cs.
Proof.
  intros H. destruct H as [|c cs Hc _]; [done |]. unfold parse_int.
  destruct c as [|p|p]; try lia. do 6 (destruct p; try lia; try done).
Qed.

(** [kprintf("%d", w)] prints, for every 32-bit word (INT32_MIN included,
    whose magnitude does not fit an [int32_t]), a numeral that reads back as
    the signed value of the word, never overruns the 32-byte digit buffer and
    leaves RAM alone. *)
Theorem kprintf_decimal_roundtrip (w : Z) (m : mach) :
  exists cs, kprintf (lit "%d") [AInt w] m = Some (put_all cs m) /\
    parse_int cs = s32 w /\ m_ram (put_all cs m) = m_ram m.
Proof.
  destruct (int_chars_spec (s32 w) (s32_range w)) as (cs & Hcs & _ & Hp).
  exists cs. split_and!.
  - rewrite kprintf_kformat. change (lit "%d") with [37; 100]. cbn [kformat Z.eqb Pos.eqb negb].
    unfold conv. cbn [Z.eqb Pos.eqb]. rewrite Hcs. cbn. by rewrite app_nil_r.
  - destruct (s32 w <? 0) eqn:E; zbool.
    + destruct Hp as (ds & -> & Hp). exact Hp.
    + destruct Hp as [Hp Hf]. by rewrite parse_int_digits.
  - apply m_ram_put_all.
Qed.

(** ** The console as a terminal *)

Definition term_puts (color : Z) (cs : list Z) (t : term) : term := fold_left (fun t c => term_put color c t) cs t.

(** [m'] is [m] after [cs] was shown. *)
Definition shows (cs : list Z) (m m' : mach) : Prop :=
  vga_wf m' /\ vga_color m' = vga_color m /\ term_of m' = term_puts (vga_color m) cs (term_of m).

Lemma shows_nil m m' :
  vga_wf m -> vga_mem m' = vga_mem m -> vga_col m' = vga_col m -> vga_row m' = vga_row m ->
  vga_color m' = vga_color m -> shows [] m m'.
Proof.
  intros Hwf H1 H2 H3 H4. unfold shows, vga_wf, term_of, term_puts in *. cbn [fold_left].
  rewrite H1, H2, H3, H4. by split_and!; try apply Hwf.
Qed.

Lemma shows_trans cs1 cs2 m1 m2 m3 : shows cs1 m1 m2 -> shows cs2 m2 m3 -> shows (cs1 ++ cs2) m1 m3.
Proof.
  intros (H1 & H2 & H3) (H4 & H5 & H6). split; [done |]. split; [congruence |].
  unfold term_puts in *. by rewrite fold_left_app, <- H3, <- H2.
Qed.

Lemma put_all_shows cs m : vga_wf m -> shows cs m (put_all cs m).
Proof.
  revert m. induction cs as [|c cs IH]; intros m Hwf; [by apply shows_nil |].
  destruct (vga_putchar_spec c m Hwf) as (Ht & Hw & Hc & _). cbv zeta in *.
  change (c :: cs) with ([c] ++ cs). rewrite put_all_app. eapply shows_trans; [| apply IH].
  - split; [exact Hw |]. split; [exact Hc | exact Ht].
  - exact Hw.
Qed.

(** ** Messages *)

(** What a format is made of: a plain character, ["%%"], a conversion with its
    argument (a word, or a string that may be NULL), or an unknown conversion. *)
Inductive piece :=
| PText (c : Z) | PPercent | PStr (s : option (list Z)) | PDec (w : Z) | PUint (w : Z) | PHex (upper : bool) (w : Z)
| PChar (w : Z) | PPtr (w : Z) | POdd (k : Z).

Definition piece_ok (p : piece) : Prop :=
  match p with PText c => c <> 37 | POdd k => k ∉ lit "sduxXcp%" | _ => True end.

(** Its characters in the format, its arguments, and the text it stands for. *)
Definition piece_fmt (p : piece) : list Z :=
  match p with
  | PText c => [c] | PPercent => lit "%%" | PStr _ => lit "%s" | PDec _ => lit "%d" | PUint _ => lit "%u"
  | PHex false _ => lit "%x" | PHex true _ => lit "%X" | PChar _ => lit "%c" | PPtr _ => lit "%p" | POdd k => [37; k]
  end.

Definition piece_args (p : piece) : list arg :=
  match p with
  | PText _ | PPercent | POdd _ => []
  | PStr s => [AStr s]
  | PDec w | PUint w | PHex _ w | PChar w | PPtr w => [AInt w]
  end.

Definition piece_text (p : piece) : list Z :=
  match p with
  | PText c => [c]
  | PPercent => lit "%"
  | PStr s => from_option cstr (lit "(null)") s
  | PDec w => if s32 w <? 0 then lit "-" ++ numeral 10 (- s32 w) else numeral 10 (s32 w)
  | PUint w => numeral 10 (u32 w)
  | PHex _ w => numeral 16 (u32 w)
  | PChar w => [u8 w]
  | PPtr w => lit "0x" ++ numeral 16 (u32 w)
  | POdd k => [37; k]
  end.

Lemma kformat_piece p fmt ap :
  piece_ok p -> kformat (piece_fmt p ++ fmt) (piece_args p ++ ap) = app (piece_text p) <$> kformat fmt ap.
Proof.
  intros Hp. destruct p as [c| |s|w|w|up w|w|w|k]; cbn [piece_fmt piece_args piece_text app].
  - rewrite kformat_plain by (cbn [piece_ok] in Hp; lia). by destruct (kformat fmt ap).
  - change (lit "%%" ++ fmt) with (37 :: 37 :: fmt). cbn. by destruct (kformat fmt ap).
  - change (lit "%s" ++ fmt) with (37 :: 115 :: fmt). cbn [kformat Z.eqb Pos.eqb negb]. unfold conv. cbn [Z.eqb Pos.eqb].
    destruct s as [s|]; cbn [mbind option_bind]; by destruct (kformat fmt ap).
  - change (lit "%d" ++ fmt) with (37 :: 100 :: fmt). cbn [kformat Z.eqb Pos.eqb negb]. unfold conv. cbn [Z.eqb Pos.eqb].
    unfold int_chars. pose proof (s32_range w) as Hr. unfold is_s32 in Hr. destruct (Z.ltb_spec (s32 w) 0); rewrite uint_chars_numeral by lia; cbn [mbind option_bind fmap option_fmap option_map]; by destruct (kformat fmt ap).
  - change (lit "%u" ++ fmt) with (37 :: 117 :: fmt). cbn [kformat Z.eqb Pos.eqb negb]. unfold conv. cbn [Z.eqb Pos.eqb].
    rewrite uint_chars_numeral by (lia || apply u32_range). cbn [mbind option_bind]. by destruct (kformat fmt ap).
  - destruct up; [change (lit "%X" ++ fmt) with (37 :: 88 :: fmt) | change (lit "%x" ++ fmt) with (37 :: 120 :: fmt)];
      cbn [kformat Z.eqb Pos.eqb negb]; unfold conv; cbn [Z.eqb Pos.eqb orb];
      rewrite uint_chars_numeral by (lia || apply u32_range); cbn [mbind option_bind]; by destruct (kformat fmt ap).
  - change (lit "%c" ++ fmt) with (37 :: 99 :: fmt). cbn. by destruct (kformat fmt ap).
  - change (lit "%p" ++ fmt) with (37 :: 112 :: fmt). cbn [kformat Z.eqb Pos.eqb negb]. unfold conv. cbn [Z.eqb Pos.eqb orb].
    rewrite uint_chars_numeral by (lia || apply u32_range). cbn [mbind option_bind]. by destruct (kformat fmt ap).
  - cbn [piece_ok] in Hp. change (lit "sduxXcp%") with [115; 100; 117; 120; 88; 99; 112; 37] in Hp. cbn [kformat Z.eqb Pos.eqb negb].
    unfold conv. rewrite !not_elem_of_cons in Hp.
    repeat match goal with |- context [k =? ?x] => replace (k =? x) with false by (symmetry; apply Z.eqb_neq; tauto) end.
    cbn [orb mbind option_bind]. by destruct (kformat fmt ap).
Qed.

Lemma kformat_pieces ps extra :
  Forall piece_ok ps -> kformat (concat (piece_fmt <$> ps)) (concat (piece_args <$> ps) ++ extra) = Some (concat (piece_text <$> ps)).
Proof.
  induction 1 as [|p ps Hp _ IH]; [done |]. cbn [fmap list_fmap concat]. rewrite <- app_assoc, kformat_piece by done.
  fold (fmap piece_fmt ps). change (list_fmap _ _ piece_fmt ps) with (piece_fmt <$> ps). by rewrite IH.
Qed.

(** C36. [kprintf] prints the message its format and arguments compose: for any
    sequence of plain characters, ["%%"] and conversions ([%s], [%d], [%u],
    [%x], [%X], [%c], [%p], unknown ones), whatever further arguments follow,
    it returns and shows on the screen exactly the text of each in turn: a
    string up to its NUL or ["(null)"], the numeral of the signed or unsigned
    word in base 10 or 16 (lower case for [%X] too), the character, ["0x"] and
    the numeral, or the unknown conversion itself; RAM is left alone.  Formats
    are characters other than NUL; a lone ['%'] at the end is excluded. *)
Theorem kprintf_writes_text (ps : list piece) (extra : list arg) (m : mach) :
  Forall piece_ok ps -> vga_wf m ->
  exists m', kprintf (concat (piece_fmt <$> ps)) (concat (piece_args <$> ps) ++ extra) m = Some m' /\
    shows (concat (piece_text <$> ps)) m m' /\ m_ram m' = m_ram m.
Proof.
  intros Hps Hwf. eexists. rewrite kprintf_kformat, kformat_pieces by done. split; [reflexivity |].
  split; [by apply put_all_shows | apply m_ram_put_all].
Qed.

(** The pieces of ["pid %u state %s %d%%%x"]. *)
Definition demo_message : list piece :=
  (PText <$> lit "pid ") ++ [PUint 70] ++ (PText <$> lit " state ") ++ [PStr (Some (lit "READY"))] ++
  [PText 32; PDec 4294967254; PPercent; PHex false 48879].

Lemma kprintf_writes_text_witness :
  exists m', kprintf (lit "pid %u state %s %d%%%x") [AInt 70; AStr (Some (lit "READY")); AInt 4294967254; AInt 48879] mach0 = Some m' /\
    shows (lit "pid 70 state READY -42%beef") mach0 m'.
Proof.
  destruct (kprintf_writes_text demo_message [] mach0) as (m' & H1 & H2 & _).
  - repeat constructor; discriminate.
  - vm_compute; repeat split; congruence.
  - exists m'. split; [exact H1 | exact H2].
Defined.

(** Every well-formed format is such a message. *)
Lemma fmt_ok_pieces fmt ap :
  fmt_ok fmt ap = true ->
  exists ps extra, Forall piece_ok ps /\ fmt = concat (piece_fmt <$> ps) /\ ap = concat (piece_args <$> ps) ++ extra.
Proof.
  assert (Hcons : forall p fmt ap, piece_ok p ->
    (exists ps extra, Forall piece_ok ps /\ fmt = concat (piece_fmt <$> ps) /\ ap = concat (piece_args <$> ps) ++ extra) ->
    exists ps extra, Forall piece_ok ps /\ piece_fmt p ++ fmt = concat (piece_fmt <$> ps) /\ piece_args p ++ ap = concat (piece_args <$> ps) ++ extra).
  { intros p f a Hp (ps & ex & H1 & -> & ->). exists (p :: ps), ex. split; [by constructor |]. cbn [fmap list_fmap concat]. by rewrite app_assoc. }
  revert ap. induction fmt as [|c|c k f IH1 IH2] using fmt_ind; intros ap; cbn [fmt_ok].
  - intros _. by exists [], ap.
  - destruct (Z.eqb_spec c 37) as [->|Hc]; [done |]. intros _. exists [PText c], ap. split; [by repeat constructor | done].
  - destruct (Z.eqb_spec c 37) as [->|Hc]; cbn [negb].
    2:{ intros H. apply (Hcons (PText c) (k :: f)); [done |]. by apply IH1. }
    destruct (Z.eqb_spec k 115) as [->|]; [destruct ap as [|[s|] ap]; [done | | done]; intros H; apply (Hcons (PStr s)); [done | by apply IH2] |].
    destruct (existsb (Z.eqb k) [100; 117; 120; 88; 99; 112]) eqn:E.
    + destruct ap as [|[s|w] ap]; [done | done |]. intros H. apply existsb_exists in E as (x & Hx & <-%Z.eqb_eq). cbn [In] in Hx.
      destruct Hx as [<-|[<-|[<-|[<-|[<-|[<-|[]]]]]]];
        [apply (Hcons (PDec w)) | apply (Hcons (PUint w)) | apply (Hcons (PHex false w)) | apply (Hcons (PHex true w))
        | apply (Hcons (PChar w)) | apply (Hcons (PPtr w))]; try done; by apply IH2.
    + intros H. cbn [existsb] in E. rewrite !orb_false_iff, !Z.eqb_neq in E.
      destruct (Z.eq_dec k 37) as [->|]; [apply (Hcons PPercent); [done | by apply IH2] |].
      apply (Hcons (POdd k)); [| by apply IH2]. cbn [piece_ok]. change (lit "sduxXcp%") with [115; 100; 117; 120; 88; 99; 112; 37].
      rewrite !not_elem_of_cons. split_and!; try tauto. apply not_elem_of_nil.
Qed.
