(* ===== verification/Multiboot.v ===== *)
(** * Multiboot: the boot loader's structures (include/multiboot.h)

    GRUB leaves packed structures of 32-bit words in RAM; a field is the word
    at its offset. *)
From S2P Require Import Prelude Memory Machine.

Definition MBOOT_FLAG_MEM := 1.
Definition MBOOT_FLAG_MODS := 8.
Definition MBOOT_FLAG_MMAP := 64.
Definition MBOOT_MMAP_TYPE_AVAILABLE := 1.

(** The fields of [multiboot_info_t] the kernel reads. *)
Record multiboot_info_t := MultibootInfo {
  flags : Z;
  mem_upper : Z;
  mods_count : Z;
  mods_addr : Z;
  mmap_length : Z;
  mmap_addr : Z;
}.

Definition multiboot_info (r : ram) (mbi : Z) : multiboot_info_t :=
  {| flags := ld32 r mbi; mem_upper := ld32 r (mbi + 8);
     mods_count := ld32 r (mbi + 20); mods_addr := ld32 r (mbi + 24);
     mmap_length := ld32 r (mbi + 44); mmap_addr := ld32 r (mbi + 48) |}.

Record multiboot_mmap_entry_t := MmapEntry {
  me_size : Z;
  base_low : Z;
  base_high : Z;
  length_low : Z;
  length_high : Z;
  me_type : Z;
}.

Definition mmap_entry (r : ram) (e : Z) : multiboot_mmap_entry_t :=
  {| me_size := ld32 r e; base_low := ld32 r (e + 4); base_high := ld32 r (e + 8);
     length_low := ld32 r (e + 12); length_high := ld32 r (e + 16); me_type := ld32 r (e + 20) |}.

Record multiboot_mod_t := MbootMod {
  mod_start : Z;
  mod_end : Z;
}.

Definition mboot_mod (r : ram) (a : Z) : multiboot_mod_t :=
  {| mod_start := ld32 r a; mod_end := ld32 r (a + 4) |}.
