(* ===== verification/Pmm.v ===== *)
(** * Pmm: the bitmap page-frame allocator (kernel/mm/pmm.h, pmm.c) *)
From stdpp Require Import strings.
From S2P Require Import Prelude Memory Machine Vga Console Multiboot.

Definition PMM_PAGE_SIZE := 4096.
Definition PMM_PAGES_MAX := 65536.   (* 256 * 1024 * 1024 / PMM_PAGE_SIZE *)

(** The static variables of pmm.c; [bitmap] has [PMM_PAGES_MAX / 32] words. *)
Record pmm := Pmm {
  bitmap : list Z;
  total_pages : Z;
  used_pages : Z;
}.

Definition set_word (i w : Z) (s : pmm) : pmm :=
  Pmm (aset (bitmap s) i w) (total_pages s) (used_pages s).
Definition set_used (u : Z) (s : pmm) : pmm := Pmm (bitmap s) (total_pages s) u.

(** ** The bit helpers *)

Definition bit_set (frame : Z) (s : pmm) : pmm :=
  set_word (frame / 32)
    (Z.lor (aget 0 (bitmap s) (frame / 32)) (u32 (Z.shiftl 1 (frame mod 32)))) s.

Definition bit_clear (frame : Z) (s : pmm) : pmm :=
  set_word (frame / 32)
    (Z.land (aget 0 (bitmap s) (frame / 32)) (u32 (Z.lnot (u32 (Z.shiftl 1 (frame mod 32)))))) s.

Definition bit_test (frame : Z) (s : pmm) : Z :=
  Z.land (s32 (Z.shiftr (aget 0 (bitmap s) (frame / 32)) (frame mod 32))) 1.

(** ** Regions *)

Definition pmm_free_region (base length : Z) (s : pmm) : pmm :=
  let page := base / PMM_PAGE_SIZE in
  let end_ := u32 (base + length) / PMM_PAGE_SIZE in
  for_ page (Z.min end_ PMM_PAGES_MAX) (fun page s =>
    if ctrue (bit_test page s)
    then let s := bit_clear page s in set_used (u32 (used_pages s - 1)) s
    else s) s.

Definition pmm_mark_region_used (base length : Z) (s : pmm) : pmm :=
  let page := base / PMM_PAGE_SIZE in
  let end_ := u32 (base + length + PMM_PAGE_SIZE - 1) / PMM_PAGE_SIZE in
  for_ page (Z.min end_ PMM_PAGES_MAX) (fun page s =>
    if negb (ctrue (bit_test page s))
    then let s := bit_set page s in set_used (u32 (used_pages s + 1)) s
    else s) s.

(** ** Allocation *)

(** The inner loop over the bits of word [i]; [Some] is a [return]. *)
Fixpoint scan_bits (n : nat) (i bit : Z) (s : pmm) : option (Z * pmm) :=
  match n with
  | O => None
  | S n' =>
      let page := u32 (i * 32 + bit) in
      if total_pages s <=? page then Some (0, s)
      else if negb (ctrue (bit_test page s))
      then let s := bit_set page s in
           let s := set_used (u32 (used_pages s + 1)) s in
           Some (u32 (page * PMM_PAGE_SIZE), s)
      else scan_bits n' i (bit + 1) s
  end.

Fixpoint scan_words (n : nat) (i : Z) (s : pmm) : Z * pmm :=
  match n with
  | O => (0, s)
  | S n' =>
      if aget 0 (bitmap s) i =? 0xFFFFFFFF then scan_words n' (i + 1) s
      else match scan_bits 32 i 0 s with
           | Some r => r
           | None => scan_words n' (i + 1) s
           end
  end.

Definition pmm_alloc_page (s : pmm) : Z * pmm :=
  scan_words (Z.to_nat (PMM_PAGES_MAX / 32)) 0 s.

Definition pmm_free_page (p : Z) (s : pmm) : pmm :=
  let frame := p / PMM_PAGE_SIZE in
  if total_pages s <=? frame then s
  else if ctrue (bit_test frame s)
  then let s := bit_clear frame s in set_used (u32 (used_pages s - 1)) s
  else s.

Definition pmm_get_total_pages (s : pmm) : Z := total_pages s.
Definition pmm_get_free_pages (s : pmm) : Z := u32 (total_pages s - used_pages s).
Definition pmm_get_used_pages (s : pmm) : Z := used_pages s.

(** ** Initialisation *)

(** One entry of the Multiboot memory map (Step 2 of [pmm_init]). *)
Definition free_entry (e : multiboot_mmap_entry_t) (s : pmm) : pmm :=
  if me_type e =? MBOOT_MMAP_TYPE_AVAILABLE then
    if (base_high e =? 0) && (length_high e =? 0) then
      pmm_free_region (base_low e) (length_low e) s
    else if base_high e =? 0 then
      let available := u32 (u32 (0xFFFFFFFF - base_low e) + 1) in
      pmm_free_region (base_low e) available s
    else s
  else s.

(** The walk over the map.  [None]: [fuel] ran out. *)
Fixpoint mmap_walk (fuel : nat) (r : ram) (addr len offset : Z) (s : pmm) : option pmm :=
  if offset <? len then
    match fuel with
    | O => None
    | S fuel' =>
        let e := mmap_entry r (u32 (addr + offset)) in
        mmap_walk fuel' r addr len (u32 (offset + u32 (me_size e + 4))) (free_entry e s)
    end
  else Some s.

Section Init.
(** Linker-script symbols. *)
Context (kernel_start kernel_end : Z).

Definition pmm_init (mbi : Z) (m : mach) : option (pmm * mach) :=
  let info := multiboot_info (m_ram m) mbi in
  let mem_kb := if ctrue (Z.land (flags info) MBOOT_FLAG_MEM)
                then u32 (mem_upper info + 1024) else 64 * 1024 in
  let total := u32 (mem_kb * 1024) / PMM_PAGE_SIZE in
  let total := if PMM_PAGES_MAX <? total then PMM_PAGES_MAX else total in
  let s := Pmm (replicate (Z.to_nat (PMM_PAGES_MAX / 32)) 0xFFFFFFFF) total total in
  s ← (if ctrue (Z.land (flags info) MBOOT_FLAG_MMAP)
       then mmap_walk (Z.to_nat (mmap_length info)) (m_ram m) (mmap_addr info)
                      (mmap_length info) 0 s
       else Some (pmm_free_region 0x100000 (u32 (u32 (total - 256) * PMM_PAGE_SIZE)) s));
  let s := if negb (ctrue (bit_test 0 s))
           then let s := bit_set 0 s in set_used (u32 (used_pages s + 1)) s else s in
  let s := pmm_mark_region_used kernel_start (u32 (kernel_end - kernel_start)) s in
  let m := klog (lit "[PMM] Total: %u MB  Free: %u MB  Used by kernel: %u KB" ++ nl)
             [AInt (u32 (total * PMM_PAGE_SIZE) / (1024 * 1024));
              AInt (u32 (pmm_get_free_pages s * PMM_PAGE_SIZE) / (1024 * 1024));
              AInt (u32 (kernel_end - kernel_start) / 1024)] m in
  Some (s, m).
End Init.

(** ** Frames *)

(** Frame [f]'s bit. *)
Definition frame_used (s : pmm) (f : Z) : bool :=
  Z.testbit (aget 0 (bitmap s) (f / 32)) (f mod 32).

Definition frames : nat := Z.to_nat PMM_PAGES_MAX.

(** The number of frames whose bit is clear. *)
Definition nfree (s : pmm) : Z := count (fun f => negb (frame_used s f)) frames.

Definition pmm_wf (s : pmm) : Prop :=
  length (bitmap s) = 2048%nat /\ Forall (fun w => 0 <= w < W32) (bitmap s) /\
  0 <= total_pages s <= PMM_PAGES_MAX.

(** The accounting invariant: [used_pages] counts the frames of RAM that are
    not free, modulo 2^32. *)
Definition pmm_inv (s : pmm) : Prop :=
  pmm_wf s /\ used_pages s = u32 (total_pages s - nfree s).

Lemma frames_eq : Z.of_nat frames = 65536.
Proof. unfold frames, PMM_PAGES_MAX. lia. Qed.

#[global] Opaque frames.

Section Bits.
Context (s : pmm) (Hwf : pmm_wf s).

Lemma word_range i : 0 <= aget 0 (bitmap s) i < W32.
Proof using Hwf. destruct Hwf as (_ & H & _). by apply (aget_Forall 0 (fun w => 0 <= w < W32)). Qed.

Lemma bit_test_eq f : 0 <= f -> ctrue (bit_test f s) = frame_used s f.
Proof using Hwf.
  intros Hf. unfold bit_test, frame_used, ctrue. set (w := aget 0 (bitmap s) (f / 32)).
  set (k := f mod 32). assert (0 <= k < 32) by lia.
  pose proof (word_range (f / 32)) as Hw. fold w in Hw. clearbody k w.
  assert (Hs : 0 <= Z.shiftr w k < W32).
  { rewrite Z.shiftr_div_pow2 by lia. split; [apply Z.div_pos; lia |].
    apply Z.le_lt_trans with w; [| lia]. apply Z.div_le_upper_bound; nia. }
  rewrite Z.testbit_odd. change 1 with (Z.ones 1). rewrite Z.land_ones by lia.
  change (2 ^ 1) with 2. unfold s32. rewrite u32_small by lia.
  rewrite Zmod_odd. zcase; [| rewrite Z.odd_sub; simpl; rewrite xorb_false_r];
    by destruct (Z.odd _).
Qed.

Lemma mask_bit k j : 0 <= k < 32 -> 0 <= j ->
  Z.testbit (u32 (Z.shiftl 1 k)) j = (k =? j).
Proof using.
  intros Hk Hj. rewrite Z.shiftl_1_l, u32_small.
  - by rewrite Z.pow2_bits_eqb by lia.
  - split; [apply Z.pow_nonneg; lia |]. change W32 with (2 ^ 32). apply Z.pow_lt_mono_r; lia.
Qed.

Lemma mask_not_bit k j : 0 <= k < 32 -> 0 <= j < 32 ->
  Z.testbit (u32 (Z.lnot (u32 (Z.shiftl 1 k)))) j = negb (k =? j).
Proof using.
  intros Hk Hj. unfold u32 at 1. change W32 with (2 ^ 32).
  rewrite Z.mod_pow2_bits_low, Z.lnot_spec by lia. by rewrite mask_bit by lia.
Qed.
End Bits.

Section Updates.
Context (s : pmm) (Hwf : pmm_wf s) (f : Z) (Hf : 0 <= f < PMM_PAGES_MAX).

Lemma word_in_range g : 0 <= g < PMM_PAGES_MAX -> 0 <= g / 32 < alen (bitmap s).
Proof using Hwf. clear Hf. destruct Hwf as (Hl & _). unfold PMM_PAGES_MAX, alen. rewrite Hl. lia. Qed.

Lemma frame_used_word w g :
  0 <= g < PMM_PAGES_MAX ->
  frame_used (set_word (f / 32) w s) g =
    if f / 32 =? g / 32 then Z.testbit w (g mod 32) else frame_used s g.
Proof using Hwf Hf.
  intros Hg. unfold frame_used, set_word. simpl. zcase.
  - rewrite <- E, aget_aset_eq by (by apply word_in_range). done.
  - rewrite aget_aset_ne by (try apply Z.div_pos; lia). done.
Qed.

Lemma frame_used_bit_set g :
  0 <= g < PMM_PAGES_MAX -> frame_used (bit_set f s) g = (f =? g) || frame_used s g.
Proof using Hwf Hf.
  intros Hg. unfold bit_set. rewrite frame_used_word by done. zcase.
  - rewrite Z.lor_spec, mask_bit by lia. unfold frame_used. rewrite E, orb_comm. f_equal.
    apply eq_bool_prop_intro. rewrite !Is_true_true, !Z.eqb_eq. lia.
  - replace (f =? g) with false by (symmetry; apply Z.eqb_neq; congruence). done.
Qed.

Lemma frame_used_bit_clear g :
  0 <= g < PMM_PAGES_MAX -> frame_used (bit_clear f s) g = negb (f =? g) && frame_used s g.
Proof using Hwf Hf.
  intros Hg. unfold bit_clear. rewrite frame_used_word by done. zcase.
  - rewrite Z.land_spec, mask_not_bit by lia. unfold frame_used. rewrite E, andb_comm.
    do 2 f_equal. apply eq_bool_prop_intro. rewrite !Is_true_true, !Z.eqb_eq. lia.
  - replace (f =? g) with false by (symmetry; apply Z.eqb_neq; congruence). done.
Qed.

Lemma set_word_wf w : 0 <= w < W32 -> pmm_wf (set_word (f / 32) w s).
Proof using Hwf.
  clear Hf. intros Hw. destruct Hwf as (Hl & Hall & Ht). unfold pmm_wf, set_word, aset. simpl.
  rewrite length_insert. split_and!; try done; [by apply Forall_insert | lia | lia].
Qed.

Lemma bit_set_wf : pmm_wf (bit_set f s).
Proof using Hwf.
  clear Hf. apply set_word_wf. pose proof (word_range s Hwf (f / 32)).
  apply u32_bits; [apply Z.lor_nonneg; split; [lia | apply u32_range] |].
  intros k Hk. rewrite Z.lor_spec, !testbit_u32_high; auto using u32_range.
Qed.

Lemma bit_clear_wf : pmm_wf (bit_clear f s).
Proof using Hwf.
  clear Hf. apply set_word_wf. pose proof (word_range s Hwf (f / 32)).
  apply u32_bits; [apply Z.land_nonneg; left; lia |].
  intros k Hk. rewrite Z.land_spec, testbit_u32_high; auto.
Qed.

Lemma set_used_wf u : pmm_wf s -> pmm_wf (set_used u s).
Proof using. done. Qed.

Lemma nfree_bit_set : frame_used s f = false -> nfree (bit_set f s) = nfree s - 1.
Proof using Hwf Hf.
  intros Hfree. unfold nfree.
  erewrite (count_upd (fun g => negb (frame_used s g)) _ _ f).
  - rewrite frame_used_bit_set, Z.eqb_refl, Hfree by done. simpl. lia.
  - rewrite frames_eq. exact Hf.
  - intros i Hi Hne. rewrite frames_eq in Hi. rewrite frame_used_bit_set by done.
    by replace (f =? i) with false by (symmetry; apply Z.eqb_neq; congruence).
Qed.

Lemma nfree_bit_clear : frame_used s f = true -> nfree (bit_clear f s) = nfree s + 1.
Proof using Hwf Hf.
  intros Hused. unfold nfree.
  erewrite (count_upd (fun g => negb (frame_used s g)) _ _ f).
  - rewrite frame_used_bit_clear, Z.eqb_refl, Hused by done. simpl. lia.
  - rewrite frames_eq. exact Hf.
  - intros i Hi Hne. rewrite frames_eq in Hi. rewrite frame_used_bit_clear by done.
    by replace (f =? i) with false by (symmetry; apply Z.eqb_neq; congruence).
Qed.
End Updates.

(** What the code does to take or release one frame: the bit and the counter. *)
Definition take_frame (f : Z) (s : pmm) : pmm :=
  set_used (u32 (used_pages (bit_set f s) + 1)) (bit_set f s).
Definition release_frame (f : Z) (s : pmm) : pmm :=
  set_used (u32 (used_pages (bit_clear f s) - 1)) (bit_clear f s).

Lemma take_frame_inv f s :
  pmm_inv s -> 0 <= f < PMM_PAGES_MAX -> frame_used s f = false -> pmm_inv (take_frame f s).
Proof.
  intros [Hwf Hu] Hf Hfree. split; [by apply set_used_wf, bit_set_wf |].
  unfold take_frame. simpl used_pages. simpl total_pages.
  change (nfree (set_used _ ?x)) with (nfree x). rewrite nfree_bit_set by done.
  rewrite Hu. unfold u32. rewrite Zplus_mod_idemp_l. f_equal. lia.
Qed.

Lemma release_frame_inv f s :
  pmm_inv s -> 0 <= f < PMM_PAGES_MAX -> frame_used s f = true -> pmm_inv (release_frame f s).
Proof.
  intros [Hwf Hu] Hf Hused. split; [by apply set_used_wf, bit_clear_wf |].
  unfold release_frame. simpl used_pages. simpl total_pages.
  change (nfree (set_used _ ?x)) with (nfree x). rewrite nfree_bit_clear by done.
  rewrite Hu. unfold u32. rewrite Zminus_mod_idemp_l. f_equal. lia.
Qed.

Lemma frame_used_take f g s :
  pmm_wf s -> 0 <= f < PMM_PAGES_MAX -> 0 <= g < PMM_PAGES_MAX ->
  frame_used (take_frame f s) g = (f =? g) || frame_used s g.
Proof. intros Hwf Hf Hg. exact (frame_used_bit_set s Hwf f Hf g Hg). Qed.

Lemma frame_used_release f g s :
  pmm_wf s -> 0 <= f < PMM_PAGES_MAX -> 0 <= g < PMM_PAGES_MAX ->
  frame_used (release_frame f s) g = negb (f =? g) && frame_used s g.
Proof. intros Hwf Hf Hg. exact (frame_used_bit_clear s Hwf f Hf g Hg). Qed.

Lemma nfree_take f s :
  pmm_wf s -> 0 <= f < PMM_PAGES_MAX -> frame_used s f = false -> nfree (take_frame f s) = nfree s - 1.
Proof. intros Hwf Hf Hff. exact (nfree_bit_set s Hwf f Hf Hff). Qed.

Lemma pmm_inv_wf s : pmm_inv s -> pmm_wf s.
Proof. by intros [? _]. Qed.

#[export] Hint Resolve pmm_inv_wf take_frame_inv release_frame_inv : os.

(** The accounting invariant read through the public counters. *)
Lemma free_pages_nfree s : pmm_inv s -> pmm_get_free_pages s = nfree s.
Proof.
  intros [(_ & _ & Ht) Hu]. unfold pmm_get_free_pages. rewrite Hu.
  pose proof (count_range (fun f => negb (frame_used s f)) frames) as Hc.
  rewrite frames_eq in Hc. fold (nfree s) in Hc. unfold PMM_PAGES_MAX in Ht. unfold u32. lia.
Qed.

(** ** Regions mark exactly their frames *)

Lemma total_take f s : total_pages (take_frame f s) = total_pages s.
Proof. done. Qed.

Lemma total_release f s : total_pages (release_frame f s) = total_pages s.
Proof. done. Qed.

(** Frame [g] is one of [lo, hi), [hi] clipped to the bitmap. *)
Definition in_frames (lo hi g : Z) : bool := (lo <=? g) && (g <? Z.min hi PMM_PAGES_MAX).

Lemma free_loop_spec lo hi s :
  pmm_inv s -> 0 <= lo -> hi <= PMM_PAGES_MAX ->
  let s' := for_ lo hi (fun page s =>
    if ctrue (bit_test page s) then release_frame page s else s) s in
  pmm_inv s' /\ total_pages s' = total_pages s /\
  forall g, 0 <= g < PMM_PAGES_MAX ->
    frame_used s' g = negb ((lo <=? g) && (g <? hi)) && frame_used s g.
Proof.
  intros Hinv Hlo Hhi.
  pose proof (for_ind (fun k t => pmm_inv t /\ total_pages t = total_pages s /\
    forall g, 0 <= g < PMM_PAGES_MAX ->
      frame_used t g = negb ((lo <=? g) && (g <? k)) && frame_used s g)
    (fun page s => if ctrue (bit_test page s) then release_frame page s else s) lo hi s) as Hind.
  destruct Hind as (H1 & H2 & H3).
  - split_and!; try done. intros g Hg. by replace ((lo <=? g) && (g <? lo)) with false by lia.
  - intros k t Hk (Ht & Htot & Hg). rewrite bit_test_eq by eauto with os lia.
    destruct (frame_used t k) eqn:E.
    + split_and!; [apply release_frame_inv; [done | lia | done] | done |].
      intros g Hgr. rewrite frame_used_release by eauto with os lia. rewrite Hg by done.
      destruct (frame_used s g); [| lia]. lia.
    + split_and!; try done. intros g Hgr. rewrite Hg by done.
      destruct (Z.eq_dec g k) as [->|]; [| destruct (frame_used s g); lia].
      rewrite Hg in E by lia. destruct (frame_used s k); [| lia]. lia.
  - split_and!; try done. intros g Hg. rewrite H3 by done. do 2 f_equal. lia.
Qed.

Lemma mark_loop_spec lo hi s :
  pmm_inv s -> 0 <= lo -> hi <= PMM_PAGES_MAX ->
  let s' := for_ lo hi (fun page s =>
    if negb (ctrue (bit_test page s)) then take_frame page s else s) s in
  pmm_inv s' /\ total_pages s' = total_pages s /\
  forall g, 0 <= g < PMM_PAGES_MAX ->
    frame_used s' g = ((lo <=? g) && (g <? hi)) || frame_used s g.
Proof.
  intros Hinv Hlo Hhi.
  pose proof (for_ind (fun k t => pmm_inv t /\ total_pages t = total_pages s /\
    forall g, 0 <= g < PMM_PAGES_MAX ->
      frame_used t g = ((lo <=? g) && (g <? k)) || frame_used s g)
    (fun page s => if negb (ctrue (bit_test page s)) then take_frame page s else s) lo hi s) as Hind.
  destruct Hind as (H1 & H2 & H3).
  - split_and!; try done. intros g Hg. by replace ((lo <=? g) && (g <? lo)) with false by lia.
  - intros k t Hk (Ht & Htot & Hg). rewrite bit_test_eq by eauto with os lia.
    destruct (frame_used t k) eqn:E; cbn [negb].
    + split_and!; try done. intros g Hgr. rewrite Hg by done.
      destruct (Z.eq_dec g k) as [->|]; [| destruct (frame_used s g); lia].
      rewrite Hg in E by lia. destruct (frame_used s k); lia.
    + split_and!; [apply take_frame_inv; [done | lia | done] | done |].
      intros g Hgr. rewrite frame_used_take by eauto with os lia. rewrite Hg by done.
      destruct (frame_used s g); lia.
  - split_and!; try done. intros g Hg. rewrite H3 by done. f_equal. lia.
Qed.

Lemma pmm_free_region_spec base len s :
  pmm_inv s -> 0 <= base < W32 ->
  let s' := pmm_free_region base len s in
  pmm_inv s' /\ total_pages s' = total_pages s /\
  forall g, 0 <= g < PMM_PAGES_MAX ->
    frame_used s' g =
      negb (in_frames (base / 4096) (u32 (base + len) / 4096) g) && frame_used s g.
Proof.
  intros Hinv Hb. apply (free_loop_spec (base / 4096) (Z.min (u32 (base + len) / 4096) PMM_PAGES_MAX));
    [done | apply Z.div_pos; lia | lia].
Qed.

Lemma pmm_mark_region_used_spec base len s :
  pmm_inv s -> 0 <= base < W32 ->
  let s' := pmm_mark_region_used base len s in
  pmm_inv s' /\ total_pages s' = total_pages s /\
  forall g, 0 <= g < PMM_PAGES_MAX ->
    frame_used s' g =
      in_frames (base / 4096) (u32 (base + len + 4096 - 1) / 4096) g || frame_used s g.
Proof.
  intros Hinv Hb.
  apply (mark_loop_spec (base / 4096) (Z.min (u32 (base + len + 4096 - 1) / 4096) PMM_PAGES_MAX));
    [done | apply Z.div_pos; lia | lia].
Qed.

(** ** Allocation finds the first free frame *)

Lemma scan_bits_spec n i bit s :
  pmm_wf s -> 0 <= i < 2048 -> 0 <= bit -> bit + Z.of_nat n = 32 ->
  (forall g, 0 <= g < i * 32 + bit -> frame_used s g = true) ->
  (exists g, i * 32 + bit <= g < i * 32 + 32 /\ frame_used s g = false) ->
  exists r, scan_bits n i bit s = Some r /\
    ((exists f, 0 <= f < total_pages s /\ frame_used s f = false /\
        (forall g, 0 <= g < f -> frame_used s g = true) /\ r = (f * 4096, take_frame f s)) \/
     ((forall g, 0 <= g < total_pages s -> frame_used s g = true) /\ r = (0, s))).
Proof.
  intros Hwf Hi. revert bit. induction n as [|n IH]; intros bit Hb Hn Hlow [g [Hg Hgf]]; [lia |].
  cbn [scan_bits]. rewrite u32_small by lia. set (p := i * 32 + bit) in *.
  destruct (Z.leb_spec (total_pages s) p) as [Ht|Ht].
  { eexists. split; [done |]. right. split; [| done]. intros h Hh. apply Hlow. lia. }
  rewrite bit_test_eq by (done || lia). destruct (frame_used s p) eqn:E; cbn [negb].
  - apply IH; try lia.
    + intros h Hh. destruct (Z.eq_dec h p) as [->|]; [done |]. apply Hlow. lia.
    + exists g. split; [| done]. assert (g <> p) by congruence. lia.
  - eexists. split; [done |]. left. exists p. destruct Hwf as (_ & _ & Htp).
    unfold PMM_PAGES_MAX in Htp. unfold PMM_PAGE_SIZE. rewrite u32_small by lia.
    split_and!; [lia | lia | done | done | done].
Qed.

Lemma scan_words_spec n i s :
  pmm_wf s -> 0 <= i -> i + Z.of_nat n = 2048 ->
  (forall g, 0 <= g < i * 32 -> frame_used s g = true) ->
  (exists f, 0 <= f < total_pages s /\ frame_used s f = false /\
     (forall g, 0 <= g < f -> frame_used s g = true) /\
     scan_words n i s = (f * 4096, take_frame f s)) \/
  ((forall g, 0 <= g < total_pages s -> frame_used s g = true) /\ scan_words n i s = (0, s)).
Proof.
  intros Hwf. revert i. induction n as [|n IH]; intros i Hi Hn Hlow.
  { right. split; [| done]. intros g Hg. apply Hlow. destruct Hwf as (_ & _ & Ht).
    unfold PMM_PAGES_MAX in Ht. lia. }
  cbn [scan_words]. destruct (all_ones_or_zero_bit _ (word_range s Hwf i)) as [Hw|(k & Hk & Hkb)].
  - rewrite Hw, Z.eqb_refl. apply IH; [lia | lia |]. intros g Hg.
    destruct (Z.lt_ge_cases g (i * 32)); [by apply Hlow; lia |]. unfold frame_used.
    replace (g / 32) with i by lia. rewrite Hw. change 0xFFFFFFFF with (Z.ones 32).
    apply Z.ones_spec_low. lia.
  - replace (aget 0 (bitmap s) i =? 0xFFFFFFFF) with false.
    2: { symmetry. apply Z.eqb_neq. intros Hw. rewrite Hw in Hkb.
         change 0xFFFFFFFF with (Z.ones 32) in Hkb. rewrite Z.ones_spec_low in Hkb by lia. done. }
    destruct (scan_bits_spec 32 i 0 s) as (r & -> & Hr); [done | lia | lia | lia | | |].
    + intros g Hg. apply Hlow. lia.
    + exists (i * 32 + k). split; [lia |]. unfold frame_used.
      replace ((i * 32 + k) / 32) with i by lia. replace ((i * 32 + k) mod 32) with k by lia. done.
    + destruct Hr as [(f & Hf & Hff & Hfl & ->)|[Hall ->]]; [left; by exists f | by right].
Qed.

Lemma pmm_alloc_page_spec s :
  pmm_wf s ->
  (exists f, 0 <= f < total_pages s /\ frame_used s f = false /\
     (forall g, 0 <= g < f -> frame_used s g = true) /\
     pmm_alloc_page s = (f * 4096, take_frame f s)) \/
  ((forall g, 0 <= g < total_pages s -> frame_used s g = true) /\ pmm_alloc_page s = (0, s)).
Proof.
  intros Hwf. apply (scan_words_spec (Z.to_nat (PMM_PAGES_MAX / 32)) 0 s Hwf);
    [lia | unfold PMM_PAGES_MAX; lia | lia].
Qed.

(** ** Freeing *)

Lemma pmm_free_page_spec p s :
  pmm_inv s -> 0 <= p < W32 ->
  pmm_free_page p s =
    if (p / 4096 <? total_pages s) && frame_used s (p / 4096) then release_frame (p / 4096) s else s.
Proof.
  intros [Hwf _] Hp. unfold pmm_free_page. change PMM_PAGE_SIZE with 4096.
  destruct (Z.leb_spec (total_pages s) (p / 4096)), (Z.ltb_spec (p / 4096) (total_pages s)); try lia.
  - done.
  - rewrite bit_test_eq by (done || (apply Z.div_pos; lia)). done.
Qed.

Lemma pmm_free_page_inv p s : pmm_inv s -> 0 <= p < W32 -> pmm_inv (pmm_free_page p s).
Proof.
  intros Hinv Hp. rewrite pmm_free_page_spec by done. zcase; [| done].
  apply release_frame_inv; [done | | done]. destruct Hinv as [(_ & _ & Ht) _].
  split; [apply Z.div_pos; lia | lia].
Qed.

(** Setting a clear bit and clearing it again restores the word. *)
Lemma bit_set_clear f s :
  pmm_wf s -> 0 <= f < PMM_PAGES_MAX -> frame_used s f = false ->
  bitmap (bit_clear f (bit_set f s)) = bitmap s.
Proof.
  intros Hwf Hf Hfree. pose proof (word_in_range s Hwf f Hf) as Hi.
  unfold bit_clear, bit_set, set_word. cbn [bitmap].
  rewrite aget_aset_eq by done. unfold aset. rewrite list_insert_insert_eq.
  apply list_insert_id. unfold alen in Hi.
  destruct (lookup_lt_is_Some_2 (bitmap s) (Z.to_nat (f / 32))) as [w Hw]; [lia |].
  rewrite Hw. f_equal. pose proof (word_range s Hwf (f / 32)) as Hr.
  assert (Hg : aget 0 (bitmap s) (f / 32) = w) by (unfold aget; by rewrite Hw).
  unfold frame_used in Hfree. rewrite Hg in *. symmetry. apply Z.bits_inj'. intros k Hk.
  rewrite Z.land_spec, Z.lor_spec. destruct (Z.lt_ge_cases k 32).
  - rewrite mask_bit, mask_not_bit by lia. destruct (Z.eqb_spec (f mod 32) k) as [<-|].
    + rewrite Hfree. done.
    + simpl. by rewrite orb_false_r, andb_true_r.
  - rewrite (testbit_u32_high w), (testbit_u32_high (u32 (Z.shiftl _ _))); auto using u32_range.
Qed.

(** ** The memory map *)

(** The bytes of the map from [off] up to [len] are the entries [es], each
    stepping over its [size] field as the loop does. *)
Fixpoint mmap_at (r : ram) (addr len off : Z) (es : list multiboot_mmap_entry_t) : Prop :=
  match es with
  | [] => len <= off
  | e :: es' =>
      off < len /\ mmap_entry r (u32 (addr + off)) = e /\ 0 <= me_size e /\
      off + me_size e + 4 < W32 /\ mmap_at r addr len (off + me_size e + 4) es'
  end.

(** The frames one step of the walk frees, in the walk's own 32-bit arithmetic;
    [entry_frees_region] below reads it as the region's true extent. *)
Definition entry_frees (e : multiboot_mmap_entry_t) (f : Z) : bool :=
  let len := if length_high e =? 0 then length_low e else u32 (u32 (0xFFFFFFFF - base_low e) + 1) in
  (me_type e =? MBOOT_MMAP_TYPE_AVAILABLE) && (base_high e =? 0) &&
  in_frames (base_low e / 4096) (u32 (base_low e + len) / 4096) f.

Lemma free_entry_spec e s :
  pmm_inv s -> 0 <= base_low e < W32 ->
  pmm_inv (free_entry e s) /\ total_pages (free_entry e s) = total_pages s /\
  forall g, 0 <= g < PMM_PAGES_MAX ->
    frame_used (free_entry e s) g = negb (entry_frees e g) && frame_used s g.
Proof.
  intros Hinv Hb. unfold free_entry, entry_frees.
  destruct (me_type e =? _); cbn [andb negb]; [| by split_and!].
  destruct (base_high e =? 0); cbn [andb negb]; [| by split_and!].
  destruct (length_high e =? 0); cbn [andb]; by apply pmm_free_region_spec.
Qed.

Lemma mmap_walk_spec fuel r addr len off es s :
  pmm_inv s -> mmap_at r addr len off es -> 0 <= off -> len - off <= Z.of_nat fuel ->
  exists s', mmap_walk fuel r addr len off s = Some s' /\ pmm_inv s' /\
    total_pages s' = total_pages s /\
    forall g, 0 <= g < PMM_PAGES_MAX ->
      frame_used s' g = negb (existsb (fun e => entry_frees e g) es) && frame_used s g.
Proof.
  revert fuel off s. induction es as [|e es IH]; intros fuel off s Hinv Hat Hoff Hfuel; cbn [mmap_at] in Hat.
  - exists s. destruct fuel; cbn [mmap_walk]; (zcase; [lia |]); by split_and!.
  - destruct Hat as (Hlt & He & Hsz & Hw & Hat). destruct fuel as [|fuel]; [lia |].
    cbn [mmap_walk]. zcase; [| lia]. rewrite He. rewrite (u32_small (me_size e + 4)) by lia.
    rewrite u32_small by lia.
    destruct (free_entry_spec e s) as (Hi & Ht & Hg); [done | subst e; apply ld32_range |].
    replace (off + (me_size e + 4)) with (off + me_size e + 4) by lia.
    destruct (IH fuel (off + me_size e + 4) (free_entry e s)) as (s' & -> & Hi' & Ht' & Hg');
      [done | done | lia | lia |].
    exists s'. split_and!; [done | done | congruence |]. intros g Hgr.
    rewrite Hg', Hg by done. cbn [existsb]. by rewrite negb_orb, andb_assoc, (andb_comm (negb (entry_frees _ _))).
Qed.

(** ** The state after Step 1: everything is used *)

Definition all_used (total : Z) : pmm :=
  Pmm (replicate (Z.to_nat (PMM_PAGES_MAX / 32)) 0xFFFFFFFF) total total.

Lemma all_used_frame total g : 0 <= g < PMM_PAGES_MAX -> frame_used (all_used total) g = true.
Proof.
  intros Hg. unfold frame_used, all_used. cbn [bitmap]. rewrite aget_replicate.
  - change 0xFFFFFFFF with (Z.ones 32). apply Z.ones_spec_low. lia.
  - unfold PMM_PAGES_MAX in *. lia.
Qed.

Lemma all_used_inv total : 0 <= total <= PMM_PAGES_MAX -> pmm_inv (all_used total).
Proof.
  intros Ht. split.
  - split_and!; [done | by apply Forall_replicate | simpl; lia | simpl; lia].
  - unfold nfree. rewrite count_false.
    + cbn [all_used used_pages total_pages]. unfold PMM_PAGES_MAX in Ht. rewrite u32_small; lia.
    + rewrite frames_eq. intros g Hg. by rewrite all_used_frame.
Qed.

#[global] Opaque nfree.

(** Steps 3 and 4: frame 0 and the kernel image are taken back. *)
Lemma reserve_spec kstart kend s :
  pmm_inv s -> 0 <= kstart < W32 ->
  let s0 := if negb (ctrue (bit_test 0 s)) then take_frame 0 s else s in
  let s' := pmm_mark_region_used kstart (u32 (kend - kstart)) s0 in
  pmm_inv s' /\ total_pages s' = total_pages s /\
  forall g, 0 <= g < PMM_PAGES_MAX ->
    frame_used s' g = (g =? 0) ||
      in_frames (kstart / 4096) (u32 (kend + 4095) / 4096) g || frame_used s g.
Proof.
  intros Hinv Hk s0. assert (Hwf : pmm_wf s) by eauto with os.
  assert (H0 : pmm_inv s0 /\ total_pages s0 = total_pages s /\
    forall g, 0 <= g < PMM_PAGES_MAX -> frame_used s0 g = (g =? 0) || frame_used s g).
  { unfold s0. rewrite bit_test_eq by (done || lia). destruct (frame_used s 0) eqn:E; cbn [negb].
    - split_and!; try done. intros g Hg. destruct (Z.eqb_spec g 0) as [->|]; done.
    - split_and!; [by apply take_frame_inv; [| split |] | done |].
      intros g Hg. rewrite frame_used_take by (done || lia). by rewrite Z.eqb_sym. }
  destruct H0 as (Hi0 & Ht0 & Hg0). clearbody s0.
  destruct (pmm_mark_region_used_spec kstart (u32 (kend - kstart)) s0) as (Hi & Ht & Hg); [done .. |].
  split_and!; [done | congruence |]. intros g Hgr. rewrite Hg, Hg0 by done.
  replace (u32 (kstart + u32 (kend - kstart) + 4096 - 1)) with (u32 (kend + 4095)).
  2: { unfold u32. replace (kstart + (kend - kstart) mod W32 + 4096 - 1)
         with ((kend - kstart) mod W32 + (kstart + 4095)) by lia.
       rewrite Zplus_mod_idemp_l. f_equal. lia. }
  destruct (g =? 0), (in_frames _ _ g), (frame_used s g); done.
Qed.

(** The number of frames [pmm_init] believes in. *)
Definition total_of (info : multiboot_info_t) : Z :=
  let mem_kb := if ctrue (Z.land (flags info) MBOOT_FLAG_MEM)
                then u32 (mem_upper info + 1024) else 64 * 1024 in
  Z.min (u32 (mem_kb * 1024) / 4096) PMM_PAGES_MAX.

Lemma total_of_range info : 0 <= total_of info <= PMM_PAGES_MAX.
Proof.
  unfold total_of, PMM_PAGES_MAX. set (k := if ctrue _ then _ else _ : Z).
  pose proof (u32_range (k * 1024)). lia.
Qed.

(** The whole of [pmm_init] on a machine with a memory map. *)
Lemma pmm_init_spec (kstart kend mbi : Z) (m : mach) (es : list multiboot_mmap_entry_t) :
  let info := multiboot_info (m_ram m) mbi in
  0 <= kstart < W32 -> 0 <= kend < W32 ->
  ctrue (Z.land (flags info) MBOOT_FLAG_MMAP) = true ->
  mmap_at (m_ram m) (mmap_addr info) (mmap_length info) 0 es ->
  exists s m', pmm_init kstart kend mbi m = Some (s, m') /\ pmm_inv s /\
    total_pages s = total_of info /\ m_ram m' = m_ram m /\
    pmm_get_free_pages s = nfree s /\
    forall f, 0 <= f < PMM_PAGES_MAX ->
      frame_used s f = false <->
      f <> 0 /\ in_frames (kstart / 4096) (u32 (kend + 4095) / 4096) f = false /\
      exists e, In e es /\ entry_frees e f = true.
Proof.
  intros info Hks Hke Hflag Hat. unfold pmm_init. fold info. rewrite Hflag.
  set (mem_kb := if ctrue _ then _ else _).
  replace (if PMM_PAGES_MAX <? u32 (mem_kb * 1024) / PMM_PAGE_SIZE then PMM_PAGES_MAX
           else u32 (mem_kb * 1024) / PMM_PAGE_SIZE) with (total_of info).
  2: { unfold total_of. fold mem_kb. change PMM_PAGE_SIZE with 4096. zcase; lia. }
  fold (all_used (total_of info)).
  destruct (mmap_walk_spec (Z.to_nat (mmap_length info)) (m_ram m) (mmap_addr info)
              (mmap_length info) 0 es (all_used (total_of info)))
    as (s1 & -> & Hi1 & Ht1 & Hg1);
    [apply all_used_inv, total_of_range | done | lia | lia |].
  cbn [mbind option_bind].
  pose proof (reserve_spec kstart kend s1 Hi1 Hks) as Hres. cbv zeta in Hres. unfold take_frame in Hres.
  destruct Hres as (Hi & Ht & Hg).
  do 2 eexists. split; [reflexivity |]. split_and!; [done | by rewrite Ht | by autorewrite with os |
    by apply free_pages_nfree |].
  intros f Hf. rewrite Hg, Hg1, all_used_frame, andb_true_r by done.
  rewrite !orb_false_iff, negb_false_iff, existsb_exists, Z.eqb_neq. tauto.
Qed.

Lemma pmm_init_screen kstart kend mbi m s m' : pmm_init kstart kend mbi m = Some (s, m') -> vga_wf m -> vga_wf m'.
Proof.
  unfold pmm_init. intros H Hv. set (o := if ctrue (Z.land _ MBOOT_FLAG_MMAP) then _ else _) in H.
  destruct o as [s1|]; [| discriminate H]. injection H as _ <-. by apply vga_wf_klog.
Qed.

(** ** The regions of the map, in true addresses *)

(** An entry's 64-bit extent [region_start, region_end). *)
Definition region_start (e : multiboot_mmap_entry_t) : Z := base_low e + W32 * base_high e.
Definition region_end (e : multiboot_mmap_entry_t) : Z :=
  region_start e + length_low e + W32 * length_high e.

(** The address lies in a region the map calls available. *)
Definition available_at (e : multiboot_mmap_entry_t) (a : Z) : Prop :=
  me_type e = MBOOT_MMAP_TYPE_AVAILABLE /\ region_start e <= a < region_end e.

(** Frame [f] shares a byte with [lo, hi). *)
Definition touches (lo hi f : Z) : Prop := 4096 * f < hi /\ lo < 4096 * (f + 1).

Definition entry_wf (e : multiboot_mmap_entry_t) : Prop :=
  0 <= base_low e < W32 /\ 0 <= base_high e < W32 /\
  0 <= length_low e < W32 /\ 0 <= length_high e < W32.

Lemma mmap_at_wf r addr len off es e : mmap_at r addr len off es -> In e es -> entry_wf e.
Proof.
  revert off. induction es as [|x es IH]; intros off Hat Hin; [done |].
  destruct Hat as (_ & Hx & _ & _ & Hat). destruct Hin as [<-|Hin]; [| by eapply IH].
  rewrite <- Hx. split_and!; apply ld32_range.
Qed.

(** A 32-bit sum of a base and a length either is the true end or lies at or
    below the base: a region that reaches 4 GB frees no frame. *)
Lemma entry_frees_region e f :
  entry_wf e -> 0 <= f < PMM_PAGES_MAX ->
  entry_frees e f = true <-> available_at e (4096 * f + 4095) /\ region_end e < W32.
Proof.
  intros (Hb & Hh & Hl & Hlh) Hf. unfold entry_frees, available_at, region_end, region_start, in_frames.
  unfold PMM_PAGES_MAX in *. rewrite !andb_true_iff, !Z.eqb_eq, Z.leb_le, Z.ltb_lt.
  destruct (Z.eqb_spec (length_high e) 0) as [E|E].
  - destruct (Z.lt_ge_cases (base_low e + length_low e) W32).
    + rewrite u32_small by lia. split; intros; split_and!; intuition lia.
    + replace (u32 (base_low e + length_low e)) with (base_low e + length_low e - W32)
        by (unfold u32; lia). split; intros; exfalso; intuition lia.
  - replace (u32 (base_low e + _)) with 0 by (unfold u32; lia). split; intros; exfalso; intuition lia.
Qed.

Lemma in_frames_touches lo hi f :
  0 <= lo -> 0 <= hi -> hi + 4095 < W32 -> 0 <= f < PMM_PAGES_MAX ->
  in_frames (lo / 4096) (u32 (hi + 4095) / 4096) f = false <-> ~ touches lo hi f.
Proof.
  intros Hlo Hhi Hw Hf. unfold in_frames, touches. rewrite u32_small by lia.
  unfold PMM_PAGES_MAX in *. rewrite andb_false_iff, Z.leb_gt, Z.ltb_ge. lia.
Qed.

(** C37. [pmm_init] on a machine with a Multiboot memory map, for a kernel
    image [kstart, kend) that ends at least a page below 4 GB, terminates with
    the accounting invariant.  With the map's regions read as 64-bit extents,
    a frame below 256 MB is free exactly when it is not frame 0, shares no
    byte with the kernel image, and its last byte is in an available region
    that ends below 4 GB.  So the frames that lie wholly in such a region are
    free, and so is the first frame of a region that starts inside it (the
    start is rounded down).  A region that reaches 4 GB or beyond frees nothing
    at all, where the comment in [pmm_init] says that its 32-bit part is
    freed. *)
Theorem pmm_init_free_frames (kstart kend mbi : Z) (m : mach) (es : list multiboot_mmap_entry_t) :
  let info := multiboot_info (m_ram m) mbi in
  0 <= kstart <= kend -> kend + 4095 < W32 ->
  ctrue (Z.land (flags info) MBOOT_FLAG_MMAP) = true ->
  mmap_at (m_ram m) (mmap_addr info) (mmap_length info) 0 es ->
  exists s m', pmm_init kstart kend mbi m = Some (s, m') /\ pmm_inv s /\
    total_pages s = total_of info /\ m_ram m' = m_ram m /\
    pmm_get_free_pages s = nfree s /\
    forall f, 0 <= f < PMM_PAGES_MAX ->
      frame_used s f = false <->
      f <> 0 /\ ~ touches kstart kend f /\
      exists e, In e es /\ available_at e (4096 * f + 4095) /\ region_end e < W32.
Proof.
  intros info Hk Hke Hflag Hat.
  destruct (pmm_init_spec kstart kend mbi m es ltac:(lia) ltac:(lia) Hflag Hat)
    as (s & m' & Hp & Hi & Ht & Hr & Hn & Hf).
  exists s, m'. do 5 (split; [assumption |]). intros f Hfr. rewrite (Hf f Hfr).
  rewrite in_frames_touches by lia.
  split; intros (H0 & Ht' & e & He & Hx); (do 2 (split; [assumption |])); exists e; (split; [assumption |]);
    apply entry_frees_region; eauto using mmap_at_wf.
Qed.

(** A 2 MB machine whose map has one available region [0, 0x200000). *)
Definition demo_ram : ram :=
  let r := st32 (st32 (st32 ∅ 0x500 (64 + 1)) 0x508 1024) 0x52C 24 in
  let r := st32 (st32 r 0x530 0x600) 0x600 20 in
  st32 (st32 r 0x60C 0x200000) 0x614 1.

Definition demo_mach : mach := set_ram (fun _ => demo_ram) mach0.

Lemma pmm_init_free_frames_witness :
  exists s m', pmm_init 0x100000 0x180000 0x500 demo_mach = Some (s, m') /\
    frame_used s 1 = false /\ frame_used s 256 = true /\ frame_used s 512 = true.
Proof.
  destruct (pmm_init_free_frames 0x100000 0x180000 0x500 demo_mach
              [mmap_entry demo_ram 0x600]) as (s & m' & Hs & _ & _ & _ & _ & H);
    [done | done | reflexivity | vm_compute; repeat split; congruence |].
  exists s, m'. split; [exact Hs |]. clear Hs. unfold PMM_PAGES_MAX in H. split_and!.
  - apply (H 1 ltac:(lia)). split_and!; [lia | unfold touches; lia |].
    eexists. split; [by left |]. vm_compute. repeat split; congruence.
  - apply not_false_is_true. intros Hf. apply (H 256 ltac:(lia)) in Hf.
    destruct Hf as (_ & Hk & _). apply Hk. unfold touches. lia.
  - apply not_false_is_true. intros Hf. apply (H 512 ltac:(lia)) in Hf.
    destruct Hf as (_ & _ & e & [<-|[]] & (_ & _ & He) & _). vm_compute in He. discriminate.
Defined.

(** C38. [pmm_alloc_page] is first fit: when some frame below [total_pages] is
    free it returns the address of the lowest one, takes exactly that frame,
    lowers the free count by one and keeps the invariant; otherwise it returns
    NULL and changes nothing. *)
Theorem pmm_alloc_page_first_fit (s : pmm) :
  pmm_inv s ->
  let (p, s') := pmm_alloc_page s in
  pmm_inv s' /\
  ((exists f, p = f * 4096 /\ 0 <= f < total_pages s /\ frame_used s f = false /\
      (forall g, 0 <= g < f -> frame_used s g = true) /\
      (forall g, 0 <= g < PMM_PAGES_MAX -> frame_used s' g = (f =? g) || frame_used s g) /\
      pmm_get_free_pages s' = pmm_get_free_pages s - 1) \/
   (p = 0 /\ s' = s /\ forall g, 0 <= g < total_pages s -> frame_used s g = true)).
Proof.
  intros Hinv. assert (Hwf : pmm_wf s) by eauto with os.
  destruct (pmm_alloc_page_spec s Hwf) as [(f & Hf & Hff & Hfl & ->)|[Hall ->]].
  - assert (Hfm : 0 <= f < PMM_PAGES_MAX) by (destruct Hwf as (_ & _ & ?); lia).
    pose proof (take_frame_inv f s Hinv Hfm Hff) as Hinv'.
    split; [done |]. left. exists f. split_and!; try done; try lia.
    + intros g Hg. by apply frame_used_take.
    + rewrite !free_pages_nfree by assumption. by apply nfree_take.
  - split; [done |]. right. done.
Qed.

(** Sixteen frames, only frame 7 free. *)
Definition demo_pmm : pmm := release_frame 7 (all_used 16).

Lemma demo_pmm_inv : pmm_inv demo_pmm.
Proof. apply release_frame_inv; [by apply all_used_inv | done | by apply all_used_frame]. Qed.

Lemma pmm_alloc_page_first_fit_witness :
  pmm_inv demo_pmm /\ pmm_inv (snd (pmm_alloc_page demo_pmm)) /\
  fst (pmm_alloc_page demo_pmm) = 7 * 4096.
Proof.
  split; [exact demo_pmm_inv |].
  pose proof (pmm_alloc_page_first_fit demo_pmm demo_pmm_inv) as Hp.
  split; [| vm_compute; reflexivity].
  destruct (pmm_alloc_page demo_pmm) as [p s']. exact (proj1 Hp).
Defined.

(** Allocating a frame and freeing it again restores the allocator's state
    exactly, bitmap and counters. *)
Theorem pmm_alloc_free_roundtrip (s : pmm) (p : Z) (s' : pmm) :
  pmm_inv s -> pmm_alloc_page s = (p, s') -> p <> 0 -> pmm_free_page p s' = s.
Proof.
  intros Hinv Halloc Hp. assert (Hwf : pmm_wf s) by eauto with os.
  destruct (pmm_alloc_page_spec s Hwf) as [(f & Hf & Hff & _ & E)|[_ E]]; rewrite E in Halloc;
    simplify_eq.
  assert (Hfm : 0 <= f < PMM_PAGES_MAX) by (destruct Hwf as (_ & _ & ?); lia).
  rewrite pmm_free_page_spec; [| by apply take_frame_inv | unfold PMM_PAGES_MAX in Hfm; lia].
  replace (f * 4096 / 4096) with f by lia. rewrite frame_used_take, Z.eqb_refl by done.
  zcase; [| cbn in E0; lia]. destruct s as [b t u]. unfold release_frame, take_frame, set_used.
  f_equal; [by apply (bit_set_clear f (Pmm b t u)) |]. destruct Hinv as [_ Hu].
  cbn [used_pages bit_set bit_clear set_word] in *. rewrite Hu. unfold u32.
  rewrite Zminus_mod_idemp_l. rewrite <- Z.add_sub_assoc, Zplus_mod_idemp_l. f_equal. lia.
Qed.

Lemma pmm_alloc_free_roundtrip_witness :
  pmm_free_page (fst (pmm_alloc_page demo_pmm)) (snd (pmm_alloc_page demo_pmm)) = demo_pmm.
Proof.
  apply (pmm_alloc_free_roundtrip demo_pmm _ _ demo_pmm_inv); [apply surjective_pairing |].
  vm_compute. discriminate.
Defined.

(** The branch of [pmm_init] for a region that crosses the 4 GB boundary
    ("only free the 32-bit part") frees nothing: the 32-bit sum of base and
    length wraps to 0. *)
Theorem crossing_region_frees_nothing (e : multiboot_mmap_entry_t) (s : pmm) :
  me_type e = MBOOT_MMAP_TYPE_AVAILABLE -> base_high e = 0 -> length_high e <> 0 ->
  0 <= base_low e < W32 -> free_entry e s = s.
Proof.
  intros Ht Hb Hl Hr. unfold free_entry. rewrite Ht, Hb. cbn [Z.eqb Pos.eqb MBOOT_MMAP_TYPE_AVAILABLE].
  replace (length_high e =? 0) with false by lia. cbn [andb].
  unfold pmm_free_region. apply for_empty. unfold PMM_PAGE_SIZE, u32. lia.
Qed.

Lemma crossing_region_frees_nothing_witness :
  free_entry (MmapEntry 20 0xC0000000 0 0 1 1) (all_used 65536) = all_used 65536.
Proof. apply crossing_region_frees_nothing; done. Defined.
