(* ===== verification/Heap.v ===== *)
(** * Heap: the first-fit free-list allocator (kernel/mm/heap.h, heap.c)

    Block headers are 16 bytes of RAM: [magic] at 0, [size] at 4, the byte
    [used] at 8 and [next] at 12.  The allocator's operations are functions of
    the static variables and of the machine; [kmalloc] walks the chain with
    fuel, and [None] is "fuel exhausted". *)
From stdpp Require Import strings.
From S2P Require Import Prelude Memory Machine Vga Console.

Definition HEAP_MAGIC := 0xC0FFEE42.
Definition HDR_SIZE := 16.
Definition ALIGN4 (x : Z) : Z := Z.land (u32 (x + 3)) (u32 (Z.lnot 3)).

(** The static variables of heap.c. *)
Record heap := Heap {
  heap_head : Z;
  heap_start_addr : Z;
  heap_end_addr : Z;
  heap_used : Z;
}.

Definition set_heap_used (u : Z) (h : heap) : heap :=
  Heap (heap_head h) (heap_start_addr h) (heap_end_addr h) u.

(** The fields of the [block_hdr_t] at [b]. *)
Definition hdr_magic (b : Z) (m : mach) : Z := mld32 m b.
Definition hdr_size (b : Z) (m : mach) : Z := mld32 m (b + 4).
Definition hdr_used (b : Z) (m : mach) : Z := mld8 m (b + 8).
Definition hdr_next (b : Z) (m : mach) : Z := mld32 m (b + 12).
Definition set_hdr_magic (b v : Z) (m : mach) : mach := mst32 b v m.
Definition set_hdr_size (b v : Z) (m : mach) : mach := mst32 (b + 4) v m.
Definition set_hdr_used (b v : Z) (m : mach) : mach := mst8 (b + 8) v m.
Definition set_hdr_next (b v : Z) (m : mach) : mach := mst32 (b + 12) v m.

Definition heap_init (start size : Z) (m : mach) : heap * mach :=
  let h := Heap start start (u32 (start + size)) 0 in
  let m := set_hdr_magic start HEAP_MAGIC m in
  let m := set_hdr_size start (u32 (size - HDR_SIZE)) m in
  let m := set_hdr_used start 0 m in
  let m := set_hdr_next start 0 m in
  let m := klog (lit "[HEAP] Initialised at 0x%x, size %u KB" ++ nl)
                [AInt start; AInt (size / 1024)] m in
  (h, m).

(** The split of a free block that is large enough for another header and a
    word: the remainder becomes a free block after the [size] bytes kept. *)
Definition split_block (blk size : Z) (m : mach) : mach :=
  let split := u32 (blk + HDR_SIZE + size) in
  let m := set_hdr_magic split HEAP_MAGIC m in
  let m := set_hdr_size split (u32 (hdr_size blk m - size - HDR_SIZE)) m in
  let m := set_hdr_used split 0 m in
  let m := set_hdr_next split (hdr_next blk m) m in
  let m := set_hdr_size blk size m in
  set_hdr_next blk split m.

Definition oom_msg (size : Z) (m : mach) : mach :=
  klog (lit "[HEAP] Out of memory! Requested %u bytes" ++ nl) [AInt size] m.

Fixpoint kmalloc_loop (fuel : nat) (blk size : Z) (h : heap) (m : mach)
  : option (Z * heap * mach) :=
  if blk =? 0 then Some (0, h, oom_msg size m)
  else
    match fuel with
    | O => None
    | S fuel' =>
        if negb (hdr_magic blk m =? HEAP_MAGIC) then
          Some (0, h, klog (lit "[HEAP] CORRUPTION: bad magic at 0x%x" ++ nl) [AInt blk] m)
        else if negb (ctrue (hdr_used blk m)) && (size <=? hdr_size blk m) then
          let m := if u32 (size + HDR_SIZE + 4) <=? hdr_size blk m
                   then split_block blk size m else m in
          let m := set_hdr_used blk 1 m in
          let h := set_heap_used (u32 (heap_used h + hdr_size blk m)) h in
          Some (u32 (blk + HDR_SIZE), h, m)
        else kmalloc_loop fuel' (hdr_next blk m) size h m
    end.

(** A chain in the heap's range has at most one block per header size. *)
Definition heap_fuel (h : heap) : nat :=
  Z.to_nat ((heap_end_addr h - heap_start_addr h) / HDR_SIZE + 1).

Definition kmalloc (size : Z) (h : heap) (m : mach) : option (Z * heap * mach) :=
  if size =? 0 then Some (0, h, m)
  else kmalloc_loop (heap_fuel h) (heap_head h) (ALIGN4 size) h m.

Definition kzalloc (size : Z) (h : heap) (m : mach) : option (Z * heap * mach) :=
  '(p, h, m) ← kmalloc size h m;
  if p =? 0 then Some (p, h, m)
  else Some (p, h, set_ram (for_ 0 size (fun i b => st8 b (u32 (p + i)) 0)) m).

Definition kfree (ptr : Z) (h : heap) (m : mach) : heap * mach :=
  if ptr =? 0 then (h, m)
  else
    let blk := u32 (ptr - HDR_SIZE) in
    if negb (hdr_magic blk m =? HEAP_MAGIC) then
      (h, klog (lit "[HEAP] kfree: bad magic at 0x%x — double-free or corruption" ++ nl) [AInt blk] m)
    else if negb (ctrue (hdr_used blk m)) then
      (h, klog (lit "[HEAP] kfree: double-free detected at 0x%x" ++ nl) [AInt ptr] m)
    else
      let h := set_heap_used (u32 (heap_used h - hdr_size blk m)) h in
      let m := set_hdr_used blk 0 m in
      let nxt := hdr_next blk m in
      if ctrue nxt && negb (ctrue (hdr_used nxt m)) then
        let m := set_hdr_size blk (u32 (hdr_size blk m + (HDR_SIZE + hdr_size nxt m))) m in
        (h, set_hdr_next blk (hdr_next nxt m) m)
      else (h, m).

(** The byte count [heap_dump_stats] reports as free. *)
Definition stats_free (h : heap) : Z :=
  let total := u32 (heap_end_addr h - heap_start_addr h) in
  u32 (total - heap_used h - HDR_SIZE).

Definition heap_dump_stats (h : heap) (m : mach) : mach :=
  let total := u32 (heap_end_addr h - heap_start_addr h) in
  klog (lit "[HEAP] Total: %u KB  Used: %u B  Free: %u B" ++ nl)
       [AInt (total / 1024); AInt (heap_used h); AInt (stats_free h)] m.

(** ** What no operation changes: the bounds, and the screen's well-formedness *)

Definition heap_kept (h h' : heap) (m m' : mach) : Prop :=
  heap_start_addr h' = heap_start_addr h /\ heap_end_addr h' = heap_end_addr h /\ (vga_wf m -> vga_wf m').

Lemma heap_kept_trans h1 h2 h3 m1 m2 m3 : heap_kept h1 h2 m1 m2 -> heap_kept h2 h3 m2 m3 -> heap_kept h1 h3 m1 m3.
Proof. intros (H1 & H2 & H3) (H4 & H5 & H6). split_and!; [congruence | congruence | auto]. Qed.

Lemma kmalloc_kept size h m p h' m' : kmalloc size h m = Some (p, h', m') -> heap_kept h h' m m'.
Proof.
  unfold kmalloc. destruct (size =? 0); [by intros [= <- <- <-] |]. generalize (heap_head h), (ALIGN4 size). intros blk n.
  revert blk. generalize (heap_fuel h). intros fuel. induction fuel as [|fuel IH]; intros blk; cbn [kmalloc_loop];
    (destruct (blk =? 0); [intros [= <- <- <-]; split_and!; [done | done | apply vga_wf_klog] |]); [done |].
  destruct (negb _); [intros [= <- <- <-]; split_and!; [done | done | apply vga_wf_klog] |].
  destruct (_ && _); [| apply IH]. intros [= <- <- <-]. split_and!; [done | done |]. by case_match.
Qed.

Lemma kzalloc_kept size h m p h' m' : kzalloc size h m = Some (p, h', m') -> heap_kept h h' m m'.
Proof.
  unfold kzalloc. destruct (kmalloc size h m) as [[[q h1] m1]|] eqn:E; [| done]. cbn [mbind option_bind].
  apply kmalloc_kept in E. by destruct (q =? 0); intros [= <- <- <-].
Qed.

Lemma kfree_kept p h m h' m' : kfree p h m = (h', m') -> heap_kept h h' m m'.
Proof.
  unfold kfree. destruct (p =? 0); [by intros [= <- <-] |].
  destruct (negb _); [intros [= <- <-]; split_and!; [done | done | apply vga_wf_klog] |].
  destruct (negb _); [intros [= <- <-]; split_and!; [done | done | apply vga_wf_klog] |].
  by destruct (_ && _); intros [= <- <-].
Qed.

(** ** The abstract heap: a list of blocks *)

Record ablk := Ablk { b_size : Z; b_used : bool }.

(** First fit on the list, from address [a]: the payload pointer and the new list. *)
Fixpoint amalloc (n a : Z) (bs : list ablk) : option (Z * list ablk) :=
  match bs with
  | [] => None
  | b :: bs' =>
      if negb (b_used b) && (n <=? b_size b) then
        Some (a + 16, if n + 20 <=? b_size b
                      then Ablk n true :: Ablk (b_size b - n - 16) false :: bs'
                      else Ablk (b_size b) true :: bs')
      else '(p, bs'') ← amalloc n (a + 16 + b_size b) bs'; Some (p, b :: bs'')
  end.

(** Releasing the used block whose payload starts at [p]. *)
Fixpoint afree (p a : Z) (bs : list ablk) : option (list ablk) :=
  match bs with
  | [] => None
  | b :: bs' =>
      if p =? a + 16 then
        if b_used b then
          Some (match bs' with
                | c :: bs'' => if b_used c then Ablk (b_size b) false :: bs'
                               else Ablk (b_size b + 16 + b_size c) false :: bs''
                | [] => [Ablk (b_size b) false]
                end)
        else None
      else bs'' ← afree p (a + 16 + b_size b) bs'; Some (b :: bs'')
  end.

Definition used_sizes (bs : list ablk) : Z :=
  fold_right (fun b s => (if b_used b then b_size b else 0) + s) 0 bs.

Definition free_sizes (bs : list ablk) : Z :=
  fold_right (fun b s => (if b_used b then 0 else b_size b) + s) 0 bs.

(** Payload address, size and status of every block of a heap starting at [a]. *)
Fixpoint payloads (a : Z) (bs : list ablk) : list (Z * Z * bool) :=
  match bs with
  | [] => []
  | b :: bs' => (a + 16, b_size b, b_used b) :: payloads (a + 16 + b_size b) bs'
  end.

(** ** Representation *)

Definition hd_ptr (a : Z) (bs : list ablk) : Z := match bs with [] => 0 | _ => a end.

(** RAM holds the header of block [b] at [a], linked to [nxt]. *)
Definition hdr_at (r : ram) (a : Z) (b : ablk) (nxt : Z) : Prop :=
  ld32 r a = HEAP_MAGIC /\ ld32 r (a + 4) = b_size b /\
  ld8 r (a + 8) = (if b_used b then 1 else 0) /\ ld32 r (a + 12) = nxt.

(** The blocks [bs] tile [a, e) and are chained in address order. *)
Fixpoint chain (r : ram) (a : Z) (bs : list ablk) (e : Z) : Prop :=
  match bs with
  | [] => a = e
  | b :: bs' =>
      hdr_at r a b (hd_ptr (a + 16 + b_size b) bs') /\
      0 <= b_size b /\ b_size b mod 4 = 0 /\ chain r (a + 16 + b_size b) bs' e
  end.

(** The heap invariant, with the list of blocks it represents. *)
Definition heap_inv (h : heap) (r : ram) (bs : list ablk) : Prop :=
  heap_head h = heap_start_addr h /\ heap_start_addr h mod 4 = 0 /\
  16 <= heap_start_addr h /\ heap_end_addr h < W32 /\ bs <> [] /\
  chain r (heap_start_addr h) bs (heap_end_addr h) /\ heap_used h = used_sizes bs.

(** ** Chains *)

Lemma used_sizes_cons b bs : used_sizes (b :: bs) = (if b_used b then b_size b else 0) + used_sizes bs.
Proof. done. Qed.

Lemma chain_len r a bs e : chain r a bs e -> a + 16 * Z.of_nat (length bs) <= e.
Proof.
  revert a. induction bs as [|b bs IH]; intros a; cbn [chain length]; [lia |].
  intros (_ & ? & _ & Hc). apply IH in Hc. lia.
Qed.

Lemma hdr_at_same r r' a b nxt : same_on a (a + 16) r r' -> hdr_at r a b nxt -> hdr_at r' a b nxt.
Proof.
  intros Hs (H1 & H2 & H3 & H4). unfold hdr_at.
  rewrite <- !(ld32_same_on _ _ _ _ _ Hs) by lia. rewrite <- (Hs (a + 8)) by lia. done.
Qed.

Lemma chain_same r r' a bs e : same_on a e r r' -> chain r a bs e -> chain r' a bs e.
Proof.
  revert a. induction bs as [|b bs IH]; intros a Hs; cbn [chain]; [done |].
  intros (Hh & H0 & H4 & Hc). pose proof (chain_len _ _ _ _ Hc).
  split_and!; try done; [eapply hdr_at_same; [| done] | apply IH; [| done]];
    eapply same_on_sub; eauto; lia.
Qed.

Lemma chain_total r a bs e :
  chain r a bs e -> e - a = used_sizes bs + free_sizes bs + 16 * Z.of_nat (length bs).
Proof.
  revert a. induction bs as [|b bs IH]; intros a; cbn [chain length used_sizes free_sizes fold_right];
    [lia |]. intros (_ & _ & _ & Hc). apply IH in Hc. unfold used_sizes, free_sizes in Hc.
  destruct (b_used b); lia.
Qed.

Lemma chain_sizes r a bs e : chain r a bs e -> 0 <= used_sizes bs /\ 0 <= free_sizes bs.
Proof.
  revert a. induction bs as [|b bs IH]; intros a; cbn [chain used_sizes free_sizes fold_right]; [lia |].
  intros (_ & ? & _ & Hc). apply IH in Hc. unfold used_sizes, free_sizes in Hc.
  destruct (b_used b); lia.
Qed.

Lemma chain_aligned r a bs e p sz u :
  chain r a bs e -> a mod 4 = 0 -> In (p, sz, u) (payloads a bs) ->
  p mod 4 = 0 /\ a + 16 <= p /\ p + sz <= e /\ 0 <= sz.
Proof.
  revert a. induction bs as [|b bs IH]; intros a; cbn [chain payloads]; [done |].
  intros (_ & H0 & H4 & Hc) Ha [Heq|Hin].
  - simplify_eq. pose proof (chain_len _ _ _ _ Hc). lia.
  - apply IH in Hin; [| done | lia]. lia.
Qed.

(** Writing the four header fields of the block at [a]. *)
Lemma write_hdr r a sz (u : bool) nxt :
  0 <= sz < W32 -> 0 <= nxt < W32 ->
  hdr_at (st32 (st8 (st32 (st32 r a HEAP_MAGIC) (a + 4) sz) (a + 8) (if u then 1 else 0)) (a + 12) nxt)
         a (Ablk sz u) nxt.
Proof.
  intros Hs Hn. unfold hdr_at. autorewrite with os. rewrite ?(u32_small sz), ?(u32_small nxt) by lia.
  split_and!; try done. by destruct u.
Qed.

(** Changing size and link of an existing header, then its flag. *)
Lemma update_hdr r a b nxt0 sz (u : bool) nxt :
  hdr_at r a b nxt0 -> 0 <= sz < W32 -> 0 <= nxt < W32 ->
  hdr_at (st8 (st32 (st32 r (a + 4) sz) (a + 12) nxt) (a + 8) (if u then 1 else 0)) a (Ablk sz u) nxt.
Proof.
  intros (Hm & _ & _ & _) Hs Hn. unfold hdr_at. autorewrite with os.
  rewrite ?(u32_small sz), ?(u32_small nxt) by lia. split_and!; try done. by destruct u.
Qed.

Lemma update_used r a b nxt (u : bool) :
  hdr_at r a b nxt -> hdr_at (st8 r (a + 8) (if u then 1 else 0)) a (Ablk (b_size b) u) nxt.
Proof.
  intros (Hm & Hs & _ & Hn). unfold hdr_at. autorewrite with os. split_and!; try done. by destruct u.
Qed.

Lemma hd_ptr_range a bs : 0 <= a < W32 -> 0 <= hd_ptr a bs < W32.
Proof. destruct bs; simpl; lia. Qed.

(** ** kmalloc refines first fit *)

(** RAM after [split_block]: the tail header, then the head's size and link. *)
Lemma split_block_ram blk size m :
  0 <= blk -> 0 <= size -> blk + 16 + size < W32 ->
  let sp := blk + 16 + size in
  let r := m_ram m in
  let r1 := st32 (st8 (st32 (st32 r sp HEAP_MAGIC) (sp + 4) (u32 (ld32 r (blk + 4) - size - 16)))
                 (sp + 8) 0) (sp + 12) (ld32 r (blk + 12)) in
  m_ram (split_block blk size m) = st32 (st32 r1 (blk + 4) size) (blk + 12) sp.
Proof.
  intros Hb Hs Hw sp r r1. unfold split_block, HDR_SIZE. rewrite (u32_small (blk + 16 + size)) by lia.
  fold sp. unfold hdr_size, hdr_next, set_hdr_magic, set_hdr_size, set_hdr_used, set_hdr_next, mld32.
  autorewrite with os. unfold r1, r. by rewrite ?ld32_st32_ne, ?ld32_st8_ne, ?ld32_st32_ne by lia.
Qed.

Lemma amalloc_cons n a bs p bs' : amalloc n a bs = Some (p, bs') -> exists b bs'', bs' = b :: bs''.
Proof.
  destruct bs as [|b bs]; cbn [amalloc]; [done |].
  destruct (negb (b_used b) && (n <=? b_size b)).
  - destruct (n + 20 <=? b_size b); intros [= <- <-]; eauto.
  - destruct (amalloc _ _ bs) as [[]|]; [| done]. intros [= <- <-]; eauto.
Qed.

Section Alloc.
Context (size e : Z) (Hsize : 0 <= size) (He : e < W32).

(** The block found: split or taken whole. *)
Lemma take_block a b bs m :
  chain (m_ram m) a (b :: bs) e -> 16 <= a -> size <= b_size b ->
  let m1 := if u32 (size + HDR_SIZE + 4) <=? hdr_size a m then split_block a size m else m in
  let m2 := set_hdr_used a 1 m1 in
  let bs' := if size + 20 <=? b_size b
             then Ablk size true :: Ablk (b_size b - size - 16) false :: bs
             else Ablk (b_size b) true :: bs in
  size mod 4 = 0 -> chain (m_ram m2) a bs' e /\
  hdr_size a m2 = (if size + 20 <=? b_size b then size else b_size b) /\
  forall x, x < a \/ a + 16 + b_size b <= x -> ld8 (m_ram m) x = ld8 (m_ram m2) x.
Proof.
  intros Hc Ha Hle m1 m2 bs' H4. pose proof (chain_len _ _ _ _ Hc) as Hlen. cbn [length] in Hlen.
  cbn [chain] in Hc. destruct Hc as (Hh & H0 & Hb4 & Hc). pose proof (chain_len _ _ _ _ Hc) as Hlen'.
  pose proof Hh as (_ & Hsz & _ & Hnx). unfold m2, m1, bs', HDR_SIZE, hdr_size, mld32 in *.
  rewrite Hsz, u32_small by lia. destruct (Z.leb_spec (size + 16 + 4) (b_size b)) as [Hsp|Hsp].
  - zcase; [| lia]. unfold set_hdr_used. rewrite m_ram_mst8, split_block_ram by lia.
    rewrite Hsz, Hnx, (u32_small (b_size b - size - 16)) by lia.
    set (sp := a + 16 + size). cbn [chain b_size]. fold sp.
    replace (sp + 16 + (b_size b - size - 16)) with (a + 16 + b_size b) by lia. cbn [hd_ptr].
    assert (Hn : 0 <= hd_ptr (a + 16 + b_size b) bs < W32) by (apply hd_ptr_range; lia).
    split_and!; try done; try lia.
    + apply (update_hdr _ a b (hd_ptr (a + 16 + b_size b) bs) size true sp); [| lia | lia].
      eapply hdr_at_same; [| exact Hh].
      intros x Hx. rewrite ?ld8_st32_ne, ?ld8_st8_ne, ?ld8_st32_ne by lia. done.
    + eapply hdr_at_same; [| apply (write_hdr (m_ram m) sp (b_size b - size - 16) false); lia].
      intros x Hx.
      by rewrite (ld8_st8_ne _ (a + 8)), (ld8_st32_ne _ (a + 12)), (ld8_st32_ne _ (a + 4)) by lia.
    + eapply chain_same; [| exact Hc]. intros x Hx.
      rewrite ?ld8_st8_ne, ?ld8_st32_ne, ?ld8_st8_ne, ?ld8_st32_ne by lia. done.
    + rewrite ld32_st8_ne, ld32_st32_ne, ld32_st32_eq by lia. apply u32_small. lia.
    + intros x Hx. rewrite ?ld8_st8_ne, ?ld8_st32_ne, ?ld8_st8_ne, ?ld8_st32_ne by lia. done.
  - zcase; [lia |]. unfold set_hdr_used. rewrite m_ram_mst8. cbn [chain b_size].
    split_and!; try done; try lia.
    + by apply (update_used _ a b _ true).
    + eapply chain_same; [| exact Hc]. apply same_on_st8. lia.
    + rewrite ld32_st8_ne by lia. done.
    + intros x Hx. rewrite ld8_st8_ne by lia. done.
Qed.

(** The walk is first fit on the list of blocks, and only the bytes of the
    block it takes change. *)
Lemma kmalloc_loop_spec fuel a bs h m :
  chain (m_ram m) a bs e -> 16 <= a -> size mod 4 = 0 -> (length bs <= fuel)%nat ->
  match amalloc size a bs with
  | None => kmalloc_loop fuel (hd_ptr a bs) size h m = Some (0, h, oom_msg size m)
  | Some (p, bs') =>
      exists m' d,
        kmalloc_loop fuel (hd_ptr a bs) size h m =
          Some (p, set_heap_used (u32 (heap_used h + d)) h, m') /\
        chain (m_ram m') a bs' e /\ used_sizes bs' = used_sizes bs + d /\
        (forall x, x < a \/ e <= x -> ld8 (m_ram m) x = ld8 (m_ram m') x) /\
        forall q s, In (q, s, true) (payloads a bs) ->
          same_on (q - 16) (q + s) (m_ram m) (m_ram m')
  end.
Proof using Hsize He.
  intros Hc Ha H4. revert fuel a Hc Ha.
  induction bs as [|b bs IH]; intros fuel a Hc Ha Hf; cbn [amalloc hd_ptr].
  { by destruct fuel. }
  destruct fuel as [|fuel]; [cbn in Hf; lia |]. cbn [kmalloc_loop].
  replace (a =? 0) with false by lia.
  pose proof (chain_len _ _ _ _ Hc) as Hlen. cbn [length] in Hlen, Hf.
  pose proof (take_block a b bs m Hc Ha) as Htake. cbv zeta in Htake.
  cbn [chain] in Hc. destruct Hc as (Hh & H0 & Hb4 & Hc).
  pose proof (chain_len _ _ _ _ Hc) as Hlen'. pose proof Hh as (Hmg & Hsz & Hus & Hnx).
  unfold hdr_magic, hdr_used, hdr_next, mld32, mld8. rewrite Hmg, Z.eqb_refl. cbn [negb].
  replace (ctrue (ld8 (m_ram m) (a + 8))) with (b_used b) by (rewrite Hus; by destruct (b_used b)).
  assert (Hszm : hdr_size a m = b_size b) by done. rewrite !Hszm in *.
  destruct (negb (b_used b) && (size <=? b_size b)) eqn:E; zbool.
  - destruct (Htake ltac:(lia) H4) as (Hc' & Hd & Hfr). rewrite Hd.
    do 2 eexists. split; [unfold HDR_SIZE; rewrite u32_small by lia; reflexivity |].
    split_and!; [exact Hc' | | |].
    + zcase; cbn; rewrite H; lia.
    + intros x Hx. apply Hfr. lia.
    + intros q s. cbn [payloads]. rewrite H. intros [[=]|Hin].
      assert (a + 16 + b_size b + 16 <= q); [| intros x Hx; apply Hfr; lia].
      clear -Hin Hc. revert Hin Hc. generalize (a + 16 + b_size b). clear.
      intros c Hin Hc. revert c Hin Hc.
      induction bs as [|b bs IH]; intros c; cbn; [done |].
      intros [[=]|Hin] (_ & ? & _ & Hc); [lia |]. specialize (IH _ Hin Hc). lia.
  - rewrite Hnx. specialize (IH fuel (a + 16 + b_size b) Hc ltac:(lia) ltac:(lia)).
    destruct (amalloc size (a + 16 + b_size b) bs) as [[p bs']|] eqn:Eam; cbn [mbind option_bind];
      [| exact IH].
    destruct IH as (m' & d & -> & Hc' & Hu & Hfr & Hpay). do 2 eexists. split; [done |].
    assert (Hs : same_on a (a + 16 + b_size b) (m_ram m) (m_ram m')) by (intros x Hx; apply Hfr; lia).
    split_and!.
    + cbn [chain]. split_and!; try done. eapply hdr_at_same; [eapply same_on_sub; [exact Hs | lia ..] |].
      assert (Hd : hd_ptr (a + 16 + b_size b) bs' = hd_ptr (a + 16 + b_size b) bs).
      { destruct bs; [done |]. by apply amalloc_cons in Eam as (? & ? & ->). }
      by rewrite Hd.
    + cbn. unfold used_sizes in Hu. lia.
    + intros x Hx. apply Hfr. lia.
    + intros q s. cbn [payloads]. intros [[=]|Hin]; [| by apply Hpay].
      subst. eapply same_on_sub; [exact Hs | lia | lia].
Qed.
End Alloc.

(** ** First fit on the list *)

Lemma amalloc_full n a bs :
  Forall (fun b => b_used b = true \/ b_size b < n) bs -> amalloc n a bs = None.
Proof.
  intros H. revert a. induction H as [|b bs Hb _ IH]; intros a; cbn [amalloc]; [done |]. rewrite IH.
  replace (negb (b_used b) && (n <=? b_size b)) with false; [done |]. destruct Hb as [-> | Hb]; [done |].
  replace (n <=? b_size b) with false by (symmetry; apply Z.leb_gt; lia). by rewrite andb_false_r.
Qed.

Lemma amalloc_none n a bs :
  amalloc n a bs = None -> Forall (fun b => b_used b = true \/ b_size b < n) bs.
Proof.
  revert a. induction bs as [|b bs IH]; intros a; cbn [amalloc]; [done |].
  destruct (negb (b_used b) && (n <=? b_size b)) eqn:E; [done |].
  destruct (amalloc n _ bs) as [[]|] eqn:E'; [done |]. intros _. constructor; [| by eapply IH].
  zbool. destruct E as [E|E]; zbool; [by left | by right].
Qed.

(** The allocated payload holds [n] bytes; blocks in use keep their place and
    lie outside it. *)
Lemma amalloc_some n a bs p bs' :
  amalloc n a bs = Some (p, bs') -> Forall (fun b => 0 <= b_size b) bs -> 0 <= n ->
  bs' <> [] /\
  exists sz, n <= sz /\ In (p, sz, true) (payloads a bs') /\ a + 16 <= p /\
    used_sizes bs' = used_sizes bs + sz /\
    forall q s, In (q, s, true) (payloads a bs) ->
      In (q, s, true) (payloads a bs') /\ (q + s <= p - 16 \/ p + sz <= q - 16).
Proof.
  intros Ham Hall Hn. revert a bs' Ham. induction Hall as [|b bs Hb Hall IH]; intros a bs'; cbn [amalloc]; [done |].
  assert (Hlow : forall c, forall q s u, In (q, s, u) (payloads c bs) -> c + 16 <= q /\ 0 <= s).
  { clear -Hall. induction Hall as [|b bs Hb Hall IH]; intros c q s u; cbn; [done |].
    intros [[=]|Hin]; [lia |]. apply IH in Hin. lia. }
  destruct (negb (b_used b) && (n <=? b_size b)) eqn:E; zbool.
  - intros [= <- <-]. split; [by destruct (n + 20 <=? b_size b) |].
    destruct (Z.leb_spec (n + 20) (b_size b)) as [Hsp|Hsp].
    + exists n. cbn [payloads b_size b_used].
      replace (a + 16 + n + 16 + (b_size b - n - 16)) with (a + 16 + b_size b) by lia.
      split_and!; [lia | by left | lia | cbn; rewrite H; lia |]. rewrite H. intros q s [[=]|Hin].
      apply Hlow in Hin as Hq. split; [right; right; done | lia].
    + exists (b_size b). cbn [payloads b_size b_used].
      split_and!; [lia | by left | lia | cbn; rewrite H; lia |].
      rewrite H. intros q s [[=]|Hin]. apply Hlow in Hin as Hq. split; [by right | lia].
  - destruct (amalloc n (a + 16 + b_size b) bs) as [[p1 bs1]|] eqn:E'; [| done].
    cbn [mbind option_bind]. intros [= <- <-]. split; [done |].
    destruct (IH _ _ E') as (_ & sz & Hsz & Hin & Hp & Hu & Hq). exists sz.
    cbn [payloads]. rewrite !used_sizes_cons. split_and!; [done | by right | lia | lia |].
    intros q s [[=]|Hin']; [subst; split; [by left; congruence | lia] |].
    destruct (Hq q s Hin') as [? ?]. split; [by right | done].
Qed.

(** ** kfree refines release-and-merge-forward *)

Lemma chain_nonneg r a bs e : chain r a bs e -> Forall (fun b => 0 <= b_size b) bs.
Proof.
  revert a. induction bs as [|b bs IH]; intros a; cbn [chain]; [done |].
  intros (_ & ? & _ & Hc). constructor; [done | by eapply IH].
Qed.

Lemma payloads_low a bs q s u :
  Forall (fun b => 0 <= b_size b) bs -> In (q, s, u) (payloads a bs) -> a + 16 <= q /\ 0 <= s.
Proof.
  intros Hall. revert a. induction Hall as [|b bs Hb Hall IH]; intros a; cbn [payloads]; [done |].
  intros [[=]|Hin]; [lia |]. apply IH in Hin. lia.
Qed.

(** Distinct blocks, headers included, do not overlap. *)
Lemma payloads_disjoint a bs p sz u q s v :
  Forall (fun b => 0 <= b_size b) bs ->
  In (p, sz, u) (payloads a bs) -> In (q, s, v) (payloads a bs) -> q <> p ->
  q + s <= p - 16 \/ p + sz <= q - 16.
Proof.
  intros Hall. revert a. induction Hall as [|b bs Hb Hall IH]; intros a; cbn [payloads]; [done |].
  intros [[=]|Hp] [[=]|Hq] Hne; try (by eapply IH).
  - lia.
  - apply payloads_low in Hq; [lia | done].
  - apply payloads_low in Hp; [lia | done].
Qed.

(** The header of any block of the chain. *)
Lemma chain_hdr r a bs e p sz u :
  chain r a bs e -> In (p, sz, u) (payloads a bs) ->
  exists nxt, hdr_at r (p - 16) (Ablk sz u) nxt.
Proof.
  revert a. induction bs as [|b bs IH]; intros a; cbn [chain payloads]; [done |].
  intros (Hh & _ & _ & Hc) [[= <- <- <-]|Hin]; [| by eapply IH].
  replace (a + 16 - 16) with a by lia. eexists. destruct b; exact Hh.
Qed.

(** RAM after the body of [kfree] on the block at [blk]. *)
Definition free_ram (blk : Z) (r : ram) : ram :=
  let r := st8 r (blk + 8) 0 in
  let nxt := ld32 r (blk + 12) in
  if ctrue nxt && negb (ctrue (ld8 r (nxt + 8))) then
    let r := st32 r (blk + 4) (u32 (ld32 r (blk + 4) + (HDR_SIZE + ld32 r (nxt + 4)))) in
    st32 r (blk + 12) (ld32 r (nxt + 12))
  else r.

Lemma free_ram_frame blk r x : x < blk \/ blk + 16 <= x -> ld8 (free_ram blk r) x = ld8 r x.
Proof.
  intros Hx. unfold free_ram. cbv zeta. zcase; rewrite ?ld8_st32_ne, ?ld8_st8_ne by lia; done.
Qed.

Lemma free_head r a b bs e :
  chain r a (b :: bs) e -> 16 <= a -> e < W32 -> b_used b = true ->
  exists bs', afree (a + 16) a (b :: bs) = Some bs' /\ chain (free_ram a r) a bs' e /\
    used_sizes bs' = used_sizes (b :: bs) - b_size b /\ bs' <> [] /\
    forall q s, In (q, s, true) (payloads a (b :: bs)) -> q <> a + 16 -> In (q, s, true) (payloads a bs').
Proof.
  intros Hc Ha He Hu. pose proof (chain_len _ _ _ _ Hc) as Hlen. cbn [length] in Hlen.
  cbn [chain] in Hc. destruct Hc as (Hh & H0 & H4 & Hc). pose proof (chain_len _ _ _ _ Hc) as Hlen'.
  cbn [afree]. rewrite Z.eqb_refl, Hu. pose proof Hh as (Hm & Hs & _ & Hn).
  assert (Hh1 : hdr_at (st8 r (a + 8) 0) a (Ablk (b_size b) false) (hd_ptr (a + 16 + b_size b) bs))
    by exact (update_used r a b _ false Hh).
  assert (Hc1 : chain (st8 r (a + 8) 0) (a + 16 + b_size b) bs e).
  { eapply chain_same; [| exact Hc]. apply same_on_st8. lia. }
  unfold free_ram. cbv zeta. destruct Hh1 as (Hm1 & Hs1 & Hu1 & Hn1). rewrite Hn1.
  set (r1 := st8 r (a + 8) 0) in *. cbn [b_size b_used] in *.
  destruct bs as [|c bs]; cbn [hd_ptr].
  { eexists. split; [done |]. change (ctrue 0) with false. cbn [andb chain hd_ptr b_size payloads].
    split_and!; try done; [rewrite !used_sizes_cons, Hu; cbn; lia |].
    intros q s [[=]|[]]. done. }
  assert (Hnz : ctrue (a + 16 + b_size b) = true) by (unfold ctrue; lia). rewrite Hnz. cbn [andb].
  pose proof (chain_len _ _ _ _ Hc1) as Hlen1. cbn [length] in Hlen1.
  pose proof Hc1 as Hc1'. cbn [chain] in Hc1. destruct Hc1 as ((_ & Hcs & Hcu & Hcn) & Hc0 & Hc4 & Hct).
  pose proof (chain_len _ _ _ _ Hct) as Hlen2. rewrite Hcu. destruct (b_used c) eqn:Ecu; cbn [ctrue Z.eqb negb].
  - eexists. split; [done |]. split_and!; [by split_and! | | done |].
    { rewrite !used_sizes_cons, Hu, Ecu. cbn [b_used]. lia. }
    intros q s [[=]|Hin] Hne; [done | by right].
  - eexists. split; [done |]. rewrite Hs1, Hcs, ld32_st32_ne, Hcn by lia. unfold HDR_SIZE.
    rewrite u32_small by lia. cbn [chain b_size payloads b_used].
    replace (a + 16 + (b_size b + 16 + b_size c)) with (a + 16 + b_size b + 16 + b_size c) by lia.
    replace (b_size b + (16 + b_size c)) with (b_size b + 16 + b_size c) by lia.
    assert (Hp : 0 <= hd_ptr (a + 16 + b_size b + 16 + b_size c) bs < W32) by (apply hd_ptr_range; lia).
    split_and!; try done; try lia.
    + unfold hdr_at. cbn [b_size b_used]. rewrite !ld32_st32_ne, !ld8_st32_ne, !ld32_st32_eq by lia.
      rewrite !u32_small by lia. done.
    + eapply chain_same; [| exact Hct]. intros x Hx. rewrite !ld8_st32_ne by lia. done.
    + rewrite !used_sizes_cons, Hu, Ecu. cbn [b_used]. lia.
    + intros q s [[=]|[[=]|Hin]] Hne; [congruence | congruence | by right].
Qed.

Lemma free_any r a bs e p sz :
  chain r a bs e -> 16 <= a -> e < W32 -> In (p, sz, true) (payloads a bs) ->
  exists bs', afree p a bs = Some bs' /\ chain (free_ram (p - 16) r) a bs' e /\
    used_sizes bs' = used_sizes bs - sz /\ bs' <> [] /\
    forall q s, In (q, s, true) (payloads a bs) -> q <> p -> In (q, s, true) (payloads a bs').
Proof.
  revert a. induction bs as [|b bs IH]; intros a Hc Ha He; cbn [payloads]; [done |].
  intros [[= <- <- Hu]|Hin].
  { destruct (free_head r a b bs e Hc Ha He Hu) as (bs' & ? & ? & ? & ? & ?).
    replace (a + 16 - 16) with a by lia. by exists bs'. }
  cbn [chain] in Hc. destruct Hc as (Hh & H0 & H4 & Hc).
  pose proof (payloads_low _ _ _ _ _ (chain_nonneg _ _ _ _ Hc) Hin) as [Hp Hs0].
  destruct (IH _ Hc ltac:(lia) He Hin) as (bs' & Haf & Hc' & Hu & Hne & Hk).
  exists (b :: bs'). cbn [afree]. replace (p =? a + 16) with false by lia. rewrite Haf.
  cbn [mbind option_bind chain]. rewrite !used_sizes_cons. split_and!; try done; [| lia |].
  - assert (Hd : hd_ptr (a + 16 + b_size b) bs' = hd_ptr (a + 16 + b_size b) bs).
    { destruct bs; [done |]. by destruct bs'. }
    rewrite Hd. eapply hdr_at_same; [| exact Hh]. intros x Hx. rewrite free_ram_frame by lia. done.
  - cbn [payloads]. intros q s [[=]|Hq] Hqp; [left; congruence | right; by apply Hk].
Qed.

Lemma kfree_used p sz nxt h m :
  hdr_at (m_ram m) (p - 16) (Ablk sz true) nxt -> 16 <= p < W32 ->
  exists m', kfree p h m = (set_heap_used (u32 (heap_used h - sz)) h, m') /\
    m_ram m' = free_ram (p - 16) (m_ram m).
Proof.
  intros (Hm & Hs & Hu & Hn) Hp. unfold kfree, HDR_SIZE. replace (p =? 0) with false by lia.
  rewrite u32_small by lia. unfold hdr_magic, hdr_size, hdr_used, hdr_next, mld32, mld8.
  rewrite Hm, Z.eqb_refl, Hu, Hs. cbn [negb ctrue Z.eqb b_used b_size Pos.eqb].
  unfold set_hdr_used, set_hdr_size, set_hdr_next, free_ram, HDR_SIZE.
  rewrite !m_ram_mst8. cbv zeta. destruct (ctrue _ && _); eexists; (split; [reflexivity |]); done.
Qed.

Lemma kfree_free p sz nxt h m :
  hdr_at (m_ram m) (p - 16) (Ablk sz false) nxt -> 16 <= p < W32 ->
  exists m', kfree p h m = (h, m') /\ m_ram m' = m_ram m.
Proof.
  intros (Hm & Hs & Hu & Hn) Hp. unfold kfree, HDR_SIZE. replace (p =? 0) with false by lia.
  rewrite u32_small by lia. unfold hdr_magic, hdr_used, mld32, mld8.
  rewrite Hm, Z.eqb_refl, Hu. cbn [negb ctrue Z.eqb b_used]. eexists. split; [reflexivity |].
  apply m_ram_klog.
Qed.

(** ** Alignment of requests *)

Lemma align4_eq x : 0 <= x -> x + 3 < W32 -> ALIGN4 x = (x + 3) / 4 * 4.
Proof.
  intros H0 H. unfold ALIGN4. rewrite (u32_small (x + 3)) by lia.
  assert (Hm : u32 (Z.lnot 3) = Z.ldiff (Z.ones 32) 3) by reflexivity. rewrite Hm.
  transitivity (Z.ldiff (x + 3) (Z.ones 2)).
  - apply Z.bits_inj'. intros k Hk. rewrite Z.land_spec, !Z.ldiff_spec.
    change 3 with (Z.ones 2). destruct (Z.lt_ge_cases k 32).
    + rewrite (Z.ones_spec_low 32) by lia. done.
    + rewrite (testbit_u32_high (x + Z.ones 2)) by (change (Z.ones 2) with 3; lia). done.
  - rewrite Z.ldiff_ones_r by lia. rewrite Z.shiftr_div_pow2, Z.shiftl_mul_pow2 by lia. done.
Qed.

Lemma align4_mod x : 0 <= x < W32 -> ALIGN4 x mod 4 = 0 /\ 0 <= ALIGN4 x.
Proof.
  intros H. destruct (Z.lt_ge_cases (x + 3) W32).
  - rewrite align4_eq by lia. lia.
  - unfold ALIGN4. replace (u32 (x + 3)) with (x + 3 - W32) by (unfold u32; lia).
    assert (Hx : x + 3 - W32 = 0 \/ x + 3 - W32 = 1 \/ x + 3 - W32 = 2) by lia.
    destruct Hx as [->|[->| ->]]; vm_compute; split; congruence.
Qed.

(** ** The public operations against the invariant *)

Lemma heap_inv_range h r bs :
  heap_inv h r bs -> 0 <= used_sizes bs /\ used_sizes bs <= heap_end_addr h - heap_start_addr h - 16.
Proof.
  intros (_ & _ & _ & _ & Hne & Hc & _). pose proof (chain_sizes _ _ _ _ Hc) as [? ?].
  pose proof (chain_total _ _ _ _ Hc). destruct bs; [done |]. cbn [length] in *. lia.
Qed.

Lemma kmalloc_spec h m bs size :
  heap_inv h (m_ram m) bs -> 0 < size < W32 ->
  let start := heap_start_addr h in
  match amalloc (ALIGN4 size) start bs with
  | None => kmalloc size h m = Some (0, h, oom_msg (ALIGN4 size) m)
  | Some (p, bs') =>
      exists h' m', kmalloc size h m = Some (p, h', m') /\ heap_inv h' (m_ram m') bs' /\
        heap_start_addr h' = start /\ heap_end_addr h' = heap_end_addr h /\
        (forall x, x < start \/ heap_end_addr h <= x -> ld8 (m_ram m) x = ld8 (m_ram m') x) /\
        forall q s, In (q, s, true) (payloads start bs) -> same_on (q - 16) (q + s) (m_ram m) (m_ram m')
  end.
Proof.
  intros Hinv Hs start. pose proof Hinv as (Hh & H4 & H16 & He & Hne & Hc & Hu).
  destruct (align4_mod size ltac:(lia)) as [Ha4 Ha0].
  pose proof (chain_len _ _ _ _ Hc) as Hlen. unfold kmalloc. replace (size =? 0) with false by lia.
  assert (Hhd : heap_head h = hd_ptr start bs) by (rewrite Hh; by destruct bs). rewrite Hhd.
  pose proof (kmalloc_loop_spec (ALIGN4 size) (heap_end_addr h) Ha0 He (heap_fuel h) start bs h m
                Hc H16 Ha4) as Hloop.
  specialize (Hloop ltac:(unfold heap_fuel, HDR_SIZE; lia)).
  destruct (amalloc (ALIGN4 size) start bs) as [[p bs']|] eqn:Eam; [| exact Hloop].
  destruct Hloop as (m' & d & -> & Hc' & Hd & Hfr & Hpay). do 2 eexists. split; [done |].
  split_and!; [| done | done | done | done].
  pose proof (chain_sizes _ _ _ _ Hc') as [? ?]. pose proof (chain_total _ _ _ _ Hc').
  apply amalloc_cons in Eam as (? & ? & ->). unfold heap_inv. cbn [set_heap_used heap_head heap_start_addr heap_end_addr heap_used].
  cbn [length] in *. split_and!; try done. rewrite Hu, u32_small; lia.
Qed.

Lemma kfree_spec h m bs p sz :
  heap_inv h (m_ram m) bs -> In (p, sz, true) (payloads (heap_start_addr h) bs) ->
  exists h' m' bs', kfree p h m = (h', m') /\ afree p (heap_start_addr h) bs = Some bs' /\
    heap_inv h' (m_ram m') bs' /\ heap_used h' = heap_used h - sz /\
    heap_start_addr h' = heap_start_addr h /\ m_ram m' = free_ram (p - 16) (m_ram m) /\
    forall q s, In (q, s, true) (payloads (heap_start_addr h) bs) -> q <> p ->
      In (q, s, true) (payloads (heap_start_addr h) bs').
Proof.
  intros Hinv Hin. pose proof (heap_inv_range _ _ _ Hinv) as Hrange.
  pose proof Hinv as (Hh & H4 & H16 & He & Hne & Hc & Hu).
  destruct (chain_aligned _ _ _ _ _ _ _ Hc H4 Hin) as (_ & Hp1 & Hp2 & Hsz).
  destruct (chain_hdr _ _ _ _ _ _ _ Hc Hin) as [nxt Hhdr].
  destruct (kfree_used p sz nxt h m Hhdr ltac:(lia)) as (m' & Heq & Hram).
  destruct (free_any _ _ _ _ _ _ Hc H16 He Hin) as (bs' & Haf & Hc' & Hu' & Hne' & Hk).
  rewrite <- Hram in Hc'. pose proof (chain_sizes _ _ _ _ Hc') as [? ?].
  do 3 eexists. split; [exact Heq |].
  split_and!; [exact Haf | | cbn [set_heap_used heap_used]; rewrite Hu, u32_small; lia | done | done | done].
  unfold heap_inv. cbn [set_heap_used heap_head heap_start_addr heap_end_addr heap_used].
  split_and!; try done. rewrite Hu, u32_small; lia.
Qed.

Lemma heap_init_kept start size m :
  heap_start_addr (heap_init start size m).1 = start /\ heap_end_addr (heap_init start size m).1 = u32 (start + size) /\
  (vga_wf m -> vga_wf (heap_init start size m).2).
Proof.
  unfold heap_init. cbn [fst snd heap_start_addr heap_end_addr]. split; [done |]. split; [done |].
  intros H. apply vga_wf_klog. exact H.
Qed.

Lemma heap_init_inv start size m :
  16 <= start -> start mod 4 = 0 -> 16 <= size -> size mod 4 = 0 -> start + size < W32 ->
  heap_inv (fst (heap_init start size m)) (m_ram (snd (heap_init start size m)))
           [Ablk (size - 16) false] /\
  forall x, x < start \/ start + 16 <= x ->
    ld8 (m_ram (snd (heap_init start size m))) x = ld8 (m_ram m) x.
Proof.
  intros Hs Hs4 Hz Hz4 He. unfold heap_init. cbn [fst snd].
  rewrite m_ram_klog. unfold set_hdr_magic, set_hdr_size, set_hdr_used, set_hdr_next, HDR_SIZE.
  rewrite !m_ram_mst32, m_ram_mst8, !m_ram_mst32, (u32_small (size - 16)), (u32_small (start + size)) by lia.
  split.
  - unfold heap_inv. cbn [heap_head heap_start_addr heap_end_addr heap_used chain b_size hd_ptr used_sizes fold_right b_used].
    split_and!; try done; try lia. apply (write_hdr (m_ram m) start (size - 16) false 0); lia.
  - intros x Hx. by rewrite !ld8_st32_ne, ld8_st8_ne, !ld8_st32_ne by lia.
Qed.

(** The zeroing loop of [kzalloc] inside the address space. *)
Lemma zero_loop r p size :
  0 <= p -> p + size <= W32 -> for_ 0 size (fun i b => st8 b (u32 (p + i)) 0) r = fill8 r p size (fun _ => 0).
Proof. intros Hp Hs. unfold fill8. apply for_ext. intros j t Hj. by rewrite u32_small by lia. Qed.

(** Writing inside a payload keeps the chain. *)
Lemma chain_payload r r' a bs e p sz u :
  chain r a bs e -> In (p, sz, u) (payloads a bs) ->
  (forall x, x < p \/ p + sz <= x -> ld8 r x = ld8 r' x) -> chain r' a bs e.
Proof.
  revert a. induction bs as [|b bs IH]; intros a; cbn [chain payloads]; [done |].
  intros (Hh & H0 & H4 & Hc) [[= <- <- <-]|Hin] Hr; split_and!; try done.
  - eapply hdr_at_same; [| exact Hh]. intros x Hx. apply Hr. lia.
  - eapply chain_same; [| exact Hc]. intros x Hx. apply Hr. lia.
  - pose proof (payloads_low _ _ _ _ _ (chain_nonneg _ _ _ _ Hc) Hin).
    eapply hdr_at_same; [| exact Hh]. intros x Hx. apply Hr. lia.
  - by apply IH.
Qed.

Lemma heap_inv_payload h r r' bs p sz u :
  heap_inv h r bs -> In (p, sz, u) (payloads (heap_start_addr h) bs) ->
  (forall x, x < p \/ p + sz <= x -> ld8 r x = ld8 r' x) -> heap_inv h r' bs.
Proof.
  intros (H1 & H2 & H3 & H4 & H5 & Hc & H6) Hin Hr. split_and!; try done. by eapply chain_payload.
Qed.

(** Only the headers matter to the chain. *)
Lemma chain_headers r r' a bs e :
  chain r a bs e -> (forall q s u, In (q, s, u) (payloads a bs) -> same_on (q - 16) q r r') -> chain r' a bs e.
Proof.
  revert a. induction bs as [|b bs IH]; intros a; cbn [chain payloads]; [done |].
  intros (Hh & H0 & H4 & Hc) Hr. split_and!; try done.
  - eapply hdr_at_same; [| exact Hh]. eapply same_on_sub; [apply (Hr (a + 16) (b_size b) (b_used b)); by left | lia | lia].
  - apply IH; [done |]. intros q s u Hin. apply (Hr q s u). by right.
Qed.

(** Writing inside two payloads keeps the invariant. *)
Lemma heap_inv_payload2 h r r' bs p s1 u1 k s2 u2 :
  heap_inv h r bs -> In (p, s1, u1) (payloads (heap_start_addr h) bs) ->
  In (k, s2, u2) (payloads (heap_start_addr h) bs) ->
  (forall x, x < p \/ p + s1 <= x -> x < k \/ k + s2 <= x -> ld8 r x = ld8 r' x) -> heap_inv h r' bs.
Proof.
  intros (H1 & H2 & H3 & H4 & H5 & Hc & H6) Hp Hk Hr. split_and!; try done.
  eapply chain_headers; [exact Hc |]. intros q s u Hq x Hx. apply chain_nonneg in Hc.
  assert (Hd : forall y sy uy, In (y, sy, uy) (payloads (heap_start_addr h) bs) -> x < y \/ y + sy <= x).
  { intros y sy uy Hy. destruct (Z.eq_dec q y) as [->|Hne]; [lia |].
    pose proof (payloads_disjoint _ _ _ _ _ _ _ _ Hc Hy Hq Hne) as Hd.
    pose proof (payloads_low _ _ _ _ _ Hc Hq). lia. }
  apply Hr; eapply Hd; eassumption.
Qed.

(** No two neighbours are both free. *)
Fixpoint no_adj_free (bs : list ablk) : bool :=
  match bs with
  | b :: ((c :: _) as bs') => (b_used b || b_used c) && no_adj_free bs'
  | _ => true
  end.

(** Releasing the block first fit returned. *)
Lemma afree_amalloc n a bs p bs' :
  amalloc n a bs = Some (p, bs') -> Forall (fun b => 0 <= b_size b) bs -> 0 <= n ->
  no_adj_free bs = true -> afree p a bs' = Some bs.
Proof.
  intros Ham Hall Hn. revert a bs' Ham. induction Hall as [|b bs Hb Hall IH]; intros a bs'; cbn [amalloc]; [done |].
  destruct (negb (b_used b) && (n <=? b_size b)) eqn:E; zbool.
  - intros [= <- <-] Hadj. destruct b as [sz u]; cbn [b_used b_size] in *; subst u.
    destruct (Z.leb_spec (n + 20) sz); cbn [afree b_used b_size]; rewrite Z.eqb_refl.
    { by replace (n + 16 + (sz - n - 16)) with sz by lia. }
    destruct bs as [|c bs]; [done |]. cbn [no_adj_free b_used orb] in Hadj.
    apply andb_prop in Hadj as [Hcu _]. by rewrite Hcu.
  - destruct (amalloc n (a + 16 + b_size b) bs) as [[p1 bs1]|] eqn:E'; [| done].
    cbn [mbind option_bind]. intros [= <- <-] Hadj. cbn [afree].
    destruct (amalloc_some _ _ _ _ _ E' Hall Hn) as (_ & ? & _ & _ & Hp & _).
    replace (p1 =? a + 16) with false by lia. rewrite (IH _ _ E'); [done |].
    destruct bs; [done |]. cbn [no_adj_free] in Hadj. by zbool.
Qed.

Lemma amalloc_sizes n a bs p bs' :
  amalloc n a bs = Some (p, bs') -> 0 <= n -> Forall (fun b => 0 <= b_size b) bs -> Forall (fun b => 0 <= b_size b) bs'.
Proof.
  intros Ham Hn Hall. revert a bs' Ham. induction Hall as [|b bs Hb Hall IH]; intros a bs'; cbn [amalloc]; [done |].
  destruct (negb (b_used b) && (n <=? b_size b)) eqn:E; zbool.
  - intros [= <- <-]. destruct (Z.leb_spec (n + 20) (b_size b)); repeat constructor; cbn [b_size]; (done || lia).
  - destruct (amalloc n (a + 16 + b_size b) bs) as [[p1 bs1]|] eqn:E'; [| done]. cbn [mbind option_bind]. intros [= <- <-].
    constructor; [done | by eapply IH].
Qed.

(** First fit keeps free blocks apart. *)
Lemma amalloc_no_adj n a bs p bs' : amalloc n a bs = Some (p, bs') -> no_adj_free bs = true -> no_adj_free bs' = true.
Proof.
  revert a bs'. induction bs as [|b bs IH]; intros a bs'; cbn [amalloc]; [done |].
  destruct (negb (b_used b) && (n <=? b_size b)) eqn:E; zbool.
  - intros [= <- <-] Hadj. destruct (n + 20 <=? b_size b); destruct bs as [|c bs]; cbn [no_adj_free b_used orb] in *; try done;
      rewrite H in Hadj; exact Hadj || by apply andb_prop in Hadj as [_ ->].
  - destruct (amalloc n (a + 16 + b_size b) bs) as [[p1 bs1]|] eqn:E'; [| done]. cbn [mbind option_bind]. intros [= <- <-] Hadj.
    assert (Hadj' : no_adj_free bs = true) by (destruct bs; [done | cbn [no_adj_free] in Hadj; by apply andb_prop in Hadj as [_ ?]]).
    pose proof (IH _ _ E' Hadj') as H1. destruct bs1 as [|d bs1]; [done |].
    change (no_adj_free (b :: d :: bs1)) with ((b_used b || b_used d) && no_adj_free (d :: bs1)). rewrite H1, andb_true_r.
    destruct bs as [|c bs]; [done |]. cbn [amalloc] in E'. cbn [no_adj_free] in Hadj. apply andb_prop in Hadj as [Hbc _].
    destruct (negb (b_used c) && (n <=? b_size c)); [| destruct (amalloc n _ bs) as [[]|]; [| done]].
    + destruct (n + 20 <=? b_size c); injection E' as _ <- _; cbn [b_used]; by rewrite orb_true_r.
    + cbn [mbind option_bind] in E'. injection E' as _ <- _. exact Hbc.
Qed.

(** What a successful allocation of [size] bytes at [p] guarantees. *)
Definition alloc_ok (h : heap) (m : mach) (bs : list ablk) (size p : Z) (h' : heap) (m' : mach) (bs' : list ablk) : Prop :=
  exists sz, In (p, sz, true) (payloads (heap_start_addr h) bs') /\ size <= sz /\ p mod 4 = 0 /\
    heap_start_addr h + 16 <= p /\ p + sz <= heap_end_addr h /\ heap_used h' = heap_used h + sz /\
    (forall q s, In (q, s, true) (payloads (heap_start_addr h) bs) ->
       In (q, s, true) (payloads (heap_start_addr h) bs') /\ (q + s <= p - 16 \/ p + sz <= q - 16) /\
       same_on (q - 16) (q + s) (m_ram m) (m_ram m')) /\
    forall x, x < heap_start_addr h \/ heap_end_addr h <= x -> ld8 (m_ram m) x = ld8 (m_ram m') x.

(** Both outcomes of [kmalloc] on a well-formed heap. *)
Lemma kmalloc_cases h m bs size :
  heap_inv h (m_ram m) bs -> 0 < size -> size + 3 < W32 ->
  exists p h' m' bs', kmalloc size h m = Some (p, h', m') /\ heap_inv h' (m_ram m') bs' /\
    heap_start_addr h' = heap_start_addr h /\ heap_end_addr h' = heap_end_addr h /\
    ((p = 0 /\ h' = h /\ m_ram m' = m_ram m /\ bs' = bs) \/
     (p <> 0 /\ alloc_ok h m bs size p h' m' bs')).
Proof.
  intros Hinv H0 H3. pose proof (kmalloc_spec h m bs size Hinv ltac:(lia)) as H. cbv zeta in H.
  destruct (amalloc (ALIGN4 size) (heap_start_addr h) bs) as [[p bs']|] eqn:Eam.
  2: { exists 0, h, (oom_msg (ALIGN4 size) m), bs. unfold oom_msg in *. rewrite m_ram_klog.
       split; [exact H |]. split; [exact Hinv |]. split; [done |]. split; [done | by left]. }
  destruct H as (h' & m' & Hk & Hinv' & Hst & Hen & Hfr & Hpay).
  pose proof Hinv as (_ & H4 & H16 & _ & _ & Hc & _). pose proof Hinv' as (_ & _ & _ & _ & _ & Hc' & _).
  destruct (amalloc_some _ _ _ _ _ Eam (chain_nonneg _ _ _ _ Hc)) as (_ & sz & Hsz & Hin & Hlo & Hus & Hq);
    [apply align4_mod; lia |].
  rewrite align4_eq in Hsz by lia. rewrite Hst, Hen in Hc'.
  destruct (chain_aligned _ _ _ _ _ _ _ Hc' H4 Hin) as (? & ? & ? & ?).
  assert (Hu' : heap_used h' = heap_used h + sz).
  { destruct Hinv as (_ & _ & _ & _ & _ & _ & ->), Hinv' as (_ & _ & _ & _ & _ & _ & ->). done. }
  exists p, h', m', bs'. split_and!; try done. right. split; [lia |]. exists sz.
  split_and!; try done; try lia. intros q s Hqs. destruct (Hq q s Hqs). split_and!; try done. by apply Hpay.
Qed.

Lemma kzalloc_cases h m bs size :
  heap_inv h (m_ram m) bs -> 0 < size -> size + 3 < W32 ->
  exists p h' m' bs', kzalloc size h m = Some (p, h', m') /\ heap_inv h' (m_ram m') bs' /\
    heap_start_addr h' = heap_start_addr h /\ heap_end_addr h' = heap_end_addr h /\
    ((p = 0 /\ h' = h /\ m_ram m' = m_ram m /\ bs' = bs) \/
     (p <> 0 /\ alloc_ok h m bs size p h' m' bs' /\ forall x, p <= x < p + size -> ld8 (m_ram m') x = 0)).
Proof.
  intros Hinv H0 H3. unfold kzalloc.
  destruct (kmalloc_cases h m bs size Hinv H0 H3) as (p & h' & m' & bs' & -> & Hinv' & Hst & Hen & Hcase).
  cbn [mbind option_bind]. destruct Hcase as [(-> & -> & Hr & ->)|(Hp & sz & Hin & Hsz & Ha & Hlo & Hhi & Hus & Hq & Hfr)].
  { exists 0, h, m', bs. split_and!; try done. left. done. }
  replace (p =? 0) with false by lia. do 4 eexists. split; [reflexivity |].
  pose proof Hinv as (_ & _ & H16 & He & _ & Hc & _).
  pose proof Hinv' as (I1 & I2 & I3 & I4 & I5 & Hc' & I6). rewrite m_ram_set_ram, zero_loop by lia.
  split; [| split; [done | split; [done | right]]].
  { split_and!; try done. eapply chain_payload; [exact Hc' | rewrite Hst; exact Hin |]. intros x Hx. rewrite ld8_fill8.
    by replace ((p <=? x) && (x <? p + size)) with false by lia. }
  split; [done |]. split.
  - exists sz. rewrite m_ram_set_ram, zero_loop by lia. split_and!; try done.
    + intros q s Hqs. destruct (Hq q s Hqs) as (? & ? & ?). split_and!; try done.
      pose proof (payloads_low _ _ _ _ _ (chain_nonneg _ _ _ _ Hc) Hqs).
      etransitivity; [eassumption |]. apply same_on_fill8. lia.
    + intros x Hx. rewrite ld8_fill8. replace ((p <=? x) && (x <? p + size)) with false by lia. by apply Hfr.
  - intros x Hx. rewrite ld8_fill8. by replace ((p <=? x) && (x <? p + size)) with true by lia.
Qed.

(** ** The block list is determined by the headers *)

Lemma chain_inj r a bs bs' e : chain r a bs e -> chain r a bs' e -> bs = bs'.
Proof.
  revert a bs'. induction bs as [|b bs IH]; intros a [|b' bs']; cbn [chain]; [done | | |].
  - intros -> (_ & H0 & _ & Hc). pose proof (chain_len _ _ _ _ Hc). lia.
  - intros (_ & H0 & _ & Hc) ->. pose proof (chain_len _ _ _ _ Hc). lia.
  - intros ((_ & Hs & Hu & _) & _ & _ & Hc) ((_ & Hs' & Hu' & _) & _ & _ & Hc').
    destruct b as [sz u], b' as [sz' u']; cbn [b_size b_used] in *.
    assert (sz = sz') by congruence. assert (u = u') by (destruct u, u'; congruence). subst. f_equal. by eapply IH.
Qed.

Lemma heap_inv_inj h r bs bs' : heap_inv h r bs -> heap_inv h r bs' -> bs = bs'.
Proof. intros (_ & _ & _ & _ & _ & H & _) (_ & _ & _ & _ & _ & H' & _). by eapply chain_inj. Qed.

(** What an allocation returns is what first fit returns. *)
Lemma kmalloc_amalloc h m bs size p h' m' bs' :
  heap_inv h (m_ram m) bs -> 0 < size -> size + 3 < W32 -> kmalloc size h m = Some (p, h', m') ->
  heap_inv h' (m_ram m') bs' ->
  amalloc (ALIGN4 size) (heap_start_addr h) bs = if p =? 0 then None else Some (p, bs').
Proof.
  intros Hinv H0 H3 Hk Hinv'. pose proof (kmalloc_spec h m bs size Hinv ltac:(lia)) as H. cbv zeta in H.
  destruct (amalloc (ALIGN4 size) (heap_start_addr h) bs) as [[q bs1]|] eqn:E.
  2: { rewrite Hk in H. by injection H as -> _ _. }
  destruct H as (h1 & m1 & Hk1 & Hinv1 & _). rewrite Hk in Hk1. injection Hk1 as <- <- <-.
  pose proof Hinv as (_ & _ & H16 & _ & _ & Hc & _).
  destruct (amalloc_some _ _ _ _ _ E (chain_nonneg _ _ _ _ Hc)) as (_ & sz & _ & Hin & Hlo & _);
    [apply align4_mod; lia |].
  replace (p =? 0) with false by lia. by rewrite (heap_inv_inj _ _ _ _ Hinv1 Hinv').
Qed.

Lemma kzalloc_amalloc h m bs size p h' m' bs' :
  heap_inv h (m_ram m) bs -> 0 < size -> size + 3 < W32 -> kzalloc size h m = Some (p, h', m') ->
  heap_inv h' (m_ram m') bs' ->
  amalloc (ALIGN4 size) (heap_start_addr h) bs = if p =? 0 then None else Some (p, bs').
Proof.
  intros Hinv H0 H3 Hk Hinv'.
  destruct (kmalloc_cases h m bs size Hinv H0 H3) as (q & h1 & m1 & bs1 & Hm & Hinv1 & Hst & Hen & Hcase).
  pose proof (kmalloc_amalloc _ _ _ _ _ _ _ _ Hinv H0 H3 Hm Hinv1) as Ha. unfold kzalloc in Hk. rewrite Hm in Hk.
  cbn [mbind option_bind] in Hk. destruct (Z.eqb_spec q 0) as [->|Hq]; injection Hk as <- <- <-; [done |].
  replace (q =? 0) with false by lia. rewrite Ha. do 2 f_equal.
  destruct Hcase as [(? & _)|(_ & sz & Hin & Hsz & _ & Hlo & Hhi & _)]; [done |].
  pose proof Hinv as (_ & _ & H16 & He & _).
  apply (heap_inv_inj h1 (m_ram (set_ram (for_ 0 size (fun i b => st8 b (u32 (q + i)) 0)) m1))); [| exact Hinv'].
  eapply heap_inv_payload; [exact Hinv1 | rewrite Hst; exact Hin |].
  intros x Hx. rewrite m_ram_set_ram, zero_loop, ld8_fill8 by lia.
  by replace ((q <=? x) && (x <? q + size)) with false by lia.
Qed.

(** A 1 KB heap at 0x1000. *)
Definition demo_heap : heap * mach := heap_init 0x1000 0x400 mach0.

Lemma demo_heap_inv : heap_inv (fst demo_heap) (m_ram (snd demo_heap)) [Ablk (0x400 - 16) false].
Proof. by apply (heap_init_inv 0x1000 0x400 mach0). Qed.

(** [heap_init] on an aligned range establishes the heap invariant with one
    free block spanning the whole range, nothing in use, and writes nothing
    but that block's header. *)
Theorem heap_init_establishes_inv (start size : Z) (m : mach) :
  16 <= start -> start mod 4 = 0 -> 16 <= size -> size mod 4 = 0 -> start + size < W32 ->
  let (h, m') := heap_init start size m in
  heap_inv h (m_ram m') [Ablk (size - 16) false] /\ heap_used h = 0 /\
  forall x, x < start \/ start + 16 <= x -> ld8 (m_ram m') x = ld8 (m_ram m) x.
Proof.
  intros H1 H2 H3 H4 H5. destruct (heap_init_inv start size m H1 H2 H3 H4 H5) as [Hi Hf].
  destruct (heap_init start size m) as [h m']. split_and!; [exact Hi | apply Hi | exact Hf].
Qed.

Lemma heap_init_establishes_inv_witness :
  let (h, m') := heap_init 0x1000 0x400 mach0 in
  heap_inv h (m_ram m') [Ablk (0x400 - 16) false] /\ heap_used h = 0.
Proof.
  pose proof (heap_init_establishes_inv 0x1000 0x400 mach0 ltac:(lia) ltac:(lia) ltac:(lia)
                ltac:(lia) ltac:(lia)) as H.
  destruct (heap_init 0x1000 0x400 mach0) as [h m']. split; apply H.
Defined.

(** C2. For requests of 1 to 0xFFFFFFFC bytes [kmalloc] always returns (the walk
    terminates within its fuel) and refines first fit on the list of blocks: it
    returns NULL, with heap and RAM unchanged, exactly when no free block is as
    large as the request rounded up to a multiple of 4; otherwise it returns the
    first-fit payload and the heap represents the list with that block split or
    taken.  (The three larger sizes wrap to 0 when they are rounded:
    [kmalloc_huge_request_succeeds].) *)
Theorem kmalloc_refines_first_fit (h : heap) (m : mach) (bs : list ablk) (size : Z) :
  heap_inv h (m_ram m) bs -> 0 < size <= 0xFFFFFFFC ->
  let n := (size + 3) / 4 * 4 in
  exists p h' m', kmalloc size h m = Some (p, h', m') /\
    (p = 0 <-> Forall (fun b => b_used b = true \/ b_size b < n) bs) /\
    match amalloc n (heap_start_addr h) bs with
    | None => p = 0 /\ h' = h /\ m_ram m' = m_ram m
    | Some (q, bs') => p = q /\ p <> 0 /\ heap_inv h' (m_ram m') bs'
    end.
Proof.
  intros Hinv Hs n. pose proof (kmalloc_spec h m bs size Hinv ltac:(lia)) as H. cbv zeta in H.
  rewrite (align4_eq size) in H by lia. fold n in H.
  destruct (amalloc n (heap_start_addr h) bs) as [[q bs']|] eqn:Eam.
  - destruct H as (h' & m' & -> & Hinv' & _). do 3 eexists. split; [done |].
    destruct Hinv as (_ & _ & H16 & _ & _ & Hc & _).
    destruct (amalloc_some _ _ _ _ _ Eam (chain_nonneg _ _ _ _ Hc)) as (_ & ? & _ & _ & ? & _); [unfold n; lia |].
    split; [| split_and!; try done; lia]. split; [lia |]. intros Hall%(amalloc_full n (heap_start_addr h)). congruence.
  - do 3 eexists. split; [exact H |]. split; [| split_and!; try done; apply m_ram_klog].
    split; [intros _; by eapply amalloc_none | done].
Qed.

Lemma kmalloc_refines_first_fit_witness :
  exists p h' m', kmalloc 10 (fst demo_heap) (snd demo_heap) = Some (p, h', m') /\ p = 0x1010.
Proof.
  destruct (kmalloc_refines_first_fit (fst demo_heap) (snd demo_heap) [Ablk (0x400 - 16) false] 10)
    as (p & h' & m' & Hk & Hm).
  - apply demo_heap_inv.
  - lia.
  - exists p, h', m'. split; [exact Hk |]. exact (proj1 (proj2 Hm)).
Defined.

(** C1. Isolation of allocations: a successful [kmalloc(size)] returns a
    4-byte-aligned pointer to a live block of at least [size] bytes inside the
    heap; every block that was live stays live at the same place, does not
    overlap the new one (headers included), and keeps its header and contents;
    nothing outside the heap changes. *)
Theorem kmalloc_isolation (h : heap) (m : mach) (bs : list ablk) (size p : Z) (h' : heap) (m' : mach) :
  heap_inv h (m_ram m) bs -> 0 < size -> size + 3 < W32 ->
  kmalloc size h m = Some (p, h', m') -> p <> 0 ->
  let start := heap_start_addr h in
  exists bs' sz, heap_inv h' (m_ram m') bs' /\ In (p, sz, true) (payloads start bs') /\
    size <= sz /\ p mod 4 = 0 /\ start + 16 <= p /\ p + size <= heap_end_addr h /\
    (forall q s, In (q, s, true) (payloads start bs) ->
       In (q, s, true) (payloads start bs') /\ (q + s <= p - 16 \/ p + sz <= q - 16) /\
       same_on (q - 16) (q + s) (m_ram m) (m_ram m')) /\
    forall x, x < start \/ heap_end_addr h <= x -> ld8 (m_ram m) x = ld8 (m_ram m') x.
Proof.
  intros Hinv H0 H3 Hk Hp start.
  destruct (kmalloc_cases h m bs size Hinv H0 H3) as (p' & h1 & m1 & bs' & Hk' & Hinv' & _ & _ & Hcase).
  rewrite Hk in Hk'. injection Hk' as <- <- <-.
  destruct Hcase as [(-> & _)|(_ & sz & Hin & Hsz & Ha & Hlo & Hhi & Hus & Hq & Hfr)]; [done |].
  exists bs', sz. split_and!; try done. lia.
Qed.

(** The first allocation of the demonstration heap. *)
Definition demo_alloc : Z * heap * mach :=
  default (0, fst demo_heap, snd demo_heap) (kmalloc 10 (fst demo_heap) (snd demo_heap)).

Lemma demo_alloc_eq :
  kmalloc 10 (fst demo_heap) (snd demo_heap) = Some (0x1010, snd (fst demo_alloc), snd demo_alloc).
Proof. vm_compute. reflexivity. Qed.

Lemma kmalloc_isolation_witness :
  exists bs' sz, heap_inv (snd (fst demo_alloc)) (m_ram (snd demo_alloc)) bs' /\
    In (0x1010, sz, true) (payloads 0x1000 bs') /\ 10 <= sz.
Proof.
  destruct (kmalloc_isolation _ _ _ 10 _ _ _ demo_heap_inv ltac:(lia) ltac:(lia) demo_alloc_eq)
    as (bs' & sz & H1 & H2 & H3 & _); [lia |].
  exists bs', sz. split; [exact H1 |]. split; [exact H2 | exact H3].
Defined.

(** C3. [kfree] of a live pointer releases exactly that block (merging it with
    a free successor), lowers [heap_used] by its size, keeps the invariant and
    every other live block with its header and contents; freeing the same
    pointer again is detected and changes neither heap nor RAM. *)
Theorem kfree_releases_block (h : heap) (m : mach) (bs : list ablk) (p sz : Z) :
  heap_inv h (m_ram m) bs -> In (p, sz, true) (payloads (heap_start_addr h) bs) ->
  exists h' m' bs', kfree p h m = (h', m') /\ afree p (heap_start_addr h) bs = Some bs' /\
    heap_inv h' (m_ram m') bs' /\ heap_used h' = heap_used h - sz /\
    (forall q s, In (q, s, true) (payloads (heap_start_addr h) bs) -> q <> p ->
       In (q, s, true) (payloads (heap_start_addr h) bs') /\
       same_on (q - 16) (q + s) (m_ram m) (m_ram m')) /\
    exists m'', kfree p h' m' = (h', m'') /\ m_ram m'' = m_ram m'.
Proof.
  intros Hinv Hin. destruct (kfree_spec h m bs p sz Hinv Hin)
    as (h' & m' & bs' & Heq & Haf & Hinv' & Hu & Hst & Hram & Hk).
  exists h', m', bs'. split_and!; try done.
  - intros q s Hq Hne. split; [by apply Hk |]. intros x Hx. rewrite Hram, free_ram_frame; [done |].
    destruct Hinv as (_ & _ & _ & _ & _ & Hc & _). apply chain_nonneg in Hc.
    pose proof (payloads_disjoint _ _ _ _ _ _ _ _ Hc Hin Hq Hne).
    apply payloads_low in Hin; [lia | done].
  - pose proof Hinv as (_ & H4 & H16 & He & _ & Hc & _).
    destruct (chain_aligned _ _ _ _ _ _ _ Hc H4 Hin) as (_ & Hp1 & Hp2 & Hsz).
    destruct (chain_hdr _ _ _ _ _ _ _ Hc Hin) as [nxt (Hm & _)].
    apply (kfree_free p (ld32 (m_ram m') (p - 16 + 4)) (ld32 (m_ram m') (p - 16 + 12))); [| lia].
    rewrite Hram. unfold hdr_at, free_ram. cbv zeta. cbn [b_size b_used].
    split_and!; try done; zcase; rewrite ?ld32_st32_ne, ?ld8_st32_ne, ?ld32_st8_ne, ?ld8_st8_eq by lia; done.
Qed.

(** The demonstration heap after the first allocation, for the witnesses. *)
Lemma demo_alloc_inv :
  heap_inv (snd (fst demo_alloc)) (m_ram (snd demo_alloc)) [Ablk 12 true; Ablk 980 false].
Proof.
  pose proof (kmalloc_spec _ _ _ 10 demo_heap_inv ltac:(lia)) as H. cbv zeta in H.
  replace (amalloc _ _ _) with (Some (0x1010, [Ablk 12 true; Ablk 980 false])) in H by reflexivity.
  destruct H as (h' & m' & Hk & Hi & _). pose proof demo_alloc_eq as E. rewrite Hk in E.
  clear Hk. revert E. generalize demo_alloc. intros d E. injection E as -> ->. exact Hi.
Qed.

Lemma kfree_releases_block_witness :
  exists h' m' bs', kfree 0x1010 (snd (fst demo_alloc)) (snd demo_alloc) = (h', m') /\
    heap_inv h' (m_ram m') bs' /\ heap_used h' = heap_used (snd (fst demo_alloc)) - 12.
Proof.
  destruct (kfree_releases_block _ _ _ 0x1010 12 demo_alloc_inv) as (h' & m' & bs' & H1 & _ & H2 & H3 & _).
  - left. reflexivity.
  - exists h', m', bs'. split; [exact H1 |]. split; [exact H2 | exact H3].
Defined.

(** Round trip: freeing the pointer a successful [kmalloc] returned
    restores [heap_used], and restores the whole block list when no two
    neighbouring blocks were free. *)
Theorem kmalloc_kfree_roundtrip (h : heap) (m : mach) (bs : list ablk) (size p : Z) (h1 : heap) (m1 : mach) :
  heap_inv h (m_ram m) bs -> 0 < size < W32 -> kmalloc size h m = Some (p, h1, m1) -> p <> 0 ->
  exists bs2 h2 m2, kfree p h1 m1 = (h2, m2) /\ heap_inv h2 (m_ram m2) bs2 /\
    heap_used h2 = heap_used h /\ (no_adj_free bs = true -> bs2 = bs).
Proof.
  intros Hinv Hs Hk Hp. pose proof (kmalloc_spec h m bs size Hinv Hs) as H. cbv zeta in H.
  destruct (amalloc (ALIGN4 size) (heap_start_addr h) bs) as [[q bs']|] eqn:Eam; [| rewrite Hk in H; by simplify_eq].
  destruct H as (h' & m' & Hk' & Hinv' & Hst & _ & _ & _). rewrite Hk in Hk'. simplify_eq.
  pose proof Hinv as (_ & _ & _ & _ & _ & Hc & Hu). pose proof (chain_nonneg _ _ _ _ Hc) as Hall.
  destruct (align4_mod size ltac:(lia)) as [_ Hn].
  destruct (amalloc_some _ _ _ _ _ Eam Hall Hn) as (_ & sz & _ & Hin & _ & Hu1 & _). rewrite <- Hst in Hin.
  destruct (kfree_spec _ _ _ _ _ Hinv' Hin) as (h2 & m2 & bs2 & Hf & Haf & Hinv2 & Hu2 & _ & _ & _).
  exists bs2, h2, m2. split_and!; [done | done | | intros Hadj].
  - destruct Hinv' as (_ & _ & _ & _ & _ & _ & Hu'). lia.
  - rewrite Hst, (afree_amalloc _ _ _ _ _ Eam Hall Hn Hadj) in Haf. by simplify_eq.
Qed.

Lemma kmalloc_kfree_roundtrip_witness :
  exists bs2 h2 m2, kfree 0x1010 (snd (fst demo_alloc)) (snd demo_alloc) = (h2, m2) /\
    heap_inv h2 (m_ram m2) bs2 /\ bs2 = [Ablk (0x400 - 16) false].
Proof.
  destruct (kmalloc_kfree_roundtrip _ _ _ 10 _ _ _ demo_heap_inv ltac:(lia) demo_alloc_eq ltac:(lia))
    as (bs2 & h2 & m2 & H1 & H2 & _ & H3).
  exists bs2, h2, m2. split; [exact H1 |]. split; [exact H2 |]. apply H3. reflexivity.
Defined.

(** [kzalloc] of a size that does not wrap returns a live block whose
    first [size] bytes are zero, keeps the heap invariant, and leaves the
    blocks that were live with their headers and contents. *)
Theorem kzalloc_zeroes (h : heap) (m : mach) (bs : list ablk) (size p : Z) (h' : heap) (m' : mach) :
  heap_inv h (m_ram m) bs -> 0 < size -> size + 3 < W32 ->
  kzalloc size h m = Some (p, h', m') -> p <> 0 ->
  let start := heap_start_addr h in
  exists bs' sz, heap_inv h' (m_ram m') bs' /\ In (p, sz, true) (payloads start bs') /\ size <= sz /\
    (forall x, p <= x < p + size -> ld8 (m_ram m') x = 0) /\
    forall q s, In (q, s, true) (payloads start bs) -> same_on (q - 16) (q + s) (m_ram m) (m_ram m').
Proof.
  intros Hinv H0 H3 Hk Hp start.
  destruct (kzalloc_cases h m bs size Hinv H0 H3) as (p' & h1 & m1 & bs' & Hk' & Hinv' & _ & _ & Hcase).
  rewrite Hk in Hk'. injection Hk' as <- <- <-.
  destruct Hcase as [(-> & _)|(_ & (sz & Hin & Hsz & _ & _ & _ & _ & Hq & _) & Hz)]; [done |].
  exists bs', sz. split_and!; try done. intros q s Hqs. apply (Hq q s Hqs).
Qed.

Lemma kzalloc_zeroes_witness :
  exists p h' m', kzalloc 10 (fst demo_heap) (snd demo_heap) = Some (p, h', m') /\
    forall x, p <= x < p + 10 -> ld8 (m_ram m') x = 0.
Proof.
  assert (Hk : kzalloc 10 (fst demo_heap) (snd demo_heap) =
     Some (0x1010, snd (fst demo_alloc),
           set_ram (for_ 0 10 (fun i b => st8 b (u32 (0x1010 + i)) 0)) (snd demo_alloc))).
  { unfold kzalloc. rewrite demo_alloc_eq. reflexivity. }
  destruct (kzalloc_zeroes _ _ _ 10 _ _ _ demo_heap_inv ltac:(lia) ltac:(lia) Hk ltac:(lia))
    as (bs' & sz & _ & _ & _ & Hz & _).
  do 3 eexists. split; [exact Hk | exact Hz].
Defined.

(** The free count [heap_dump_stats] prints is too large: it accounts for
    one header only, so it exceeds the sum of the free blocks' sizes by one
    header for every block after the first. *)
Theorem dump_stats_overcounts_free (h : heap) (r : ram) (bs : list ablk) :
  heap_inv h r bs -> stats_free h = free_sizes bs + HDR_SIZE * (Z.of_nat (length bs) - 1).
Proof.
  intros Hinv. pose proof (heap_inv_range _ _ _ Hinv). destruct Hinv as (_ & _ & H16 & He & Hne & Hc & Hu).
  pose proof (chain_total _ _ _ _ Hc). pose proof (chain_sizes _ _ _ _ Hc).
  unfold stats_free, HDR_SIZE. rewrite (u32_small (heap_end_addr h - heap_start_addr h)) by lia.
  rewrite Hu, u32_small; [lia |]. destruct bs; [done |]. cbn [length] in *. lia.
Qed.

Lemma dump_stats_overcounts_free_witness : stats_free (snd (fst demo_alloc)) = 980 + HDR_SIZE * (2 - 1).
Proof. exact (dump_stats_overcounts_free _ _ _ demo_alloc_inv). Defined.

(** [ALIGN4] wraps: a request of 2^32-3 bytes or more is rounded to 0
    bytes, so on a heap with any free block [kmalloc] returns a non-NULL
    pointer although no block can hold the request. *)
Theorem kmalloc_huge_request_succeeds (h : heap) (m : mach) (bs : list ablk) (size : Z) :
  heap_inv h (m_ram m) bs -> W32 - 3 <= size < W32 -> existsb (fun b => negb (b_used b)) bs = true ->
  exists p h' m', kmalloc size h m = Some (p, h', m') /\ p <> 0 /\
    Forall (fun b => b_size b < size) bs.
Proof.
  intros Hinv Hs Hex. pose proof (kmalloc_spec h m bs size Hinv ltac:(lia)) as H. cbv zeta in H.
  pose proof (heap_inv_range _ _ _ Hinv) as Hrange.
  destruct Hinv as (_ & _ & H16 & He & _ & Hc & _). pose proof (chain_nonneg _ _ _ _ Hc) as Hall.
  assert (Ha : ALIGN4 size = 0).
  { assert (Hx : size = W32 - 3 \/ size = W32 - 2 \/ size = W32 - 1) by lia.
    by destruct Hx as [->|[->| ->]]. }
  rewrite Ha in H. destruct (amalloc 0 (heap_start_addr h) bs) as [[p bs']|] eqn:Eam.
  - destruct H as (h' & m' & Hk & _). exists p, h', m'. split; [done |].
    destruct (amalloc_some _ _ _ _ _ Eam Hall ltac:(lia)) as (_ & ? & _ & _ & ? & _). split; [lia |].
    apply Forall_forall. intros b Hb. apply list_elem_of_In in Hb.
    assert (Hle : forall a bs, chain (m_ram m) a bs (heap_end_addr h) -> In b bs -> a + 16 + b_size b <= heap_end_addr h).
    { clear. intros a bs. revert a. induction bs as [|c bs IH]; intros a; cbn [chain]; [done |].
      intros (_ & ? & _ & Hc) [->|Hin]; [apply chain_len in Hc; lia |]. specialize (IH _ Hc Hin). lia. }
    specialize (Hle _ _ Hc Hb). lia.
  - apply amalloc_none in Eam. apply existsb_exists in Hex as (b & Hb & Hfree). zbool.
    rewrite Forall_forall in Eam, Hall. apply list_elem_of_In in Hb.
    specialize (Eam b Hb). specialize (Hall b Hb). simpl in *. destruct Eam; [congruence | lia].
Qed.

Lemma kmalloc_huge_request_succeeds_witness :
  exists p h' m', kmalloc 0xFFFFFFFD (fst demo_heap) (snd demo_heap) = Some (p, h', m') /\ p <> 0.
Proof.
  destruct (kmalloc_huge_request_succeeds _ _ _ 0xFFFFFFFD demo_heap_inv ltac:(lia) eq_refl)
    as (p & h' & m' & H1 & H2 & _).
  exists p, h', m'. split; [exact H1 | exact H2].
Defined.
