(* ===== verification/Vmm.v ===== *)
(** * Vmm: two-level paging (kernel/mm/vmm.h, vmm.c)

    Page directories and page tables are 4 KB objects in RAM.  RAM is indexed
    by physical address, and the code stores to a directory or table through
    its physical address; that reaches the object before paging is on, and
    afterwards while the object lies in the identity-mapped first 8 MB.  The
    stores of the model always reach it: the page fault the processor raises
    for a frame above 8 MB once paging is on is not modelled, and
    [frames_above_identity_map] shows when the frame allocator hands such a
    frame out.  The theorems on [vmm_map_page] and
    [vmm_create_user_directory] are about memory whose directories and tables
    the kernel can address.  The frame allocator is reached through the
    interface [FrameAllocator]; kernel/mm/pmm.c discharges it at the end of
    the file.  [walk] is the reference: the processor's two-level table walk. *)
From stdpp Require Import strings.
From S2P Require Import Prelude Memory Machine Vga Console Multiboot Pmm.

Definition PAGE_PRESENT := 1.
Definition PAGE_WRITE := 2.
Definition PAGE_USER := 4.
Definition PAGE_SIZE := 4096.
Definition PAGE_MASK := u32 (Z.lnot (PAGE_SIZE - 1)).

Definition VMM_DIR_IDX (va : Z) : Z := Z.land (Z.shiftr va 22) 0x3FF.
Definition VMM_TBL_IDX (va : Z) : Z := Z.land (Z.shiftr va 12) 0x3FF.
Definition VMM_PAGE_OFF (va : Z) : Z := Z.land va 0xFFF.

(** What the virtual memory manager needs from the frame allocator: a NULL
    result changes nothing; any other result is a frame that was free and no
    longer is. *)
Class FrameAllocator (A : Type) := {
  fa_alloc : A -> Z * A;
  fa_inv : A -> Prop;
  fa_free : A -> Z -> Prop;
  fa_alloc_spec : forall s, fa_inv s ->
    let (p, s') := fa_alloc s in
    fa_inv s' /\
    ((p = 0 /\ s' = s) \/
     (0 < p < W32 /\ p mod 4096 = 0 /\ fa_free s p /\
      forall q, fa_free s' q <-> fa_free s q /\ q <> p))
}.

(** [entries[i]] of a directory or table. *)
Definition entry (r : ram) (tbl i : Z) : Z := ld32 r (tbl + 4 * i).
Definition set_entry (tbl i v : Z) (m : mach) : mach := mst32 (tbl + 4 * i) v m.

Definition vmm_switch_directory (dir : Z) (m : mach) : mach := do_io (SetCr3 dir) m.

Section Ops.
(** The frame allocator, and the addresses of the three static objects. *)
Context `{FrameAllocator A} (kernel_dir identity_pt0 identity_pt1 : Z).

Definition vmm_get_kernel_dir : Z := kernel_dir.

(** Everything after the page table has been found. *)
Definition map_in_table (pt virt phys flags : Z) (m : mach) : mach :=
  let m := set_entry pt (VMM_TBL_IDX virt)
             (Z.lor (Z.lor (Z.land phys PAGE_MASK) (Z.land flags 0xFFF)) PAGE_PRESENT) m in
  do_io (Invlpg virt) m.

Definition vmm_map_page (dir virt phys flags : Z) (s : A) (m : mach) : A * mach :=
  let di := VMM_DIR_IDX virt in
  if negb (ctrue (Z.land (entry (m_ram m) dir di) PAGE_PRESENT)) then
    let (pt, s) := fa_alloc s in
    if pt =? 0 then
      (s, klog (lit "[VMM] ERROR: pmm_alloc_page() returned NULL in vmm_map_page" ++ nl) [] m)
    else
      let m := set_ram (fun r => fill32 r pt 1024 (fun _ => 0)) m in
      let m := set_entry dir di (Z.lor (Z.lor (Z.lor pt PAGE_PRESENT) PAGE_WRITE) PAGE_USER) m in
      (s, map_in_table pt virt phys flags m)
  else
    let pt := Z.land (entry (m_ram m) dir di) PAGE_MASK in
    (s, map_in_table pt virt phys flags m).

Definition vmm_unmap_page (dir virt : Z) (m : mach) : mach :=
  let di := VMM_DIR_IDX virt in
  if negb (ctrue (Z.land (entry (m_ram m) dir di) PAGE_PRESENT)) then m
  else
    let pt := Z.land (entry (m_ram m) dir di) PAGE_MASK in
    do_io (Invlpg virt) (set_entry pt (VMM_TBL_IDX virt) 0 m).

(** [cr0] is the control register's value on entry. *)
Definition vmm_init (cr0 : Z) (m : mach) : mach :=
  let rw := fun x => Z.lor (Z.lor x PAGE_PRESENT) PAGE_WRITE in
  let m := set_ram (fun r => fill32 r identity_pt0 1024 (fun i => rw (u32 (i * PAGE_SIZE)))) m in
  let m := set_ram (fun r => fill32 r identity_pt1 1024 (fun i => rw (u32 ((1024 + i) * PAGE_SIZE)))) m in
  let m := set_ram (fun r => fill32 r kernel_dir 1024 (fun _ => 0)) m in
  let m := set_entry kernel_dir 0 (rw identity_pt0) m in
  let m := set_entry kernel_dir 1 (rw identity_pt1) m in
  let m := vmm_switch_directory kernel_dir m in
  let m := do_io (SetCr0 (Z.lor cr0 0x80000000)) m in
  klog (lit "[VMM] Paging enabled. Identity-mapped first 8 MB." ++ nl) [] m.

Definition vmm_create_user_directory (s : A) (m : mach) : Z * A * mach :=
  let (dir, s) := fa_alloc s in
  if dir =? 0 then (0, s, m)
  else (dir, s, set_ram (fun r => copy32 r dir kernel_dir 1024) m).
End Ops.

(** ** The processor's table walk *)

(** The page-table entry a directory gives for [va], if its table is present. *)
Definition pte_of (r : ram) (dir va : Z) : option Z :=
  let pde := entry r dir (VMM_DIR_IDX va) in
  if ctrue (Z.land pde PAGE_PRESENT)
  then Some (entry r (Z.land pde PAGE_MASK) (VMM_TBL_IDX va)) else None.

(** The frame and flag bits of the page [va] lies in, if mapped. *)
Definition walk (r : ram) (dir va : Z) : option (Z * Z) :=
  pte ← pte_of r dir va;
  if ctrue (Z.land pte PAGE_PRESENT)
  then Some (Z.land pte PAGE_MASK, Z.land pte 0xFFF) else None.

(** The physical address of [va]. *)
Definition translate (r : ram) (dir va : Z) : option Z :=
  '(frame, _) ← walk r dir va; Some (Z.lor frame (VMM_PAGE_OFF va)).

(** ** Masks *)

Lemma page_mask_bit k : 0 <= k -> Z.testbit PAGE_MASK k = (12 <=? k) && (k <? 32).
Proof.
  intros Hk. change PAGE_MASK with (Z.ldiff (Z.ones 32) (Z.ones 12)).
  rewrite Z.ldiff_spec. destruct (Z.lt_ge_cases k 32).
  - rewrite (Z.ones_spec_low 32) by lia. destruct (Z.lt_ge_cases k 12).
    + rewrite Z.ones_spec_low by lia. lia.
    + rewrite Z.ones_spec_high by lia. lia.
  - rewrite Z.ones_spec_high by lia. lia.
Qed.

Lemma fff_bit k : 0 <= k -> Z.testbit 0xFFF k = (k <? 12).
Proof.
  intros Hk. change 0xFFF with (Z.ones 12). destruct (Z.lt_ge_cases k 12).
  - rewrite Z.ones_spec_low by lia. lia.
  - rewrite Z.ones_spec_high by lia. lia.
Qed.

Lemma small_bit x n k : 0 <= x < 2 ^ n -> 0 <= n <= k -> Z.testbit x k = false.
Proof.
  intros Hx Hk. rewrite Z.testbit_eqb, Z.div_small; [done | | lia].
  split; [lia |]. apply Z.lt_le_trans with (2 ^ n); [lia |]. apply Z.pow_le_mono_r; lia.
Qed.

Lemma aligned_bit x k : x mod 4096 = 0 -> 0 <= k < 12 -> Z.testbit x k = false.
Proof.
  intros Hx Hk. rewrite <- (Z.mod_pow2_bits_low x 12) by lia. change (2 ^ 12) with 4096.
  by rewrite Hx, Z.bits_0.
Qed.

(** Bitwise equality of masked words. *)
Ltac bitwise k :=
  apply Z.bits_inj'; intros k ?;
  rewrite ?Z.land_spec, ?Z.lor_spec, ?page_mask_bit, ?fff_bit by lia.

(** An entry built from a frame address and flag bits, taken apart. *)
Lemma entry_frame x f : x mod 4096 = 0 -> is_u32 x -> 0 <= f < 4096 ->
  Z.land (Z.lor x f) PAGE_MASK = x.
Proof.
  intros Hx Hu Hf. bitwise k. destruct (Z.lt_ge_cases k 12).
  - rewrite (aligned_bit x k) by lia. replace (12 <=? k) with false by lia. by rewrite andb_false_r.
  - rewrite (small_bit f 12 k) by lia. destruct (Z.lt_ge_cases k 32).
    + replace ((12 <=? k) && (k <? 32)) with true by lia. by rewrite orb_false_r, andb_true_r.
    + rewrite (small_bit x 32 k) by (unfold is_u32 in *; lia). done.
Qed.

Lemma entry_flags x f : x mod 4096 = 0 -> 0 <= f < 4096 -> Z.land (Z.lor x f) 0xFFF = f.
Proof.
  intros Hx Hf. bitwise k. destruct (Z.lt_ge_cases k 12).
  - rewrite (aligned_bit x k) by lia. replace (k <? 12) with true by lia. by rewrite andb_true_r.
  - rewrite (small_bit f 12 k) by lia. replace (k <? 12) with false by lia. by rewrite andb_false_r.
Qed.

Lemma entry_present x f : x mod 4096 = 0 -> 0 <= f -> Z.odd f = true -> Z.land (Z.lor x f) 1 = 1.
Proof.
  intros Hx Hf Ho. change 1 with (Z.ones 1) at 1. rewrite Z.land_ones by lia. change (2 ^ 1) with 2.
  rewrite Zmod_odd, <- Z.bit0_odd, Z.lor_spec, (aligned_bit x 0), Z.bit0_odd, Ho by lia. done.
Qed.

Lemma lor_range x y n : 0 <= n -> 0 <= x < 2 ^ n -> 0 <= y < 2 ^ n -> 0 <= Z.lor x y < 2 ^ n.
Proof.
  intros Hn Hx Hy. assert (H0 : 0 <= Z.lor x y) by (apply Z.lor_nonneg; lia). split; [done |].
  destruct (Z.eq_dec (Z.lor x y) 0); [lia |]. apply Z.log2_lt_pow2; [lia |].
  destruct (Z.le_gt_cases n (Z.log2 (Z.lor x y))) as [Hle|]; [| done].
  pose proof (Z.bit_log2 (Z.lor x y) ltac:(lia)) as Hb.
  rewrite Z.lor_spec, !(small_bit _ n) in Hb by lia. done.
Qed.

Lemma land_fff x : Z.land x 0xFFF = x mod 4096.
Proof. change 0xFFF with (Z.ones 12). by rewrite Z.land_ones. Qed.

Lemma land_page_mask x : is_u32 x -> Z.land x PAGE_MASK = x - x mod 4096.
Proof.
  intros Hx. transitivity (Z.ldiff x (Z.ones 12)).
  - bitwise k. rewrite Z.ldiff_spec. destruct (Z.lt_ge_cases k 12).
    + rewrite Z.ones_spec_low by lia. by replace (12 <=? k) with false by lia.
    + rewrite Z.ones_spec_high by lia. destruct (Z.lt_ge_cases k 32).
      * by replace ((12 <=? k) && (k <? 32)) with true by lia.
      * rewrite (small_bit x 32 k) by (unfold is_u32 in *; lia). done.
  - rewrite Z.ldiff_ones_r, Z.shiftr_div_pow2, Z.shiftl_mul_pow2 by lia. change (2 ^ 12) with 4096. lia.
Qed.

(** ** Indices *)

Lemma dir_idx_eq va : is_u32 va -> VMM_DIR_IDX va = va / 4194304 /\ 0 <= VMM_DIR_IDX va < 1024.
Proof.
  intros Hva. unfold VMM_DIR_IDX, is_u32 in *. change 0x3FF with (Z.ones 10).
  rewrite Z.land_ones, Z.shiftr_div_pow2 by lia. change (2 ^ 10) with 1024. change (2 ^ 22) with 4194304. lia.
Qed.

Lemma tbl_idx_eq va : VMM_TBL_IDX va = va / 4096 mod 1024.
Proof.
  unfold VMM_TBL_IDX. change 0x3FF with (Z.ones 10).
  by rewrite Z.land_ones, Z.shiftr_div_pow2 by lia.
Qed.

Lemma tbl_idx_range va : 0 <= VMM_TBL_IDX va < 1024.
Proof. rewrite tbl_idx_eq. lia. Qed.

(** Both indices equal means the same page. *)
Lemma same_page va va' :
  is_u32 va -> is_u32 va' -> VMM_DIR_IDX va = VMM_DIR_IDX va' -> VMM_TBL_IDX va = VMM_TBL_IDX va' ->
  va / 4096 = va' / 4096.
Proof.
  intros H H'. destruct (dir_idx_eq va H) as [-> _], (dir_idx_eq va' H') as [-> _].
  rewrite !tbl_idx_eq. lia.
Qed.

#[export] Hint Resolve tbl_idx_range : os.

(** ** Well-formed directories *)

Definition is_page (p : Z) : Prop := 0 <= p < W32 /\ p mod 4096 = 0.
Definition page_same (p : Z) (r r' : ram) : Prop := same_on p (p + 4096) r r'.
Definition pde_present (r : ram) (dir i : Z) : bool := ctrue (Z.land (entry r dir i) PAGE_PRESENT).
Definition table (r : ram) (dir i : Z) : Z := Z.land (entry r dir i) PAGE_MASK.

(** The directory and its tables are distinct pages, none of them free. *)
Definition dir_wf (free : Z -> Prop) (r : ram) (dir : Z) : Prop :=
  is_page dir /\ ~ free dir /\
  forall i, 0 <= i < 1024 -> pde_present r dir i = true ->
    table r dir i <> dir /\ ~ free (table r dir i) /\
    forall j, 0 <= j < 1024 -> pde_present r dir j = true -> table r dir i = table r dir j -> i = j.

Lemma entry_range r t i : is_u32 (entry r t i).
Proof. apply ld32_range. Qed.

Lemma table_page r dir i : is_page (table r dir i).
Proof.
  pose proof (entry_range r dir i) as H. unfold table, is_page. rewrite land_page_mask by done.
  unfold is_u32 in *. lia.
Qed.

Lemma entry_same r r' p i : page_same p r r' -> 0 <= i < 1024 -> entry r' p i = entry r p i.
Proof. intros Hs Hi. symmetry. eapply ld32_same_on; [exact Hs | lia | lia]. Qed.

Lemma pages_apart p q : is_page p -> is_page q -> p <> q -> p + 4096 <= q \/ q + 4096 <= p.
Proof. unfold is_page. lia. Qed.

Lemma page_same_st32 p q i v r :
  is_page p -> is_page q -> p <> q -> 0 <= i < 1024 -> page_same p r (st32 r (q + 4 * i) v).
Proof. intros Hp Hq Hne Hi. apply same_on_st32. pose proof (pages_apart _ _ Hp Hq Hne). lia. Qed.

Lemma page_same_fill32 p q f r :
  is_page p -> is_page q -> p <> q -> page_same p r (fill32 r q 1024 f).
Proof.
  intros Hp Hq Hne x Hx. pose proof (pages_apart _ _ Hp Hq Hne). rewrite ld8_fill32 by lia. done.
Qed.

Lemma page_same_copy32 p q src r :
  is_page p -> is_page q -> is_page src -> src <> q -> p <> q -> page_same p r (copy32 r q src 1024).
Proof.
  intros Hp Hq Hs Hne Hne' x Hx. pose proof (pages_apart _ _ Hp Hq Hne').
  pose proof (pages_apart _ _ Hs Hq Hne).
  destruct (copy32_spec r q src 1024 ltac:(lia) ltac:(lia)) as [Hf _]. rewrite Hf by lia. done.
Qed.

Lemma entry_st32_eq r t i v : is_u32 v -> entry (st32 r (t + 4 * i) v) t i = v.
Proof. intros Hv. unfold entry. rewrite ld32_st32_eq. by apply u32_small. Qed.

Lemma entry_st32_ne r t i j v : i <> j -> entry (st32 r (t + 4 * i) v) t j = entry r t j.
Proof. intros H. unfold entry. rewrite ld32_st32_ne by lia. done. Qed.

(** A walk reads the directory page and one table page. *)
Lemma walk_frame r r' dir va :
  is_u32 va -> page_same dir r r' ->
  (pde_present r dir (VMM_DIR_IDX va) = true -> page_same (table r dir (VMM_DIR_IDX va)) r r') ->
  walk r' dir va = walk r dir va.
Proof.
  intros Hva Hd Ht. destruct (dir_idx_eq va Hva) as [_ Hr].
  unfold walk, pte_of. rewrite (entry_same r r' dir) by done.
  fold (pde_present r dir (VMM_DIR_IDX va)). fold (table r dir (VMM_DIR_IDX va)).
  destruct (pde_present r dir (VMM_DIR_IDX va)) eqn:E; [| done].
  rewrite (entry_same r r' (table _ _ _)); auto using tbl_idx_range.
Qed.

(** Well-formedness reads only the directory page. *)
Lemma dir_wf_frame (free free' : Z -> Prop) r r' dir :
  page_same dir r r' -> (forall q, free' q -> free q) -> dir_wf free r dir -> dir_wf free' r' dir.
Proof.
  intros Hs Hf (Hp & Hnf & Hd). split_and!; [done | auto |]. intros i Hi.
  unfold pde_present, table in *. rewrite (entry_same r r' dir) by done. intros Hpr.
  destruct (Hd i Hi Hpr) as (H1 & H2 & H3). split_and!; [done | auto |].
  intros j Hj. rewrite (entry_same r r' dir) by done. auto.
Qed.

(** ** Page-table entries *)

Definition new_pte (phys flags : Z) : Z :=
  Z.lor (Z.lor (Z.land phys PAGE_MASK) (Z.land flags 0xFFF)) PAGE_PRESENT.

Section Entries.
Context (phys flags : Z) (Hphys : is_u32 phys).

Lemma new_pte_split :
  new_pte phys flags = Z.lor (Z.land phys PAGE_MASK) (Z.lor (Z.land flags 0xFFF) 1).
Proof using. unfold new_pte. by rewrite Z.lor_assoc. Qed.

Lemma frame_page : Z.land phys PAGE_MASK mod 4096 = 0 /\ is_u32 (Z.land phys PAGE_MASK).
Proof using Hphys. rewrite land_page_mask by done. unfold is_u32 in *. lia. Qed.

Lemma flags_range : 0 <= Z.lor (Z.land flags 0xFFF) 1 < 4096.
Proof using. change 4096 with (2 ^ 12). apply lor_range; rewrite ?land_fff; lia. Qed.

Lemma new_pte_u32 : is_u32 (new_pte phys flags).
Proof using Hphys.
  rewrite new_pte_split. destruct frame_page as [_ Hf]. pose proof flags_range. unfold is_u32 in *.
  change W32 with (2 ^ 32). apply lor_range; lia.
Qed.

Lemma new_pte_decodes :
  Z.land (new_pte phys flags) PAGE_PRESENT = 1 /\
  Z.land (new_pte phys flags) PAGE_MASK = Z.land phys PAGE_MASK /\
  Z.land (new_pte phys flags) 0xFFF = Z.lor (Z.land flags 0xFFF) PAGE_PRESENT.
Proof using Hphys.
  rewrite new_pte_split. destruct frame_page as [Hm Hf]. pose proof flags_range as Hr. split_and!.
  - apply entry_present; [done | lia |]. rewrite <- Z.bit0_odd, Z.lor_spec. apply orb_true_r.
  - by apply entry_frame.
  - by apply entry_flags.
Qed.

(** The entry for a fresh table at [pt]. *)
Lemma new_pde_decodes pt : is_page pt ->
  let e := Z.lor (Z.lor (Z.lor pt PAGE_PRESENT) PAGE_WRITE) PAGE_USER in
  is_u32 e /\ Z.land e PAGE_PRESENT = 1 /\ Z.land e PAGE_MASK = pt.
Proof using.
  intros [Hu Ha] e. assert (He : e = Z.lor pt 7) by (unfold e; by rewrite <- !Z.lor_assoc).
  rewrite He. split_and!; [apply (lor_range _ _ 32); lia | |].
  - by apply entry_present.
  - apply entry_frame; [done | done | lia].
Qed.
End Entries.

(** ** Mapping *)

Section Map.
Context `{FrameAllocator A} (dir virt phys flags : Z).
Context (Hvirt : is_u32 virt) (Hphys : is_u32 phys).
Let di := VMM_DIR_IDX virt.
Let ti := VMM_TBL_IDX virt.

(** What a successful mapping does to a directory's translations. *)
Definition mapped (r r' : ram) : Prop :=
  walk r' dir virt = Some (Z.land phys PAGE_MASK, Z.lor (Z.land flags 0xFFF) PAGE_PRESENT) /\
  forall va, is_u32 va -> va / 4096 <> virt / 4096 -> walk r' dir va = walk r dir va.

Lemma di_range : 0 <= di < 1024.
Proof using Hvirt. by apply dir_idx_eq. Qed.

Lemma ti_range : 0 <= ti < 1024.
Proof using. apply tbl_idx_range. Qed.

(** Writing the entry of [virt] in a present table. *)
Lemma map_present free r :
  dir_wf free r dir -> pde_present r dir di = true ->
  let r' := st32 r (table r dir di + 4 * ti) (new_pte phys flags) in
  dir_wf free r' dir /\ mapped r r'.
Proof using Hvirt Hphys.
  intros Hwf Hpr r'. pose proof Hwf as (Hp & _ & Hd). destruct (Hd di di_range Hpr) as (Hne & _ & Hinj).
  pose proof (table_page r dir di) as Htp. pose proof di_range. pose proof ti_range.
  assert (Hsame : page_same dir r r') by (apply page_same_st32; auto).
  split; [eapply dir_wf_frame; eauto |]. split.
  - unfold walk, pte_of. fold di ti. rewrite (entry_same r r' dir) by done.
    fold (pde_present r dir di). rewrite Hpr. fold (table r dir di). cbn [mbind option_bind].
    unfold r'. rewrite entry_st32_eq by (by apply new_pte_u32).
    destruct (new_pte_decodes phys flags Hphys) as (-> & -> & ->). done.
  - intros va Hva Hpage. pose proof (proj2 (dir_idx_eq va Hva)) as Hr.
    destruct (Z.eq_dec (VMM_DIR_IDX va) di) as [Heq|Hdi].
    + unfold walk, pte_of. rewrite Heq, (entry_same r r' dir) by done.
      fold (pde_present r dir di) (table r dir di). rewrite Hpr. cbn [mbind option_bind].
      unfold r'. rewrite entry_st32_ne; [done |]. intros Hti. apply Hpage. symmetry.
      apply same_page; auto.
    + apply walk_frame; [done | done |]. intros Hpr'. apply page_same_st32; auto using table_page.
      intros Heq. apply Hdi. symmetry. apply Hinj; auto.
Qed.

(** RAM after a fresh table [pt] has been installed and the entry written. *)
Definition fresh_ram (pt : Z) (r : ram) : ram :=
  let e := Z.lor (Z.lor (Z.lor pt PAGE_PRESENT) PAGE_WRITE) PAGE_USER in
  st32 (st32 (fill32 r pt 1024 (fun _ => 0)) (dir + 4 * di) e) (pt + 4 * ti) (new_pte phys flags).

Lemma fresh_ram_other pt q r :
  is_page pt -> is_page dir -> is_page q -> q <> pt -> q <> dir -> page_same q r (fresh_ram pt r).
Proof using Hvirt.
  intros Hpt Hdir Hq Hne1 Hne2. pose proof di_range. pose proof ti_range. unfold fresh_ram.
  etransitivity; [by apply (page_same_fill32 q pt (fun _ => 0) r) |].
  etransitivity; [by apply (page_same_st32 q dir di) |]. by apply page_same_st32.
Qed.

Lemma fresh_entry pt r i : is_page pt -> is_page dir -> pt <> dir -> 0 <= i < 1024 -> i <> di ->
  entry (fresh_ram pt r) dir i = entry r dir i.
Proof using Hvirt.
  intros Hpt Hdir Hne Hi Hid. pose proof di_range. pose proof ti_range. unfold fresh_ram.
  rewrite (entry_same _ _ dir i (page_same_st32 dir pt ti _ _ Hdir Hpt ltac:(auto) ltac:(auto))) by done.
  rewrite entry_st32_ne by auto.
  apply entry_same; [by apply page_same_fill32; auto | done].
Qed.

Lemma fresh_pde pt r : is_page pt -> is_page dir -> pt <> dir ->
  pde_present (fresh_ram pt r) dir di = true /\ table (fresh_ram pt r) dir di = pt.
Proof using Hvirt.
  intros Hpt Hdir Hne. pose proof di_range. pose proof ti_range.
  destruct (new_pde_decodes pt Hpt) as (He & Hpr & Hm). unfold pde_present, table, fresh_ram.
  rewrite (entry_same _ _ dir di (page_same_st32 dir pt ti _ _ Hdir Hpt ltac:(auto) ltac:(auto))) by done.
  rewrite entry_st32_eq by done. by rewrite Hpr.
Qed.

Lemma fresh_pte pt r j : is_page pt -> is_page dir -> pt <> dir -> 0 <= j < 1024 ->
  entry (fresh_ram pt r) pt j = if j =? ti then new_pte phys flags else 0.
Proof using Hvirt Hphys.
  intros Hpt Hdir Hne Hj. pose proof di_range. pose proof ti_range. unfold fresh_ram. zcase.
  - subst j. by apply entry_st32_eq, new_pte_u32.
  - rewrite entry_st32_ne by auto.
    rewrite (entry_same _ _ pt j (page_same_st32 pt dir di _ _ Hpt Hdir ltac:(auto) ltac:(auto))) by done.
    unfold entry. by rewrite ld32_fill32.
Qed.

Lemma map_fresh (free free' : Z -> Prop) pt r :
  dir_wf free r dir -> pde_present r dir di = false -> is_page pt -> free pt ->
  (forall q, free' q <-> free q /\ q <> pt) ->
  dir_wf free' (fresh_ram pt r) dir /\ mapped r (fresh_ram pt r).
Proof using Hvirt Hphys.
  intros (Hp & Hnf & Hd) Hpr Hpt Hfree Hfree'. assert (Hne : pt <> dir) by (intros ->; done).
  destruct (fresh_pde pt r Hpt Hp Hne) as [Hdi Htdi].
  assert (Hold : forall i, 0 <= i < 1024 -> i <> di ->
    pde_present (fresh_ram pt r) dir i = pde_present r dir i /\ table (fresh_ram pt r) dir i = table r dir i).
  { intros i Hi Hid. unfold pde_present, table. by rewrite fresh_entry. }
  assert (Hnpt : forall i, 0 <= i < 1024 -> pde_present r dir i = true -> table r dir i <> pt).
  { intros i Hi Hpi Heq. destruct (Hd i Hi Hpi) as (_ & Hn & _). by rewrite Heq in Hn. }
  split; [split_and!; [done | rewrite Hfree'; tauto |] | split].
  - intros i Hi Hpi. destruct (Z.eq_dec i di) as [->|Hid].
    + rewrite Htdi. split_and!; [done | rewrite Hfree'; tauto |]. intros j Hj Hpj Heq.
      destruct (Z.eq_dec j di) as [->|Hjd]; [done |]. destruct (Hold j Hj Hjd) as [E1 E2].
      rewrite E1 in Hpj. rewrite E2 in Heq. by destruct (Hnpt j Hj Hpj).
    + destruct (Hold i Hi Hid) as [E1 E2]. rewrite E1 in Hpi. rewrite E2.
      destruct (Hd i Hi Hpi) as (H1 & H2 & H3). split_and!; [done | rewrite Hfree'; tauto |].
      intros j Hj Hpj Heq. destruct (Z.eq_dec j di) as [->|Hjd].
      * rewrite Htdi in Heq. by destruct (Hnpt i Hi Hpi).
      * destruct (Hold j Hj Hjd) as [E3 E4]. rewrite E3 in Hpj. rewrite E4 in Heq. by apply H3.
  - unfold walk, pte_of. fold di ti. unfold pde_present in Hdi. rewrite Hdi.
    unfold table in Htdi. rewrite Htdi. cbn [mbind option_bind].
    rewrite fresh_pte, Z.eqb_refl by (auto using ti_range).
    destruct (new_pte_decodes phys flags Hphys) as (-> & -> & ->). done.
  - intros va Hva Hpage. pose proof (proj2 (dir_idx_eq va Hva)) as Hr.
    pose proof (tbl_idx_range va) as Htr.
    destruct (Z.eq_dec (VMM_DIR_IDX va) di) as [Heq|Hdi'].
    + unfold walk, pte_of. rewrite Heq. unfold pde_present, table in *. rewrite Hdi, Hpr, Htdi.
      cbn [mbind option_bind]. rewrite fresh_pte by done. zcase; [| done].
      exfalso. apply Hpage, same_page; auto.
    + destruct (Hold _ Hr Hdi') as [E1 E2]. unfold walk, pte_of.
      unfold pde_present, table in E1, E2. rewrite E1, E2.
      destruct (ctrue (Z.land (entry r dir (VMM_DIR_IDX va)) PAGE_PRESENT)) eqn:Ep; [| done]. cbn [mbind option_bind].
      destruct (Hd _ Hr Ep) as (Hnd & _ & _).
      rewrite (entry_same r (fresh_ram pt r)); [done | | done].
      fold (table r dir (VMM_DIR_IDX va)). apply fresh_ram_other; auto using table_page.
Qed.

(** The whole of [vmm_map_page], on RAM. *)
Lemma vmm_map_page_ram s m :
  pde_present (m_ram m) dir di = true /\
    (exists m', vmm_map_page dir virt phys flags s m = (s, m') /\
      m_ram m' = st32 (m_ram m) (table (m_ram m) dir di + 4 * ti) (new_pte phys flags)) \/
  pde_present (m_ram m) dir di = false /\
    (exists m', vmm_map_page dir virt phys flags s m = (snd (fa_alloc s), m') /\
      m_ram m' = (if fst (fa_alloc s) =? 0 then m_ram m else fresh_ram (fst (fa_alloc s)) (m_ram m))).
Proof using.
  unfold vmm_map_page. fold di (pde_present (m_ram m) dir di) (table (m_ram m) dir di).
  destruct (pde_present (m_ram m) dir di); [left | right]; (split; [done |]); cbn [negb].
  - eexists. split; [reflexivity |]. unfold map_in_table, set_entry. by autorewrite with os.
  - destruct (fa_alloc s) as [pt s'] eqn:E. cbn [fst snd]. zcase.
    + eexists. split; [reflexivity |]. apply m_ram_klog.
    + eexists. split; [reflexivity |]. unfold map_in_table, set_entry. by autorewrite with os.
Qed.
End Map.

(** ** The physical allocator implements the interface *)

Definition pmm_free_frame (s : pmm) (p : Z) : Prop :=
  0 <= p < PMM_PAGES_MAX * 4096 /\ p mod 4096 = 0 /\ frame_used s (p / 4096) = false.

Lemma pmm_frame_spec s : pmm_inv s /\ frame_used s 0 = true ->
  let (p, s') := pmm_alloc_page s in
  (pmm_inv s' /\ frame_used s' 0 = true) /\
  ((p = 0 /\ s' = s) \/
   (0 < p < W32 /\ p mod 4096 = 0 /\ pmm_free_frame s p /\
    forall q, pmm_free_frame s' q <-> pmm_free_frame s q /\ q <> p)).
Proof.
  intros (Hinv & H0). pose proof (pmm_inv_wf s Hinv) as Hwf. pose proof Hwf as (_ & _ & Htot).
  destruct (pmm_alloc_page_spec s Hwf) as [(f & Hf & Hff & _ & ->)|[_ ->]].
  2: { split; [split; assumption | by left]. }
  assert (Hf0 : f <> 0) by congruence. assert (Hfm : 0 <= f < PMM_PAGES_MAX) by lia.
  assert (Hmax : PMM_PAGES_MAX = 65536) by reflexivity.
  split; [split |].
  - by apply take_frame_inv.
  - rewrite frame_used_take by (assumption || lia). rewrite H0. apply orb_true_r.
  - right. unfold pmm_free_frame. split_and!; [lia | lia | lia | lia | lia | lia | |].
    { by replace (f * 4096 / 4096) with f by lia. }
    intros q. split.
    + intros (Hq & Hq4 & Hu). rewrite frame_used_take in Hu by (assumption || lia).
      apply orb_false_iff in Hu as [Hu1 Hu2]. split; [split_and!; assumption || lia | lia].
    + intros ((Hq & Hq4 & Hu) & Hne). split_and!; [lia | lia | lia |].
      rewrite frame_used_take, Hu by (assumption || lia).
      replace (f =? q / 4096) with false by lia. reflexivity.
Qed.

#[export] Instance pmm_frame_allocator : FrameAllocator pmm := {
  fa_alloc := pmm_alloc_page;
  fa_inv := fun s => pmm_inv s /\ frame_used s 0 = true;
  fa_free := pmm_free_frame;
  fa_alloc_spec := pmm_frame_spec;
}.

(** ** Initialisation *)

Lemma lor_add x f : x mod 4096 = 0 -> is_u32 x -> 0 <= f < 4096 -> Z.lor x f = x + f.
Proof.
  intros Hx Hu Hf. pose proof (entry_frame x f Hx Hu Hf) as H1. pose proof (entry_flags x f Hx Hf) as H2.
  rewrite land_page_mask in H1 by (apply (lor_range x f 32); unfold is_u32 in *; lia).
  rewrite land_fff in H2. lia.
Qed.

Section Init.
Context (kdir pt0 pt1 cr0 : Z) (Hk : is_page kdir) (H0 : is_page pt0) (H1 : is_page pt1).
Context (Hk0 : kdir <> pt0) (Hk1 : kdir <> pt1) (H01 : pt0 <> pt1).
Context (m : mach).
Let r := m_ram (vmm_init kdir pt0 pt1 cr0 m).

Definition rw (x : Z) : Z := Z.lor (Z.lor x PAGE_PRESENT) PAGE_WRITE.

Lemma init_ram : r =
  st32 (st32 (fill32 (fill32 (fill32 (m_ram m) pt0 1024 (fun i => rw (u32 (i * PAGE_SIZE))))
                             pt1 1024 (fun i => rw (u32 ((1024 + i) * PAGE_SIZE))))
                     kdir 1024 (fun _ => 0)) (kdir + 4 * 0) (rw pt0)) (kdir + 4 * 1) (rw pt1).
Proof using. unfold r, vmm_init, vmm_switch_directory, set_entry. by rewrite m_ram_klog. Qed.

Lemma rw_u32 x : is_u32 x -> is_u32 (rw x).
Proof using. 
  intros Hx. unfold rw, is_u32, PAGE_PRESENT, PAGE_WRITE in *.
  apply (lor_range _ _ 32); [lia | apply (lor_range _ _ 32); lia | lia].
Qed.

Lemma rw_decodes x : is_page x ->
  Z.land (rw x) PAGE_PRESENT = 1 /\ Z.land (rw x) PAGE_MASK = x /\ Z.land (rw x) 0xFFF = 3.
Proof using.
  intros [Hu Ha]. unfold rw. rewrite <- Z.lor_assoc. change (Z.lor PAGE_PRESENT PAGE_WRITE) with 3. split_and!.
  - by apply entry_present.
  - apply entry_frame; [done | done | lia].
  - apply entry_flags; [done | lia].
Qed.

Lemma init_dir i : 0 <= i < 1024 ->
  entry r kdir i = if i =? 0 then rw pt0 else if i =? 1 then rw pt1 else 0.
Proof using Hk H0 H1 Hk0 Hk1 H01.
  intros Hi. rewrite init_ram. repeat zcase; subst.
  - rewrite entry_st32_ne, entry_st32_eq by (done || apply rw_u32, H0). done.
  - apply entry_st32_eq, rw_u32, H1.
  - rewrite !entry_st32_ne by auto. unfold entry. by rewrite ld32_fill32.
Qed.

Lemma init_table0 i : 0 <= i < 1024 -> entry r pt0 i = rw (i * 4096).
Proof using Hk H0 H1 Hk0 Hk1 H01.
  intros Hi. rewrite init_ram.
  rewrite (entry_same _ _ pt0 i (page_same_st32 pt0 kdir 1 _ _ H0 Hk ltac:(auto) ltac:(lia))) by done.
  rewrite (entry_same _ _ pt0 i (page_same_st32 pt0 kdir 0 _ _ H0 Hk ltac:(auto) ltac:(lia))) by done.
  rewrite (entry_same _ _ pt0 i (page_same_fill32 pt0 kdir _ _ H0 Hk ltac:(auto))) by done.
  rewrite (entry_same _ _ pt0 i (page_same_fill32 pt0 pt1 _ _ H0 H1 ltac:(auto))) by done.
  unfold entry. rewrite ld32_fill32 by done. unfold PAGE_SIZE. rewrite (u32_small (i * 4096)) by lia.
  apply u32_small, rw_u32. unfold is_u32. lia.
Qed.

Lemma init_table1 i : 0 <= i < 1024 -> entry r pt1 i = rw ((1024 + i) * 4096).
Proof using Hk H0 H1 Hk0 Hk1 H01.
  intros Hi. rewrite init_ram.
  rewrite (entry_same _ _ pt1 i (page_same_st32 pt1 kdir 1 _ _ H1 Hk ltac:(auto) ltac:(lia))) by done.
  rewrite (entry_same _ _ pt1 i (page_same_st32 pt1 kdir 0 _ _ H1 Hk ltac:(auto) ltac:(lia))) by done.
  rewrite (entry_same _ _ pt1 i (page_same_fill32 pt1 kdir _ _ H1 Hk ltac:(auto))) by done.
  unfold entry. rewrite ld32_fill32 by done. unfold PAGE_SIZE. rewrite (u32_small ((1024 + i) * 4096)) by lia.
  apply u32_small, rw_u32. unfold is_u32. lia.
Qed.

Lemma init_other q : is_page q -> q <> kdir -> q <> pt0 -> q <> pt1 -> page_same q (m_ram m) r.
Proof using Hk H0 H1.
  intros Hq Hn1 Hn2 Hn3. rewrite init_ram.
  etransitivity; [by apply (page_same_fill32 q pt0) |].
  etransitivity; [by apply (page_same_fill32 q pt1) |].
  etransitivity; [by apply (page_same_fill32 q kdir) |].
  etransitivity; [apply (page_same_st32 q kdir 0); auto; lia |]. apply page_same_st32; auto; lia.
Qed.

Lemma init_walk va : is_u32 va ->
  walk r kdir va = if va <? 0x800000 then Some (va - va mod 4096, 3) else None.
Proof using Hk H0 H1 Hk0 Hk1 H01.
  intros Hva. destruct (dir_idx_eq va Hva) as [Hdi Hr]. pose proof (tbl_idx_eq va) as Hti.
  pose proof (tbl_idx_range va) as Htr. unfold walk, pte_of, is_u32 in *. rewrite init_dir by done.
  assert (Hcase : VMM_DIR_IDX va = 0 \/ VMM_DIR_IDX va = 1 \/ 2 <= VMM_DIR_IDX va) by lia.
  destruct Hcase as [Hd|[Hd|Hd]].
  - rewrite Hd. cbn [Z.eqb]. destruct (rw_decodes pt0 H0) as (-> & -> & _). cbn [ctrue Z.eqb negb mbind option_bind Pos.eqb].
    rewrite init_table0 by done. destruct (rw_decodes (VMM_TBL_IDX va * 4096)) as (-> & -> & ->); [unfold is_page; lia |].
    cbn [ctrue Z.eqb negb Pos.eqb]. replace (va <? 0x800000) with true by lia. do 2 f_equal. lia.
  - rewrite Hd. cbn [Z.eqb Pos.eqb]. destruct (rw_decodes pt1 H1) as (-> & -> & _). cbn [ctrue Z.eqb negb mbind option_bind Pos.eqb].
    rewrite init_table1 by done. destruct (rw_decodes ((1024 + VMM_TBL_IDX va) * 4096)) as (-> & -> & ->); [unfold is_page; lia |].
    cbn [ctrue Z.eqb negb Pos.eqb]. replace (va <? 0x800000) with true by lia. do 2 f_equal. lia.
  - replace (VMM_DIR_IDX va =? 0) with false by lia. replace (VMM_DIR_IDX va =? 1) with false by lia.
    cbn. replace (va <? 0x800000) with false by lia. done.
Qed.

Lemma init_wf (free : Z -> Prop) : ~ free kdir -> ~ free pt0 -> ~ free pt1 -> dir_wf free r kdir.
Proof using Hk H0 H1 Hk0 Hk1 H01.
  intros F1 F2 F3. split_and!; [done | done |]. unfold pde_present, table.
  destruct (rw_decodes pt0 H0) as (P0 & M0 & _), (rw_decodes pt1 H1) as (P1 & M1 & _).
  assert (Hcase : forall i, 0 <= i < 1024 -> ctrue (Z.land (entry r kdir i) PAGE_PRESENT) = true ->
    (i = 0 /\ Z.land (entry r kdir i) PAGE_MASK = pt0) \/ (i = 1 /\ Z.land (entry r kdir i) PAGE_MASK = pt1)).
  { intros i Hi. rewrite init_dir by done. repeat zcase; subst; [by left | by right |]. intros [=]. }
  intros i Hi Hpi. destruct (Hcase i Hi Hpi) as [[-> ->]|[-> ->]]; (split_and!; [auto | done |]);
    intros j Hj Hpj; destruct (Hcase j Hj Hpj) as [[-> ->]|[-> ->]]; done.
Qed.

(** The kernel's tables are reached through supervisor entries. *)
Lemma init_pde_supervisor i : 0 <= i < 1024 -> Z.land (entry r kdir i) PAGE_USER = 0.
Proof using Hk H0 H1 Hk0 Hk1 H01.
  intros Hi. rewrite init_dir by done.
  assert (Hrw : forall x, is_page x -> Z.land (rw x) PAGE_USER = 0).
  { intros x Hx. change PAGE_USER with (Z.land 0xFFF PAGE_USER). rewrite Z.land_assoc.
    destruct (rw_decodes x Hx) as (_ & _ & ->). done. }
  repeat zcase; auto.
Qed.
End Init.

(** ** Properties *)

(** [vmm_init] builds the identity map: with the three static tables on
    distinct pages, every address below 8 MB translates to itself, present,
    writable and supervisor-only, every other address is unmapped, and CR3 is
    loaded with the kernel directory before CR0.PG is set, only console port
    writes following. *)
Theorem vmm_init_identity_maps (kdir pt0 pt1 cr0 : Z) (m : mach) :
  is_page kdir -> is_page pt0 -> is_page pt1 -> kdir <> pt0 -> kdir <> pt1 -> pt0 <> pt1 ->
  let m' := vmm_init kdir pt0 pt1 cr0 m in
  (forall va, 0 <= va < 0x800000 ->
     translate (m_ram m') kdir va = Some va /\
     walk (m_ram m') kdir va = Some (va - va mod 4096, Z.lor PAGE_PRESENT PAGE_WRITE)) /\
  (forall va, 0x800000 <= va < W32 -> translate (m_ram m') kdir va = None) /\
  exists tr, forallb is_outb tr = true /\
    io m' = tr ++ SetCr0 (Z.lor cr0 0x80000000) :: SetCr3 kdir :: io m.
Proof.
  intros Hk H0 H1 Hk0 Hk1 H01 m'.
  pose proof (init_walk kdir pt0 pt1 cr0 Hk H0 H1 Hk0 Hk1 H01 m) as Hw. fold m' in Hw.
  split_and!.
  - intros va Hva. unfold translate. rewrite Hw by (unfold is_u32; lia).
    replace (va <? 0x800000) with true by lia. cbn [mbind option_bind]. split; [| done].
    unfold VMM_PAGE_OFF. rewrite land_fff, lor_add by (unfold is_u32; lia). f_equal. lia.
  - intros va Hva. unfold translate. rewrite Hw by (unfold is_u32; lia).
    by replace (va <? 0x800000) with false by lia.
  - unfold m', vmm_init. cbv zeta. apply io_outs_klog.
Qed.

Lemma vmm_init_identity_maps_witness :
  translate (m_ram (vmm_init 0x105000 0x106000 0x107000 0x11 mach0)) 0x105000 0xB8000 = Some 0xB8000.
Proof.
  apply (vmm_init_identity_maps 0x105000 0x106000 0x107000 0x11 mach0); unfold is_page; lia.
Defined.

(** C4. [vmm_map_page] on a well-formed directory either fails because the
    frame allocator is exhausted, changing neither RAM nor allocator, or makes
    [virt]'s page translate to [phys]'s frame with the given flags and leaves
    the translation of every other page unchanged; the allocator invariant
    and the directory's well-formedness are preserved.  The stores are to
    physical addresses, which the running kernel reaches for directories and
    tables below 8 MB (see [frames_above_identity_map]). *)
Theorem vmm_map_page_maps `{FrameAllocator A} (dir virt phys flags : Z) (s : A) (m : mach) :
  is_u32 virt -> is_u32 phys -> fa_inv s -> dir_wf (fa_free s) (m_ram m) dir ->
  let (s', m') := vmm_map_page dir virt phys flags s m in
  fa_inv s' /\ dir_wf (fa_free s') (m_ram m') dir /\
  ((fst (fa_alloc s) = 0 /\ pte_of (m_ram m) dir virt = None /\ s' = s /\ m_ram m' = m_ram m) \/
   mapped dir virt phys flags (m_ram m) (m_ram m')).
Proof.
  intros Hv Hp Hinv Hwf. destruct (vmm_map_page_ram dir virt phys flags s m)
    as [[Hpr (m' & -> & Hram)]|[Hpr (m' & -> & Hram)]].
  - rewrite Hram. destruct (map_present dir virt phys flags Hv Hp _ _ Hwf Hpr). split_and!; [done | done | by right].
  - pose proof (fa_alloc_spec s Hinv) as Ha. destruct (fa_alloc s) as [pt s'] eqn:E. cbn [fst snd] in *.
    destruct Ha as [Hinv' [[-> ->]|(Hr & Ha & Hf & Hfree)]].
    + cbn [Z.eqb] in Hram. rewrite Hram. split_and!; [done | done |]. left. split_and!; try done.
      unfold pte_of. unfold pde_present in Hpr. by rewrite Hpr.
    + replace (pt =? 0) with false in Hram by lia. rewrite Hram.
      destruct (map_fresh dir virt phys flags Hv Hp _ (fa_free s') pt _ Hwf Hpr) as [Hwf' Hm];
        [unfold is_page; lia | done | done |].
      split_and!; [done | done | by right].
Qed.

(** A kernel directory after [vmm_init], and an allocator with one free frame
    (7), for the concrete runs. *)
Definition demo_paging : mach := vmm_init 0x105000 0x106000 0x107000 0x11 mach0.

Lemma demo_fa_inv : fa_inv demo_pmm.
Proof.
  split; [exact demo_pmm_inv |]. unfold demo_pmm.
  rewrite frame_used_release, all_used_frame by
    (try apply pmm_inv_wf, all_used_inv; unfold PMM_PAGES_MAX; lia). reflexivity.
Qed.

Lemma demo_free q : fa_free demo_pmm q -> q = 0x7000.
Proof.
  intros (Hq & Ha & Hu). unfold demo_pmm, PMM_PAGES_MAX in *.
  rewrite frame_used_release, all_used_frame in Hu by
    (try apply pmm_inv_wf, all_used_inv; unfold PMM_PAGES_MAX; lia). lia.
Qed.

Lemma demo_wf : dir_wf (fa_free demo_pmm) (m_ram demo_paging) 0x105000.
Proof.
  apply init_wf; unfold is_page; try lia; intros Hf; apply demo_free in Hf; lia.
Qed.

Lemma vmm_map_page_maps_witness :
  let (s', m') := vmm_map_page 0x105000 0x40000123 0xABC000 7 demo_pmm demo_paging in
  walk (m_ram m') 0x105000 0x40000123 = Some (0xABC000, 7).
Proof.
  pose proof (vmm_map_page_maps 0x105000 0x40000123 0xABC000 7 demo_pmm demo_paging
    ltac:(unfold is_u32; lia) ltac:(unfold is_u32; lia) demo_fa_inv demo_wf) as Hm.
  destruct (vmm_map_page _ _ _ _ demo_pmm demo_paging) as [s' m'].
  destruct Hm as (_ & _ & [[Hf _]|[Hw _]]); [| exact Hw].
  exfalso. revert Hf. vm_compute. discriminate.
Defined.

(** Once the frames below 8 MB are taken, the frame the allocator returns for a
    new page table or directory is an address the kernel directory of
    [vmm_init] does not translate: the store that [vmm_map_page] or
    [vmm_create_user_directory] then makes through it is a page fault. *)
Theorem frames_above_identity_map (kdir pt0 pt1 cr0 : Z) (m : mach) (s : pmm) :
  is_page kdir -> is_page pt0 -> is_page pt1 -> kdir <> pt0 -> kdir <> pt1 -> pt0 <> pt1 ->
  pmm_inv s -> (forall f, 0 <= f < 2048 -> frame_used s f = true) ->
  let p := fst (pmm_alloc_page s) in
  p = 0 \/ translate (m_ram (vmm_init kdir pt0 pt1 cr0 m)) kdir p = None.
Proof.
  intros Hk H0 H1 Hk0 Hk1 H01 Hinv Hlow p. pose proof (pmm_inv_wf s Hinv) as Hwf.
  unfold p. destruct (pmm_alloc_page_spec s Hwf) as [(f & Hf & Hff & _ & ->)|[_ ->]]; [right | by left].
  cbn [fst]. assert (2048 <= f) by (destruct (Z.lt_ge_cases f 2048); [rewrite Hlow in Hff by lia; done | done]).
  destruct Hwf as (_ & _ & Ht). unfold PMM_PAGES_MAX in Ht. unfold translate.
  rewrite init_walk by (done || (unfold is_u32; lia)). by replace (f * 4096 <? 0x800000) with false by lia.
Qed.

Definition demo_high : pmm := release_frame 2048 (all_used 4096).

Lemma demo_high_low f : 0 <= f < 2048 -> frame_used demo_high f = true.
Proof.
  intros Hf. assert (Hm : PMM_PAGES_MAX = 65536) by reflexivity. unfold demo_high.
  rewrite frame_used_release, all_used_frame by (try apply pmm_inv_wf, all_used_inv; lia).
  replace (2048 =? f) with false by lia. reflexivity.
Qed.

Lemma demo_high_inv : pmm_inv demo_high.
Proof. apply release_frame_inv; [by apply all_used_inv | done | by apply all_used_frame]. Qed.

Lemma demo_high_frame : fst (pmm_alloc_page demo_high) = 0x800000.
Proof. vm_compute. reflexivity. Qed.

Lemma frames_above_identity_map_witness :
  translate (m_ram (vmm_init 0x105000 0x106000 0x107000 0x11 mach0)) 0x105000
    (fst (pmm_alloc_page demo_high)) = None.
Proof.
  destruct (frames_above_identity_map 0x105000 0x106000 0x107000 0x11 mach0 demo_high) as [H|H];
    [unfold is_page; lia .. | exact demo_high_inv | exact demo_high_low | | exact H].
  rewrite demo_high_frame in H. discriminate H.
Defined.

(** [vmm_unmap_page] makes [virt]'s page untranslated and changes no other
    translation of the directory. *)
Theorem vmm_unmap_page_unmaps (free : Z -> Prop) (dir virt : Z) (m : mach) :
  is_u32 virt -> dir_wf free (m_ram m) dir ->
  let m' := vmm_unmap_page dir virt m in
  dir_wf free (m_ram m') dir /\ walk (m_ram m') dir virt = None /\
  forall va, is_u32 va -> va / 4096 <> virt / 4096 -> walk (m_ram m') dir va = walk (m_ram m) dir va.
Proof.
  intros Hv Hwf m'. pose proof Hwf as (Hp & _ & Hd). pose proof (proj2 (dir_idx_eq virt Hv)) as Hr.
  unfold m', vmm_unmap_page. fold (pde_present (m_ram m) dir (VMM_DIR_IDX virt)).
  destruct (pde_present (m_ram m) dir (VMM_DIR_IDX virt)) eqn:Hpr; cbn [negb].
  2: { split_and!; [done | | done]. unfold walk, pte_of, pde_present in *. by rewrite Hpr. }
  fold (table (m_ram m) dir (VMM_DIR_IDX virt)). unfold set_entry. rewrite m_ram_do_io, m_ram_mst32.
  set (r := m_ram m) in *. set (di := VMM_DIR_IDX virt) in *. set (ti := VMM_TBL_IDX virt).
  destruct (Hd di Hr Hpr) as (Hne & _ & Hinj). pose proof (table_page r dir di) as Htp.
  assert (Hti : 0 <= ti < 1024) by apply tbl_idx_range.
  set (r' := st32 r (table r dir di + 4 * ti) 0).
  assert (Hsame : page_same dir r r') by (apply page_same_st32; auto).
  split_and!; [eapply dir_wf_frame; eauto | |].
  - unfold walk, pte_of. fold di ti. rewrite (entry_same r r' dir) by done.
    fold (pde_present r dir di) (table r dir di). rewrite Hpr. cbn [mbind option_bind].
    unfold r'. by rewrite entry_st32_eq.
  - intros va Hva Hpage. pose proof (proj2 (dir_idx_eq va Hva)) as Hr'.
    destruct (Z.eq_dec (VMM_DIR_IDX va) di) as [Heq|Hdi].
    + unfold walk, pte_of. rewrite Heq, (entry_same r r' dir) by done.
      fold (pde_present r dir di) (table r dir di). rewrite Hpr. cbn [mbind option_bind].
      unfold r'. rewrite entry_st32_ne; [done |]. intros Ht. apply Hpage. symmetry. by apply same_page.
    + apply walk_frame; [done | done |]. intros Hpr'. apply page_same_st32; auto using table_page.
      intros Heq. apply Hdi. symmetry. by apply Hinj.
Qed.

Lemma vmm_unmap_page_unmaps_witness :
  walk (m_ram (vmm_unmap_page 0x105000 0xB8000 demo_paging)) 0x105000 0xB8000 = None.
Proof.
  apply (vmm_unmap_page_unmaps (fa_free demo_pmm) 0x105000 0xB8000 demo_paging); [unfold is_u32; lia |].
  exact demo_wf.
Defined.

(** Mapping in one directory never changes another directory that shares
    no table with it at that address: every translation of [dir2] survives. *)
Theorem vmm_map_page_isolated `{FrameAllocator A} (dir dir2 virt phys flags : Z) (s : A) (m : mach) :
  is_u32 virt -> fa_inv s -> dir_wf (fa_free s) (m_ram m) dir -> dir_wf (fa_free s) (m_ram m) dir2 ->
  dir2 <> dir ->
  (forall i, 0 <= i < 1024 -> pde_present (m_ram m) dir2 i = true -> table (m_ram m) dir2 i <> dir) ->
  (pde_present (m_ram m) dir (VMM_DIR_IDX virt) = true ->
     let t := table (m_ram m) dir (VMM_DIR_IDX virt) in t <> dir2 /\
     forall i, 0 <= i < 1024 -> pde_present (m_ram m) dir2 i = true -> table (m_ram m) dir2 i <> t) ->
  let (s', m') := vmm_map_page dir virt phys flags s m in
  dir_wf (fa_free s') (m_ram m') dir2 /\
  forall va, is_u32 va -> walk (m_ram m') dir2 va = walk (m_ram m) dir2 va.
Proof.
  intros Hv Hinv Hwf Hwf2 Hne Htd Htt. pose proof Hwf as (Hp & _ & _). pose proof Hwf2 as (Hp2 & Hnf2 & Hd2).
  assert (Hkey : forall r' (free' : Z -> Prop), (forall q, free' q -> fa_free s q) -> page_same dir2 (m_ram m) r' ->
    (forall i, 0 <= i < 1024 -> pde_present (m_ram m) dir2 i = true -> page_same (table (m_ram m) dir2 i) (m_ram m) r') ->
    dir_wf free' r' dir2 /\ forall va, is_u32 va -> walk r' dir2 va = walk (m_ram m) dir2 va).
  { intros r' free' Hf Hs Ht. split; [by eapply dir_wf_frame |]. intros va Hva.
    apply walk_frame; [done | done |]. apply Ht. by apply dir_idx_eq. }
  pose proof (tbl_idx_range virt).
  destruct (vmm_map_page_ram dir virt phys flags s m) as [[Hpr (m' & -> & Hram)]|[Hpr (m' & -> & Hram)]]; rewrite Hram.
  - destruct (Htt Hpr) as [Ht1 Ht2].
    apply Hkey; [done | |]; intros; apply page_same_st32; auto using table_page.
  - pose proof (fa_alloc_spec s Hinv) as Ha. destruct (fa_alloc s) as [pt s'] eqn:E. cbn [fst snd] in *.
    destruct Ha as [_ [[-> ->]|(Hr & Hal & Hf & Hfree)]]; [by apply Hkey |].
    replace (pt =? 0) with false by lia. assert (Hpt : is_page pt) by (unfold is_page; lia).
    apply Hkey; [intros q Hq; by apply Hfree in Hq as [] | |].
    + apply fresh_ram_other; auto. intros ->. done.
    + intros i Hi Hpi. destruct (Hd2 i Hi Hpi) as (_ & Hn & _).
      apply fresh_ram_other; auto using table_page. intros Heq. by rewrite Heq in Hn.
Qed.

(** An empty directory beside the kernel's. *)
Lemma demo_empty_entry i : 0 <= i < 1024 -> entry (m_ram demo_paging) 0x200000 i = 0.
Proof.
  intros Hi. rewrite (entry_same (m_ram mach0)); [done | | done].
  apply init_other; unfold is_page; lia.
Qed.

Lemma demo_empty_wf : dir_wf (fa_free demo_pmm) (m_ram demo_paging) 0x200000.
Proof.
  split; [unfold is_page; lia | split].
  - intros Hf. apply demo_free in Hf. lia.
  - intros i Hi. unfold pde_present. rewrite demo_empty_entry by done. intros [=].
Qed.

Lemma vmm_map_page_isolated_witness :
  let (s', m') := vmm_map_page 0x200000 0x40000000 0xABC000 7 demo_pmm demo_paging in
  walk (m_ram m') 0x105000 0xB8000 = walk (m_ram demo_paging) 0x105000 0xB8000.
Proof.
  pose proof (vmm_map_page_isolated 0x200000 0x105000 0x40000000 0xABC000 7 demo_pmm demo_paging
    ltac:(unfold is_u32; lia) demo_fa_inv demo_empty_wf demo_wf ltac:(lia)) as Hm.
  destruct (vmm_map_page _ _ _ _ demo_pmm demo_paging) as [s' m'].
  apply Hm; [| | unfold is_u32; lia].
  - intros i Hi. unfold pde_present, table. unfold demo_paging.
    rewrite init_dir by (unfold is_page; lia).
    destruct (Z.eqb_spec i 0); [intros _; vm_compute; discriminate |].
    destruct (Z.eqb_spec i 1); [intros _; vm_compute; discriminate | intros [=]].
  - unfold pde_present. rewrite demo_empty_entry by (vm_compute; split; congruence). intros [=].
Defined.

(** [vmm_create_user_directory] returns NULL with nothing changed when no
    frame is free; otherwise it returns a fresh well-formed directory with
    exactly the kernel's entries and translations, and the kernel's are
    unchanged. *)
Theorem vmm_create_user_directory_clones `{FrameAllocator A} (kdir : Z) (s : A) (m : mach) :
  fa_inv s -> dir_wf (fa_free s) (m_ram m) kdir ->
  let '(dir, s', m') := vmm_create_user_directory kdir s m in
  fa_inv s' /\ dir_wf (fa_free s') (m_ram m') kdir /\
  (dir = 0 /\ s' = s /\ m' = m \/
   fa_free s dir /\ dir <> kdir /\ dir_wf (fa_free s') (m_ram m') dir /\
   page_same kdir (m_ram m) (m_ram m') /\
   (forall i, 0 <= i < 1024 -> entry (m_ram m') dir i = entry (m_ram m) kdir i) /\
   forall va, is_u32 va ->
     walk (m_ram m') dir va = walk (m_ram m) kdir va /\
     walk (m_ram m') kdir va = walk (m_ram m) kdir va).
Proof.
  intros Hinv Hwf. unfold vmm_create_user_directory. pose proof (fa_alloc_spec s Hinv) as Ha.
  destruct (fa_alloc s) as [dir s']. destruct Ha as [Hinv' [[-> ->]|(Hr & Hal & Hf & Hfree)]].
  { cbn [Z.eqb]. split_and!; [done | done | by left]. }
  replace (dir =? 0) with false by lia. rewrite m_ram_set_ram. set (r := m_ram m) in *.
  set (r' := copy32 r dir kdir 1024). pose proof Hwf as (Hk & Hnk & Hd).
  assert (Hne : dir <> kdir) by (intros ->; done). assert (Hdp : is_page dir) by (unfold is_page; lia).
  assert (Hsub : forall q, fa_free s' q -> fa_free s q) by (intros q Hq; by apply Hfree in Hq as []).
  assert (Hksame : page_same kdir r r') by (apply page_same_copy32; auto).
  assert (Htn : forall i, 0 <= i < 1024 -> pde_present r kdir i = true -> table r kdir i <> dir).
  { intros i Hi Hpi Heq. destruct (Hd i Hi Hpi) as (_ & Hn & _). by rewrite Heq in Hn. }
  assert (Htsame : forall i, 0 <= i < 1024 -> pde_present r kdir i = true -> page_same (table r kdir i) r r').
  { intros i Hi Hpi. apply page_same_copy32; auto using table_page. }
  assert (Hent : forall i, 0 <= i < 1024 -> entry r' dir i = entry r kdir i).
  { intros i Hi. pose proof (pages_apart _ _ Hdp Hk Hne). apply copy32_spec; lia. }
  split_and!; [done | by eapply dir_wf_frame | right]. split_and!; [done | done | | done | done |].
  - split_and!; [done | rewrite Hfree; tauto |]. unfold pde_present, table in *. intros i Hi.
    rewrite Hent by done. intros Hpi. destruct (Hd i Hi Hpi) as (H1 & H2 & H3).
    split_and!; [by apply Htn | rewrite Hfree; tauto |]. intros j Hj. rewrite Hent by done. auto.
  - intros va Hva. pose proof (proj2 (dir_idx_eq va Hva)) as Hdr.
    assert (Hwk : walk r' kdir va = walk r kdir va) by (apply walk_frame; auto). split; [| done].
    rewrite <- Hwk. unfold walk, pte_of. by rewrite Hent, (entry_same r r' kdir) by done.
Qed.

Lemma vmm_create_user_directory_clones_witness :
  let '(dir, s', m') := vmm_create_user_directory 0x105000 demo_pmm demo_paging in
  dir_wf (fa_free s') (m_ram m') 0x105000.
Proof.
  pose proof (vmm_create_user_directory_clones 0x105000 demo_pmm demo_paging demo_fa_inv demo_wf) as Hc.
  destruct (vmm_create_user_directory 0x105000 demo_pmm demo_paging) as [[dir s'] m']. apply Hc.
Defined.
