(* ===== verification/Vfs.v ===== *)
(** * Vfs: the filesystem switch (kernel/fs/vfs.h, vfs.c)

    [fs_ops] is the table of function pointers a driver registers; a NULL
    pointer is [None].  A driver's operations are functions of its own state
    [F]; buffers are addresses in RAM, and C strings are the list of their
    characters (read as NUL past its end).  [FileSystem] states what a driver
    promises to the switch's clients; kernel/fs/ramfs.c discharges it. *)
From stdpp Require Import strings.
From S2P Require Import Prelude Memory Machine Vga Console.

Definition VFS_MAX_FILENAME := 64.
Definition VFS_MAX_FILES := 64.

(** [dirent_t]: 64 bytes of name, then the size. *)
Definition DIRENT_SIZE := 68.

Record fs_ops (F : Type) := FsOps {
  create : option (list Z -> F -> Z * F);
  open : option (list Z -> F -> Z);
  read : option (Z -> Z -> Z -> Z -> F -> ram -> Z * ram);
  write : option (Z -> Z -> Z -> Z -> ram -> F -> option (Z * F));
  close : option (Z -> F -> Z);
  readdir : option (Z -> Z -> F -> ram -> Z * ram);
}.
Arguments create {F} _.
Arguments open {F} _.
Arguments read {F} _.
Arguments write {F} _.
Arguments close {F} _.
Arguments readdir {F} _.

(** The static variable [mounted_fs]; [None] is NULL. *)
Definition vfs (F : Type) : Type := option (fs_ops F).

Section Dispatch.
Context {F : Type}.
Implicit Types (v : vfs F) (fs : F) (r : ram).

Definition vfs_init (m : mach) : vfs F * mach :=
  (None, klog (lit "[VFS] Virtual filesystem initialised" ++ nl) [] m).

Definition vfs_mount (ops : fs_ops F) : vfs F := Some ops.

Definition vfs_create (v : vfs F) (name : list Z) (fs : F) : Z * F :=
  match v with
  | Some ops => match create ops with Some f => f name fs | None => (-1, fs) end
  | None => (-1, fs)
  end.

Definition vfs_open (v : vfs F) (path : list Z) (fs : F) : Z :=
  match v with
  | Some ops => match open ops with Some f => f path fs | None => -1 end
  | None => -1
  end.

Definition vfs_read (v : vfs F) (file_idx buf offset len : Z) (fs : F) (r : ram) : Z * ram :=
  match v with
  | Some ops => match read ops with Some f => f file_idx buf offset len fs r | None => (-1, r) end
  | None => (-1, r)
  end.

(** [None]: the driver stored outside its file's buffer. *)
Definition vfs_write (v : vfs F) (file_idx buf offset len : Z) (r : ram) (fs : F) : option (Z * F) :=
  match v with
  | Some ops => match write ops with Some f => f file_idx buf offset len r fs | None => Some (-1, fs) end
  | None => Some (-1, fs)
  end.

Definition vfs_close (v : vfs F) (file_idx : Z) (fs : F) : Z :=
  match v with
  | Some ops => match close ops with Some f => f file_idx fs | None => -1 end
  | None => -1
  end.

Definition vfs_readdir (v : vfs F) (entries max : Z) (fs : F) (r : ram) : Z * ram :=
  match v with
  | Some ops => match readdir ops with Some f => f entries max fs r | None => (-1, r) end
  | None => (-1, r)
  end.
End Dispatch.

(** ** The contract of a filesystem driver *)

(** [c] with the bytes [bs] written at [off]. *)
Definition splice (c : list Z) (off : Z) (bs : list Z) : list Z :=
  take (Z.to_nat off) c ++ bs ++ drop (Z.to_nat off + length bs) c.

(** The part of [c] a read of [len] bytes at [off] returns. *)
Definition slice (c : list Z) (off len : Z) : list Z := take (Z.to_nat len) (drop (Z.to_nat off) c).

(** The directory entries [l] stored from [entries] on: name, NUL, and the size
    at offset 64. *)
Definition dirents_at (r : ram) (entries : Z) (l : list (list Z * list Z)) : Prop :=
  forall i e, l !! i = Some e ->
    bytes_at r (entries + DIRENT_SIZE * Z.of_nat i) (e.1 ++ [0]) /\
    ld32 r (entries + DIRENT_SIZE * Z.of_nat i + 64) = alen e.2.

(** Names made of nonzero bytes. *)
Definition names_ok (l : list (list Z * list Z)) : Prop := Forall (fun e => Forall (fun c => 0 < c < 256) e.1) l.

Class FileSystem {F : Type} (ops : fs_ops F) := {
  fs_inv : F -> Prop;
  fs_file : F -> Z -> option (list Z);     (** contents of an open file *)
  fs_capacity : Z;
  fs_cap_range : 0 < fs_capacity < 2147483648;
  fs_size fs i c : fs_inv fs -> fs_file fs i = Some c -> alen c <= fs_capacity;
  fs_read fs i c buf off len r :
    fs_inv fs -> fs_file fs i = Some c -> is_u32 off -> is_u32 len -> 0 <= buf -> buf + len <= W32 ->
    exists r', vfs_read (Some ops) i buf off len fs r = (alen (slice c off len), r') /\
      bytes r' buf (alen (slice c off len)) = slice c off len /\
      forall x, x < buf \/ buf + alen (slice c off len) <= x -> ld8 r' x = ld8 r x;
  fs_write fs i c buf off len r :
    fs_inv fs -> fs_file fs i = Some c -> 0 <= off <= alen c -> 0 <= len -> off + len <= fs_capacity ->
    0 <= buf -> buf + len <= W32 ->
    exists fs', vfs_write (Some ops) i buf off len r fs = Some (len, fs') /\ fs_inv fs' /\
      forall j, fs_file fs' j = if j =? i then Some (splice c off (bytes r buf len)) else fs_file fs j;
  fs_bad fs i buf off len r :
    fs_inv fs -> fs_file fs i = None ->
    vfs_read (Some ops) i buf off len fs r = (-1, r) /\
    vfs_write (Some ops) i buf off len r fs = Some (-1, fs);
  fs_open fs path :
    fs_inv fs -> let i := vfs_open (Some ops) path fs in -1 <= i < 2147483648 /\ (0 <= i -> is_Some (fs_file fs i));
  fs_list : F -> list (list Z * list Z);   (** names and contents, in listing order *)
  fs_list_len fs : fs_inv fs -> Forall (fun e => alen e.1 < VFS_MAX_FILENAME) (fs_list fs);
  fs_readdir fs entries max r :
    fs_inv fs -> names_ok (fs_list fs) -> 0 <= entries -> 0 <= max < 2147483648 -> entries + DIRENT_SIZE * max <= W32 ->
    let l := take (Z.to_nat max) (fs_list fs) in
    exists r', vfs_readdir (Some ops) entries max fs r = (alen l, r') /\ dirents_at r' entries l /\
      forall x, x < entries \/ entries + DIRENT_SIZE * alen l <= x -> ld8 r' x = ld8 r x;
}.

(** ** Lists *)

Lemma length_splice c off bs :
  0 <= off <= alen c -> alen (splice c off bs) = Z.max (alen c) (off + alen bs).
Proof.
  unfold alen, splice. intros H. rewrite !length_app, length_take, length_drop. lia.
Qed.

Lemma slice_splice c off bs :
  0 <= off <= alen c -> slice (splice c off bs) off (alen bs) = bs.
Proof.
  unfold alen, slice, splice. intros H. rewrite drop_app_le by (rewrite length_take; lia).
  rewrite drop_ge by (rewrite length_take; lia). rewrite Nat2Z.id. cbn [app].
  by rewrite take_app_le, take_ge by lia.
Qed.

Lemma length_slice c off len : 0 <= off -> 0 <= len ->
  alen (slice c off len) = Z.min len (Z.max 0 (alen c - off)).
Proof. unfold alen, slice. intros ??. rewrite length_take, length_drop. lia. Qed.

(** Consecutive slices join. *)
Lemma slice_app c off n1 n2 : 0 <= off -> 0 <= n1 -> 0 <= n2 ->
  slice c off n1 ++ slice c (off + alen (slice c off n1)) n2 = slice c off (n1 + n2).
Proof.
  intros Ho H1 H2. unfold slice, alen.
  replace (Z.to_nat (off + Z.of_nat (length (take (Z.to_nat n1) (drop (Z.to_nat off) c)))))
    with (Z.to_nat off + length (take (Z.to_nat n1) (drop (Z.to_nat off) c)))%nat by lia.
  rewrite <- drop_drop. set (d := drop (Z.to_nat off) c).
  replace (Z.to_nat (n1 + n2)) with (Z.to_nat n1 + Z.to_nat n2)%nat by lia.
  rewrite length_take. destruct (Nat.le_gt_cases (Z.to_nat n1) (length d)) as [Hle|Hgt].
  - rewrite Nat.min_l by done. apply take_take_drop.
  - rewrite Nat.min_r by lia. rewrite drop_all, take_nil, app_nil_r, !take_ge by lia. done.
Qed.

(** Consecutive writes join. *)
Lemma splice_app c off b1 b2 : 0 <= off <= alen c ->
  splice (splice c off b1) (off + alen b1) b2 = splice c off (b1 ++ b2).
Proof.
  intros Ho. unfold splice, alen in *. set (n := Z.to_nat off).
  replace (Z.to_nat (off + Z.of_nat (length b1))) with (n + length b1)%nat by lia.
  assert (Hn : length (take n c) = n) by (rewrite length_take; lia).
  rewrite !(app_assoc (take n c) b1), (take_app_length' (take n c ++ b1)) by (rewrite length_app; lia).
  rewrite (drop_app_ge (take n c ++ b1)) by (rewrite length_app; lia).
  rewrite length_app, Hn, <- !app_assoc. do 3 f_equal.
  rewrite drop_drop. f_equal. rewrite length_app. lia.
Qed.

(** ** Properties *)

(** Write/read round trip through the switch, against the driver contract:
    bytes written inside the file's capacity are stored, and reading them back
    into another buffer returns the same count and the same bytes. *)
Theorem vfs_write_read_roundtrip {F} (ops : fs_ops F) `{!FileSystem ops} (fs : F) (i : Z) (c : list Z)
    (src dst off len : Z) (r r2 : ram) :
  fs_inv fs -> fs_file fs i = Some c -> 0 <= off <= alen c -> 0 <= len -> off + len <= fs_capacity ->
  0 <= src -> src + len <= W32 -> 0 <= dst -> dst + len <= W32 ->
  exists fs' r', vfs_write (vfs_mount ops) i src off len r fs = Some (len, fs') /\
    vfs_read (vfs_mount ops) i dst off len fs' r2 = (len, r') /\
    bytes r' dst len = bytes r src len.
Proof.
  intros Hinv Hf Ho Hl Hcap Hs Hs2 Hd Hd2. pose proof fs_cap_range as Hcr.
  destruct (fs_write fs i c src off len r) as (fs' & Hw & Hinv' & Hfile); try done.
  specialize (Hfile i). rewrite Z.eqb_refl in Hfile.
  destruct (fs_read fs' i _ dst off len r2 Hinv' Hfile) as (r' & Hr & Hb & _);
    [unfold is_u32; lia | unfold is_u32; lia | done | done |].
  assert (Hlen : alen (bytes r src len) = len) by (unfold alen; rewrite length_bytes; lia).
  pose proof (slice_splice c off (bytes r src len) Ho) as Hsl. rewrite Hlen in Hsl.
  rewrite Hsl, Hlen in Hr, Hb.
  by exists fs', r'.
Qed.
