(* ===== verification/Ramfs.v ===== *)
(** * Ramfs: the in-memory filesystem (kernel/fs/ramfs.h, ramfs.c)

    The table [files] is a list of 64 records.  A file's [data] buffer is a
    byte map indexed from 0 to [RAMFS_MAX_FILE_SIZE - 1]; a store outside it
    is undefined behaviour, [None]. *)
From stdpp Require Import strings.
From S2P Require Import Prelude Memory Machine Vga Console Vfs.

Definition RAMFS_MAX_FILES := 64.
Definition RAMFS_MAX_FILE_SIZE := 32 * 1024.
Definition INITRAMFS_MAGIC := 0x52414D46.

Record ramfs_file_t := File {
  name : list Z;       (** [char name[VFS_MAX_FILENAME]] *)
  data : ram;          (** [uint8_t data[RAMFS_MAX_FILE_SIZE]] *)
  size : Z;
  used : Z;
}.

Definition no_file : ramfs_file_t := File (replicate 64 0) ∅ 0 0.

Definition ramfs : Type := list ramfs_file_t.

(** The table before [ramfs_init]: static storage is zero. *)
Definition files0 : ramfs := replicate 64 no_file.

Definition file (fs : ramfs) (i : Z) : ramfs_file_t := aget no_file fs i.

(** ** Helpers *)

(** Both strings end in a NUL after the listed characters. *)
Fixpoint str_eq (a b : list Z) : bool :=
  match a, b with
  | x :: a', y :: b' =>
      if ctrue x && ctrue y then (if negb (x =? y) then false else str_eq a' b') else x =? y
  | x :: _, [] => x =? 0
  | [], y :: _ => 0 =? y
  | [], [] => true
  end.

Fixpoint find_from (n : nat) (i : Z) (p : ramfs_file_t -> bool) (fs : ramfs) : Z :=
  match n with
  | O => -1
  | S n' => if p (file fs i) then i else find_from n' (i + 1) p fs
  end.

Definition find_file (nm : list Z) (fs : ramfs) : Z :=
  find_from (Z.to_nat RAMFS_MAX_FILES) 0 (fun f => ctrue (used f) && str_eq (name f) nm) fs.

Definition find_free_slot (fs : ramfs) : Z :=
  find_from (Z.to_nat RAMFS_MAX_FILES) 0 (fun f => negb (ctrue (used f))) fs.

(** [for (i = 0; i < n && src[i]; i++) dst[i] = src[i]; dst[i] = 0;] *)
Fixpoint copy_name (n : nat) (i : Z) (src dst : list Z) : list Z :=
  match n, src with
  | S n', c :: src' => if ctrue c then copy_name n' (i + 1) src' (aset dst i c) else aset dst i 0
  | _, _ => aset dst i 0
  end.

(** ** Operations *)

Definition ramfs_create (nm : list Z) (fs : ramfs) : Z * ramfs :=
  if 0 <=? find_file nm fs then (-1, fs)
  else
    let idx := find_free_slot fs in
    if idx <? 0 then (-1, fs)
    else
      let f := file fs idx in
      (idx, aset fs idx (File (copy_name (Z.to_nat (VFS_MAX_FILENAME - 1)) 0 nm (name f)) (data f) 0 1)).

Definition ramfs_open (path : list Z) (fs : ramfs) : Z :=
  match path with
  | c :: path' => if c =? 47 then find_file path' fs else find_file path fs
  | [] => find_file path fs
  end.

Definition ramfs_read (file_idx buf offset len : Z) (fs : ramfs) (r : ram) : Z * ram :=
  if (file_idx <? 0) || (RAMFS_MAX_FILES <=? file_idx) then (-1, r)
  else if negb (ctrue (used (file fs file_idx))) then (-1, r)
  else
    let f := file fs file_idx in
    if size f <=? offset then (0, r)
    else
      let available := u32 (size f - offset) in
      let len := if available <? len then available else len in
      (s32 len, for_ 0 len (fun i r => st8 r (u32 (buf + i)) (ld8 (data f) (offset + i))) r).

Definition ramfs_write (file_idx buf offset len : Z) (r : ram) (fs : ramfs) : option (Z * ramfs) :=
  if (file_idx <? 0) || (RAMFS_MAX_FILES <=? file_idx) then Some (-1, fs)
  else if negb (ctrue (used (file fs file_idx))) then Some (-1, fs)
  else
    let f := file fs file_idx in
    let len := if RAMFS_MAX_FILE_SIZE <? u32 (offset + len)
               then u32 (RAMFS_MAX_FILE_SIZE - offset) else len in
    if (0 <? len) && (RAMFS_MAX_FILE_SIZE <? offset + len) then None
    else
      let data' := for_ 0 len (fun i d => st8 d (offset + i) (ld8 r (u32 (buf + i)))) (data f) in
      let size' := if size f <? u32 (offset + len) then u32 (offset + len) else size f in
      Some (s32 len, aset fs file_idx (File (name f) data' size' (used f))).

Definition ramfs_close (file_idx : Z) (fs : ramfs) : Z := 0.

(** [entries[count]]: the name up to its NUL, then the size at offset 64. *)
Definition put_dirent (e : Z) (f : ramfs_file_t) (r : ram) : ram :=
  let nm := take 63 (cstr (name f)) in
  let r := fill8 r e (alen nm) (fun j => aget 0 nm j) in
  let r := st8 r (e + alen nm) 0 in
  st32 r (e + 64) (size f).

Fixpoint readdir_loop (n : nat) (i count entries max : Z) (fs : ramfs) (r : ram) : Z * ram :=
  match n with
  | O => (count, r)
  | S n' =>
      if count <? max then
        if ctrue (used (file fs i))
        then readdir_loop n' (i + 1) (count + 1) entries max fs
               (put_dirent (u32 (entries + DIRENT_SIZE * count)) (file fs i) r)
        else readdir_loop n' (i + 1) count entries max fs r
      else (count, r)
  end.

Definition ramfs_readdir (entries max : Z) (fs : ramfs) (r : ram) : Z * ram :=
  readdir_loop (Z.to_nat RAMFS_MAX_FILES) 0 0 entries max fs r.

Definition ramfs_ops : fs_ops ramfs := {|
  create := Some ramfs_create;
  open := Some ramfs_open;
  read := Some ramfs_read;
  write := Some ramfs_write;
  close := Some ramfs_close;
  readdir := Some ramfs_readdir;
|}.

Definition ramfs_get_ops : fs_ops ramfs := ramfs_ops.

Definition ramfs_init (fs : ramfs) (m : mach) : ramfs * vfs ramfs * mach :=
  let fs := for_ 0 RAMFS_MAX_FILES (fun i fs =>
              let f := file fs i in aset fs i (File (aset (name f) 0 0) (data f) 0 0)) fs in
  (fs, vfs_mount ramfs_ops, klog (lit "[RAMFS] In-memory filesystem mounted" ++ nl) [] m).

(** ** The initial image *)

(** The longest C string read from RAM as a file name: the loader passes the
    64-byte name field of an image entry, whose packer terminates it. *)
Definition NAME_FUEL : nat := 64.

(** One entry of the image's table, at [entry_ptr]. *)
Definition load_entry (mod_start entry_ptr : Z) (fs : ramfs) (m : mach) : ramfs * mach :=
  let r := m_ram m in
  let nm := cstr_at NAME_FUEL r entry_ptr in
  let offset := ld32 r (entry_ptr + 64) in
  let fsize := ld32 r (entry_ptr + 68) in
  let (idx, fs) := ramfs_create nm fs in
  let fs :=
    if (0 <=? idx) && (0 <? fsize) then
      let src := u32 (mod_start + offset) in
      let copy_len := if RAMFS_MAX_FILE_SIZE <? fsize then RAMFS_MAX_FILE_SIZE else fsize in
      let f := file fs idx in
      let data' := for_ 0 copy_len (fun i d => st8 d i (ld8 r (u32 (src + i)))) (data f) in
      aset fs idx (File (name f) data' copy_len (used f))
    else fs in
  (fs, klog (lit "  [RAMFS] Loaded: %s (%u bytes)" ++ nl) [AStr (Some nm); AInt fsize] m).

Definition initramfs_load (mod_start mod_size : Z) (fs : ramfs) (m : mach) : ramfs * mach :=
  let magic := mld32 m mod_start in
  if negb (magic =? INITRAMFS_MAGIC) then
    (fs, klog (lit "[RAMFS] WARNING: bad initramfs magic 0x%x (expected 0x%x)" ++ nl)
              [AInt magic; AInt INITRAMFS_MAGIC] m)
  else
    let file_count := mld32 m (mod_start + 4) in
    let m := klog (lit "[RAMFS] Loading initramfs: %u files" ++ nl) [AInt file_count] m in
    for_ 0 file_count (fun i '(fs, m) =>
      load_entry mod_start (u32 (mod_start + 8 + 72 * i)) fs m) (fs, m).

(** ** Strings *)

Lemma cstr_nonnul s c : In c (cstr s) -> c <> 0.
Proof.
  induction s as [|x s IH]; cbn [cstr]; [done |]. destruct (Z.eqb_spec x 0); [done |].
  intros [<-|Hin]; auto.
Qed.

(** [str_eq] decides equality of C strings. *)
Lemma str_eq_spec a b : str_eq a b = true <-> cstr a = cstr b.
Proof.
  revert b. induction a as [|x a IH]; intros [|y b]; cbn [str_eq cstr]; [done | | |].
  - rewrite Z.eqb_eq. destruct (Z.eqb_spec y 0); split; intros; try done; congruence.
  - rewrite Z.eqb_eq. destruct (Z.eqb_spec x 0); split; intros; try done; congruence.
  - unfold ctrue. destruct (Z.eqb_spec x 0), (Z.eqb_spec y 0); cbn [negb andb]; rewrite ?Z.eqb_eq;
      try (split; intros; try done; congruence).
    destruct (Z.eqb_spec x y); cbn [negb]; [rewrite IH; split; congruence | split; congruence].
Qed.

Lemma str_eq_decide a b : str_eq a b = bool_decide (cstr a = cstr b).
Proof.
  destruct (str_eq a b) eqn:E; symmetry; [apply bool_decide_eq_true | apply bool_decide_eq_false].
  - by apply str_eq_spec.
  - rewrite <- str_eq_spec. by rewrite E.
Qed.

(** The copy loop stores the first [n] characters of a C string. *)
Lemma copy_name_spec n i src dst :
  0 <= i -> i + Z.of_nat n < alen dst ->
  length (copy_name n i src dst) = length dst /\
  take (Z.to_nat i) (copy_name n i src dst) = take (Z.to_nat i) dst /\
  cstr (drop (Z.to_nat i) (copy_name n i src dst)) = take n (cstr src).
Proof.
  assert (Hend : forall i (d : list Z), 0 <= i < alen d ->
    length (aset d i 0) = length d /\ take (Z.to_nat i) (aset d i 0) = take (Z.to_nat i) d /\
    cstr (drop (Z.to_nat i) (aset d i 0)) = []).
  { intros j d Hj. unfold alen, aset in *. rewrite length_insert, take_insert_ge by lia. split_and!; try done.
    rewrite (drop_S _ 0) by (apply list_lookup_insert_eq; lia). done. }
  revert i src dst. induction n as [|n IH]; intros i src dst H0 Hlt.
  { destruct (Hend i dst ltac:(lia)) as (? & ? & ?). by destruct src. }
  destruct src as [|c src]; cbn [copy_name cstr].
  { destruct (Hend i dst ltac:(lia)) as (? & ? & ?). done. }
  unfold ctrue. destruct (Z.eqb_spec c 0) as [->|Hc]; cbn [negb].
  { destruct (Hend i dst ltac:(lia)) as (? & ? & ?). by rewrite take_nil. }
  destruct (IH (i + 1) src (aset dst i c)) as (Hl & Ht & Hd); [lia | rewrite alen_aset; lia |].
  set (X := copy_name n (i + 1) src (aset dst i c)) in *. unfold alen, aset in *. rewrite length_insert in Hl.
  replace (Z.to_nat (i + 1)) with (S (Z.to_nat i)) in Ht, Hd by lia.
  assert (Hi : X !! Z.to_nat i = Some c).
  { rewrite <- (lookup_take_lt X (S (Z.to_nat i))) by lia. rewrite Ht, lookup_take_lt by lia.
    apply list_lookup_insert_eq. lia. }
  split_and!; [done | |].
  - apply (f_equal (take (Z.to_nat i))) in Ht. rewrite !take_take in Ht.
    replace (Z.to_nat i `min` S (Z.to_nat i))%nat with (Z.to_nat i) in Ht by lia.
    rewrite Ht. apply take_insert_ge. lia.
  - rewrite (drop_S X c _ Hi). cbn [cstr]. destruct (Z.eqb_spec c 0); [done |]. by rewrite Hd.
Qed.

(** ** Searching *)

Lemma find_from_spec n i p fs :
  let k := find_from n i p fs in
  (k = -1 /\ forall j, i <= j < i + Z.of_nat n -> p (file fs j) = false) \/
  (i <= k < i + Z.of_nat n /\ p (file fs k) = true /\ forall j, i <= j < k -> p (file fs j) = false).
Proof.
  revert i. induction n as [|n IH]; intros i; cbn [find_from]; [left; split; [done | lia] |].
  destruct (p (file fs i)) eqn:E; [right; split_and!; try done; lia |].
  destruct (IH (i + 1)) as [[-> Hn]|(Hr & Hp & Hn)]; [left | right]; (split_and!; try done; try lia);
    intros j Hj; (destruct (Z.eq_dec j i) as [->|]; [done | apply Hn; lia]).
Qed.

Lemma find_from_ext n i p q fs fs' :
  (forall j, i <= j < i + Z.of_nat n -> p (file fs j) = q (file fs' j)) ->
  find_from n i p fs = find_from n i q fs'.
Proof.
  revert i. induction n as [|n IH]; intros i H; cbn [find_from]; [done |].
  rewrite H by lia. destruct (q _); [done |]. apply IH. intros j Hj. apply H. lia.
Qed.

Lemma find_from_unique n i p fs k :
  i <= k < i + Z.of_nat n -> p (file fs k) = true ->
  (forall j, i <= j < k -> p (file fs j) = false) -> find_from n i p fs = k.
Proof.
  intros Hk Hp Hn. destruct (find_from_spec n i p fs) as [[-> H]|(H1 & H2 & H3)].
  - rewrite H in Hp by lia. done.
  - destruct (Z.lt_trichotomy (find_from n i p fs) k) as [Hlt|[Heq|Hgt]]; [| done |].
    + rewrite Hn in H2 by lia. done.
    + rewrite H3 in Hp by lia. done.
Qed.

(** ** The table's invariant and its abstract view *)

Definition is_used (fs : ramfs) (i : Z) : bool := ctrue (used (file fs i)).

Definition file_wf (f : ramfs_file_t) : Prop :=
  length (name f) = 64%nat /\ 0 <= size f <= RAMFS_MAX_FILE_SIZE.

Definition fs_wf (fs : ramfs) : Prop := length fs = 64%nat /\ Forall file_wf fs.

(** Live files have distinct names. *)
Definition names_unique (fs : ramfs) : Prop :=
  forall i j, 0 <= i < 64 -> 0 <= j < 64 -> is_used fs i = true -> is_used fs j = true ->
    cstr (name (file fs i)) = cstr (name (file fs j)) -> i = j.

(** The valid bytes of a file, and of the file a name denotes. *)
Definition contents (f : ramfs_file_t) : list Z := bytes (data f) 0 (size f).

Definition lookup_name (fs : ramfs) (nm : list Z) : option (list Z) :=
  let i := find_file nm fs in if i <? 0 then None else Some (contents (file fs i)).

Lemma no_file_wf : file_wf no_file.
Proof. split; [done | unfold RAMFS_MAX_FILE_SIZE; cbn; lia]. Qed.

Lemma file_wf_at fs i : fs_wf fs -> file_wf (file fs i).
Proof. intros [_ H]. apply (aget_Forall no_file file_wf); [done | apply no_file_wf]. Qed.

Lemma file_aset fs i j f : fs_wf fs -> 0 <= i < 64 -> 0 <= j < 64 ->
  file (aset fs i f) j = if j =? i then f else file fs j.
Proof.
  intros [Hl _] Hi Hj. unfold file. zcase; [subst; apply aget_aset_eq; unfold alen; lia |].
  apply aget_aset_ne; lia.
Qed.

Lemma fs_wf_aset fs i f : fs_wf fs -> file_wf f -> fs_wf (aset fs i f).
Proof. intros [Hl Ha] Hf. split; [unfold aset; by rewrite length_insert | by apply Forall_aset]. Qed.

#[export] Hint Resolve file_wf_at fs_wf_aset no_file_wf : os.

Definition named (nm : list Z) (f : ramfs_file_t) : bool := ctrue (used f) && str_eq (name f) nm.

Lemma find_file_spec nm fs :
  let k := find_file nm fs in
  (k = -1 /\ forall j, 0 <= j < 64 -> named nm (file fs j) = false) \/
  (0 <= k < 64 /\ named nm (file fs k) = true /\ forall j, 0 <= j < k -> named nm (file fs j) = false).
Proof. exact (find_from_spec 64 0 (named nm) fs). Qed.

Lemma find_free_slot_spec fs :
  let k := find_free_slot fs in
  (k = -1 /\ forall j, 0 <= j < 64 -> is_used fs j = true) \/
  (0 <= k < 64 /\ is_used fs k = false /\ forall j, 0 <= j < k -> is_used fs j = true).
Proof.
  assert (Hneg : forall b, negb b = false <-> b = true) by (by intros []).
  destruct (find_from_spec 64 0 (fun f => negb (ctrue (used f))) fs) as [[H1 H2]|(H1 & H2 & H3)].
  - left. split; [exact H1 |]. intros j Hj. apply Hneg, H2. lia.
  - right. split; [exact H1 |]. split; [by apply negb_true_iff |]. intros j Hj. by apply Hneg, H3.
Qed.

(** The record [ramfs_create] stores. *)
Definition new_file (nm : list Z) (f : ramfs_file_t) : ramfs_file_t :=
  File (copy_name 63 0 nm (name f)) (data f) 0 1.

Lemma new_file_spec nm f : file_wf f ->
  file_wf (new_file nm f) /\ cstr (name (new_file nm f)) = take 63 (cstr nm) /\
  contents (new_file nm f) = [].
Proof.
  intros [Hl _]. destruct (copy_name_spec 63 0 nm (name f)) as (H1 & _ & H3); [lia | unfold alen; lia |].
  split_and!; [split; [by rewrite <- Hl | unfold RAMFS_MAX_FILE_SIZE; cbn; lia] | done | done].
Qed.

Lemma ramfs_create_cases nm fs :
  (ramfs_create nm fs = (-1, fs) /\
     ((exists k, 0 <= k < 64 /\ find_file nm fs = k) \/ forall j, 0 <= j < 64 -> is_used fs j = true)) \/
  exists k, ramfs_create nm fs = (k, aset fs k (new_file nm (file fs k))) /\ 0 <= k < 64 /\
    is_used fs k = false /\ (forall j, 0 <= j < k -> is_used fs j = true) /\ find_file nm fs = -1.
Proof.
  unfold ramfs_create. destruct (find_file_spec nm fs) as [[H1 H2]|(H1 & H2 & H3)].
  2: { left. replace (0 <=? find_file nm fs) with true by lia. eauto. }
  rewrite H1. cbn [Z.leb Z.compare]. destruct (find_free_slot_spec fs) as [[H3 H4]|(H3 & H4 & H5)].
  - left. rewrite H3. cbn [Z.ltb Z.compare]. auto.
  - right. replace (find_free_slot fs <? 0) with false by lia. exists (find_free_slot fs).
    split; [reflexivity |]. split; [exact H3 |]. split; [exact H4 |]. split; [exact H5 | reflexivity].
Qed.

Section Create.
Context (nm : list Z) (fs : ramfs) (Hwf : fs_wf fs) (k : Z) (Hk : 0 <= k < 64).
Context (Hfree : is_used fs k = false) (Hnone : find_file nm fs = -1) (Hlen : alen (cstr nm) < 64).
Let fs' := aset fs k (new_file nm (file fs k)).

Lemma created_name : cstr (name (new_file nm (file fs k))) = cstr nm.
Proof using Hwf Hk Hfree Hnone Hlen.
  destruct (new_file_spec nm (file fs k)) as (_ & -> & _); [by apply file_wf_at |].
  apply take_ge. unfold alen in *. lia.
Qed.

(** Which files carry name [n] afterwards. *)
Lemma created_named n j : 0 <= j < 64 ->
  named n (file fs' j) = if j =? k then bool_decide (cstr nm = cstr n) else named n (file fs j).
Proof using Hwf Hk Hfree Hnone Hlen.
  intros Hj. unfold fs'. rewrite file_aset by done. zcase; [| done].
  unfold named. rewrite str_eq_decide, created_name. done.
Qed.

Lemma created_find n :
  find_file n fs' = if bool_decide (cstr nm = cstr n) then k else find_file n fs.
Proof using Hwf Hk Hfree Hnone Hlen.
  destruct (find_file_spec nm fs) as [[_ Hno]|(H1 & _)]; [| lia].
  case_bool_decide as Heq.
  - apply (find_from_unique 64 0 (named n)); [lia | |].
    + rewrite created_named, Z.eqb_refl by lia. by apply bool_decide_eq_true.
    + intros j Hj. rewrite created_named by lia. replace (j =? k) with false by lia.
      specialize (Hno j ltac:(lia)). unfold named in *. by rewrite str_eq_decide, <- Heq, <- str_eq_decide.
  - apply (find_from_ext 64 0 (named n) (named n)). intros j Hj. rewrite created_named by lia.
    zcase; [| done]. subst j. rewrite bool_decide_eq_false_2 by done.
    unfold named. unfold is_used in Hfree. by rewrite Hfree.
Qed.

Lemma created_lookup n :
  lookup_name fs' n = if bool_decide (cstr nm = cstr n) then Some [] else lookup_name fs n.
Proof using Hwf Hk Hfree Hnone Hlen.
  unfold lookup_name. rewrite created_find. case_bool_decide.
  - replace (k <? 0) with false by lia. unfold fs'. rewrite file_aset, Z.eqb_refl by done.
    reflexivity.
  - zcase; [done |]. destruct (find_file_spec n fs) as [[? _]|(Hr & Hp & _)]; [lia |].
    unfold fs'. rewrite file_aset by done. zcase; [| done]. exfalso. rewrite E0 in Hp.
    unfold named in Hp. unfold is_used in Hfree. by rewrite Hfree in Hp.
Qed.

Lemma created_unique : names_unique fs -> names_unique fs'.
Proof using Hwf Hk Hfree Hnone Hlen.
  destruct (find_file_spec nm fs) as [[_ Hno]|(H1 & _)]; [| lia].
  intros Hu i j Hi Hj. unfold is_used, fs'. rewrite !file_aset by done.
  assert (Hother : forall x, 0 <= x < 64 -> x <> k -> ctrue (used (file fs x)) = true ->
                    cstr (name (file fs x)) <> cstr nm).
  { intros x Hx Hxk Hux Heq. specialize (Hno x Hx). unfold named in Hno.
    rewrite Hux, str_eq_decide, bool_decide_eq_true_2 in Hno; done. }
  repeat zcase; subst; rewrite ?created_name; intros Hui Huj Heq; [done | | | by apply Hu].
  - by destruct (Hother j Hj ltac:(done) Huj).
  - by destruct (Hother i Hi ltac:(done) Hui).
Qed.
End Create.

(** ** Reading and writing *)

Lemma alen_bytes r a n : 0 <= n -> alen (bytes r a n) = n.
Proof. intros H. unfold alen. rewrite length_bytes. lia. Qed.

Lemma aget_splice c off bs j : 0 <= off <= alen c -> 0 <= j ->
  aget 0 (splice c off bs) j =
    if (off <=? j) && (j <? off + alen bs) then aget 0 bs (j - off) else aget 0 c j.
Proof.
  intros Ho Hj. unfold aget, splice, alen in *. zcase.
  - rewrite lookup_app_r by (rewrite length_take; lia). rewrite lookup_app_l by (rewrite length_take; lia).
    rewrite length_take. do 2 f_equal. lia.
  - destruct E as [E|E]; zbool.
    + rewrite lookup_app_l by (rewrite length_take; lia). by rewrite lookup_take_lt by lia.
    + rewrite lookup_app_r by (rewrite length_take; lia). rewrite lookup_app_r by (rewrite length_take; lia).
      rewrite lookup_drop, length_take. do 2 f_equal. lia.
Qed.

Lemma aget_slice c off len j : 0 <= off -> 0 <= j < len -> aget 0 (slice c off len) j = aget 0 c (off + j).
Proof.
  intros Ho Hj. unfold aget, slice. rewrite lookup_take_lt by lia. rewrite lookup_drop.
  do 2 f_equal. lia.
Qed.

Lemma bytes_ext r a n l :
  0 <= n -> alen l = n -> (forall j, 0 <= j < n -> ld8 r (a + j) = aget 0 l j) -> bytes r a n = l.
Proof.
  intros Hn Hl H. apply (aget_ext 0); [unfold alen in Hl; rewrite length_bytes; lia |].
  rewrite alen_bytes by done. intros j Hj. rewrite bytes_lookup by done. auto.
Qed.

(** The valid bytes after a write that starts inside or at the end of the file. *)
Lemma contents_written d sz off len g :
  0 <= off <= sz -> 0 <= len -> (forall j, 0 <= g j < 256) ->
  bytes (fill8 d off len g) 0 (Z.max sz (off + len)) =
  splice (bytes d 0 sz) off ((fun i => g (Z.of_nat i)) <$> seq 0 (Z.to_nat len)).
Proof.
  intros Ho Hl Hg. set (bs := _ <$> seq 0 (Z.to_nat len)).
  assert (Hbs : alen bs = len) by (unfold alen, bs; rewrite length_fmap, length_seq; lia).
  assert (Hc : alen (bytes d 0 sz) = sz) by (apply alen_bytes; lia).
  apply bytes_ext; [lia | rewrite length_splice by lia; lia |].
  intros j Hj. rewrite ld8_fill8, aget_splice by lia. rewrite Hbs.
  replace (0 + j) with j by lia. destruct ((off <=? j) && (j <? off + len)) eqn:E; zbool.
  - rewrite u8_small by auto. unfold aget, bs. rewrite list_lookup_fmap, lookup_seq_lt by lia.
    cbn. f_equal. lia.
  - by rewrite bytes_lookup by lia.
Qed.

Definition live (fs : ramfs) (i : Z) : bool := (0 <=? i) && (i <? 64) && is_used fs i.

(** The contents of the file a client holds an index of. *)
Definition ramfs_file (fs : ramfs) (i : Z) : option (list Z) :=
  if live fs i then Some (contents (file fs i)) else None.

Lemma ramfs_bad fs i buf off len r : live fs i = false ->
  ramfs_read i buf off len fs r = (-1, r) /\ ramfs_write i buf off len r fs = Some (-1, fs).
Proof.
  unfold live, is_used, ramfs_read, ramfs_write, RAMFS_MAX_FILES. intros H.
  destruct (Z.ltb_spec i 0); [done |]. destruct (Z.leb_spec 64 i); [done |]. cbn [orb].
  replace (0 <=? i) with true in H by lia. replace (i <? 64) with true in H by lia. cbn [andb] in H.
  by rewrite H.
Qed.

Lemma ramfs_read_spec fs i buf off len r :
  fs_wf fs -> live fs i = true -> is_u32 off -> is_u32 len -> 0 <= buf -> buf + len <= W32 ->
  let c := slice (contents (file fs i)) off len in
  exists r', ramfs_read i buf off len fs r = (alen c, r') /\ bytes r' buf (alen c) = c /\
    forall x, x < buf \/ buf + alen c <= x -> ld8 r' x = ld8 r x.
Proof.
  intros Hwf Hl Ho Hn Hb Hbl c. unfold live, is_used, is_u32 in *. zbool.
  destruct (file_wf_at fs i Hwf) as [_ Hsz]. unfold ramfs_read, RAMFS_MAX_FILES, RAMFS_MAX_FILE_SIZE in *.
  set (f := file fs i) in *. replace ((i <? 0) || (64 <=? i)) with false by lia.
  match goal with H : ctrue (used f) = true |- _ => rewrite H end. cbn [negb].
  assert (Hclen : alen c = Z.min len (Z.max 0 (size f - off))).
  { unfold c. rewrite length_slice by lia. unfold contents. by rewrite alen_bytes by lia. }
  destruct (Z.leb_spec (size f) off) as [Hle|Hgt].
  { exists r. replace (alen c) with 0 by lia. split_and!; try done.
    apply bytes_ext; [lia | lia | lia]. }
  rewrite (u32_small (size f - off)) by lia.
  set (n := if size f - off <? len then size f - off else len).
  assert (Hn' : n = alen c) by (unfold n; zcase; lia). rewrite <- Hn'.
  rewrite s32_small by lia. eexists. split; [reflexivity |].
  rewrite (for_ext 0 n _ (fun j t => st8 t (buf + j) (ld8 (data f) (off + j))))
    by (intros j t Hj; by rewrite u32_small by lia).
  change (for_ 0 n _ r) with (fill8 r buf n (fun j => ld8 (data f) (off + j))). split.
  - apply bytes_ext; [lia | done |]. intros j Hj. rewrite ld8_fill8.
    replace ((buf <=? buf + j) && (buf + j <? buf + n)) with true by lia.
    rewrite u8_small by apply ld8_range. unfold c. rewrite aget_slice by lia. unfold contents.
    rewrite bytes_lookup by lia. f_equal. lia.
  - intros x Hx. rewrite ld8_fill8. by replace ((buf <=? x) && (x <? buf + n)) with false by lia.
Qed.

Lemma ramfs_write_spec fs i buf off len r :
  fs_wf fs -> live fs i = true -> 0 <= off <= size (file fs i) -> 0 <= len ->
  off + len <= RAMFS_MAX_FILE_SIZE -> 0 <= buf -> buf + len <= W32 ->
  exists f', ramfs_write i buf off len r fs = Some (len, aset fs i f') /\ file_wf f' /\
    name f' = name (file fs i) /\ used f' = used (file fs i) /\
    contents f' = splice (contents (file fs i)) off (bytes r buf len).
Proof.
  intros Hwf Hl Ho Hn Hcap Hb Hbl. unfold live, is_used in *. zbool.
  destruct (file_wf_at fs i Hwf) as [Hnm Hsz]. unfold ramfs_write, RAMFS_MAX_FILES, RAMFS_MAX_FILE_SIZE in *.
  set (f := file fs i) in *. replace ((i <? 0) || (64 <=? i)) with false by lia.
  match goal with H : ctrue (used f) = true |- _ => rewrite H end. cbn [negb].
  rewrite (u32_small (off + len)) by lia. replace (32 * 1024 <? off + len) with false by lia. cbv iota zeta.
  replace (32 * 1024 <? off + len) with false by lia.
  rewrite andb_false_r, (u32_small (off + len)), s32_small by lia.
  rewrite (for_ext 0 len _ (fun j t => st8 t (off + j) (ld8 r (buf + j))))
    by (intros j t Hj; by rewrite u32_small by lia).
  change (for_ 0 len _ (data f)) with (fill8 (data f) off len (fun j => ld8 r (buf + j))).
  assert (Hs' : (if size f <? off + len then off + len else size f) = Z.max (size f) (off + len)) by (zcase; lia).
  rewrite Hs'. eexists. split; [reflexivity |]. split_and!; try done.
  { split; [done | cbn [size]; unfold RAMFS_MAX_FILE_SIZE; lia]. }
  unfold contents. cbn [data size]. rewrite contents_written by (auto using ld8_range; lia). done.
Qed.

(** A write that does not wrap is clipped to the file size limit. *)
Lemma ramfs_write_clip fs i buf off len r :
  0 <= off <= RAMFS_MAX_FILE_SIZE -> 0 <= len -> off + len < W32 ->
  ramfs_write i buf off len r fs = ramfs_write i buf off (Z.min len (RAMFS_MAX_FILE_SIZE - off)) r fs.
Proof.
  unfold ramfs_write, RAMFS_MAX_FILE_SIZE, RAMFS_MAX_FILES. intros Ho Hl Hw.
  destruct ((i <? 0) || (64 <=? i)); [done |]. destruct (negb _); [done |].
  rewrite (u32_small (off + len)), (u32_small (off + Z.min len (32 * 1024 - off))), (u32_small (32 * 1024 - off)) by lia.
  replace (32 * 1024 <? off + Z.min len (32 * 1024 - off)) with false by lia.
  destruct (Z.ltb_spec (32 * 1024) (off + len)); [by replace (Z.min len (32 * 1024 - off)) with (32 * 1024 - off) by lia |].
  by replace (Z.min len (32 * 1024 - off)) with len by lia.
Qed.

(** A write that wraps stores past the end of the file's buffer. *)
Lemma ramfs_write_wraps fs i buf off len r :
  live fs i = true -> is_u32 off -> is_u32 len -> W32 <= off + len <= W32 + RAMFS_MAX_FILE_SIZE ->
  ramfs_write i buf off len r fs = None.
Proof.
  intros Hl Ho Hn Hs. unfold live, is_used, is_u32 in *. zbool.
  unfold ramfs_write, RAMFS_MAX_FILES, RAMFS_MAX_FILE_SIZE in *.
  replace ((i <? 0) || (64 <=? i)) with false by lia.
  match goal with H : ctrue _ = true |- _ => rewrite H end. cbn [negb].
  assert (Hw : u32 (off + len) = off + len - W32) by (unfold u32; lia). rewrite Hw.
  replace (32 * 1024 <? off + len - W32) with false by lia. cbv iota zeta.
  by replace ((0 <? len) && (32 * 1024 <? off + len)) with true by lia.
Qed.

(** ** Listing *)

(** The directory entry of a file. *)
Definition entry_of (f : ramfs_file_t) : list Z * list Z := (take 63 (cstr (name f)), contents f).

(** The live files from slot [i] on, in slot order. *)
Fixpoint list_from (n : nat) (i : Z) (fs : ramfs) : list (list Z * list Z) :=
  match n with
  | O => []
  | S n' => (if is_used fs i then [entry_of (file fs i)] else []) ++ list_from n' (i + 1) fs
  end.

Definition ramfs_list (fs : ramfs) : list (list Z * list Z) := list_from 64 0 fs.

Lemma put_dirent_spec e f r :
  file_wf f -> Forall (fun c => 0 < c < 256) (take 63 (cstr (name f))) ->
  let r' := put_dirent e f r in
  bytes_at r' e ((entry_of f).1 ++ [0]) /\ ld32 r' (e + 64) = alen (entry_of f).2 /\
  forall x, x < e \/ e + DIRENT_SIZE <= x -> ld8 r' x = ld8 r x.
Proof.
  intros [_ Hs] Hn r'. unfold r', put_dirent, entry_of, DIRENT_SIZE, RAMFS_MAX_FILE_SIZE in *. cbn [fst snd].
  set (nm := take 63 (cstr (name f))) in *. cbv zeta.
  assert (Hl : alen nm <= 63) by (unfold nm, alen; rewrite length_take; lia). pose proof (alen_nonneg nm).
  split; [| split].
  - apply (bytes_at_same (st8 (fill8 r e (alen nm) (fun j => aget 0 nm j)) (e + alen nm) 0)).
    { apply same_on_st32. right. unfold alen in *. rewrite length_app. cbn [length]. lia. }
    apply bytes_at_app. split; [| apply bytes_at_cons; split; [apply ld8_st8_eq | done]].
    apply (bytes_at_same (fill8 r e (alen nm) (fun j => aget 0 nm j))); [apply same_on_st8; lia |].
    apply bytes_at_fill8. eapply Forall_impl; [exact Hn |]. unfold is_u8. cbn. lia.
  - rewrite ld32_st32_eq, u32_small by lia. unfold contents, alen. rewrite length_bytes. lia.
  - intros x Hx. rewrite ld8_st32_ne, ld8_st8_ne, ld8_fill8 by lia. by replace ((e <=? x) && (x <? e + alen nm)) with false by lia.
Qed.

Lemma dirents_at_snoc r r' entries l e :
  dirents_at r entries l -> Forall (fun e => alen e.1 < 64) l ->
  bytes_at r' (entries + DIRENT_SIZE * alen l) (e.1 ++ [0]) -> ld32 r' (entries + DIRENT_SIZE * alen l + 64) = alen e.2 ->
  (forall x, x < entries + DIRENT_SIZE * alen l -> ld8 r' x = ld8 r x) -> dirents_at r' entries (l ++ [e]).
Proof.
  intros Hd Hl Hb Hw Hf i e' [Hi|[Hi He]]%lookup_app_Some; unfold DIRENT_SIZE, alen in *.
  - destruct (Hd i e' Hi) as [H1 H2]. pose proof (lookup_lt_Some _ _ _ Hi). rewrite Forall_lookup in Hl. specialize (Hl i e' Hi). cbn in Hl.
    split; [| unfold ld32 in *; by rewrite !Hf by lia]. eapply bytes_at_same; [| exact H1]. intros x Hx.
    unfold alen in Hx. rewrite length_app in Hx. cbn [length] in Hx. symmetry. apply Hf. lia.
  - apply list_lookup_singleton_Some in He as [He <-]. by replace i with (length l) by lia.
Qed.

Lemma readdir_loop_spec n i entries max fs l0 r :
  fs_wf fs -> names_ok (list_from n i fs) -> Forall (fun e => alen e.1 < 64) l0 ->
  0 <= entries -> 0 <= max -> entries + DIRENT_SIZE * max <= W32 -> alen l0 <= max -> dirents_at r entries l0 ->
  let l := take (Z.to_nat max) (l0 ++ list_from n i fs) in
  exists r', readdir_loop n i (alen l0) entries max fs r = (alen l, r') /\ dirents_at r' entries l /\
    forall x, x < entries \/ entries + DIRENT_SIZE * alen l <= x -> ld8 r' x = ld8 r x.
Proof.
  intros Hwf. revert i l0 r. induction n as [|n IH]; intros i l0 r Hnm Hl0 He Hm Hw Hlen Hd; cbn [readdir_loop list_from].
  { rewrite app_nil_r, take_ge by (unfold alen in Hlen; lia). by exists r. }
  cbn [list_from] in Hnm. apply Forall_app in Hnm as [Hn1 Hn2].
  destruct (Z.ltb_spec (alen l0) max) as [Hlt|Hge].
  2:{ rewrite take_app_le, take_ge by (unfold alen in *; lia). by exists r. }
  fold (is_used fs i). destruct (is_used fs i); [| exact (IH (i + 1) l0 r Hn2 Hl0 He Hm Hw Hlen Hd)].
  apply Forall_cons in Hn1 as [Hn1 _]. unfold DIRENT_SIZE in *. pose proof (alen_nonneg l0). rewrite u32_small by lia.
  destruct (put_dirent_spec (entries + 68 * alen l0) (file fs i) r (file_wf_at fs i Hwf) Hn1) as (H1 & H2 & H3).
  set (r1 := put_dirent (entries + 68 * alen l0) (file fs i) r) in *. unfold DIRENT_SIZE in *.
  assert (Hlen1 : alen (l0 ++ [entry_of (file fs i)]) = alen l0 + 1) by (unfold alen; rewrite length_app; cbn [length]; lia).
  destruct (IH (i + 1) (l0 ++ [entry_of (file fs i)]) r1 Hn2) as (r' & E & Hd' & Hf'); [| done | done | done | lia | |].
  - apply Forall_app. split; [done |]. apply Forall_singleton. cbn. unfold alen. rewrite length_take. lia.
  - eapply dirents_at_snoc; [exact Hd | done | done | done |]. intros x Hx. apply H3. unfold DIRENT_SIZE in Hx. lia.
  - rewrite <- app_assoc in *. rewrite <- Hlen1. exists r'. split; [exact E |]. split; [exact Hd' |].
    intros x Hx. rewrite Hf' by exact Hx. apply H3. revert Hx. set (l := take _ _).
    assert (Hl : alen l0 + 1 <= alen l); [| lia]. unfold l, alen in *. rewrite length_take, !length_app in *. cbn [length] in *. lia.
Qed.

Lemma ramfs_readdir_spec fs entries max r :
  fs_wf fs -> names_ok (ramfs_list fs) -> 0 <= entries -> 0 <= max -> entries + DIRENT_SIZE * max <= W32 ->
  let l := take (Z.to_nat max) (ramfs_list fs) in
  exists r', ramfs_readdir entries max fs r = (alen l, r') /\ dirents_at r' entries l /\
    forall x, x < entries \/ entries + DIRENT_SIZE * alen l <= x -> ld8 r' x = ld8 r x.
Proof.
  intros Hwf Hn He Hm Hw.
  apply (readdir_loop_spec 64 0 entries max fs [] r Hwf Hn); [done | done | lia | done | unfold alen; cbn; lia | by intros ? ?].
Qed.

Lemma list_from_len n i fs : Forall (fun e => alen e.1 < 64) (list_from n i fs).
Proof.
  revert i. induction n as [|n IH]; intros i; cbn [list_from]; [done |]. apply Forall_app. split; [| done].
  destruct (is_used fs i); [| done]. apply Forall_singleton. cbn. unfold alen. rewrite length_take. lia.
Qed.

Lemma ramfs_open_spec path fs : let i := ramfs_open path fs in -1 <= i < 64 /\ (0 <= i -> live fs i = true).
Proof.
  assert (H : forall nm, -1 <= find_file nm fs < 64 /\ (0 <= find_file nm fs -> live fs (find_file nm fs) = true)).
  { intros nm. destruct (find_file_spec nm fs) as [[-> _]|(Hr & Hn & _)]; [split; lia |]. split; [lia |]. intros _.
    unfold named in Hn. apply andb_true_iff in Hn as [Hu _]. unfold live, is_used. rewrite Hu. lia. }
  intros i. unfold i, ramfs_open. destruct path as [|c path]; [apply H |]. destruct (c =? 47); apply H.
Qed.

#[export] Program Instance ramfs_filesystem : FileSystem ramfs_ops := {|
  fs_inv := fs_wf;
  fs_file := ramfs_file;
  fs_capacity := RAMFS_MAX_FILE_SIZE;
  fs_list := ramfs_list;
|}.
Next Obligation. unfold RAMFS_MAX_FILE_SIZE. lia. Qed.
Next Obligation.
  intros fs i c Hwf. unfold ramfs_file. zcase; [| done]. intros [= <-].
  destruct (file_wf_at fs i Hwf) as [_ Hsz]. unfold contents. rewrite alen_bytes by lia. lia.
Qed.
Next Obligation.
  intros fs i c buf off len r Hwf. unfold ramfs_file. destruct (live fs i) eqn:Hl; [| done].
  intros [= <-] Ho Hn Hb Hbl. exact (ramfs_read_spec fs i buf off len r Hwf Hl Ho Hn Hb Hbl).
Qed.
Next Obligation.
  intros fs i c buf off len r Hwf. unfold ramfs_file. destruct (live fs i) eqn:Hl; [| done].
  intros [= <-] Ho Hn Hcap Hb Hbl. pose proof (file_wf_at fs i Hwf) as [_ Hsz].
  unfold contents in Ho. rewrite alen_bytes in Ho by lia.
  destruct (ramfs_write_spec fs i buf off len r Hwf Hl Ho Hn Hcap Hb Hbl) as (f' & Hw & Hf & _ & Hu & Hc).
  exists (aset fs i f'). split; [exact Hw |]. split; [by apply fs_wf_aset |]. intros j.
  assert (Hi : 0 <= i < 64) by (unfold live in Hl; zbool; lia).
  destruct (Z.eqb_spec j i) as [->|Hne].
  - unfold live, is_used. rewrite file_aset, Z.eqb_refl, Hu by done.
    unfold live, is_used in Hl. by rewrite Hl, Hc.
  - unfold live, is_used. destruct ((0 <=? j) && (j <? 64)) eqn:E; [| done]. zbool.
    rewrite file_aset by (assumption || lia). by replace (j =? i) with false by lia.
Qed.
Next Obligation.
  intros fs i buf off len r Hwf. unfold ramfs_file. zcase; [done |]. intros _. by apply ramfs_bad.
Qed.
Next Obligation.
  intros fs path Hwf. destruct (ramfs_open_spec path fs) as [H1 H2]. cbv zeta. cbn [vfs_open ramfs_ops open].
  split; [lia |]. intros Hi. unfold ramfs_file. by rewrite H2.
Qed.
Next Obligation. intros fs _. exact (list_from_len 64 0 fs). Qed.
Next Obligation.
  intros fs entries max r Hwf Hn He Hm Hw.
  apply ramfs_readdir_spec; (done || lia).
Qed.

(** ** Loading the initial image *)

(** A whole-buffer update that keeps the name: every name is found where it was. *)
Lemma find_file_update fs i f' n :
  fs_wf fs -> 0 <= i < 64 -> name f' = name (file fs i) -> used f' = used (file fs i) ->
  find_file n (aset fs i f') = find_file n fs.
Proof.
  intros Hwf Hi Hn Hu. apply (find_from_ext 64 0 (named n) (named n)). intros j Hj.
  rewrite file_aset by (assumption || lia). zcase; [| done]. subst j. unfold named. by rewrite Hn, Hu.
Qed.

Lemma lookup_name_update fs i f' n :
  fs_wf fs -> 0 <= i < 64 -> name f' = name (file fs i) -> used f' = used (file fs i) ->
  lookup_name (aset fs i f') n =
    if find_file n fs =? i then Some (contents f') else lookup_name fs n.
Proof.
  intros Hwf Hi Hn Hu. unfold lookup_name. rewrite find_file_update by done.
  destruct (find_file_spec n fs) as [[-> _]|(Hr & _)].
  - by replace (-1 =? i) with false by lia.
  - replace (find_file n fs <? 0) with false by lia. rewrite file_aset by done. by zcase.
Qed.

Lemma names_unique_update fs i f' :
  fs_wf fs -> 0 <= i < 64 -> name f' = name (file fs i) -> used f' = used (file fs i) ->
  names_unique fs -> names_unique (aset fs i f').
Proof.
  intros Hwf Hi Hn Hu Huq a b Ha Hb. unfold is_used. rewrite !file_aset by (assumption || lia).
  intros Hua Hub Heq. apply Huq; [done | done | | |]; unfold is_used in *;
    destruct (Z.eqb_spec a i), (Z.eqb_spec b i); subst; congruence.
Qed.

Lemma cstr_at_cstr n r a : cstr (cstr_at n r a) = cstr_at n r a.
Proof.
  revert a. induction n as [|n IH]; intros a; cbn [cstr_at]; [done |].
  destruct (ld8 r a =? 0) eqn:E; [done |]. cbn [cstr]. by rewrite E, IH.
Qed.

(** One table entry of an image at [start]: name field, offset, size, bytes. *)
Definition entry_at (r : ram) (start e : Z) (nc : list Z * list Z) : Prop :=
  cstr_at NAME_FUEL r e = fst nc /\ alen (fst nc) < 64 /\
  ld32 r (e + 68) = alen (snd nc) /\ alen (snd nc) <= RAMFS_MAX_FILE_SIZE /\
  start + ld32 r (e + 64) + alen (snd nc) <= W32 /\
  bytes r (start + ld32 r (e + 64)) (alen (snd nc)) = snd nc.

(** Creating a new name in a table whose live slots are the first [k]. *)
Lemma create_next nm fs k :
  fs_wf fs -> names_unique fs -> alen (cstr nm) < 64 -> 0 <= k < 64 ->
  (forall j, 0 <= j < 64 -> is_used fs j = (j <? k)) -> lookup_name fs nm = None ->
  let fs1 := aset fs k (new_file nm (file fs k)) in
  ramfs_create nm fs = (k, fs1) /\ fs_wf fs1 /\ names_unique fs1 /\
  (forall j, 0 <= j < 64 -> is_used fs1 j = (j <? k + 1)) /\
  forall n, (find_file n fs1 =? k) = bool_decide (cstr nm = cstr n) /\
    lookup_name fs1 n = if bool_decide (cstr nm = cstr n) then Some [] else lookup_name fs n.
Proof.
  intros Hwf Huq Hlen Hk Hused Hnone fs1.
  destruct (ramfs_create_cases nm fs) as [[_ [(i & Hi & Hf)|Hall]]|(i & Heq & Hi & Hfree & Hlow & Hf)].
  { unfold lookup_name in Hnone. rewrite Hf in Hnone. by replace (i <? 0) with false in Hnone by lia. }
  { specialize (Hall k Hk). rewrite Hused in Hall by done. lia. }
  assert (Hik : i = k).
  { rewrite Hused in Hfree by done. destruct (Z.eq_dec i k); [done |].
    specialize (Hlow k ltac:(lia)). rewrite Hused in Hlow by lia. lia. }
  subst i. split; [exact Heq |]. split_and!.
  - apply fs_wf_aset; [done | by apply new_file_spec, file_wf_at].
  - by apply created_unique.
  - intros j Hj. unfold is_used, fs1. rewrite file_aset by done. zcase; [cbn; lia |].
    change (ctrue _) with (is_used fs j). rewrite Hused by done. lia.
  - intros n. split; [| by apply created_lookup]. unfold fs1. rewrite created_find by done.
    case_bool_decide; [lia |]. destruct (find_file_spec n fs) as [[-> _]|(Hr & Hp & _)]; [lia |].
    apply Z.eqb_neq. intros E. rewrite E in Hp. unfold named in Hp. unfold is_used in Hfree.
    by rewrite Hfree in Hp.
Qed.

(** The bytes [initramfs_load] copies into a file's buffer. *)
Lemma image_copy r start ofs c d nm u :
  0 <= start -> 0 <= ofs -> start + ofs + alen c <= W32 -> 0 < alen c -> bytes r (start + ofs) (alen c) = c ->
  contents (File nm (for_ 0 (alen c) (fun i d => st8 d i (ld8 r (u32 (u32 (start + ofs) + i)))) d) (alen c) u) = c.
Proof.
  intros Hs Ho He Hp Hb. unfold contents. cbn [data size]. apply bytes_ext; [lia | done |]. intros j Hj.
  rewrite (for_ext 0 (alen c) _ (fun i d => st8 d (0 + i) (ld8 r (start + ofs + i)))).
  2: { intros i t Hi. rewrite (u32_small (start + ofs)) by lia. by rewrite u32_small by lia. }
  change (for_ 0 (alen c) _ d) with (fill8 d 0 (alen c) (fun i => ld8 r (start + ofs + i))).
  rewrite ld8_fill8. replace ((0 <=? 0 + j) && (0 + j <? 0 + alen c)) with true by lia.
  rewrite u8_small by apply ld8_range. 
  transitivity (aget 0 (bytes r (start + ofs) (alen c)) j); [| by rewrite Hb].
  rewrite bytes_lookup by done. f_equal. lia.
Qed.

Lemma load_entry_spec start e nm c fs m k :
  fs_wf fs -> names_unique fs -> 0 <= start -> entry_at (m_ram m) start e (nm, c) ->
  0 <= k < 64 -> (forall j, 0 <= j < 64 -> is_used fs j = (j <? k)) -> lookup_name fs nm = None ->
  let (fs', m') := load_entry start e fs m in
  fs_wf fs' /\ names_unique fs' /\ m_ram m' = m_ram m /\
  (forall j, 0 <= j < 64 -> is_used fs' j = (j <? k + 1)) /\
  (forall n, lookup_name fs' n = if bool_decide (nm = cstr n) then Some c else lookup_name fs n) /\
  entry_of (file fs' k) = (nm, c) /\ forall j, 0 <= j < 64 -> j <> k -> file fs' j = file fs j.
Proof.
  intros Hwf Huq Hst (Hnm & Hlen & Hsz & Hmax & Hend & Hb) Hk Hused Hnone. cbn [fst snd] in *.
  assert (Hcn : cstr nm = nm) by (rewrite <- Hnm; apply cstr_at_cstr).
  destruct (create_next nm fs k) as (Hcr & Hwf1 & Huq1 & Hu1 & Hl1); rewrite ?Hcn; try done.
  unfold load_entry. rewrite Hnm, Hsz, Hcr, m_ram_klog. unfold RAMFS_MAX_FILE_SIZE in *.
  rewrite Hcn in Hl1. set (fs1 := aset fs k (new_file nm (file fs k))) in *.
  assert (Hfk : file fs1 k = new_file nm (file fs k)) by (unfold fs1; rewrite file_aset, Z.eqb_refl by done; done).
  assert (Hoth : forall j, 0 <= j < 64 -> j <> k -> file fs1 j = file fs j).
  { intros j Hj Hne. unfold fs1. rewrite file_aset by done. by replace (j =? k) with false by lia. }
  destruct (new_file_spec nm (file fs k) (file_wf_at fs k Hwf)) as (_ & Hnn & Hcn0). rewrite Hcn in Hnn.
  assert (Hnt : take 63 (take 63 nm) = nm) by (rewrite !take_ge; unfold alen in Hlen; rewrite ?length_take; try done; lia).
  replace (0 <=? k) with true by lia. cbn [andb]. destruct (Z.ltb_spec 0 (alen c)) as [Hpos|Hzero].
  2: { destruct c; [| unfold alen in Hzero; cbn in Hzero; lia]. split_and!; try done; [apply Hl1 |].
       unfold entry_of. by rewrite Hfk, Hnn, Hcn0, Hnt. }
  replace (32 * 1024 <? alen c) with false by lia. set (f' := File _ _ _ _).
  assert (Hc : contents f' = c) by (apply image_copy; auto; apply ld32_range).
  assert (Hname : name f' = name (file fs1 k)) by done. assert (Hus : used f' = used (file fs1 k)) by done.
  split_and!; try done.
  - apply fs_wf_aset; [done |]. destruct (file_wf_at fs1 k Hwf1) as [Hl _]. split; [done |].
    unfold f'. cbn [size]. unfold RAMFS_MAX_FILE_SIZE. lia.
  - by apply names_unique_update.
  - intros j Hj. rewrite <- Hu1 by done. unfold is_used. rewrite file_aset by done. zcase; [by rewrite E | done].
  - intros n. rewrite lookup_name_update by done. destruct (Hl1 n) as [-> ->]. rewrite Hc. by case_bool_decide.
  - unfold entry_of. rewrite file_aset, Z.eqb_refl, Hc, Hname, Hfk, Hnn, Hnt by done. done.
  - intros j Hj Hne. rewrite file_aset by done. replace (j =? k) with false by lia. by apply Hoth.
Qed.

(** The map an image denotes: later entries override. *)
Definition image_map (fl : list (list Z * list Z)) : gmap (list Z) (list Z) :=
  fold_left (fun M nc => <[fst nc := snd nc]> M) fl ∅.

Lemma image_map_snoc fl nc : image_map (fl ++ [nc]) = <[fst nc := snd nc]> (image_map fl).
Proof. unfold image_map. by rewrite fold_left_app. Qed.

Lemma image_map_fresh fl n : ~ In n (fst <$> fl) -> image_map fl !! n = None.
Proof.
  induction fl as [|nc fl IH] using rev_ind; intros Hn; [apply lookup_empty |].
  rewrite fmap_app, in_app_iff in Hn. rewrite image_map_snoc, lookup_insert_ne.
  - apply IH. tauto.
  - intros Heq. apply Hn. right. left. exact Heq.
Qed.

(** The RAM at [start] holds an image of the files [fl]. *)
Definition image_at (r : ram) (start : Z) (fl : list (list Z * list Z)) : Prop :=
  0 <= start /\ start + 8 + 72 * alen fl <= W32 /\
  ld32 r start = INITRAMFS_MAGIC /\ ld32 r (start + 4) = alen fl /\
  forall k nc, fl !! k = Some nc -> entry_at r start (start + 8 + 72 * Z.of_nat k) nc.

Definition table_empty (fs : ramfs) : Prop := forall j, 0 <= j < 64 -> is_used fs j = false.

(** The first slots of the table hold the files [fl], in order, and no other
    slot is used. *)
Definition holds (fl : list (list Z * list Z)) (fs : ramfs) : Prop :=
  fs_wf fs /\ names_unique fs /\ (forall j, 0 <= j < 64 -> is_used fs j = (j <? alen fl)) /\
  (forall n, lookup_name fs n = image_map fl !! cstr n) /\
  forall j nc, fl !! j = Some nc -> entry_of (file fs (Z.of_nat j)) = nc.

(** Loading one more entry: a name that is taken is dropped, and so is every
    entry once the table is full. *)
Definition add_file (fl : list (list Z * list Z)) (nc : list Z * list Z) : list (list Z * list Z) :=
  if bool_decide (nc.1 ∈ fst <$> fl) || (64 <=? alen fl) then fl else fl ++ [nc].
Definition add_files (pre fl : list (list Z * list Z)) : list (list Z * list Z) := fold_left add_file fl pre.

Lemma add_files_app pre fl fl' : add_files pre (fl ++ fl') = add_files (add_files pre fl) fl'.
Proof. apply fold_left_app. Qed.

Lemma add_files_few pre fl : alen pre <= 64 -> alen (add_files pre fl) <= 64.
Proof.
  unfold alen. induction fl as [|nc fl IH] using rev_ind; intros H; [done |]. rewrite add_files_app. cbn [add_files fold_left]. unfold add_file.
  destruct (bool_decide _ || (64 <=? alen _)) eqn:E; [by apply IH |]. apply orb_false_iff in E as [_ E]. unfold alen in E. rewrite length_app. cbn [length]. lia.
Qed.

Lemma add_files_unique pre fl : NoDup (fst <$> pre) -> NoDup (fst <$> add_files pre fl).
Proof.
  induction fl as [|nc fl IH] using rev_ind; intros H; [done |]. rewrite add_files_app. cbn [add_files fold_left]. unfold add_file.
  destruct (bool_decide _ || _) eqn:E; [by apply IH |]. apply orb_false_iff in E as [E _]. apply bool_decide_eq_false in E.
  rewrite fmap_app. cbn [fmap list_fmap]. apply NoDup_app. split; [by apply IH |]. split; [| apply NoDup_singleton].
  intros x Hx ->%list_elem_of_singleton. done.
Qed.

Lemma add_files_in pre fl nc : nc ∈ add_files pre fl -> nc ∈ pre \/ nc ∈ fl.
Proof.
  induction fl as [|nc' fl IH] using rev_ind; [by left |]. rewrite add_files_app. cbn [add_files fold_left]. unfold add_file.
  destruct (_ || _); [intros H; destruct (IH H); [by left | right; apply elem_of_app; by left] |].
  intros [H|H]%elem_of_app; [destruct (IH H); [by left | right; apply elem_of_app; by left] | right; apply elem_of_app; by right].
Qed.

(** With distinct names and room for all, nothing is dropped. *)
Lemma add_files_all pre fl : NoDup (fst <$> pre ++ fl) -> alen pre + alen fl <= 64 -> add_files pre fl = pre ++ fl.
Proof.
  induction fl as [|nc fl IH] using rev_ind; intros Hnd H64; [by rewrite app_nil_r |]. rewrite add_files_app, app_assoc in *.
  unfold alen in *. rewrite length_app in H64. cbn [length] in H64. rewrite fmap_app in Hnd. apply NoDup_app in Hnd as (Hnd & Hd & _).
  rewrite IH by (done || lia). cbn [add_files fold_left]. unfold add_file. rewrite bool_decide_eq_false_2.
  - replace (64 <=? alen (pre ++ fl)) with false; [done |]. symmetry. apply Z.leb_gt. unfold alen. rewrite length_app. lia.
  - intros Hin. by apply (Hd _ Hin), list_elem_of_here.
Qed.

(** The loop's invariant after [k] entries, from a table that holds [pre]. *)
Definition loaded (r : ram) (pre fl : list (list Z * list Z)) (k : Z) (st : ramfs * mach) : Prop :=
  holds (add_files pre (take (Z.to_nat k) fl)) (fst st) /\ m_ram (snd st) = r.

Lemma image_map_taken fl n : n ∈ fst <$> fl -> is_Some (image_map fl !! n).
Proof.
  induction fl as [|nc fl IH] using rev_ind; [by intros ?%elem_of_nil |]. rewrite fmap_app, image_map_snoc. intros [H|H]%elem_of_app.
  - destruct (decide (nc.1 = n)) as [->|Hne]; [rewrite lookup_insert_eq; by eexists | rewrite lookup_insert_ne by done; by apply IH].
  - apply list_elem_of_singleton in H as ->. rewrite lookup_insert_eq. by eexists.
Qed.

(** An entry whose name is taken, or that finds the table full, is dropped. *)
Lemma load_entry_drops start e nm c fs m :
  fs_wf fs -> entry_at (m_ram m) start e (nm, c) ->
  is_Some (lookup_name fs nm) \/ (forall j, 0 <= j < 64 -> is_used fs j = true) ->
  exists m', load_entry start e fs m = (fs, m') /\ m_ram m' = m_ram m.
Proof.
  intros Hwf (Hnm & _) Hno. cbn [fst] in Hnm. unfold load_entry. rewrite Hnm.
  destruct (ramfs_create_cases nm fs) as [[-> _]|(i & _ & Hi & Hfree & _ & Hf)].
  - cbn [Z.leb Z.compare andb]. eexists. split; [reflexivity | apply m_ram_klog].
  - exfalso. destruct Hno as [[x Hx]|Hall]; [| by rewrite Hall in Hfree]. unfold lookup_name in Hx. by rewrite Hf in Hx.
Qed.

Lemma loaded_step r start pre fl k fs m :
  image_at r start fl -> 0 <= k < alen fl -> alen pre <= 64 ->
  loaded r pre fl k (fs, m) ->
  loaded r pre fl (k + 1) (load_entry start (u32 (start + 8 + 72 * k)) fs m).
Proof.
  intros (Hst & Hend & _ & _ & Hent) Hk Hpre (Hh & Hram). cbn [fst snd] in *. pose proof Hh as (Hwf & Huq & Hused & Hl & Hslot).
  unfold alen in Hk. destruct (lookup_lt_is_Some_2 fl (Z.to_nat k)) as [[nm c] Hnc]; [lia |].
  pose proof (Hent _ _ Hnc) as He. rewrite Z2Nat.id in He by lia. rewrite <- Hram in He.
  unfold alen in Hend. rewrite u32_small by lia.
  assert (Hcn : cstr nm = nm) by (destruct He as [Hn _]; cbn [fst] in Hn; rewrite <- Hn; apply cstr_at_cstr).
  unfold loaded. replace (Z.to_nat (k + 1)) with (S (Z.to_nat k)) by lia. rewrite (take_S_r _ _ _ Hnc), add_files_app.
  pose proof (add_files_few pre (take (Z.to_nat k) fl) Hpre) as H64.
  set (files := add_files pre (take (Z.to_nat k) fl)) in *. cbn [add_files fold_left]. unfold add_file at 1. cbn [fst].
  destruct (bool_decide (nm ∈ fst <$> files) || (64 <=? alen files)) eqn:Edrop.
  { destruct (load_entry_drops start (start + 8 + 72 * k) nm c fs m Hwf He) as (m' & -> & Hr').
    - apply orb_true_iff in Edrop as [E|E]; [left | right; intros j Hj; rewrite Hused by done; lia].
      rewrite Hl, Hcn. apply image_map_taken. by apply bool_decide_eq_true in E.
    - split; [exact Hh | cbn [snd]; congruence]. }
  apply orb_false_iff in Edrop as [Enew Eroom]. apply bool_decide_eq_false in Enew.
  pose proof (alen_nonneg files) as Hn0.
  pose proof (load_entry_spec start (start + 8 + 72 * k) nm c fs m (alen files) Hwf Huq Hst He ltac:(lia) Hused) as Hstep.
  destruct (load_entry start (start + 8 + 72 * k) fs m) as [fs' m'].
  destruct Hstep as (Hwf' & Huq' & Hram' & Hused' & Hl' & Hnew & Hold).
  { rewrite Hl, Hcn. apply image_map_fresh. intros Hin. by apply Enew, list_elem_of_In. }
  split; [| cbn [snd]; congruence]. cbn [fst]. split; [done |]. split; [done |]. split; [| split].
  - intros j Hj. rewrite Hused' by done. unfold alen. rewrite length_app. f_equal. cbn [length]. lia.
  - intros n. rewrite Hl', Hl, image_map_snoc. cbn [fst snd].
    case_bool_decide as Heq; [by rewrite Heq, lookup_insert_eq | by rewrite lookup_insert_ne].
  - unfold alen in *. intros j nc Hj. apply lookup_app_Some in Hj as [Hj|[Hge Hj]].
    + pose proof (lookup_lt_Some _ _ _ Hj). rewrite Hold by lia. by apply Hslot.
    + apply list_lookup_singleton_Some in Hj as [Hj <-]. by replace (Z.of_nat j) with (Z.of_nat (length files)) by lia.
Qed.

Lemma lookup_empty_table fs n : table_empty fs -> lookup_name fs n = None.
Proof.
  intros He. unfold lookup_name. destruct (find_file_spec n fs) as [[-> _]|(Hr & Hp & _)]; [done |].
  unfold named in Hp. specialize (He _ Hr). unfold is_used in He. by rewrite He in Hp.
Qed.

Lemma holds_empty fs : fs_wf fs -> table_empty fs -> holds [] fs.
Proof.
  intros Hwf He. split_and!; try done.
  - intros i j Hi _ Hu. rewrite He in Hu by done. done.
  - intros j Hj. rewrite He by done. change (alen []) with 0. lia.
  - intros n. rewrite lookup_empty_table by done. symmetry. apply lookup_empty.
Qed.

(** The whole loop, on any table. *)
Lemma initramfs_load_adds start len pre fl fs m :
  holds pre fs -> alen pre <= 64 -> image_at (m_ram m) start fl ->
  holds (add_files pre fl) (fst (initramfs_load start len fs m)) /\ m_ram (snd (initramfs_load start len fs m)) = m_ram m.
Proof.
  intros Hh H64 Him. pose proof Him as (_ & _ & Hmag & Hcnt & _).
  unfold initramfs_load, mld32. rewrite Hmag, Z.eqb_refl, Hcnt. cbn [negb].
  set (m1 := klog _ _ m). assert (Hr1 : m_ram m1 = m_ram m) by apply m_ram_klog.
  match goal with |- context [for_ 0 _ ?body _] =>
    assert (H : loaded (m_ram m) pre fl (Z.max 0 (alen fl)) (for_ 0 (alen fl) body (fs, m1))) end.
  { apply for_ind; [by split |]. intros k [fs' m'] Hk Hinv. by apply loaded_step. }
  replace (Z.max 0 (alen fl)) with (alen fl) in H by (unfold alen; lia).
  destruct H as [H1 H2]. unfold alen in H1 at 1. by rewrite Nat2Z.id, firstn_all in H1.
Qed.

Lemma initramfs_load_holds start len pre fl fs m :
  holds pre fs -> image_at (m_ram m) start fl -> NoDup (fst <$> pre ++ fl) -> alen pre + alen fl <= 64 ->
  holds (pre ++ fl) (fst (initramfs_load start len fs m)) /\ m_ram (snd (initramfs_load start len fs m)) = m_ram m.
Proof.
  intros Hh Him Hnd H64. rewrite <- add_files_all by done. apply initramfs_load_adds; [done | | done]. pose proof (alen_nonneg fl). lia.
Qed.

Lemma initramfs_load_screen start len fs m : vga_wf m -> vga_wf (snd (initramfs_load start len fs m)).
Proof.
  intros H. unfold initramfs_load. destruct (negb _); [by apply vga_wf_klog |].
  pose (P := fun (_ : Z) (st : ramfs * mach) => vga_wf (snd st)). set (n := mld32 m (start + 4)).
  match goal with |- vga_wf (snd (for_ 0 n ?b ?i)) => assert (Hp : P (Z.max 0 n) (for_ 0 n b i)) end; [| exact Hp].
  apply for_ind; [by apply vga_wf_klog |]. intros k [fs1 m1] _ H1. unfold P, load_entry in *. cbn [snd] in H1.
  destruct (ramfs_create _ fs1) as [idx fs2]. cbn [snd]. by apply vga_wf_klog.
Qed.

(** ** Properties *)

(** [ramfs_init] on any table of 64 slots leaves every slot free, so no
    name is found and the well-formedness and name-uniqueness invariants hold. *)
Lemma ramfs_init_empty fs m :
  fs_wf fs -> fs_wf (fst (fst (ramfs_init fs m))) /\ table_empty (fst (fst (ramfs_init fs m))).
Proof.
  intros Hwf. unfold ramfs_init. cbn [fst].
  match goal with |- fs_wf (for_ 0 RAMFS_MAX_FILES ?body fs) /\ _ =>
    assert (H : (fun k t => fs_wf t /\ forall j, 0 <= j < k -> is_used t j = false) (Z.max 0 RAMFS_MAX_FILES)
                (for_ 0 RAMFS_MAX_FILES body fs)) end.
  { apply for_ind; [split; [done | lia] |]. unfold RAMFS_MAX_FILES. intros k t Hk [Ht Hj]. split.
    - apply fs_wf_aset; [done |]. destruct (file_wf_at t k Ht) as [Hl _]. split.
      + cbn [name]. unfold aset. by rewrite length_insert.
      + unfold RAMFS_MAX_FILE_SIZE. cbn. lia.
    - intros j Hjk. unfold is_used. rewrite file_aset by (assumption || lia). zcase; [done |].
      apply Hj. lia. }
  exact H.
Qed.

(** Loading an image unpacks it exactly: from an empty table and an image
    of at most 64 files with distinct names shorter than 64 characters and
    contents within the file size limit, [initramfs_load] ends in a well-formed
    table with distinct names in which every name denotes precisely the file
    the image gives it, and no other name is present. *)
Theorem initramfs_load_unpacks (start len : Z) (fl : list (list Z * list Z)) (fs : ramfs) (m : mach) :
  fs_wf fs -> table_empty fs -> image_at (m_ram m) start fl -> NoDup (fst <$> fl) -> alen fl <= 64 ->
  let (fs', m') := initramfs_load start len fs m in
  fs_wf fs' /\ names_unique fs' /\ m_ram m' = m_ram m /\
  forall n, lookup_name fs' n = image_map fl !! cstr n.
Proof.
  intros Hwf Hemp Him Hnd H64.
  destruct (initramfs_load_holds start len [] fl fs m (holds_empty fs Hwf Hemp) Him Hnd) as [(H1 & H2 & _ & H4 & _) H5]; [done |].
  destruct (initramfs_load start len fs m) as [fs' m']. by split_and!.
Qed.

(** An image of one file, ["hi" = "A"], at 0x300000. *)
Definition demo_image : mach :=
  set_ram (fun r =>
    let r := st32 r 0x300000 INITRAMFS_MAGIC in
    let r := st32 r 0x300004 1 in
    let r := st8 (st8 r 0x300008 104) 0x300009 105 in
    let r := st32 r 0x300048 80 in
    let r := st32 r 0x30004C 1 in
    st8 r 0x300050 65) mach0.

Lemma files0_wf : fs_wf files0.
Proof. split; [done |]. apply Forall_replicate, no_file_wf. Qed.

Lemma files0_empty : table_empty files0.
Proof. intros j Hj. unfold is_used, file, files0. by rewrite aget_replicate by lia. Qed.

Lemma initramfs_load_unpacks_witness :
  let (fs', m') := initramfs_load 0x300000 81 files0 demo_image in
  lookup_name fs' [104; 105] = Some [65].
Proof.
  pose proof (initramfs_load_unpacks 0x300000 81 [([104; 105], [65])] files0 demo_image
    files0_wf files0_empty) as H.
  destruct (initramfs_load 0x300000 81 files0 demo_image) as [fs' m'].
  destruct H as (_ & _ & _ & H).
  - split; [lia |]. split; [unfold alen; cbn [length]; lia |]. split; [vm_compute; reflexivity |]. split; [vm_compute; reflexivity |].
    intros [|[|k]] nc; cbn [lookup list_lookup]; [| intros [=] | intros [=]]. intros [= <-].
    unfold entry_at. vm_compute. repeat split; congruence.
  - apply NoDup_singleton.
  - unfold alen. cbn [length]. lia.
  - rewrite H. reflexivity.
Defined.

(** C26. For names shorter than 64 characters (a longer one is stored cut off and
    not found again, [ramfs_create_long_name_duplicates]) [ramfs_create] refines
    insertion into a map from names to contents: it fails with -1 and changes
    nothing when the name is taken or no slot is free; otherwise it returns the
    lowest free slot, the new name denotes the empty file, opening it (with or
    without a leading slash, for a name that has none) finds that slot, every
    other name keeps its meaning, and well-formedness and name uniqueness are
    preserved. *)
Theorem ramfs_create_refines_insert (nm : list Z) (fs : ramfs) :
  fs_wf fs -> names_unique fs -> alen (cstr nm) < 64 ->
  let (idx, fs') := ramfs_create nm fs in
  fs_wf fs' /\ names_unique fs' /\
  ((idx = -1 /\ fs' = fs /\ (lookup_name fs nm <> None \/ forall j, 0 <= j < 64 -> is_used fs j = true)) \/
   (0 <= idx < 64 /\ is_used fs idx = false /\ (forall j, 0 <= j < idx -> is_used fs j = true) /\
    ramfs_open (47 :: nm) fs' = idx /\ (hd_error nm <> Some 47 -> ramfs_open nm fs' = idx) /\
    forall n, lookup_name fs' n = if bool_decide (cstr nm = cstr n) then Some [] else lookup_name fs n)).
Proof.
  intros Hwf Huq Hlen.
  destruct (ramfs_create_cases nm fs) as [[-> Hc]|(k & -> & Hk & Hfree & Hlow & Hf)].
  - split_and!; try done. left. split_and!; try done. destruct Hc as [(k & Hk & Hf)|Hall]; [left | by right].
    unfold lookup_name. rewrite Hf. by replace (k <? 0) with false by lia.
  - assert (Hfind : find_file nm (aset fs k (new_file nm (file fs k))) = k).
    { rewrite created_find by done. by rewrite bool_decide_eq_true_2. }
    split_and!; [apply fs_wf_aset; [done | by apply new_file_spec, file_wf_at] | by apply created_unique |].
    right. split; [done |]. split; [done |]. split; [done |]. split; [exact Hfind |]. split.
    + intros Hs. unfold ramfs_open. destruct nm as [|c nm]; [exact Hfind |].
      destruct (Z.eqb_spec c 47) as [->|]; [by destruct Hs | exact Hfind].
    + intros n. by apply created_lookup.
Qed.

Lemma files0_unique : names_unique files0.
Proof. intros i j Hi _ Hu. by rewrite files0_empty in Hu. Qed.

Lemma ramfs_create_refines_insert_witness :
  fs_wf (snd (ramfs_create [104; 105] files0)) /\ ramfs_open [47; 104; 105] (snd (ramfs_create [104; 105] files0)) = 0.
Proof.
  pose proof (ramfs_create_refines_insert [104; 105] files0 files0_wf files0_unique ltac:(reflexivity)) as H.
  split; [| vm_compute; reflexivity].
  destruct (ramfs_create [104; 105] files0) as [idx fs']. apply H.
Defined.

(** C27. [ramfs_write] through the index a name opens to, at a position inside the
    file (descriptors are never past the end), refines a splice of that name's
    contents: it writes as much as fits below the file size limit, 32 KB, and
    returns how much that is (a short count where it does not all fit, where
    docs/filesystem.md says -1), and no other name is affected.  The one exception is a length so large that
    position plus length reaches [2 ^ 32]: the 32-bit check wraps and the copy
    leaves the file's buffer. *)
Theorem ramfs_write_refines_splice (nm : list Z) (fs : ramfs) (c : list Z) (buf off len : Z) (r : ram) :
  let n := Z.min len (RAMFS_MAX_FILE_SIZE - off) in
  fs_wf fs -> names_unique fs -> lookup_name fs nm = Some c ->
  0 <= off <= alen c -> is_u32 len -> 0 <= buf -> buf + n <= W32 ->
  if W32 <=? off + len then ramfs_write (find_file nm fs) buf off len r fs = None
  else
    exists fs', ramfs_write (find_file nm fs) buf off len r fs = Some (n, fs') /\
      fs_wf fs' /\ names_unique fs' /\
      forall n', lookup_name fs' n' =
        if bool_decide (cstr n' = cstr nm) then Some (splice c off (bytes r buf n)) else lookup_name fs n'.
Proof.
  intros len' Hwf Huq Hl Ho Hn Hb Hbl. unfold lookup_name in Hl.
  destruct (find_file_spec nm fs) as [[E _]|(Hr & Hp & _)]; [by rewrite E in Hl |].
  set (i := find_file nm fs) in *. replace (i <? 0) with false in Hl by lia. injection Hl as <-.
  destruct (file_wf_at fs i Hwf) as [_ Hsz]. unfold contents in Ho. rewrite alen_bytes in Ho by lia.
  unfold named in Hp. apply andb_prop in Hp as [Hu Hs]. apply str_eq_spec in Hs.
  assert (Hlive : live fs i = true) by (unfold live, is_used; rewrite Hu; lia). unfold is_u32, RAMFS_MAX_FILE_SIZE in *.
  destruct (Z.leb_spec W32 (off + len)) as [Hw|Hw]; [apply ramfs_write_wraps; unfold is_u32, RAMFS_MAX_FILE_SIZE; (done || lia) |].
  rewrite ramfs_write_clip by (unfold RAMFS_MAX_FILE_SIZE; lia).
  destruct (ramfs_write_spec fs i buf off len' r) as (f' & Hwr & Hf & Hname & Hused & Hc); unfold len', RAMFS_MAX_FILE_SIZE in *; try (done || lia).
  exists (aset fs i f'). split; [done |]. split; [by apply fs_wf_aset |].
  split; [by apply names_unique_update |]. intros n. rewrite lookup_name_update by done. rewrite Hc.
  replace (find_file n fs =? i) with (bool_decide (cstr n = cstr nm)); [done |].
  case_bool_decide as Heq.
  - symmetry. apply Z.eqb_eq. apply (find_from_ext 64 0 (named n) (named nm)). intros j Hj.
    unfold named. by rewrite !str_eq_decide, Heq.
  - symmetry. apply Z.eqb_neq. intros E. destruct (find_file_spec n fs) as [[E' _]|(_ & Hp & _)]; [lia |].
    rewrite E in Hp. unfold named in Hp. apply andb_prop in Hp as [_ Hp]. apply str_eq_spec in Hp. congruence.
Qed.

(** A table with the one empty file ["hi"]. *)
Definition demo_fs : ramfs := snd (ramfs_create [104; 105] files0).

Lemma demo_fs_spec :
  fs_wf demo_fs /\ names_unique demo_fs /\ lookup_name demo_fs [104; 105] = Some [] /\ live demo_fs 0 = true.
Proof.
  destruct (create_next [104; 105] files0 0) as (Hc & H1 & H2 & H3 & H4).
  - exact files0_wf.
  - exact files0_unique.
  - reflexivity.
  - lia.
  - intros j Hj. rewrite files0_empty by done. lia.
  - apply lookup_empty_table, files0_empty.
  - unfold demo_fs. rewrite Hc. split; [exact H1 |]. split; [exact H2 |].
    split; [apply (H4 [104; 105]) | unfold live; rewrite H3 by lia; reflexivity].
Qed.

Lemma ramfs_write_refines_splice_witness :
  (exists fs', ramfs_write (find_file [104; 105] demo_fs) 0x300050 0 1 (m_ram demo_image) demo_fs = Some (1, fs') /\
    lookup_name fs' [104; 105] = Some [65]) /\
  exists fs', ramfs_write (find_file [104; 105] demo_fs) 0x300050 0 0x10000 (m_ram demo_image) demo_fs = Some (0x8000, fs').
Proof.
  destruct demo_fs_spec as (H1 & H2 & H3 & _). split.
  - destruct (ramfs_write_refines_splice [104; 105] demo_fs [] 0x300050 0 1 (m_ram demo_image) H1 H2 H3)
      as (fs' & Hw & _ & _ & Hl); [unfold alen; cbn [length]; lia | unfold is_u32; lia | lia | unfold RAMFS_MAX_FILE_SIZE; lia |].
    exists fs'. split; [exact Hw |]. rewrite Hl. vm_compute. reflexivity.
  - destruct (ramfs_write_refines_splice [104; 105] demo_fs [] 0x300050 0 0x10000 (m_ram demo_image) H1 H2 H3)
      as (fs' & Hw & _); [unfold alen; cbn [length]; lia | unfold is_u32; lia | lia | unfold RAMFS_MAX_FILE_SIZE; lia |].
    exists fs'. exact Hw.
Defined.

Lemma vfs_write_read_roundtrip_witness :
  exists fs' r', vfs_write (vfs_mount ramfs_ops) 0 0x300050 0 1 (m_ram demo_image) demo_fs = Some (1, fs') /\
    vfs_read (vfs_mount ramfs_ops) 0 0x1000 0 1 fs' ∅ = (1, r') /\ bytes r' 0x1000 1 = [65].
Proof.
  destruct demo_fs_spec as (H1 & _ & _ & H4).
  destruct (@vfs_write_read_roundtrip _ ramfs_ops ramfs_filesystem demo_fs 0 [] 0x300050 0x1000 0 1 (m_ram demo_image) ∅ H1)
    as (fs' & r' & Hw & Hr & Hb);
    [cbn [fs_file ramfs_filesystem]; unfold ramfs_file; rewrite H4; reflexivity
    | unfold alen; cbn [length]; lia | lia | vm_compute; congruence | lia | lia | lia | lia |].
  exists fs', r'. split; [exact Hw |]. split; [exact Hr |]. rewrite Hb. vm_compute. reflexivity.
Defined.

(** C40. The length check of [ramfs_write] wraps: for any offset and length whose
    32-bit sum wraps to at most the file size limit, the length is not clipped
    and the copy runs past the end of the file's buffer. *)
Theorem ramfs_write_wraps_out_of_bounds (fs : ramfs) (i buf off len : Z) (r : ram) :
  live fs i = true -> is_u32 off -> is_u32 len -> W32 <= off + len <= W32 + RAMFS_MAX_FILE_SIZE ->
  ramfs_write i buf off len r fs = None.
Proof. apply ramfs_write_wraps. Qed.

Lemma ramfs_write_wraps_out_of_bounds_witness : ramfs_write 0 0x1000 1 0xFFFFFFFF ∅ demo_fs = None.
Proof.
  apply (ramfs_write_wraps_out_of_bounds demo_fs 0 0x1000 1 0xFFFFFFFF ∅).
  - apply demo_fs_spec.
  - unfold is_u32. lia.
  - unfold is_u32. lia.
  - unfold RAMFS_MAX_FILE_SIZE. lia.
Defined.

(** Names of 64 or more characters break name uniqueness: the stored name
    is cut to 63 characters but the existence test compares the whole name, so
    creating the same long name twice succeeds both times and leaves two live
    files with equal names. *)
Theorem ramfs_create_long_name_duplicates :
  let nm := replicate 64 97 in
  let '(i, fs1) := ramfs_create nm files0 in
  let '(j, fs2) := ramfs_create nm fs1 in
  i = 0 /\ j = 1 /\ fs_wf fs2 /\ ~ names_unique fs2.
Proof.
  destruct (ramfs_create (replicate 64 97) files0) as [i fs1] eqn:E1.
  destruct (ramfs_create (replicate 64 97) fs1) as [j fs2] eqn:E2.
  assert (Hwf : forall nm fs k fs', fs_wf fs -> ramfs_create nm fs = (k, fs') -> fs_wf fs').
  { intros nm fs k fs' Hwf. destruct (ramfs_create_cases nm fs) as [[-> _]|(x & -> & _)]; intros [= <- <-];
      [done |]. apply fs_wf_aset; [done | by apply new_file_spec, file_wf_at]. }
  pose proof (Hwf _ _ _ _ files0_wf E1) as H1. pose proof (Hwf _ _ _ _ H1 E2) as H2.
  vm_compute in E1. injection E1 as <- <-. vm_compute in E2. injection E2 as <- <-.
  split_and!; [done | done | exact H2 |]. intros Hu.
  specialize (Hu 0 1 ltac:(lia) ltac:(lia) ltac:(reflexivity) ltac:(reflexivity) ltac:(reflexivity)). lia.
Qed.

(** ** The directory *)

Lemma list_from_in n i fs e :
  In e (list_from n i fs) <-> exists j, i <= j < i + Z.of_nat n /\ is_used fs j = true /\ e = entry_of (file fs j).
Proof.
  revert i. induction n as [|n IH]; intros i; cbn [list_from].
  - split; [done | intros (j & ? & _); lia].
  - rewrite in_app_iff, IH. split.
    + intros [H|(j & Hj & H)]; [| exists j; split; [lia | done]]. destruct (is_used fs i) eqn:E; [| done].
      destruct H as [<-|[]]. exists i. split; [lia | done].
    + intros (j & Hj & Hu & ->). destruct (Z.eq_dec j i) as [->|Hne]; [left; rewrite Hu; by left | right].
      exists j. split; [lia | done].
Qed.

Lemma ramfs_list_in fs e :
  In e (ramfs_list fs) <-> exists i, 0 <= i < 64 /\ is_used fs i = true /\ e = entry_of (file fs i).
Proof. unfold ramfs_list. rewrite list_from_in. done. Qed.

(** A table that holds [fl] lists exactly [fl]. *)
Lemma holds_list fl fs : holds fl fs -> alen fl <= 64 -> ramfs_list fs = fl.
Proof.
  intros (_ & _ & Hu & _ & Hs) H64. unfold ramfs_list.
  assert (H : forall n i, (i + n = 64)%nat -> list_from n (Z.of_nat i) fs = drop i fl); [| by apply (H 64%nat 0%nat)].
  induction n as [|n IH]; intros i Hi; cbn [list_from]; unfold alen in *.
  - symmetry. apply drop_ge. lia.
  - rewrite Hu by lia. replace (Z.of_nat i + 1) with (Z.of_nat (S i)) by lia. rewrite IH by lia. zcase.
    + destruct (lookup_lt_is_Some_2 fl i) as [nc Hnc]; [lia |]. rewrite (Hs i nc Hnc). symmetry. by apply drop_S.
    + rewrite !drop_ge by lia. done.
Qed.

Lemma cstr_cstr s : cstr (cstr s) = cstr s.
Proof. induction s as [|x s IH]; cbn [cstr]; [done |]. destruct (x =? 0) eqn:E; [done |]. cbn [cstr]. by rewrite E, IH. Qed.

(** [ramfs_readdir] lists the directory: it stores the first [max] entries of
    the live files in slot order, name NUL-terminated and size at its offset,
    returns their number and changes no byte after them; every live file is
    listed exactly by its slot, and with unique names of less than 64
    characters opening a listed name gives the listed contents. *)
Theorem ramfs_readdir_lists (fs : ramfs) (entries max : Z) (r : ram) :
  fs_wf fs -> names_ok (ramfs_list fs) -> 0 <= entries -> 0 <= max < 2147483648 -> entries + DIRENT_SIZE * max <= W32 ->
  let l := take (Z.to_nat max) (ramfs_list fs) in
  (exists r', ramfs_readdir entries max fs r = (alen l, r') /\ dirents_at r' entries l /\
     forall x, x < entries \/ entries + DIRENT_SIZE * alen l <= x -> ld8 r' x = ld8 r x) /\
  (forall e, In e (ramfs_list fs) <-> exists i, 0 <= i < 64 /\ is_used fs i = true /\ e = entry_of (file fs i)) /\
  (names_unique fs -> (forall i, 0 <= i < 64 -> is_used fs i = true -> alen (cstr (name (file fs i))) < 64) ->
   forall e, In e (ramfs_list fs) -> lookup_name fs e.1 = Some e.2).
Proof.
  intros Hwf Hn He Hm Hw l. split; [apply ramfs_readdir_spec; (done || lia) |].
  split; [apply ramfs_list_in |]. intros Hu Hshort e Hin. apply ramfs_list_in in Hin as (i & Hi & Hused & ->).
  unfold entry_of. cbn [fst snd]. rewrite take_ge by (specialize (Hshort i ltac:(lia) Hused); unfold alen in Hshort; lia).
  unfold lookup_name. destruct (find_file_spec (cstr (name (file fs i))) fs) as [[_ Hno]|(Hk & Hnm & _)].
  - specialize (Hno i ltac:(lia)). unfold named, is_used in *. rewrite Hused, str_eq_decide, cstr_cstr, bool_decide_eq_true_2 in Hno by done. done.
  - set (k := find_file _ fs) in *. unfold named in Hnm. apply andb_true_iff in Hnm as [Hku Hke].
    rewrite str_eq_decide, cstr_cstr in Hke. apply bool_decide_eq_true in Hke.
    replace (k <? 0) with false by lia. by rewrite (Hu k i) by (done || lia).
Qed.

Lemma ramfs_readdir_lists_witness :
  exists r', ramfs_readdir 0x1000 32 demo_fs ∅ = (1, r') /\ dirents_at r' 0x1000 [([104; 105], [])].
Proof.
  destruct demo_fs_spec as (H1 & H2 & _). destruct (ramfs_readdir_lists demo_fs 0x1000 32 ∅ H1) as ((r' & E & Hd & _) & _).
  - vm_compute. repeat constructor; congruence.
  - lia.
  - lia.
  - unfold DIRENT_SIZE. lia.
  - assert (El : take (Z.to_nat 32) (ramfs_list demo_fs) = [([104; 105], [])]) by (vm_compute; reflexivity).
    rewrite El in E, Hd. exists r'. split; [exact E | exact Hd].
Defined.
