(* ===== verification/Mkramfs.v ===== *)
(** * Mkramfs: the host tool that packs the initramfs image (tools/mkramfs.c)

    The host directory is the sequence of entries [readdir] returns; for each
    entry a record holds what [stat], [fopen], [malloc] and [fread] answer for
    it.  The tool's output is a list of bytes.  Messages to the host terminal
    are not modelled.  The round trip composes the tool with the kernel's
    loader of kernel/fs/ramfs.c. *)
From stdpp Require Import strings.
From S2P Require Import Prelude Memory Machine Vga Console Vfs Ramfs.

Definition MAGIC := 0x52414D46.
Definition NAME_LEN := 64.
Definition MAX_FILES := 64.

(** One host directory entry: its name, whether [stat] succeeds on a regular
    file, the file's size, whether [fopen] and [malloc] succeed, and the
    buffer after [fread]. *)
Record host_entry := HostEntry {
  d_name : list Z;
  stat_regular : bool;
  st_size : Z;
  fopen_ok : bool;
  malloc_ok : bool;
  fread_buf : list Z;
}.

Record file_entry_t := FileEntry {
  fe_name : list Z;    (** [char name[NAME_LEN]] *)
  fe_offset : Z;
  fe_size : Z;
  fe_data : list Z;
}.

(** [memset(name, 0, NAME_LEN); strncpy(name, d_name, NAME_LEN - 1)]. *)
Definition pad_name (nm : list Z) : list Z :=
  let s := take (Z.to_nat (NAME_LEN - 1)) (cstr nm) in
  s ++ replicate (Z.to_nat NAME_LEN - length s) 0.

(** The [continue]s of the directory loop. *)
Definition skip_entry (e : host_entry) : bool :=
  if aget 0 (d_name e) 0 =? 46 then true
  else if negb (stat_regular e) then true
  else if negb (fopen_ok e) then true
  else negb (malloc_ok e).

(** [offset] is assigned after the loop. *)
Definition add_entry (e : host_entry) : file_entry_t :=
  FileEntry (pad_name (d_name e)) 0 (u32 (st_size e)) (fread_buf e).

Fixpoint collect (dir : list host_entry) (file_count : Z) : list file_entry_t :=
  match dir with
  | [] => []
  | e :: dir' =>
      if file_count <? MAX_FILES then
        if skip_entry e then collect dir' file_count
        else add_entry e :: collect dir' (file_count + 1)
      else []
  end.

Fixpoint assign_offsets (data_offset : Z) (files : list file_entry_t) : list file_entry_t :=
  match files with
  | [] => []
  | f :: files' =>
      FileEntry (fe_name f) data_offset (fe_size f) (fe_data f)
        :: assign_offsets (u32 (data_offset + fe_size f)) files'
  end.

Definition entry_bytes (f : file_entry_t) : list Z :=
  fe_name f ++ le32 (fe_offset f) ++ le32 (fe_size f).

Definition data_bytes (f : file_entry_t) : list Z := take (Z.to_nat (fe_size f)) (fe_data f).

Definition write_image (files : list file_entry_t) : list Z :=
  le32 MAGIC ++ le32 (alen files) ++ concat (entry_bytes <$> files) ++ concat (data_bytes <$> files).

(** [main]: the exit status and, when it is written, the output file.  [dir]
    is [None] when [opendir] fails, [out_ok] whether the output opens. *)
Definition mkramfs_main (argc : Z) (dir : option (list host_entry)) (out_ok : bool) : Z * option (list Z) :=
  if negb (argc =? 3) then (1, None)
  else
    match dir with
    | None => (1, None)
    | Some dir =>
        let files := collect dir 0 in
        let header_size := u32 (8 + u32 (alen files * 72)) in
        let files := assign_offsets header_size files in
        if negb out_ok then (1, None) else (0, Some (write_image files))
    end.

(** ** What an image denotes *)

Definition kept (e : host_entry) : bool := negb (skip_entry e).

(** The host files packed: the first 64 that are not skipped, names cut to 63
    characters. *)
Definition packed_entries (dir : list host_entry) : list host_entry := take 64 (filter (fun e => kept e) dir).

Definition packed (dir : list host_entry) : list (list Z * list Z) :=
  (fun e => (take 63 (cstr (d_name e)), fread_buf e)) <$> packed_entries dir.

(** A file that was read whole and fits the kernel's file size limit. *)
Definition entry_ok (e : host_entry) : Prop :=
  alen (fread_buf e) = st_size e /\ st_size e <= RAMFS_MAX_FILE_SIZE.

(** ** The directory loop and the layout *)

Lemma collect_spec dir k :
  0 <= k <= 64 -> collect dir k = add_entry <$> take (Z.to_nat (64 - k)) (filter (fun e => kept e) dir).
Proof.
  revert k. induction dir as [|e dir IH]; intros k Hk; cbn [collect filter list_filter]; [by rewrite take_nil |].
  unfold MAX_FILES. destruct (Z.ltb_spec k 64) as [Hlt|Hge].
  2: { by replace (Z.to_nat (64 - k)) with O by lia. }
  unfold kept. destruct (skip_entry e) eqn:E; cbn [negb].
  - rewrite IH by lia. by rewrite decide_False by (intros []).
  - rewrite decide_True by done. replace (Z.to_nat (64 - k)) with (S (Z.to_nat (64 - (k + 1)))) by lia.
    cbn [take fmap list_fmap]. f_equal. apply IH. lia.
Qed.

Lemma length_assign_offsets o files : length (assign_offsets o files) = length files.
Proof. revert o. induction files as [|f files IH]; intros o; cbn [assign_offsets length]; auto. Qed.

(** The bytes of all files, back to back. *)
Definition total (files : list file_entry_t) : Z := alen (concat (data_bytes <$> files)).

(** A file whose buffer holds [fe_size] bytes. *)
Definition whole (f : file_entry_t) : Prop := alen (fe_data f) = fe_size f.

Lemma data_bytes_whole f : whole f -> data_bytes f = fe_data f.
Proof. unfold whole, data_bytes, alen. intros H. apply take_ge. lia. Qed.

Lemma data_bytes_assign o files : data_bytes <$> assign_offsets o files = data_bytes <$> files.
Proof. revert o. induction files as [|f files IH]; intros o; cbn; [done |]. f_equal. apply IH. Qed.

(** Each offset points at its file's bytes. *)
Lemma assign_offsets_data r base o files k f :
  Forall whole files -> 0 <= o -> o + total files < W32 ->
  bytes_at r (base + o) (concat (data_bytes <$> files)) -> files !! k = Some f ->
  exists o', assign_offsets o files !! k = Some (FileEntry (fe_name f) o' (fe_size f) (fe_data f)) /\
    0 <= o' /\ o' + fe_size f <= o + total files /\ bytes_at r (base + o') (fe_data f).
Proof.
  revert o k. induction files as [|g files IH]; intros o k Hw Ho Ht Hb Hk; [done |].
  apply Forall_cons in Hw as [Hg Hw]. unfold total in Ht. cbn [fmap list_fmap concat] in Ht, Hb.
  rewrite (data_bytes_whole g Hg) in Ht, Hb. unfold alen in Ht. rewrite length_app in Ht.
  apply bytes_at_app in Hb as [Hb1 Hb2].
  assert (Htot : total (g :: files) = fe_size g + total files).
  { unfold total. cbn [fmap list_fmap concat]. rewrite (data_bytes_whole g Hg).
    unfold alen. rewrite length_app. unfold whole, alen in Hg. lia. }
  unfold whole, alen in Hg. rewrite Htot. pose proof (alen_nonneg (concat (data_bytes <$> files))) as Hnn.
  fold (total files) in Hnn. destruct k as [|k].
  - injection Hk as ->. exists o. cbn [assign_offsets lookup list_lookup]. split_and!; [done | done | lia | done].
  - cbn [assign_offsets lookup list_lookup]. destruct (IH (u32 (o + fe_size g)) k) as (o' & H1 & H2 & H3 & H4).
    + done.
    + apply u32_range.
    + unfold total, alen in *. rewrite u32_small by lia. lia.
    + unfold total, alen in *. rewrite u32_small by lia. rewrite Hg in Hb2. by rewrite Z.add_assoc.
    + done.
    + exists o'. unfold total, alen in *. rewrite u32_small in H3 by lia. split_and!; [done | done | lia | done].
Qed.

(** Rows of equal width in a table. *)
Lemma bytes_at_rows r a w (ls : list (list Z)) k l :
  Forall (fun l => alen l = w) ls -> bytes_at r a (concat ls) -> ls !! k = Some l ->
  bytes_at r (a + w * Z.of_nat k) l.
Proof.
  revert a k. induction ls as [|x ls IH]; intros a k Hw Hb Hk; [done |].
  apply Forall_cons in Hw as [Hx Hw]. cbn [concat] in Hb. apply bytes_at_app in Hb as [Hb1 Hb2]. destruct k as [|k].
  - injection Hk as ->. by replace (a + w * Z.of_nat 0) with a by lia.
  - rewrite Hx in Hb2. specialize (IH _ _ Hw Hb2 Hk). by replace (a + w * Z.of_nat (S k)) with (a + w + w * Z.of_nat k) by lia.
Qed.

Lemma cstr_all_nonnul nm : Forall (fun c => c <> 0) (cstr nm).
Proof. apply Forall_forall. intros c Hc. apply (cstr_nonnul nm). by apply list_elem_of_In. Qed.

Lemma length_pad_name nm : length (pad_name nm) = 64%nat.
Proof. unfold pad_name, NAME_LEN. rewrite length_app, length_replicate, length_take. lia. Qed.

(** A padded name reads back as the C string it was cut from. *)
Lemma pad_name_cstr r a nm : bytes_at r a (pad_name nm) -> cstr_at NAME_FUEL r a = take 63 (cstr nm).
Proof.
  intros H. unfold pad_name in H. change (Z.to_nat (NAME_LEN - 1)) with 63%nat in H.
  change (Z.to_nat NAME_LEN) with 64%nat in H. set (s := take 63 (cstr nm)) in *.
  assert (Hl : (length s <= 63)%nat) by (unfold s; rewrite length_take; lia).
  replace (64 - length s)%nat with (1 + (63 - length s))%nat in H by lia.
  rewrite replicate_add, app_assoc in H. apply bytes_at_app in H as [H _].
  apply bytes_at_cstr; [exact H | apply Forall_take, cstr_all_nonnul | unfold NAME_FUEL; lia].
Qed.

Lemma length_entry_bytes f : length (fe_name f) = 64%nat -> alen (entry_bytes f) = 72.
Proof. intros H. unfold alen, entry_bytes. rewrite !length_app, H. done. Qed.

(** A table row read back. *)
Lemma entry_bytes_read r a nm o sz d :
  bytes_at r a (entry_bytes (FileEntry (pad_name nm) o sz d)) -> is_u32 o -> is_u32 sz ->
  cstr_at NAME_FUEL r a = take 63 (cstr nm) /\ ld32 r (a + 64) = o /\ ld32 r (a + 68) = sz.
Proof.
  unfold entry_bytes, is_u32. cbn [fe_name fe_offset fe_size]. rewrite !bytes_at_app.
  assert (Hl : alen (pad_name nm) = 64) by (unfold alen; by rewrite length_pad_name).
  rewrite Hl. change (alen (le32 o)) with 4. intros (Hn & Ho & Hs) Hur Hus.
  split; [by apply pad_name_cstr |].
  split; [by rewrite (bytes_at_le32 _ _ _ Ho), u32_small |].
  replace (a + 68) with (a + 64 + 4) by lia. by rewrite (bytes_at_le32 _ _ _ Hs), u32_small.
Qed.

Section Image.
Context (dir : list host_entry) (Hok : Forall entry_ok dir).

Let es := packed_entries dir.
Let fs0 := add_entry <$> es.
Let hdr := 8 + 72 * alen es.
Let fs1 := assign_offsets hdr fs0.

Lemma es_count : (length es <= 64)%nat.
Proof. unfold es, packed_entries. rewrite length_take. lia. Qed.

Lemma es_ok e : In e es -> entry_ok e.
Proof using Hok.
  intros H. apply list_elem_of_In in H. unfold es, packed_entries in H.
  apply elem_of_take in H as (i & H & _). apply list_elem_of_lookup_2 in H. apply list_elem_of_filter in H as [_ H].
  rewrite Forall_forall in Hok. by apply Hok.
Qed.

Lemma fs0_whole : Forall whole fs0.
Proof using Hok.
  apply Forall_fmap, Forall_forall. intros e He. apply list_elem_of_In in He. destruct (es_ok e He) as [H1 H2].
  cbn. unfold whole. cbn. unfold RAMFS_MAX_FILE_SIZE in H2. rewrite u32_small; [done |].
  pose proof (alen_nonneg (fread_buf e)). lia.
Qed.

Lemma fs0_total l : Forall whole (add_entry <$> l) -> (forall e, In e l -> entry_ok e) ->
  0 <= total (add_entry <$> l) <= 32768 * alen l.
Proof.
  induction l as [|e l IH]; intros Hw Hin; [unfold total, alen; cbn; lia |].
  cbn [fmap list_fmap] in Hw. apply Forall_cons in Hw as [He Hw].
  destruct (Hin e ltac:(by left)) as [H1 H2]. specialize (IH Hw (fun x Hx => Hin x (or_intror Hx))).
  unfold total in *. cbn [fmap list_fmap concat]. rewrite (data_bytes_whole _ He).
  unfold RAMFS_MAX_FILE_SIZE, alen in *. rewrite length_app. cbn [length fe_data add_entry]. lia.
Qed.

Lemma main_image : mkramfs_main 3 (Some dir) true = (0, Some (write_image fs1)).
Proof.
  unfold mkramfs_main. cbn [negb]. rewrite (collect_spec dir 0) by lia.
  change (Z.to_nat (64 - 0)) with 64%nat. fold (packed_entries dir). fold es. fold fs0.
  pose proof es_count. assert (Hl : alen fs0 = alen es) by (unfold fs0, alen; by rewrite length_fmap).
  change (negb (3 =? 3)) with false. cbv iota.
  rewrite Hl, (u32_small (alen es * 72)), u32_small by (unfold alen; lia).
  unfold fs1, hdr. by rewrite (Z.mul_comm 72).
Qed.

Lemma fs1_count : alen fs1 = alen es.
Proof. unfold fs1, fs0, alen. by rewrite length_assign_offsets, length_fmap. Qed.

Lemma fs1_names : Forall (fun f => length (fe_name f) = 64%nat) fs1.
Proof.
  unfold fs1, fs0. generalize hdr. induction es as [|e l IH]; intros o; cbn [fmap list_fmap assign_offsets]; [done |].
  apply Forall_cons. split; [apply length_pad_name | apply IH].
Qed.

Lemma fs1_rows : Forall (fun l => alen l = 72) (entry_bytes <$> fs1).
Proof. apply Forall_fmap. eapply Forall_impl; [apply fs1_names |]. intros f. apply length_entry_bytes. Qed.

Lemma fs1_table : alen (concat (entry_bytes <$> fs1)) = 72 * alen es.
Proof.
  rewrite <- fs1_count. pose proof fs1_rows as Hr. induction fs1 as [|f l IH]; [done |].
  cbn [fmap list_fmap concat] in *. apply Forall_cons in Hr as [Hf Hr]. specialize (IH Hr).
  unfold alen in *. rewrite length_app. cbn [length]. lia.
Qed.

Lemma fs0_bounds : 0 <= total fs0 <= 32768 * alen es.
Proof using Hok. apply fs0_total; [apply fs0_whole | apply es_ok]. Qed.

Lemma image_length : alen (write_image fs1) = hdr + total fs0.
Proof.
  pose proof fs1_table as H. unfold write_image, hdr, total. unfold fs1 at 3. rewrite data_bytes_assign.
  unfold alen in *. rewrite !length_app. cbn [le32 length]. lia.
Qed.

(** The sections of an image in RAM. *)
Lemma image_sections r start :
  bytes_at r start (write_image fs1) ->
  ld32 r start = INITRAMFS_MAGIC /\ ld32 r (start + 4) = alen es /\
  bytes_at r (start + 8) (concat (entry_bytes <$> fs1)) /\ bytes_at r (start + hdr) (concat (data_bytes <$> fs0)).
Proof.
  unfold write_image. rewrite !bytes_at_app, fs1_table, fs1_count. change (alen (le32 _)) with 4.
  unfold fs1 at 2. rewrite data_bytes_assign. intros (Hm & Hn & Ht & Hd). pose proof es_count.
  unfold hdr. replace (start + (8 + 72 * alen es)) with (start + 4 + 4 + 72 * alen es) by lia.
  replace (start + 8) with (start + 4 + 4) by lia. split_and!; [| | done | done].
  - by rewrite (bytes_at_le32 _ _ _ Hm).
  - rewrite (bytes_at_le32 _ _ _ Hn). apply u32_small. unfold alen. lia.
Qed.

(** One packed file in RAM, as the loader sees it. *)
Lemma image_entry r start k e :
  bytes_at r start (write_image fs1) -> 0 <= start -> start + alen (write_image fs1) <= W32 -> es !! k = Some e ->
  entry_at r start (start + 8 + 72 * Z.of_nat k) (take 63 (cstr (d_name e)), fread_buf e).
Proof using Hok.
  intros Hb H0 Hend Ee. rewrite image_length in Hend. apply image_sections in Hb as (_ & _ & Ht & Hd).
  pose proof es_count as Hc. pose proof fs0_bounds as Htot.
  destruct (es_ok e ltac:(apply list_elem_of_In; by eapply list_elem_of_lookup_2)) as [He1 He2].
  unfold RAMFS_MAX_FILE_SIZE in He2. pose proof (alen_nonneg (fread_buf e)) as He0.
  destruct (assign_offsets_data r start hdr fs0 k (add_entry e)) as (o & Ho & Ho0 & Ho1 & Hod).
  - apply fs0_whole.
  - unfold hdr, alen. lia.
  - unfold hdr, alen in *. lia.
  - exact Hd.
  - unfold fs0. by rewrite list_lookup_fmap, Ee.
  - cbn [add_entry fe_name fe_size fe_data] in *. rewrite u32_small in * by lia.
    destruct (entry_bytes_read r (start + 8 + 72 * Z.of_nat k) (d_name e) o (st_size e) (fread_buf e))
      as (Hnm & Hof & Hsz).
    + apply (bytes_at_rows _ _ _ _ _ _ fs1_rows Ht). rewrite list_lookup_fmap. unfold fs1. by rewrite Ho.
    + unfold is_u32, hdr, alen in *. lia.
    + unfold is_u32, hdr, alen in *. lia.
    + unfold entry_at. cbn [fst snd]. rewrite Hnm, Hof, Hsz. split; [done |].
      split; [unfold alen; rewrite length_take; lia |]. split; [done |].
      split; [unfold RAMFS_MAX_FILE_SIZE; lia |]. split; [lia |]. by apply bytes_at_bytes.
Qed.

(** RAM that holds the written bytes holds an image of the packed files. *)
Lemma write_image_at r start :
  bytes_at r start (write_image fs1) -> 0 <= start -> start + alen (write_image fs1) <= W32 ->
  image_at r start (packed dir).
Proof using Hok.
  intros Hb H0 Hend. assert (Hlp : alen (packed dir) = alen es) by (unfold packed, alen; by rewrite length_fmap).
  destruct (image_sections r start Hb) as (Hm & Hn & _). pose proof fs0_bounds.
  split; [done |]. rewrite Hlp. split; [rewrite image_length in Hend; unfold hdr in Hend; lia |].
  split; [done |]. split; [done |]. intros k nc Hk. unfold packed in Hk. rewrite list_lookup_fmap in Hk.
  fold es in Hk. destruct (es !! k) as [e|] eqn:Ee; [| done]. injection Hk as <-. by apply image_entry.
Qed.
End Image.

(** ** Properties *)

(** C25. Packing and loading are inverse: for a host directory whose regular
    files were read whole, fit the kernel's size limit and have distinct names
    after the cut to 63 characters, [mkramfs] exits with 0, and wherever the
    boot loader places its output below 4 GB, [initramfs_load] on an empty
    table yields exactly the map from those names to those contents: the first
    64 files that do not start with a dot, and nothing else. *)
Theorem mkramfs_load_roundtrip (dir : list host_entry) (start len : Z) (fs : ramfs) (m : mach) :
  Forall entry_ok dir -> NoDup (fst <$> packed dir) -> fs_wf fs -> table_empty fs ->
  exists img, mkramfs_main 3 (Some dir) true = (0, Some img) /\
    (bytes_at (m_ram m) start img -> 0 <= start -> start + alen img <= W32 ->
     let (fs', m') := initramfs_load start len fs m in
     fs_wf fs' /\ names_unique fs' /\ m_ram m' = m_ram m /\
     forall n, lookup_name fs' n = image_map (packed dir) !! cstr n).
Proof.
  intros Hok Hnd Hwf Hemp. eexists. split; [apply main_image |]. intros Hb H0 Hend.
  assert (H64 : alen (packed dir) <= 64).
  { unfold packed, alen. rewrite length_fmap. pose proof (es_count dir). lia. }
  destruct (initramfs_load_holds start len [] (packed dir) fs m (holds_empty fs Hwf Hemp)
    (write_image_at dir Hok _ _ Hb H0 Hend) Hnd H64) as [(H1 & H2 & _ & H4 & _) H5].
  destruct (initramfs_load start len fs m) as [fs' m']. by split_and!.
Qed.

(** A directory with [.], ["hi" = "A"] and a subdirectory. *)
Definition demo_dir : list host_entry :=
  [HostEntry [46] false 0 true true []; HostEntry [104; 105] true 1 true true [65];
   HostEntry [100] false 0 true true []].

Definition demo_img : list Z := default [] (snd (mkramfs_main 3 (Some demo_dir) true)).

Definition demo_img_mach : mach :=
  set_ram (fun r => fill8 r 0x300000 (alen demo_img) (fun i => aget 0 demo_img i)) mach0.

Lemma mkramfs_load_roundtrip_witness :
  let (fs', m') := initramfs_load 0x300000 81 files0 demo_img_mach in
  lookup_name fs' [104; 105] = Some [65] /\ lookup_name fs' [100] = None.
Proof.
  destruct (mkramfs_load_roundtrip demo_dir 0x300000 81 files0 demo_img_mach) as (img & Hm & H).
  - repeat (apply Forall_cons; split; [split; vm_compute; congruence |]). constructor.
  - change (fst <$> packed demo_dir) with [[104; 105]]. apply NoDup_singleton.
  - exact files0_wf.
  - exact files0_empty.
  - assert (Hi : img = demo_img) by (unfold demo_img; rewrite Hm; reflexivity). subst img. clear Hm.
    destruct (initramfs_load 0x300000 81 files0 demo_img_mach) as [fs' m']. destruct H as (_ & _ & _ & H).
    + apply bytes_bytes_at. vm_compute. reflexivity.
    + lia.
    + vm_compute. congruence.
    + rewrite !H. split; vm_compute; reflexivity.
Defined.
