(* ===== verification/Arch.v ===== *)
(** * Arch: descriptor tables, interrupt gates and the PIC
    (kernel/arch/gdt.c, tss.c, idt.c, irq.c, isr.c and their headers)

    The tables are lists of the packed hardware records; addresses of the
    static objects and of the assembly stubs are parameters.  Function
    pointers are addresses, NULL is 0. *)
From stdpp Require Import strings.
From S2P Require Import Prelude Memory Machine Vga Console.

(** ** The Global Descriptor Table *)

Definition GDT_KERNEL_CODE := 0x08.
Definition GDT_KERNEL_DATA := 0x10.
Definition GDT_USER_CODE := 0x1B.
Definition GDT_USER_DATA := 0x23.
Definition GDT_TSS_SEG := 0x28.
Definition GDT_ENTRIES := 6.

Record gdt_entry_t := GdtEntry {
  limit_low : Z; base_low : Z; base_mid : Z; access : Z; granularity : Z; base_high : Z;
}.

Definition gdt_zero : gdt_entry_t := GdtEntry 0 0 0 0 0 0.

Definition gdt_set_entry (num base limit acc gran : Z) (gdt : list gdt_entry_t) : list gdt_entry_t :=
  aset gdt num
    (GdtEntry (u16 (Z.land limit 0xFFFF)) (u16 (Z.land base 0xFFFF))
              (u8 (Z.land (Z.shiftr base 16) 0xFF)) acc
              (u8 (Z.lor (u8 (Z.land (Z.shiftr limit 16) 0x0F)) gran))
              (u8 (Z.land (Z.shiftr base 24) 0xFF))).

Definition gdt_init (gdt_addr : Z) (gdt : list gdt_entry_t) (m : mach) : list gdt_entry_t * mach :=
  let gdt := gdt_set_entry 0 0 0 0 0 gdt in
  let gdt := gdt_set_entry 1 0 0xFFFFF 0x9A 0xCF gdt in
  let gdt := gdt_set_entry 2 0 0xFFFFF 0x92 0xCF gdt in
  let gdt := gdt_set_entry 3 0 0xFFFFF 0xFA 0xCF gdt in
  let gdt := gdt_set_entry 4 0 0xFFFFF 0xF2 0xCF gdt in
  let gdt := gdt_set_entry 5 0 0 0 0 gdt in
  (gdt, do_io (Lgdt gdt_addr (u16 (8 * GDT_ENTRIES - 1))) m).

Definition gdt_set_tss_entry (base limit : Z) (gdt : list gdt_entry_t) : list gdt_entry_t :=
  gdt_set_entry 5 base limit 0x89 0x00 gdt.

(** ** The Task State Segment: 104 bytes, fields at their offsets *)

Definition TSS_SIZE := 104.
Definition tss_esp0 := 4.
Definition tss_ss0 := 8.
Definition tss_iomap_base := 102.

Definition st16 (m : ram) (a v : Z) : ram := st8 (st8 m a v) (a + 1) (v / 256).
Definition ld16 (m : ram) (a : Z) : Z := ld8 m a + 256 * ld8 m (a + 1).

Definition tss_flush (m : mach) : mach := do_io (Ltr GDT_TSS_SEG) m.

(** [tss_addr] is [&tss]; [tss] its bytes. *)
Definition tss_init (tss_addr kernel_stack : Z) (gdt : list gdt_entry_t) (tss : ram) (m : mach)
  : list gdt_entry_t * ram * mach :=
  let base := tss_addr in
  let limit := u32 (base + TSS_SIZE - 1) in
  let gdt := gdt_set_tss_entry base limit gdt in
  let tss := fill8 tss 0 TSS_SIZE (fun _ => 0) in
  let tss := st32 tss tss_ss0 GDT_KERNEL_DATA in
  let tss := st32 tss tss_esp0 kernel_stack in
  let tss := st16 tss tss_iomap_base (u16 TSS_SIZE) in
  (gdt, tss, tss_flush m).

Definition tss_set_kernel_stack (stack : Z) (tss : ram) : ram := st32 tss tss_esp0 stack.

(** ** The PIC and the IRQ handler table *)

Definition PIC1_CMD := 0x20.
Definition PIC1_DATA := 0x21.
Definition PIC2_CMD := 0xA0.
Definition PIC2_DATA := 0xA1.
Definition PIC_ICW1_INIT := 0x11.
Definition PIC_ICW4_8086 := 0x01.
Definition PIC_EOI := 0x20.
Definition IRQ_TIMER := 0.
Definition IRQ_KEYBOARD := 1.

Definition pic_remap (m : mach) : mach :=
  let m := io_wait (outb PIC1_CMD PIC_ICW1_INIT m) in
  let m := io_wait (outb PIC2_CMD PIC_ICW1_INIT m) in
  let m := io_wait (outb PIC1_DATA 0x20 m) in
  let m := io_wait (outb PIC2_DATA 0x28 m) in
  let m := io_wait (outb PIC1_DATA 0x04 m) in
  let m := io_wait (outb PIC2_DATA 0x02 m) in
  let m := io_wait (outb PIC1_DATA PIC_ICW4_8086 m) in
  let m := io_wait (outb PIC2_DATA PIC_ICW4_8086 m) in
  outb PIC2_DATA 0x00 (outb PIC1_DATA 0x00 m).

Definition pic_send_eoi (irq : Z) (m : mach) : mach :=
  let m := if 8 <=? irq then outb PIC2_CMD PIC_EOI m else m in
  outb PIC1_CMD PIC_EOI m.

Definition irq_register (irq handler : Z) (hs : list Z) : list Z :=
  if irq <? 16 then aset hs irq handler else hs.

(** [call f] is the effect of calling the function at address [f] on the
    machine and the rest [W] of the kernel's state. *)
Definition irq_handler {W} (call : Z -> mach * W -> mach * W) (hs : list Z) (int_no : Z)
    (st : mach * W) : mach * W :=
  let irq := u8 (int_no - 32) in
  let st := (pic_send_eoi irq (fst st), snd st) in
  if (irq <? 16) && ctrue (aget 0 hs irq) then call (aget 0 hs irq) st else st.

(** ** The Interrupt Descriptor Table *)

Record idt_entry_t := IdtEntry {
  offset_low : Z; selector : Z; zero : Z; type_attr : Z; offset_high : Z;
}.

Definition idt_zero : idt_entry_t := IdtEntry 0 0 0 0 0.
Definition IDT_ENTRIES := 256.
Definition IDT_GATE_INT_RING0 := 0x8E.
Definition IDT_GATE_INT_RING3 := 0xEE.

Definition idt_set_gate (num handler sel flags : Z) (idt : list idt_entry_t) : list idt_entry_t :=
  aset idt num
    (IdtEntry (u16 (Z.land handler 0xFFFF)) sel 0 flags (u16 (Z.land (Z.shiftr handler 16) 0xFFFF))).

Section Stubs.
(** Addresses of the assembly stubs [isr0..isr31], [isr128], [irq0..irq15]. *)
Context (isr irq : Z -> Z).

(** The sixteen [idt_set_gate(32 + i, irq_i, 0x08, 0x8E)] calls, then [sti]. *)
Definition irq_init (hs : list Z) (idt : list idt_entry_t) (m : mach)
  : list Z * list idt_entry_t * mach :=
  let hs := for_ 0 16 (fun i hs => aset hs i 0) hs in
  let m := pic_remap m in
  let idt := for_ 0 16 (fun i => idt_set_gate (32 + i) (irq i) 0x08 0x8E) idt in
  (hs, idt, do_io Sti m).

(** [idt_addr] is [&idt]. *)
Definition idt_init (idt_addr : Z) (hs : list Z) (idt : list idt_entry_t) (m : mach)
  : list Z * list idt_entry_t * mach :=
  let limit := u16 (8 * IDT_ENTRIES - 1) in
  let idt := for_ 0 IDT_ENTRIES (fun i idt => aset idt i idt_zero) idt in
  let idt := for_ 0 32 (fun i => idt_set_gate i (isr i) 0x08 IDT_GATE_INT_RING0) idt in
  let idt := idt_set_gate 0x80 (isr 128) 0x08 IDT_GATE_INT_RING3 idt in
  let '(hs, idt, m) := irq_init hs idt m in
  (hs, idt, do_io (Lidt idt_addr limit) m).
End Stubs.

(** ** Exceptions *)

Record registers_t := Regs {
  r_edi : Z; r_esi : Z; r_ebp : Z; r_esp_dummy : Z;
  r_ebx : Z; r_edx : Z; r_ecx : Z; r_eax : Z;
  r_int_no : Z; r_err_code : Z;
  r_eip : Z; r_cs : Z; r_eflags : Z;
  r_useresp : Z; r_ss : Z;
}.

Definition set_eax (v : Z) (g : registers_t) : registers_t :=
  Regs (r_edi g) (r_esi g) (r_ebp g) (r_esp_dummy g) (r_ebx g) (r_edx g) (r_ecx g) v
       (r_int_no g) (r_err_code g) (r_eip g) (r_cs g) (r_eflags g) (r_useresp g) (r_ss g).

Definition exception_names : list (list Z) := lit <$>
  ["Divide by Zero"; "Debug"; "Non-Maskable Interrupt"; "Breakpoint"; "Overflow";
   "Bound Range Exceeded"; "Invalid Opcode"; "Device Not Available"; "Double Fault";
   "Coprocessor Segment Overrun"; "Invalid TSS"; "Segment Not Present"; "Stack-Segment Fault";
   "General Protection Fault"; "Page Fault"; "Reserved"; "x87 Floating-Point"; "Alignment Check";
   "Machine Check"; "SIMD Floating-Point"; "Virtualisation"; "Control Protection";
   "Reserved"; "Reserved"; "Reserved"; "Reserved"; "Reserved";
   "Reserved"; "Reserved"; "Reserved"; "Reserved"; "Reserved"]%string.

(** The report printed before halting; [cr2] is the fault address register. *)
Definition exception_report (cr2 : Z) (g : registers_t) (m : mach) : mach :=
  let m := debug_print (lit "[serial] EXCEPTION caught" ++ nl) m in
  let m := vga_set_color (vga_make_color VGA_COLOR_RED VGA_COLOR_BLACK) m in
  let nm := if r_int_no g <? 32 then aget [] exception_names (r_int_no g) else lit "Unknown" in
  let m := klog (nl ++ lit "*** KERNEL EXCEPTION ***" ++ nl) [] m in
  let m := klog (lit "Exception %u: %s" ++ nl) [AInt (r_int_no g); AStr (Some nm)] m in
  let m := klog (lit "Error code: 0x%x" ++ nl) [AInt (r_err_code g)] m in
  let m := if r_int_no g =? 14
           then klog (lit "Faulting address (CR2): 0x%x" ++ nl) [AInt cr2] m else m in
  let m := klog (nl ++ lit "Registers:" ++ nl) [] m in
  let m := klog (lit "  eax=0x%x  ebx=0x%x  ecx=0x%x  edx=0x%x" ++ nl)
             [AInt (r_eax g); AInt (r_ebx g); AInt (r_ecx g); AInt (r_edx g)] m in
  let m := klog (lit "  esi=0x%x  edi=0x%x  ebp=0x%x" ++ nl)
             [AInt (r_esi g); AInt (r_edi g); AInt (r_ebp g)] m in
  let m := klog (lit "  eip=0x%x  cs=0x%x  eflags=0x%x" ++ nl)
             [AInt (r_eip g); AInt (r_cs g); AInt (r_eflags g)] m in
  let m := vga_set_color (vga_make_color VGA_COLOR_LIGHT_GREY VGA_COLOR_BLACK) m in
  klog (nl ++ lit "System halted." ++ nl) [] m.

(** [syscall] is [syscall_handler] on the kernel's state [S], of which
    [machine] is the machine; an exception stops the machine. *)
Definition isr_handler {S A} (machine : S -> mach) (syscall : registers_t -> S -> A)
    (cr2 : Z) (g : registers_t) (st : S) : outcome A :=
  if r_int_no g =? 0x80 then Ret (syscall g st)
  else khalt (exception_report cr2 g (machine st)).

(** ** What the processor reads from the descriptors *)

Definition seg_base (e : gdt_entry_t) : Z := base_low e + 65536 * base_mid e + 16777216 * base_high e.
Definition seg_limit (e : gdt_entry_t) : Z := limit_low e + 65536 * (granularity e mod 16).
Definition seg_flags (e : gdt_entry_t) : Z := granularity e / 16.
Definition seg_present (e : gdt_entry_t) : bool := Z.testbit (access e) 7.
Definition seg_dpl (e : gdt_entry_t) : Z := access e / 32 mod 4.
Definition seg_code (e : gdt_entry_t) : bool := Z.testbit (access e) 3.

Definition gate_offset (g : idt_entry_t) : Z := offset_low g + 65536 * offset_high g.
Definition gate_present (g : idt_entry_t) : bool := Z.testbit (type_attr g) 7.
Definition gate_dpl (g : idt_entry_t) : Z := type_attr g / 32 mod 4.

Lemma land_ffff x : Z.land x 0xFFFF = x mod 65536.
Proof. change 0xFFFF with (Z.ones 16). by rewrite Z.land_ones. Qed.

Lemma land_ff x : Z.land x 0xFF = x mod 256.
Proof. change 0xFF with (Z.ones 8). by rewrite Z.land_ones. Qed.

Lemma land_f x : Z.land x 0x0F = x mod 16.
Proof. change 0x0F with (Z.ones 4). by rewrite Z.land_ones. Qed.

Lemma shr x n : 0 <= n -> Z.shiftr x n = x / 2 ^ n.
Proof. intros. by apply Z.shiftr_div_pow2. Qed.

(** A nibble or'ed into a byte whose low nibble is empty. *)
Lemma lor_nibble x g : 0 <= x < 16 -> 0 <= g < 256 -> g mod 16 = 0 ->
  u8 (Z.lor x g) mod 16 = x /\ u8 (Z.lor x g) / 16 = g / 16.
Proof.
  intros Hx Hg Hm. assert (Hs : Z.lor x g = g + x).
  { assert (Hd : Z.land x g = 0).
    { apply Z.bits_inj'. intros k Hk. rewrite Z.land_spec, Z.bits_0. destruct (Z.lt_ge_cases k 4).
      - rewrite <- (Z.mod_pow2_bits_low g 4) by lia. change (2 ^ 4) with 16. by rewrite Hm, Z.bits_0, andb_false_r.
      - rewrite Z.testbit_eqb, Z.div_small; [done | | lia]. split; [lia |].
        apply Z.lt_le_trans with (2 ^ 4); [lia |]. apply Z.pow_le_mono_r; lia. }
    pose proof (Z.add_lor_land x g). lia. }
  rewrite Hs, u8_small by lia. lia.
Qed.

Definition gate (handler sel flags : Z) : idt_entry_t :=
  IdtEntry (u16 (Z.land handler 0xFFFF)) sel 0 flags (u16 (Z.land (Z.shiftr handler 16) 0xFFFF)).

Lemma gate_offset_gate h sel fl : is_u32 h -> gate_offset (gate h sel fl) = h.
Proof.
  intros Hh. unfold gate_offset, gate, is_u32 in *. cbn [offset_low offset_high].
  rewrite !land_ffff, shr by lia. rewrite !u16_small by lia. change (2 ^ 16) with 65536. lia.
Qed.

(** Descriptor encoding round trip: the entry [gdt_set_entry] stores, read
    back the way the processor does, has the given 32-bit base, the low 20
    bits of the limit, the access byte, and the flag nibble of [gran]; no
    other entry changes. *)
Theorem gdt_set_entry_decodes (num base limit acc gran : Z) (gdt : list gdt_entry_t) :
  0 <= num < alen gdt -> is_u32 base -> is_u32 limit -> is_u8 gran -> gran mod 16 = 0 ->
  let gdt' := gdt_set_entry num base limit acc gran gdt in
  let e := aget gdt_zero gdt' num in
  seg_base e = base /\ seg_limit e = limit mod 1048576 /\ access e = acc /\ seg_flags e = gran / 16 /\
  forall i, 0 <= i -> i <> num -> aget gdt_zero gdt' i = aget gdt_zero gdt i.
Proof.
  intros Hn Hb Hl Hg Hg16 gdt' e. unfold is_u32, is_u8 in *.
  assert (He : e = GdtEntry (u16 (Z.land limit 0xFFFF)) (u16 (Z.land base 0xFFFF))
              (u8 (Z.land (Z.shiftr base 16) 0xFF)) acc
              (u8 (Z.lor (u8 (Z.land (Z.shiftr limit 16) 0x0F)) gran))
              (u8 (Z.land (Z.shiftr base 24) 0xFF))) by (by apply aget_aset_eq).
  rewrite He. unfold seg_base, seg_limit, seg_flags.
  cbn [base_low base_mid base_high limit_low granularity access].
  rewrite !land_ffff, !land_ff, land_f, !shr by lia.
  change (2 ^ 16) with 65536. change (2 ^ 24) with 16777216.
  rewrite !(u16_small (_ mod 65536)), !(u8_small (_ mod 256)), (u8_small (_ mod 16)) by lia.
  destruct (lor_nibble (limit / 65536 mod 16) gran) as [-> ->]; [lia | done | done |].
  split_and!; try done; try lia. intros i Hi Hne. apply aget_aset_ne; lia.
Qed.

Lemma gdt_set_entry_decodes_witness :
  let e := aget gdt_zero (gdt_set_entry 5 0x123456 0x67 0x89 0x00 (replicate 6 gdt_zero)) 5 in
  seg_base e = 0x123456 /\ seg_limit e = 0x67.
Proof.
  destruct (gdt_set_entry_decodes 5 0x123456 0x67 0x89 0x00 (replicate 6 gdt_zero)) as (H1 & H2 & _).
  - vm_compute. split; congruence.
  - unfold is_u32. lia.
  - unfold is_u32. lia.
  - unfold is_u8. lia.
  - reflexivity.
  - split; [exact H1 | exact H2].
Defined.

(** [gdt_init] builds the flat model its comment describes: code and data
    segments for rings 0 and 3 with base 0 and the maximal page-granular
    limit, a null descriptor, an empty TSS slot, and GDTR covering exactly the
    six entries. *)
Theorem gdt_init_flat_model (gdt_addr : Z) (gdt : list gdt_entry_t) (m : mach) :
  alen gdt = GDT_ENTRIES ->
  let (gdt', m') := gdt_init gdt_addr gdt m in
  (forall sel dpl code, In (sel, dpl, code)
      [(GDT_KERNEL_CODE, 0, true); (GDT_KERNEL_DATA, 0, false); (GDT_USER_CODE, 3, true); (GDT_USER_DATA, 3, false)] ->
    let e := aget gdt_zero gdt' (sel / 8) in
    seg_base e = 0 /\ seg_limit e = 0xFFFFF /\ seg_flags e = 0xC /\ seg_present e = true /\
    seg_dpl e = dpl /\ sel mod 4 = dpl /\ seg_code e = code) /\
  aget gdt_zero gdt' 0 = gdt_zero /\ aget gdt_zero gdt' 5 = gdt_zero /\
  io m' = Lgdt gdt_addr 47 :: io m.
Proof.
  intros Hl. do 7 (destruct gdt as [|? gdt]; [try discriminate Hl |]).
  - split_and!; try reflexivity. intros sel dpl code Hin. cbn [In] in Hin.
    repeat destruct Hin as [Hin|Hin]; try injection Hin as <- <- <-; [vm_compute; by split_and! .. | done].
  - unfold alen, GDT_ENTRIES in Hl. cbn [length] in Hl. lia.
Qed.

Lemma gdt_init_flat_model_witness :
  let (gdt', m') := gdt_init 0x109000 (replicate 6 gdt_zero) mach0 in
  aget gdt_zero gdt' 0 = gdt_zero /\ io m' = [Lgdt 0x109000 47].
Proof.
  pose proof (gdt_init_flat_model 0x109000 (replicate 6 gdt_zero) mach0 ltac:(reflexivity)) as H.
  destruct (gdt_init 0x109000 (replicate 6 gdt_zero) mach0) as [gdt' m'].
  destruct H as (_ & H1 & _ & H3). split; [exact H1 | exact H3].
Defined.

(** [tss_init] sets the descriptor limit to the address of the segment's
    last byte instead of its size minus one.  For a TSS that does not start
    its megabyte the limit is at least [iomap_base], so the I/O permission
    bitmap is inside the segment, not beyond it as the code intends. *)
Theorem tss_limit_covers_iomap (tss_addr kernel_stack : Z) (gdt : list gdt_entry_t) (tss : ram) (m : mach) :
  alen gdt = GDT_ENTRIES -> is_u32 tss_addr -> 1 <= tss_addr mod 1048576 -> tss_addr mod 1048576 + 103 < 1048576 ->
  let '(gdt', tss', m') := tss_init tss_addr kernel_stack gdt tss m in
  let e := aget gdt_zero gdt' 5 in
  seg_base e = tss_addr /\ seg_limit e = tss_addr mod 1048576 + 103 /\
  ld16 tss' tss_iomap_base <= seg_limit e.
Proof.
  intros Hl Hu H1 H2. unfold tss_init. set (gdt' := gdt_set_tss_entry _ _ gdt).
  pose proof (u32_range (tss_addr + TSS_SIZE - 1)) as Hr.
  assert (Hlim : u32 (tss_addr + TSS_SIZE - 1) mod 1048576 = tss_addr mod 1048576 + 103).
  { unfold u32, TSS_SIZE, is_u32 in *. lia. }
  set (limit := u32 (tss_addr + TSS_SIZE - 1)) in *.
  assert (He : aget gdt_zero gdt' 5 = GdtEntry (u16 (Z.land limit 0xFFFF)) (u16 (Z.land tss_addr 0xFFFF))
              (u8 (Z.land (Z.shiftr tss_addr 16) 0xFF)) 0x89
              (u8 (Z.lor (u8 (Z.land (Z.shiftr limit 16) 0x0F)) 0))
              (u8 (Z.land (Z.shiftr tss_addr 24) 0xFF))).
  { apply aget_aset_eq. rewrite Hl. unfold GDT_ENTRIES. lia. }
  rewrite He. unfold seg_base, seg_limit, is_u32 in *. cbn [base_low base_mid base_high limit_low granularity].
  rewrite Z.lor_0_r, !land_ffff, !land_ff, land_f, !shr by lia.
  change (2 ^ 16) with 65536. change (2 ^ 24) with 16777216.
  rewrite !(u16_small (_ mod 65536)), !(u8_small (_ mod 256)), !(u8_small (_ mod 16)) by lia.
  assert (Hio : forall t, ld16 (st16 t tss_iomap_base (u16 TSS_SIZE)) tss_iomap_base = 104).
  { intros t. unfold ld16, st16. rewrite ld8_st8_eq, ld8_st8_ne, ld8_st8_eq by lia. reflexivity. }
  rewrite Hio. split_and!; lia.
Qed.

Lemma tss_limit_covers_iomap_witness :
  let '(gdt', tss', m') := tss_init 0x109040 0x110000 (replicate 6 gdt_zero) ∅ mach0 in
  seg_limit (aget gdt_zero gdt' 5) = 0x9040 + 103.
Proof.
  pose proof (tss_limit_covers_iomap 0x109040 0x110000 (replicate 6 gdt_zero) ∅ mach0
    ltac:(reflexivity) ltac:(unfold is_u32; lia) ltac:(lia) ltac:(lia)) as H.
  destruct (tss_init 0x109040 0x110000 (replicate 6 gdt_zero) ∅ mach0) as [[gdt' tss'] m']. apply H.
Defined.

(** The gate every vector has after [idt_init]; [None]: not present. *)
Definition vector_spec (isr irq : Z -> Z) (v : Z) : option (Z * Z) :=
  if v <? 32 then Some (isr v, 0)
  else if v <? 48 then Some (irq (v - 32), 0)
  else if v =? 128 then Some (isr 128, 3) else None.

Lemma idt_init_entry isr irq addr hs idt m v :
  alen idt = IDT_ENTRIES -> 0 <= v < 256 ->
  aget idt_zero (snd (fst (idt_init isr irq addr hs idt m))) v =
    if v <? 32 then gate (isr v) 0x08 IDT_GATE_INT_RING0
    else if v <? 48 then gate (irq (v - 32)) 0x08 0x8E
    else if v =? 128 then gate (isr 128) 0x08 IDT_GATE_INT_RING3 else idt_zero.
Proof.
  intros Hl Hv. unfold idt_init, irq_init. cbn [fst snd].
  set (t0 := for_ 0 IDT_ENTRIES _ idt). set (t1 := for_ 0 32 _ t0).
  set (t2 := idt_set_gate 128 _ _ _ t1). unfold IDT_ENTRIES in *.
  assert (H0 : alen t0 = alen idt /\ forall v, 0 <= v ->
    aget idt_zero t0 v = if (0 <=? v) && (v <? 0 + 256) then idt_zero else aget idt_zero idt v)
    by (apply (aset_loop idt_zero (fun _ => idt_zero) 0 256 idt); lia).
  destruct H0 as [L0 E0].
  assert (H1 : alen t1 = alen t0 /\ forall v, 0 <= v ->
    aget idt_zero t1 v = if (0 <=? v) && (v <? 0 + 32) then gate (isr (v - 0)) 0x08 IDT_GATE_INT_RING0
                         else aget idt_zero t0 v)
    by (apply (aset_loop idt_zero (fun i => gate (isr i) 0x08 IDT_GATE_INT_RING0) 0 32 t0); lia).
  destruct H1 as [L1 E1].
  assert (L2 : alen t2 = 256) by (unfold t2, idt_set_gate; rewrite alen_aset; lia).
  destruct (aset_loop idt_zero (fun i => gate (irq i) 0x08 0x8E) 32 16 t2) as [_ E3]; [lia | lia | lia |].
  etransitivity; [apply (E3 v); lia |].
  assert (E2 : aget idt_zero t2 v = if v =? 128 then gate (isr 128) 0x08 IDT_GATE_INT_RING3 else aget idt_zero t1 v).
  { unfold t2, idt_set_gate. zcase; [subst; apply aget_aset_eq; lia | apply aget_aset_ne; lia]. }
  rewrite E2, E1, E0 by lia. replace (v - 0) with v by lia.
  destruct (Z.ltb_spec v 32), (Z.ltb_spec v 48), (Z.eqb_spec v 128); repeat zcase; try lia; done.
Qed.

(** [idt_init] installs exactly the documented gates: vectors 0-31 reach
    the exception stubs and 32-47 the IRQ stubs with ring-0 gates, vector 0x80
    is the only ring-3 gate, every gate decodes to its stub's address and runs
    in the kernel code segment, and every other vector is not present. *)
Theorem idt_init_gates (isr irq : Z -> Z) (addr : Z) (hs : list Z) (idt : list idt_entry_t) (m : mach) :
  alen idt = IDT_ENTRIES -> (forall v, is_u32 (isr v)) -> (forall v, is_u32 (irq v)) ->
  let '(hs', idt', m') := idt_init isr irq addr hs idt m in
  forall v, 0 <= v < 256 ->
    let g := aget idt_zero idt' v in
    match vector_spec isr irq v with
    | Some (stub, dpl) => gate_present g = true /\ gate_offset g = stub /\ gate_dpl g = dpl /\
                          selector g = GDT_KERNEL_CODE
    | None => gate_present g = false
    end.
Proof.
  intros Hl Hi Hq. pose proof (idt_init_entry isr irq addr hs idt m) as He.
  destruct (idt_init isr irq addr hs idt m) as [[hs' idt'] m']. intros v Hv g. unfold g.
  cbn [fst snd] in He. rewrite He by done. unfold vector_spec.
  repeat zcase; try (by split_and!; [| apply gate_offset_gate | |]). done.
Qed.

Lemma idt_init_gates_witness :
  let '(hs', idt', m') := idt_init (fun v => 0x100000 + u8 v) (fun v => 0x101000 + u8 v) 0x110000 [] (replicate 256 idt_zero) mach0 in
  gate_offset (aget idt_zero idt' 0x80) = 0x100080.
Proof.
  pose proof (idt_init_gates (fun v => 0x100000 + u8 v) (fun v => 0x101000 + u8 v) 0x110000 []
    (replicate 256 idt_zero) mach0 ltac:(reflexivity)) as H.
  destruct (idt_init _ _ 0x110000 [] (replicate 256 idt_zero) mach0) as [[hs' idt'] m'].
  apply (H ltac:(intros v; unfold is_u32; pose proof (u8_range v); lia)
           ltac:(intros v; unfold is_u32; pose proof (u8_range v); lia) 0x80). lia.
Defined.

(** [idt_init] executes [sti] before [lidt]: between the two the processor
    takes interrupts with the boot loader's IDT, although the PIC has already
    been remapped and unmasked. *)
Theorem idt_init_enables_interrupts_before_lidt (isr irq : Z -> Z) (addr : Z) (hs : list Z)
    (idt : list idt_entry_t) (m : mach) :
  let '(_, _, m') := idt_init isr irq addr hs idt m in
  exists tr, forallb is_outb tr = true /\ io m' = Lidt addr 2047 :: Sti :: tr ++ io m.
Proof. exists (take 18 (io (pic_remap m))). split; reflexivity. Qed.

(** [irq_handler] acknowledges the interrupt before it runs the handler:
    the handler, if one is registered for the line, starts in a state whose
    trace ends with the EOI to the master PIC, preceded by one to the slave
    exactly for lines 8 to 15; an unregistered line only gets the EOI. *)
Theorem irq_handler_acks_then_dispatches {W} (call : Z -> mach * W -> mach * W) (hs : list Z)
    (int_no : Z) (m : mach) (w : W) :
  32 <= int_no < 48 ->
  let irq := int_no - 32 in
  exists m1, m_ram m1 = m_ram m /\
    io m1 = Outb PIC1_CMD PIC_EOI :: (if 8 <=? irq then [Outb PIC2_CMD PIC_EOI] else []) ++ io m /\
    irq_handler call hs int_no (m, w) =
      (if aget 0 hs irq =? 0 then (m1, w) else call (aget 0 hs irq) (m1, w)).
Proof.
  intros Hn irq. exists (pic_send_eoi irq m). unfold irq_handler. rewrite (u8_small (int_no - 32)) by lia.
  fold irq. cbn [fst snd]. replace (irq <? 16) with true by lia. unfold ctrue, pic_send_eoi.
  split_and!.
  - by destruct (8 <=? irq).
  - by destruct (8 <=? irq).
  - by destruct (aget 0 hs irq =? 0).
Qed.

Lemma irq_handler_acks_then_dispatches_witness :
  exists m1, irq_handler (W := unit) (fun f st => (do_io (SetCr3 f) (fst st), tt)) [0; 0x5000] 33 (mach0, tt) =
    (do_io (SetCr3 0x5000) m1, tt) /\ io m1 = [Outb PIC1_CMD PIC_EOI].
Proof.
  destruct (irq_handler_acks_then_dispatches (fun f st => (do_io (SetCr3 f) (fst st), tt)) [0; 0x5000] 33 mach0 tt
    ltac:(lia)) as (m1 & _ & H1 & H2).
  exists m1. split; [exact H2 | exact H1].
Defined.
