(* ===== verification/Timer.v ===== *)
(** * Timer: the PIT driver (kernel/drivers/timer.h, timer.c) *)
From stdpp Require Import strings.
From S2P Require Import Prelude Memory Machine Vga Console.

Definition PIT_CHANNEL0_DATA := 0x40.
Definition PIT_CMD_PORT := 0x43.
Definition PIT_CMD_CHANNEL0_RATE := 0x36.
Definition PIT_BASE_FREQ := 1193182.
Definition PIT_HZ_DEFAULT := 100.

(** The variables of timer.c. *)
Record timer := Timer { tick_count : Z; ticks_per_second : Z }.

Definition timer0 : timer := Timer 0 PIT_HZ_DEFAULT.

Definition timer_tick (t : timer) : timer := Timer (u32 (tick_count t + 1)) (ticks_per_second t).

(** The handler kmain registers for the timer's interrupt (kernel/kernel.c). *)
Definition timer_irq_tick (t : timer) : timer := timer_tick t.

(** [None]: division by zero. *)
Definition timer_init (hz : Z) (t : timer) (m : mach) : option (timer * mach) :=
  if hz =? 0 then None
  else
    let t := Timer (tick_count t) hz in
    let divisor := PIT_BASE_FREQ / hz in
    let m := outb PIT_CMD_PORT PIT_CMD_CHANNEL0_RATE m in
    let m := outb PIT_CHANNEL0_DATA (u8 (Z.land divisor 0xFF)) m in
    let m := outb PIT_CHANNEL0_DATA (u8 (Z.land (Z.shiftr divisor 8) 0xFF)) m in
    Some (t, klog (lit "[PIT] Timer initialised at %u Hz (divisor %u)" ++ nl) [AInt hz; AInt divisor] m).

Definition timer_get_ticks (t : timer) : Z := tick_count t.

(** [None]: division by zero. *)
Definition timer_get_seconds (t : timer) : option Z :=
  if ticks_per_second t =? 0 then None else Some (tick_count t / ticks_per_second t).

(** The reload value the PIT takes from the two data bytes. *)
Definition pit_reload (lo hi : Z) : Z := lo + 256 * hi.

Lemma tick_n n t : tick_count (Nat.iter n timer_tick t) = u32 (tick_count t + Z.of_nat n) \/ n = O.
Proof.
  induction n as [|n IH]; [by right |]. left. cbn [Nat.iter nat_rect timer_tick tick_count].
  destruct IH as [IH|IH].
  - change (u32 (tick_count (Nat.iter n timer_tick t) + 1) = u32 (tick_count t + Z.of_nat (S n))).
    rewrite IH. unfold u32. rewrite Zplus_mod_idemp_l. f_equal. lia.
  - subst n. done.
Qed.

(** For every frequency from 19 Hz to the PIT's own, [timer_init] programs
    channel 0 (mode 3, low then high byte) with exactly the computed divisor,
    and the resulting rate is the requested one up to rounding; [n] ticks
    later (while the 32-bit counter has not wrapped) the uptime is [n / hz]
    seconds. *)
Theorem timer_programs_requested_rate (hz : Z) (t : timer) (m : mach) (n : nat) :
  19 <= hz <= PIT_BASE_FREQ -> tick_count t = 0 -> Z.of_nat n < W32 ->
  exists t' m' lo hi, timer_init hz t m = Some (t', m') /\
    (exists tr, forallb is_outb tr = true /\
       io m' = tr ++ Outb PIT_CHANNEL0_DATA hi :: Outb PIT_CHANNEL0_DATA lo ::
                     Outb PIT_CMD_PORT PIT_CMD_CHANNEL0_RATE :: io m) /\
    pit_reload lo hi = PIT_BASE_FREQ / hz /\
    hz * pit_reload lo hi <= PIT_BASE_FREQ < hz * (pit_reload lo hi + 1) /\
    timer_get_seconds (Nat.iter n timer_tick t') = Some (Z.of_nat n / hz).
Proof.
  unfold PIT_BASE_FREQ. intros Hhz Ht Hn. unfold timer_init. replace (hz =? 0) with false by lia.
  pose proof (Z.mul_div_le 1193182 hz ltac:(lia)) as Hb1.
  pose proof (Z.mul_succ_div_gt 1193182 hz ltac:(lia)) as Hb2.
  set (d := 1193182 / hz) in *. assert (Hd : 1 <= d < 65536) by (unfold d; split;
    [apply Z.div_le_lower_bound; lia | apply Z.div_lt_upper_bound; lia]).
  assert (Hlo : Z.land d 0xFF = d mod 256) by (change 0xFF with (Z.ones 8); by rewrite Z.land_ones).
  assert (Hhi : Z.land (Z.shiftr d 8) 0xFF = d / 256).
  { change 0xFF with (Z.ones 8). rewrite Z.land_ones, Z.shiftr_div_pow2 by lia. change (2 ^ 8) with 256. lia. }
  do 2 eexists. exists (d mod 256), (d / 256). split; [reflexivity |].
  split; [| split; [unfold pit_reload; fold d; lia |]].
  - destruct (io_outs_klog (lit "[PIT] Timer initialised at %u Hz (divisor %u)" ++ nl) [AInt hz; AInt d]
      (outb PIT_CHANNEL0_DATA (u8 (Z.land (Z.shiftr d 8) 0xFF))
        (outb PIT_CHANNEL0_DATA (u8 (Z.land d 0xFF)) (outb PIT_CMD_PORT PIT_CMD_CHANNEL0_RATE m)))) as (tr & Htr & Hio).
    exists tr. split; [exact Htr |]. unfold PIT_BASE_FREQ. fold d. rewrite Hio. unfold outb, do_io. cbn [io].
    rewrite Hlo, Hhi, !(u8_small (u8 _)) by apply u8_range. rewrite !u8_small by lia. done.
  - split; [unfold pit_reload; replace (d mod 256 + 256 * (d / 256)) with d by lia; lia |].
    unfold timer_get_seconds.
    assert (Hsec : forall k, ticks_per_second (Nat.iter k timer_tick (Timer (tick_count t) hz)) = hz)
      by (induction k; done).
    rewrite Hsec. replace (hz =? 0) with false by lia. do 2 f_equal.
    destruct (tick_n n (Timer (tick_count t) hz)) as [-> | ->]; [| cbn; lia].
    cbn [tick_count]. rewrite Ht, u32_small by lia. lia.
Qed.

Lemma timer_programs_requested_rate_witness :
  exists t' m', timer_init PIT_HZ_DEFAULT timer0 mach0 = Some (t', m') /\
    timer_get_seconds (Nat.iter 250 timer_tick t') = Some 2.
Proof.
  destruct (timer_programs_requested_rate PIT_HZ_DEFAULT timer0 mach0 250) as (t' & m' & lo & hi & H1 & _ & _ & _ & H2).
  - unfold PIT_HZ_DEFAULT, PIT_BASE_FREQ. lia.
  - reflexivity.
  - lia.
  - exists t', m'. split; [exact H1 | exact H2].
Defined.
