(* ===== verification/Keyboard.v ===== *)
(** * Keyboard: the PS/2 driver and its ring buffer (kernel/drivers/keyboard.h, keyboard.c)

    The interrupt handler is a function of the byte read from port 0x60.
    [keyboard_getchar] waits with [sti; hlt]; the interrupts that arrive while
    it waits are an explicit sequence, and the timer's advance the clock, as
    the handler kmain registers for them does ([timer_irq_tick] of kernel.c).
    The abstract view is a bounded FIFO of characters, each with the ticks that
    pass while it is waited for. *)
From stdpp Require Import strings.
From S2P Require Import Prelude Memory Machine Vga Console Arch Timer.

Definition KBD_BUF_SIZE := 256.

(** The static variables of keyboard.c. *)
Record kbd := Kbd {
  kbd_buffer : list Z;
  kbd_head : Z;
  kbd_tail : Z;
  shift_held : Z;
}.

Definition scancode_to_ascii : list Z := Eval vm_compute in
  [0; 27] ++ lit "1234567890-=" ++ [8; 9] ++ lit "qwertyuiop[]" ++ [10; 0] ++
  lit "asdfghjkl;'`" ++ [0; 92] ++ lit "zxcvbnm,./" ++ [0; 42; 0; 32; 0] ++ replicate 69 0.

Definition scancode_to_ascii_shift : list Z := Eval vm_compute in
  [0; 27] ++ lit "!@#$%^&*()_+" ++ [8; 9] ++ lit "QWERTYUIOP{}" ++ [10; 0] ++
  lit "ASDFGHJKL:" ++ [34] ++ lit "~" ++ [0; 124] ++ lit "ZXCVBNM<>?" ++ [0; 42; 0; 32; 0] ++ replicate 69 0.

(** [scancode] is the byte [inb(KBD_DATA_PORT)] returned. *)
Definition keyboard_irq_handler (scancode : Z) (s : kbd) : kbd :=
  if (scancode =? 0x2A) || (scancode =? 0x36) then Kbd (kbd_buffer s) (kbd_head s) (kbd_tail s) 1
  else if (scancode =? 0xAA) || (scancode =? 0xB6) then Kbd (kbd_buffer s) (kbd_head s) (kbd_tail s) 0
  else if ctrue (Z.land scancode 0x80) then s
  else
    let c := if ctrue (shift_held s) then aget 0 scancode_to_ascii_shift scancode
             else aget 0 scancode_to_ascii scancode in
    if c =? 0 then s
    else
      let next := u32 (kbd_head s + 1) mod KBD_BUF_SIZE in
      if negb (next =? kbd_tail s)
      then Kbd (aset (kbd_buffer s) (kbd_head s) c) next (kbd_tail s) (shift_held s)
      else s.

(** [handler] is the address of [keyboard_irq_handler]. *)
Definition keyboard_init (handler : Z) (s : kbd) (hs : list Z) (m : mach) : kbd * list Z * mach :=
  (Kbd (kbd_buffer s) 0 0 0, irq_register IRQ_KEYBOARD handler hs,
   klog (lit "[KBD] PS/2 keyboard driver initialised" ++ nl) [] m).

(** An interrupt that wakes the waiting loop: from the keyboard, with its
    scancode, from the timer, or from another device. *)
Inductive wake := KeyIrq (scancode : Z) | TimerIrq | OtherIrq.

(** What the interrupt's handler does to the keyboard and to the clock. *)
Definition on_wake (w : wake) (s : kbd) : kbd :=
  match w with KeyIrq sc => keyboard_irq_handler sc s | TimerIrq | OtherIrq => s end.
Definition on_tick (w : wake) (t : timer) : timer :=
  match w with TimerIrq => timer_irq_tick t | KeyIrq _ | OtherIrq => t end.

(** The character, the new state, the interrupts left and the clock.  [None]:
    the given interrupts end while the buffer is still empty, the call keeps
    waiting. *)
Fixpoint keyboard_getchar (irqs : list wake) (s : kbd) (t : timer) (m : mach) :
    option (Z * kbd * list wake * timer * mach) :=
  if kbd_tail s =? kbd_head s then
    match irqs with
    | [] => None
    | w :: irqs' => keyboard_getchar irqs' (on_wake w s) (on_tick w t) (do_io StiHlt m)
    end
  else
    let c := aget 0 (kbd_buffer s) (kbd_tail s) in
    Some (c, Kbd (kbd_buffer s) (kbd_head s) (u32 (kbd_tail s + 1) mod KBD_BUF_SIZE) (shift_held s), irqs, t, m).

Definition keyboard_has_data (s : kbd) : bool := negb (kbd_tail s =? kbd_head s).

(** ** The abstract keyboard: a FIFO of at most 255 characters *)

Definition KBD_CAP := 255.

(** The character a scancode types under a shift state, and the next shift state. *)
Definition key (sh : bool) (sc : Z) : bool * option Z :=
  if (sc =? 0x2A) || (sc =? 0x36) then (true, None)
  else if (sc =? 0xAA) || (sc =? 0xB6) then (false, None)
  else if 128 <=? sc then (sh, None)
  else
    let c := aget 0 (if sh then scancode_to_ascii_shift else scancode_to_ascii) sc in
    (sh, if c =? 0 then None else Some c).

(** What a sequence of scancodes types. *)
Fixpoint typed (sh : bool) (scs : list Z) : list Z :=
  match scs with
  | [] => []
  | sc :: scs' => let (sh', c) := key sh sc in option_list c ++ typed sh' scs'
  end.

Definition push (q : list Z) (c : Z) : list Z := if alen q <? KBD_CAP then q ++ [c] else q.

(** The characters in the ring, oldest first. *)
Definition qlen (s : kbd) : Z := (kbd_head s - kbd_tail s) mod 256.

Definition queue (s : kbd) : list Z :=
  (fun i => aget 0 (kbd_buffer s) ((kbd_tail s + Z.of_nat i) mod 256)) <$> seq 0 (Z.to_nat (qlen s)).

Definition kbd_inv (s : kbd) : Prop :=
  alen (kbd_buffer s) = 256 /\ 0 <= kbd_head s < 256 /\ 0 <= kbd_tail s < 256 /\
  (shift_held s = 0 \/ shift_held s = 1).

Lemma alen_queue s : alen (queue s) = qlen s.
Proof. unfold alen, queue, qlen. rewrite length_fmap, length_seq. lia. Qed.

Lemma queue_nil s : kbd_inv s -> (kbd_tail s =? kbd_head s) = bool_decide (queue s = []).
Proof.
  intros (_ & Hh & Ht & _). pose proof (alen_queue s) as Hq. unfold qlen in Hq.
  case_bool_decide as E.
  - rewrite E in Hq. unfold alen in Hq. cbn [length] in Hq. lia.
  - destruct (Z.eqb_spec (kbd_tail s) (kbd_head s)) as [He|]; [| done].
    exfalso. apply E. apply length_zero_iff_nil. unfold alen in Hq. lia.
Qed.

(** Storing at the head appends. *)
Lemma queue_push s c :
  kbd_inv s -> qlen s < 255 ->
  queue (Kbd (aset (kbd_buffer s) (kbd_head s) c) ((kbd_head s + 1) mod 256) (kbd_tail s) (shift_held s)) =
  queue s ++ [c].
Proof.
  intros (Hb & Hh & Ht & _) Hq. unfold queue, qlen in *. cbn [kbd_buffer kbd_head kbd_tail].
  replace (Z.to_nat (((kbd_head s + 1) mod 256 - kbd_tail s) mod 256))
    with (S (Z.to_nat ((kbd_head s - kbd_tail s) mod 256))) by lia.
  rewrite seq_S, fmap_app. cbn [fmap list_fmap Nat.add]. f_equal.
  - apply list_fmap_ext. intros i x Hx. apply lookup_seq in Hx as [-> Hx].
    rewrite aget_aset_ne; [done | lia | lia | lia].
  - rewrite Z2Nat.id by lia. replace ((kbd_tail s + (kbd_head s - kbd_tail s) mod 256) mod 256) with (kbd_head s) by lia.
    by rewrite aget_aset_eq by lia.
Qed.

(** Advancing the tail removes the oldest character. *)
Lemma queue_pop s : kbd_inv s -> kbd_tail s <> kbd_head s ->
  queue s = aget 0 (kbd_buffer s) (kbd_tail s) ::
    queue (Kbd (kbd_buffer s) (kbd_head s) ((kbd_tail s + 1) mod 256) (shift_held s)).
Proof.
  intros (Hb & Hh & Ht & _) Hne. unfold queue, qlen in *. cbn [kbd_buffer kbd_head kbd_tail].
  replace (Z.to_nat ((kbd_head s - kbd_tail s) mod 256))
    with (S (Z.to_nat ((kbd_head s - (kbd_tail s + 1) mod 256) mod 256))) by lia.
  cbn [seq fmap list_fmap]. f_equal.
  - f_equal. lia.
  - rewrite <- fmap_S_seq, <- list_fmap_compose. apply list_fmap_ext. intros i x Hx.
    apply lookup_seq in Hx as [-> Hx]. unfold compose. f_equal. lia.
Qed.

(** One interrupt: the handler is the abstract key press. *)
Lemma keyboard_irq_spec sc s :
  kbd_inv s -> 0 <= sc < 256 ->
  let s' := keyboard_irq_handler sc s in
  kbd_inv s' /\ ctrue (shift_held s') = fst (key (ctrue (shift_held s)) sc) /\
  queue s' = match snd (key (ctrue (shift_held s)) sc) with Some c => push (queue s) c | None => queue s end.
Proof.
  intros Hinv Hsc s'. unfold s', keyboard_irq_handler, key.
  destruct ((sc =? 0x2A) || (sc =? 0x36)) eqn:E1.
  { destruct Hinv as (? & ? & ? & _). split; [| done]. unfold kbd_inv. cbn [kbd_buffer kbd_head kbd_tail shift_held]. lia. }
  destruct ((sc =? 0xAA) || (sc =? 0xB6)) eqn:E2.
  { destruct Hinv as (? & ? & ? & _). split; [| done]. unfold kbd_inv. cbn [kbd_buffer kbd_head kbd_tail shift_held]. lia. }
  assert (Hbit : ctrue (Z.land sc 0x80) = (128 <=? sc)).
  { unfold ctrue. destruct (Z.leb_spec 128 sc) as [H|H].
    - apply negb_true_iff, Z.eqb_neq. intros Hz.
      assert (Hb : Z.testbit (Z.land sc 0x80) 7 = true).
      { rewrite Z.land_spec, (Z.testbit_eqb sc) by lia. change (2 ^ 7) with 128.
        replace (sc / 128) with 1 by lia. done. }
      rewrite Hz, Z.bits_0 in Hb. done.
    - apply negb_false_iff, Z.eqb_eq. apply Z.bits_inj'. intros k Hk. rewrite Z.land_spec, Z.bits_0.
      change 0x80 with (2 ^ 7). rewrite Z.pow2_bits_eqb by lia. destruct (Z.eqb_spec 7 k) as [<-|]; [| by rewrite andb_false_r].
      rewrite Z.testbit_eqb by lia. change (2 ^ 7) with 128. by rewrite Z.div_small by lia. }
  rewrite Hbit. destruct (128 <=? sc); [done |].
  assert (Hc : (if ctrue (shift_held s) then aget 0 scancode_to_ascii_shift sc else aget 0 scancode_to_ascii sc) =
               aget 0 (if ctrue (shift_held s) then scancode_to_ascii_shift else scancode_to_ascii) sc)
    by (by destruct (ctrue (shift_held s))).
  rewrite Hc. clear Hc. cbn [fst snd]. set (c := aget 0 _ sc). destruct (c =? 0); [done |].
  pose proof Hinv as (Hb & Hh & Ht & Hs). unfold KBD_BUF_SIZE. rewrite u32_small by lia.
  unfold push, KBD_CAP. rewrite alen_queue. unfold qlen.
  destruct (Z.eqb_spec ((kbd_head s + 1) mod 256) (kbd_tail s)) as [E|E]; cbn [negb].
  - split_and!; try done. by replace (_ <? 255) with false by lia.
  - split; [unfold kbd_inv; cbn [kbd_buffer kbd_head kbd_tail shift_held]; rewrite alen_aset; lia |].
    split; [done |]. rewrite queue_push by (done || unfold qlen; lia). by replace (_ <? 255) with true by lia.
Qed.

(** C34. The interrupt handler refines the abstract keyboard over any sequence
    of scancodes: from an empty buffer, handling them all leaves in the ring
    exactly the first 255 characters the keys type (shift applied, releases
    and unmapped keys ignored), the rest dropped, never overwriting an unread
    character. *)
Theorem keyboard_buffers_typed_text (scs : list Z) (s : kbd) :
  kbd_inv s -> queue s = [] -> Forall (fun sc => 0 <= sc < 256) scs ->
  let s' := fold_left (fun s sc => keyboard_irq_handler sc s) scs s in
  kbd_inv s' /\ queue s' = take 255 (typed (ctrue (shift_held s)) scs).
Proof.
  intros Hinv Hq Hscs s'. unfold s'. clear s'.
  assert (Hgen : forall q s, kbd_inv s -> queue s = take 255 q ->
    kbd_inv (fold_left (fun s sc => keyboard_irq_handler sc s) scs s) /\
    queue (fold_left (fun s sc => keyboard_irq_handler sc s) scs s) =
      take 255 (q ++ typed (ctrue (shift_held s)) scs)).
  { clear Hq Hinv s. induction Hscs as [|sc scs Hsc Hscs IH]; intros q s Hinv Hq; cbn [fold_left typed].
    { by rewrite app_nil_r. }
    destruct (keyboard_irq_spec sc s Hinv Hsc) as (Hinv' & Hsh & Hq').
    destruct (key (ctrue (shift_held s)) sc) as [sh' [c|]]; cbn [fst snd option_list app] in *; subst sh'.
    - assert (Hp : push (queue s) c = take 255 (q ++ [c])).
      { rewrite Hq. unfold push, KBD_CAP, alen. rewrite length_take. destruct (Z.ltb_spec (Z.of_nat (255 `min` length q)) 255).
        - rewrite (take_ge q) by lia. rewrite take_ge; [done |]. rewrite length_app. cbn. lia.
        - by rewrite take_app_le by lia. }
      rewrite Hp in Hq'. destruct (IH _ _ Hinv' Hq') as [H1 H2]. split; [done |].
      by rewrite H2, <- app_assoc.
    - apply IH; [done | congruence]. }
  exact (Hgen [] s Hinv Hq).
Qed.

(** An initialised keyboard. *)
Definition kbd0 : kbd := Kbd (replicate 256 0) 0 0 0.

Lemma kbd0_inv : kbd_inv kbd0 /\ queue kbd0 = [].
Proof. split; [| reflexivity]. unfold kbd_inv, kbd0. cbn [kbd_buffer kbd_head kbd_tail shift_held alen]. vm_compute. repeat split; try congruence. by left. Qed.

Lemma keyboard_buffers_typed_text_witness :
  queue (fold_left (fun s sc => keyboard_irq_handler sc s) [0x2A; 0x23; 0xA3; 0xAA; 0x17] kbd0) = lit "Hi".
Proof.
  destruct (keyboard_buffers_typed_text [0x2A; 0x23; 0xA3; 0xAA; 0x17] kbd0 (proj1 kbd0_inv) (proj2 kbd0_inv))
    as [_ Hq].
  - repeat constructor; lia.
  - rewrite Hq. reflexivity.
Defined.

(** The scancodes of a sequence of wake-ups. *)
Definition scancodes (irqs : list wake) : list Z :=
  flat_map (fun w => match w with KeyIrq sc => [sc] | TimerIrq | OtherIrq => [] end) irqs.

Definition wake_ok (w : wake) : Prop := match w with KeyIrq sc => 0 <= sc < 256 | TimerIrq | OtherIrq => True end.

(** The text still to be delivered: what is buffered, then what will be typed. *)
Definition pending (s : kbd) (irqs : list wake) : list Z :=
  queue s ++ typed (ctrue (shift_held s)) (scancodes irqs).

(** ** Waiting takes time *)

(** What will be typed, each character with the number of timer interrupts
    since the one before it; [n] of them are already past. *)
Fixpoint typing (sh : bool) (n : nat) (irqs : list wake) : list (nat * Z) :=
  match irqs with
  | [] => []
  | KeyIrq sc :: irqs' =>
      match key sh sc with
      | (sh', Some c) => (n, c) :: typing sh' 0 irqs'
      | (sh', None) => typing sh' n irqs'
      end
  | TimerIrq :: irqs' => typing sh (S n) irqs'
  | OtherIrq :: irqs' => typing sh n irqs'
  end.

(** The text to be delivered, with the ticks a reader waits for each character:
    none for what is buffered. *)
Definition arrivals (s : kbd) (irqs : list wake) : list (nat * Z) :=
  ((fun c => (O, c)) <$> queue s) ++ typing (ctrue (shift_held s)) 0 irqs.

(** The clock after the characters [l] were waited for. *)
Definition waited (l : list (nat * Z)) (t : timer) : timer := fold_left (fun t a => Nat.iter a.1 timer_tick t) l t.

Lemma typing_typed sh n irqs : snd <$> typing sh n irqs = typed sh (scancodes irqs).
Proof.
  revert sh n. induction irqs as [|[sc| |] irqs IH]; intros sh n; cbn [typing scancodes flat_map app typed]; [done | | apply IH | apply IH].
  fold (scancodes irqs). destruct (key sh sc) as [sh' [c|]]; cbn [fmap list_fmap option_list app snd]; by rewrite IH.
Qed.

Lemma arrivals_pending s irqs : snd <$> arrivals s irqs = pending s irqs.
Proof.
  unfold arrivals, pending. rewrite fmap_app, typing_typed, <- list_fmap_compose. f_equal. unfold compose. cbn [snd]. by rewrite list_fmap_id.
Qed.

(** A tick before a text is one more tick before its first character. *)
Lemma typing_later sh n irqs :
  typing sh (S n) irqs = match typing sh n irqs with [] => [] | (j, c) :: l => (S j, c) :: l end.
Proof.
  revert sh n. induction irqs as [|[sc| |] irqs IH]; intros sh n; cbn [typing]; [done | | apply IH | apply IH].
  destruct (key sh sc) as [sh' [c|]]; [done | apply IH].
Qed.

(** Wake-ups keep the driver's invariant. *)
Lemma on_wake_inv w s : kbd_inv s -> wake_ok w -> kbd_inv (on_wake w s).
Proof. destruct w as [sc| |]; [| done | done]. intros H1 H2. by apply keyboard_irq_spec. Qed.

(** A wake-up of an empty buffer only moves a character from "typed" to
    "buffered", or delays the rest. *)
Lemma arrivals_wake s w irqs :
  kbd_inv s -> wake_ok w -> queue s = [] ->
  arrivals s (w :: irqs) = match w, arrivals (on_wake w s) irqs with
                           | TimerIrq, (j, c) :: l => (S j, c) :: l
                           | _, l => l
                           end.
Proof.
  intros Hinv Hw Hq. destruct w as [sc| |]; cbn [on_wake]; unfold arrivals.
  - destruct (keyboard_irq_spec sc s Hinv Hw) as (_ & Hsh & Hq'). rewrite Hsh, Hq', Hq. cbn [fmap list_fmap app typing].
    destruct (key (ctrue (shift_held s)) sc) as [sh [c|]]; done.
  - rewrite Hq. cbn [fmap list_fmap app typing]. apply typing_later.
  - rewrite Hq. done.
Qed.

(** With a character buffered, [keyboard_getchar] returns it without waiting. *)
Lemma getchar_ready irqs s t m :
  kbd_inv s -> queue s <> [] ->
  exists c s', keyboard_getchar irqs s t m = Some (c, s', irqs, t, m) /\ kbd_inv s' /\
    queue s = c :: queue s' /\ shift_held s' = shift_held s.
Proof.
  intros Hinv Hq. pose proof (queue_nil s Hinv) as Hn. rewrite bool_decide_eq_false_2 in Hn by done.
  apply Z.eqb_neq in Hn as Hne. pose proof (queue_pop s Hinv Hne) as Hpop.
  pose proof Hinv as (Hb & Hh & Ht & Hs).
  assert (Hk : keyboard_getchar irqs s t m =
    Some (aget 0 (kbd_buffer s) (kbd_tail s),
          Kbd (kbd_buffer s) (kbd_head s) ((kbd_tail s + 1) mod 256) (shift_held s), irqs, t, m)).
  { destruct irqs; cbn [keyboard_getchar]; rewrite Hn; unfold KBD_BUF_SIZE; rewrite u32_small by lia; done. }
  do 2 eexists. split; [exact Hk |]. split_and!; try done.
  unfold kbd_inv. cbn [kbd_buffer kbd_head kbd_tail shift_held]. lia.
Qed.

(** Waiting changes nothing of the machine but its trace. *)
Lemma getchar_mach irqs s t m c s' irqs' t' m' :
  keyboard_getchar irqs s t m = Some (c, s', irqs', t', m') ->
  m_ram m' = m_ram m /\ vga_mem m' = vga_mem m /\ vga_col m' = vga_col m /\ vga_row m' = vga_row m /\
  vga_color m' = vga_color m /\ exists l, irqs = l ++ irqs'.
Proof.
  revert s t m. induction irqs as [|w irqs IH]; intros s t m; cbn [keyboard_getchar];
    (destruct (kbd_tail s =? kbd_head s); [try done | intros [= _ _ <- _ <-]; split_and!; try done; by exists []]).
  intros H. apply IH in H as (H1 & H2 & H3 & H4 & H5 & l & ->). split_and!; try done. by exists (w :: l).
Qed.

(** What a call must return for the text that is to arrive. *)
Definition delivers (irqs : list wake) (s : kbd) (t : timer) (m : mach) : Prop :=
  match arrivals s irqs with
  | [] => keyboard_getchar irqs s t m = None
  | (n, c) :: rest =>
      exists s' irqs' m', keyboard_getchar irqs s t m = Some (c, s', irqs', Nat.iter n timer_tick t, m') /\
        kbd_inv s' /\ arrivals s' irqs' = rest /\ m_ram m' = m_ram m
  end.

Lemma delivers_ready irqs s t m : kbd_inv s -> queue s <> [] -> delivers irqs s t m.
Proof.
  intros Hinv Hq. destruct (getchar_ready irqs s t m Hinv Hq) as (c & s' & Hk & Hinv' & Hqs & Hsh).
  unfold delivers, arrivals. rewrite Hqs. cbn [fmap list_fmap app]. exists s', irqs, m.
  split; [exact Hk |]. split; [exact Hinv' |]. split; [by rewrite Hsh | done].
Qed.

Lemma getchar_delivers (irqs : list wake) (s : kbd) (t : timer) (m : mach) :
  kbd_inv s -> Forall wake_ok irqs ->
  delivers irqs s t m.
Proof.
  intros Hinv Hok. revert s t m Hinv. induction Hok as [|w irqs Hw Hok IH]; intros s t m Hinv;
    (destruct (decide (queue s = [])) as [Hq|Hq]; [| by apply delivers_ready]);
    unfold delivers; cbn [keyboard_getchar]; rewrite (queue_nil s Hinv), bool_decide_eq_true_2 by done.
  - unfold arrivals. by rewrite Hq.
  - rewrite (arrivals_wake s w irqs Hinv Hw Hq).
    specialize (IH (on_wake w s) (on_tick w t) (do_io StiHlt m) (on_wake_inv w s Hinv Hw)). unfold delivers in IH.
    destruct w as [sc| |]; cbn [on_wake on_tick] in IH |- *.
    + exact IH.
    + destruct (arrivals s irqs) as [|[n c] l]; [exact IH |]. rewrite Nat.iter_succ_r. exact IH.
    + exact IH.
Qed.

(** C33. [keyboard_getchar] delivers the typed text in order: given the
    interrupts that will arrive, it returns exactly when there is a buffered or
    still to be typed character, the character is the first of that text, and
    what remains to be delivered is the rest, so successive calls read the text
    without loss or reordering; the clock advances by exactly the timer
    interrupts taken while it waited. *)
Theorem keyboard_getchar_delivers_in_order (irqs : list wake) (s : kbd) (t : timer) (m : mach) :
  kbd_inv s -> Forall wake_ok irqs ->
  delivers irqs s t m /\ snd <$> arrivals s irqs = pending s irqs.
Proof. intros Hinv Hok. split; [exact (getchar_delivers irqs s t m Hinv Hok) | exact (arrivals_pending s irqs)]. Qed.

Lemma keyboard_getchar_delivers_in_order_witness :
  exists s' irqs' m', keyboard_getchar [OtherIrq; TimerIrq; KeyIrq 0x9E; TimerIrq; KeyIrq 0x1E; KeyIrq 0x30] kbd0 timer0 mach0
      = Some (97, s', irqs', Timer 2 100, m') /\ arrivals s' irqs' = [(O, 98)].
Proof.
  destruct (keyboard_getchar_delivers_in_order [OtherIrq; TimerIrq; KeyIrq 0x9E; TimerIrq; KeyIrq 0x1E; KeyIrq 0x30] kbd0 timer0 mach0
    (proj1 kbd0_inv)) as [(s' & irqs' & m' & H1 & _ & H2 & _) _].
  - repeat constructor; lia.
  - exists s', irqs', m'. split; [exact H1 | exact H2].
Defined.
