(* ===== verification/Process.v ===== *)
(** * Process: control blocks, thread creation and the context switch
    (kernel/proc/process.h, process.c, context_switch.asm)

    A [process_t] is 416 bytes of heap memory; its fields are read and written
    at their offsets.  [context_switch] is modelled instruction by instruction
    on the registers it touches. *)
From stdpp Require Import strings.
From S2P Require Import Prelude Memory Machine Vga Console Heap.

Definition KERNEL_STACK_SIZE := 8192.
Definition MAX_PROCESSES := 64.
Definition MAX_FDS := 32.
Definition PROC_READY := 0.
Definition PROC_RUNNING := 1.
Definition PROC_BLOCKED := 2.
Definition PROC_ZOMBIE := 3.

(** [sizeof(fd_entry_t)] and [sizeof(process_t)]. *)
Definition FD_SIZE := 12.
Definition PROCESS_SIZE := 416.

(** ** Fields of the process at [p] *)

Definition p_pid (p : Z) (r : ram) : Z := ld32 r p.
Definition p_esp (p : Z) (r : ram) : Z := ld32 r (p + 4).
Definition p_kernel_stack_top (p : Z) (r : ram) : Z := ld32 r (p + 8).
Definition p_kernel_stack (p : Z) (r : ram) : Z := ld32 r (p + 12).
Definition p_page_dir (p : Z) (r : ram) : Z := ld32 r (p + 16).
Definition p_state (p : Z) (r : ram) : Z := ld32 r (p + 20).
Definition p_exit_code (p : Z) (r : ram) : Z := ld32 r (p + 24).
Definition p_next (p : Z) (r : ram) : Z := ld32 r (p + 28).

Definition set_pid (p v : Z) (m : mach) : mach := mst32 p v m.
Definition set_esp (p v : Z) (m : mach) : mach := mst32 (p + 4) v m.
Definition set_kernel_stack_top (p v : Z) (m : mach) : mach := mst32 (p + 8) v m.
Definition set_kernel_stack (p v : Z) (m : mach) : mach := mst32 (p + 12) v m.
Definition set_page_dir (p v : Z) (m : mach) : mach := mst32 (p + 16) v m.
Definition set_state (p v : Z) (m : mach) : mach := mst32 (p + 20) v m.
Definition set_exit_code (p v : Z) (m : mach) : mach := mst32 (p + 24) v m.
Definition set_next (p v : Z) (m : mach) : mach := mst32 (p + 28) v m.

(** [p->fd_table[i]]: file index, offset, flag. *)
Definition fd_addr (p i : Z) : Z := p + 32 + FD_SIZE * i.
Definition fd_file_idx (p i : Z) (r : ram) : Z := s32 (ld32 r (fd_addr p i)).
Definition fd_offset (p i : Z) (r : ram) : Z := ld32 r (fd_addr p i + 4).
Definition fd_in_use (p i : Z) (r : ram) : Z := ld8 r (fd_addr p i + 8).
Definition set_fd_file_idx (p i v : Z) (m : mach) : mach := mst32 (fd_addr p i) v m.
Definition set_fd_offset (p i v : Z) (m : mach) : mach := mst32 (fd_addr p i + 4) v m.
Definition set_fd_in_use (p i v : Z) (m : mach) : mach := mst8 (fd_addr p i + 8) v m.

(** ** Operations *)

Definition process_next_pid (next_pid : Z) : Z := next_pid.

Definition process_init (m : mach) : Z * mach :=
  (1, klog (lit "[PROC] Process subsystem initialised" ++ nl) [] m).

(** [*--sp = v]. *)
Definition push (v : Z) (st : Z * mach) : Z * mach :=
  let sp := u32 (fst st - 4) in (sp, mst32 sp v (snd st)).

(** The allocations and field initialisations both constructors start with:
    the new process (0 for NULL), the next free PID, heap and machine.
    [None]: the heap walk ran out of fuel. *)
Definition alloc_process (dir next_pid : Z) (h : heap) (m : mach) : option (Z * Z * heap * mach) :=
  '(p, h, m) ← kzalloc PROCESS_SIZE h m;
  if p =? 0 then Some (0, next_pid, h, m)
  else
    '(ks, h, m) ← kzalloc KERNEL_STACK_SIZE h m;
    let m := set_kernel_stack p ks m in
    if p_kernel_stack p (m_ram m) =? 0 then
      let (h, m) := kfree p h m in Some (0, next_pid, h, m)
    else
      let m := set_pid p next_pid m in
      let m := set_page_dir p dir m in
      let m := set_state p PROC_READY m in
      let m := set_kernel_stack_top p (u32 (p_kernel_stack p (m_ram m) + KERNEL_STACK_SIZE)) m in
      Some (p, u32 (next_pid + 1), h, m).

Section Create.
(** Addresses of the assembly entry points and of the kernel directory. *)
Context (kernel_dir kthread_entry proc_iret_trampoline : Z).

Definition process_create (entry_fn next_pid : Z) (h : heap) (m : mach) : option (Z * Z * heap * mach) :=
  '(p, next_pid, h, m) ← alloc_process kernel_dir next_pid h m;
  if p =? 0 then Some (0, next_pid, h, m)
  else
    let sp := p_kernel_stack_top p (m_ram m) in
    let '(sp, m) := push 0 (push 0 (push 0 (push 0
                      (push kthread_entry (push entry_fn (sp, m)))))) in
    Some (p, next_pid, h, set_esp p sp m).

Definition process_create_user (entry_vaddr user_esp dir next_pid : Z) (h : heap) (m : mach)
  : option (Z * Z * heap * mach) :=
  '(p, next_pid, h, m) ← alloc_process dir next_pid h m;
  if p =? 0 then Some (0, next_pid, h, m)
  else
    let sp := p_kernel_stack_top p (m_ram m) in
    let st := push entry_vaddr (push 0x1B (push 0x202 (push user_esp (push 0x23 (sp, m))))) in
    let '(sp, m) := push 0 (push 0 (push 0 (push 0 (push proc_iret_trampoline st)))) in
    Some (p, next_pid, h, set_esp p sp m).
End Create.

Definition process_destroy (p : Z) (h : heap) (m : mach) : heap * mach :=
  if p =? 0 then (h, m)
  else
    let '(h, m) := if ctrue (p_kernel_stack p (m_ram m)) then kfree (p_kernel_stack p (m_ram m)) h m
                   else (h, m) in
    kfree p h m.

(** ** The context switch *)

Record cpu := Cpu {
  ebx : Z; esi : Z; edi : Z; ebp : Z; esp : Z; eip : Z; cr3 : Z; iflag : bool;
}.

Definition asm_push (v : Z) (st : Z * ram) : Z * ram :=
  (u32 (fst st - 4), st32 (snd st) (u32 (fst st - 4)) v).

(** [context_switch(cur, nxt)], entered by a [call]: the return address and
    the two arguments are on the stack. *)
Definition context_switch (c : cpu) (r : ram) : cpu * ram :=
  let '(sp, r) := asm_push (ebx c) (asm_push (esi c) (asm_push (edi c) (asm_push (ebp c) (esp c, r)))) in
  let cur := ld32 r (u32 (sp + 20)) in
  let r := st32 r (u32 (cur + 4)) sp in
  let nxt := ld32 r (u32 (sp + 24)) in
  let dir := ld32 r (u32 (nxt + 16)) in
  let cr3' := if cr3 c =? dir then cr3 c else dir in
  let nxt := ld32 r (u32 (sp + 24)) in
  let sp := ld32 r (u32 (nxt + 4)) in
  let bx := ld32 r sp in
  let si := ld32 r (u32 (sp + 4)) in
  let di := ld32 r (u32 (sp + 8)) in
  let bp := ld32 r (u32 (sp + 12)) in
  (Cpu bx si di bp (u32 (sp + 20)) (ld32 r (u32 (sp + 16))) cr3' (iflag c), r).

(** [kthread_entry] up to the call; [ret] is the address after the [call]. *)
Definition run_kthread_entry (ret : Z) (c : cpu) (r : ram) : cpu * ram :=
  let fn := ld32 r (esp c) in
  let '(sp, r) := asm_push ret (u32 (esp c + 4), r) in
  (Cpu (ebx c) (esi c) (edi c) (ebp c) sp fn (cr3 c) true, r).

(** [proc_iret_trampoline]: the [iret] of a processor in ring 0 (processor
    semantics).  It pops EIP, CS and EFLAGS, and ESP and SS too when CS selects
    an outer ring; the result is the processor, CS, and SS if it was loaded. *)
Definition run_iret_trampoline (c : cpu) (r : ram) : cpu * Z * option Z :=
  let sp := esp c in
  let ip := ld32 r sp in
  let cs := u16 (ld32 r (u32 (sp + 4))) in
  let fl := ld32 r (u32 (sp + 8)) in
  let to sp' := Cpu (ebx c) (esi c) (edi c) (ebp c) sp' ip (cr3 c) (Z.testbit fl 9) in
  if cs mod 4 =? 0 then (to (u32 (sp + 12)), cs, None)
  else (to (ld32 r (u32 (sp + 12))), cs, Some (u16 (ld32 r (u32 (sp + 16))))).

(** ** Creation *)

(** [p] and [ks] are new live blocks of a heap that still has all of [bs]. *)
Definition new_blocks (h : heap) (r r' : ram) (bs bs' : list ablk) (p ks : Z) : Prop :=
  exists s1 s2,
    In (p, s1, true) (payloads (heap_start_addr h) bs') /\ PROCESS_SIZE <= s1 /\
    In (ks, s2, true) (payloads (heap_start_addr h) bs') /\ KERNEL_STACK_SIZE <= s2 /\
    (p + s1 <= ks - 16 \/ ks + s2 <= p - 16) /\
    heap_start_addr h + 16 <= p /\ p + s1 <= heap_end_addr h /\
    heap_start_addr h + 16 <= ks /\ ks + s2 <= heap_end_addr h /\ ks mod 4 = 0 /\
    (forall q s, In (q, s, true) (payloads (heap_start_addr h) bs) ->
       In (q, s, true) (payloads (heap_start_addr h) bs') /\
       (q + s <= p - 16 \/ p + s1 <= q - 16) /\ (q + s <= ks - 16 \/ ks + s2 <= q - 16) /\
       same_on (q - 16) (q + s) r r') /\
    forall x, x < heap_start_addr h \/ heap_end_addr h <= x -> ld8 r x = ld8 r' x.

Lemma kfree_keeps h m bs p sz :
  heap_inv h (m_ram m) bs -> In (p, sz, true) (payloads (heap_start_addr h) bs) ->
  exists h' m' bs', kfree p h m = (h', m') /\ heap_inv h' (m_ram m') bs' /\
    heap_start_addr h' = heap_start_addr h /\ heap_used h' = heap_used h - sz /\
    (forall q s, In (q, s, true) (payloads (heap_start_addr h) bs) -> q <> p ->
       In (q, s, true) (payloads (heap_start_addr h) bs')) /\
    (forall x, x < p - 16 \/ p <= x -> ld8 (m_ram m') x = ld8 (m_ram m) x).
Proof.
  intros Hinv Hin. destruct (kfree_spec h m bs p sz Hinv Hin)
    as (h' & m' & bs' & Hk & _ & Hinv' & Hu & Hst & Hram & Hkeep).
  exists h', m', bs'. split_and!; try done. intros x Hx. rewrite Hram. apply free_ram_frame. lia.
Qed.

(** RAM after the field initialisations of [alloc_process]. *)
Definition init_fields (p ks dir next_pid : Z) (r : ram) : ram :=
  st32 (st32 (st32 (st32 (st32 r (p + 12) ks) p next_pid) (p + 16) dir) (p + 20) PROC_READY)
       (p + 8) (u32 (ks + KERNEL_STACK_SIZE)).

Lemma alloc_process_cases dir next_pid h m bs :
  heap_inv h (m_ram m) bs ->
  exists p np h' m' bs', alloc_process dir next_pid h m = Some (p, np, h', m') /\
    heap_inv h' (m_ram m') bs' /\ heap_start_addr h' = heap_start_addr h /\
    ((p = 0 /\ np = next_pid /\ heap_used h' = heap_used h /\
      forall q s, In (q, s, true) (payloads (heap_start_addr h) bs) ->
        In (q, s, true) (payloads (heap_start_addr h) bs') /\ same_on (q - 16) (q + s) (m_ram m) (m_ram m')) \/
     (exists ks r0, p <> 0 /\ ks <> 0 /\ np = u32 (next_pid + 1) /\
        new_blocks h (m_ram m) (m_ram m') bs bs' p ks /\ m_ram m' = init_fields p ks dir next_pid r0)).
Proof.
  intros Hinv. unfold alloc_process.
  destruct (kzalloc_cases h m bs PROCESS_SIZE Hinv) as (p & h1 & m1 & bs1 & -> & Hinv1 & Hst1 & Hen1 & Hc1); [done | done |].
  cbn [mbind option_bind]. destruct Hc1 as [(-> & -> & Hr1 & ->)|(Hp & (s1 & Hin1 & Hs1 & Ha1 & Hlo1 & Hhi1 & Hu1 & Hq1 & Hfr1) & _)].
  { do 5 eexists. split; [reflexivity |]. split; [exact Hinv1 |]. split; [done |]. left. split_and!; try done.
    intros q s Hqs. split; [done |]. by rewrite Hr1. }
  replace (p =? 0) with false by lia. unfold PROCESS_SIZE in Hs1.
  pose proof Hinv as (_ & _ & H16 & He & _ & Hch & _). apply chain_nonneg in Hch.
  destruct (kzalloc_cases h1 m1 bs1 KERNEL_STACK_SIZE Hinv1) as (ks & h2 & m2 & bs2 & -> & Hinv2 & Hst2 & Hen2 & Hc2); [done | done |].
  cbn [mbind option_bind]. unfold set_kernel_stack, p_kernel_stack. rewrite m_ram_mst32, ld32_st32_eq.
  destruct Hc2 as [(-> & -> & Hr2 & ->)|(Hk & (s2 & Hin2 & Hs2 & Ha2 & Hlo2 & Hhi2 & Hu2 & Hq2 & Hfr2) & _)].
  - rewrite u32_small by lia. cbn [Z.eqb].
    destruct (kfree_keeps h1 (mst32 (p + 12) 0 m2) bs1 p s1) as (h3 & m3 & bs3 & -> & Hinv3 & Hst3 & Hu3 & Hk3 & Hf3).
    { eapply heap_inv_payload; [rewrite <- Hr2 in Hinv1; exact Hinv1 | rewrite Hst1; exact Hin1 |].
      intros x Hx. rewrite m_ram_mst32, ld8_st32_ne by lia. done. }
    { by rewrite Hst1. }
    do 5 eexists. split; [reflexivity |]. split; [exact Hinv3 |]. split; [congruence |]. left.
    split_and!; try done; [lia |]. intros q s Hqs. destruct (Hq1 q s Hqs) as (Hi & Hd & Hs).
    pose proof (payloads_low _ _ _ _ _ Hch Hqs). assert (Hqp : q <> p) by lia. split; [rewrite Hst1 in Hk3; by apply Hk3 |].
    etransitivity; [exact Hs |]. rewrite <- Hr2. intros x Hx.
    rewrite Hf3 by lia. rewrite m_ram_mst32, ld8_st32_ne by lia. done.
  - unfold KERNEL_STACK_SIZE in Hs2. rewrite Hst1, Hen1 in *. rewrite (u32_small ks) by lia.
    replace (ks =? 0) with false by lia.
    destruct (Hq2 p s1 Hin1) as (Hin1' & Hd12 & _).
    do 5 eexists. split; [reflexivity |].
    unfold set_pid, set_page_dir, set_state, set_kernel_stack_top, p_kernel_stack. rewrite !m_ram_mst32.
    rewrite !(ld32_st32_ne _ _ (p + 12)) by lia. rewrite ld32_st32_eq, (u32_small ks) by lia.
    assert (Hout : forall x, x < p \/ p + s1 <= x ->
       ld8 (m_ram m2) x = ld8 (init_fields p ks dir next_pid (m_ram m2)) x).
    { intros x Hx. unfold init_fields. by rewrite !ld8_st32_ne by lia. }
    split; [| split; [congruence |]].
    { eapply heap_inv_payload; [exact Hinv2 | rewrite Hst2; exact Hin1' | exact Hout]. }
    right. exists ks, (m_ram m2). split; [done |]. split; [done |]. split; [done |]. split; [| done].
    exists s1, s2. split_and!; try done; try (unfold PROCESS_SIZE, KERNEL_STACK_SIZE; lia).
    + intros q s Hqs. destruct (Hq1 q s Hqs) as (Hi & Hd & Hs). destruct (Hq2 q s Hi) as (Hi' & Hd' & Hs').
      pose proof (payloads_low _ _ _ _ _ Hch Hqs). split_and!; try done. etransitivity; [exact Hs |]. etransitivity; [exact Hs' |].
      intros x Hx. apply Hout. lia.
    + intros x Hx. rewrite Hfr1, Hfr2 by lia. apply Hout. lia.
Qed.

(** Writing inside the two new blocks. *)
Lemma new_blocks_write h h' r r' r'' bs bs' p ks :
  heap_inv h r bs -> heap_inv h' r' bs' -> heap_start_addr h' = heap_start_addr h -> new_blocks h r r' bs bs' p ks ->
  (forall x, x < p \/ p + PROCESS_SIZE <= x -> x < ks \/ ks + KERNEL_STACK_SIZE <= x -> ld8 r' x = ld8 r'' x) ->
  heap_inv h' r'' bs' /\ new_blocks h r r'' bs bs' p ks.
Proof.
  intros Hinv0 Hinv Hst (s1 & s2 & H1 & H2 & H3 & H4 & H5 & H6 & H7 & H8 & H9 & H10 & Hq & Hfr) Hw.
  destruct Hinv0 as (_ & _ & _ & _ & _ & Hch & _). apply chain_nonneg in Hch.
  unfold PROCESS_SIZE, KERNEL_STACK_SIZE in *. split.
  - eapply (heap_inv_payload2 h' r' r'' bs' p s1 true ks s2 true); rewrite ?Hst; try done.
    intros x Hx1 Hx2. apply Hw; lia.
  - exists s1, s2. split_and!; try done.
    + intros q s Hqs. destruct (Hq q s Hqs) as (Hi & Hd1 & Hd2 & Hs). split_and!; try done.
      pose proof (payloads_low _ _ _ _ _ Hch Hqs).
      etransitivity; [exact Hs |]. intros x Hx. apply Hw; lia.
    + intros x Hx. rewrite Hfr by lia. apply Hw; lia.
Qed.

(** The new stack lies in the address space. *)
Lemma new_blocks_stack h r0 r r' bs bs' p ks :
  heap_inv h r0 bs -> new_blocks h r r' bs bs' p ks -> 0 <= ks /\ ks + KERNEL_STACK_SIZE < W32.
Proof.
  intros (_ & _ & H16 & He & _) (s1 & s2 & _ & _ & _ & Hs2 & _ & _ & _ & Hlo & Hhi & _).
  unfold KERNEL_STACK_SIZE in *. lia.
Qed.

(** A control block and stack from which [context_switch] starts [entry]. *)
Definition thread_ready (r : ram) (p dir kthread_entry entry top : Z) : Prop :=
  p_state p r = PROC_READY /\ p_page_dir p r = dir /\ p_kernel_stack_top p r = top /\ p_esp p r = top - 24 /\
  ld32 r (top - 24) = 0 /\ ld32 r (top - 20) = 0 /\ ld32 r (top - 16) = 0 /\ ld32 r (top - 12) = 0 /\
  ld32 r (top - 8) = kthread_entry /\ ld32 r (top - 4) = entry.

(** A control block whose stack, from [top] down, holds the words [ws]. *)
Definition process_ready (r : ram) (p dir top : Z) (ws : list Z) : Prop :=
  p_state p r = PROC_READY /\ p_page_dir p r = dir /\ p_kernel_stack_top p r = top /\
  p_esp p r = top - 4 * alen ws /\
  forall i w, ws !! i = Some w -> ld32 r (top - 4 - 4 * Z.of_nat i) = u32 w.

(** The stores [*--sp = w], in order. *)
Definition push_all (ws : list Z) (st : Z * mach) : Z * mach := foldl (fun st w => push w st) st ws.

(** What both constructors do, by the words they push. *)
Definition create_with (ws : list Z) (dir next_pid : Z) (h : heap) (m : mach) : option (Z * Z * heap * mach) :=
  '(p, next_pid, h, m) ← alloc_process dir next_pid h m;
  if p =? 0 then Some (0, next_pid, h, m)
  else
    let '(sp, m) := push_all ws (p_kernel_stack_top p (m_ram m), m) in
    Some (p, next_pid, h, set_esp p sp m).

Lemma push_eq v sp m : 4 <= sp < W32 -> push v (sp, m) = (sp - 4, mst32 (sp - 4) v m).
Proof. intros H. unfold push. cbn [fst snd]. by rewrite u32_small by lia. Qed.

Lemma push_all_spec ws sp m : 4 * alen ws <= sp < W32 ->
  exists m', push_all ws (sp, m) = (sp - 4 * alen ws, m') /\
    (forall x, x < sp - 4 * alen ws \/ sp <= x -> ld8 (m_ram m') x = ld8 (m_ram m) x) /\
    forall i w, ws !! i = Some w -> ld32 (m_ram m') (sp - 4 - 4 * Z.of_nat i) = u32 w.
Proof.
  revert sp m. induction ws as [|v ws IH]; intros sp m Hsp.
  { exists m. unfold alen in *. cbn [length push_all foldl]. rewrite Z.sub_0_r. done. }
  unfold alen in *. cbn [length] in *. unfold push_all. cbn [foldl]. rewrite push_eq by lia.
  destruct (IH (sp - 4) (mst32 (sp - 4) v m)) as (m' & Heq & Hfr & Hw); [lia |].
  exists m'. split; [| split].
  - etransitivity; [exact Heq |]. f_equal. lia.
  - intros x Hx. rewrite Hfr by lia. rewrite m_ram_mst32. apply ld8_st32_ne. lia.
  - intros [|i] w Hi.
    + injection Hi as <-. replace (sp - 4 - 4 * Z.of_nat 0) with (sp - 4) by lia.
      rewrite <- (ld32_st32_eq (m_ram m) (sp - 4) v), <- m_ram_mst32.
      symmetry. apply (ld32_same_on (sp - 4) (sp - 4 + 4)); [| lia | lia]. intros x Hx. symmetry. apply Hfr. lia.
    + rewrite <- (Hw i w Hi). f_equal. lia.
Qed.

(** Creation by the words pushed: NULL with nothing leaked, or a control block
    and a stack with those words in new blocks. *)
Lemma create_with_cases ws dir next_pid h m bs :
  heap_inv h (m_ram m) bs -> is_u32 dir -> is_u32 next_pid -> 4 * alen ws <= KERNEL_STACK_SIZE ->
  exists p np h' m' bs', create_with ws dir next_pid h m = Some (p, np, h', m') /\
    heap_inv h' (m_ram m') bs' /\ heap_start_addr h' = heap_start_addr h /\
    ((p = 0 /\ np = next_pid /\ heap_used h' = heap_used h /\
      forall q s, In (q, s, true) (payloads (heap_start_addr h) bs) ->
        In (q, s, true) (payloads (heap_start_addr h) bs') /\ same_on (q - 16) (q + s) (m_ram m) (m_ram m')) \/
     (exists ks, p <> 0 /\ np = u32 (next_pid + 1) /\ new_blocks h (m_ram m) (m_ram m') bs bs' p ks /\
        p_pid p (m_ram m') = next_pid /\ p_kernel_stack p (m_ram m') = ks /\
        process_ready (m_ram m') p dir (ks + KERNEL_STACK_SIZE) ws)).
Proof.
  intros Hinv Hd Hnp Hws. unfold create_with, is_u32 in *.
  destruct (alloc_process_cases dir next_pid h m bs Hinv) as (p & np & h' & m' & bs' & -> & Hinv' & Hst & Hcase).
  cbn [mbind option_bind]. destruct Hcase as [(-> & -> & Hu & Hk)|(ks & r0 & Hp & Hks & -> & Hnew & Hr)].
  { do 5 eexists. split; [reflexivity |]. split; [exact Hinv' |]. split; [done |]. left. done. }
  replace (p =? 0) with false by lia.
  pose proof Hinv as (_ & _ & H16 & He & _ & _ & _).
  pose proof Hnew as (s1 & s2 & _ & Hs1 & _ & Hs2 & Hdis & Hlo & Hhi & Hlo' & Hhi' & _ & _ & _).
  unfold PROCESS_SIZE, KERNEL_STACK_SIZE in *.
  assert (Htop : p_kernel_stack_top p (m_ram m') = ks + 8192).
  { unfold p_kernel_stack_top. rewrite Hr. unfold init_fields, KERNEL_STACK_SIZE. rewrite ld32_st32_eq, u32_idem.
    apply u32_small. lia. }
  rewrite Htop. set (top := ks + 8192) in *.
  destruct (push_all_spec ws top m') as (m2 & -> & Hfr & Hw); [lia |]. set (n := alen ws) in *.
  do 5 eexists. split; [reflexivity |]. unfold set_esp. rewrite !m_ram_mst32.
  set (r' := st32 (m_ram m2) (p + 4) (top - 4 * n)).
  assert (0 <= n) by (unfold n, alen; lia).
  assert (Hout : forall x, x < p \/ p + 416 <= x -> x < ks \/ ks + 8192 <= x -> ld8 (m_ram m') x = ld8 r' x).
  { intros x Hx1 Hx2. unfold r'. rewrite ld8_st32_ne, Hfr by lia. done. }
  destruct (new_blocks_write h h' (m_ram m) (m_ram m') r' bs bs' p ks Hinv Hinv' Hst Hnew Hout) as [Hinv'' Hnew'].
  split; [exact Hinv'' |]. split; [done |]. right. exists ks. split; [done |]. split; [done |]. split; [exact Hnew' |].
  assert (Hpcb : forall o, o = 0 \/ 8 <= o <= 412 -> ld32 r' (p + o) = ld32 (m_ram m') (p + o)).
  { intros o Ho. unfold r'. rewrite ld32_st32_ne by lia.
    apply (ld32_same_on (p + o) (p + o + 4)); [| lia | lia]. intros x Hx. apply Hfr. lia. }
  assert (Hsp : p_esp p r' = top - 4 * n) by (unfold p_esp, r'; rewrite ld32_st32_eq; apply u32_small; lia).
  unfold process_ready, p_pid, p_state, p_page_dir, p_kernel_stack_top, p_kernel_stack in *.
  rewrite (Hpcb 8), (Hpcb 12), (Hpcb 16), (Hpcb 20) by lia.
  rewrite <- (Z.add_0_r p) at 1. rewrite (Hpcb 0), Z.add_0_r by lia.
  rewrite Htop, Hr. unfold init_fields, KERNEL_STACK_SIZE. autorewrite with os.
  rewrite (u32_small dir) by lia.
  split_and!; try done. intros i w Hi. rewrite <- (Hw i w Hi). unfold r'. apply ld32_st32_ne.
  apply lookup_lt_Some in Hi. unfold n, alen in *. lia.
Qed.

Lemma process_create_cases kdir kentry entry next_pid h m bs :
  heap_inv h (m_ram m) bs -> is_u32 kdir -> is_u32 kentry -> is_u32 entry -> is_u32 next_pid ->
  exists p np h' m' bs', process_create kdir kentry entry next_pid h m = Some (p, np, h', m') /\
    heap_inv h' (m_ram m') bs' /\ heap_start_addr h' = heap_start_addr h /\
    ((p = 0 /\ np = next_pid /\ heap_used h' = heap_used h /\
      forall q s, In (q, s, true) (payloads (heap_start_addr h) bs) ->
        In (q, s, true) (payloads (heap_start_addr h) bs') /\ same_on (q - 16) (q + s) (m_ram m) (m_ram m')) \/
     (exists ks, p <> 0 /\ np = u32 (next_pid + 1) /\ new_blocks h (m_ram m) (m_ram m') bs bs' p ks /\
        p_pid p (m_ram m') = next_pid /\ p_kernel_stack p (m_ram m') = ks /\
        thread_ready (m_ram m') p kdir kentry entry (ks + KERNEL_STACK_SIZE))).
Proof.
  intros Hinv Hd Hke Hen Hnp.
  destruct (create_with_cases [entry; kentry; 0; 0; 0; 0] kdir next_pid h m bs Hinv Hd Hnp)
    as (p & np & h' & m' & bs' & Heq & Hinv' & Hst & Hcase); [done |].
  exists p, np, h', m', bs'. split; [exact Heq |]. split; [exact Hinv' |]. split; [exact Hst |].
  destruct Hcase as [Hl|(ks & Hp & Hn & Hnew & Hpid & Hks & R1 & R2 & R3 & R4 & Hw)]; [by left | right].
  exists ks. do 5 (split; [done |]). unfold thread_ready, alen in *. cbn [length] in R4.
  set (top := ks + KERNEL_STACK_SIZE) in *. do 3 (split; [done |]). split; [rewrite R4; lia |].
  rewrite <- (u32_small kentry Hke), <- (u32_small entry Hen).
  pose proof (Hw 0%nat _ eq_refl) as W0. pose proof (Hw 1%nat _ eq_refl) as W1. pose proof (Hw 2%nat _ eq_refl) as W2.
  pose proof (Hw 3%nat _ eq_refl) as W3. pose proof (Hw 4%nat _ eq_refl) as W4. pose proof (Hw 5%nat _ eq_refl) as W5.
  rewrite <- !Z.sub_add_distr in W0, W1, W2, W3, W4, W5. by split_and!.
Qed.

(** The two blocks first fit finds for a thread: control block and stack. *)
Definition thread_fit (start : Z) (bs : list ablk) : option (Z * Z * list ablk) :=
  '(p, bs1) ← amalloc PROCESS_SIZE start bs;
  '(ks, bs2) ← amalloc KERNEL_STACK_SIZE start bs1;
  Some (p, ks, bs2).

(** [process_create] succeeds exactly when both blocks fit. *)
Lemma process_create_fit kdir kentry entry next_pid h m bs p np h' m' bs' :
  heap_inv h (m_ram m) bs -> process_create kdir kentry entry next_pid h m = Some (p, np, h', m') ->
  heap_inv h' (m_ram m') bs' -> 
  thread_fit (heap_start_addr h) bs = if p =? 0 then None else Some (p, p_kernel_stack p (m_ram m'), bs').
Proof.
  intros Hinv Hpc Hinv'. unfold thread_fit, process_create, alloc_process in *.
  destruct (kzalloc_cases h m bs PROCESS_SIZE Hinv) as (p1 & h1 & m1 & bs1 & Hz1 & Hinv1 & Hst1 & Hen1 & Hc1); [done | done |].
  pose proof (kzalloc_amalloc h m bs PROCESS_SIZE _ _ _ _ Hinv eq_refl eq_refl Hz1 Hinv1) as Ha1.
  change (ALIGN4 PROCESS_SIZE) with PROCESS_SIZE in Ha1. rewrite Ha1. rewrite Hz1 in Hpc. cbn [mbind option_bind] in Hpc |- *.
  destruct (Z.eqb_spec p1 0) as [->|Hp1].
  { injection Hpc as <- _ _ _. done. }
  destruct Hc1 as [(? & _)|(_ & (s1 & Hin1 & Hs1 & _ & Hlo1 & Hhi1 & _) & _)]; [done |].
  destruct (kzalloc_cases h1 m1 bs1 KERNEL_STACK_SIZE Hinv1) as (ks & h2 & m2 & bs2 & Hz2 & Hinv2 & Hst2 & Hen2 & Hc2); [done | done |].
  pose proof (kzalloc_amalloc h1 m1 bs1 KERNEL_STACK_SIZE _ _ _ _ Hinv1 eq_refl eq_refl Hz2 Hinv2) as Ha2.
  change (ALIGN4 KERNEL_STACK_SIZE) with KERNEL_STACK_SIZE in Ha2. rewrite Hst1 in Ha2.
  cbn [mbind option_bind]. rewrite Ha2. rewrite Hz2 in Hpc. cbn [mbind option_bind] in Hpc |- *.
  pose proof Hinv as (_ & _ & H16 & He & _). unfold PROCESS_SIZE, KERNEL_STACK_SIZE in *.
  unfold set_kernel_stack, p_kernel_stack in Hpc. rewrite m_ram_mst32, ld32_st32_eq in Hpc.
  destruct Hc2 as [(-> & _)|(Hks & (s2 & Hin2 & Hs2 & _ & Hlo2 & Hhi2 & _ & Hq2 & _) & _)].
  { rewrite u32_small in Hpc by lia. cbn [Z.eqb] in Hpc. destruct (kfree p1 h2 _) in Hpc. by injection Hpc as <- _ _ _. }
  rewrite Hst1, Hen1 in *. rewrite (u32_small ks) in Hpc by lia. replace (ks =? 0) with false in * by lia.
  destruct (Hq2 p1 s1 Hin1) as (Hin1' & Hdis & _). cbn [mbind option_bind] in Hpc.
  replace (p1 =? 0) with false in Hpc by lia. unfold set_pid, set_page_dir, set_state, set_kernel_stack_top, p_kernel_stack, p_kernel_stack_top in Hpc.
  rewrite !m_ram_mst32 in Hpc. rewrite !ld32_st32_eq in Hpc.
  rewrite !(ld32_st32_ne _ _ (p1 + 12)), ld32_st32_eq, (u32_small ks), u32_idem, (u32_small (ks + 8192)), !push_eq in Hpc by lia.
  injection Hpc as <- _ <- <-. replace (p1 =? 0) with false by lia. cbn [mbind option_bind].
  unfold set_esp, p_kernel_stack. rewrite !m_ram_mst32. rewrite !(ld32_st32_ne _ _ (p1 + 12)), ld32_st32_eq, u32_small by lia. do 2 f_equal.
  eapply heap_inv_inj; [| exact Hinv']. unfold set_esp. rewrite !m_ram_mst32.
  eapply (heap_inv_payload2 h2 (m_ram m2) _ bs2 p1 s1 true ks s2 true); rewrite ?Hst2; try done.
  intros x Hx1 Hx2. by rewrite !ld8_st32_ne by lia.
Qed.

Lemma push_all_screen ws st : vga_wf (snd st) -> vga_wf (snd (push_all ws st)).
Proof. revert st. induction ws as [|w ws IH]; intros st H; [done |]. cbn [push_all foldl]. apply IH. done. Qed.

Lemma alloc_process_kept dir next_pid h m p np h' m' :
  alloc_process dir next_pid h m = Some (p, np, h', m') -> heap_kept h h' m m'.
Proof.
  unfold alloc_process. destruct (kzalloc PROCESS_SIZE h m) as [[[p1 h1] m1]|] eqn:E1; [| done].
  apply kzalloc_kept in E1. cbn [mbind option_bind]. destruct (p1 =? 0); [by intros [= <- <- <- <-] |].
  destruct (kzalloc KERNEL_STACK_SIZE h1 m1) as [[[ks h2] m2]|] eqn:E2; [| done]. apply kzalloc_kept in E2.
  cbn [mbind option_bind]. pose proof (heap_kept_trans _ _ _ _ _ _ E1 E2) as E. destruct (_ =? 0).
  - destruct (kfree p1 h2 _) as [h3 m3] eqn:E3. apply kfree_kept in E3. intros [= <- <- <- <-].
    exact (heap_kept_trans _ _ _ _ _ _ E E3).
  - intros [= <- <- <- <-]. exact E.
Qed.

Lemma create_with_kept ws dir next_pid h m p np h' m' :
  create_with ws dir next_pid h m = Some (p, np, h', m') -> heap_kept h h' m m'.
Proof.
  unfold create_with. destruct (alloc_process dir next_pid h m) as [[[[p1 np1] h1] m1]|] eqn:E; [| done].
  apply alloc_process_kept in E. cbn [mbind option_bind]. destruct (p1 =? 0); [by intros [= <- <- <- <-] |].
  pose proof (push_all_screen ws (p_kernel_stack_top p1 (m_ram m1), m1)) as Hs.
  destruct (push_all ws _) as [sp m2]. intros [= <- <- <- <-]. destruct E as (E1 & E2 & E3).
  split; [done |]. split; [done |]. intros Hv. exact (Hs (E3 Hv)).
Qed.

Lemma process_create_kept kdir kentry entry next_pid h m p np h' m' :
  process_create kdir kentry entry next_pid h m = Some (p, np, h', m') -> heap_kept h h' m m'.
Proof. apply (create_with_kept [entry; kentry; 0; 0; 0; 0]). Qed.

(** ** The context switch *)

Definition cpu_wf (c : cpu) : Prop :=
  is_u32 (ebx c) /\ is_u32 (esi c) /\ is_u32 (edi c) /\ is_u32 (ebp c).

(** The stack of a processor about to run [context_switch(a, b)]: the control
    blocks are in the address space, and the running stack is not inside [a]. *)
Definition call_frame (c : cpu) (r : ram) (a b : Z) : Prop :=
  cpu_wf c /\ 16 <= esp c /\ esp c + 12 <= W32 /\ ld32 r (esp c + 4) = a /\ ld32 r (esp c + 8) = b /\
  0 <= a /\ a + PROCESS_SIZE <= W32 /\ 0 <= b /\ b + PROCESS_SIZE <= W32 /\
  (a + PROCESS_SIZE <= esp c - 16 \/ esp c + 12 <= a).

(** RAM after the save half of the switch. *)
Definition save_ram (c : cpu) (a : Z) (r : ram) : ram :=
  st32 (st32 (st32 (st32 (st32 r (esp c - 4) (ebp c)) (esp c - 8) (edi c)) (esp c - 12) (esi c))
             (esp c - 16) (ebx c)) (a + 4) (esp c - 16).

Lemma save_ram_frame c a r x :
  x < esp c - 16 \/ esp c <= x -> x < a + 4 \/ a + 8 <= x -> ld8 (save_ram c a r) x = ld8 r x.
Proof. intros H1 H2. unfold save_ram. by rewrite !ld8_st32_ne by lia. Qed.

Lemma save_ram_frame32 c a r x :
  x + 4 <= esp c - 16 \/ esp c <= x -> x + 4 <= a + 4 \/ a + 8 <= x -> ld32 (save_ram c a r) x = ld32 r x.
Proof. intros H1 H2. unfold save_ram. by rewrite !ld32_st32_ne by lia. Qed.

Lemma save_ram_saved c r a b : call_frame c r a b ->
  let r1 := save_ram c a r in
  p_esp a r1 = esp c - 16 /\ ld32 r1 (esp c - 16) = ebx c /\ ld32 r1 (esp c - 12) = esi c /\
  ld32 r1 (esp c - 8) = edi c /\ ld32 r1 (esp c - 4) = ebp c /\ ld32 r1 (esp c) = ld32 r (esp c).
Proof.
  intros ((H1 & H2 & H3 & H4) & Hlo & Hhi & _ & _ & Ha & Ha' & _ & _ & Hd) r1. unfold is_u32, PROCESS_SIZE in *.
  unfold r1, save_ram, p_esp. autorewrite with os.
  rewrite ?(u32_small (ebx c)), ?(u32_small (esi c)), ?(u32_small (edi c)), ?(u32_small (ebp c)) by lia.
  by split_and!.
Qed.

(** Where [context_switch(a, b)] goes: the registers saved on [b]'s stack. *)
Lemma context_switch_eq c r a b : call_frame c r a b ->
  let r1 := save_ram c a r in
  let sp := p_esp b r1 in
  sp + 20 <= W32 ->
  context_switch c r =
    (Cpu (ld32 r1 sp) (ld32 r1 (sp + 4)) (ld32 r1 (sp + 8)) (ld32 r1 (sp + 12)) (u32 (sp + 20))
         (ld32 r1 (sp + 16)) (p_page_dir b r1) (iflag c), r1).
Proof.
  intros (_ & Hlo & Hhi & Hla & Hlb & Ha & Ha' & Hb & Hb' & Hd) r1 sp Hsp. unfold PROCESS_SIZE in *.
  unfold context_switch, asm_push. cbn [fst snd]. rewrite (u32_small (esp c - 4)) by lia.
  replace (esp c - 4 - 4) with (esp c - 8) by lia. rewrite (u32_small (esp c - 8)) by lia.
  replace (esp c - 8 - 4) with (esp c - 12) by lia. rewrite (u32_small (esp c - 12)) by lia.
  replace (esp c - 12 - 4) with (esp c - 16) by lia. rewrite (u32_small (esp c - 16)) by lia.
  replace (esp c - 16 + 20) with (esp c + 4) by lia. replace (esp c - 16 + 24) with (esp c + 8) by lia.
  rewrite (u32_small (esp c + 4)), (u32_small (esp c + 8)) by lia.
  rewrite !(ld32_st32_ne _ _ (esp c + 4)), Hla by lia. rewrite (u32_small (a + 4)) by lia.
  change (st32 _ (a + 4) (esp c - 16)) with r1.
  assert (Hb1 : ld32 r1 (esp c + 8) = b) by (unfold r1; rewrite save_ram_frame32 by lia; done).
  rewrite Hb1, (u32_small (b + 4)), (u32_small (b + 16)) by lia.
  change (ld32 r1 (b + 4)) with sp. change (ld32 r1 (b + 16)) with (p_page_dir b r1).
  pose proof (ld32_range r1 (b + 4)) as Hr. change (ld32 r1 (b + 4)) with sp in Hr.
  rewrite (u32_small (sp + 4)), (u32_small (sp + 8)), (u32_small (sp + 12)), (u32_small (sp + 16)) by lia.
  f_equal. f_equal. by destruct (Z.eqb_spec (cr3 c) (p_page_dir b r1)).
Qed.

(** C6. A context switch away from a thread and back is invisible to it: if
    thread [a] switches to [b], its saved stack words and saved stack pointer
    are not overwritten meanwhile, and any thread [x] later switches back to
    [a], then the call returns to its caller with the callee-saved registers
    and the stack pointer it had. *)
Theorem context_switch_roundtrip (c0 c2 : cpu) (r0 r2 : ram) (a b x : Z) :
  call_frame c0 r0 a b -> p_esp b (save_ram c0 a r0) + 20 <= W32 ->
  let r1 := snd (context_switch c0 r0) in
  call_frame c2 r2 x a -> p_esp a r2 = p_esp a r1 -> same_on (esp c0 - 16) (esp c0 + 4) r1 r2 ->
  (x + PROCESS_SIZE <= a \/ a + PROCESS_SIZE <= x) ->
  (x + PROCESS_SIZE <= esp c0 - 16 \/ esp c0 + 4 <= x) ->
  (esp c2 <= esp c0 - 16 \/ esp c0 + 4 <= esp c2 - 16) ->
  (esp c2 <= a \/ a + PROCESS_SIZE <= esp c2 - 16) ->
  let c3 := fst (context_switch c2 r2) in
  ebx c3 = ebx c0 /\ esi c3 = esi c0 /\ edi c3 = edi c0 /\ ebp c3 = ebp c0 /\
  esp c3 = esp c0 + 4 /\ eip c3 = ld32 r0 (esp c0).
Proof.
  intros H0 Hb r1 H2 Hesp Hst Hxa Hxs Hcs Hca. unfold r1 in *. rewrite (context_switch_eq _ _ _ _ H0 Hb) in *.
  cbn [fst snd] in *. set (r1' := save_ram c0 a r0) in *.
  destruct (save_ram_saved _ _ _ _ H0) as (S1 & S2 & S3 & S4 & S5 & S6). fold r1' in S1, S2, S3, S4, S5, S6.
  pose proof H0 as (_ & Hlo & Hhi & _ & _ & Ha0 & Ha & _ & _ & _).
  pose proof H2 as (_ & Hlo2 & Hhi2 & _ & _ & Hx0 & Hx & _ & _ & Hxe). unfold PROCESS_SIZE in *.
  assert (Hsp : p_esp a (save_ram c2 x r2) = esp c0 - 16).
  { unfold p_esp. rewrite save_ram_frame32 by lia. change (p_esp a r2 = esp c0 - 16). congruence. }
  assert (Hw : forall o, 0 <= o <= 16 -> ld32 (save_ram c2 x r2) (esp c0 - 16 + o) = ld32 r1' (esp c0 - 16 + o)).
  { intros o Ho. rewrite save_ram_frame32 by lia. symmetry. eapply ld32_same_on; [exact Hst | lia | lia]. }
  rewrite (context_switch_eq _ _ _ _ H2) by lia. cbn [fst ebx esi edi ebp esp eip]. rewrite Hsp.
  rewrite <- (Z.add_0_r (esp c0 - 16)) at 1. rewrite !Hw, Z.add_0_r by lia.
  replace (esp c0 - 16 + 4) with (esp c0 - 12) by lia. replace (esp c0 - 16 + 8) with (esp c0 - 8) by lia.
  replace (esp c0 - 16 + 12) with (esp c0 - 4) by lia. replace (esp c0 - 16 + 16) with (esp c0) by lia.
  split_and!; try done. rewrite u32_small; lia.
Qed.

(** [p]'s control block and the stack at [ks] are apart from what a switch away
    from [a] on processor [c] saves. *)
Definition switch_apart (c : cpu) (a p ks : Z) : Prop :=
  (a + PROCESS_SIZE <= p \/ p + PROCESS_SIZE <= a) /\
  (a + PROCESS_SIZE <= ks \/ ks + KERNEL_STACK_SIZE <= a) /\
  (esp c <= p \/ p + PROCESS_SIZE <= esp c - 16) /\ (esp c <= ks \/ ks + KERNEL_STACK_SIZE <= esp c - 16).

(** The first switch to a new process: it lands at the return address its
    constructor pushed, above which the rest of the frame is intact. *)
Lemma switch_to_ready c r a p ks dir pre ret :
  call_frame c r a p -> switch_apart c a p ks -> is_u32 ret -> 0 <= ks -> ks + KERNEL_STACK_SIZE < W32 ->
  4 * alen pre + 20 <= KERNEL_STACK_SIZE ->
  process_ready r p dir (ks + KERNEL_STACK_SIZE) (pre ++ [ret; 0; 0; 0; 0]) ->
  context_switch c r =
    (Cpu 0 0 0 0 (ks + KERNEL_STACK_SIZE - 4 * alen pre) ret dir (iflag c), save_ram c a r) /\
  forall i w, pre !! i = Some w ->
    ld32 (save_ram c a r) (ks + KERNEL_STACK_SIZE - 4 - 4 * Z.of_nat i) = u32 w.
Proof.
  intros Hcf (D1 & D2 & D3 & D4) Hret Hks Htop Hlen (_ & R2 & _ & R4 & Hw).
  pose proof Hcf as (_ & Hc1 & Hc2 & _ & _ & Ha0 & Ha & Hp0 & Hp1 & _). unfold PROCESS_SIZE, KERNEL_STACK_SIZE in *.
  unfold alen in *. rewrite length_app in R4. cbn [length] in R4.
  set (top := ks + 8192) in *. set (n := length pre) in *.
  assert (Hin : forall x, (p <= x /\ x + 4 <= p + 416) \/ (ks <= x /\ x + 4 <= ks + 8192) ->
    ld32 (save_ram c a r) x = ld32 r x) by (intros x Hx; apply save_ram_frame32; lia).
  assert (Hfr : forall j w, [ret; 0; 0; 0; 0] !! j = Some w -> (j < 5)%nat ->
    ld32 (save_ram c a r) (top - 4 - 4 * Z.of_nat (n + j)) = u32 w).
  { intros j w Hj Hj5. rewrite Hin by lia. apply Hw. unfold n. by rewrite lookup_app_r, Nat.add_sub' by lia. }
  split.
  - assert (Hsp : p_esp p (save_ram c a r) = top - 4 * Z.of_nat n - 20) by (unfold p_esp; rewrite Hin by lia; unfold p_esp in R4; lia).
    rewrite (context_switch_eq _ _ _ _ Hcf) by lia. rewrite Hsp. unfold p_page_dir. rewrite (Hin (p + 16)) by lia.
    fold (p_page_dir p r). rewrite R2, (u32_small (top - 4 * Z.of_nat n - 20 + 20)) by lia.
    rewrite <- (u32_small ret Hret), <- (Hfr 0%nat ret eq_refl) by lia.
    assert (H0 : forall j, (1 <= j < 5)%nat -> ld32 (save_ram c a r) (top - 4 - 4 * Z.of_nat (n + j)) = 0).
    { intros j Hj. rewrite (Hfr j 0); [done | | lia]. do 5 (destruct j; [lia || done |]). lia. }
    pose proof (H0 1%nat ltac:(lia)) as E1. pose proof (H0 2%nat ltac:(lia)) as E2.
    pose proof (H0 3%nat ltac:(lia)) as E3. pose proof (H0 4%nat ltac:(lia)) as E4.
    f_equal. f_equal; [etransitivity; [| exact E4] | etransitivity; [| exact E3]
      | etransitivity; [| exact E2] | etransitivity; [| exact E1] | ..]; try (f_equal; lia); lia.
  - intros i w Hi. pose proof (lookup_lt_Some _ _ _ Hi). rewrite Hin by lia. apply Hw.
    by rewrite lookup_app_l by lia.
Qed.

(** C7. Thread creation and first dispatch: [process_create] either returns NULL
    without leaking heap memory, or returns a control block and stack in fresh
    heap blocks, with every block that was live untouched, such that the first
    [context_switch] to it lands in [kthread_entry] with zeroed callee-saved
    registers and the kernel's page directory, and [kthread_entry] then calls
    the entry function with interrupts enabled on the new stack. *)
Theorem process_create_starts_entry (kdir kentry entry next_pid ret : Z) (h : heap) (m : mach) (bs : list ablk)
    (c : cpu) (a : Z) :
  heap_inv h (m_ram m) bs -> is_u32 kdir -> is_u32 kentry -> is_u32 entry -> is_u32 next_pid ->
  exists p np h' m' bs', process_create kdir kentry entry next_pid h m = Some (p, np, h', m') /\
    heap_inv h' (m_ram m') bs' /\
    (p = 0 /\ heap_used h' = heap_used h \/
     exists ks, p <> 0 /\ new_blocks h (m_ram m) (m_ram m') bs bs' p ks /\ p_pid p (m_ram m') = next_pid /\
       (call_frame c (m_ram m') a p -> switch_apart c a p ks ->
        let (c1, r1) := context_switch c (m_ram m') in
        eip c1 = kentry /\ ebx c1 = 0 /\ esi c1 = 0 /\ edi c1 = 0 /\ ebp c1 = 0 /\ cr3 c1 = kdir /\
        let c2 := fst (run_kthread_entry ret c1 r1) in
        eip c2 = entry /\ iflag c2 = true /\ esp c2 = ks + KERNEL_STACK_SIZE - 4)).
Proof.
  intros Hinv Hd Hke Hen Hnp.
  destruct (create_with_cases [entry; kentry; 0; 0; 0; 0] kdir next_pid h m bs Hinv Hd Hnp)
    as (p & np & h' & m' & bs' & Heq & Hinv' & _ & Hcase); [done |].
  exists p, np, h', m', bs'. split; [exact Heq |]. split; [exact Hinv' |].
  destruct Hcase as [(-> & _ & Hu & _)|(ks & Hp & _ & Hnew & Hpid & _ & Hready)]; [left; done | right].
  exists ks. split; [done |]. split; [exact Hnew |]. split; [exact Hpid |].
  intros Hcf Hap. pose proof (new_blocks_stack _ _ _ _ _ _ _ _ Hinv Hnew) as [Hks Htop].
  destruct (switch_to_ready c (m_ram m') a p ks kdir [entry] kentry Hcf Hap Hke Hks Htop ltac:(done) Hready) as [-> Hw].
  unfold run_kthread_entry, asm_push. cbn [fst snd ebx esi edi ebp esp eip cr3 iflag].
  specialize (Hw 0%nat entry eq_refl). unfold alen, KERNEL_STACK_SIZE in *. cbn [length] in *.
  replace (ks + 8192 - 4 * Z.of_nat 1) with (ks + 8192 - 4 - 4 * Z.of_nat 0) by lia.
  rewrite Hw, (u32_small entry Hen). split_and!; try done.
  rewrite (u32_small (ks + 8192 - 4 - 4 * Z.of_nat 0 + 4)), u32_small by lia. lia.
Qed.

(** Two threads, 0x1000 on the stack at 0x8000 and 0x2000 at 0x9000. *)
Definition demo_cpu : cpu := Cpu 1 2 3 4 0x8000 0 0x105000 false.
Definition demo_cpu2 : cpu := Cpu 5 6 7 8 0x9000 0 0x105000 false.
Definition demo_threads : ram :=
  st32 (st32 (st32 (st32 ∅ 0x8000 0x123456) 0x8004 0x1000) 0x8008 0x2000) 0x2004 0x8F00.
Definition demo_threads2 : ram :=
  st32 (st32 (snd (context_switch demo_cpu demo_threads)) 0x9004 0x2000) 0x9008 0x1000.

Lemma context_switch_roundtrip_witness :
  let c3 := fst (context_switch demo_cpu2 demo_threads2) in
  ebx c3 = 1 /\ esi c3 = 2 /\ edi c3 = 3 /\ ebp c3 = 4 /\ esp c3 = 0x8004 /\ eip c3 = 0x123456.
Proof.
  refine (context_switch_roundtrip demo_cpu demo_cpu2 demo_threads demo_threads2 0x1000 0x2000 0x2000 _ _ _ _ _ _ _ _ _).
  - unfold call_frame, cpu_wf, is_u32. vm_compute. intuition congruence.
  - vm_compute. congruence.
  - unfold call_frame, cpu_wf, is_u32. vm_compute. intuition congruence.
  - vm_compute. reflexivity.
  - intros x Hx. unfold demo_threads2. cbn [esp demo_cpu] in Hx. rewrite !ld8_st32_ne by lia. reflexivity.
  - unfold PROCESS_SIZE. lia.
  - unfold PROCESS_SIZE. cbn [esp demo_cpu]. lia.
  - cbn [esp demo_cpu demo_cpu2]. lia.
  - unfold PROCESS_SIZE. cbn [esp demo_cpu2]. lia.
Defined.

(** A 64 KB heap at 1 MB. *)
Definition demo_heap64 : heap * mach := heap_init 0x200000 0x10000 mach0.

Lemma demo_heap64_inv : heap_inv (fst demo_heap64) (m_ram (snd demo_heap64)) [Ablk (0x10000 - 16) false].
Proof. by apply (heap_init_inv 0x200000 0x10000 mach0). Qed.

Lemma process_create_starts_entry_witness :
  exists p np h' m' bs', process_create 0x105000 0x101000 0x102000 1 (fst demo_heap64) (snd demo_heap64)
      = Some (p, np, h', m') /\ heap_inv h' (m_ram m') bs'.
Proof.
  destruct (process_create_starts_entry 0x105000 0x101000 0x102000 1 0 (fst demo_heap64) (snd demo_heap64)
    [Ablk (0x10000 - 16) false] demo_cpu 0x1000 demo_heap64_inv) as (p & np & h' & m' & bs' & H1 & H2 & _).
  - unfold is_u32. lia.
  - unfold is_u32. lia.
  - unfold is_u32. lia.
  - unfold is_u32. lia.
  - exists p, np, h', m', bs'. split; [exact H1 | exact H2].
Defined.

(** The creation above succeeds, in the first block of the heap. *)
Example demo_process_created :
  (fun t => fst (fst (fst t))) <$> process_create 0x105000 0x101000 0x102000 1 (fst demo_heap64) (snd demo_heap64)
  = Some 0x200010.
Proof. vm_compute. reflexivity. Qed.

(** ** Destruction *)

(** Destroying a thread undoes its two allocations. *)
Lemma process_destroy_spec a p ks h m bs bs1 bs2 :
  heap_start_addr h = a -> heap_inv h (m_ram m) bs2 ->
  amalloc PROCESS_SIZE a bs = Some (p, bs1) -> amalloc KERNEL_STACK_SIZE a bs1 = Some (ks, bs2) ->
  p_kernel_stack p (m_ram m) = ks -> Forall (fun b => 0 <= b_size b) bs -> Forall (fun b => 0 <= b_size b) bs1 ->
  no_adj_free bs = true -> 0 <= a ->
  exists h' m', process_destroy p h m = (h', m') /\ heap_inv h' (m_ram m') bs /\ heap_start_addr h' = a /\
    forall x, x < p - 16 \/ p <= x -> x < ks - 16 \/ ks <= x -> ld8 (m_ram m') x = ld8 (m_ram m) x.
Proof.
  intros Ha Hinv Ham1 Ham2 Hks Hall Hall1 Hadj Ha0. unfold process_destroy. rewrite Hks.
  destruct (amalloc_some _ _ _ _ _ Ham1 Hall ltac:(unfold PROCESS_SIZE; lia)) as (_ & s1 & _ & Hin1 & Hlo1 & _).
  destruct (amalloc_some _ _ _ _ _ Ham2 Hall1 ltac:(unfold KERNEL_STACK_SIZE; lia)) as (_ & s2 & _ & Hin2 & Hlo2 & _).
  replace (p =? 0) with false by lia. unfold ctrue. replace (ks =? 0) with false by lia. cbn [negb].
  rewrite <- Ha in Hin2. destruct (kfree_spec h m bs2 ks s2 Hinv Hin2) as (h1 & m1 & bs1' & E1 & Haf1 & Hinv1 & _ & Hst1 & Hr1 & _).
  rewrite Ha, (afree_amalloc _ _ _ _ _ Ham2 Hall1) in Haf1; [| unfold KERNEL_STACK_SIZE; lia | by eapply amalloc_no_adj].
  injection Haf1 as <-. rewrite E1. rewrite <- Ha, <- Hst1 in Hin1.
  destruct (kfree_spec h1 m1 bs1 p s1 Hinv1 Hin1) as (h2 & m2 & bs' & E2 & Haf2 & Hinv2 & _ & Hst2 & Hr2 & _).
  rewrite Hst1, Ha, (afree_amalloc _ _ _ _ _ Ham1 Hall) in Haf2; [| unfold PROCESS_SIZE; lia | done].
  injection Haf2 as <-. rewrite E2. exists h2, m2. split; [done |]. split; [done |]. split; [congruence |].
  intros x Hx1 Hx2. rewrite Hr2, Hr1, !free_ram_frame by lia. done.
Qed.

(** Creating a thread and destroying it is a round trip for the heap: for
    any heap without adjacent free blocks, [process_destroy] of what
    [process_create] returned gives back the very same list of blocks and count
    of bytes in use, and every block that was live holds the bytes it held
    before. *)
Theorem process_create_destroy_roundtrip (kdir kentry entry next_pid p np : Z) (h h1 : heap) (m m1 : mach) (bs : list ablk) :
  heap_inv h (m_ram m) bs -> no_adj_free bs = true ->
  is_u32 kdir -> is_u32 kentry -> is_u32 entry -> is_u32 next_pid ->
  process_create kdir kentry entry next_pid h m = Some (p, np, h1, m1) -> p <> 0 ->
  exists h2 m2, process_destroy p h1 m1 = (h2, m2) /\ heap_inv h2 (m_ram m2) bs /\ heap_used h2 = heap_used h /\
    forall q s, In (q, s, true) (payloads (heap_start_addr h) bs) -> same_on (q - 16) (q + s) (m_ram m) (m_ram m2).
Proof.
  intros Hinv Hadj Hd Hk He Hn Hpc Hp0. destruct (process_create_cases kdir kentry entry next_pid h m bs Hinv Hd Hk He Hn)
    as (p' & np' & h1' & m1' & bs2 & Hpc' & Hinv1 & Hst & Hcase). rewrite Hpc in Hpc'. injection Hpc' as <- <- <- <-.
  destruct Hcase as [(? & _)|(ks & _ & _ & Hnew & _ & Hks & _)]; [done |].
  pose proof (process_create_fit _ _ _ _ _ _ _ _ _ _ _ _ Hinv Hpc Hinv1) as Hfit. replace (p =? 0) with false in Hfit by lia.
  unfold thread_fit in Hfit. destruct (amalloc PROCESS_SIZE (heap_start_addr h) bs) as [[p1 bs1]|] eqn:Ham1; [| done].
  cbn [mbind option_bind] in Hfit. destruct (amalloc KERNEL_STACK_SIZE (heap_start_addr h) bs1) as [[ks1 bs2']|] eqn:Ham2; [| done].
  cbn [mbind option_bind] in Hfit. rewrite Hks in Hfit. injection Hfit as -> -> ->.
  pose proof Hinv as (_ & _ & H16 & _ & _ & Hch & Hu). pose proof (chain_nonneg _ _ _ _ Hch) as Hall.
  destruct (process_destroy_spec (heap_start_addr h) p ks h1 m1 bs bs1 bs2) as (h2 & m2 & E2 & Hinv2 & _ & Hfr); try done.
  { eapply amalloc_sizes; [exact Ham1 | unfold PROCESS_SIZE; lia | exact Hall]. }
  { lia. }
  exists h2, m2. split; [done |]. split; [done |]. pose proof Hinv2 as (_ & _ & _ & _ & _ & _ & Hu2). split; [congruence |].
  destruct Hnew as (s1 & s2 & _ & Hs1 & _ & Hs2 & _ & _ & _ & _ & _ & _ & Hq & _). intros q s Hin.
  unfold PROCESS_SIZE, KERNEL_STACK_SIZE in *.
  destruct (Hq q s Hin) as (_ & D1 & D2 & Hs). pose proof (payloads_low _ _ _ _ _ Hall Hin). intros x Hx. rewrite (Hs x Hx). symmetry. apply Hfr; lia.
Qed.

Lemma process_create_destroy_roundtrip_witness :
  exists p np h1 m1 h2 m2, process_create 0x105000 0x101000 0x102000 1 (fst demo_heap64) (snd demo_heap64) = Some (p, np, h1, m1) /\
    process_destroy p h1 m1 = (h2, m2) /\ heap_inv h2 (m_ram m2) [Ablk (0x10000 - 16) false].
Proof.
  destruct (process_create 0x105000 0x101000 0x102000 1 (fst demo_heap64) (snd demo_heap64)) as [[[[p np] h1] m1]|] eqn:E;
    [| exfalso; pose proof demo_process_created as H; rewrite E in H; discriminate H].
  destruct (process_create_destroy_roundtrip 0x105000 0x101000 0x102000 1 p np (fst demo_heap64) h1 (snd demo_heap64) m1
    [Ablk (0x10000 - 16) false] demo_heap64_inv) as (h2 & m2 & H1 & H2 & _).
  - reflexivity.
  - unfold is_u32. lia.
  - unfold is_u32. lia.
  - unfold is_u32. lia.
  - unfold is_u32. lia.
  - exact E.
  - pose proof demo_process_created as H. rewrite E in H. injection H as ->. lia.
  - exists p, np, h1, m1, h2, m2. split; [reflexivity |]. split; [exact H1 | exact H2].
Defined.
