(* ===== verification/Usermode.v ===== *)
(** * Usermode: address spaces and entry to ring 3

    [vmm_create_user_directory], [vmm_map_page] and [process_create_user]
    together (kernel/mm/vmm.c, kernel/proc/process.c, kernel/arch/gdt.c): what
    code in ring 3 can reach through a directory built by the first two, and
    that a process built by the third starts in ring 3 at its entry point, on
    its own stack, in its own address space. *)
From stdpp Require Import strings.
From S2P Require Import Prelude Memory Machine Vga Console Multiboot Pmm Heap Vmm Arch Process.

(** ** What ring 3 can reach *)

Definition user_bit (e : Z) : bool := ctrue (Z.land e PAGE_USER).

(** The processor's walk for an access from ring 3: both levels must carry the
    user bit. *)
Definition user_walk (r : ram) (dir va : Z) : option (Z * Z) :=
  '(f, fl) ← walk r dir va;
  if user_bit (entry r dir (VMM_DIR_IDX va)) && user_bit fl then Some (f, fl) else None.

(** No table of the directory is open to ring 3. *)
Definition supervisor_dir (r : ram) (dir : Z) : Prop :=
  forall i, 0 <= i < 1024 -> pde_present r dir i = true -> user_bit (entry r dir i) = false.

(** [(f, fl)] is what one of the mappings [ms] asks for at [va]. *)
Definition granted (ms : list (Z * Z * Z)) (va f fl : Z) : Prop :=
  exists virt phys flags, In (virt, phys, flags) ms /\ virt / 4096 = va / 4096 /\
    f = Z.land phys PAGE_MASK /\ fl = Z.lor (Z.land flags 0xFFF) PAGE_PRESENT.

(** A user directory beside the kernel's: it has the kernel's tables, its other
    tables are its own, the kernel's translations are those of [r0], and ring 3
    reaches only what [ms] grants. *)
Record user_space (free : Z -> Prop) (r0 r : ram) (kdir dir : Z) (ms : list (Z * Z * Z)) : Prop := {
  us_kdir : dir_wf free r kdir;
  us_dir : dir_wf free r dir;
  us_ne : dir <> kdir;
  us_kpde : forall i, 0 <= i < 1024 -> entry r kdir i = entry r0 kdir i;
  us_super : supervisor_dir r kdir;
  us_shared : forall i, 0 <= i < 1024 -> pde_present r kdir i = true -> entry r dir i = entry r kdir i;
  us_own : forall i j, 0 <= i < 1024 -> 0 <= j < 1024 -> pde_present r dir i = true ->
    pde_present r kdir i = false -> pde_present r kdir j = true -> table r dir i <> table r kdir j;
  us_table : forall i, 0 <= i < 1024 -> pde_present r dir i = true -> table r dir i <> kdir;
  us_ktable : forall i, 0 <= i < 1024 -> pde_present r kdir i = true -> table r kdir i <> dir;
  us_kwalk : forall va, is_u32 va -> walk r kdir va = walk r0 kdir va;
  us_user : forall va f fl, is_u32 va -> user_walk r dir va = Some (f, fl) -> granted ms va f fl;
}.

Arguments us_kdir {_ _ _ _ _ _} _.
Arguments us_dir {_ _ _ _ _ _} _.
Arguments us_ne {_ _ _ _ _ _} _.
Arguments us_kpde {_ _ _ _ _ _} _.
Arguments us_super {_ _ _ _ _ _} _.
Arguments us_shared {_ _ _ _ _ _} _.
Arguments us_own {_ _ _ _ _ _} _.
Arguments us_table {_ _ _ _ _ _} _.
Arguments us_ktable {_ _ _ _ _ _} _.
Arguments us_kwalk {_ _ _ _ _ _} _.
Arguments us_user {_ _ _ _ _ _} _.

(** Both walks depend on the page only. *)
Lemma page_idx va va' : is_u32 va -> is_u32 va' -> va / 4096 = va' / 4096 ->
  VMM_DIR_IDX va = VMM_DIR_IDX va' /\ VMM_TBL_IDX va = VMM_TBL_IDX va'.
Proof.
  intros H H' Hp. rewrite !tbl_idx_eq, Hp. split; [| done].
  destruct (dir_idx_eq va H) as [-> _], (dir_idx_eq va' H') as [-> _]. lia.
Qed.

Lemma walk_page r dir va va' : is_u32 va -> is_u32 va' -> va / 4096 = va' / 4096 -> walk r dir va = walk r dir va'.
Proof. intros H H' Hp. destruct (page_idx va va' H H' Hp) as [E1 E2]. unfold walk, pte_of. by rewrite E1, E2. Qed.

Lemma walk_absent r dir va : pde_present r dir (VMM_DIR_IDX va) = false -> walk r dir va = None.
Proof. intros H. unfold walk, pte_of. unfold pde_present in H. by rewrite H. Qed.

Lemma user_walk_sub r dir va f fl : user_walk r dir va = Some (f, fl) ->
  walk r dir va = Some (f, fl) /\ user_bit (entry r dir (VMM_DIR_IDX va)) = true.
Proof.
  unfold user_walk. destruct (walk r dir va) as [[f' fl']|]; [| done]. cbn [mbind option_bind].
  destruct (user_bit (entry _ _ _)); [| done]. cbn [andb]. by destruct (user_bit fl').
Qed.

(** A page of the kernel's is out of reach. *)
Lemma user_space_kernel_page free r0 r kdir dir ms va :
  user_space free r0 r kdir dir ms -> is_u32 va -> pde_present r0 kdir (VMM_DIR_IDX va) = true ->
  walk r dir va = walk r0 kdir va /\ user_walk r dir va = None.
Proof.
  intros Hus Hva Hpr. pose proof (proj2 (dir_idx_eq va Hva)) as Hi.
  assert (Hpk : pde_present r kdir (VMM_DIR_IDX va) = true) by (unfold pde_present in *; by rewrite (us_kpde Hus)).
  pose proof (us_shared Hus _ Hi Hpk) as He. split.
  - rewrite <- (us_kwalk Hus va Hva). unfold walk, pte_of. by rewrite He.
  - unfold user_walk. rewrite He, (us_super Hus _ Hi Hpk). cbn [andb]. by destruct (walk r dir va) as [[? ?]|].
Qed.

(** ** Building an address space *)

Section Space.
Context `{FrameAllocator A} (kdir : Z).

(** Mapping the pages of a program, in order. *)
Fixpoint map_pages (dir : Z) (ms : list (Z * Z * Z)) (s : A) (m : mach) : A * mach :=
  match ms with
  | [] => (s, m)
  | (virt, phys, flags) :: ms => let (s, m) := vmm_map_page dir virt phys flags s m in map_pages dir ms s m
  end.

(** A mapping outside the part of the address space the kernel occupies. *)
Definition user_mapping (r0 : ram) (q : Z * Z * Z) : Prop :=
  is_u32 q.1.1 /\ is_u32 q.1.2 /\ pde_present r0 kdir (VMM_DIR_IDX q.1.1) = false.

Lemma user_space_create s m :
  fa_inv s -> dir_wf (fa_free s) (m_ram m) kdir -> supervisor_dir (m_ram m) kdir ->
  let '(dir, s', m') := vmm_create_user_directory kdir s m in
  dir <> 0 -> fa_inv s' /\ user_space (fa_free s') (m_ram m) (m_ram m') kdir dir [].
Proof using.
  intros Hinv Hwf Hsup. pose proof (vmm_create_user_directory_clones kdir s m Hinv Hwf) as Hc.
  destruct (vmm_create_user_directory kdir s m) as [[dir s'] m'].
  destruct Hc as (Hinv' & Hwk & [(-> & _)|(Hfree & Hne & Hwd & Hsame & Hent & Hw)]); [done |].
  intros _. split; [done |].
  assert (Hk : forall i, 0 <= i < 1024 -> entry (m_ram m') kdir i = entry (m_ram m) kdir i)
    by (intros i Hi; by apply entry_same).
  assert (Hde : forall i, 0 <= i < 1024 -> entry (m_ram m') dir i = entry (m_ram m') kdir i)
    by (intros i Hi; rewrite Hent, Hk; done).
  pose proof Hwk as (_ & _ & Hdk).
  split; try done; unfold supervisor_dir, pde_present, table in *.
  - intros i Hi. rewrite Hk by done. auto.
  - intros i Hi _. auto.
  - intros i j Hi Hj. rewrite Hde by done. congruence.
  - intros i Hi. rewrite Hde by done. intros Hp. by apply Hdk.
  - intros i Hi. rewrite Hk by done. intros Hp Heq. destruct Hwf as (_ & _ & Hd).
    destruct (Hd i Hi Hp) as (_ & Hn & _). unfold table in Hn. by rewrite Heq in Hn.
  - intros va Hva. by apply Hw.
  - intros va f fl Hva Hu. apply user_walk_sub in Hu as [Hw' Hub]. exfalso.
    pose proof (proj2 (dir_idx_eq va Hva)) as Hi. rewrite Hent in Hub by done.
    rewrite Hsup in Hub; [done | done |]. destruct (Hw va Hva) as [E _]. rewrite E in Hw'.
    destruct (ctrue (Z.land (entry (m_ram m) kdir (VMM_DIR_IDX va)) PAGE_PRESENT)) eqn:Ep; [done |].
    by rewrite walk_absent in Hw'.
Qed.

(** What a mapping has to do to a user directory to keep it one. *)
Lemma user_space_step free free' r0 r r' dir virt phys flags ms :
  let di := VMM_DIR_IDX virt in
  user_space free r0 r kdir dir ms -> user_mapping r0 (virt, phys, flags) ->
  dir_wf free' r' dir -> mapped dir virt phys flags r r' ->
  (forall q, free' q -> free q) -> page_same kdir r r' ->
  (forall i, 0 <= i < 1024 -> pde_present r kdir i = true -> page_same (table r kdir i) r r') ->
  (forall i, 0 <= i < 1024 -> i <> di -> entry r' dir i = entry r dir i) ->
  (pde_present r dir di = true -> entry r' dir di = entry r dir di) ->
  (pde_present r dir di = false -> table r' dir di <> kdir /\
     forall j, 0 <= j < 1024 -> pde_present r kdir j = true -> table r' dir di <> table r kdir j) ->
  user_space free' r0 r' kdir dir ((virt, phys, flags) :: ms).
Proof using.
  intros di Hus (Hv & Hp & Hk0) Hwd [Hmap Hoth] Hfree Hsame Hts Hent Hdi Hnew. cbn [fst snd] in *.
  pose proof (proj2 (dir_idx_eq virt Hv)) as Hdr. fold di in Hdr, Hk0.
  assert (Hk : forall i, 0 <= i < 1024 -> entry r' kdir i = entry r kdir i) by (intros i Hi; by apply entry_same).
  assert (Hkd : pde_present r kdir di = false) by (unfold pde_present in *; by rewrite (us_kpde Hus)).
  assert (Hpk : forall i, 0 <= i < 1024 -> pde_present r' kdir i = pde_present r kdir i)
    by (intros i Hi; unfold pde_present; by rewrite Hk).
  assert (Htk : forall i, 0 <= i < 1024 -> table r' kdir i = table r kdir i)
    by (intros i Hi; unfold table; by rewrite Hk).
  assert (Hold : forall i, 0 <= i < 1024 -> i <> di \/ pde_present r dir di = true ->
    pde_present r' dir i = pde_present r dir i /\ table r' dir i = table r dir i).
  { intros i Hi Hc. unfold pde_present, table. destruct (Z.eq_dec i di) as [->|Hne]; [| by rewrite Hent].
    destruct Hc as [Hc|Hc]; [done |]. by rewrite Hdi. }
  assert (Hcase : forall i, i <> di \/ pde_present r dir di = true \/ i = di /\ pde_present r dir di = false).
  { intros i. destruct (Z.eq_dec i di) as [->|]; [| by left]. right. destruct (pde_present r dir di); auto. }
  split.
  - eapply dir_wf_frame; [exact Hsame | exact Hfree | exact (us_kdir Hus)].
  - done.
  - exact (us_ne Hus).
  - intros i Hi. rewrite Hk by done. by apply (us_kpde Hus).
  - intros i Hi. rewrite Hpk, Hk by done. by apply (us_super Hus).
  - intros i Hi. rewrite Hpk, Hk by done. intros Hpi. rewrite Hent; [by apply (us_shared Hus) | done | congruence].
  - intros i j Hi Hj. rewrite !Hpk, Htk by done. destruct (Hcase i) as [Hc|[Hc|[-> Hc]]].
    + destruct (Hold i Hi (or_introl Hc)) as [-> ->]. by apply (us_own Hus).
    + destruct (Hold i Hi (or_intror Hc)) as [-> ->]. by apply (us_own Hus).
    + intros _ _ Hpj. by apply Hnew.
  - intros i Hi. destruct (Hcase i) as [Hc|[Hc|[-> Hc]]].
    + destruct (Hold i Hi (or_introl Hc)) as [-> ->]. by apply (us_table Hus).
    + destruct (Hold i Hi (or_intror Hc)) as [-> ->]. by apply (us_table Hus).
    + intros _. by apply Hnew.
  - intros i Hi. rewrite Hpk, Htk by done. by apply (us_ktable Hus).
  - intros va Hva. rewrite <- (us_kwalk Hus va Hva). apply walk_frame; [done | done |].
    intros Hpi. apply Hts; [by apply dir_idx_eq | done].
  - intros va f fl Hva Hu. destruct (user_walk_sub _ _ _ _ _ Hu) as [Hw Hub].
    destruct (Z.eq_dec (va / 4096) (virt / 4096)) as [Hpg|Hpg].
    + rewrite (walk_page _ _ va virt Hva Hv Hpg), Hmap in Hw. injection Hw as <- <-.
      exists virt, phys, flags. split; [by left | done].
    + rewrite Hoth in Hw by done. pose proof (proj2 (dir_idx_eq va Hva)) as Hvr.
      assert (He : entry r' dir (VMM_DIR_IDX va) = entry r dir (VMM_DIR_IDX va)).
      { destruct (Z.eq_dec (VMM_DIR_IDX va) di) as [E|E]; [rewrite E | by apply Hent]. apply Hdi.
        destruct (pde_present r dir di) eqn:Ep; [done |]. rewrite walk_absent in Hw; [done | by rewrite E]. }
      destruct (us_user Hus va f fl Hva) as (v & q & g & Hin & Hr).
      { unfold user_walk in *. rewrite Hoth, He in Hu by done. exact Hu. }
      exists v, q, g. split; [by right | done].
Qed.

Lemma user_space_weaken free r0 r dir q ms :
  user_space free r0 r kdir dir ms -> user_space free r0 r kdir dir (q :: ms).
Proof using.
  intros []. split; try done. intros va f fl Hva Hu.
  destruct (us_user0 va f fl Hva Hu) as (v & p & g & Hin & Hr). exists v, p, g. split; [by right | done].
Qed.

Lemma user_space_map r0 dir virt phys flags ms s m :
  fa_inv s -> user_space (fa_free s) r0 (m_ram m) kdir dir ms -> user_mapping r0 (virt, phys, flags) ->
  let (s', m') := vmm_map_page dir virt phys flags s m in
  fa_inv s' /\ user_space (fa_free s') r0 (m_ram m') kdir dir ((virt, phys, flags) :: ms).
Proof using.
  intros Hinv Hus Hum. pose proof Hum as (Hv & Hp & Hk0). cbn [fst snd] in *.
  pose proof (us_dir Hus) as Hwd. pose proof Hwd as (Hpd & _ & Hdd).
  pose proof (us_kdir Hus) as (Hpk & Hnk & Hdk). pose proof (us_ne Hus) as Hne.
  pose proof (proj2 (dir_idx_eq virt Hv)) as Hdr. pose proof (tbl_idx_range virt) as Htr.
  destruct (vmm_map_page_ram dir virt phys flags s m) as [[Hpr (m' & -> & Hram)]|[Hpr (m' & -> & Hram)]].
  - rewrite Hram. split; [done |]. destruct (map_present dir virt phys flags Hv Hp _ _ Hwd Hpr) as [Hwd' Hm].
    assert (Hkd : pde_present (m_ram m) kdir (VMM_DIR_IDX virt) = false)
      by (unfold pde_present in *; by rewrite (us_kpde Hus)).
    assert (Hsd : page_same dir (m_ram m) (st32 (m_ram m)
      (table (m_ram m) dir (VMM_DIR_IDX virt) + 4 * VMM_TBL_IDX virt) (new_pte phys flags))).
    { apply page_same_st32; auto using table_page. apply not_eq_sym. by apply Hdd. }
    apply (user_space_step _ _ r0 (m_ram m) _ dir virt phys flags ms Hus Hum Hwd' Hm); [auto | ..].
    + apply page_same_st32; auto using table_page. apply not_eq_sym. by apply (us_table Hus).
    + intros i Hi Hpi. apply page_same_st32; auto using table_page. apply not_eq_sym. by apply (us_own Hus).
    + intros i Hi _. by apply entry_same.
    + intros _. by apply entry_same.
    + congruence.
  - pose proof (fa_alloc_spec s Hinv) as Ha. destruct (fa_alloc s) as [pt s'] eqn:E. cbn [fst snd] in *.
    destruct Ha as [Hinv' [[-> ->]|(Hr & Ha & Hf & Hfree)]].
    { cbn [Z.eqb] in Hram. rewrite Hram. split; [done | by apply user_space_weaken]. }
    replace (pt =? 0) with false in Hram by lia. rewrite Hram. split; [done |].
    assert (Hpt : is_page pt) by (unfold is_page; lia). pose proof Hwd as (_ & Hnd & _).
    assert (Hpd' : pt <> dir) by (intros ->; exact (Hnd Hf)). assert (Hpk' : pt <> kdir) by (intros ->; exact (Hnk Hf)).
    assert (Hpt' : forall j, 0 <= j < 1024 -> pde_present (m_ram m) kdir j = true -> pt <> table (m_ram m) kdir j).
    { intros j Hj Hpj Heq. destruct (Hdk j Hj Hpj) as (_ & Hn & _). rewrite <- Heq in Hn. exact (Hn Hf). }
    destruct (map_fresh dir virt phys flags Hv Hp _ (fa_free s') pt _ Hwd Hpr Hpt Hf Hfree) as [Hwd' Hm].
    apply (user_space_step (fa_free s) _ r0 (m_ram m) _ dir virt phys flags ms Hus Hum Hwd' Hm).
    + intros q Hq. by apply Hfree in Hq as [].
    + exact (fresh_ram_other dir virt phys flags Hv pt kdir (m_ram m) Hpt Hpd Hpk (not_eq_sym Hpk') (not_eq_sym Hne)).
    + intros i Hi Hpi. exact (fresh_ram_other dir virt phys flags Hv pt _ (m_ram m) Hpt Hpd (table_page _ _ _)
        (not_eq_sym (Hpt' i Hi Hpi)) (us_ktable Hus i Hi Hpi)).
    + intros i Hi Hne'. by apply fresh_entry.
    + congruence.
    + intros _. destruct (fresh_pde dir virt phys flags Hv pt (m_ram m) Hpt Hpd Hpd') as [_ ->]. auto.
Qed.

Lemma user_space_maps r0 dir ms : Forall (user_mapping r0) ms -> forall done s m,
  fa_inv s -> user_space (fa_free s) r0 (m_ram m) kdir dir done ->
  let (s', m') := map_pages dir ms s m in
  user_space (fa_free s') r0 (m_ram m') kdir dir (rev ms ++ done).
Proof using.
  induction 1 as [|[[virt phys] flags] ms Hq _ IH]; intros dn s m Hinv Hus; [done |].
  cbn [map_pages]. pose proof (user_space_map r0 dir virt phys flags dn s m Hinv Hus Hq) as Hm.
  destruct (vmm_map_page dir virt phys flags s m) as [s1 m1]. destruct Hm as [Hinv1 Hus1].
  cbn [rev]. rewrite <- app_assoc. apply (IH _ s1 m1 Hinv1 Hus1).
Qed.
End Space.

(** C10. Address spaces are isolated: after any sequence of [vmm_map_page] calls
    at user addresses on a directory made by [vmm_create_user_directory], the
    kernel directory translates every address as before, the kernel's part of
    the user directory still has the kernel's translations and is out of reach
    for code in ring 3, and ring 3 reaches nothing but frames one of the
    mappings asked for, with the flags it asked for. *)
Theorem user_space_isolated `{FrameAllocator A} (kdir : Z) (ms : list (Z * Z * Z)) (s : A) (m : mach) :
  fa_inv s -> dir_wf (fa_free s) (m_ram m) kdir -> supervisor_dir (m_ram m) kdir ->
  Forall (user_mapping kdir (m_ram m)) ms ->
  let '(dir, s1, m1) := vmm_create_user_directory kdir s m in
  dir <> 0 ->
  let (s2, m2) := map_pages dir ms s1 m1 in
  (forall va, is_u32 va -> walk (m_ram m2) kdir va = walk (m_ram m) kdir va) /\
  (forall va, is_u32 va -> pde_present (m_ram m) kdir (VMM_DIR_IDX va) = true ->
     walk (m_ram m2) dir va = walk (m_ram m) kdir va /\ user_walk (m_ram m2) dir va = None) /\
  forall va f fl, is_u32 va -> user_walk (m_ram m2) dir va = Some (f, fl) -> granted ms va f fl.
Proof.
  intros Hinv Hwf Hsup Hms. pose proof (user_space_create kdir s m Hinv Hwf Hsup) as Hc.
  destruct (vmm_create_user_directory kdir s m) as [[dir s1] m1]. intros Hd. destruct (Hc Hd) as [Hinv1 Hus].
  pose proof (user_space_maps kdir (m_ram m) dir ms Hms [] s1 m1 Hinv1 Hus) as Hm.
  destruct (map_pages dir ms s1 m1) as [s2 m2]. split; [exact (us_kwalk Hm) | split].
  - intros va Hva Hpr. by eapply user_space_kernel_page.
  - intros va f fl Hva Hu. destruct (us_user Hm va f fl Hva Hu) as (v & p & g & Hin & Hr).
    exists v, p, g. split; [| done]. rewrite app_nil_r in Hin. by apply in_rev.
Qed.

(** An allocator with frames 7 and 8 free. *)
Definition demo_pmm2 : pmm := release_frame 8 demo_pmm.

Lemma demo_pmm_used f : 0 <= f < PMM_PAGES_MAX -> frame_used demo_pmm f = negb (7 =? f).
Proof.
  intros Hf. unfold demo_pmm. rewrite frame_used_release, all_used_frame
    by (try apply pmm_inv_wf, all_used_inv; unfold PMM_PAGES_MAX in *; lia). apply andb_true_r.
Qed.

Lemma demo_pmm2_used f : 0 <= f < PMM_PAGES_MAX -> frame_used demo_pmm2 f = negb (8 =? f) && negb (7 =? f).
Proof.
  intros Hf. unfold demo_pmm2. rewrite frame_used_release, demo_pmm_used
    by (try apply pmm_inv_wf, demo_pmm_inv; unfold PMM_PAGES_MAX in *; lia). done.
Qed.

Lemma demo_fa_inv2 : fa_inv demo_pmm2.
Proof.
  split.
  - apply release_frame_inv; [exact demo_pmm_inv | unfold PMM_PAGES_MAX; lia |].
    by rewrite demo_pmm_used by (unfold PMM_PAGES_MAX; lia).
  - by rewrite demo_pmm2_used by (unfold PMM_PAGES_MAX; lia).
Qed.

Lemma demo_wf2 : dir_wf (fa_free demo_pmm2) (m_ram demo_paging) 0x105000.
Proof.
  apply init_wf; unfold is_page; try lia; intros (Hr & _ & Hu); unfold PMM_PAGES_MAX in Hr;
    rewrite demo_pmm2_used in Hu by (unfold PMM_PAGES_MAX; lia); discriminate Hu.
Qed.

Lemma demo_supervisor : supervisor_dir (m_ram demo_paging) 0x105000.
Proof.
  intros i Hi _. unfold user_bit, demo_paging. rewrite init_pde_supervisor; [done | ..]; unfold is_page; lia.
Qed.

Lemma user_space_isolated_witness :
  let '(dir, s1, m1) := vmm_create_user_directory 0x105000 demo_pmm2 demo_paging in
  let (s2, m2) := map_pages dir [(0x40000000, 0xABC000, 7)] s1 m1 in
  walk (m_ram m2) 0x105000 0xB8000 = walk (m_ram demo_paging) 0x105000 0xB8000.
Proof.
  pose proof (user_space_isolated 0x105000 [(0x40000000, 0xABC000, 7)] demo_pmm2 demo_paging
    demo_fa_inv2 demo_wf2 demo_supervisor) as Hw.
  destruct (vmm_create_user_directory 0x105000 demo_pmm2 demo_paging) as [[dir s1] m1] eqn:E.
  assert (Hd : dir <> 0).
  { change dir with (fst (fst (dir, s1, m1))). rewrite <- E. vm_compute. discriminate. }
  assert (Hms : Forall (user_mapping 0x105000 (m_ram demo_paging)) [(0x40000000, 0xABC000, 7)]).
  { constructor; [| constructor]. unfold user_mapping, is_u32. cbn [fst snd]. split; [lia | split; [lia |]].
    unfold pde_present, demo_paging. change (VMM_DIR_IDX 0x40000000) with 256.
    rewrite init_dir by (unfold is_page; lia). reflexivity. }
  specialize (Hw Hms Hd). destruct (map_pages dir [(0x40000000, 0xABC000, 7)] s1 m1) as [s2 m2].
  apply Hw. unfold is_u32. lia.
Defined.

(** The mapped page is open to ring 3, and the kernel's are not. *)
Example demo_user_page :
  let '(dir, s1, m1) := vmm_create_user_directory 0x105000 demo_pmm2 demo_paging in
  let (s2, m2) := map_pages dir [(0x40000000, 0xABC000, 7)] s1 m1 in
  (dir, user_walk (m_ram m2) dir 0x40000123, user_walk (m_ram m2) dir 0xB8000, walk (m_ram m2) dir 0xB8000)
  = (0x7000, Some (0xABC000, 7), None, Some (0xB8000, 3)).
Proof. vm_compute. reflexivity. Qed.

(** ** Entering ring 3 *)

(** The page lies outside the kernel heap. *)
Definition page_outside (h : heap) (q : Z) : Prop := q + 4096 <= heap_start_addr h \/ heap_end_addr h <= q.

Definition tables_outside (h : heap) (r : ram) (dir : Z) : Prop :=
  page_outside h dir /\
  forall i, 0 <= i < 1024 -> pde_present r dir i = true -> page_outside h (table r dir i).

(** The control block and the stack a switch saves into are heap blocks. *)
Definition saves_in_heap (h : heap) (c : cpu) (a : Z) : Prop :=
  heap_start_addr h <= a /\ a + PROCESS_SIZE <= heap_end_addr h /\
  heap_start_addr h <= esp c - 16 /\ esp c <= heap_end_addr h.

(** A descriptor ring 3 may load: present, flat, and of privilege 3. *)
Definition user_segment (gdt : list gdt_entry_t) (sel : Z) (code : bool) : Prop :=
  let e := aget gdt_zero gdt (sel / 8) in
  sel mod 4 = 3 /\ seg_present e = true /\ seg_dpl e = 3 /\ seg_code e = code /\
  seg_base e = 0 /\ seg_limit e = 0xFFFFF.

Lemma gdt_user_segments gdt_addr gdt m : alen gdt = GDT_ENTRIES ->
  user_segment (fst (gdt_init gdt_addr gdt m)) 0x1B true /\ user_segment (fst (gdt_init gdt_addr gdt m)) 0x23 false.
Proof.
  intros Hl. pose proof (gdt_init_flat_model gdt_addr gdt m Hl) as Hf.
  destruct (gdt_init gdt_addr gdt m) as [gdt' m']. destruct Hf as (Hf & _). cbn [fst].
  split.
  - destruct (Hf GDT_USER_CODE 3 true) as (H1 & H2 & _ & H4 & H5 & H6 & H7); [cbn; auto |]. repeat split; assumption.
  - destruct (Hf GDT_USER_DATA 3 false) as (H1 & H2 & _ & H4 & H5 & H6 & H7); [cbn; auto |]. repeat split; assumption.
Qed.

(** The stack [process_create_user] prepares, as a list of words. *)
Lemma process_create_user_eq tramp entry uesp dir next_pid h m :
  process_create_user tramp entry uesp dir next_pid h m =
  create_with ([0x23; uesp; 0x202; 0x1B; entry] ++ [tramp; 0; 0; 0; 0]) dir next_pid h m.
Proof.
  unfold process_create_user, create_with, push_all.
  destruct (alloc_process dir next_pid h m) as [[[[p np] h'] m']|]; cbn [mbind option_bind app foldl]; [| reflexivity].
  generalize push. reflexivity.
Qed.

(** Heap traffic does not touch a directory kept outside the heap. *)
Lemma walk_outside h r r' dir va :
  (forall x, x < heap_start_addr h \/ heap_end_addr h <= x -> ld8 r x = ld8 r' x) ->
  tables_outside h r dir -> is_u32 va -> walk r' dir va = walk r dir va.
Proof.
  intros Hs [Hd Ht] Hva. assert (Hp : forall q, page_outside h q -> page_same q r r').
  { intros q Hq x Hx. unfold page_outside in Hq. apply Hs. lia. }
  apply walk_frame; [done | by apply Hp |]. intros Hpr. apply Hp, Ht; [by apply dir_idx_eq | done].
Qed.

(** C9. A user process starts in ring 3: [process_create_user] either returns
    NULL without leaking heap memory, or returns a control block such that the
    first [context_switch] to it lands in [proc_iret_trampoline], whose [iret]
    continues at the entry address on the user stack with interrupts enabled,
    with the code and data selectors of the flat ring-3 segments [gdt_init]
    builds, and in the process's directory, whose translations neither the
    creation nor the switch has changed. *)
Theorem process_create_user_enters_ring3 (tramp entry uesp dir next_pid a gdt_addr : Z) (h : heap) (m m0 : mach)
    (bs : list ablk) (c : cpu) (gdt0 : list gdt_entry_t) :
  heap_inv h (m_ram m) bs -> is_u32 tramp -> is_u32 entry -> is_u32 uesp -> is_u32 dir -> is_u32 next_pid ->
  alen gdt0 = GDT_ENTRIES -> tables_outside h (m_ram m) dir ->
  exists p np h' m' bs', process_create_user tramp entry uesp dir next_pid h m = Some (p, np, h', m') /\
    heap_inv h' (m_ram m') bs' /\
    (p = 0 /\ np = next_pid /\ heap_used h' = heap_used h \/
     exists ks, p <> 0 /\ new_blocks h (m_ram m) (m_ram m') bs bs' p ks /\ p_pid p (m_ram m') = next_pid /\
       (call_frame c (m_ram m') a p -> switch_apart c a p ks -> saves_in_heap h c a ->
        let (c1, r1) := context_switch c (m_ram m') in
        eip c1 = tramp /\
        exists c2 cs ss, run_iret_trampoline c1 r1 = (c2, cs, Some ss) /\
          eip c2 = entry /\ esp c2 = uesp /\ iflag c2 = true /\ cr3 c2 = dir /\
          user_segment (fst (gdt_init gdt_addr gdt0 m0)) cs true /\
          user_segment (fst (gdt_init gdt_addr gdt0 m0)) ss false /\
          forall va, is_u32 va -> walk r1 (cr3 c2) va = walk (m_ram m) dir va)).
Proof.
  intros Hinv Htr Hen Hue Hd Hnp Hgdt Hout. set (pre := [0x23; uesp; 0x202; 0x1B; entry]).
  destruct (create_with_cases (pre ++ [tramp; 0; 0; 0; 0]) dir next_pid h m bs Hinv Hd Hnp)
    as (p & np & h' & m' & bs' & Heq & Hinv' & _ & Hcase); [done |].
  exists p, np, h', m', bs'. split; [rewrite process_create_user_eq; exact Heq |]. split; [exact Hinv' |].
  destruct Hcase as [(-> & Hn & Hu & _)|(ks & Hp & _ & Hnew & Hpid & _ & Hready)]; [left; done | right].
  exists ks. split; [done |]. split; [exact Hnew |]. split; [exact Hpid |]. intros Hcf Hap Hsv.
  pose proof (new_blocks_stack _ _ _ _ _ _ _ _ Hinv Hnew) as [Hks Htop].
  destruct (switch_to_ready c (m_ram m') a p ks dir pre tramp Hcf Hap Htr Hks Htop ltac:(done) Hready) as [-> Hw].
  cbn [eip]. split; [done |]. destruct (gdt_user_segments gdt_addr gdt0 m0 Hgdt) as [Gc Gd].
  pose proof (Hw 0%nat _ eq_refl) as W0. pose proof (Hw 1%nat _ eq_refl) as W1. pose proof (Hw 2%nat _ eq_refl) as W2.
  pose proof (Hw 3%nat _ eq_refl) as W3. pose proof (Hw 4%nat _ eq_refl) as W4.
  unfold run_iret_trampoline. cbn [ebx esi edi ebp esp eip cr3 iflag].
  set (r1 := save_ram c a (m_ram m')) in *. unfold alen, KERNEL_STACK_SIZE in *. set (top := ks + 8192) in *.
  change (Z.of_nat (length pre)) with 5. rewrite !u32_small by lia.
  replace (top - 4 * 5) with (top - 4 - 4 * Z.of_nat 4) by lia.
  replace (top - 4 - 4 * Z.of_nat 4 + 4) with (top - 4 - 4 * Z.of_nat 3) by lia.
  replace (top - 4 - 4 * Z.of_nat 4 + 8) with (top - 4 - 4 * Z.of_nat 2) by lia.
  replace (top - 4 - 4 * Z.of_nat 4 + 12) with (top - 4 - 4 * Z.of_nat 1) by lia.
  replace (top - 4 - 4 * Z.of_nat 4 + 16) with (top - 4 - 4 * Z.of_nat 0) by lia.
  rewrite W0, W1, W2, W3, W4, (u32_small entry Hen), (u32_small uesp Hue).
  do 3 eexists. split; [reflexivity |]. cbn [eip esp iflag cr3]. do 4 (split; [done |]).
  split; [exact Gc |]. split; [exact Gd |].
  intros va Hva. apply (walk_outside h); [| exact Hout | exact Hva].
  pose proof Hnew as (s1 & s2 & _ & _ & _ & _ & _ & _ & _ & _ & _ & _ & _ & Hfr).
  destruct Hsv as (S1 & S2 & S3 & S4). unfold PROCESS_SIZE in *.
  intros x Hx. rewrite Hfr by lia. unfold r1. symmetry. apply save_ram_frame; lia.
Qed.

Lemma demo_heap64_pde i : 0 <= i < 1024 -> pde_present (m_ram (snd demo_heap64)) 0x7000 i = false.
Proof.
  intros Hi. unfold pde_present. rewrite (entry_same (m_ram mach0)); [done | | done].
  intros x Hx. symmetry. unfold demo_heap64. apply heap_init_inv; lia.
Qed.

Lemma process_create_user_enters_ring3_witness :
  exists p np h' m' bs',
    process_create_user 0x103000 0x40000000 0xBFFF0000 0x7000 1 (fst demo_heap64) (snd demo_heap64)
      = Some (p, np, h', m') /\ heap_inv h' (m_ram m') bs'.
Proof.
  destruct (process_create_user_enters_ring3 0x103000 0x40000000 0xBFFF0000 0x7000 1 0x1000 0x109000
    (fst demo_heap64) (snd demo_heap64) mach0 [Ablk (0x10000 - 16) false] demo_cpu (replicate 6 gdt_zero) demo_heap64_inv)
    as (p & np & h' & m' & bs' & H1 & H2 & _).
  - unfold is_u32. lia.
  - unfold is_u32. lia.
  - unfold is_u32. lia.
  - unfold is_u32. lia.
  - unfold is_u32. lia.
  - reflexivity.
  - split; [left; vm_compute; discriminate |]. intros i Hi Hp. rewrite demo_heap64_pde in Hp by exact Hi. discriminate Hp.
  - exists p, np, h', m', bs'. split; [exact H1 | exact H2].
Defined.

(** The same process, switched to from a thread whose control block is at
    0x208000 and whose stack is at 0x20A000. *)
Example demo_ring3 :
  (fun '(p, _, _, m') =>
     let r := st32 (st32 (m_ram m') 0x20A004 0x208000) 0x20A008 p in
     let (c1, r1) := context_switch (Cpu 1 2 3 4 0x20A000 0 0x105000 false) r in
     let '(c2, cs, ss) := run_iret_trampoline c1 r1 in
     (p, eip c1, (eip c2, esp c2, iflag c2, cr3 c2), cs, ss))
  <$> process_create_user 0x103000 0x40000000 0xBFFF0000 0x7000 1 (fst demo_heap64) (snd demo_heap64)
  = Some (0x200010, 0x103000, (0x40000000, 0xBFFF0000, true, 0x7000), 0x1B, Some 0x23).
Proof. vm_compute. reflexivity. Qed.
