(* ===== verification/Scheduler.v ===== *)
(** * Scheduler: the circular run queue and preemption (kernel/proc/scheduler.h, scheduler.c)

    The run queue is a ring of control blocks linked in RAM.  A tick that
    decides to switch ends in [context_switch(prev, next)]; the model returns
    that pair. *)
From stdpp Require Import strings.
From S2P Require Import Prelude Memory Machine Vga Console Heap Process Arch Timer.

(** The static variables of scheduler.c, with the timer and TSS it updates. *)
Record sched := Sched { current : Z; run_queue : Z; clock : timer; tss : ram }.

Definition set_current (c : Z) (s : sched) : sched := Sched c (run_queue s) (clock s) (tss s).
Definition set_run_queue (q : Z) (s : sched) : sched := Sched (current s) q (clock s) (tss s).
Definition set_clock (t : timer) (s : sched) : sched := Sched (current s) (run_queue s) t (tss s).
Definition set_tss (t : ram) (s : sched) : sched := Sched (current s) (run_queue s) (clock s) t.

Definition scheduler_add (p : Z) (s : sched) (m : mach) : sched * mach :=
  if p =? 0 then (s, m)
  else
    let m := set_state p PROC_READY m in
    if run_queue s =? 0 then (set_run_queue p s, set_next p p m)
    else
      let m := set_next p (p_next (run_queue s) (m_ram m)) m in
      (s, set_next (run_queue s) p m).

(** The search for the predecessor.  [None]: fuel exhausted. *)
Fixpoint find_prev (fuel : nat) (prev p rq : Z) (r : ram) : option Z :=
  if negb (p_next prev r =? p) && negb (p_next prev r =? rq) then
    match fuel with
    | O => None
    | S fuel' => find_prev fuel' (p_next prev r) p rq r
    end
  else Some prev.

Definition scheduler_remove (fuel : nat) (p : Z) (s : sched) (m : mach) : option (sched * mach) :=
  if (p =? 0) || (run_queue s =? 0) then Some (s, m)
  else
    prev ← find_prev fuel (run_queue s) p (run_queue s) (m_ram m);
    if negb (p_next prev (m_ram m) =? p) then Some (s, m)
    else
      let '(s, m) :=
        if p_next p (m_ram m) =? p then (set_run_queue 0 s, m)
        else
          let m := set_next prev (p_next p (m_ram m)) m in
          (if run_queue s =? p then set_run_queue (p_next p (m_ram m)) s else s, m) in
      Some (s, set_next p 0 m).

Definition scheduler_current (s : sched) : Z := current s.

(** [idle_fn] is the address of the idle thread's function; the parameters
    before it are those of [process_create]. *)
Definition scheduler_init (kernel_dir kthread_entry idle_fn next_pid : Z) (s : sched) (h : heap) (m : mach)
  : option (outcome (sched * Z * heap * mach)) :=
  '(idle, np, h, m) ← process_create kernel_dir kthread_entry idle_fn next_pid h m;
  if idle =? 0 then
    Some (khalt (klog (lit "[SCHED] FATAL: failed to create idle process" ++ nl) [] m))
  else
    let m := set_pid idle 0 m in
    let '(s, m) := scheduler_add idle s m in
    let s := set_current idle s in
    let m := set_state (current s) PROC_RUNNING m in
    Some (Ret (s, np, h, klog (lit "[SCHED] Scheduler initialised (idle PID 0)" ++ nl) [] m)).

(** The bounded walk to the next READY process: at most [fuel] steps. *)
Fixpoint find_ready (fuel : nat) (next cur : Z) (r : ram) : Z :=
  match fuel with
  | O => next
  | S fuel' =>
      if negb (p_state next r =? PROC_READY) && negb (next =? cur)
      then find_ready fuel' (p_next next r) cur r else next
  end.

Definition SEARCH_BOUND : nat := 64.

(** The new state, the machine, and the processes to switch between, if any. *)
Definition scheduler_tick (s : sched) (m : mach) : sched * mach * option (Z * Z) :=
  let s := set_clock (timer_tick (clock s)) s in
  if (run_queue s =? 0) || (current s =? 0) then (s, m, None)
  else
    let next := find_ready SEARCH_BOUND (p_next (current s) (m_ram m)) (current s) (m_ram m) in
    if next =? current s then (s, m, None)
    else if negb (p_state next (m_ram m) =? PROC_READY) then (s, m, None)
    else
      let m := if p_state (current s) (m_ram m) =? PROC_RUNNING
               then set_state (current s) PROC_READY m else m in
      let m := set_state next PROC_RUNNING m in
      let prev := current s in
      let s := set_current next s in
      let s := set_tss (tss_set_kernel_stack (p_kernel_stack_top (current s) (m_ram m)) (tss s)) s in
      (s, m, Some (prev, current s)).

(** ** Rings *)

(** [p] links to the processes of [rest] in order, the last one to [h]. *)
Fixpoint links (r : ram) (p : Z) (rest : list Z) (h : Z) : Prop :=
  match rest with
  | [] => p_next p r = h
  | q :: rest' => p_next p r = q /\ links r q rest' h
  end.

Definition is_proc (p : Z) : Prop := 0 < p /\ p + PROCESS_SIZE <= W32.

(** Distinct control blocks do not overlap. *)
Definition apart (p q : Z) : Prop := p + PROCESS_SIZE <= q \/ q + PROCESS_SIZE <= p.

Definition procs_wf (ps : list Z) : Prop :=
  Forall is_proc ps /\ NoDup ps /\ forall p q, In p ps -> In q ps -> p <> q -> apart p q.

(** The processes [ps] form a ring, in this order from the first. *)
Definition ring (r : ram) (ps : list Z) : Prop :=
  procs_wf ps /\ match ps with [] => True | p :: rest => links r p rest p end.

Lemma links_app r p l1 q l2 h : links r p (l1 ++ q :: l2) h <-> links r p l1 q /\ links r q l2 h.
Proof.
  revert p. induction l1 as [|x l1 IH]; intros p; cbn [app links]; [done |]. rewrite IH. tauto.
Qed.

Lemma procs_wf_perm ps ps' : ps ≡ₚ ps' -> procs_wf ps -> procs_wf ps'.
Proof.
  intros Hp (H1 & H2 & H3). split_and!; [by rewrite <- Hp | by rewrite <- Hp |].
  intros p q Hin Hin'. apply H3; by eapply Permutation_in; [symmetry |].
Qed.

(** A ring may be entered anywhere. *)
Lemma ring_rotate r l1 l2 : ring r (l1 ++ l2) -> ring r (l2 ++ l1).
Proof.
  intros [Hwf Hl]. split; [eapply procs_wf_perm; [| exact Hwf]; apply Permutation_app_comm |].
  destruct l1 as [|a l1]; [by rewrite app_nil_r; rewrite app_nil_l in Hl |].
  destruct l2 as [|b l2]; [by rewrite app_nil_r in Hl |]. cbn [app] in *.
  apply links_app in Hl as [H1 H2]. apply links_app. done.
Qed.

(** A write that keeps every link of the ring's members keeps the ring. *)
Lemma links_same r r' p rest h :
  (forall q, In q (p :: rest) -> p_next q r' = p_next q r) -> links r p rest h -> links r' p rest h.
Proof.
  revert p. induction rest as [|q rest IH]; intros p Hs; cbn [links].
  - rewrite Hs by (by left). done.
  - rewrite Hs by (by left). intros [H1 H2]. split; [done |]. apply IH; [| done]. intros x Hx. apply Hs. by right.
Qed.

Lemma ring_same r r' ps : (forall q, In q ps -> p_next q r' = p_next q r) -> ring r ps -> ring r' ps.
Proof. intros Hs [Hwf Hl]. split; [done |]. destruct ps; [done |]. by eapply links_same. Qed.

(** Fields of other processes survive a field update. *)
Lemma field_other r p q o o' v :
  apart p q -> 0 <= o <= 412 -> 0 <= o' <= 412 -> ld32 (st32 r (p + o) v) (q + o') = ld32 r (q + o').
Proof. unfold apart, PROCESS_SIZE. intros. rewrite ld32_st32_ne by lia. done. Qed.

Lemma apart_sym p q : apart p q -> apart q p.
Proof. unfold apart. tauto. Qed.

Lemma state_keeps_next r p q v : p = q \/ apart p q -> p_next q (st32 r (p + 20) v) = p_next q r.
Proof.
  intros [->|H]; unfold p_next; [by rewrite ld32_st32_ne by lia |]. by apply field_other; [| lia | lia].
Qed.

Lemma wf_apart ps p q : procs_wf ps -> In p ps -> In q ps -> p = q \/ apart p q.
Proof. intros (_ & _ & H) Hp Hq. destruct (Z.eq_dec p q); [by left | right; auto]. Qed.

(** ** Ticks *)

Definition ready (r : ram) (q : Z) : bool := p_state q r =? PROC_READY.

Lemma links_hd r p rest h : links r p rest h -> p_next p r = hd h rest.
Proof. destruct rest; cbn; tauto. Qed.

(** The walk finds the first READY process of the rest of the ring, or comes
    back to the current one. *)
Lemma find_ready_spec r p cur rest fuel :
  links r p rest cur -> ~ In cur rest -> (length rest <= fuel)%nat ->
  find_ready fuel (hd cur rest) cur r = default cur (List.find (ready r) rest).
Proof.
  revert p fuel. induction rest as [|q rest IH]; intros p fuel Hl Hn Hf; cbn [hd List.find].
  { destruct fuel; cbn [find_ready]; [done |]. rewrite Z.eqb_refl. cbn [negb]. by rewrite andb_false_r. }
  cbn [links] in Hl. destruct Hl as [_ Hl]. destruct fuel as [|fuel]; [cbn in Hf; lia |]. cbn [find_ready].
  unfold ready at 1. destruct (p_state q r =? PROC_READY); cbn [negb andb]; [done |].
  assert (Hq : (q =? cur) = false) by (apply Z.eqb_neq; intros ->; apply Hn; by left). rewrite Hq. cbn [negb].
  rewrite (links_hd _ _ _ _ Hl). apply (IH q); [done | | cbn in Hf; lia]. intros Hin. apply Hn. by right.
Qed.

(** The fields a tick leaves alone in every control block. *)
Definition same_pcb_but_state (r r' : ram) (q : Z) : Prop :=
  forall o, 0 <= o <= 412 -> o <= 16 \/ 24 <= o -> ld32 r' (q + o) = ld32 r (q + o).

Lemma set_state_other r p q v : p = q \/ apart p q -> same_pcb_but_state r (st32 r (p + 20) v) q.
Proof.
  intros [->|H] o Ho Ho'; [by rewrite ld32_st32_ne by lia |]. by apply field_other; [| lia |].
Qed.

Lemma p_state_set r p q v : 0 <= v < W32 -> p = q \/ apart p q ->
  p_state q (st32 r (p + 20) v) = if p =? q then v else p_state q r.
Proof.
  intros Hv Hpq. unfold p_state. destruct (Z.eqb_spec p q) as [->|Hne].
  - rewrite ld32_st32_eq. by apply u32_small.
  - destruct Hpq as [|Ha]; [done |]. by apply field_other; [| lia | lia].
Qed.

(** RAM after a tick that switches from [cur] to [nxt]. *)
Definition tick_ram (cur nxt : Z) (r : ram) : ram :=
  st32 (if p_state cur r =? PROC_RUNNING then st32 r (cur + 20) PROC_READY else r) (nxt + 20) PROC_RUNNING.

Lemma scheduler_tick_eq s m cur rest :
  current s = cur -> run_queue s <> 0 -> ring (m_ram m) (cur :: rest) -> (length rest <= SEARCH_BOUND)%nat ->
  let s1 := set_clock (timer_tick (clock s)) s in
  match List.find (ready (m_ram m)) rest with
  | None => scheduler_tick s m = (s1, m, None)
  | Some nxt => exists s' m', scheduler_tick s m = (s', m', Some (cur, nxt)) /\ current s' = nxt /\
      run_queue s' = run_queue s /\ clock s' = timer_tick (clock s) /\
      tss s' = tss_set_kernel_stack (p_kernel_stack_top nxt (m_ram m)) (tss s) /\
      m_ram m' = tick_ram cur nxt (m_ram m) /\ In nxt rest /\ p_state nxt (m_ram m) = PROC_READY
  end.
Proof.
  intros Hc Hrq [Hwf Hl] Hlen s1. pose proof Hwf as (Hp & Hnd & _). inversion Hnd as [|? ? Hnin _]; subst.
  rewrite list_elem_of_In in Hnin. inversion Hp as [|? ? Hcur _]; subst. destruct Hcur as [Hc0 _].
  unfold scheduler_tick. fold s1. change (run_queue s1) with (run_queue s). change (current s1) with (current s).
  replace ((run_queue s =? 0) || (current s =? 0)) with false by lia.
  rewrite (links_hd _ _ _ _ Hl), (find_ready_spec _ _ _ _ _ Hl Hnin Hlen).
  destruct (List.find (ready (m_ram m)) rest) as [nxt|] eqn:Hf; cbn [default from_option id];
    [| by rewrite Z.eqb_refl].
  apply List.find_some in Hf as [Hin Hrdy]. assert (Hne : nxt <> current s) by (intros ->; done).
  replace (nxt =? current s) with false by lia. unfold ready in Hrdy. rewrite Hrdy. cbn [negb].
  do 2 eexists. split; [reflexivity |]. cbn [set_tss set_current current run_queue clock tss s1 set_clock].
  assert (Hap : forall q, In q (current s :: rest) -> q = nxt \/ apart q nxt).
  { intros q Hq. eapply wf_apart; [exact Hwf | exact Hq | by right]. }
  assert (Htop : forall r v q, In q (current s :: rest) -> p_kernel_stack_top nxt (st32 r (q + 20) v) = p_kernel_stack_top nxt r).
  { intros r v q Hq. unfold p_kernel_stack_top. apply (set_state_other r q nxt v); [auto | lia | lia]. }
  split_and!; try done; [| |by apply Z.eqb_eq].
  - destruct (p_state (current s) (m_ram m) =? PROC_RUNNING); unfold set_state; rewrite !m_ram_mst32.
    + rewrite !Htop; [done | by left | by right].
    + rewrite Htop; [done | by right].
  - unfold tick_ram. destruct (p_state (current s) (m_ram m) =? PROC_RUNNING); done.
Qed.

(** The states after a switch. *)
Lemma tick_ram_spec r ps cur nxt :
  procs_wf ps -> In cur ps -> In nxt ps -> cur <> nxt ->
  let r' := tick_ram cur nxt r in
  p_state nxt r' = PROC_RUNNING /\
  p_state cur r' = (if p_state cur r =? PROC_RUNNING then PROC_READY else p_state cur r) /\
  (forall q, In q ps -> q <> cur -> q <> nxt -> p_state q r' = p_state q r) /\
  forall q, In q ps -> same_pcb_but_state r r' q.
Proof.
  intros Hwf Hc Hn Hne r'. unfold r', tick_ram.
  assert (Hap : forall p q, In p ps -> In q ps -> p = q \/ apart p q) by (intros; by eapply wf_apart).
  split_and!.
  - rewrite p_state_set, Z.eqb_refl by (done || by left). done.
  - rewrite p_state_set by (done || by apply Hap). replace (nxt =? cur) with false by lia.
    destruct (p_state cur r =? PROC_RUNNING); [| done]. by rewrite p_state_set, Z.eqb_refl by (done || by left).
  - intros q Hq H1 H2. rewrite p_state_set by (done || by apply Hap). replace (nxt =? q) with false by lia.
    destruct (p_state cur r =? PROC_RUNNING); [| done]. rewrite p_state_set by (done || by apply Hap).
    by replace (cur =? q) with false by lia.
  - intros q Hq o Ho Ho'. rewrite (set_state_other _ nxt q) by auto.
    destruct (p_state cur r =? PROC_RUNNING); [| done]. by rewrite (set_state_other _ cur q) by auto.
Qed.

(** C5. A timer tick on a well-formed ring of at most 65 processes picks the
    first READY process after the current one in ring order: it becomes
    current and RUNNING, the old one READY if it was RUNNING (a blocked or
    zombie process keeps its state), TSS.esp0 becomes the new process's kernel
    stack top, the switch goes from the old to the new process, and no other
    field of any process changes, so the ring is preserved; with nothing READY
    only the tick counter moves. *)
Theorem scheduler_tick_picks_next_ready (s : sched) (m : mach) (rest : list Z) :
  run_queue s <> 0 -> ring (m_ram m) (current s :: rest) -> (length rest <= SEARCH_BOUND)%nat ->
  let '(s', m', sw) := scheduler_tick s m in
  tick_count (clock s') = u32 (tick_count (clock s) + 1) /\ ring (m_ram m') (current s :: rest) /\
  match List.find (ready (m_ram m)) rest with
  | None => sw = None /\ current s' = current s /\ m' = m /\ tss s' = tss s
  | Some nxt => sw = Some (current s, nxt) /\ current s' = nxt /\ p_state nxt (m_ram m') = PROC_RUNNING /\
      p_state (current s) (m_ram m') =
        (if p_state (current s) (m_ram m) =? PROC_RUNNING then PROC_READY else p_state (current s) (m_ram m)) /\
      (forall q, In q rest -> q <> nxt -> p_state q (m_ram m') = p_state q (m_ram m)) /\
      (forall q, In q (current s :: rest) -> same_pcb_but_state (m_ram m) (m_ram m') q) /\
      ld32 (tss s') tss_esp0 = p_kernel_stack_top nxt (m_ram m)
  end.
Proof.
  intros Hrq Hring Hlen. pose proof (scheduler_tick_eq s m (current s) rest eq_refl Hrq Hring Hlen) as H.
  cbv zeta in H. destruct (List.find (ready (m_ram m)) rest) as [nxt|] eqn:Hf.
  2: { rewrite H. by split_and!. }
  destruct H as (s' & m' & -> & Hcur & _ & Hck & Htss & Hram & Hin & _). rewrite Hram, Hck, Htss.
  pose proof Hring as [Hwf _]. pose proof Hwf as (_ & Hnd & _). inversion Hnd as [|? ? Hnin _]; subst.
  rewrite list_elem_of_In in Hnin. assert (Hne : current s <> current s') by congruence.
  destruct (tick_ram_spec (m_ram m) _ (current s) (current s') Hwf ltac:(by left) ltac:(by right) Hne)
    as (H1 & H2 & H3 & H4).
  split; [done |]. split.
  { eapply ring_same; [| exact Hring]. intros q Hq. apply H4; [done | lia | lia]. }
  split; [done |]. split; [done |]. split; [exact H1 |]. split; [exact H2 |]. split; [| split; [exact H4 |]].
  - intros q Hq Hqn. apply H3; [by right | congruence | done].
  - unfold tss_set_kernel_stack. rewrite ld32_st32_eq. apply u32_small, ld32_range.
Qed.

(** Three processes: 0x1000 RUNNING and current, 0x2000 BLOCKED, 0x3000 READY. *)
Definition demo_sched : sched := Sched 0x1000 0x1000 timer0 ∅.
Definition demo_ring : mach :=
  set_next 0x3000 0x1000 (set_next 0x2000 0x3000 (set_next 0x1000 0x2000
    (set_kernel_stack_top 0x3000 0x9000 (set_state 0x2000 PROC_BLOCKED (set_state 0x1000 PROC_RUNNING mach0))))).

Lemma demo_ring_ok : ring (m_ram demo_ring) [0x1000; 0x2000; 0x3000].
Proof.
  split; [| vm_compute; auto]. split_and!.
  - repeat constructor; unfold is_proc, PROCESS_SIZE; lia.
  - apply (bool_decide_unpack _). vm_compute. exact I.
  - intros p q Hp Hq Hne. unfold apart, PROCESS_SIZE. cbn [In] in *. lia.
Qed.

Lemma scheduler_tick_picks_next_ready_witness :
  let '(s', m', sw) := scheduler_tick demo_sched demo_ring in
  sw = Some (0x1000, 0x3000) /\ p_state 0x3000 (m_ram m') = PROC_RUNNING.
Proof.
  pose proof (scheduler_tick_picks_next_ready demo_sched demo_ring [0x2000; 0x3000] ltac:(discriminate) demo_ring_ok
    ltac:(unfold SEARCH_BOUND; cbn; lia)) as H.
  destruct (scheduler_tick demo_sched demo_ring) as [[s' m'] sw]. destruct H as (_ & _ & H).
  assert (Hf : List.find (ready (m_ram demo_ring)) [0x2000; 0x3000] = Some 0x3000) by (vm_compute; reflexivity).
  rewrite Hf in H. destruct H as (H1 & _ & H2 & _). split; [exact H1 | exact H2].
Defined.

(** [n] ticks in a row. *)
Fixpoint run_ticks (n : nat) (s : sched) (m : mach) : sched * mach :=
  match n with
  | O => (s, m)
  | S n' => let '(s', m', _) := scheduler_tick s m in run_ticks n' s' m'
  end.

(** One tick when everybody else is READY: the ring advances by one. *)
Lemma tick_advances s m nxt rest :
  run_queue s <> 0 -> ring (m_ram m) (current s :: nxt :: rest) -> (length (nxt :: rest) <= SEARCH_BOUND)%nat ->
  p_state (current s) (m_ram m) = PROC_RUNNING ->
  (forall q, In q (nxt :: rest) -> p_state q (m_ram m) = PROC_READY) ->
  exists s' m' sw, scheduler_tick s m = (s', m', sw) /\ current s' = nxt /\ run_queue s' <> 0 /\
    ring (m_ram m') (nxt :: rest ++ [current s]) /\ p_state nxt (m_ram m') = PROC_RUNNING /\
    forall q, In q (rest ++ [current s]) -> p_state q (m_ram m') = PROC_READY.
Proof.
  intros Hrq Hring Hlen Hrun Hrdy.
  pose proof (scheduler_tick_eq s m (current s) (nxt :: rest) eq_refl Hrq Hring Hlen) as H. cbv zeta in H.
  assert (Hr : ready (m_ram m) nxt = true) by (unfold ready; rewrite Hrdy by (by left); done).
  cbn [List.find] in H. rewrite Hr in H.
  destruct H as (s' & m' & Heq & Hcur & Hrq' & _ & _ & Hram & _ & _).
  exists s', m', (Some (current s, nxt)). split; [exact Heq |]. split; [done |]. split; [congruence |].
  pose proof Hring as [Hwf _]. pose proof Hwf as (_ & Hnd & _).
  inversion Hnd as [|? ? Hnin Hnd']; subst. inversion Hnd' as [|? ? Hnin' _]; subst.
  rewrite list_elem_of_In in Hnin, Hnin'. assert (Hne : current s <> current s') by (intros E; apply Hnin; rewrite E; by left).
  destruct (tick_ram_spec (m_ram m) _ (current s) (current s') Hwf ltac:(by left) ltac:(right; by left) Hne)
    as (H1 & H2 & H3 & H4). rewrite <- Hram in H1, H2, H3, H4. split; [| split; [exact H1 |]].
  - change (current s' :: rest ++ [current s]) with ((current s' :: rest) ++ [current s]).
    apply (ring_rotate _ [current s]). eapply ring_same; [| exact Hring]. intros q Hq. apply H4; [done | lia | lia].
  - intros q Hq. apply in_app_iff in Hq as [Hq|[<-|[]]].
    + rewrite H3; [apply Hrdy; by right | right; by right | |].
      * intros ->. apply Hnin. by right.
      * intros ->. done.
    + by rewrite H2, Hrun.
Qed.

Lemma nth_rotate (a : Z) l k :
  nth (k mod length (l ++ [a])) (l ++ [a]) 0 = nth (S k mod length (a :: l)) (a :: l) 0.
Proof.
  rewrite length_app. cbn [length]. rewrite Nat.add_1_r. set (n := S (length l)).
  assert (Hn : (k mod n < n)%nat) by (apply Nat.mod_upper_bound; lia).
  destruct (Nat.eq_dec (k mod n) (length l)) as [E|E].
  - assert (Hs : (S k mod n = 0)%nat).
    { pose proof (Nat.div_mod_eq k n). apply Nat.Div0.mod_divides. exists (S (k / n)). lia. }
    rewrite Hs, E, app_nth2, Nat.sub_diag by lia. done.
  - assert (Hs : (S k mod n = S (k mod n))%nat).
    { pose proof (Nat.div_mod_eq k n). symmetry. apply (Nat.mod_unique _ _ (k / n)); lia. }
    rewrite Hs, app_nth1 by lia. done.
Qed.

(** C32. Round-robin fairness: with the current process RUNNING and every other
    process of a ring of [n] (at most 65) READY, the process holding the CPU
    after [k] ticks is the [k mod n]-th of the ring, so each process runs
    exactly once in every [n] consecutive ticks. *)
Theorem scheduler_round_robin (k : nat) (s : sched) (m : mach) (rest : list Z) :
  run_queue s <> 0 -> ring (m_ram m) (current s :: rest) -> (length rest <= SEARCH_BOUND)%nat ->
  p_state (current s) (m_ram m) = PROC_RUNNING ->
  (forall q, In q rest -> p_state q (m_ram m) = PROC_READY) ->
  current (fst (run_ticks k s m)) = nth (k mod length (current s :: rest)) (current s :: rest) 0.
Proof.
  revert s m rest. induction k as [|k IH]; intros s m rest Hrq Hring Hlen Hrun Hrdy.
  { cbn [run_ticks fst]. rewrite Nat.Div0.mod_0_l. done. }
  cbn [run_ticks]. destruct rest as [|nxt rest].
  - pose proof (scheduler_tick_eq s m (current s) [] eq_refl Hrq Hring ltac:(cbn; lia)) as H. cbv zeta in H.
    cbn [List.find] in H. rewrite H. rewrite (IH _ m []); done.
  - destruct (tick_advances s m nxt rest Hrq Hring Hlen Hrun Hrdy) as (s' & m' & sw & -> & Hc & Hq & Hr' & H1 & H2).
    rewrite (IH s' m' (rest ++ [current s])); rewrite ?Hc; try done.
    + change (nxt :: rest ++ [current s]) with ((nxt :: rest) ++ [current s]). apply nth_rotate.
    + rewrite length_app. cbn [length] in *. lia.
Qed.

(** Two runnable processes. *)
Definition demo_pair : mach :=
  set_next 0x2000 0x1000 (set_next 0x1000 0x2000 (set_state 0x1000 PROC_RUNNING mach0)).

Lemma demo_pair_ok : ring (m_ram demo_pair) [0x1000; 0x2000].
Proof.
  split; [| vm_compute; auto]. split_and!.
  - repeat constructor; unfold is_proc, PROCESS_SIZE; lia.
  - apply (bool_decide_unpack _). vm_compute. exact I.
  - intros p q Hp Hq Hne. unfold apart, PROCESS_SIZE. cbn [In] in *. lia.
Qed.

Lemma scheduler_round_robin_witness : current (fst (run_ticks 5 demo_sched demo_pair)) = 0x2000.
Proof.
  rewrite (scheduler_round_robin 5 demo_sched demo_pair [0x2000]); [reflexivity | discriminate | exact demo_pair_ok | | |].
  - unfold SEARCH_BOUND. cbn. lia.
  - vm_compute. reflexivity.
  - intros q [<-|[]]. vm_compute. reflexivity.
Defined.

(** ** Queue management *)

Lemma set_next_same r p q v : p <> q -> apart p q -> p_next q (st32 r (p + 28) v) = p_next q r.
Proof. intros Hne Ha. unfold p_next. by apply field_other; [| lia | lia]. Qed.

Lemma p_next_set r p v : 0 <= v < W32 -> p_next p (st32 r (p + 28) v) = v.
Proof. intros Hv. unfold p_next. rewrite ld32_st32_eq. by apply u32_small. Qed.

(** The bytes [scheduler_add] writes. *)
Lemma scheduler_add_frame p s m x :
  x < p + 20 \/ p + 32 <= x -> (run_queue s <> 0 -> x < run_queue s + 28 \/ run_queue s + 32 <= x) ->
  ld8 (m_ram (snd (scheduler_add p s m))) x = ld8 (m_ram m) x.
Proof.
  intros Hp Hq. unfold scheduler_add, set_state, set_next. destruct (p =? 0); [done |].
  destruct (Z.eqb_spec (run_queue s) 0); cbn [snd]; rewrite !m_ram_mst32, !ld8_st32_ne by lia; done.
Qed.

Lemma scheduler_add_spec (p : Z) (s : sched) (m : mach) (ps : list Z) :
  procs_wf (p :: ps) -> ring (m_ram m) ps -> run_queue s = hd 0 ps ->
  let (s', m') := scheduler_add p s m in
  let ps' := match ps with [] => [p] | h :: rest => h :: p :: rest end in
  ring (m_ram m') ps' /\ run_queue s' = hd 0 ps' /\ current s' = current s /\
  p_state p (m_ram m') = PROC_READY /\
  forall q, In q ps -> forall o, 0 <= o <= 24 -> ld32 (m_ram m') (q + o) = ld32 (m_ram m) (q + o).
Proof.
  intros Hwf [Hwf0 Hl] Hrq. pose proof Hwf as (Hp & Hnd & Hap). inversion Hp as [|? ? [Hp0 Hp1] _]; subst.
  inversion Hnd as [|? ? Hnin _]; subst. rewrite list_elem_of_In in Hnin. unfold PROCESS_SIZE in Hp1.
  unfold scheduler_add. replace (p =? 0) with false by lia. rewrite Hrq. unfold set_next, set_state.
  destruct ps as [|h rest]; cbn [hd].
  - cbn [Z.eqb]. rewrite !m_ram_mst32. split; [split; [done |]; cbn [links]; by apply p_next_set; lia |].
    split_and!; try done. unfold p_state. by rewrite ld32_st32_ne, ld32_st32_eq by lia.
  - assert (Hh : is_proc h) by (inversion Hp as [|? ? _ Hp']; by inversion Hp').
    destruct Hh as [Hh0 Hh1]. unfold PROCESS_SIZE in Hh1. replace (h =? 0) with false by lia. rewrite !m_ram_mst32.
    assert (Hph : p <> h) by (intros ->; apply Hnin; by left).
    assert (Haph : apart p h) by (apply Hap; [by left | right; by left | done]).
    assert (Hother : forall q, In q rest -> q <> h).
    { intros q Hq ->. destruct Hwf0 as (_ & Hnd0 & _). inversion Hnd0 as [|? ? Hn _]. rewrite list_elem_of_In in Hn. done. }
    set (r1 := st32 (m_ram m) (p + 20) PROC_READY).
    assert (Hnx : p_next h r1 = p_next h (m_ram m)) by (apply state_keeps_next; by right). rewrite Hnx.
    set (nx := p_next h (m_ram m)). assert (Hnxr : 0 <= nx < W32) by apply ld32_range.
    split; [split |].
    + eapply procs_wf_perm; [| exact Hwf]. apply perm_swap.
    + cbn [links]. split; [apply p_next_set; lia |].
      assert (Hpn : p_next p (st32 (st32 r1 (p + 28) nx) (h + 28) p) = nx).
      { rewrite set_next_same by (auto using apart_sym). by apply p_next_set. }
      assert (Hq : forall q, In q rest -> p_next q (st32 (st32 r1 (p + 28) nx) (h + 28) p) = p_next q (m_ram m)).
      { intros q Hq. assert (Hqp : q <> p) by (intros ->; apply Hnin; by right).
        rewrite set_next_same; [| by apply not_eq_sym, Hother |].
        2: { apply Hap; [right; by left | by right; right | by apply not_eq_sym, Hother]. }
        assert (Hpq : apart p q) by (apply Hap; [by left | by right; right | congruence]).
        rewrite set_next_same by (assumption || congruence). apply state_keeps_next. by right. }
      destruct rest as [|q rest]; cbn [links] in *; [by rewrite Hpn |].
      destruct Hl as [Hl1 Hl2]. split; [by rewrite Hpn |]. eapply links_same; [| exact Hl2]. exact Hq.
    + split_and!; try done.
      * unfold p_state. rewrite ld32_st32_ne by (unfold apart, PROCESS_SIZE in Haph; lia).
        rewrite ld32_st32_ne by lia. unfold r1. by rewrite ld32_st32_eq.
      * intros q Hq o Ho. assert (Hpq : apart p q).
        { apply Hap; [by left | by right |]. intros ->. done. }
        destruct (wf_apart _ h q Hwf0 ltac:(by left) Hq) as [->|Hhq].
        -- rewrite (ld32_st32_ne _ (q + 28)) by lia. unfold r1. by rewrite !field_other by (done || lia).
        -- unfold r1. by rewrite !field_other by (done || lia).
Qed.

(** [scheduler_add] inserts a new process right after the head of the ring
    (or makes it the only one), READY, leaving the order of the others and all
    their other fields unchanged. *)
Theorem scheduler_add_inserts (p : Z) (s : sched) (m : mach) (ps : list Z) :
  procs_wf (p :: ps) -> ring (m_ram m) ps -> run_queue s = hd 0 ps ->
  let (s', m') := scheduler_add p s m in
  let ps' := match ps with [] => [p] | h :: rest => h :: p :: rest end in
  ring (m_ram m') ps' /\ run_queue s' = hd 0 ps' /\ current s' = current s /\
  p_state p (m_ram m') = PROC_READY /\
  forall q, In q ps -> forall o, 0 <= o <= 24 -> ld32 (m_ram m') (q + o) = ld32 (m_ram m) (q + o).
Proof. apply scheduler_add_spec. Qed.

Lemma scheduler_add_inserts_witness :
  let (s', m') := scheduler_add 0x3000 demo_sched demo_pair in
  ring (m_ram m') [0x1000; 0x3000; 0x2000].
Proof.
  pose proof (scheduler_add_inserts 0x3000 demo_sched demo_pair [0x1000; 0x2000]) as H.
  destruct (scheduler_add 0x3000 demo_sched demo_pair) as [s' m']. apply H.
  - split_and!.
    + repeat constructor; unfold is_proc, PROCESS_SIZE; lia.
    + apply (bool_decide_unpack _). vm_compute. exact I.
    + intros p q Hp Hq Hne. unfold apart, PROCESS_SIZE. cbn [In] in *. lia.
  - exact demo_pair_ok.
  - reflexivity.
Defined.

(** ** Initialisation *)

(** With room for a thread, [scheduler_init] makes the idle thread: PID 0,
    RUNNING, current and alone in the run queue.  Only the heap changes. *)
Lemma scheduler_init_spec kdir kentry idle next_pid s h m bs p ks bs' :
  heap_inv h (m_ram m) bs -> is_u32 kdir -> is_u32 kentry -> is_u32 idle -> is_u32 next_pid -> run_queue s = 0 ->
  thread_fit (heap_start_addr h) bs = Some (p, ks, bs') ->
  exists h' m', scheduler_init kdir kentry idle next_pid s h m =
      Some (Ret (Sched p p (clock s) (tss s), u32 (next_pid + 1), h', m')) /\
    heap_inv h' (m_ram m') bs' /\ heap_kept h h' m m' /\ ring (m_ram m') [p] /\
    p_pid p (m_ram m') = 0 /\ p_state p (m_ram m') = PROC_RUNNING /\
    (exists sp, In (p, sp, true) (payloads (heap_start_addr h) bs') /\ PROCESS_SIZE <= sp) /\
    heap_start_addr h + 16 <= p /\ p + PROCESS_SIZE <= heap_end_addr h /\
    forall x, x < heap_start_addr h \/ heap_end_addr h <= x -> ld8 (m_ram m') x = ld8 (m_ram m) x.
Proof.
  intros Hinv Hd Hke Hid Hnp Hrq Hfit. unfold scheduler_init.
  destruct (process_create_cases kdir kentry idle next_pid h m bs Hinv Hd Hke Hid Hnp)
    as (p0 & np & h1 & m1 & bs1 & Hpc & Hinv1 & Hst & Hcase).
  pose proof (process_create_fit _ _ _ _ _ _ _ _ _ _ _ _ Hinv Hpc Hinv1) as Hf. rewrite Hfit in Hf.
  destruct (Z.eqb_spec p0 0) as [->|Hp0]; [done |]. injection Hf as <- Hks <-.
  destruct Hcase as [(? & _)|(ks' & _ & -> & Hnew & Hpid & Hks' & _)]; [done |].
  pose proof (process_create_kept _ _ _ _ _ _ _ _ _ _ Hpc) as Hkept.
  rewrite Hpc. cbn [mbind option_bind]. replace (p =? 0) with false by lia.
  unfold scheduler_add. replace (p =? 0) with false by lia. rewrite Hrq. cbn [Z.eqb current set_current set_run_queue].
  pose proof Hnew as (s1 & s2 & Hin & Hs1 & _ & _ & _ & Hlo & Hhi & _ & _ & _ & _ & Hout).
  pose proof Hinv as (_ & _ & H16 & He & _ & _ & _). unfold PROCESS_SIZE in Hs1.
  do 2 eexists. split; [reflexivity |]. rewrite m_ram_klog. unfold set_state, set_next, set_pid. rewrite !m_ram_mst32.
  set (r := st32 (st32 (st32 (st32 (m_ram m1) p 0) (p + 20) PROC_READY) (p + 28) p) (p + 20) PROC_RUNNING).
  assert (Hfr : forall x, x < p \/ p + s1 <= x -> ld8 (m_ram m1) x = ld8 r x).
  { intros x Hx. unfold r. by rewrite !ld8_st32_ne by lia. }
  split; [eapply heap_inv_payload; [exact Hinv1 | rewrite Hst; exact Hin | exact Hfr] |].
  split. { destruct Hkept as (K1 & K2 & K3). split; [done |]. split; [done |]. intros Hv. apply vga_wf_klog. exact (K3 Hv). }
  split.
  { split; [split_and!; [constructor; [unfold is_proc, PROCESS_SIZE; lia | done] | apply NoDup_singleton |] |].
    - intros x y [<-|[]] [<-|[]]; done.
    - cbn [links]. unfold p_next, r. rewrite ld32_st32_ne, ld32_st32_eq by lia. apply u32_small. lia. }
  split. { unfold p_pid, r. autorewrite with os. done. }
  split. { unfold p_state, r. by rewrite ld32_st32_eq. }
  split; [exists s1; split; [exact Hin | unfold PROCESS_SIZE; lia] |]. split; [done |]. split; [unfold PROCESS_SIZE; lia |].
  intros x Hx. rewrite <- Hfr by lia. symmetry. by apply Hout.
Qed.

(** ** Removal *)

(** The last of [a] and the elements of [l]; the part of [l] before [p]. *)
Fixpoint last_from (a : Z) (l : list Z) : Z := match l with [] => a | b :: l' => last_from b l' end.
Fixpoint before (p : Z) (l : list Z) : list Z :=
  match l with [] => [] | q :: l' => if q =? p then [] else q :: before p l' end.

Lemma last_from_app a l1 b l2 : last_from a (l1 ++ b :: l2) = last_from b l2.
Proof. revert a. induction l1 as [|x l1 IH]; intros a; cbn [app last_from]; [done | apply IH]. Qed.

Lemma last_from_in a l : In (last_from a l) (a :: l).
Proof. revert a. induction l as [|b l IH]; intros a; cbn [last_from]; [by left | right; apply IH]. Qed.

Lemma before_split p l1 l2 : ~ In p l1 -> before p (l1 ++ p :: l2) = l1.
Proof.
  induction l1 as [|x l1 IH]; intros Hn; cbn [app before]; [by rewrite Z.eqb_refl |].
  replace (x =? p) with false by (symmetry; apply Z.eqb_neq; intros ->; apply Hn; by left). f_equal. apply IH. intros H. apply Hn. by right.
Qed.

Lemma before_notin p l : ~ In p l -> before p l = l.
Proof.
  induction l as [|x l IH]; intros Hn; cbn [before]; [done |].
  replace (x =? p) with false by (symmetry; apply Z.eqb_neq; intros ->; apply Hn; by left). f_equal. apply IH. intros H. apply Hn. by right.
Qed.

(** The search ends at the predecessor of [p], or of the head when [p] is not
    in the ring. *)
Lemma find_prev_spec r prev rest rq p fuel :
  links r prev rest rq -> ~ In rq rest -> (length rest <= fuel)%nat ->
  find_prev fuel prev p rq r = Some (last_from prev (before p rest)).
Proof.
  revert prev fuel. induction rest as [|q rest IH]; intros prev fuel Hl Hn Hf; cbn [links] in Hl.
  - destruct fuel; cbn [find_prev before last_from]; by rewrite Hl, Z.eqb_refl, andb_false_r.
  - destruct Hl as [Hq Hl]. destruct fuel as [|fuel]; [cbn in Hf; lia |]. cbn [find_prev before]. rewrite Hq.
    replace (q =? rq) with false by (symmetry; apply Z.eqb_neq; intros ->; apply Hn; by left).
    destruct (q =? p); cbn [negb andb last_from]; [done |]. apply IH; [done | | cbn in Hf; lia]. intros H. apply Hn. by right.
Qed.

(** Linking the last but one process to [h]. *)
Lemma links_relink r a l p h h' :
  links r a (l ++ [p]) h -> procs_wf (a :: l) -> 0 <= h' < W32 -> links (st32 r (last_from a l + 28) h') a l h'.
Proof.
  revert a. induction l as [|b l IH]; intros a Hl Hwf Hh; cbn [app links last_from] in *; [by apply p_next_set |].
  destruct Hl as [Ha Hl]. pose proof Hwf as (Hp & Hnd & Hap). apply NoDup_cons in Hnd as [Hnin Hnd]. rewrite list_elem_of_In in Hnin.
  pose proof (last_from_in b l) as Hin. assert (Hne : last_from b l <> a) by (intros E; rewrite E in Hin; done).
  split; [rewrite set_next_same; [done | done |]; apply Hap; [by right | by left | done] |].
  apply IH; [done | | done]. apply Forall_cons in Hp as [_ Hp]. split; [done |]. split; [done |].
  intros x y Hx Hy. apply Hap; by right.
Qed.

(** Taking [p] out of the ring [a :: l ++ [p]]. *)
Lemma unlink_ring r a l p :
  ring r (a :: l ++ [p]) ->
  let r' := st32 (st32 r (last_from a l + 28) a) (p + 28) 0 in
  p_next p r = a /\ ring r' (a :: l) /\ p_next p r' = 0 /\
  forall x, (forall q, In q (a :: l ++ [p]) -> x < q + 28 \/ q + 32 <= x) -> ld8 r' x = ld8 r x.
Proof.
  intros [Hwf Hl] r'. pose proof Hwf as (Hp & Hnd & Hap).
  assert (Hwf' : procs_wf (a :: l)).
  { split; [| split].
    - change (a :: l ++ [p]) with ((a :: l) ++ [p]) in Hp. by apply Forall_app in Hp as [? _].
    - change (a :: l ++ [p]) with ((a :: l) ++ [p]) in Hnd. by apply NoDup_app in Hnd as [? _].
    - intros x y Hx Hy. apply Hap; change (a :: l ++ [p]) with ((a :: l) ++ [p]); apply in_app_iff; by left. }
  assert (Hpn : ~ In p (a :: l)).
  { intros Hin. change (a :: l ++ [p]) with ((a :: l) ++ [p]) in Hnd. apply NoDup_app in Hnd as (_ & H & _).
    apply (H p); [by apply list_elem_of_In | by apply list_elem_of_singleton]. }
  assert (Hpr : p_next p r = a) by (apply links_app in Hl as [_ Hl]; exact Hl).
  assert (Hpa : forall q, In q (a :: l) -> apart p q).
  { intros q Hq. apply Hap; [| | intros ->; done]; change (a :: l ++ [p]) with ((a :: l) ++ [p]); apply in_app_iff; [right; by left | by left]. }
  assert (Ha : 0 <= a < W32).
  { destruct Hwf' as (Hf & _). apply Forall_cons in Hf as [[H0 H1] _]. unfold PROCESS_SIZE in H1. lia. }
  split; [done |]. split; [| split].
  - split; [done |]. eapply (links_same (st32 r (last_from a l + 28) a)); [| by eapply links_relink].
    intros q Hq. unfold r'. rewrite set_next_same; [done | intros ->; done | by apply Hpa].
  - unfold r'. by apply p_next_set.
  - intros x Hx. unfold r'. pose proof (last_from_in a l) as Hin.
    assert (H1 : x < last_from a l + 28 \/ last_from a l + 32 <= x).
    { apply Hx. change (a :: l ++ [p]) with ((a :: l) ++ [p]). apply in_app_iff. by left. }
    assert (H2 : x < p + 28 \/ p + 32 <= x).
    { apply Hx. right. apply in_app_iff. right. by left. }
    rewrite !ld8_st32_ne by lia. done.
Qed.

Lemma links_last r a l p h : links r a (l ++ [p]) h -> p_next (last_from a l) r = p.
Proof. revert a. induction l as [|b l IH]; intros a; cbn [app links last_from]; [tauto |]. intros [_ H]. by apply IH. Qed.

Lemma remove_prev fuel p s m l1 l2 :
  ring (m_ram m) (l1 ++ p :: l2) -> run_queue s = hd 0 (l1 ++ p :: l2) -> (length (l1 ++ l2) <= fuel)%nat ->
  find_prev fuel (run_queue s) p (run_queue s) (m_ram m) = Some (last_from p (l2 ++ l1)) /\ 0 < run_queue s.
Proof.
  intros Hring Hrq Hf. pose proof Hring as [(Hp & Hnd & Hap) _].
  apply NoDup_app in Hnd as (Hnd1 & Hdis & Hnd2). apply NoDup_cons in Hnd2 as [Hn2 Hnd2].
  assert (Hn1 : ~ In p l1) by (intros H; apply (Hdis p); [by apply list_elem_of_In | apply list_elem_of_here]).
  rewrite list_elem_of_In in Hn2. rewrite Hrq. destruct l1 as [|h l1]; cbn [app hd] in *.
  - apply Forall_cons in Hp as [[? _] _]. rewrite (find_prev_spec _ _ l2) by (apply Hring || done).
    rewrite before_notin by done. by rewrite app_nil_r.
  - apply NoDup_cons in Hnd1 as [Hnh _]. apply Forall_cons in Hp as [[Hh0 _] _]. split; [| done].
    rewrite (find_prev_spec _ _ (l1 ++ p :: l2)); [| apply Hring | | cbn [length] in Hf; rewrite length_app in Hf |- *; cbn [length]; lia].
    + rewrite before_split by (intros H; apply Hn1; by right). by rewrite last_from_app.
    + rewrite in_app_iff. intros [H|[H|H]]; [by apply Hnh, list_elem_of_In | apply Hn1; by left |].
      apply (Hdis h); [apply list_elem_of_here | by apply list_elem_of_further, list_elem_of_In].
Qed.

Lemma scheduler_remove_spec fuel p s m l1 l2 :
  ring (m_ram m) (l1 ++ p :: l2) -> run_queue s = hd 0 (l1 ++ p :: l2) -> (length (l1 ++ l2) <= fuel)%nat ->
  exists s' m', scheduler_remove fuel p s m = Some (s', m') /\ ring (m_ram m') (l1 ++ l2) /\
    run_queue s' = hd 0 (l1 ++ l2) /\ current s' = current s /\ p_next p (m_ram m') = 0 /\
    forall x, (forall q, In q (l1 ++ p :: l2) -> x < q + 28 \/ q + 32 <= x) -> ld8 (m_ram m') x = ld8 (m_ram m) x.
Proof.
  intros Hring Hrq Hf. pose proof Hring as [(Hp & Hnd & Hap) _].
  apply NoDup_app in Hnd as (Hnd1 & Hdis & Hnd2). apply NoDup_cons in Hnd2 as [Hn2 Hnd2].
  assert (Hn1 : ~ In p l1) by (intros H; apply (Hdis p); [by apply list_elem_of_In | apply list_elem_of_here]).
  rewrite list_elem_of_In in Hn2. assert (Hp0 : 0 < p) by (apply Forall_app in Hp as [_ Hp]; apply Forall_cons in Hp as [[? _] _]; done).
  destruct (remove_prev fuel p s m l1 l2 Hring Hrq Hf) as [Hprev Hrq0]. unfold scheduler_remove. replace ((p =? 0) || (run_queue s =? 0)) with false by lia.
  rewrite Hprev. cbn [mbind option_bind].
  assert (Hrot : ring (m_ram m) ((l2 ++ l1) ++ [p])).
  { rewrite <- app_assoc. apply ring_rotate. by rewrite <- app_assoc. }
  destruct (l2 ++ l1) as [|a l] eqn:El.
  - apply app_eq_nil in El as [-> ->]. cbn [app last_from] in *. destruct Hring as [_ Hl]. cbn [links] in Hl. rewrite Hl, Z.eqb_refl. cbn [negb].
    do 2 eexists. split; [reflexivity |]. unfold set_next. rewrite m_ram_mst32. split; [done |]. split; [done |]. split; [done |].
    split; [by apply p_next_set |]. intros x Hx. specialize (Hx p ltac:(by left)). by rewrite ld8_st32_ne by lia.
  - destruct (unlink_ring (m_ram m) a l p Hrot) as (Hpa & Hr' & Hp' & Hfr). cbn [last_from].
    rewrite (links_last (m_ram m) a l p a) by apply Hrot. rewrite Z.eqb_refl, Hpa. cbn [negb].
    assert (Hin : forall q, In q (a :: l ++ [p]) <-> In q (l1 ++ p :: l2)).
    { intros q. change (a :: l ++ [p]) with ((a :: l) ++ [p]). rewrite <- El, !in_app_iff. cbn [In]. tauto. }
    assert (Hlast : last_from a l <> p /\ apart (last_from a l) p).
    { pose proof (last_from_in a l) as H. assert (Hne : last_from a l <> p); [| split; [done |]; apply Hap; [| | done]].
      - intros E. rewrite E, <- El in H. apply in_app_iff in H as [H|H]; done.
      - apply Hin. change (a :: l ++ [p]) with ((a :: l) ++ [p]). apply in_app_iff. by left.
      - apply in_app_iff. right. by left. }
    destruct Hlast as [Hlne Hlap]. assert (Hne : a <> p).
    { intros ->. assert (Hi : In p (l2 ++ l1)) by (rewrite El; by left). apply in_app_iff in Hi as [H|H]; done. }
    replace (a =? p) with false by lia. do 2 eexists. split; [reflexivity |]. unfold set_next. rewrite !m_ram_mst32.
    split; [apply ring_rotate; rewrite El; exact Hr' |]. split; [| split; [by destruct (run_queue s =? p) |]].
    + rewrite set_next_same, Hpa by done. rewrite Hrq. destruct l1 as [|h l1]; cbn [app hd] in *.
      * rewrite Z.eqb_refl. rewrite app_nil_r in El. by rewrite El.
      * replace (h =? p) with false by (symmetry; apply Z.eqb_neq; intros ->; apply Hn1; by left). done.
    + split; [exact Hp' |]. intros x Hx. apply Hfr. intros q Hq. by apply Hx, Hin.
Qed.

Lemma links_last_next r a l h : links r a l h -> p_next (last_from a l) r = h.
Proof. revert a. induction l as [|b l IH]; intros a; cbn [links last_from]; [done |]. intros [_ H]. by apply IH. Qed.

(** [scheduler_remove] terminates on a well-formed ring and takes exactly
    the given process out: the others stay linked in the same order, the head
    moves to the successor when it was the head (and becomes NULL with the last
    process), the removed process's link is cleared, the current process is
    kept and no byte but [next] fields changes; a process that is not queued,
    or NULL, changes nothing. *)
Theorem scheduler_remove_unlinks (fuel : nat) (p : Z) (s : sched) (m : mach) (ps : list Z) :
  ring (m_ram m) ps -> run_queue s = hd 0 ps -> (length ps <= S fuel)%nat ->
  (~ In p ps -> scheduler_remove fuel p s m = Some (s, m)) /\
  forall l1 l2, ps = l1 ++ p :: l2 ->
    exists s' m', scheduler_remove fuel p s m = Some (s', m') /\ ring (m_ram m') (l1 ++ l2) /\
      run_queue s' = hd 0 (l1 ++ l2) /\ current s' = current s /\ p_next p (m_ram m') = 0 /\
      forall x, (forall q, In q ps -> x < q + 28 \/ q + 32 <= x) -> ld8 (m_ram m') x = ld8 (m_ram m) x.
Proof.
  intros Hring Hrq Hf. split.
  - intros Hn. unfold scheduler_remove. destruct (Z.eqb_spec p 0); [done |]. destruct (Z.eqb_spec (run_queue s) 0); [done |]. cbn [orb].
    destruct ps as [|h rest]; [done |]. cbn [hd] in Hrq. rewrite Hrq in *. pose proof Hring as [(_ & Hnd & _) Hl].
    apply NoDup_cons in Hnd as [Hnh _]. rewrite list_elem_of_In in Hnh.
    rewrite (find_prev_spec _ _ rest), before_notin by (done || (cbn [length] in Hf; lia) || (intros H; apply Hn; by right)).
    cbn [mbind option_bind]. rewrite (links_last_next _ _ _ _ Hl).
    replace (h =? p) with false by (symmetry; apply Z.eqb_neq; intros ->; apply Hn; by left). done.
  - intros l1 l2 ->. apply scheduler_remove_spec; [done | done |]. rewrite length_app in *. cbn [length] in Hf. lia.
Qed.

Lemma scheduler_remove_unlinks_witness :
  exists s' m', scheduler_remove 2 0x1000 demo_sched demo_ring = Some (s', m') /\ ring (m_ram m') [0x2000; 0x3000] /\
    run_queue s' = 0x2000.
Proof.
  destruct (scheduler_remove_unlinks 2 0x1000 demo_sched demo_ring [0x1000; 0x2000; 0x3000] demo_ring_ok eq_refl) as [_ H].
  - cbn. lia.
  - destruct (H [] [0x2000; 0x3000] eq_refl) as (s' & m' & H1 & H2 & H3 & _).
    exists s', m'. split; [exact H1 |]. split; [exact H2 | exact H3].
Defined.
