(* ===== verification/Syscall.v ===== *)
(** * Syscall: the system call layer (kernel/syscall/syscall.c, syscall_table.h)

    A system call is a function of the kernel state: scheduler, keyboard,
    mounted filesystem with its state, frame allocator and machine.  Calls that
    wait for the keyboard take the sequence of interrupts that will arrive. *)
From stdpp Require Import strings.
From S2P Require Import Prelude Memory Machine Vga Console Multiboot Pmm Heap Vfs Ramfs Arch Keyboard Timer Process Scheduler.

Definition SYS_EXIT := 1.
Definition SYS_WRITE := 2.
Definition SYS_READ := 3.
Definition SYS_OPEN := 4.
Definition SYS_CLOSE := 5.
Definition SYS_GETPID := 6.
Definition SYS_READDIR := 7.
Definition SYS_UPTIME := 8.
Definition SYS_MEMINFO := 9.
Definition SYS_PS := 10.
Definition SYS_MAX := 10.

(** The state a system call can reach; [irqs] are the interrupts to come. *)
Record kstate (F : Type) := K {
  k_sched : sched; k_kbd : kbd; k_vfs : vfs F; k_fs : F; k_pmm : pmm; k_irqs : list wake; k_mach : mach;
}.
Arguments K {F} _ _ _ _ _ _ _.
Arguments k_sched {F} _.
Arguments k_kbd {F} _.
Arguments k_vfs {F} _.
Arguments k_fs {F} _.
Arguments k_pmm {F} _.
Arguments k_irqs {F} _.
Arguments k_mach {F} _.

(** How a call ends. *)
Inductive result (A F : Type) :=
| Done (a : A) (k : kstate F)                     (** returns [a] *)
| Blocks                                          (** waits for input that never arrives *)
| Undef                                           (** undefined behaviour *)
| Exits (k : kstate F) (sw : option (Z * Z)).     (** never returns: switched away, or halted *)
Arguments Done {A F} a k.
Arguments Blocks {A F}.
Arguments Undef {A F}.
Arguments Exits {A F} k sw.

Section Calls.
Context {F : Type}.
Implicit Types (k : kstate F).

Definition upd_mach (f : mach -> mach) k : kstate F :=
  K (k_sched k) (k_kbd k) (k_vfs k) (k_fs k) (k_pmm k) (k_irqs k) (f (k_mach k)).
Definition upd_fs (fs : F) k : kstate F :=
  K (k_sched k) (k_kbd k) (k_vfs k) fs (k_pmm k) (k_irqs k) (k_mach k).
Definition k_ram k : ram := m_ram (k_mach k).
Definition cur_proc k : Z := scheduler_current (k_sched k).

(** [!cur || fd >= MAX_FDS || !cur->fd_table[fd].in_use || file_idx < 0], negated. *)
Definition fd_usable (fd : Z) k : bool :=
  let cur := cur_proc k in
  negb (cur =? 0) && (fd <? MAX_FDS) && ctrue (fd_in_use cur fd (k_ram k)) &&
  (0 <=? fd_file_idx cur fd (k_ram k)).

(** [cur->fd_table[fd].offset += n] *)
Definition advance (fd n : Z) k : kstate F :=
  let cur := cur_proc k in
  upd_mach (set_fd_offset cur fd (u32 (fd_offset cur fd (k_ram k) + n))) k.

Definition sys_write (fd buf len : Z) k : result Z F :=
  if (fd =? 1) || (fd =? 2) then
    Done (s32 len)
      (upd_mach (for_ 0 len (fun i m => vga_putchar (ld8 (m_ram m) (u32 (buf + i))) m)) k)
  else if negb (fd_usable fd k) then Done (-1) k
  else
    let cur := cur_proc k in
    match vfs_write (k_vfs k) (fd_file_idx cur fd (k_ram k)) buf (fd_offset cur fd (k_ram k)) len
                    (k_ram k) (k_fs k) with
    | None => Undef
    | Some (written, fs) =>
        let k := upd_fs fs k in
        Done written (if 0 <? written then advance fd written k else k)
    end.

(** [for (i = 0; i < len; i++) buf[i] = keyboard_getchar();], the clock running
    while it waits. *)
Fixpoint read_stdin (n : nat) (buf i : Z) k : option (kstate F) :=
  match n with
  | O => Some k
  | S n' =>
      '(c, kb, irqs, t, m) ← keyboard_getchar (k_irqs k) (k_kbd k) (clock (k_sched k)) (k_mach k);
      read_stdin n' buf (i + 1)
        (K (set_clock t (k_sched k)) kb (k_vfs k) (k_fs k) (k_pmm k) irqs (mst8 (u32 (buf + i)) c m))
  end.

Definition sys_read (fd buf len : Z) k : result Z F :=
  if fd =? 0 then
    match read_stdin (Z.to_nat len) buf 0 k with
    | Some k' => Done (s32 len) k'
    | None => Blocks
    end
  else if negb (fd_usable fd k) then Done (-1) k
  else
    let cur := cur_proc k in
    let '(n, r) := vfs_read (k_vfs k) (fd_file_idx cur fd (k_ram k)) buf (fd_offset cur fd (k_ram k)) len
                            (k_fs k) (k_ram k) in
    let k := upd_mach (set_ram (fun _ => r)) k in
    Done n (if 0 <? n then advance fd n k else k).

(** The first unused descriptor from [i] on, -1 if none. *)
Fixpoint find_fd (n : nat) (i cur : Z) (r : ram) : Z :=
  match n with
  | O => -1
  | S n' => if negb (ctrue (fd_in_use cur i r)) then i else find_fd n' (i + 1) cur r
  end.

Definition set_fd (cur fd file_idx offset in_use : Z) (m : mach) : mach :=
  set_fd_in_use cur fd in_use (set_fd_offset cur fd offset (set_fd_file_idx cur fd file_idx m)).

(** The path argument as a C string of at most 4096 characters. *)
Definition PATH_FUEL : nat := Z.to_nat 4096.

Definition sys_open (path : Z) k : result Z F :=
  let cur := cur_proc k in
  if cur =? 0 then Done (-1) k
  else
    let fd := find_fd (Z.to_nat (MAX_FDS - 3)) 3 cur (k_ram k) in
    if fd <? 0 then Done (-1) k
    else
      let file_idx := vfs_open (k_vfs k) (cstr_at PATH_FUEL (k_ram k) path) (k_fs k) in
      if file_idx <? 0 then Done (-1) k
      else Done fd (upd_mach (set_fd cur fd file_idx 0 1) k).

Definition sys_close (fd : Z) k : result Z F :=
  let cur := cur_proc k in
  if (cur =? 0) || (fd <? 3) || (MAX_FDS <=? fd) then Done (-1) k
  else if negb (ctrue (fd_in_use cur fd (k_ram k))) then Done (-1) k
  else
    let _ := vfs_close (k_vfs k) (fd_file_idx cur fd (k_ram k)) (k_fs k) in
    Done 0 (upd_mach (fun m => set_fd_offset cur fd 0 (set_fd_file_idx cur fd (-1) (set_fd_in_use cur fd 0 m))) k).

Definition sys_exit (code : Z) k : result Z F :=
  let cur := cur_proc k in
  let m := if cur =? 0 then k_mach k
           else set_exit_code cur code (set_state cur PROC_ZOMBIE (k_mach k)) in
  let '(s, m, sw) := scheduler_tick (k_sched k) m in
  let m := match sw with None => do_io CliHlt m | Some _ => m end in
  Exits (K s (k_kbd k) (k_vfs k) (k_fs k) (k_pmm k) (k_irqs k) m) sw.

Definition sys_getpid k : Z := if cur_proc k =? 0 then 0 else p_pid (cur_proc k) (k_ram k).

Definition sys_readdir (entries max : Z) k : result Z F :=
  let '(n, r) := vfs_readdir (k_vfs k) entries max (k_fs k) (k_ram k) in
  Done n (upd_mach (set_ram (fun _ => r)) k).

Definition sys_uptime k : result Z F :=
  match timer_get_seconds (clock (k_sched k)) with Some t => Done t k | None => Undef end.

Definition sys_meminfo (info : Z) k : result Z F :=
  if info =? 0 then Done (-1) k
  else
    Done 0 (upd_mach (fun m =>
      mst32 (info + 8) (pmm_get_used_pages (k_pmm k))
        (mst32 (info + 4) (pmm_get_free_pages (k_pmm k))
          (mst32 info (pmm_get_total_pages (k_pmm k)) m))) k).

(** One iteration stores an entry; at most [max] iterations run. *)
Fixpoint ps_loop (fuel : nat) (entries max count p cur : Z) (r : ram) : Z * ram :=
  match fuel with
  | O => (count, r)
  | S fuel' =>
      let '(count, r) :=
        if count <? max
        then (count + 1, st32 (st32 r (u32 (entries + 8 * count)) (p_pid p r))
                              (u32 (entries + 8 * count + 4))
                              (p_state p (st32 r (u32 (entries + 8 * count)) (p_pid p r))))
        else (count, r) in
      let p := p_next p r in
      if ctrue p && negb (p =? cur) && (count <? max)
      then ps_loop fuel' entries max count p cur r else (count, r)
  end.

Definition sys_ps (entries max : Z) k : result Z F :=
  if (entries =? 0) || (max <=? 0) then Done (-1) k
  else
    let cur := cur_proc k in
    if cur =? 0 then Done 0 k
    else
      let '(n, r) := ps_loop (Z.to_nat max) entries max 0 cur cur (k_ram k) in
      Done n (upd_mach (set_ram (fun _ => r)) k).

(** The value returned to user space in EAX. *)
Definition ret_eax (g : registers_t) (res : result Z F) : result registers_t F :=
  match res with
  | Done v k => Done (set_eax (u32 v) g) k
  | Blocks => Blocks
  | Undef => Undef
  | Exits k sw => Exits k sw
  end.

Definition syscall_handler (g : registers_t) k : result registers_t F :=
  let num := r_eax g in
  if num =? SYS_WRITE then ret_eax g (sys_write (r_ebx g) (r_ecx g) (r_edx g) k)
  else if num =? SYS_READ then ret_eax g (sys_read (r_ebx g) (r_ecx g) (r_edx g) k)
  else if num =? SYS_OPEN then ret_eax g (sys_open (r_ebx g) k)
  else if num =? SYS_CLOSE then ret_eax g (sys_close (r_ebx g) k)
  else if num =? SYS_EXIT then ret_eax g (sys_exit (s32 (r_ebx g)) k)
  else if num =? SYS_GETPID then Done (set_eax (sys_getpid k) g) k
  else if num =? SYS_READDIR then ret_eax g (sys_readdir (r_ebx g) (s32 (r_ecx g)) k)
  else if num =? SYS_UPTIME then ret_eax g (sys_uptime k)
  else if num =? SYS_MEMINFO then ret_eax g (sys_meminfo (r_ebx g) k)
  else if num =? SYS_PS then ret_eax g (sys_ps (r_ebx g) (s32 (r_ecx g)) k)
  else Done (set_eax (u32 (-1)) g) k.
End Calls.

Definition syscall_init (m : mach) : mach :=
  let m := klog (lit "[SYSCALL] System call interface ready (int 0x80, %d syscalls)" ++ nl) [AInt SYS_MAX] m in
  debug_print (lit "[serial] Syscall init" ++ nl) m.

(** ** Descriptors *)

Section Fds.
Context (cur : Z) (Hcur : is_proc cur).

(** The three fields of descriptor [i]. *)
Definition fd_is (r : ram) (i file_idx offset in_use : Z) : Prop :=
  fd_file_idx cur i r = file_idx /\ fd_offset cur i r = offset /\ fd_in_use cur i r = in_use.

(** Two memories agree on everything but descriptor [i]. *)
Definition same_but_fd (i : Z) (r r' : ram) : Prop :=
  forall x, x < fd_addr cur i \/ fd_addr cur i + FD_SIZE <= x -> ld8 r' x = ld8 r x.

Lemma same_but_fd_other i j r r' : same_but_fd i r r' -> i <> j ->
  fd_file_idx cur j r' = fd_file_idx cur j r /\ fd_offset cur j r' = fd_offset cur j r /\
  fd_in_use cur j r' = fd_in_use cur j r.
Proof using.
  intros Hs Hne. unfold fd_file_idx, fd_offset, fd_in_use, ld32, fd_addr, FD_SIZE in *.
  rewrite !Hs by (unfold fd_addr, FD_SIZE; lia). done.
Qed.

Lemma same_but_fd_word i r r' x : same_but_fd i r r' -> 0 <= i ->
  x + 4 <= cur + 32 \/ cur + 32 + FD_SIZE * (i + 1) <= x -> ld32 r' x = ld32 r x.
Proof using.
  intros Hs Hi Hx. unfold ld32, fd_addr, FD_SIZE in *. rewrite !Hs by (unfold fd_addr, FD_SIZE; lia). done.
Qed.

Lemma set_fd_spec m fd file_idx offset in_use :
  is_s32 file_idx -> is_u32 offset -> is_u8 in_use ->
  let m' := set_fd cur fd file_idx offset in_use m in
  fd_is (m_ram m') fd file_idx offset in_use /\ same_but_fd fd (m_ram m) (m_ram m').
Proof using.
  intros Hf Ho Hu m'. unfold m', set_fd, set_fd_in_use, set_fd_offset, set_fd_file_idx.
  rewrite m_ram_mst8, !m_ram_mst32. split.
  - unfold fd_is, fd_file_idx, fd_offset, fd_in_use, is_u32, is_u8 in *. autorewrite with os.
    rewrite ?(u32_small offset), ?(u8_small in_use), ?s32_u32 by (done || lia). done.
  - intros x Hx. unfold FD_SIZE in Hx. by rewrite ld8_st8_ne, !ld8_st32_ne by lia.
Qed.

Lemma close_fd_spec m fd :
  let m' := set_fd_offset cur fd 0 (set_fd_file_idx cur fd (-1) (set_fd_in_use cur fd 0 m)) in
  fd_is (m_ram m') fd (-1) 0 0 /\ same_but_fd fd (m_ram m) (m_ram m').
Proof using.
  intros m'. unfold m', set_fd_in_use, set_fd_offset, set_fd_file_idx. rewrite !m_ram_mst32, m_ram_mst8. split.
  - unfold fd_is, fd_file_idx, fd_offset, fd_in_use. autorewrite with os.
    rewrite ?s32_u32 by (unfold is_s32; lia). done.
  - intros x Hx. unfold FD_SIZE in Hx. by rewrite !ld8_st32_ne, ld8_st8_ne by lia.
Qed.

Lemma find_fd_spec n i r :
  let k := find_fd n i cur r in
  (k = -1 /\ forall j, i <= j < i + Z.of_nat n -> ctrue (fd_in_use cur j r) = true) \/
  (i <= k < i + Z.of_nat n /\ ctrue (fd_in_use cur k r) = false /\
   forall j, i <= j < k -> ctrue (fd_in_use cur j r) = true).
Proof using.
  revert i. induction n as [|n IH]; intros i; cbn [find_fd]; [left; split; [done | lia] |].
  destruct (ctrue (fd_in_use cur i r)) eqn:E; cbn [negb]; [| right; split_and!; try done; lia].
  destruct (IH (i + 1)) as [[-> Hn]|(Hr & Hp & Hn)]; [left | right]; (split_and!; try done; try lia);
    intros j Hj; (destruct (Z.eq_dec j i) as [->|]; [done | apply Hn; lia]).
Qed.
End Fds.

(** C30. [sys_open] fails with -1, changing nothing, when all descriptors from 3
    up are taken or the path is not found; otherwise it returns the lowest free
    descriptor from 3 up, bound to the file at offset 0, touching no other byte
    of RAM; closing it then returns 0 and frees exactly that descriptor, and
    closing it twice fails.  [MAX_FDS] is the 32 of process.h:25, so descriptors
    up to 31 are handed out; docs/syscalls.md and docs/filesystem.md give 16. *)
Theorem sys_open_close_roundtrip {F} (path : Z) (k : kstate F) :
  let cur := cur_proc k in
  is_proc cur ->
  is_s32 (vfs_open (k_vfs k) (cstr_at PATH_FUEL (k_ram k) path) (k_fs k)) ->
  (sys_open path k = Done (-1) k /\
     ((forall j, 3 <= j < MAX_FDS -> ctrue (fd_in_use cur j (k_ram k)) = true) \/
      vfs_open (k_vfs k) (cstr_at PATH_FUEL (k_ram k) path) (k_fs k) < 0)) \/
  exists fd k1, sys_open path k = Done fd k1 /\ 3 <= fd < MAX_FDS /\
    ctrue (fd_in_use cur fd (k_ram k)) = false /\
    (forall j, 3 <= j < fd -> ctrue (fd_in_use cur j (k_ram k)) = true) /\
    fd_is cur (k_ram k1) fd (vfs_open (k_vfs k) (cstr_at PATH_FUEL (k_ram k) path) (k_fs k)) 0 1 /\
    same_but_fd cur fd (k_ram k) (k_ram k1) /\ fd_usable fd k1 = true /\
    exists k2, sys_close fd k1 = Done 0 k2 /\ fd_is cur (k_ram k2) fd (-1) 0 0 /\
      same_but_fd cur fd (k_ram k1) (k_ram k2) /\ sys_close fd k2 = Done (-1) k2.
Proof.
  intros cur [Hc0 Hc1] Hs. set (idx := vfs_open _ _ _) in *. unfold sys_open. fold cur idx.
  replace (cur =? 0) with false by lia.
  destruct (find_fd_spec cur (Z.to_nat (MAX_FDS - 3)) 3 (k_ram k)) as [[-> Hall]|(Hr & Hfree & Hlow)].
  { left. split; [done |]. left. intros j Hj. apply Hall. unfold MAX_FDS in *. lia. }
  set (fd := find_fd _ 3 cur (k_ram k)) in *. unfold MAX_FDS in *. replace (fd <? 0) with false by lia.
  destruct (Z.ltb_spec idx 0) as [Hneg|Hpos]; [left; split; [done | by right] |]. right.
  destruct (set_fd_spec cur (k_mach k) fd idx 0 1 Hs ltac:(unfold is_u32; lia) ltac:(unfold is_u8; lia)) as [Hfd Hsame].
  set (k1 := upd_mach (set_fd cur fd idx 0 1) k). exists fd, k1. split; [done |]. split; [lia |].
  split; [done |]. split; [done |]. split; [exact Hfd |]. split; [exact Hsame |].
  pose proof Hfd as (Hf1 & Hf2 & Hf3). split.
  { unfold fd_usable. change (cur_proc k1) with cur. change (k_ram k1) with (m_ram (set_fd cur fd idx 0 1 (k_mach k))).
    rewrite Hf1, Hf3. unfold MAX_FDS, ctrue. lia. }
  unfold sys_close at 1. change (cur_proc k1) with cur. change (k_ram k1) with (m_ram (set_fd cur fd idx 0 1 (k_mach k))).
  rewrite Hf3. unfold MAX_FDS. replace ((cur =? 0) || (fd <? 3) || (32 <=? fd)) with false by lia. cbn [ctrue Z.eqb negb].
  destruct (close_fd_spec cur (k_mach k1) fd) as [Hfd2 Hsame2].
  eexists. split; [reflexivity |]. split; [exact Hfd2 |]. split; [exact Hsame2 |].
  unfold sys_close. change (cur_proc (upd_mach _ k1)) with cur. unfold MAX_FDS.
  replace ((cur =? 0) || (fd <? 3) || (32 <=? fd)) with false by lia.
  destruct Hfd2 as (_ & _ & Hu2). unfold k_ram, upd_mach. cbn [k_mach]. by rewrite Hu2.
Qed.

(** ** Reading and writing files through descriptors *)

Section Files.
Context {F : Type} (ops : fs_ops F) `{!FileSystem ops}.

(** Descriptor [fd] of the current process is open on file [i], whose contents
    are [c], at position [off]. *)
Definition fd_at (k : kstate F) (fd i off : Z) (c : list Z) : Prop :=
  k_vfs k = Some ops /\ is_proc (cur_proc k) /\ 3 <= fd < MAX_FDS /\ 0 <= i /\
  fd_is (cur_proc k) (k_ram k) fd i off 1 /\ fs_inv (k_fs k) /\ fs_file (k_fs k) i = Some c.

(** A user buffer that fits the address space and is not inside the caller's
    control block. *)
Definition buf_ok (k : kstate F) (buf len : Z) : Prop :=
  0 <= len /\ 0 <= buf /\ buf + len <= W32 /\ (buf + len <= cur_proc k \/ cur_proc k + PROCESS_SIZE <= buf).

Lemma fd_at_usable k fd i off c : fd_at k fd i off c -> fd_usable fd k = true.
Proof using.
  intros (_ & [H0 _] & Hfd & Hi & (H1 & _ & H3) & _). unfold fd_usable. rewrite H1, H3. unfold MAX_FDS, ctrue in *. lia.
Qed.

Lemma fd_addr_in (k : kstate F) fd : 3 <= fd < MAX_FDS ->
  cur_proc k + 68 <= fd_addr (cur_proc k) fd /\ fd_addr (cur_proc k) fd + FD_SIZE <= cur_proc k + PROCESS_SIZE.
Proof using. unfold fd_addr, FD_SIZE, MAX_FDS, PROCESS_SIZE. lia. Qed.

(** Moving the position. *)
Lemma advance_spec k fd i off c n :
  fd_at k fd i off c -> 0 <= n -> off + n < W32 ->
  fd_at (advance fd n k) fd i (off + n) c /\ k_fs (advance fd n k) = k_fs k /\
  forall x, x < fd_addr (cur_proc k) fd \/ fd_addr (cur_proc k) fd + FD_SIZE <= x -> ld8 (k_ram (advance fd n k)) x = ld8 (k_ram k) x.
Proof using.
  intros (H1 & H2 & Hfd & Hi & (F1 & F2 & F3) & H3 & H4) Hn Hw. pose proof (fd_addr_in k fd Hfd) as Ha.
  assert (Ho : 0 <= off) by (rewrite <- F2; apply ld32_range).
  set (k1 := advance fd n k).
  assert (Hr : k_ram k1 = st32 (k_ram k) (fd_addr (cur_proc k) fd + 4) (u32 (off + n))) by (rewrite <- F2; done).
  unfold FD_SIZE in Ha. split; [| split; [done |]].
  - split; [exact H1 |]. split; [exact H2 |]. split; [exact Hfd |]. split; [exact Hi |]. split; [| done].
    change (cur_proc k1) with (cur_proc k). unfold fd_is. rewrite Hr. split_and!.
    + unfold fd_file_idx. rewrite ld32_st32_ne by lia. exact F1.
    + unfold fd_offset. rewrite ld32_st32_eq, u32_idem. apply u32_small. lia.
    + unfold fd_in_use. rewrite ld8_st32_ne by lia. exact F3.
  - intros x Hx. unfold FD_SIZE in Hx. rewrite Hr, ld8_st32_ne by lia. done.
Qed.

Lemma sys_read_file k fd i off c buf len :
  fd_at k fd i off c -> buf_ok k buf len -> is_u32 len ->
  let n := alen (slice c off len) in
  exists k', sys_read fd buf len k = Done n k' /\ fd_at k' fd i (off + n) c /\ k_sched k' = k_sched k /\
    bytes (k_ram k') buf n = slice c off len /\
    forall x, x < buf \/ buf + n <= x -> x < fd_addr (cur_proc k) fd \/ fd_addr (cur_proc k) fd + FD_SIZE <= x ->
      ld8 (k_ram k') x = ld8 (k_ram k) x.
Proof using.
  intros Hat (Hl0 & Hb0 & Hbw & Hdis) Hlen n. pose proof Hat as (Hv & Hp & Hfd & Hi & (F1 & F2 & F3) & Hinv & Hf).
  assert (Ho : is_u32 off) by (rewrite <- F2; apply ld32_range).
  assert (Hn : n = Z.min len (Z.max 0 (alen c - off))) by (apply length_slice; unfold is_u32 in *; lia).
  pose proof (fs_size (k_fs k) i c Hinv Hf). pose proof fs_cap_range.
  unfold sys_read. replace (fd =? 0) with false by lia. rewrite (fd_at_usable _ _ _ _ _ Hat). cbn [negb].
  rewrite Hv, F1, F2. destruct (fs_read (k_fs k) i c buf off len (k_ram k) Hinv Hf Ho Hlen Hb0 Hbw) as (r' & -> & Hby & Hfr).
  fold n in Hby, Hfr |- *. set (k1 := upd_mach (set_ram (fun _ => r')) k).
  pose proof (fd_addr_in k fd Hfd) as Ha.
  assert (Hin : forall x, cur_proc k <= x < cur_proc k + PROCESS_SIZE -> ld8 r' x = ld8 (k_ram k) x)
    by (intros x Hx; apply Hfr; lia).
  assert (Hin32 : forall x, cur_proc k <= x -> x + 4 <= cur_proc k + PROCESS_SIZE -> ld32 r' x = ld32 (k_ram k) x)
    by (intros x Hx Hx'; unfold ld32; by rewrite !Hin by lia).
  assert (Hat1 : fd_at k1 fd i off c).
  { split; [exact Hv |]. split; [exact Hp |]. split; [exact Hfd |]. split; [exact Hi |]. split; [| done].
    unfold fd_is, fd_file_idx, fd_offset, fd_in_use, FD_SIZE in *. change (cur_proc k1) with (cur_proc k).
    change (k_ram k1) with r'. by rewrite !Hin32, Hin by lia. }
  destruct (Z.ltb_spec 0 n) as [Hpos|Hzero].
  - destruct (advance_spec k1 fd i off c n Hat1 ltac:(lia) ltac:(unfold is_u32 in *; lia)) as (H1 & H2 & H3).
    eexists. split; [reflexivity |]. split; [exact H1 |]. split; [done |]. split.
    + rewrite <- Hby. apply bytes_same_on. intros x Hx. change r' with (k_ram k1).
      apply H3. change (cur_proc k1) with (cur_proc k). lia.
    + intros x Hx1 Hx2. rewrite H3 by done. by apply Hfr.
  - exists k1. split; [done |]. replace (off + n) with off by lia. split; [exact Hat1 |]. split; [done |].
    split; [exact Hby |]. intros x Hx1 Hx2. by apply Hfr.
Qed.

Lemma sys_write_file k fd i off c buf len :
  fd_at k fd i off c -> buf_ok k buf len -> off <= alen c -> off + len <= fs_capacity ->
  let c' := splice c off (bytes (k_ram k) buf len) in
  exists k', sys_write fd buf len k = Done len k' /\ fd_at k' fd i (off + len) c' /\ k_sched k' = k_sched k /\
    (forall j, j <> i -> fs_file (k_fs k') j = fs_file (k_fs k) j) /\
    forall x, x < fd_addr (cur_proc k) fd \/ fd_addr (cur_proc k) fd + FD_SIZE <= x -> ld8 (k_ram k') x = ld8 (k_ram k) x.
Proof using.
  intros Hat (Hl0 & Hb0 & Hbw & Hdis) Hoc Hcap c'. pose proof Hat as (Hv & Hp & Hfd & Hi & (F1 & F2 & F3) & Hinv & Hf).
  assert (Ho : is_u32 off) by (rewrite <- F2; apply ld32_range). pose proof fs_cap_range. unfold is_u32 in Ho.
  unfold sys_write. replace ((fd =? 1) || (fd =? 2)) with false by lia. rewrite (fd_at_usable _ _ _ _ _ Hat). cbn [negb].
  rewrite Hv, F1, F2.
  destruct (fs_write (k_fs k) i c buf off len (k_ram k) Hinv Hf ltac:(lia) Hl0 Hcap Hb0 Hbw) as (fs' & -> & Hinv' & Hfile).
  set (k1 := upd_fs fs' k). assert (Hat1 : fd_at k1 fd i off c').
  { split; [exact Hv |]. split; [exact Hp |]. split; [exact Hfd |]. split; [exact Hi |]. split; [done |].
    split; [exact Hinv' |]. change (k_fs k1) with fs'. by rewrite Hfile, Z.eqb_refl. }
  assert (Hother : forall j, j <> i -> fs_file fs' j = fs_file (k_fs k) j).
  { intros j Hj. rewrite Hfile. by replace (j =? i) with false by lia. }
  destruct (Z.ltb_spec 0 len) as [Hpos|Hzero].
  - destruct (advance_spec k1 fd i off c' len Hat1 ltac:(lia) ltac:(lia)) as (H1 & H2 & H3).
    eexists. split; [reflexivity |]. split; [exact H1 |]. split; [done |]. split; [| exact H3].
    intros j Hj. rewrite H2. by apply Hother.
  - exists k1. split; [done |]. replace (off + len) with off by lia. by split_and!.
Qed.

(** C28. Sequential reads: two [sys_read] calls on an open descriptor into
    disjoint buffers deliver consecutive parts of the file from its position,
    together exactly what one read of both lengths would, and leave the
    position after them. *)
Theorem sys_read_sequential (k : kstate F) (fd i off n1 n2 buf1 buf2 : Z) (c : list Z) :
  fd_at k fd i off c -> is_u32 n1 -> is_u32 n2 -> buf_ok k buf1 n1 -> buf_ok k buf2 n2 ->
  (buf1 + n1 <= buf2 \/ buf2 + n2 <= buf1) ->
  exists a b k1 k2, sys_read fd buf1 n1 k = Done a k1 /\ sys_read fd buf2 n2 k1 = Done b k2 /\
    bytes (k_ram k2) buf1 a ++ bytes (k_ram k2) buf2 b = slice c off (n1 + n2) /\
    a + b = alen (slice c off (n1 + n2)) /\ fd_at k2 fd i (off + (a + b)) c.
Proof using.
  intros Hat Hn1 Hn2 Hb1 Hb2 Hdis. unfold is_u32 in *.
  assert (Ho : 0 <= off) by (destruct Hat as (_ & _ & _ & _ & (_ & <- & _) & _); apply ld32_range).
  destruct (sys_read_file k fd i off c buf1 n1 Hat Hb1 Hn1) as (k1 & H1 & Hat1 & Hs1 & By1 & _).
  assert (Hcur : cur_proc k1 = cur_proc k) by (unfold cur_proc; by rewrite Hs1).
  set (a := alen (slice c off n1)) in *. assert (Ha : 0 <= a <= n1) by (unfold a; rewrite length_slice by lia; lia).
  destruct (sys_read_file k1 fd i (off + a) c buf2 n2 Hat1) as (k2 & H2 & Hat2 & _ & By2 & Fr2);
    [unfold buf_ok in *; by rewrite Hcur | done |].
  set (b := alen (slice c (off + a) n2)) in *.
  assert (Hb : 0 <= b <= n2) by (unfold b; rewrite length_slice by lia; lia).
  pose proof (slice_app c off n1 n2 Ho ltac:(lia) ltac:(lia)) as Happ. fold a in Happ.
  exists a, b, k1, k2. split; [exact H1 |]. split; [exact H2 |]. split; [| split].
  - rewrite By2, <- Happ. f_equal. rewrite <- By1. apply bytes_same_on. intros x Hx.
    unfold buf_ok in *. destruct Hat as (_ & _ & Hfd & _). pose proof (fd_addr_in k1 fd Hfd). rewrite Hcur in *.
    rewrite Fr2 by lia. done.
  - rewrite <- Happ. unfold b, a, alen. rewrite length_app. lia.
  - by rewrite Z.add_assoc.
Qed.

(** C29. Sequential writes: two [sys_write] calls on an open descriptor, starting
    inside the file and within the driver's capacity, leave the file exactly
    as one write of the two buffers joined, the position after them, and
    every other file unchanged. *)
Theorem sys_write_sequential (k : kstate F) (fd i off n1 n2 buf1 buf2 : Z) (c : list Z) :
  fd_at k fd i off c -> buf_ok k buf1 n1 -> buf_ok k buf2 n2 -> off <= alen c ->
  off + n1 + n2 <= fs_capacity ->
  exists k1 k2, sys_write fd buf1 n1 k = Done n1 k1 /\ sys_write fd buf2 n2 k1 = Done n2 k2 /\
    fd_at k2 fd i (off + n1 + n2)
      (splice c off (bytes (k_ram k) buf1 n1 ++ bytes (k_ram k) buf2 n2)) /\
    forall j, j <> i -> fs_file (k_fs k2) j = fs_file (k_fs k) j.
Proof using.
  intros Hat Hb1 Hb2 Hoc Hcap.
  assert (Ho : 0 <= off) by (destruct Hat as (_ & _ & _ & _ & (_ & <- & _) & _); apply ld32_range).
  pose proof Hb1 as (Hn1 & _). pose proof Hb2 as (Hn2 & _).
  destruct (sys_write_file k fd i off c buf1 n1 Hat Hb1 Hoc ltac:(lia)) as (k1 & H1 & Hat1 & Hs1 & Hf1 & Hr1).
  assert (Hcur : cur_proc k1 = cur_proc k) by (unfold cur_proc; by rewrite Hs1).
  assert (Hl1 : alen (bytes (k_ram k) buf1 n1) = n1) by (unfold alen; rewrite length_bytes; lia).
  destruct (sys_write_file k1 fd i (off + n1) _ buf2 n2 Hat1) as (k2 & H2 & Hat2 & _ & Hf2 & _).
  { unfold buf_ok in *. by rewrite Hcur. }
  { rewrite length_splice by lia. lia. }
  { lia. }
  assert (Hby : bytes (k_ram k1) buf2 n2 = bytes (k_ram k) buf2 n2).
  { apply bytes_same_on. intros x Hx. unfold buf_ok in Hb2. destruct Hat as (_ & _ & Hfd & _).
    pose proof (fd_addr_in k fd Hfd). apply Hr1. lia. }
  pose proof (splice_app c off (bytes (k_ram k) buf1 n1) (bytes (k_ram k) buf2 n2) ltac:(lia)) as Hsp. rewrite Hl1 in Hsp.
  exists k1, k2. split; [exact H1 |]. split; [exact H2 |]. split; [| intros j Hj; rewrite Hf2, Hf1 by done; done].
  rewrite <- Hsp, <- Hby. exact Hat2.
Qed.
End Files.

(** ** A kernel for the concrete runs: the current process 0x1000 of
    [demo_pair] has descriptor 3 open on file 0, whose contents are ["A"]. *)

Definition demo_fs1 : ramfs :=
  default demo_fs (snd <$> ramfs_write 0 0x300050 0 1 (m_ram demo_image) demo_fs).

Lemma demo_fs1_spec : fs_wf demo_fs1 /\ ramfs_file demo_fs1 0 = Some [65].
Proof.
  destruct demo_fs_spec as (H1 & _ & _ & H4).
  assert (Hsz : size (file demo_fs 0) = 0) by (vm_compute; reflexivity).
  destruct (ramfs_write_spec demo_fs 0 0x300050 0 1 (m_ram demo_image) H1 H4) as (f' & Hw & Hf & _ & Hu & Hc);
    [rewrite Hsz; lia | lia | unfold RAMFS_MAX_FILE_SIZE; lia | lia | lia |].
  unfold demo_fs1. rewrite Hw. cbn [fmap option_fmap option_map default from_option id snd].
  split; [by apply fs_wf_aset |]. unfold ramfs_file, live, is_used. rewrite file_aset, Z.eqb_refl, Hu by (done || lia).
  unfold live, is_used in H4. rewrite H4, Hc. f_equal.
Qed.

Definition demo_kernel : kstate ramfs :=
  K demo_sched kbd0 (vfs_mount ramfs_ops) demo_fs1 demo_pmm [] (set_fd 0x1000 3 0 0 1 demo_pair).

Lemma demo_kernel_fd : fd_at ramfs_ops demo_kernel 3 0 0 [65].
Proof.
  destruct demo_fs1_spec as [H1 H2]. split; [done |]. split; [unfold is_proc, PROCESS_SIZE; cbn; lia |].
  split; [unfold MAX_FDS; lia |]. split; [lia |]. split; [| done].
  apply set_fd_spec; unfold is_s32, is_u32, is_u8; lia.
Qed.

(** The same kernel with the RAM of [demo_image]: ["hi"] is at 0x300008. *)
Definition demo_kernel_img : kstate ramfs := upd_mach (set_ram (fun _ => m_ram demo_image)) demo_kernel.

Lemma sys_open_close_roundtrip_witness :
  exists fd k1 k2, sys_open 0x300008 demo_kernel_img = Done fd k1 /\ 3 <= fd < MAX_FDS /\ sys_close fd k1 = Done 0 k2.
Proof.
  destruct (sys_open_close_roundtrip 0x300008 demo_kernel_img)
    as [[_ [Hall|Hneg]]|(fd & k1 & H & Hr & _ & _ & _ & _ & _ & k2 & Hc & _)].
  - unfold is_proc, PROCESS_SIZE. cbn. lia.
  - vm_compute. split; congruence.
  - specialize (Hall 3 ltac:(unfold MAX_FDS; lia)). vm_compute in Hall. discriminate.
  - vm_compute in Hneg. discriminate.
  - exists fd, k1, k2. split; [exact H |]. split; [exact Hr | exact Hc].
Defined.

Lemma sys_read_sequential_witness :
  exists a b k1 k2, sys_read 3 0x4000 1 demo_kernel = Done a k1 /\ sys_read 3 0x4001 5 k1 = Done b k2 /\
    bytes (k_ram k2) 0x4000 a ++ bytes (k_ram k2) 0x4001 b = [65] /\ a + b = 1.
Proof.
  destruct (sys_read_sequential ramfs_ops demo_kernel 3 0 0 1 5 0x4000 0x4001 [65] demo_kernel_fd)
    as (a & b & k1 & k2 & H1 & H2 & H3 & H4 & _).
  - unfold is_u32. lia.
  - unfold is_u32. lia.
  - unfold buf_ok, PROCESS_SIZE. cbn. lia.
  - unfold buf_ok, PROCESS_SIZE. cbn. lia.
  - lia.
  - exists a, b, k1, k2. split; [exact H1 |]. split; [exact H2 |]. split; [exact H3 | exact H4].
Defined.

Lemma sys_write_sequential_witness :
  exists k1 k2, sys_write 3 0x4000 2 demo_kernel = Done 2 k1 /\ sys_write 3 0x5000 3 k1 = Done 3 k2 /\
    fd_at ramfs_ops k2 3 0 5 (splice [65] 0 (bytes (k_ram demo_kernel) 0x4000 2 ++ bytes (k_ram demo_kernel) 0x5000 3)).
Proof.
  destruct (sys_write_sequential ramfs_ops demo_kernel 3 0 0 2 3 0x4000 0x5000 [65] demo_kernel_fd)
    as (k1 & k2 & H1 & H2 & H3 & _).
  - unfold buf_ok, PROCESS_SIZE. cbn. lia.
  - unfold buf_ok, PROCESS_SIZE. cbn. lia.
  - unfold alen. cbn [length]. lia.
  - cbn [fs_capacity ramfs_filesystem]. unfold RAMFS_MAX_FILE_SIZE. lia.
  - exists k1, k2. split; [exact H1 |]. split; [exact H2 | exact H3].
Defined.

(** ** Exit *)

Lemma scheduler_tick_screen s m : vga_wf m -> vga_wf (scheduler_tick s m).1.2.
Proof.
  intros H. unfold scheduler_tick. destruct (_ || _); [done |]. destruct (_ =? _); [done |]. destruct (negb _); [done |].
  by destruct (p_state _ _ =? PROC_RUNNING).
Qed.

(** No byte of [r'] differs but in the states and exit codes of processes. *)
Definition same_but_states (ps : list Z) (r r' : ram) : Prop :=
  forall x, (forall q, In q ps -> x < q + 20 \/ q + 28 <= x) -> ld8 r' x = ld8 r x.

Lemma same_but_states_set ps r r' p o v :
  In p ps -> 20 <= o <= 24 -> same_but_states ps r r' -> same_but_states ps r (st32 r' (p + o) v).
Proof. intros Hp Ho H x Hx. specialize (Hx p Hp) as Hpx. rewrite ld8_st32_ne by lia. by apply H. Qed.

(** The whole effect of an exit. *)
Lemma sys_exit_spec {F} (code : Z) (k : kstate F) (rest : list Z) :
  let cur := cur_proc k in
  run_queue (k_sched k) <> 0 -> ring (k_ram k) (cur :: rest) -> (length rest <= SEARCH_BOUND)%nat ->
  exists s' m' sw, sys_exit code k = Exits (K s' (k_kbd k) (k_vfs k) (k_fs k) (k_pmm k) (k_irqs k) m') sw /\
    ring (m_ram m') (cur :: rest) /\ p_state cur (m_ram m') = PROC_ZOMBIE /\ p_exit_code cur (m_ram m') = u32 code /\
    run_queue s' = run_queue (k_sched k) /\ clock s' = timer_tick (clock (k_sched k)) /\ (vga_wf (k_mach k) -> vga_wf m') /\
    same_but_states (cur :: rest) (k_ram k) (m_ram m') /\
    match List.find (ready (k_ram k)) rest with
    | Some nxt => In nxt rest /\ sw = Some (cur, nxt) /\ current s' = nxt /\ p_state nxt (m_ram m') = PROC_RUNNING /\
        tss s' = tss_set_kernel_stack (p_kernel_stack_top nxt (k_ram k)) (tss (k_sched k))
    | None => sw = None /\ current s' = cur /\ hd_error (io m') = Some CliHlt
    end.
Proof.
  intros cur Hrq Hring Hlen. unfold sys_exit. fold cur. pose proof Hring as [Hwf _].
  pose proof Hwf as (Hp & Hnd & _). inversion Hp as [|? ? [Hc0 Hc1] _]; subst. inversion Hnd as [|? ? Hnin _]; subst.
  rewrite list_elem_of_In in Hnin. replace (cur =? 0) with false by lia. unfold PROCESS_SIZE in Hc1.
  set (m1 := set_exit_code cur code (set_state cur PROC_ZOMBIE (k_mach k))).
  assert (Hr1 : m_ram m1 = st32 (st32 (k_ram k) (cur + 20) PROC_ZOMBIE) (cur + 24) code) by done.
  assert (Hf1 : same_but_states (cur :: rest) (k_ram k) (m_ram m1))
    by (rewrite Hr1; do 2 (apply same_but_states_set; [by left | lia |]); done).
  assert (Hother : forall q o, In q rest -> 0 <= o <= 412 -> ld32 (m_ram m1) (q + o) = ld32 (k_ram k) (q + o)).
  { intros q o Hq Ho. destruct (wf_apart _ cur q Hwf ltac:(by left) ltac:(by right)) as [<-|Ha]; [done |].
    rewrite Hr1. by rewrite !field_other by (done || lia). }
  assert (Hring1 : ring (m_ram m1) (cur :: rest)).
  { eapply ring_same; [| exact Hring]. intros q [<-|Hq]; [rewrite Hr1; unfold p_next; by rewrite !ld32_st32_ne by lia |].
    apply Hother; [done | lia]. }
  assert (Hz : p_state cur (m_ram m1) = PROC_ZOMBIE).
  { rewrite Hr1. unfold p_state. rewrite ld32_st32_ne, ld32_st32_eq by lia. done. }
  assert (He : p_exit_code cur (m_ram m1) = u32 code) by (rewrite Hr1; apply ld32_st32_eq).
  assert (Hfind : List.find (ready (m_ram m1)) rest = List.find (ready (k_ram k)) rest).
  { assert (Hst : forall q, In q rest -> ready (m_ram m1) q = ready (k_ram k) q) by (intros q Hq; unfold ready, p_state; by rewrite Hother by (done || lia)).
    clear -Hst. induction rest as [|q rest IH]; cbn [List.find]; [done |].
    rewrite Hst by (by left). rewrite IH; [done |]. intros x Hx. apply Hst. by right. }
  pose proof (scheduler_tick_eq (k_sched k) m1 cur rest eq_refl Hrq Hring1 Hlen) as H. cbv zeta in H. rewrite Hfind in H.
  pose proof (scheduler_tick_screen (k_sched k) m1) as Hscr.
  destruct (List.find (ready (k_ram k)) rest) as [nxt|].
  - destruct H as (s' & m' & E & Hc & Hq & Hck & Htss & Hram & Hin & _). rewrite E in Hscr |- *.
    assert (Hne : cur <> nxt) by (intros ->; done).
    destruct (tick_ram_spec (m_ram m1) _ cur nxt Hwf ltac:(by left) ltac:(by right) Hne) as (H1 & H2 & _ & H4).
    rewrite Hz in H2. change (PROC_ZOMBIE =? PROC_RUNNING) with false in H2. rewrite <- Hram in H1, H2, H4.
    do 3 eexists. split; [reflexivity |].
    split; [eapply ring_same; [| exact Hring1]; intros q Hq'; apply H4; [done | lia | lia] |].
    split; [exact H2 |]. split; [rewrite <- He; unfold p_exit_code; apply H4; [by left | lia | lia] |].
    split; [done |]. split; [done |]. split; [intros Hv; apply Hscr, Hv |]. split.
    + rewrite Hram. unfold tick_ram. rewrite Hz. change (PROC_ZOMBIE =? PROC_RUNNING) with false.
      apply same_but_states_set; [by right | lia | done].
    + split; [done |]. split; [done |]. split; [done |]. split; [exact H1 |].
      rewrite Htss. unfold p_kernel_stack_top. by rewrite Hother by (done || lia).
  - rewrite H in Hscr |- *. do 3 eexists. split; [reflexivity |]. rewrite m_ram_do_io. by split_and!.
Qed.

(** C31. [sys_exit] never returns to its caller: on a well-formed ring the
    process becomes a ZOMBIE with its exit code recorded, stays linked, and
    either the CPU is switched to the first READY process after it or, with
    none, the machine halts; no tick can ever select the zombie again, since
    only READY processes are switched to. *)
Theorem sys_exit_never_returns {F} (code : Z) (k : kstate F) (rest : list Z) :
  let cur := cur_proc k in
  run_queue (k_sched k) <> 0 -> ring (k_ram k) (cur :: rest) -> (length rest <= SEARCH_BOUND)%nat ->
  exists k' sw, sys_exit code k = Exits k' sw /\ ring (k_ram k') (cur :: rest) /\
    p_state cur (k_ram k') = PROC_ZOMBIE /\ p_exit_code cur (k_ram k') = u32 code /\
    match List.find (ready (k_ram k)) rest with
    | Some nxt => sw = Some (cur, nxt) /\ cur_proc k' = nxt /\ p_state nxt (k_ram k') = PROC_RUNNING
    | None => sw = None /\ cur_proc k' = cur /\ hd_error (io (k_mach k')) = Some CliHlt
    end.
Proof.
  intros cur Hrq Hring Hlen. destruct (sys_exit_spec code k rest Hrq Hring Hlen) as (s' & m' & sw & E & H1 & H2 & H3 & _ & _ & _ & _ & H4).
  do 2 eexists. split; [exact E |]. do 3 (split; [done |]). unfold cur_proc, scheduler_current, k_ram in *. cbn [k_sched k_mach].
  destruct (List.find _ rest); [by destruct H4 as (_ & ? & ? & ? & _) | exact H4].
Qed.

Lemma sys_exit_never_returns_witness :
  exists k' sw, sys_exit 7 demo_kernel = Exits k' sw /\ sw = Some (0x1000, 0x2000).
Proof.
  destruct (sys_exit_never_returns 7 demo_kernel [0x2000]) as (k' & sw & H1 & _ & _ & _ & H2).
  - discriminate.
  - eapply ring_same; [| exact demo_pair_ok]. intros q [<-|[<-|[]]]; vm_compute; reflexivity.
  - unfold SEARCH_BOUND. cbn. lia.
  - exists k', sw. split; [exact H1 |].
    assert (Hf : List.find (ready (k_ram demo_kernel)) [0x2000] = Some 0x2000) by (vm_compute; reflexivity).
    rewrite Hf in H2. exact (proj1 H2).
Defined.

(** ** The process list *)

(** What [sys_ps] reports of a process: its PID and state. *)
Definition ps_info (r : ram) (q : Z) : Z * Z := (p_pid q r, p_state q r).

(** The entries [l] stored from [entries] on. *)
Definition ps_at (r : ram) (entries : Z) (l : list (Z * Z)) : Prop :=
  forall i e, l !! i = Some e ->
    ld32 r (entries + 8 * Z.of_nat i) = e.1 /\ ld32 r (entries + 8 * Z.of_nat i + 4) = e.2.

Lemma ps_at_snoc r entries l a b :
  0 <= a < W32 -> 0 <= b < W32 -> ps_at r entries l ->
  ps_at (st32 (st32 r (entries + 8 * alen l) a) (entries + 8 * alen l + 4) b) entries (l ++ [(a, b)]).
Proof.
  intros Ha Hb Hp i e [Hi|[Hi He]]%lookup_app_Some; unfold alen in *.
  - destruct (Hp i e Hi) as [H1 H2]. pose proof (lookup_lt_Some _ _ _ Hi). by rewrite !ld32_st32_ne by lia.
  - apply list_lookup_singleton_Some in He as [He <-]. replace (Z.of_nat i) with (Z.of_nat (length l)) by lia.
    rewrite ld32_st32_ne, !ld32_st32_eq by lia. cbn [fst snd]. by rewrite !u32_small by lia.
Qed.

Section Ps.
Context (entries max : Z) (He : 0 <= entries) (Hw : entries + 8 * max <= W32).

(** The buffer and the control block [q] do not overlap. *)
Definition off_buf (q : Z) : Prop := q + PROCESS_SIZE <= entries \/ entries + 8 * max <= q.

Lemma ps_loop_spec n cur p qs l0 r :
  links r p qs cur -> ~ In cur qs -> Forall is_proc (p :: qs) -> Forall off_buf (p :: qs) ->
  alen l0 + Z.of_nat n = max -> (0 < n)%nat -> ps_at r entries l0 ->
  let l := l0 ++ (ps_info r <$> take n (p :: qs)) in
  exists r', ps_loop n entries max (alen l0) p cur r = (alen l, r') /\ ps_at r' entries l /\
    forall x, x < entries \/ entries + 8 * max <= x -> ld8 r' x = ld8 r x.
Proof using He Hw.
  revert p qs l0 r. induction n as [|n IH]; intros p qs l0 r Hl Hn Hp Ho Hm H0 Hat; [lia |]. cbn [ps_loop take fmap list_fmap].
  pose proof (alen_nonneg l0) as Hl0. replace (alen l0 <? max) with true by lia. rewrite !u32_small by lia.
  apply Forall_cons in Hp as [[Hp0 Hp1] Hp]. apply Forall_cons in Ho as [Hob Ho]. unfold off_buf, PROCESS_SIZE in Hob.
  set (r1 := st32 r (entries + 8 * alen l0) (p_pid p r)).
  assert (Hst : p_state p r1 = p_state p r) by (unfold p_state, r1; by rewrite ld32_st32_ne by lia). rewrite Hst.
  set (r2 := st32 r1 (entries + 8 * alen l0 + 4) (p_state p r)).
  assert (Hfr : forall x, x < entries \/ entries + 8 * max <= x -> ld8 r2 x = ld8 r x)
    by (intros x Hx; unfold r2, r1; by rewrite !ld8_st32_ne by lia).
  assert (Hnext : forall q o, off_buf q -> 0 <= o <= 412 -> ld32 r2 (q + o) = ld32 r (q + o)).
  { intros q o Hq Hoo. unfold off_buf, PROCESS_SIZE in Hq. unfold ld32. by rewrite !Hfr by lia. }
  assert (Hat2 : ps_at r2 entries (l0 ++ [ps_info r p])) by (apply ps_at_snoc; [apply ld32_range | apply ld32_range | done]).
  assert (Hlen : alen (l0 ++ [ps_info r p]) = alen l0 + 1) by (unfold alen; rewrite length_app; cbn [length]; lia).
  unfold p_next. rewrite (Hnext p 28 Hob) by lia. change (ld32 r (p + 28)) with (p_next p r). rewrite (links_hd _ _ _ _ Hl).
  destruct qs as [|q qs].
  { cbn [hd]. rewrite Z.eqb_refl, andb_false_r. rewrite take_nil. cbn [andb fmap list_fmap]. exists r2. rewrite Hlen. by split_and!. }
  cbn [hd]. replace (q =? cur) with false by (symmetry; apply Z.eqb_neq; intros ->; apply Hn; by left).
  apply Forall_cons in Hp as Hpq. destruct Hpq as [[Hq0 _] _]. unfold ctrue. replace (q =? 0) with false by lia. cbn [negb andb].
  destruct (Z.ltb_spec (alen l0 + 1) max) as [Hlt|Hge].
  2:{ replace n with O by lia. cbn [take fmap list_fmap]. exists r2. rewrite Hlen. by split_and!. }
  destruct (IH q qs (l0 ++ [ps_info r p]) r2) as (r' & E & Hat' & Hf').
  - eapply links_same; [| apply Hl]. intros y Hy. unfold p_next. apply Hnext; [| lia]. rewrite Forall_forall in Ho. by apply Ho, list_elem_of_In.
  - intros Hin. apply Hn. by right.
  - done.
  - done.
  - lia.
  - lia.
  - done.
  - rewrite Hlen in E. rewrite E. exists r'. rewrite <- app_assoc in E, Hat' |- *. cbn [app] in Hat' |- *.
    assert (Hinfo : ps_info r2 <$> take n (q :: qs) = ps_info r <$> take n (q :: qs)).
    { apply list_fmap_ext. intros i y Hy. apply lookup_take_Some in Hy as [Hy _]. apply list_elem_of_lookup_2 in Hy.
      rewrite Forall_forall in Ho. specialize (Ho y Hy). unfold ps_info, p_pid, p_state.
      pose proof (Hnext y 0 Ho ltac:(lia)) as Hz. rewrite Z.add_0_r in Hz. by rewrite Hz, Hnext by (done || lia). }
    rewrite Hinfo in Hat' |- *. split; [done |]. split; [done |]. intros x Hx. by rewrite Hf', Hfr.
Qed.

Lemma sys_ps_spec {F} (k : kstate F) rest :
  ring (k_ram k) (cur_proc k :: rest) -> max < 2147483648 -> Forall off_buf (cur_proc k :: rest) ->
  if (entries =? 0) || (max <=? 0) then sys_ps entries max k = Done (-1) k
  else
    let l := ps_info (k_ram k) <$> take (Z.to_nat max) (cur_proc k :: rest) in
    exists k', sys_ps entries max k = Done (alen l) k' /\ ps_at (k_ram k') entries l /\
      k' = upd_mach (set_ram (fun _ => k_ram k')) k /\
      forall x, x < entries \/ entries + 8 * max <= x -> ld8 (k_ram k') x = ld8 (k_ram k) x.
Proof using He Hw.
  intros [Hwf Hl] Hm Ho. unfold sys_ps. destruct ((entries =? 0) || (max <=? 0)) eqn:E; [done |]. cbv zeta.
  pose proof Hwf as (Hp & Hnd & _). apply NoDup_cons in Hnd as [Hnin _]. rewrite list_elem_of_In in Hnin.
  apply Forall_cons in Hp as Hpc. destruct Hpc as [[Hc0 _] _]. replace (cur_proc k =? 0) with false by lia.
  destruct (ps_loop_spec (Z.to_nat max) (cur_proc k) (cur_proc k) rest [] (k_ram k) Hl Hnin Hp Ho) as (r' & Er & Hat & Hf);
    [unfold alen; cbn [length]; lia | lia | by intros ? ? |].
  change (alen []) with 0 in Er. rewrite Er. eexists. split; [reflexivity |]. split; [exact Hat |]. split; [done | exact Hf].
Qed.
End Ps.

(** [sys_ps] lists the run queue: on a ring whose control blocks do not
    overlap the user's buffer it terminates, stores the PID and state of the
    current process and its successors in ring order, each once and at most
    [max] of them, returns their number and changes no byte outside the
    buffer; a null buffer or a count below 1 is refused with -1. *)
Theorem sys_ps_lists_ring {F} (entries max : Z) (k : kstate F) (rest : list Z) :
  ring (k_ram k) (cur_proc k :: rest) -> 0 <= entries -> max < 2147483648 -> entries + 8 * max <= W32 ->
  Forall (off_buf entries max) (cur_proc k :: rest) ->
  if (entries =? 0) || (max <=? 0) then sys_ps entries max k = Done (-1) k
  else
    let l := ps_info (k_ram k) <$> take (Z.to_nat max) (cur_proc k :: rest) in
    exists k', sys_ps entries max k = Done (alen l) k' /\ ps_at (k_ram k') entries l /\
      k' = upd_mach (set_ram (fun _ => k_ram k')) k /\
      forall x, x < entries \/ entries + 8 * max <= x -> ld8 (k_ram k') x = ld8 (k_ram k) x.
Proof. intros Hr He Hm Hw Ho. by apply sys_ps_spec. Qed.

Lemma sys_ps_lists_ring_witness :
  exists k', sys_ps 0x5000 32 demo_kernel = Done 2 k' /\ ps_at (k_ram k') 0x5000 [(0, PROC_RUNNING); (0, PROC_READY)].
Proof.
  pose proof (sys_ps_lists_ring 0x5000 32 demo_kernel [0x2000]) as H. cbn [Z.eqb Z.leb Z.compare orb] in H.
  destruct H as (k' & H1 & H2 & _).
  - eapply ring_same; [| exact demo_pair_ok]. intros q [<-|[<-|[]]]; vm_compute; reflexivity.
  - lia.
  - lia.
  - lia.
  - repeat constructor; unfold off_buf, PROCESS_SIZE; cbn; lia.
  - assert (E : ps_info (k_ram demo_kernel) <$> take (Z.to_nat 32) [cur_proc demo_kernel; 0x2000] = [(0, PROC_RUNNING); (0, PROC_READY)])
      by (vm_compute; reflexivity).
    rewrite E in H1, H2. exists k'. split; [exact H1 | exact H2].
Defined.
