(* ===== verification/Exec.v ===== *)
(** * Exec: the program loader (kernel/proc/exec.c)

    [exec] reads a file through the filesystem switch into a temporary heap
    buffer, copies it to [USER_LOAD_ADDR] and creates a kernel thread whose
    entry is [shell_trampoline] (an address).  Its theorem is stated against
    the contract [FileSystem] of Vfs.v, the heap invariant and the run queue's
    ring. *)
From stdpp Require Import strings.
From S2P Require Import Prelude Memory Machine Vga Console Heap Vfs Ramfs Arch Timer Process Scheduler Syscall.

Definition USER_LOAD_ADDR := 0x600000.

Definition mem_copy_exec (dst src n : Z) (r : ram) : ram :=
  for_ 0 n (fun i r => st8 r (u32 (dst + i)) (ld8 r (u32 (src + i)))) r.

(** The descriptor table a program starts with: 0, 1 and 2 are in use and
    bound to no file. *)
Definition init_fds (p : Z) (m : mach) : mach :=
  let m := for_ 0 MAX_FDS (fun i m => set_fd p i (-1) 0 0 m) m in
  let m := set_fd_file_idx p 0 (-1) (set_fd_in_use p 0 1 m) in
  let m := set_fd_file_idx p 1 (-1) (set_fd_in_use p 1 1 m) in
  set_fd_file_idx p 2 (-1) (set_fd_in_use p 2 1 m).

Section Exec.
Context {F : Type} (kernel_dir kthread_entry shell_trampoline : Z) (v : vfs F).

(** The first half: the file into memory at [USER_LOAD_ADDR].  The result is
    the number of bytes loaded, 0 on every path that returns NULL. *)
Definition exec_load (filename : list Z) (fs : F) (h : heap) (m : mach) : option (Z * heap * mach) :=
  let file_idx := vfs_open v filename fs in
  if file_idx <? 0 then
    Some (0, h, klog (lit "[EXEC] File not found: %s" ++ nl) [AStr (Some filename)] m)
  else
    '(tmpbuf, h, m) ← kmalloc (32 * 1024) h m;
    if tmpbuf =? 0 then Some (0, h, klog (lit "[EXEC] Out of memory for temp buffer" ++ nl) [] m)
    else
      let '(file_size, r) := vfs_read v file_idx tmpbuf 0 (32 * 1024) fs (m_ram m) in
      let m := set_ram (fun _ => r) m in
      if file_size <=? 0 then
        let m := klog (lit "[EXEC] Empty or unreadable file: %s" ++ nl) [AStr (Some filename)] m in
        let (h, m) := kfree tmpbuf h m in Some (0, h, m)
      else
        let m := set_ram (mem_copy_exec USER_LOAD_ADDR tmpbuf (u32 file_size)) m in
        let (h, m) := kfree tmpbuf h m in Some (file_size, h, m).

(** The new process (0 for NULL), the next PID, and the new states.  [None]:
    a heap walk ran out of fuel. *)
Definition exec (filename : list Z) (fs : F) (next_pid : Z) (s : sched) (h : heap) (m : mach)
  : option (Z * Z * sched * heap * mach) :=
  '(file_size, h, m) ← exec_load filename fs h m;
  if file_size =? 0 then Some (0, next_pid, s, h, m)
  else
    '(p, next_pid, h, m) ← process_create kernel_dir kthread_entry shell_trampoline next_pid h m;
    if p =? 0 then
      Some (0, next_pid, s, h, klog (lit "[EXEC] Failed to create process" ++ nl) [] m)
    else
      let m := init_fds p m in
      let (s, m) := scheduler_add p s m in
      let m := klog (lit "[EXEC] Loaded '%s' (%d bytes) as PID %u at 0x%x" ++ nl)
                    [AStr (Some filename); AInt file_size; AInt (p_pid p (m_ram m)); AInt USER_LOAD_ADDR] m in
      Some (p, next_pid, s, h, m).
End Exec.

(** ** The copy and the descriptor table *)

(** A forward copy between disjoint regions. *)
Lemma mem_copy_exec_spec dst src n r :
  0 <= dst -> dst + n <= W32 -> 0 <= src -> src + n <= W32 -> dst + n <= src \/ src + n <= dst -> 0 <= n ->
  let r' := mem_copy_exec dst src n r in
  bytes r' dst n = bytes r src n /\ forall x, x < dst \/ dst + n <= x -> ld8 r' x = ld8 r x.
Proof. apply copy_bytes_spec. Qed.

(** The table a fresh program sees. *)
Definition std_fds (p : Z) (r : ram) : Prop :=
  forall i, 0 <= i < MAX_FDS -> fd_is p r i (-1) 0 (if i <? 3 then 1 else 0).

Lemma init_fds_spec p m :
  std_fds p (m_ram (init_fds p m)) /\
  forall x, x < p + 32 \/ p + PROCESS_SIZE <= x -> ld8 (m_ram (init_fds p m)) x = ld8 (m_ram m) x.
Proof.
  unfold PROCESS_SIZE. pose (P := fun k (t : mach) =>
    (forall x, x < p + 32 \/ p + 416 <= x -> ld8 (m_ram t) x = ld8 (m_ram m) x) /\
    forall i, 0 <= i < k -> fd_is p (m_ram t) i (-1) 0 0).
  unfold init_fds. set (m1 := for_ 0 MAX_FDS _ m).
  assert (H : P (Z.max 0 MAX_FDS) m1).
  { apply for_ind; [split; [done | lia] |]. unfold MAX_FDS. intros k t Hk [Hf Hv].
    destruct (set_fd_spec p t k (-1) 0 0) as [Hn Hs]; [unfold is_s32; lia | unfold is_u32; lia | unfold is_u8; lia |].
    split.
    - intros x Hx. rewrite Hs by (unfold fd_addr, FD_SIZE; lia). by apply Hf.
    - intros i Hi. destruct (Z.eq_dec i k) as [->|Hne]; [exact Hn |]. unfold fd_is.
      destruct (same_but_fd_other p k i _ _ Hs ltac:(lia)) as (-> & -> & ->). apply Hv. lia. }
  change (Z.max 0 MAX_FDS) with 32 in H. destruct H as [Hf Hv].
  unfold set_fd_file_idx, set_fd_in_use, fd_addr, FD_SIZE. rewrite !m_ram_mst32, !m_ram_mst8, ?m_ram_mst32.
  split.
  - intros i Hi. unfold MAX_FDS in Hi. specialize (Hv i Hi). unfold fd_is, fd_file_idx, fd_offset, fd_in_use, fd_addr, FD_SIZE in *.
    destruct (Z.ltb_spec i 3) as [Hlt|Hge].
    + assert (i = 0 \/ i = 1 \/ i = 2) as [ -> | [ -> | -> ] ] by lia; autorewrite with os;
        rewrite ?s32_u32 by (unfold is_s32; lia); tauto.
    + autorewrite with os. exact Hv.
  - intros x Hx. autorewrite with os. by apply Hf.
Qed.

(** ** Loading *)

(** Live heap blocks stay live, with their headers and contents. *)
Definition keeps_live (start : Z) (bs bs' : list ablk) (r r' : ram) : Prop :=
  forall q s, In (q, s, true) (payloads start bs) ->
    In (q, s, true) (payloads start bs') /\ same_on (q - 16) (q + s) r r'.

Lemma keeps_live_refl start bs r r' :
  m_ram r' = m_ram r -> keeps_live start bs bs (m_ram r) (m_ram r').
Proof. intros E q s Hq. split; [done |]. by rewrite E. Qed.

Lemma keeps_live_trans start bs1 bs2 bs3 r1 r2 r3 :
  keeps_live start bs1 bs2 r1 r2 -> keeps_live start bs2 bs3 r2 r3 -> keeps_live start bs1 bs3 r1 r3.
Proof.
  intros H1 H2 q s Hq. destruct (H1 q s Hq) as [Hq2 Hs1]. destruct (H2 q s Hq2) as [Hq3 Hs2].
  split; [done |]. by etransitivity.
Qed.

(** Outside the heap's range. *)
Definition outside (h : heap) (x : Z) : Prop := x < heap_start_addr h \/ heap_end_addr h <= x.

(** Allocate a buffer, let the buffer and RAM outside the heap change, free
    it: the heap has what it had. *)
Lemma buffer_roundtrip h m bs size p h1 m1 bs1 m2 :
  heap_inv h (m_ram m) bs -> heap_inv h1 (m_ram m1) bs1 ->
  heap_start_addr h1 = heap_start_addr h -> heap_end_addr h1 = heap_end_addr h ->
  kmalloc size h m = Some (p, h1, m1) -> p <> 0 -> 0 < size -> size + 3 < W32 -> alloc_ok h m bs size p h1 m1 bs1 ->
  (forall x, ~ outside h x -> x < p \/ p + size <= x -> ld8 (m_ram m2) x = ld8 (m_ram m1) x) ->
  exists h3 m3 bs3, kfree p h1 m2 = (h3, m3) /\ heap_inv h3 (m_ram m3) bs3 /\
    heap_start_addr h3 = heap_start_addr h /\ heap_end_addr h3 = heap_end_addr h /\
    heap_used h3 = heap_used h /\ keeps_live (heap_start_addr h) bs bs3 (m_ram m) (m_ram m3) /\
    (no_adj_free bs = true -> bs3 = bs) /\ forall x, outside h x -> ld8 (m_ram m3) x = ld8 (m_ram m2) x.
Proof.
  intros Hinv Hinv1 Hst Hen Hk0 Hp0 Hpos Hs3 (sz & Hin & Hsz & _ & Hlo & Hhi & Hu & Hq & _) Hm2.
  pose proof Hinv as (_ & _ & _ & _ & _ & Hc & _). pose proof Hinv1 as (I1 & I2 & I3 & I4 & I5 & Hc1 & I6).
  assert (Hinv2 : heap_inv h1 (m_ram m2) bs1).
  { split_and!; try done. rewrite Hst, Hen in *. eapply chain_headers; [exact Hc1 |]. intros q s u Hqs x Hx.
    pose proof (chain_nonneg _ _ _ _ Hc1) as Hn. pose proof (payloads_low _ _ _ _ _ Hn Hqs) as Hlow.
    destruct (chain_aligned _ _ _ _ _ _ _ Hc1 I2 Hqs) as (? & ? & ? & ?).
    symmetry. apply Hm2; [unfold outside; lia |]. destruct (Z.eq_dec q p) as [->|Hne]; [lia |].
    pose proof (payloads_disjoint _ _ _ _ _ _ _ _ Hn Hin Hqs Hne). lia. }
  rewrite <- Hst in Hin. destruct (payloads_low _ _ _ _ _ (chain_nonneg _ _ _ _ Hc1) Hin) as [_ Hsz0].
  destruct (kfree_spec h1 m2 bs1 p sz Hinv2 Hin) as (h3 & m3 & bs3 & Hk & Haf & Hinv3 & Hu3 & Hst3 & Hram & Hkeep).
  exists h3, m3, bs3. split; [done |]. split; [done |]. split; [congruence |].
  assert (Hen3 : heap_end_addr h3 = heap_end_addr h).
  { unfold kfree in Hk. revert Hk. repeat case_match; intros; simplify_eq; cbn; done. }
  split; [done |]. split; [lia |]. split.
  - intros q s Hqs. destruct (Hq q s Hqs) as (Hi & Hd & Hs). pose proof (payloads_low _ _ _ _ _ (chain_nonneg _ _ _ _ Hc) Hqs) as [Hl Hs0].
    rewrite Hst in Hkeep. split; [apply Hkeep; [done | lia] |]. etransitivity; [exact Hs |]. intros x Hx.
    rewrite Hram, free_ram_frame by lia. symmetry. rewrite Hst, Hen in *.
    destruct (chain_aligned _ _ _ _ _ _ _ Hc1 I2 Hi) as (? & ? & ? & ?). apply Hm2; [unfold outside; lia | lia].
  - split.
    { intros Hadj. pose proof (kmalloc_amalloc _ _ _ _ _ _ _ _ Hinv Hpos Hs3 Hk0 Hinv1) as Ham.
      replace (p =? 0) with false in Ham by lia. destruct (align4_mod size ltac:(lia)) as [_ Hn].
      pose proof (afree_amalloc _ _ _ _ _ Ham (chain_nonneg _ _ _ _ Hc) Hn Hadj) as E. rewrite Hst in Haf. congruence. }
    intros x Hx. unfold outside in Hx. rewrite Hram. apply free_ram_frame. lia.
Qed.

Definition LOAD_MAX := 32 * 1024.

Section Load.
Context {F : Type} (ops : fs_ops F) `{!FileSystem ops}.

(** The bytes [exec] loads for [filename]. *)
Definition program (filename : list Z) (fs : F) : list Z :=
  let i := vfs_open (Some ops) filename fs in
  if i <? 0 then [] else slice (default [] (fs_file fs i)) 0 LOAD_MAX.

(** Reading a whole file into a buffer of the load limit's size. *)
Lemma read_whole fs i p r :
  fs_inv fs -> 0 <= p -> p + LOAD_MAX <= W32 ->
  let c := slice (default [] (fs_file fs i)) 0 LOAD_MAX in
  exists n r', vfs_read (Some ops) i p 0 LOAD_MAX fs r = (n, r') /\
    (n <= 0 -> c = []) /\ (0 < n -> n = alen c /\ n <= LOAD_MAX /\ bytes r' p n = c) /\
    forall x, x < p \/ p + LOAD_MAX <= x -> ld8 r' x = ld8 r x.
Proof using FileSystem0.
  intros Hfs Hp Hp2. destruct (fs_file fs i) as [c0|] eqn:E; cbn [from_option id]; unfold id.
  - destruct (fs_read fs i c0 p 0 LOAD_MAX r Hfs E) as (r' & Hr & Hb & Hf);
      [unfold is_u32; lia | unfold is_u32, LOAD_MAX; lia | exact Hp | exact Hp2 |].
    unfold LOAD_MAX in *. pose proof (length_slice c0 0 (32 * 1024) ltac:(lia) ltac:(lia)) as Hl.
    exists (alen (slice c0 0 (32 * 1024))), r'. split; [done |]. split; [| split].
    + intros Hn. destruct (slice c0 0 (32 * 1024)); [done | unfold alen in Hn; cbn in Hn; lia].
    + intros Hn. split_and!; [done | lia | done].
    + intros x Hx. apply Hf. lia.
  - destruct (fs_bad fs i p 0 LOAD_MAX r Hfs E) as [Hr _]. exists (-1), r. split_and!; try done; lia.
Qed.

Lemma exec_load_cases filename fs h m bs :
  fs_inv fs -> heap_inv h (m_ram m) bs -> heap_end_addr h <= USER_LOAD_ADDR ->
  let c := program filename fs in
  exists n h' m' bs', exec_load (Some ops) filename fs h m = Some (n, h', m') /\
    heap_inv h' (m_ram m') bs' /\ heap_start_addr h' = heap_start_addr h /\ heap_end_addr h' = heap_end_addr h /\
    heap_used h' = heap_used h /\ keeps_live (heap_start_addr h) bs bs' (m_ram m) (m_ram m') /\
    (no_adj_free bs = true -> bs' = bs) /\
    ((n = 0 /\ (c = [] \/ exists m1, kmalloc LOAD_MAX h m = Some (0, h, m1))) \/
     (n = alen c /\ 0 < n <= LOAD_MAX /\ bytes (m_ram m') USER_LOAD_ADDR n = c)) /\
    forall x, outside h x -> x < USER_LOAD_ADDR \/ USER_LOAD_ADDR + n <= x -> ld8 (m_ram m') x = ld8 (m_ram m) x.
Proof using FileSystem0.
  intros Hfs Hinv Hend c. unfold exec_load, c, program. set (i := vfs_open _ _ _).
  destruct (Z.ltb_spec i 0) as [Hi|Hi].
  { do 4 eexists. split; [reflexivity |]. rewrite m_ram_klog. split; [exact Hinv |]. split_and!; try done.
    left. split; [done | by left]. }
  destruct (kmalloc_cases h m bs LOAD_MAX Hinv) as (p & h1 & m1 & bs1 & Hk & Hinv1 & Hst & Hen & Hcase); [done | done |].
  change (32 * 1024) with LOAD_MAX. rewrite Hk. cbn [mbind option_bind].
  destruct Hcase as [(-> & -> & Hr & ->)|(Hp & Hok)].
  { cbn [Z.eqb]. do 4 eexists. split; [reflexivity |]. rewrite m_ram_klog, Hr. split; [exact Hinv |].
    split_and!; try done. left. split; [done |]. right. by exists m1. }
  replace (p =? 0) with false by lia. pose proof Hinv as (_ & _ & H16 & He & _ & _ & _).
  pose proof Hok as (sz & _ & Hsz & _ & Hlo & Hhi & _ & _ & Hfr).
  destruct (read_whole fs i p (m_ram m1) Hfs) as (n & r & -> & Hn0 & Hn1 & Hf); [lia | lia |].
  destruct (Z.leb_spec n 0) as [Hn|Hn].
  - destruct (buffer_roundtrip h m bs LOAD_MAX p h1 m1 bs1
      (klog (lit "[EXEC] Empty or unreadable file: %s" ++ nl) [AStr (Some filename)] (set_ram (fun _ => r) m1))
      Hinv Hinv1 Hst Hen Hk Hp ltac:(done) ltac:(done) Hok) as (h3 & m3 & bs3 & -> & H1 & H2 & H3 & H4 & H5 & Hbs & H6).
    { rewrite m_ram_klog, m_ram_set_ram. intros x _ Hx. by apply Hf. }
    do 4 eexists. split; [reflexivity |]. split; [exact H1 |]. split_and!; try done.
    + left. split; [done |]. left. by apply Hn0.
    + intros x Hx _. rewrite H6, m_ram_klog, m_ram_set_ram by done. unfold outside in Hx. rewrite Hf by lia.
      symmetry. by apply Hfr.
  - destruct (Hn1 Hn) as (Hna & Hnm & Hb). unfold LOAD_MAX, USER_LOAD_ADDR in *. rewrite (u32_small n) by lia.
    destruct (mem_copy_exec_spec 0x600000 p n r) as [Hcb Hcf]; [lia .. |].
    destruct (buffer_roundtrip h m bs (32 * 1024) p h1 m1 bs1
      (set_ram (mem_copy_exec 0x600000 p n) (set_ram (fun _ => r) m1)) Hinv Hinv1 Hst Hen Hk Hp ltac:(done) ltac:(done) Hok)
      as (h3 & m3 & bs3 & -> & H1 & H2 & H3 & H4 & H5 & Hbs & H6).
    { rewrite !m_ram_set_ram. unfold outside. intros x Hx1 Hx2. rewrite Hcf by lia. by apply Hf. }
    rewrite !m_ram_set_ram in H6. unfold outside in *.
    do 4 eexists. split; [reflexivity |]. split; [exact H1 |]. split_and!; try done.
    + right. split; [done |]. split; [lia |]. rewrite <- Hb, <- Hcb. apply bytes_same_on. intros x Hx. apply H6. lia.
    + intros x Hx1 Hx2. rewrite H6, Hcf, Hf by lia. symmetry. by apply Hfr.
Qed.
End Load.

(** ** The run queue in the heap *)

(** The control blocks [ps] are live heap blocks. *)
Definition procs_live (start : Z) (bs : list ablk) (ps : list Z) : Prop :=
  forall q, In q ps -> exists s, In (q, s, true) (payloads start bs) /\ PROCESS_SIZE <= s.

Lemma live_ring_kept start bs bs' r r' ps :
  keeps_live start bs bs' r r' -> procs_live start bs ps -> ring r ps ->
  ring r' ps /\ procs_live start bs' ps /\
  forall q, In q ps -> forall o, 0 <= o <= 412 -> ld32 r' (q + o) = ld32 r (q + o).
Proof.
  intros Hk Hl Hr.
  assert (Hw : forall q, In q ps -> forall o, 0 <= o <= 412 -> ld32 r' (q + o) = ld32 r (q + o)).
  { intros q Hq o Ho. destruct (Hl q Hq) as (s & Hs & Hsz). destruct (Hk q s Hs) as [_ Hsame].
    unfold PROCESS_SIZE in Hsz. symmetry. eapply ld32_same_on; [exact Hsame | lia | lia]. }
  split; [| split; [| exact Hw]].
  - eapply ring_same; [| exact Hr]. intros q Hq. apply (Hw q Hq 28). lia.
  - intros q Hq. destruct (Hl q Hq) as (s & Hs & Hsz). exists s. split; [by apply (Hk q s Hs) | done].
Qed.

Lemma new_blocks_keeps h r r' bs bs' p ks :
  new_blocks h r r' bs bs' p ks -> keeps_live (heap_start_addr h) bs bs' r r'.
Proof.
  intros (s1 & s2 & _ & _ & _ & _ & _ & _ & _ & _ & _ & _ & Hq & _) q s Hqs.
  destruct (Hq q s Hqs) as (? & _ & _ & ?). done.
Qed.

(** A process in a new block joins the processes of the queue. *)
Lemma new_proc_wf h r r' bs bs' p ks ps :
  heap_inv h r bs -> new_blocks h r r' bs bs' p ks -> procs_live (heap_start_addr h) bs ps -> procs_wf ps ->
  procs_wf (p :: ps) /\ forall q, In q ps -> q + 32 <= ks \/ ks + KERNEL_STACK_SIZE <= q.
Proof.
  intros (_ & _ & H16 & He & _ & _ & _) (s1 & s2 & _ & Hs1 & _ & Hs2 & _ & Hlo & Hhi & _ & _ & _ & Hq & _) Hl (Hall & Hnd & Hap).
  unfold PROCESS_SIZE in Hs1.
  assert (Hd : forall q, In q ps -> apart p q /\ (q + 416 <= ks \/ ks + KERNEL_STACK_SIZE <= q)).
  { intros q Hin. destruct (Hl q Hin) as (s & Hs & Hsz). destruct (Hq q s Hs) as (_ & Hd1 & Hd2 & _).
    unfold apart, PROCESS_SIZE in *. split; lia. }
  split; [| intros q Hin; destruct (Hd q Hin) as [_ ?]; lia].
  split_and!.
  - apply Forall_cons. split; [unfold is_proc, PROCESS_SIZE; lia | done].
  - apply NoDup_cons. split; [| done]. rewrite list_elem_of_In. intros Hin. destruct (Hd p Hin) as [Ha _].
    unfold apart, PROCESS_SIZE in Ha. lia.
  - intros x y [<-|Hx] [<-|Hy] Hne; [done | by apply Hd | by apply apart_sym, Hd | by apply Hap].
Qed.

(** The queue after the insertion. *)
Definition ring_add (p : Z) (ps : list Z) : list Z :=
  match ps with [] => [p] | q :: rest => q :: p :: rest end.

Lemma std_fds_same p r r' :
  (forall x, p + 32 <= x < p + PROCESS_SIZE -> ld8 r' x = ld8 r x) -> std_fds p r -> std_fds p r'.
Proof.
  unfold PROCESS_SIZE. intros H Hs i Hi. specialize (Hs i Hi). unfold MAX_FDS in Hi.
  unfold fd_is, fd_file_idx, fd_offset, fd_in_use, fd_addr, FD_SIZE, ld32 in *. rewrite !H by lia. exact Hs.
Qed.

(** Bytes that [init_fds] and [scheduler_add] leave alone. *)
Lemma enqueue_frame p s m x :
  x < p + 20 \/ p + PROCESS_SIZE <= x -> (run_queue s <> 0 -> x < run_queue s + 28 \/ run_queue s + 32 <= x) ->
  ld8 (m_ram (snd (scheduler_add p s (init_fds p m)))) x = ld8 (m_ram m) x.
Proof.
  unfold PROCESS_SIZE. intros Hx Hq. rewrite scheduler_add_frame by (done || lia).
  apply init_fds_spec. unfold PROCESS_SIZE. lia.
Qed.

Lemma enqueue_heap h h2 r m2 bs bs2 p ks ps s :
  heap_inv h2 (m_ram m2) bs2 -> heap_start_addr h2 = heap_start_addr h ->
  new_blocks h r (m_ram m2) bs bs2 p ks -> procs_live (heap_start_addr h) bs2 ps -> run_queue s = hd 0 ps ->
  heap_inv h2 (m_ram (snd (scheduler_add p s (init_fds p m2)))) bs2.
Proof.
  intros Hinv Hst (s1 & s2 & Hp & Hs1 & Hk & _) Hl Hrq. unfold PROCESS_SIZE in Hs1.
  assert (Hy : exists y sy, In (y, sy, true) (payloads (heap_start_addr h) bs2) /\
    (run_queue s <> 0 -> y <= run_queue s + 28 /\ run_queue s + 32 <= y + sy)).
  { destruct ps as [|q ps]; cbn [hd] in Hrq; [exists ks, s2; split; [done | lia] |].
    destruct (Hl q ltac:(by left)) as (sq & Hq & Hsq). unfold PROCESS_SIZE in Hsq. exists q, sq. split; [done | lia]. }
  destruct Hy as (y & sy & Hy & Hyr).
  eapply (heap_inv_payload2 h2 _ _ bs2 p s1 true y sy true); rewrite ?Hst; try done.
  intros x Hx1 Hx2. symmetry. apply enqueue_frame; [unfold PROCESS_SIZE; lia |]. intros Hne. specialize (Hyr Hne). lia.
Qed.

(** From a new thread to a queued program: descriptors and run queue. *)
Lemma enqueue_program h h2 r m2 bs bs2 p ks ps s kdir kentry entry :
  heap_inv h r bs -> heap_inv h2 (m_ram m2) bs2 -> heap_start_addr h2 = heap_start_addr h ->
  new_blocks h r (m_ram m2) bs bs2 p ks -> thread_ready (m_ram m2) p kdir kentry entry (ks + KERNEL_STACK_SIZE) ->
  procs_live (heap_start_addr h) bs ps -> ring r ps -> run_queue s = hd 0 ps ->
  let '(s', m') := scheduler_add p s (init_fds p m2) in
  heap_inv h2 (m_ram m') bs2 /\ ring (m_ram m') (ring_add p ps) /\ run_queue s' = hd 0 (ring_add p ps) /\
  current s' = current s /\ thread_ready (m_ram m') p kdir kentry entry (ks + KERNEL_STACK_SIZE) /\
  std_fds p (m_ram m') /\ p_pid p (m_ram m') = p_pid p (m_ram m2) /\
  (forall q, In q ps -> forall o, 0 <= o <= 24 -> ld32 (m_ram m') (q + o) = ld32 r (q + o)) /\
  (forall q, In q ps -> forall x, q + 32 <= x < q + PROCESS_SIZE -> ld8 (m_ram m') x = ld8 r x) /\
  forall x, outside h x -> ld8 (m_ram m') x = ld8 r x.
Proof.
  intros Hinv Hinv2 Hst Hnew Hready Hl Hring Hrq.
  pose proof (new_blocks_keeps _ _ _ _ _ _ _ Hnew) as Hkeep.
  destruct (live_ring_kept _ _ _ _ _ _ Hkeep Hl Hring) as (Hring2 & Hl2 & Hw2).
  destruct (new_proc_wf _ _ _ _ _ _ _ _ Hinv Hnew Hl (proj1 Hring)) as [Hwf Hks].
  destruct (init_fds_spec p m2) as [Hfd Hff].
  pose proof (enqueue_heap h h2 r m2 bs bs2 p ks ps s Hinv2 Hst Hnew Hl2 Hrq) as Hheap.
  pose proof (enqueue_frame p s m2) as Hfr. pose proof (scheduler_add_frame p s (init_fds p m2)) as Hfr3.
  assert (Hap : forall q, In q ps -> apart p q).
  { intros q Hq. destruct (wf_apart _ p q Hwf ltac:(by left) ltac:(by right)) as [<-|Ha]; [| done].
    destruct Hwf as (_ & Hnd & _). inversion Hnd as [|? ? Hn _]. rewrite list_elem_of_In in Hn. done. }
  assert (Hrqp : run_queue s <> 0 -> apart p (run_queue s) /\
    (run_queue s + 32 <= ks \/ ks + KERNEL_STACK_SIZE <= run_queue s) /\ ~ outside h (run_queue s + 28) /\ ~ outside h (run_queue s + 31)).
  { rewrite Hrq. destruct ps as [|q ps]; [done |]. cbn [hd]. intros _.
    destruct (Hl q ltac:(by left)) as (sq & Hq & Hsq). pose proof Hinv as (_ & Hal & _ & _ & _ & Hc & _).
    destruct (chain_aligned _ _ _ _ _ _ _ Hc Hal Hq) as (_ & ? & ? & _). unfold outside, PROCESS_SIZE in *.
    split; [apply Hap; by left |]. split; [apply Hks; by left |]. lia. }
  assert (Hring3 : ring (m_ram (init_fds p m2)) ps).
  { eapply ring_same; [| exact Hring2]. intros q Hq. specialize (Hap q Hq). unfold apart, p_next, ld32, PROCESS_SIZE in *.
    by rewrite !Hff by lia. }
  pose proof (scheduler_add_spec p s (init_fds p m2) ps Hwf Hring3 Hrq) as Hadd.
  destruct (scheduler_add p s (init_fds p m2)) as [s' m']. cbn [snd] in *.
  destruct Hadd as (A1 & A2 & A3 & A4 & A5). destruct Hready as (R1 & R2 & R3 & R4 & R5).
  pose proof Hnew as (s1 & s2 & _ & Hs1 & _ & Hs2 & Hdis & Hlo & Hhi & Hlo' & Hhi' & _ & _ & Hout).
  unfold apart, PROCESS_SIZE, KERNEL_STACK_SIZE, outside in *.
  assert (Hp4 : forall o, 0 <= o <= 16 -> ld32 (m_ram m') (p + o) = ld32 (m_ram m2) (p + o)).
  { intros o Ho. unfold ld32. rewrite !Hfr by (lia || (intros Hne; specialize (Hrqp Hne); lia)). done. }
  assert (Hstk : forall o, 4 <= o <= 24 -> ld32 (m_ram m') (ks + 8192 - o) = ld32 (m_ram m2) (ks + 8192 - o)).
  { intros o Ho. unfold ld32. rewrite !Hfr by (lia || (intros Hne; specialize (Hrqp Hne); lia)). done. }
  split; [exact Hheap |]. split; [exact A1 |]. split; [exact A2 |]. split; [exact A3 |]. split.
  { split; [exact A4 |]. unfold p_page_dir, p_kernel_stack_top, p_esp. rewrite !Hp4, !Hstk by lia. done. }
  split.
  { eapply std_fds_same; [| exact Hfd]. unfold PROCESS_SIZE. intros x Hx. apply Hfr3; [lia |].
    intros Hne. specialize (Hrqp Hne). lia. }
  split; [unfold p_pid; rewrite <- (Z.add_0_r p); apply Hp4; lia |]. split.
  - intros q Hq o Ho. rewrite A5, <- Hw2 by (done || lia). specialize (Hap q Hq). unfold ld32. by rewrite !Hff by lia.
  - split.
    { intros q Hq x Hx. destruct (Hl q Hq) as (sq & Hsq & Hszq). destruct (Hkeep q sq Hsq) as [_ Hsame].
      unfold PROCESS_SIZE in Hszq. rewrite Hsame by lia. pose proof (Hap q Hq) as Haq. apply Hfr; [lia |]. intros Hne.
      assert (Hin0 : In (run_queue s) ps) by (rewrite Hrq in *; destruct ps; [done | by left]).
      destruct (wf_apart _ q (run_queue s) (proj1 Hring) Hq Hin0) as [<-|Ha]; [lia |]. unfold apart, PROCESS_SIZE in Ha. lia. }
    intros x Hx. rewrite Hfr; [symmetry; by apply Hout | lia |]. intros Hne. specialize (Hrqp Hne). lia.
Qed.

(** ** The whole call *)

(** [exec] on every branch, with what each leaves of the heap and of RAM. *)
Lemma exec_cases {F} (ops : fs_ops F) `{!FileSystem ops} (kdir kentry tramp next_pid : Z)
    (filename : list Z) (fs : F) (s : sched) (h : heap) (m : mach) (bs : list ablk) (ps : list Z) :
  is_u32 kdir -> is_u32 kentry -> is_u32 tramp -> is_u32 next_pid ->
  fs_inv fs -> heap_inv h (m_ram m) bs -> heap_end_addr h <= USER_LOAD_ADDR ->
  ring (m_ram m) ps -> procs_live (heap_start_addr h) bs ps -> run_queue s = hd 0 ps ->
  let c := program ops filename fs in
  exists p np s' h' m' bs', exec kdir kentry tramp (Some ops) filename fs next_pid s h m = Some (p, np, s', h', m') /\
    heap_inv h' (m_ram m') bs' /\ heap_start_addr h' = heap_start_addr h /\
    ((p = 0 /\ np = next_pid /\ s' = s /\ heap_used h' = heap_used h /\ ring (m_ram m') ps /\
      (c = [] \/ (exists m1, kmalloc LOAD_MAX h m = Some (0, h, m1)) \/
       exists h1 m1 bs1 h2 m2, exec_load (Some ops) filename fs h m = Some (alen c, h1, m1) /\
         heap_inv h1 (m_ram m1) bs1 /\ (no_adj_free bs = true -> bs1 = bs) /\ heap_start_addr h1 = heap_start_addr h /\
         process_create kdir kentry tramp next_pid h1 m1 = Some (0, next_pid, h2, m2) /\
         heap_inv h2 (m_ram m2) bs')) \/
     (p <> 0 /\ c <> [] /\ np = u32 (next_pid + 1) /\ p_pid p (m_ram m') = next_pid /\
      bytes (m_ram m') USER_LOAD_ADDR (alen c) = c /\
      (exists ks bs1, thread_ready (m_ram m') p kdir kentry tramp (ks + KERNEL_STACK_SIZE) /\
         (no_adj_free bs = true -> bs1 = bs) /\ thread_fit (heap_start_addr h) bs1 = Some (p, ks, bs')) /\
      std_fds p (m_ram m') /\ ring (m_ram m') (ring_add p ps) /\ run_queue s' = hd 0 (ring_add p ps) /\
      current s' = current s /\
      (forall q, In q ps -> forall o, 0 <= o <= 24 -> ld32 (m_ram m') (q + o) = ld32 (m_ram m) (q + o)) /\
      (forall q, In q ps -> forall x, q + 32 <= x < q + PROCESS_SIZE -> ld8 (m_ram m') x = ld8 (m_ram m) x) /\
      forall x, outside h x -> x < USER_LOAD_ADDR \/ USER_LOAD_ADDR + alen c <= x -> ld8 (m_ram m') x = ld8 (m_ram m) x)).
Proof.
  intros Hkd Hke Htr Hnp Hfs Hinv Hend Hring Hlive Hrq c. unfold exec.
  destruct (exec_load_cases ops filename fs h m bs Hfs Hinv Hend)
    as (n & h1 & m1 & bs1 & Hload & Hinv1 & Hst1 & Hen1 & Hu1 & Hk1 & Hbs1 & Hcase & Hfr1). fold c in Hcase.
  rewrite Hload. cbn [mbind option_bind].
  destruct (live_ring_kept _ _ _ _ _ _ Hk1 Hlive Hring) as (Hring1 & Hlive1 & Hw1).
  destruct Hcase as [[-> Hwhy]|(-> & Hn & Hb)].
  { do 6 eexists. split; [reflexivity |]. split; [exact Hinv1 |]. split; [done |]. left. split_and!; try done.
    destruct Hwhy as [Hc|Hm]; [by left | by right; left]. }
  replace (alen c =? 0) with false by lia. rewrite <- Hst1 in Hlive1.
  destruct (process_create_cases kdir kentry tramp next_pid h1 m1 bs1 Hinv1 Hkd Hke Htr Hnp)
    as (p & np & h2 & m2 & bs2 & Hpc & Hinv2 & Hst2 & Hcase).
  pose proof (process_create_fit _ _ _ _ _ _ _ _ _ _ _ _ Hinv1 Hpc Hinv2) as Hfit.
  rewrite Hpc. cbn [mbind option_bind].
  destruct Hcase as [(-> & -> & Hu2 & Hk2)|(ks & Hp & -> & Hnew & Hpid & Hks & Hready)].
  { destruct (live_ring_kept _ _ _ _ _ _ Hk2 Hlive1 Hring1) as (Hring2 & _). cbn [Z.eqb].
    do 6 eexists. split; [reflexivity |]. rewrite m_ram_klog. split; [exact Hinv2 |]. split; [congruence |]. left.
    split_and!; try done; [lia |]. right. right. by exists h1, m1, bs1, h2, m2. }
  replace (p =? 0) with false in * by lia.
  pose proof (enqueue_program h1 h2 (m_ram m1) m2 bs1 bs2 p ks ps s kdir kentry tramp
    Hinv1 Hinv2 Hst2 Hnew Hready Hlive1 Hring1 Hrq) as H.
  destruct (scheduler_add p s (init_fds p m2)) as [s' m'].
  destruct H as (E1 & E2 & E3 & E4 & E5 & E6 & E7 & E8 & E9 & E10).
  do 6 eexists. split; [reflexivity |]. rewrite m_ram_klog. split; [exact E1 |]. split; [congruence |]. right.
  split; [exact Hp |]. split; [intros Hc; rewrite Hc in Hn; unfold alen in Hn; cbn in Hn; lia |].
  split; [done |]. split; [congruence |]. split.
  - transitivity (bytes (m_ram m1) USER_LOAD_ADDR (alen c)); [| exact Hb]. apply bytes_same_on. intros x Hx. apply E10. right. lia.
  - split; [exists ks, bs1; split; [done |]; split; [done |]; by rewrite <- Hst1, Hfit, Hks |].
    do 4 (split; [done |]). split; [| split].
    + intros q Hq o Ho. rewrite E8, Hw1 by (done || lia). done.
    + intros q Hq x Hx. rewrite (E9 q Hq) by done. destruct (Hlive q Hq) as (sq & Hsq & Hszq).
      destruct (Hk1 q sq Hsq) as [_ Hs]. symmetry. apply Hs. lia.
    + intros x Hx1 Hx2. rewrite E10; [by apply Hfr1 |]. unfold outside in *. by rewrite Hst1, Hen1.
Qed.

(** With a non-empty file and room for the buffer and the thread, [exec]
    succeeds, in the blocks first fit finds. *)
Lemma exec_succeeds {F} (ops : fs_ops F) `{!FileSystem ops} (kdir kentry tramp next_pid : Z)
    (filename : list Z) (fs : F) (s : sched) (h : heap) (m : mach) (bs bs2 : list ablk) (ps : list Z) (p ks : Z) :
  is_u32 kdir -> is_u32 kentry -> is_u32 tramp -> is_u32 next_pid ->
  fs_inv fs -> heap_inv h (m_ram m) bs -> heap_end_addr h <= USER_LOAD_ADDR ->
  ring (m_ram m) ps -> procs_live (heap_start_addr h) bs ps -> run_queue s = hd 0 ps ->
  let c := program ops filename fs in
  c <> [] -> no_adj_free bs = true -> amalloc LOAD_MAX (heap_start_addr h) bs <> None ->
  thread_fit (heap_start_addr h) bs = Some (p, ks, bs2) ->
  exists s' h' m', exec kdir kentry tramp (Some ops) filename fs next_pid s h m = Some (p, u32 (next_pid + 1), s', h', m') /\
    heap_inv h' (m_ram m') bs2 /\ heap_start_addr h' = heap_start_addr h /\
    p_pid p (m_ram m') = next_pid /\ bytes (m_ram m') USER_LOAD_ADDR (alen c) = c /\
    thread_ready (m_ram m') p kdir kentry tramp (ks + KERNEL_STACK_SIZE) /\
    std_fds p (m_ram m') /\ ring (m_ram m') (ring_add p ps) /\ run_queue s' = hd 0 (ring_add p ps) /\
    current s' = current s /\
    (forall q, In q ps -> forall o, 0 <= o <= 24 -> ld32 (m_ram m') (q + o) = ld32 (m_ram m) (q + o)) /\
    (forall q, In q ps -> forall x, q + 32 <= x < q + PROCESS_SIZE -> ld8 (m_ram m') x = ld8 (m_ram m) x) /\
    forall x, outside h x -> x < USER_LOAD_ADDR \/ USER_LOAD_ADDR + alen c <= x -> ld8 (m_ram m') x = ld8 (m_ram m) x.
Proof.
  intros Hkd Hke Htr Hnp Hfs Hinv Hend Hring Hlive Hrq c Hc Hadj Ham Hfit.
  destruct (exec_cases ops kdir kentry tramp next_pid filename fs s h m bs ps Hkd Hke Htr Hnp Hfs Hinv Hend Hring Hlive Hrq)
    as (p' & np & s' & h' & m' & bs' & He & Hinv' & Hst & Hcase). fold c in Hcase.
  destruct Hcase as [(_ & _ & _ & _ & _ & Hwhy)|(H1 & _ & -> & H4 & H5 & (ks' & bs1 & H6 & Hb & Hf) & H7)].
  - exfalso. destruct Hwhy as [Hw|[(m1 & Hw)|(h1 & m1 & bs1 & h2 & m2 & _ & Hi1 & Hb & Hs1 & Hw & Hi2)]]; [done | |].
    + pose proof (kmalloc_cases h m bs LOAD_MAX Hinv eq_refl eq_refl) as (q & h1 & m2 & bs1 & Hk & Hi & _).
      pose proof (kmalloc_amalloc h m bs LOAD_MAX _ _ _ _ Hinv eq_refl eq_refl Hk Hi) as E.
      rewrite Hw in Hk. injection Hk as <- _ _. done.
    + rewrite (Hb Hadj) in Hi1. pose proof (process_create_fit _ _ _ _ _ _ _ _ _ _ _ _ Hi1 Hw Hi2) as E.
      rewrite Hs1, Hfit in E. done.
  - rewrite (Hb Hadj), Hfit in Hf. injection Hf as <- <- <-. exists s', h', m'.
    split; [exact He |]. split; [exact Hinv' |]. split; [exact Hst |]. done.
Qed.

Lemma init_fds_screen p m : vga_wf m -> vga_wf (init_fds p m).
Proof.
  intros H. unfold init_fds. set (m1 := for_ 0 MAX_FDS _ m). assert (H1 : vga_wf m1); [| exact H1].
  pose (P := fun (_ : Z) (t : mach) => vga_wf t). assert (Hp : P (Z.max 0 MAX_FDS) m1); [| exact Hp].
  apply for_ind; [exact H |]. intros k t _ Ht. exact Ht.
Qed.

Lemma scheduler_add_screen p s m : vga_wf m -> vga_wf (snd (scheduler_add p s m)).
Proof. intros H. unfold scheduler_add. destruct (p =? 0); [done |]. by destruct (run_queue s =? 0). Qed.

Lemma exec_load_screen {F} (v : vfs F) filename fs h m n h' m' :
  exec_load v filename fs h m = Some (n, h', m') -> vga_wf m -> vga_wf m'.
Proof.
  unfold exec_load. destruct (_ <? 0); [intros [= <- <- <-]; apply vga_wf_klog |].
  destruct (kmalloc (32 * 1024) h m) as [[[p h1] m1]|] eqn:E; [| done]. apply kmalloc_kept in E as (_ & _ & Hk).
  cbn [mbind option_bind]. destruct (p =? 0); [intros [= <- <- <-] H; by apply vga_wf_klog, Hk |].
  destruct (vfs_read _ _ _ _ _ _ _) as [sz r]. destruct (sz <=? 0).
  - destruct (kfree p h1 _) as [h2 m2] eqn:E2. apply kfree_kept in E2 as (_ & _ & Hk2). intros [= <- <- <-] H.
    apply Hk2, vga_wf_klog. exact (Hk H).
  - destruct (kfree p h1 _) as [h2 m2] eqn:E2. apply kfree_kept in E2 as (_ & _ & Hk2). intros [= <- <- <-] H.
    apply Hk2. exact (Hk H).
Qed.

Lemma exec_screen {F} kdir kentry tramp (v : vfs F) filename fs next_pid s h m p np s' h' m' :
  exec kdir kentry tramp v filename fs next_pid s h m = Some (p, np, s', h', m') -> vga_wf m -> vga_wf m'.
Proof.
  unfold exec. destruct (exec_load v filename fs h m) as [[[n h1] m1]|] eqn:E; [| done]. cbn [mbind option_bind].
  pose proof (exec_load_screen _ _ _ _ _ _ _ _ E) as Hl. destruct (n =? 0); [by intros [= <- <- <- <- <-] |].
  destruct (process_create kdir kentry tramp next_pid h1 m1) as [[[[q np1] h2] m2]|] eqn:E2; [| done]. cbn [mbind option_bind].
  apply process_create_kept in E2 as (_ & _ & Hk). destruct (q =? 0); [intros [= <- <- <- <- <-] H; by apply vga_wf_klog, Hk, Hl |].
  pose proof (scheduler_add_screen q s (init_fds q m2)) as Ha. destruct (scheduler_add q s _) as [s1 m3].
  intros [= <- <- <- <- <-] H. apply vga_wf_klog, Ha, init_fds_screen, Hk, Hl, H.
Qed.

Lemma exec_keeps_clock {F} kdir kentry tramp (v : vfs F) filename fs next_pid s h m p np s' h' m' :
  exec kdir kentry tramp v filename fs next_pid s h m = Some (p, np, s', h', m') -> clock s' = clock s /\ tss s' = tss s.
Proof.
  unfold exec. destruct (exec_load v filename fs h m) as [[[n h1] m1]|]; [| done]. cbn [mbind option_bind].
  destruct (n =? 0); [by intros [= <- <- <- <- <-] |].
  destruct (process_create kdir kentry tramp next_pid h1 m1) as [[[[q np1] h2] m2]|]; [| done]. cbn [mbind option_bind].
  destruct (q =? 0); [by intros [= <- <- <- <- <-] |].
  assert (Hc : clock (scheduler_add q s (init_fds q m2)).1 = clock s /\ tss (scheduler_add q s (init_fds q m2)).1 = tss s).
  { unfold scheduler_add. destruct (q =? 0); [done |]. by destruct (run_queue s =? 0). }
  destruct (scheduler_add q s _) as [s1 m3]. by intros [= <- <- <- <- <-].
Qed.

(** ** Properties *)

(** C8. [exec] against any filesystem that keeps the driver contract, with the
    heap below the load address: it always returns.  Either it returns NULL,
    because the file is missing or empty, the temporary buffer does not fit in
    the heap, or the thread cannot be created; then no heap memory is leaked,
    no PID is consumed, and the run queue is unchanged.  Or it returns a new
    process with the next PID such that memory at [USER_LOAD_ADDR] holds
    exactly the file's bytes, the control block and stack start
    [shell_trampoline], descriptors 0 to 2 are open without a file and the
    others closed, and the process is READY in the run queue right after its
    head, all other processes keeping their control block fields. *)
Theorem exec_starts_program {F} (ops : fs_ops F) `{!FileSystem ops} (kdir kentry tramp next_pid : Z)
    (filename : list Z) (fs : F) (s : sched) (h : heap) (m : mach) (bs : list ablk) (ps : list Z) :
  is_u32 kdir -> is_u32 kentry -> is_u32 tramp -> is_u32 next_pid ->
  fs_inv fs -> heap_inv h (m_ram m) bs -> heap_end_addr h <= USER_LOAD_ADDR ->
  ring (m_ram m) ps -> procs_live (heap_start_addr h) bs ps -> run_queue s = hd 0 ps ->
  let c := program ops filename fs in
  exists p np s' h' m' bs', exec kdir kentry tramp (Some ops) filename fs next_pid s h m = Some (p, np, s', h', m') /\
    heap_inv h' (m_ram m') bs' /\
    ((p = 0 /\ np = next_pid /\ s' = s /\ heap_used h' = heap_used h /\ ring (m_ram m') ps /\
      (c = [] \/ (exists m1, kmalloc LOAD_MAX h m = Some (0, h, m1)) \/
       exists h1 m1 h2 m2, exec_load (Some ops) filename fs h m = Some (alen c, h1, m1) /\
         process_create kdir kentry tramp next_pid h1 m1 = Some (0, next_pid, h2, m2))) \/
     (p <> 0 /\ c <> [] /\ np = u32 (next_pid + 1) /\ p_pid p (m_ram m') = next_pid /\
      bytes (m_ram m') USER_LOAD_ADDR (alen c) = c /\
      (exists ks, thread_ready (m_ram m') p kdir kentry tramp (ks + KERNEL_STACK_SIZE)) /\
      std_fds p (m_ram m') /\ ring (m_ram m') (ring_add p ps) /\ run_queue s' = hd 0 (ring_add p ps) /\
      current s' = current s /\
      forall q, In q ps -> forall o, 0 <= o <= 24 -> ld32 (m_ram m') (q + o) = ld32 (m_ram m) (q + o))).
Proof.
  intros Hkd Hke Htr Hnp Hfs Hinv Hend Hring Hlive Hrq c.
  destruct (exec_cases ops kdir kentry tramp next_pid filename fs s h m bs ps Hkd Hke Htr Hnp Hfs Hinv Hend Hring Hlive Hrq)
    as (p & np & s' & h' & m' & bs' & He & Hinv' & _ & Hcase).
  exists p, np, s', h', m', bs'. split; [exact He |]. split; [exact Hinv' |].
  destruct Hcase as [(H1 & H2 & H3 & H4 & H5 & Hwhy)|(H1 & H2 & H3 & H4 & H5 & (ks & bs1 & H6 & _) & H7 & H8 & H9 & H10 & H11 & _)].
  - left. do 5 (split; [done |]). destruct Hwhy as [Hw|[Hw|(h1 & m1 & bs1 & h2 & m2 & Hw & _ & _ & _ & Hp & _)]]; [by left | by right; left |].
    right. right. by exists h1, m1, h2, m2.
  - right. do 5 (split; [done |]). split; [by exists ks | done].
Qed.

(** A table with the file ["hi" = "A"], a 128 KB heap at 2 MB, an empty queue. *)
Definition demo_prog_fs : ramfs :=
  aset files0 0 (File ([104; 105] ++ replicate 62 0) (st8 ∅ 0 65) 1 1).

Definition demo_heap128 : heap * mach := heap_init 0x200000 0x20000 mach0.

Definition demo_exec : option (Z * Z * sched * heap * mach) :=
  exec 0x105000 0x101000 0x102000 (Some ramfs_ops) [104; 105] demo_prog_fs 1
       (Sched 0 0 timer0 ∅) (fst demo_heap128) (snd demo_heap128).

Lemma demo_exec_succeeds : (fun t => fst (fst (fst (fst t)))) <$> demo_exec = Some 0x200010.
Proof. vm_compute. reflexivity. Qed.

Lemma exec_starts_program_witness :
  exists p np s' h' m', demo_exec = Some (p, np, s', h', m') /\
    bytes (m_ram m') USER_LOAD_ADDR 1 = [65] /\ run_queue s' = p.
Proof.
  destruct (exec_starts_program ramfs_ops 0x105000 0x101000 0x102000 1 [104; 105] demo_prog_fs
    (Sched 0 0 timer0 ∅) (fst demo_heap128) (snd demo_heap128) [Ablk (0x20000 - 16) false] [])
    as (p & np & s' & h' & m' & bs' & He & _ & Hcase).
  - unfold is_u32. lia.
  - unfold is_u32. lia.
  - unfold is_u32. lia.
  - unfold is_u32. lia.
  - apply fs_wf_aset; [exact files0_wf |]. split; [reflexivity | unfold RAMFS_MAX_FILE_SIZE; cbn; lia].
  - by apply (heap_init_inv 0x200000 0x20000 mach0).
  - vm_compute. congruence.
  - split; [| exact I]. split_and!; [constructor | constructor | intros ? ? []].
  - intros q [].
  - reflexivity.
  - pose proof demo_exec_succeeds as Hs. unfold demo_exec in *. rewrite He in Hs. cbn in Hs. injection Hs as Hp.
    exists p, np, s', h', m'. split; [exact He |].
    destruct Hcase as [(H0 & _)|(_ & _ & _ & _ & Hb & _ & _ & _ & Hq & _)]; [lia |]. split; [exact Hb | exact Hq].
Defined.
