(* ===== verification/Kmain.v ===== *)
(** * Kmain: the kernel's entry point (kernel/kernel.c, kmain)

    [kmain] composes the initialisation of every component in the order of the
    source.  It ends by jumping to the loaded shell, by entering the idle loop
    or, on a bad Multiboot magic or without memory for the idle thread, in
    [khalt].  Addresses chosen by the linker and the compiler are fields of
    [layout].  The timer interrupts that may arrive once interrupts are on only
    count ticks; they are not interleaved here. *)
From stdpp Require Import strings.
From S2P Require Import Prelude Memory Machine Vga Console Multiboot Pmm Heap Vmm Vfs Ramfs Mkramfs Arch Keyboard Timer Process Scheduler Syscall Exec.

Definition MULTIBOOT_BOOTLOADER_MAGIC := 0x2BADB002.

(** [sizeof(multiboot_mod_t)]. *)
Definition MOD_SIZE := 16.

Record layout := Layout {
  l_stack_top : Z; l_kernel_start : Z; l_kernel_end : Z;
  l_gdt : Z; l_tss : Z; l_idt : Z;                    (** static tables *)
  l_kernel_dir : Z; l_pt0 : Z; l_pt1 : Z;
  l_isr : Z -> Z; l_irq : Z -> Z;                     (** assembly stubs *)
  l_kthread_entry : Z; l_idle : Z; l_trampoline : Z;  (** thread entries *)
  l_timer_irq : Z; l_keyboard_irq : Z;                (** interrupt handlers *)
  l_msg : Z; l_buf : Z;                               (** [msg] and [buf] of the file test *)
}.

(** Everything [kmain] sets up. *)
Record system := System {
  sys_gdt : list gdt_entry_t; sys_idt : list idt_entry_t; sys_handlers : list Z;
  sys_pmm : pmm; sys_heap : heap; sys_next_pid : Z; sys_sched : sched;
  sys_kbd : kbd; sys_vfs : vfs ramfs; sys_fs : ramfs; sys_mach : mach;
}.

(** Stage 2. *)
Definition banner (m : mach) : mach :=
  let m := vga_init m in
  let m := vga_set_color (vga_make_color VGA_COLOR_GREEN VGA_COLOR_BLACK) m in
  let m := klog (lit "AnubhavOS booting..." ++ nl) [] m in
  let m := debug_print (lit "[serial] AnubhavOS booting..." ++ nl) m in
  vga_set_color (vga_make_color VGA_COLOR_LIGHT_GREY VGA_COLOR_BLACK) m.

Definition bad_magic (magic : Z) (m : mach) : mach :=
  let m := vga_set_color (vga_make_color VGA_COLOR_RED VGA_COLOR_BLACK) m in
  klog (lit "ERROR: Bad Multiboot magic: 0x%x" ++ nl) [AInt magic] m.

Section Boot.
Context (L : layout).

(** Stage 3: GDT, TSS, IDT. *)
Definition stage_tables (gdt : list gdt_entry_t) (tss : ram) (idt : list idt_entry_t) (hs : list Z) (m : mach)
  : list gdt_entry_t * ram * list idt_entry_t * list Z * mach :=
  let '(gdt, m) := gdt_init (l_gdt L) gdt m in
  let m := debug_print (lit "[serial] GDT loaded" ++ nl) m in
  let '(gdt, tss, m) := tss_init (l_tss L) (l_stack_top L) gdt tss m in
  let m := debug_print (lit "[serial] TSS loaded" ++ nl) m in
  let '(hs, idt, m) := idt_init (l_isr L) (l_irq L) (l_idt L) hs idt m in
  let m := debug_print (lit "[serial] IDT+IRQ loaded" ++ nl) m in
  (gdt, tss, idt, hs, klog (lit "[GDT/TSS/IDT] Loaded. Interrupts enabled." ++ nl) [] m).

Definition has_modules (info : multiboot_info_t) : bool :=
  ctrue (Z.land (flags info) MBOOT_FLAG_MODS) && (0 <? mods_count info).

(** Where the heap starts: the page after the kernel image and every module. *)
Definition safe_end (info : multiboot_info_t) (r : ram) : Z :=
  if has_modules info then
    for_ 0 (mods_count info) (fun i e =>
      let me := mod_end (mboot_mod r (u32 (mods_addr info + MOD_SIZE * i))) in
      if e <? me then me else e) (l_kernel_end L)
  else l_kernel_end L.

Definition heap_base (info : multiboot_info_t) (r : ram) : Z :=
  Z.land (u32 (safe_end info r + 0xFFF)) (u32 (Z.lnot 0xFFF)).

(** Stage 4: physical memory, paging, heap. *)
Definition stage_memory (cr0 mbi : Z) (m : mach) : option (pmm * heap * mach) :=
  '(s, m) ← pmm_init (l_kernel_start L) (l_kernel_end L) mbi m;
  let m := debug_print (lit "[serial] PMM ready" ++ nl) m in
  let m := vmm_init (l_kernel_dir L) (l_pt0 L) (l_pt1 L) cr0 m in
  let m := debug_print (lit "[serial] Paging enabled" ++ nl) m in
  let base := heap_base (multiboot_info (m_ram m) mbi) (m_ram m) in
  let (h, m) := heap_init base (2 * 1024 * 1024) m in
  Some (s, h, debug_print (lit "[serial] Heap ready" ++ nl) m).

(** Stage 5: processes, the idle thread, the timer. *)
Definition stage_threads (hs : list Z) (tss : ram) (h : heap) (m : mach) : option (outcome (list Z * Z * sched * heap * mach)) :=
  let (np, m) := process_init m in
  o ← scheduler_init (l_kernel_dir L) (l_kthread_entry L) (l_idle L) np (Sched 0 0 timer0 tss) h m;
  match o with
  | Halted m => Some (Halted m)
  | Ret (s, np, h, m) =>
      '(t, m) ← timer_init PIT_HZ_DEFAULT (clock s) m;
      let s := set_clock t s in
      let hs := irq_register IRQ_TIMER (l_timer_irq L) hs in
      Some (Ret (hs, np, s, h, debug_print (lit "[serial] Scheduler running" ++ nl) m))
  end.

(** Stage 7's test: create, write and read back a file. *)
Definition msg : list Z := lit "Hello from AnubhavOS!" ++ nl.
Definition hello_txt : list Z := lit "hello.txt".

Definition file_test (v : vfs ramfs) (fs : ramfs) (m : mach) : option (ramfs * mach) :=
  let (_, fs) := vfs_create v hello_txt fs in
  let idx := vfs_open v hello_txt fs in
  '(fs, m) ← (
    if 0 <=? idx then
      '(_, fs) ← vfs_write v idx (l_msg L) 0 (alen msg) (m_ram m) fs;
      let _ := vfs_close v idx fs in
      let idx := vfs_open v hello_txt fs in
      if 0 <=? idx then
        let '(n, r) := vfs_read v idx (l_buf L) 0 127 fs (m_ram m) in
        let m := set_ram (fun _ => r) m in
        let m :=
          if 0 <? n then
            let m := mst8 (l_buf L + n) 0 m in
            klog (lit "[VFS TEST] Read back: %s") [AStr (Some (cstr_at 128 (m_ram m) (l_buf L)))] m
          else m in
        let _ := vfs_close v idx fs in Some (fs, m)
      else Some (fs, m)
    else Some (fs, m));
  Some (fs, debug_print (lit "[serial] VFS test OK" ++ nl) m).

(** Stage 7: the filesystem. *)
Definition stage_files (m : mach) : option (vfs ramfs * ramfs * mach) :=
  let (_, m) := @vfs_init ramfs m in
  let '(fs, v, m) := ramfs_init files0 m in
  '(fs, m) ← file_test v fs m;
  Some (v, fs, m).

(** Stage 8's first part: the keyboard and the descriptors of the idle process. *)
Definition stage_keyboard (hs : list Z) (s : sched) (m : mach) : kbd * list Z * mach :=
  let '(kb, hs, m) := keyboard_init (l_keyboard_irq L) kbd0 hs m in
  let m := debug_print (lit "[serial] Keyboard ready" ++ nl) m in
  let idle := scheduler_current s in
  (kb, hs, if idle =? 0 then m else init_fds idle m).

(** Stage 8's last part: the initramfs and the shell.  The boolean tells
    whether control goes to the shell at 0x600000 or to the idle loop. *)
Definition stage_shell (mbi : Z) (y : system) : option (bool * system) :=
  let m := sys_mach y in
  let info := multiboot_info (m_ram m) mbi in
  if has_modules info then
    let md := mboot_mod (m_ram m) (mods_addr info) in
    let mod_size := u32 (mod_end md - mod_start md) in
    let m := klog (lit "[INIT] Loading initramfs (%u bytes)" ++ nl) [AInt mod_size] m in
    let (fs, m) := initramfs_load (mod_start md) mod_size (sys_fs y) m in
    '(_, np, s, h, m) ← exec (l_kernel_dir L) (l_kthread_entry L) (l_trampoline L) (sys_vfs y)
                             (lit "shell.bin") fs (sys_next_pid y) (sys_sched y) (sys_heap y) m;
    let m := klog (lit "[INIT] Launching shell..." ++ nl) [] m in
    Some (true, System (sys_gdt y) (sys_idt y) (sys_handlers y) (sys_pmm y) h np s (sys_kbd y) (sys_vfs y) fs m)
  else
    let m := klog (lit "[INIT] No initramfs module found." ++ nl) [] m in
    let m := klog (lit "[KMAIN] Entering idle loop." ++ nl) [] m in
    Some (false, System (sys_gdt y) (sys_idt y) (sys_handlers y) (sys_pmm y) (sys_heap y) (sys_next_pid y)
                        (sys_sched y) (sys_kbd y) (sys_vfs y) (sys_fs y) m).

(** The static tables start zeroed.  [cr0] is the control register's value
    when paging is enabled. *)
Definition kmain (magic mbi cr0 : Z) (m : mach) : option (outcome (bool * system)) :=
  let m := banner m in
  if negb (magic =? MULTIBOOT_BOOTLOADER_MAGIC) then Some (khalt (bad_magic magic m))
  else
    let m := klog (lit "Multiboot magic OK (0x%x)" ++ nl) [AInt magic] m in
    let m := debug_print (lit "[serial] Multiboot OK" ++ nl) m in
    let '(gdt, tss, idt, hs, m) :=
      stage_tables (replicate 6 gdt_zero) ∅ (replicate 256 idt_zero) (replicate 16 0) m in
    '(pm, h, m) ← stage_memory cr0 mbi m;
    o ← stage_threads hs tss h m;
    match o with
    | Halted m => Some (Halted m)
    | Ret (hs, np, s, h, m) =>
        let m := syscall_init m in
        '(v, fs, m) ← stage_files m;
        let '(kb, hs, m) := stage_keyboard hs s m in
        y ← stage_shell mbi (System gdt idt hs pm h np s kb v fs m);
        Some (Ret y)
    end.
End Boot.

(** ** The heap's place *)

Lemma safe_end_spec L info r :
  l_kernel_end L <= safe_end L info r /\
  (has_modules info = true -> forall i, 0 <= i < mods_count info ->
     mod_end (mboot_mod r (u32 (mods_addr info + MOD_SIZE * i))) <= safe_end L info r).
Proof.
  unfold safe_end. destruct (has_modules info); [| split; [lia | done]].
  set (body := fun (i e : Z) => _).
  assert (H : (fun k e => l_kernel_end L <= e /\ forall i, 0 <= i < k ->
     mod_end (mboot_mod r (u32 (mods_addr info + MOD_SIZE * i))) <= e)
     (Z.max 0 (mods_count info)) (for_ 0 (mods_count info) body (l_kernel_end L))).
  { apply for_ind; [split; [lia | intros; lia] |]. intros k e Hk [He Hi]. unfold body. split.
    - destruct (Z.ltb_spec e (mod_end (mboot_mod r (u32 (mods_addr info + MOD_SIZE * k))))); lia.
    - intros i Hik. destruct (Z.eq_dec i k) as [->|Hne].
      + destruct (Z.ltb_spec e (mod_end (mboot_mod r (u32 (mods_addr info + MOD_SIZE * k))))); lia.
      + specialize (Hi i ltac:(lia)).
        destruct (Z.ltb_spec e (mod_end (mboot_mod r (u32 (mods_addr info + MOD_SIZE * k))))); lia. }
  destruct H as [H1 H2]. split; [exact H1 |]. intros _ i Hi. apply H2. lia.
Qed.

Lemma heap_base_eq L info r : 0 <= safe_end L info r -> safe_end L info r + 4095 < W32 ->
  heap_base L info r = (safe_end L info r + 4095) / 4096 * 4096.
Proof.
  intros H0 H1. unfold heap_base. change (u32 (Z.lnot 0xFFF)) with PAGE_MASK.
  rewrite (u32_small (safe_end L info r + 0xFFF)) by lia. rewrite land_page_mask by (unfold is_u32; lia). lia.
Qed.

(** ** Properties *)

(** The heap is placed clear of the kernel image and of every boot module:
    the base [kmain] computes is the first page boundary at or after the end of
    the kernel and of all modules, the heap invariant holds there with one free
    block of 2 MB, and [heap_init] changes no byte below the base, in
    particular none of the image or of a module. *)
Theorem heap_placed_after_modules (L : layout) (mbi : Z) (m : mach) :
  let info := multiboot_info (m_ram m) mbi in
  let last := safe_end L info (m_ram m) in
  let base := heap_base L info (m_ram m) in
  0 < l_kernel_end L -> last + 4096 + 0x200000 < W32 ->
  let (h, m') := heap_init base (2 * 1024 * 1024) m in
  base mod 4096 = 0 /\ last <= base < last + 4096 /\ l_kernel_end L <= base /\
  (has_modules info = true -> forall i, 0 <= i < mods_count info ->
     mod_end (mboot_mod (m_ram m) (u32 (mods_addr info + MOD_SIZE * i))) <= base) /\
  heap_inv h (m_ram m') [Ablk (0x200000 - 16) false] /\ heap_start_addr h = base /\
  forall x, x < base -> ld8 (m_ram m') x = ld8 (m_ram m) x.
Proof.
  intros info last base Hk Hl. destruct (safe_end_spec L info (m_ram m)) as [Hs1 Hs2]. fold last in Hs1, Hs2.
  assert (Hb : base = (last + 4095) / 4096 * 4096) by (apply heap_base_eq; fold last; lia).
  assert (Hlb : last <= base < last + 4096) by lia. assert (Hal : base mod 4096 = 0) by lia.
  destruct (heap_init_inv base (2 * 1024 * 1024) m) as [Hinv Hfr]; [lia .. |].
  destruct (heap_init base (2 * 1024 * 1024) m) as [h m'] eqn:E. cbn [fst snd] in *.
  assert (Hst : heap_start_addr h = base) by (unfold heap_init in E; injection E as <- _; done).
  split; [done |]. split; [done |]. split; [lia |]. split; [intros Hm i Hi; specialize (Hs2 Hm i Hi); lia |].
  split; [exact Hinv |]. split; [done |]. intros x Hx. apply Hfr. lia.
Qed.

(** A kernel image that ends at 0x180123 and one module that ends at 0x205001. *)
Definition demo_layout : layout :=
  Layout 0x17F000 0x100000 0x180123 0x110000 0x111000 0x112000 0x113000 0x114000 0x115000
         (fun i => 0x101000 + 16 * i) (fun i => 0x102000 + 16 * i) 0x103000 0x103100 0x103200
         0x103300 0x103400 0x104000 0x17E000.

Definition demo_boot_mach : mach :=
  set_ram (fun r =>
    let r := st32 r 0x9000 8 in
    let r := st32 (st32 r 0x9014 1) 0x9018 0xA000 in
    st32 (st32 r 0xA000 0x181000) 0xA004 0x205001) mach0.

Lemma heap_placed_after_modules_witness :
  let base := heap_base demo_layout (multiboot_info (m_ram demo_boot_mach) 0x9000) (m_ram demo_boot_mach) in
  base = 0x206000 /\
  let (h, m') := heap_init base (2 * 1024 * 1024) demo_boot_mach in
  heap_inv h (m_ram m') [Ablk (0x200000 - 16) false].
Proof.
  intros base. split; [vm_compute; reflexivity |].
  pose proof (heap_placed_after_modules demo_layout 0x9000 demo_boot_mach) as H. cbv zeta in H. subst base.
  destruct (heap_init _ (2 * 1024 * 1024) demo_boot_mach) as [h m']. apply H.
  - cbn. lia.
  - vm_compute. reflexivity.
Defined.

(** ** A whole boot, executed *)

(** A machine as the boot loader leaves it: information at 0x9000, one module
    at 0x181000 whose image holds [shell.bin] with three bytes, 7 MB of
    available memory from 1 MB on, and the test message in the kernel's image. *)
Definition boot_image : list Z :=
  default [] (snd (mkramfs_main 3 (Some [HostEntry (lit "shell.bin") true 3 true true [1; 2; 3]]) true)).

Definition boot_mach : mach :=
  set_ram (fun r =>
    let r := st32 r 0x9000 (MBOOT_FLAG_MODS + MBOOT_FLAG_MMAP) in
    let r := st32 (st32 r 0x9014 1) 0x9018 0xA000 in
    let r := st32 (st32 r 0x902C 24) 0x9030 0xB000 in
    let r := st32 (st32 (st32 (st32 r 0xB000 20) 0xB004 0x100000) 0xB00C 0x700000) 0xB014 1 in
    let r := st32 (st32 r 0xA000 0x181000) 0xA004 (0x181000 + alen boot_image) in
    let r := fill8 r 0x104000 (alen msg) (fun i => aget 0 msg i) in
    fill8 r 0x181000 (alen boot_image) (fun i => aget 0 boot_image i)) mach0.

(** [kmain] on it reaches the shell: the program is at 0x600000, the test file
    reads back its message, and two threads (the idle thread, current, and the
    shell's) are linked in the run queue. *)
Example boot_reaches_shell :
  match kmain demo_layout MULTIBOOT_BOOTLOADER_MAGIC 0x9000 0x11 boot_mach with
  | Some (Ret (shell, y)) =>
      shell = true /\ bytes (m_ram (sys_mach y)) USER_LOAD_ADDR 3 = [1; 2; 3] /\
      lookup_name (sys_fs y) hello_txt = Some msg /\ sys_next_pid y = 3 /\
      run_queue (sys_sched y) = current (sys_sched y) /\
      p_next (p_next (current (sys_sched y)) (m_ram (sys_mach y))) (m_ram (sys_mach y)) = current (sys_sched y)
  | _ => False
  end.
Proof. vm_compute. repeat split. Qed.

(** With another magic number it halts and leaves RAM alone. *)
Theorem kmain_bad_magic_halts (L : layout) (magic mbi cr0 : Z) (m : mach) :
  magic <> MULTIBOOT_BOOTLOADER_MAGIC ->
  exists m', kmain L magic mbi cr0 m = Some (Halted m') /\ m_ram m' = m_ram m /\ hd_error (io m') = Some CliHlt.
Proof.
  intros Hm. unfold kmain. replace (magic =? MULTIBOOT_BOOTLOADER_MAGIC) with false by lia. cbn [negb].
  eexists. split; [reflexivity |]. split; [| reflexivity].
  rewrite m_ram_do_io. unfold bad_magic, banner, vga_set_color.
  rewrite m_ram_klog, !m_ram_set_vga_color, m_ram_debug_print, m_ram_klog, m_ram_set_vga_color.
  unfold vga_init. by rewrite m_ram_vga_clear, m_ram_set_vga_color.
Qed.
