(* ===== verification/Ulib.v ===== *)
(** * Ulib: the user library (userspace/lib/string.c, syscall_wrappers.h)

    User programs share the kernel's address space.  The string functions are
    functions of RAM; the two whose loops run to a NUL have fuel, and [None]
    means no NUL within it.  A program that makes system calls is a function of
    the kernel state ([prog]), sequenced by a small monad; [int80] is the trap,
    so each wrapper reaches the kernel through [syscall_handler]. *)
From stdpp Require Import strings.
From S2P Require Import Prelude Memory Machine Vga Console Multiboot Pmm Heap Vfs Ramfs Arch Keyboard Timer Process Scheduler Syscall.

(** ** Strings in RAM *)

(** The longest string the NUL-terminated loops follow. *)
Definition STR_FUEL : nat := Z.to_nat 4096.

Fixpoint strlen_loop (fuel : nat) (r : ram) (s len : Z) : option Z :=
  if negb (ctrue (ld8 r (u32 (s + len)))) then Some len
  else match fuel with O => None | S fuel' => strlen_loop fuel' r s (u32 (len + 1)) end.

Definition strlen (r : ram) (s : Z) : option Z := strlen_loop STR_FUEL r s 0.

Fixpoint strcmp_loop (fuel : nat) (r : ram) (a b : Z) : option Z :=
  let x := ld8 r a in
  let y := ld8 r b in
  if ctrue x && ctrue y && (x =? y) then
    match fuel with O => None | S fuel' => strcmp_loop fuel' r (u32 (a + 1)) (u32 (b + 1)) end
  else Some (x - y).

Definition strcmp (r : ram) (a b : Z) : option Z := strcmp_loop STR_FUEL r a b.

(** [for (i = 0; i < n; i++)], from [i] with [n] iterations left. *)
Fixpoint strncmp_loop (n : nat) (r : ram) (a b i : Z) : Z :=
  match n with
  | O => 0
  | S n' =>
      let x := ld8 r (u32 (a + i)) in
      let y := ld8 r (u32 (b + i)) in
      if negb (x =? y) then x - y
      else if x =? 0 then 0
      else strncmp_loop n' r a b (i + 1)
  end.

Definition strncmp (r : ram) (a b n : Z) : Z := strncmp_loop (Z.to_nat n) r a b 0.

Fixpoint strcpy_loop (fuel : nat) (r : ram) (d s : Z) : option ram :=
  let c := ld8 r s in
  let r := st8 r d c in
  if ctrue c then
    match fuel with O => None | S fuel' => strcpy_loop fuel' r (u32 (d + 1)) (u32 (s + 1)) end
  else Some r.

Definition strcpy (dst src : Z) (r : ram) : option ram := strcpy_loop STR_FUEL r dst src.

(** The first loop of [strncpy], then the padding loop from the index it
    stopped at. *)
Fixpoint strncpy_loop (n : nat) (i : Z) (dst src : Z) (r : ram) : ram :=
  match n with
  | O => r
  | S n' =>
      let c := ld8 r (u32 (src + i)) in
      if ctrue c then strncpy_loop n' (i + 1) dst src (st8 r (u32 (dst + i)) c)
      else for_ i (i + Z.of_nat n) (fun j r => st8 r (u32 (dst + j)) 0) r
  end.

Definition strncpy (dst src n : Z) (r : ram) : ram := strncpy_loop (Z.to_nat n) 0 dst src r.

Definition memcpy (dst src n : Z) (r : ram) : ram :=
  for_ 0 n (fun i r => st8 r (u32 (dst + i)) (ld8 r (u32 (src + i)))) r.

Definition memset (s c n : Z) (r : ram) : ram :=
  for_ 0 n (fun i r => st8 r (u32 (s + i)) (u8 c)) r.

(** The characters [cs] stored from [buf] on. *)
Definition store_chars (buf : Z) (cs : list Z) (r : ram) : ram :=
  for_ 0 (alen cs) (fun j r => st8 r (u32 (buf + j)) (aget 0 cs j)) r.

(** The digit loop is the kernel's ([digits_loop] of Console.v): [tmp] has 32
    entries, and [None] is a store past its end or a division by zero.  [%] and
    [/] take [base] as an unsigned number. *)
Definition utoa (value buf base : Z) (r : ram) : option ram :=
  if value =? 0 then Some (st8 (st8 r buf 48) (u32 (buf + 1)) 0)
  else if u32 base =? 0 then None
  else
    ds ← digits_loop 32 value (u32 base);
    Some (st8 (store_chars buf (rev ds) r) (u32 (buf + alen ds)) 0).

Definition itoa (value buf base : Z) (r : ram) : option ram :=
  if (value <? 0) && (base =? 10)
  then utoa (u32 (u32 (- (value + 1)) + 1)) (u32 (buf + 1)) base (st8 r buf 45)
  else utoa (u32 value) buf base r.

(** ** Programs *)

Definition prog (F A : Type) : Type := kstate F -> result A F.

#[export] Instance prog_ret F : MRet (prog F) := fun A a k => Done a k.

#[export] Instance prog_bind F : MBind (prog F) := fun A B f p k =>
  match p k with
  | Done a k' => f a k'
  | Blocks => Blocks
  | Undef => Undef
  | Exits k' sw => Exits k' sw
  end.

Section Programs.
Context {F : Type}.

Definition uload (a : Z) : prog F Z := fun k => Done (ld8 (k_ram k) a) k.
Definition uload32 (a : Z) : prog F Z := fun k => Done (ld32 (k_ram k) a) k.
Definition ustore (a v : Z) : prog F unit := fun k => Done tt (upd_mach (mst8 a v) k).

(** A library function that reads RAM, and one that changes it. *)
Definition uread {A} (f : ram -> option A) : prog F A := fun k =>
  match f (k_ram k) with Some a => Done a k | None => Undef end.
Definition uwrite (f : ram -> option ram) : prog F unit := fun k =>
  match f (k_ram k) with Some r => Done tt (upd_mach (set_ram (fun _ => r)) k) | None => Undef end.

(** ** System calls *)

(** The numbers of syscall_wrappers.h. *)
Definition U_SYS_EXIT := 1.
Definition U_SYS_WRITE := 2.
Definition U_SYS_READ := 3.
Definition U_SYS_OPEN := 4.
Definition U_SYS_CLOSE := 5.
Definition U_SYS_GETPID := 6.
Definition U_SYS_READDIR := 7.
Definition U_SYS_UPTIME := 8.
Definition U_SYS_MEMINFO := 9.
Definition U_SYS_PS := 10.

(** [int $0x80] with the four argument registers; the result is EAX.  The
    registers a wrapper does not set are 0. *)
Definition int80 (eax ebx ecx edx : Z) : prog F Z := fun k =>
  match syscall_handler (Regs 0 0 0 0 (u32 ebx) (u32 edx) (u32 ecx) (u32 eax) 0x80 0 0 0 0 0 0) k with
  | Done g k' => Done (r_eax g) k'
  | Blocks => Blocks
  | Undef => Undef
  | Exits k' sw => Exits k' sw
  end.

(** A wrapper that returns [int]. *)
Definition int80s (eax ebx ecx edx : Z) : prog F Z :=
  v ← int80 eax ebx ecx edx; mret (s32 v).

Definition usys_exit (code : Z) : prog F unit := _ ← int80 U_SYS_EXIT code 0 0; mret tt.
Definition usys_write (fd buf len : Z) : prog F Z := int80s U_SYS_WRITE fd buf len.
Definition usys_read (fd buf len : Z) : prog F Z := int80s U_SYS_READ fd buf len.
Definition usys_open (path : Z) : prog F Z := int80s U_SYS_OPEN path 0 0.
Definition usys_close (fd : Z) : prog F Z := int80s U_SYS_CLOSE fd 0 0.
Definition usys_getpid : prog F Z := int80s U_SYS_GETPID 0 0 0.
Definition usys_readdir (entries max : Z) : prog F Z := int80s U_SYS_READDIR entries max 0.
Definition usys_uptime : prog F Z := int80 U_SYS_UPTIME 0 0 0.
Definition usys_meminfo (info : Z) : prog F Z := int80s U_SYS_MEMINFO info 0 0.
Definition usys_ps (entries max : Z) : prog F Z := int80s U_SYS_PS entries max 0.
End Programs.

(** ** Stored strings *)

(** The C string [s] is stored at [a], inside the address space. *)
Definition str_at (r : ram) (a : Z) (s : list Z) : Prop :=
  0 <= a /\ a + alen s < W32 /\ Forall (fun c => c <> 0) s /\ bytes_at r a (s ++ [0]).

(** A string's tail, and its first byte (0 for the empty one). *)
Lemma str_at_cons r a c s :
  str_at r a (c :: s) -> ld8 r a = c /\ c <> 0 /\ str_at r (a + 1) s /\ u32 (a + 1) = a + 1.
Proof.
  intros (H0 & H1 & Hn & Hb). apply Forall_cons in Hn as [Hc Hn]. cbn [app] in Hb.
  apply bytes_at_cons in Hb as [Hl Hb]. unfold alen in *. cbn [length] in H1.
  split_and!; [done | done | split_and!; try done; unfold alen; lia | apply u32_small; lia].
Qed.

Lemma str_at_nil r a : str_at r a [] -> ld8 r a = 0.
Proof. intros (_ & _ & _ & Hb). cbn [app] in Hb. by apply bytes_at_cons in Hb as [Hb _]. Qed.

Lemma str_at_hd r a s : str_at r a s -> ld8 r a = hd 0 s.
Proof. destruct s; [apply str_at_nil | intros H; apply (str_at_cons _ _ _ _ H)]. Qed.

Lemma str_at_same r r' a s : same_on a (a + alen s + 1) r r' -> str_at r a s -> str_at r' a s.
Proof.
  intros Hs (H0 & H1 & Hn & Hb). split_and!; try done. eapply bytes_at_same; [| exact Hb].
  eapply same_on_sub; [exact Hs | lia |]. unfold alen. rewrite length_app. cbn [length]. lia.
Qed.

Lemma str_at_app r a s1 s2 : str_at r a (s1 ++ s2) -> str_at r (a + alen s1) s2.
Proof.
  intros (H0 & H1 & Hn & Hb). rewrite <- app_assoc in Hb. apply bytes_at_app in Hb as [_ Hb].
  apply Forall_app in Hn as [_ Hn]. unfold alen in *. rewrite length_app in H1.
  split_and!; try done; unfold alen; lia.
Qed.

Lemma strlen_loop_spec fuel r a s done_ :
  str_at r (a + done_) s -> 0 <= a -> 0 <= done_ -> (length s <= fuel)%nat ->
  strlen_loop fuel r a done_ = Some (done_ + alen s).
Proof.
  revert done_ s. induction fuel as [|fuel IH]; intros d s Hs Ha Hd Hf; cbn [strlen_loop];
    pose proof Hs as (_ & Hr & _); rewrite u32_small by (unfold alen in *; lia);
    rewrite (str_at_hd _ _ _ Hs); (destruct s as [|c s]; cbn [hd length] in *; [unfold alen; cbn; f_equal; lia |]).
  - lia.
  - apply str_at_cons in Hs as (_ & Hc & Hs & Hw). unfold ctrue. destruct (Z.eqb_spec c 0); [done |]. cbn [negb].
    unfold alen in Hr. cbn [length] in Hr. rewrite u32_small by lia.
    rewrite (IH (d + 1) s); [f_equal; unfold alen; cbn [length]; lia | | lia | lia | lia].
    by rewrite Z.add_assoc.
Qed.

Lemma strlen_spec r a s : str_at r a s -> (length s <= STR_FUEL)%nat -> strlen r a = Some (alen s).
Proof.
  intros Hs Hf. unfold strlen. rewrite (strlen_loop_spec _ r a s 0); [f_equal; lia | | apply Hs | lia | done].
  by rewrite Z.add_0_r.
Qed.

(** ** Comparison *)

(** The reference: lexicographic order on the bytes. *)
Fixpoint lexcmp (s t : list Z) : comparison :=
  match s, t with
  | [], [] => Eq
  | [], _ :: _ => Lt
  | _ :: _, [] => Gt
  | x :: s', y :: t' => match x ?= y with Eq => lexcmp s' t' | c => c end
  end.

Lemma lexcmp_eq s t : lexcmp s t = Eq <-> s = t.
Proof.
  revert t. induction s as [|x s IH]; intros [|y t]; cbn [lexcmp]; try done.
  destruct (Z.compare_spec x y) as [->|H|H]; [| split; [done | intros [=]; lia] ..].
  rewrite IH. split; congruence.
Qed.

Lemma str_byte_pos r a c s : str_at r a (c :: s) -> 0 < c < 256.
Proof. intros H. destruct (str_at_cons _ _ _ _ H) as (<- & Hc & _). pose proof (ld8_range r a). lia. Qed.

Lemma strcmp_loop_spec fuel r a b s t :
  str_at r a s -> str_at r b t -> (length s <= fuel)%nat ->
  exists d, strcmp_loop fuel r a b = Some d /\ (d ?= 0) = lexcmp s t /\ -255 <= d <= 255.
Proof.
  revert a b s t. induction fuel as [|fuel IH]; intros a b s t Hs Ht Hf; cbn [strcmp_loop];
    rewrite (str_at_hd _ _ _ Hs), (str_at_hd _ _ _ Ht);
    (destruct s as [|x s], t as [|y t]; cbn [hd length lexcmp] in *; try lia;
     repeat match goal with H : str_at _ _ (_ :: _) |- _ =>
       let Hb := fresh "Hb" in let H' := fresh "Hs" in
       pose proof (str_byte_pos _ _ _ _ H) as Hb; apply str_at_cons in H as (_ & ? & H' & ?) end;
     unfold ctrue).
  1-4: eexists; split; [repeat (zcase; try lia); reflexivity | split; [| lia]];
    first [done | symmetry; apply Z.compare_lt_iff; lia | apply Z.compare_lt_iff; lia | apply Z.compare_gt_iff; lia].
  - cbn [Z.eqb negb]. rewrite andb_false_r. exists (x - 0). split; [done |]. split; [apply Z.compare_gt_iff; lia | lia].
  - replace (x =? 0) with false by lia. replace (y =? 0) with false by lia. cbn [negb andb].
    destruct (Z.eqb_spec x y) as [->|Hne].
    + rewrite Z.compare_refl. repeat match goal with H : u32 _ = _ |- _ => rewrite H; clear H end.
      eapply IH; [eassumption | eassumption | lia].
    + exists (x - y). split; [done |]. split; [| lia]. destruct (Z.compare_spec x y); [done | |].
      * apply Z.compare_lt_iff. lia.
      * apply Z.compare_gt_iff. lia.
Qed.

Lemma strcmp_spec r a b s t :
  str_at r a s -> str_at r b t -> (length s <= STR_FUEL)%nat ->
  exists d, strcmp r a b = Some d /\ (d ?= 0) = lexcmp s t /\ -255 <= d <= 255.
Proof. apply strcmp_loop_spec. Qed.

Lemma strncmp_loop_spec n r a b i s t :
  str_at r (a + i) s -> str_at r (b + i) t -> 0 <= a -> 0 <= b -> 0 <= i ->
  (strncmp_loop n r a b i ?= 0) = lexcmp (take n s) (take n t).
Proof.
  revert i s t. induction n as [|n IH]; intros i s t Hs Ht Ha Hb Hi; cbn [strncmp_loop take]; [done |].
  pose proof Hs as (_ & Hr & _). pose proof Ht as (_ & Hr' & _). unfold alen in Hr, Hr'. rewrite !u32_small by lia.
  rewrite (str_at_hd _ _ _ Hs), (str_at_hd _ _ _ Ht).
  destruct s as [|x s], t as [|y t]; cbn [hd take lexcmp];
    repeat match goal with H : str_at _ _ (_ :: _) |- _ =>
      let H' := fresh "Hs" in
      pose proof (str_byte_pos _ _ _ _ H); apply str_at_cons in H as (_ & ? & H' & ?) end.
  - done.
  - replace (0 =? y) with false by lia. cbn [negb]. apply Z.compare_lt_iff. lia.
  - replace (x =? 0) with false by lia. cbn [negb]. apply Z.compare_gt_iff. lia.
  - destruct (Z.compare_spec x y) as [->|Hlt|Hgt].
    + rewrite Z.eqb_refl. cbn [negb]. replace (y =? 0) with false by lia.
      apply IH; rewrite ?Z.add_assoc; (done || lia).
    + replace (x =? y) with false by lia. cbn [negb]. apply Z.compare_lt_iff. lia.
    + replace (x =? y) with false by lia. cbn [negb]. apply Z.compare_gt_iff. lia.
Qed.

(** ** Copies *)

Lemma strcpy_loop_spec fuel r d s str :
  str_at r s str -> (length str <= fuel)%nat -> 0 <= d -> d + alen str < W32 ->
  d + alen str + 1 <= s \/ s + alen str + 1 <= d ->
  exists r', strcpy_loop fuel r d s = Some r' /\ str_at r' d str /\
    forall x, x < d \/ d + alen str + 1 <= x -> ld8 r' x = ld8 r x.
Proof.
  revert r d s str. induction fuel as [|fuel IH]; intros r d s str Hs Hf Hd Hr Hdis; cbn [strcpy_loop];
    rewrite (str_at_hd _ _ _ Hs); (destruct str as [|c str]; cbn [hd length] in *; [| try lia]).
  1-2: exists (st8 r d 0); split; [done |]; split;
    [split_and!; [done | done | done | apply bytes_at_cons; split; [apply ld8_st8_eq | done]] |
     unfold alen in *; cbn [length] in *; intros x Hx; by rewrite ld8_st8_ne by lia].
  pose proof (str_byte_pos _ _ _ _ Hs) as Hc. pose proof Hs as (Hs0 & Hs1 & Hn & _).
  apply str_at_cons in Hs as (_ & Hc0 & Hs & Hu). unfold ctrue. destruct (Z.eqb_spec c 0); [done |]. cbn [negb].
  unfold alen in *. cbn [length] in *. rewrite Hu, (u32_small (d + 1)) by lia.
  destruct (IH (st8 r d c) (d + 1) (s + 1) str) as (r' & He & Hst & Hfr); [| lia | lia | lia | lia |].
  { eapply str_at_same; [| exact Hs]. apply same_on_st8. unfold alen. lia. }
  exists r'. split; [done |]. destruct Hst as (_ & _ & Hn' & Hb). split.
  - split_and!; [done | unfold alen; cbn [length]; lia | done |]. cbn [app]. apply bytes_at_cons. split; [| done].
    rewrite Hfr by lia. rewrite ld8_st8_eq. apply u8_small. lia.
  - intros x Hx. rewrite Hfr by lia. by rewrite ld8_st8_ne by lia.
Qed.

(** The padded text [strncpy] stores. *)
Definition padded (n : nat) (s : list Z) : list Z := take n s ++ replicate (n - length s) 0.

Lemma zero_pad_spec r dst i n :
  0 <= dst + i -> dst + i + Z.of_nat n <= W32 ->
  let r' := for_ i (i + Z.of_nat n) (fun j r => st8 r (u32 (dst + j)) 0) r in
  bytes_at r' (dst + i) (replicate n 0) /\
  forall x, x < dst + i \/ dst + i + Z.of_nat n <= x -> ld8 r' x = ld8 r x.
Proof.
  intros H0 H1 r'.
  pose (P := fun k (t : ram) => (forall x, dst + i <= x < dst + k -> ld8 t x = 0) /\
    forall x, x < dst + i \/ dst + i + Z.of_nat n <= x -> ld8 t x = ld8 r x).
  assert (H : P (Z.max i (i + Z.of_nat n)) r').
  { apply for_ind; [split; [lia | done] |]. intros k t Hk [Hz Hf]. rewrite u32_small by lia. split.
    - intros x Hx. rewrite ld8_st8. zcase; [done | apply Hz; lia].
    - intros x Hx. rewrite ld8_st8_ne by lia. by apply Hf. }
  destruct H as [Hz Hf]. split; [| exact Hf]. intros j x Hj.
  apply lookup_replicate in Hj as [-> Hj]. apply Hz. lia.
Qed.

Lemma strncpy_loop_spec n r i dst src str :
  str_at r (src + i) str -> 0 <= i -> 0 <= dst -> 0 <= src -> dst + i + Z.of_nat n <= W32 ->
  dst + i + Z.of_nat n <= src + i \/ src + i + alen str + 1 <= dst + i ->
  let r' := strncpy_loop n i dst src r in
  bytes_at r' (dst + i) (padded n str) /\
  forall x, x < dst + i \/ dst + i + Z.of_nat n <= x -> ld8 r' x = ld8 r x.
Proof.
  revert r i str. induction n as [|n IH]; intros r i str Hs Hi Hd Hsr Hw Hdis; cbn [strncpy_loop].
  { unfold padded. cbn. split; [intros j x Hj; done | done]. }
  pose proof Hs as (_ & Hr & _). unfold alen in Hr, Hdis. rewrite (u32_small (src + i)) by lia.
  rewrite (str_at_hd _ _ _ Hs). destruct str as [|c str]; cbn [hd].
  { unfold padded. rewrite take_nil. cbn [length app ctrue Z.eqb negb]. rewrite Nat.sub_0_r.
    apply zero_pad_spec; lia. }
  pose proof (str_byte_pos _ _ _ _ Hs) as Hc. apply str_at_cons in Hs as (_ & Hc0 & Hs & _).
  unfold ctrue. destruct (Z.eqb_spec c 0); [done |]. cbn [negb length] in *. rewrite (u32_small (dst + i)) by lia.
  destruct (IH (st8 r (dst + i) c) (i + 1) str) as [Hb Hf].
  - rewrite Z.add_assoc. eapply str_at_same; [| exact Hs]. apply same_on_st8. unfold alen. lia.
  - lia.
  - done.
  - done.
  - lia.
  - unfold alen. lia.
  - split.
    + unfold padded in *. cbn [take length app]. apply bytes_at_cons. split.
      * rewrite Hf by lia. rewrite ld8_st8_eq. apply u8_small. lia.
      * replace (dst + i + 1) with (dst + (i + 1)) by lia. exact Hb.
    + intros x Hx. rewrite Hf by lia. by rewrite ld8_st8_ne by lia.
Qed.

(** ** Numerals *)

Lemma digits_loop_bytes room n base ds :
  2 <= base <= 16 -> 0 <= n -> digits_loop room n base = Some ds -> Forall (fun c => 48 <= c <= 102) ds.
Proof.
  intros Hb. revert n ds. induction room as [|room IH]; intros n ds Hn; simpl; zcase;
    intros; simplify_eq/=; try (by constructor).
  destruct (digits_loop room (n / base) base) eqn:E'; simplify_eq/=. constructor.
  - unfold digit_char. pose proof (Z.mod_pos_bound n base). zcase; lia.
  - eapply IH; [| done]. apply Z.div_pos; lia.
Qed.

(** A number below [base ^ j] has at most [j] digits. *)
Lemma digits_loop_short room n base ds j :
  2 <= base -> 0 <= n < base ^ Z.of_nat j -> digits_loop room n base = Some ds -> (length ds <= j)%nat.
Proof.
  intros Hb. revert n ds j. induction room as [|room IH]; intros n ds j Hn; simpl; zcase;
    intros; simplify_eq/=; try lia.
  destruct (digits_loop room (n / base) base) eqn:E'; simplify_eq/=.
  destruct j as [|j]; [cbn in Hn; lia |]. rewrite Nat2Z.inj_succ, Z.pow_succ_r in Hn by lia.
  cbn [length]. apply le_n_S. eapply (IH (n / base)); [| exact E'].
  split; [apply Z.div_pos; lia | apply Z.div_lt_upper_bound; lia].
Qed.

Lemma store_chars_spec buf cs r :
  Forall is_u8 cs -> 0 <= buf -> buf + alen cs <= W32 ->
  bytes_at (store_chars buf cs r) buf cs /\
  forall x, x < buf \/ buf + alen cs <= x -> ld8 (store_chars buf cs r) x = ld8 r x.
Proof.
  intros Hc H0 H1. unfold store_chars. rewrite fill_loop_eq by done. split; [by apply bytes_at_fill8 |].
  intros x Hx. rewrite ld8_fill8. by replace ((buf <=? x) && (x <? buf + alen cs)) with false by lia.
Qed.

(** Text and terminator. *)
Lemma store_string_spec buf cs r :
  Forall (fun c => 0 < c < 256) cs -> 0 <= buf -> buf + alen cs < W32 ->
  let r' := st8 (store_chars buf cs r) (buf + alen cs) 0 in
  str_at r' buf cs /\ forall x, x < buf \/ buf + alen cs + 1 <= x -> ld8 r' x = ld8 r x.
Proof.
  intros Hc H0 H1 r'. destruct (store_chars_spec buf cs r) as [Hb Hf]; [| done | lia |].
  { eapply Forall_impl; [exact Hc |]. unfold is_u8. cbn. lia. }
  split.
  - split_and!; [done | done | eapply Forall_impl; [exact Hc |]; cbn; lia |]. apply bytes_at_app. split.
    + eapply bytes_at_same; [| exact Hb]. apply same_on_st8. lia.
    + apply bytes_at_cons. split; [apply ld8_st8_eq | done].
  - intros x Hx. pose proof (alen_nonneg cs). unfold r'. rewrite ld8_st8_ne by lia. apply Hf. lia.
Qed.

(** The text [utoa] stores, and that it is the number. *)
Lemma utoa_spec value buf base r :
  2 <= base <= 16 -> is_u32 value -> 0 <= buf -> buf + 33 <= W32 ->
  exists cs r', utoa value buf base r = Some r' /\ uint_chars value base = Some cs /\
    str_at r' buf cs /\ parse_uint base cs = value /\ Forall (fun c => 48 <= c <= 102) cs /\
    (1 <= length cs <= 32)%nat /\ (forall j, (1 <= j)%nat -> value < base ^ Z.of_nat j -> (length cs <= j)%nat) /\
    forall x, x < buf \/ buf + alen cs + 1 <= x -> ld8 r' x = ld8 r x.
Proof.
  intros Hb Hv H0 H1. unfold is_u32 in Hv. destruct (uint_chars_spec value base Hb Hv) as (cs & Hcs & Hp & Hl & _).
  unfold utoa, uint_chars in *. rewrite (u32_small base) by lia. destruct (Z.eqb_spec value 0) as [->|Hne].
  - injection Hcs as <-. exists [48], (st8 (st8 r buf 48) (buf + 1) 0). rewrite (u32_small (buf + 1)) by lia.
    change (buf + 1) with (buf + alen [48]).
    assert (E : st8 r buf 48 = store_chars buf [48] r).
    { unfold store_chars. rewrite fill_loop_eq by (unfold alen; cbn [length]; lia). unfold fill8.
      change (alen [48]) with (0 + 1). rewrite for_snoc, for_empty by lia. by rewrite Z.add_0_r. }
    rewrite E. destruct (store_string_spec buf [48] r) as [Hs Hf]; [repeat constructor; lia | done | change (alen [48]) with 1; lia |].
    split; [done |]. split; [done |]. split; [exact Hs |]. split; [done |]. split; [repeat constructor; lia |].
    split; [done |]. split; [done |]. exact Hf.
  - destruct (digits_loop 32 value base) as [ds|] eqn:Eds; [| done]. injection Hcs as <-. rewrite length_rev in Hl.
    pose proof (digits_loop_bytes 32 value base ds Hb ltac:(lia) Eds) as Hby.
    replace (base =? 0) with false by lia. cbn [mbind option_bind].
    exists (rev ds), (st8 (store_chars buf (rev ds) r) (buf + alen (rev ds)) 0).
    assert (Hlr : alen (rev ds) = alen ds) by (unfold alen; by rewrite length_rev).
    rewrite Hlr. unfold alen. rewrite (u32_small (buf + Z.of_nat (length ds))) by lia.
    destruct (store_string_spec buf (rev ds) r) as [Hs Hf].
    { apply Forall_rev. eapply Forall_impl; [exact Hby |]. cbn. lia. }
    { done. } { rewrite Hlr. unfold alen. lia. }
    rewrite Hlr in Hs, Hf. unfold alen in Hs, Hf. rewrite length_rev.
    split_and!; try done; try lia; [by apply Forall_rev |].
    intros j _ Hj. eapply digits_loop_short; [| | exact Eds]; lia.
Qed.

(** ** The trap *)

Section Trap.
Context {F : Type}.
Implicit Types (k : kstate F).

(** A kernel call's result as user space sees it. *)
Definition as_int (res : result Z F) : result Z F :=
  match res with Done v k => Done (s32 (u32 v)) k | r => r end.

(** Unfolds a wrapper down to the dispatcher's branch. *)
Ltac trap n :=
  unfold int80s, int80, syscall_handler, mbind, prog_bind; change (u32 n) with n;
  cbn [r_eax r_ebx r_ecx r_edx Z.eqb Pos.eqb n SYS_WRITE SYS_READ SYS_OPEN SYS_CLOSE SYS_EXIT SYS_GETPID
       SYS_READDIR SYS_UPTIME SYS_MEMINFO SYS_PS].

Lemma usys_write_eq fd buf len k :
  usys_write fd buf len k = as_int (sys_write (u32 fd) (u32 buf) (u32 len) k).
Proof. unfold usys_write. trap U_SYS_WRITE. by destruct (sys_write _ _ _ k). Qed.

Lemma usys_read_eq fd buf len k :
  usys_read fd buf len k = as_int (sys_read (u32 fd) (u32 buf) (u32 len) k).
Proof. unfold usys_read. trap U_SYS_READ. by destruct (sys_read _ _ _ k). Qed.

Lemma usys_open_eq path k : usys_open path k = as_int (sys_open (u32 path) k).
Proof. unfold usys_open. trap U_SYS_OPEN. by destruct (sys_open _ k). Qed.

Lemma usys_close_eq fd k : usys_close fd k = as_int (sys_close (u32 fd) k).
Proof. unfold usys_close. trap U_SYS_CLOSE. by destruct (sys_close _ k). Qed.

Lemma usys_exit_eq code k :
  usys_exit code k = match sys_exit (s32 (u32 code)) k with Exits k' sw => Exits k' sw | _ => Undef end.
Proof.
  unfold usys_exit. trap U_SYS_EXIT. unfold sys_exit. by destruct (scheduler_tick _ _) as [[s m] sw].
Qed.

Lemma usys_readdir_eq entries max k :
  usys_readdir entries max k = as_int (sys_readdir (u32 entries) (s32 (u32 max)) k).
Proof. unfold usys_readdir. trap U_SYS_READDIR. by destruct (sys_readdir _ _ k). Qed.

Lemma usys_meminfo_eq info k : usys_meminfo info k = as_int (sys_meminfo (u32 info) k).
Proof. unfold usys_meminfo. trap U_SYS_MEMINFO. by destruct (sys_meminfo _ k). Qed.

Lemma usys_ps_eq entries max k :
  usys_ps entries max k = as_int (sys_ps (u32 entries) (s32 (u32 max)) k).
Proof. unfold usys_ps. trap U_SYS_PS. by destruct (sys_ps _ _ k). Qed.

Lemma usys_uptime_eq k :
  usys_uptime k = match sys_uptime k with Done v k' => Done (u32 v) k' | r => r end.
Proof. unfold usys_uptime. trap U_SYS_UPTIME. by destruct (sys_uptime k). Qed.

Lemma usys_getpid_eq k : usys_getpid k = Done (s32 (sys_getpid k)) k.
Proof. unfold usys_getpid. by trap U_SYS_GETPID. Qed.

(** A number outside the table is refused without effect. *)
Lemma int80_unknown n b c d k : SYS_MAX < u32 n \/ u32 n = 0 -> int80 n b c d k = Done (u32 (-1)) k.
Proof.
  intros Hn. unfold int80, syscall_handler. cbn [r_eax]. unfold SYS_MAX, SYS_WRITE, SYS_READ, SYS_OPEN, SYS_CLOSE,
    SYS_EXIT, SYS_GETPID, SYS_READDIR, SYS_UPTIME, SYS_MEMINFO, SYS_PS in *.
  repeat (zcase; try lia). done.
Qed.
End Trap.

(** ** Properties *)

(** C24. The user library's system call wrappers and the kernel agree on numbers,
    argument order and result: each of the ten wrappers, through the trap and
    the dispatcher, is exactly the kernel's function of the same name on its
    32-bit arguments, its result read as the declared type; [sys_exit] never
    returns; and every other call number returns -1 and changes nothing. *)
Theorem wrappers_reach_kernel {F} (k : kstate F) (fd buf len code n b c d : Z) :
  usys_write fd buf len k = as_int (sys_write (u32 fd) (u32 buf) (u32 len) k) /\
  usys_read fd buf len k = as_int (sys_read (u32 fd) (u32 buf) (u32 len) k) /\
  usys_open buf k = as_int (sys_open (u32 buf) k) /\
  usys_close fd k = as_int (sys_close (u32 fd) k) /\
  (exists k' sw, usys_exit code k = Exits k' sw /\ sys_exit (s32 (u32 code)) k = Exits k' sw) /\
  usys_getpid k = Done (s32 (sys_getpid k)) k /\
  usys_readdir buf len k = as_int (sys_readdir (u32 buf) (s32 (u32 len)) k) /\
  usys_uptime k = match sys_uptime k with Done v k' => Done (u32 v) k' | r => r end /\
  usys_meminfo buf k = as_int (sys_meminfo (u32 buf) k) /\
  usys_ps buf len k = as_int (sys_ps (u32 buf) (s32 (u32 len)) k) /\
  (SYS_MAX < u32 n \/ u32 n = 0 -> int80 n b c d k = Done (u32 (-1)) k).
Proof.
  split_and!; auto using usys_write_eq, usys_read_eq, usys_open_eq, usys_close_eq, usys_getpid_eq, usys_readdir_eq,
    usys_uptime_eq, usys_meminfo_eq, usys_ps_eq, int80_unknown.
  rewrite usys_exit_eq. unfold sys_exit. destruct (scheduler_tick _ _) as [[s m] sw]. by do 2 eexists.
Qed.

(** [strcmp] and [strncmp] decide lexicographic order: on stored C strings
    they terminate, and the sign of the result is that of the byte-wise
    lexicographic comparison of the two strings, respectively of their first
    [n] characters; in particular the result is 0 exactly for equal strings. *)
Theorem strcmp_orders_strings (r : ram) (a b n : Z) (s t : list Z) :
  str_at r a s -> str_at r b t -> (length s <= STR_FUEL)%nat ->
  exists d, strcmp r a b = Some d /\ (d ?= 0) = lexcmp s t /\ (d = 0 <-> s = t) /\
    (strncmp r a b n ?= 0) = lexcmp (take (Z.to_nat n) s) (take (Z.to_nat n) t) /\
    (strncmp r a b n = 0 <-> take (Z.to_nat n) s = take (Z.to_nat n) t).
Proof.
  intros Hs Ht Hf. destruct (strcmp_spec r a b s t Hs Ht Hf) as (d & Hd & Hc & _).
  assert (Hn : (strncmp r a b n ?= 0) = lexcmp (take (Z.to_nat n) s) (take (Z.to_nat n) t)).
  { apply strncmp_loop_spec; rewrite ?Z.add_0_r; try done; [apply Hs | apply Ht]. }
  exists d. rewrite <- !lexcmp_eq, <- Hc, <- Hn, !Z.compare_eq_iff. done.
Qed.

(** The strings ["cat a"] and ["cat b"] at 0x1000 and 0x2000. *)
Definition demo_strings : ram :=
  let f a s r := fill8 r a (alen s) (fun i => aget 0 s i) in
  f 0x1000 (lit "cat a" ++ [0]) (f 0x2000 (lit "cat b" ++ [0]) ∅).

Lemma demo_str_at : str_at demo_strings 0x1000 (lit "cat a") /\ str_at demo_strings 0x2000 (lit "cat b").
Proof.
  split; (split; [lia |]); (split; [vm_compute; reflexivity |]);
    (split; [repeat constructor; discriminate | apply bytes_bytes_at; vm_compute; reflexivity]).
Qed.

Lemma strcmp_orders_strings_witness :
  exists d, strcmp demo_strings 0x1000 0x2000 = Some d /\ d <> 0 /\ strncmp demo_strings 0x1000 0x2000 4 = 0.
Proof.
  destruct (strcmp_orders_strings demo_strings 0x1000 0x2000 4 (lit "cat a") (lit "cat b")
    (proj1 demo_str_at) (proj2 demo_str_at)) as (d & H1 & _ & H2 & _ & H3).
  - apply Nat.leb_le. vm_compute. reflexivity.
  - exists d. split; [exact H1 |]. split; [intros E; apply H2 in E; discriminate |]. apply H3. reflexivity.
Defined.

(** [itoa] in base 10 is a round trip: for every [int] (INT_MIN included)
    it stores a NUL-terminated numeral that reads back as the value, of at most
    11 characters, and changes no byte outside the 12 it may use. *)
Theorem itoa_decimal_roundtrip (value buf : Z) (r : ram) :
  is_s32 value -> 0 <= buf -> buf + 34 <= W32 ->
  exists cs r', itoa value buf 10 r = Some r' /\ str_at r' buf cs /\ parse_int cs = value /\
    (1 <= length cs <= 11)%nat /\ forall x, x < buf \/ buf + 12 <= x -> ld8 r' x = ld8 r x.
Proof.
  intros Hv H0 H1. unfold itoa, is_s32 in *. change (10 =? 10) with true. rewrite andb_true_r.
  destruct (Z.ltb_spec value 0) as [Hneg|Hpos].
  - rewrite (u32_small (- (value + 1))), (u32_small (- (value + 1) + 1)), (u32_small (buf + 1)) by lia.
    destruct (utoa_spec (- (value + 1) + 1) (buf + 1) 10 (st8 r buf 45))
      as (cs & r' & Hu & _ & (_ & _ & Hn & Hb) & Hp & _ & Hl & Hshort & Hf); [lia | unfold is_u32; lia | lia | lia |].
    specialize (Hshort 10%nat ltac:(lia)). change (10 ^ Z.of_nat 10) with 10000000000 in Hshort.
    unfold alen in Hf. exists (45 :: cs), r'. split; [done |]. split_and!.
    + split_and!; [done | unfold alen; cbn [length]; lia | by constructor |]. cbn [app]. apply bytes_at_cons.
      split; [| done]. rewrite Hf by lia. by rewrite ld8_st8_eq.
    + cbn [parse_int]. lia.
    + cbn [length]. lia.
    + cbn [length]. lia.
    + intros x Hx. rewrite Hf by lia. by rewrite ld8_st8_ne by lia.
  - rewrite (u32_small value) by lia.
    destruct (utoa_spec value buf 10 r) as (cs & r' & Hu & _ & Hs & Hp & Hc & Hl & Hshort & Hf);
      [lia | unfold is_u32; lia | lia | lia |].
    specialize (Hshort 10%nat ltac:(lia)). change (10 ^ Z.of_nat 10) with 10000000000 in Hshort. unfold alen in Hf.
    exists cs, r'. split; [done |]. split_and!; [done | | lia | lia |].
    + rewrite parse_int_digits; [done |]. eapply Forall_impl; [exact Hc |]. cbn. lia.
    + intros x Hx. apply Hf. lia.
Qed.

Lemma itoa_decimal_roundtrip_witness :
  exists cs r', itoa (-2147483648) 0x1000 10 ∅ = Some r' /\ str_at r' 0x1000 cs /\ parse_int cs = -2147483648.
Proof.
  destruct (itoa_decimal_roundtrip (-2147483648) 0x1000 ∅) as (cs & r' & H1 & H2 & H3 & _).
  - unfold is_s32. lia.
  - lia.
  - lia.
  - exists cs, r'. split; [exact H1 |]. split; [exact H2 | exact H3].
Defined.

(** The copying functions: [strcpy] terminates with the whole string at the
    destination, [strncpy] stores exactly [n] bytes, the string's first [n]
    padded with NULs, [memcpy] the source's bytes and [memset] the value, each
    leaving every other byte alone (for regions that do not overlap). *)
Theorem copies_are_exact (r : ram) (dst src n c : Z) (s : list Z) :
  str_at r src s -> (length s <= STR_FUEL)%nat -> 0 <= dst -> 0 <= n ->
  dst + Z.max n (alen s + 1) <= W32 -> src + n <= W32 ->
  dst + Z.max n (alen s + 1) <= src \/ src + Z.max n (alen s + 1) <= dst ->
  (exists r', strcpy dst src r = Some r' /\ str_at r' dst s /\
     forall x, x < dst \/ dst + alen s + 1 <= x -> ld8 r' x = ld8 r x) /\
  (bytes_at (strncpy dst src n r) dst (padded (Z.to_nat n) s) /\
     forall x, x < dst \/ dst + n <= x -> ld8 (strncpy dst src n r) x = ld8 r x) /\
  (bytes (memcpy dst src n r) dst n = bytes r src n /\
     forall x, x < dst \/ dst + n <= x -> ld8 (memcpy dst src n r) x = ld8 r x) /\
  forall x, ld8 (memset dst c n r) x = if (dst <=? x) && (x <? dst + n) then u8 c else ld8 r x.
Proof.
  intros Hs Hf Hd Hn Hw Hw2 Hdis. pose proof (alen_nonneg s). pose proof Hs as (Hs0 & Hs1 & _). split_and!.
  - apply strcpy_loop_spec; (done || lia).
  - destruct (strncpy_loop_spec (Z.to_nat n) r 0 dst src s) as [H1 _]; rewrite ?Z.add_0_r in *; (done || lia).
  - destruct (strncpy_loop_spec (Z.to_nat n) r 0 dst src s) as [_ H2]; rewrite ?Z.add_0_r in *; try (done || lia).
    intros x Hx. apply H2. lia.
  - apply copy_bytes_spec; lia.
  - apply copy_bytes_spec; lia.
  - intros x. unfold memset. rewrite (fill_loop_eq r dst n (fun _ => u8 c)) by lia. rewrite ld8_fill8.
    by rewrite (u8_small (u8 c)) by apply u8_range.
Qed.

Lemma copies_are_exact_witness :
  exists r', strcpy 0x3000 0x1000 demo_strings = Some r' /\ str_at r' 0x3000 (lit "cat a").
Proof.
  destruct (copies_are_exact demo_strings 0x3000 0x1000 8 32 (lit "cat a") (proj1 demo_str_at)) as [(r' & H1 & H2 & _) _].
  - apply Nat.leb_le. vm_compute. reflexivity.
  - lia.
  - lia.
  - vm_compute. congruence.
  - lia.
  - right. vm_compute. congruence.
  - exists r'. split; [exact H1 | exact H2].
Defined.
