(* ===== verification/Uprog.v ===== *)
(** * Uprog: reasoning about user programs

    A program's visible effect is the text it shows on the console and the
    bytes of RAM it may change.  [uses W txt p k Q] says that the program [p]
    run in [k] returns, shows exactly [txt], changes RAM only inside [W], leaves
    the kernel's other state and the keyboard input alone, and establishes [Q];
    it composes over the program monad of Ulib.v.  Reading the keyboard consumes
    characters and, while it waits for them, advances the clock. *)
From stdpp Require Import strings.
From S2P Require Import Prelude Memory Machine Vga Console Multiboot Pmm Heap Vfs Ramfs Arch Keyboard Timer Process Scheduler Syscall Ulib.

Section Logic.
Context {F : Type}.
Implicit Types (k : kstate F) (W : Z -> Prop).

(** ** Input and time *)

(** The characters a program can still read; with the ticks it waits for each. *)
Definition stdin k : list Z := pending (k_kbd k) (k_irqs k).
Definition awaited k : list (nat * Z) := arrivals (k_kbd k) (k_irqs k).
Definition now k : timer := clock (k_sched k).

(** [k'] comes from [k] by reading some characters: the clock has advanced by
    the ticks waited for them. *)
Definition reads_on k k' : Prop := exists l, awaited k = l ++ awaited k' /\ now k' = waited l (now k).

#[export] Instance reads_on_preorder : PreOrder reads_on.
Proof.
  split; [intros k; by exists [] |]. intros k1 k2 k3 (l1 & E1 & T1) (l2 & E2 & T2). exists (l1 ++ l2).
  split; [by rewrite E1, E2, app_assoc |]. unfold waited in *. by rewrite fold_left_app, <- T1.
Qed.

Definition same_input k k' : Prop := k_kbd k' = k_kbd k /\ k_irqs k' = k_irqs k /\ now k' = now k.

Lemma same_input_trans k1 k2 k3 : same_input k1 k2 -> same_input k2 k3 -> same_input k1 k3.
Proof. intros (A1 & A2 & A3) (B1 & B2 & B3). split_and!; congruence. Qed.

Lemma same_input_reads k k' : same_input k k' -> reads_on k k'.
Proof. intros (H1 & H2 & H3). exists []. unfold awaited. by rewrite H1, H2, H3. Qed.

Lemma awaited_stdin k : snd <$> awaited k = stdin k.
Proof. apply arrivals_pending. Qed.

Lemma waited_rate l t : ticks_per_second (waited l t) = ticks_per_second t.
Proof.
  revert t. induction l as [|[n c] l IH]; intros t; [done |]. cbn [waited fold_left fst]. unfold waited in IH. rewrite IH.
  induction n as [|n IHn]; [done |]. exact IHn.
Qed.

(** How many of the characters to come were read before [more] was left. *)
Definition read_before k (more : list Z) : nat := length (awaited k) - length more.

(** The clock when the characters [more] are left. *)
Definition clock_at k (more : list Z) : timer := waited (take (read_before k more) (awaited k)) (now k).

(** The characters left determine the clock. *)
Lemma reads_on_now k k' :
  reads_on k k' -> awaited k' = drop (read_before k (stdin k')) (awaited k) /\ now k' = clock_at k (stdin k').
Proof.
  intros (l & E & T). unfold clock_at, read_before. rewrite <- awaited_stdin, length_fmap, E, length_app.
  replace (length l + length (awaited k') - length (awaited k'))%nat with (length l) by lia. by rewrite drop_app_length, take_app_length.
Qed.

(** ** Effects *)

(** The kernel's state is as it was, but for the input read and the clock. *)
Definition same_kernel k k' : Prop :=
  k_sched k' = set_clock (now k') (k_sched k) /\ k_vfs k' = k_vfs k /\ k_fs k' = k_fs k /\ k_pmm k' = k_pmm k /\ reads_on k k'.

Lemma same_kernel_intro k k' :
  k_sched k' = k_sched k -> k_vfs k' = k_vfs k -> k_fs k' = k_fs k -> k_pmm k' = k_pmm k -> k_kbd k' = k_kbd k -> k_irqs k' = k_irqs k ->
  same_kernel k k' /\ same_input k k'.
Proof.
  intros H1 H2 H3 H4 H5 H6. assert (Hi : same_input k k') by (unfold same_input, now; by rewrite H1).
  split; [| exact Hi]. unfold same_kernel. rewrite (proj2 (proj2 Hi)), H1. split_and!; try done; [unfold now; by destruct (k_sched k) | by apply same_input_reads].
Qed.

Lemma same_kernel_cur k k' : same_kernel k k' -> cur_proc k' = cur_proc k.
Proof. intros (H & _). unfold cur_proc. by rewrite H. Qed.

Lemma same_kernel_sched k k' : same_kernel k k' -> same_input k k' -> k_sched k' = k_sched k.
Proof. intros (H & _) (_ & _ & Hn). rewrite H, Hn. unfold now. by destruct (k_sched k). Qed.

#[export] Instance same_kernel_preorder : PreOrder same_kernel.
Proof.
  split; [intros k; by apply same_kernel_intro |]. intros k1 k2 k3 (A1 & A2 & A3 & A4 & A5) (B1 & B2 & B3 & B4 & B5).
  split; [by rewrite B1, A1 |]. split_and!; try congruence. by etransitivity.
Qed.

Definition effect W (txt : list Z) k k' : Prop :=
  same_kernel k k' /\ shows txt (k_mach k) (k_mach k') /\
  forall x, ~ W x -> ld8 (k_ram k') x = ld8 (k_ram k) x.

Lemma effect_trans W t1 t2 k1 k2 k3 : effect W t1 k1 k2 -> effect W t2 k2 k3 -> effect W (t1 ++ t2) k1 k3.
Proof.
  intros (A & B & C) (A' & B' & C'). split; [by etransitivity |]. split; [by eapply shows_trans |].
  intros x Hx. rewrite C', C by done. done.
Qed.

Lemma effect_refl W k : vga_wf (k_mach k) -> effect W [] k k.
Proof. intros Hwf. split; [reflexivity |]. split; [by apply shows_nil | done]. Qed.

(** A change of the machine alone. *)
Lemma same_kernel_mach f k : same_kernel k (upd_mach f k).
Proof. by apply same_kernel_intro. Qed.

Lemma effect_weaken W W' t k k' : (forall x, W x -> W' x) -> effect W t k k' -> effect W' t k k'.
Proof. intros H (A & B & C). split; [done |]. split; [done |]. intros x Hx. apply C. auto. Qed.

Lemma effect_ram W r k :
  vga_wf (k_mach k) -> (forall x, ~ W x -> ld8 r x = ld8 (k_ram k) x) ->
  effect W [] k (upd_mach (set_ram (fun _ => r)) k).
Proof. intros Hwf Hr. split; [apply same_kernel_mach |]. split; [by apply shows_nil | done]. Qed.

Definition uses {A} W (txt : list Z) (p : prog F A) k (Q : A -> kstate F -> Prop) : Prop :=
  exists a k', p k = Done a k' /\ effect W txt k k' /\ same_input k k' /\ Q a k'.

Lemma uses_ret {A} W (a : A) k (Q : A -> kstate F -> Prop) : vga_wf (k_mach k) -> Q a k -> uses W [] (mret a) k Q.
Proof. intros Hwf HQ. exists a, k. split; [done |]. split; [by apply effect_refl | done]. Qed.

Lemma uses_bind {A B} W t1 t2 (p : prog F A) (f : A -> prog F B) k Q R :
  uses W t1 p k Q ->
  (forall a k1, effect W t1 k k1 -> same_input k k1 -> Q a k1 -> uses W t2 (f a) k1 R) ->
  uses W (t1 ++ t2) (p ≫= f) k R.
Proof.
  intros (a & k1 & Hp & He & Hi & HQ) Hf. destruct (Hf a k1 He Hi HQ) as (b & k2 & Hf' & He' & Hi' & HR).
  exists b, k2. split; [unfold mbind, prog_bind; by rewrite Hp |]. split; [by eapply effect_trans |].
  split; [by eapply same_input_trans | done].
Qed.

Lemma uses_conseq {A} W W' t t' (p : prog F A) k (Q R : A -> kstate F -> Prop) :
  uses W t p k Q -> (forall x, W x -> W' x) -> t = t' -> (forall a k', Q a k' -> R a k') -> uses W' t' p k R.
Proof.
  intros (a & k1 & Hp & He & Hi & HQ) HW <- HR. exists a, k1. split; [done |].
  split; [by eapply effect_weaken |]. split; [done | auto].
Qed.

(** [uses_bind] with the split of the text given. *)
Lemma uses_seq {A B} W t1 t2 t (p : prog F A) (f : A -> prog F B) k Q R :
  uses W t1 p k Q -> t = t1 ++ t2 ->
  (forall a k1, effect W t1 k k1 -> same_input k k1 -> Q a k1 -> uses W t2 (f a) k1 R) ->
  uses W t (p ≫= f) k R.
Proof. intros Hp -> Hf. by eapply uses_bind. Qed.

(** Runs the first program of a sequence. *)
Lemma uses_run {A B} W t (p : prog F A) (f : A -> prog F B) k Q :
  uses W t p k Q -> exists a k1, (p ≫= f) k = f a k1 /\ effect W t k k1 /\ same_input k k1 /\ Q a k1.
Proof.
  intros (a & k1 & Hp & H). exists a, k1. split; [| done]. unfold mbind, prog_bind. by rewrite Hp.
Qed.

(** ** Primitive steps *)

Lemma uses_load W a k : vga_wf (k_mach k) -> uses W [] (uload a) k (fun v k' => v = ld8 (k_ram k) a /\ k' = k).
Proof. intros Hwf. exists (ld8 (k_ram k) a), k. split; [done |]. split; [by apply effect_refl | done]. Qed.

Lemma uses_load32 W a k : vga_wf (k_mach k) -> uses W [] (uload32 a) k (fun v k' => v = ld32 (k_ram k) a /\ k' = k).
Proof. intros Hwf. exists (ld32 (k_ram k) a), k. split; [done |]. split; [by apply effect_refl | done]. Qed.

Lemma uses_store W a v k :
  vga_wf (k_mach k) -> W a -> uses W [] (ustore a v) k (fun _ k' => k_ram k' = st8 (k_ram k) a v).
Proof.
  intros Hwf Ha. exists tt. eexists. split; [reflexivity |]. split; [| done].
  split; [apply same_kernel_mach |]. split; [by apply shows_nil |]. intros x Hx.
  change (ld8 (st8 (k_ram k) a v) x = ld8 (k_ram k) x). apply ld8_st8_ne. intros <-. done.
Qed.

Lemma uses_read {A} W (f : ram -> option A) a k :
  vga_wf (k_mach k) -> f (k_ram k) = Some a -> uses W [] (uread f) k (fun v k' => v = a /\ k' = k).
Proof.
  intros Hwf Hf. exists a, k. unfold uread. rewrite Hf. split; [done |]. split; [by apply effect_refl | done].
Qed.

Lemma uses_write W (f : ram -> option ram) r k :
  vga_wf (k_mach k) -> f (k_ram k) = Some r -> (forall x, ~ W x -> ld8 r x = ld8 (k_ram k) x) ->
  uses W [] (uwrite f) k (fun _ k' => k_ram k' = r).
Proof.
  intros Hwf Hf Hr. exists tt. eexists. split; [unfold uwrite; rewrite Hf; reflexivity |].
  split; [by apply effect_ram | done].
Qed.

(** ** Writing to the console *)

Lemma put_loop_eq buf len m :
  0 <= buf -> buf + len <= W32 ->
  for_ 0 len (fun i m => vga_putchar (ld8 (m_ram m) (u32 (buf + i))) m) m = put_all (bytes (m_ram m) buf len) m.
Proof.
  intros H0 H1. destruct (Z.le_gt_cases len 0) as [Hl|Hl].
  { rewrite for_empty by lia. unfold bytes. by replace (Z.to_nat len) with O by lia. }
  assert (H : forall n, 0 <= n -> n <= len ->
    for_ 0 n (fun i m => vga_putchar (ld8 (m_ram m) (u32 (buf + i))) m) m = put_all (bytes (m_ram m) buf n) m).
  { intros n Hn. revert n Hn. apply (natlike_ind (fun n => n <= len -> _)).
    - intros _. by rewrite for_empty by lia.
    - intros n Hn IH Hle. unfold Z.succ. rewrite for_snoc, IH by lia. unfold bytes.
      replace (Z.to_nat (n + 1)) with (S (Z.to_nat n)) by lia. rewrite seq_S, fmap_app, put_all_app.
      fold (bytes (m_ram m) buf n). rewrite m_ram_put_all, u32_small by lia. cbn [fmap list_fmap put_all fold_left Nat.add].
      by rewrite Z2Nat.id by lia. }
  apply H; lia.
Qed.

Lemma usys_write_console buf len k :
  0 <= buf -> 0 <= len < 2147483648 -> buf + len <= W32 -> buf < W32 ->
  usys_write 1 buf len k = Done len (upd_mach (put_all (bytes (k_ram k) buf len)) k).
Proof.
  intros H0 H1 H2 H3. rewrite usys_write_eq, (u32_small 1), (u32_small buf), (u32_small len) by lia. unfold sys_write.
  cbn [Z.eqb Pos.eqb orb as_int]. rewrite (s32_small len), u32_small, s32_small by lia. f_equal.
  unfold upd_mach. by rewrite put_loop_eq by lia.
Qed.

Lemma upd_mach_put_ram cs k : k_ram (upd_mach (put_all cs) k) = k_ram k.
Proof. apply m_ram_put_all. Qed.

Lemma uses_console W buf len k :
  vga_wf (k_mach k) -> 0 <= buf < W32 -> 0 <= len < 2147483648 -> buf + len <= W32 ->
  uses W (bytes (k_ram k) buf len) (usys_write 1 buf len) k (fun n k' => n = len /\ k_ram k' = k_ram k).
Proof.
  intros Hwf H0 H1 H2. exists len. eexists. split; [by apply usys_write_console; lia |].
  split; [| split; [done | split; [done | apply upd_mach_put_ram]]].
  split; [apply same_kernel_mach |]. split; [by apply put_all_shows |]. intros x _. by rewrite upd_mach_put_ram.
Qed.

(** ** Calls that change nothing but RAM *)

Definition ram_only k k' : Prop := k' = upd_mach (set_ram (fun _ => k_ram k')) k.

Lemma ram_only_refl k : ram_only k k.
Proof. by destruct k as [? ? ? ? ? ? []]. Qed.

Lemma ram_only_effect W k k' :
  ram_only k k' -> vga_wf (k_mach k) -> (forall x, ~ W x -> ld8 (k_ram k') x = ld8 (k_ram k) x) ->
  effect W [] k k' /\ same_input k k'.
Proof. intros -> Hwf Hr. split; [by apply effect_ram | done]. Qed.

Lemma sys_open_ram path k v k' : sys_open path k = Done v k' -> ram_only k k'.
Proof.
  unfold sys_open. generalize (find_fd (Z.to_nat (MAX_FDS - 3)) 3 (cur_proc k) (k_ram k)). intros fd.
  generalize (vfs_open (k_vfs k) (cstr_at PATH_FUEL (k_ram k) path) (k_fs k)). intros i.
  destruct (cur_proc k =? 0); [intros [= _ <-]; apply ram_only_refl |]. destruct (fd <? 0); [intros [= _ <-]; apply ram_only_refl |].
  destruct (i <? 0); [intros [= _ <-]; apply ram_only_refl | intros [= _ <-]; reflexivity].
Qed.

Lemma sys_close_ram fd k v k' : sys_close fd k = Done v k' -> ram_only k k'.
Proof.
  unfold sys_close. destruct (_ || _); [intros [= _ <-]; apply ram_only_refl |].
  destruct (negb _); [intros [= _ <-]; apply ram_only_refl |]. by intros [= _ <-].
Qed.

Lemma sys_read_ram fd buf len k v k' : fd <> 0 -> sys_read fd buf len k = Done v k' -> ram_only k k'.
Proof.
  intros Hfd. unfold sys_read. replace (fd =? 0) with false by lia.
  destruct (negb _); [intros [= _ <-]; apply ram_only_refl |]. destruct (vfs_read _ _ _ _ _ _ _) as [n r].
  intros [= _ <-]. by destruct (0 <? n).
Qed.

(** ** Reading the keyboard *)

(** The driver's invariant, and no NUL in its buffer (it never stores one). *)
Definition input_ok k : Prop :=
  kbd_inv (k_kbd k) /\ Forall wake_ok (k_irqs k) /\ Forall (fun c => 0 < c < 256) (stdin k).

Lemma same_input_ok k k' : same_input k k' -> input_ok k -> input_ok k' /\ stdin k' = stdin k.
Proof. intros (H1 & H2 & _). unfold input_ok, stdin. by rewrite H1, H2. Qed.

Lemma usys_read_stdin a k :
  input_ok k -> vga_wf (k_mach k) -> 0 <= a < W32 ->
  match stdin k with
  | [] => usys_read 0 a 1 k = Blocks
  | c :: rest => exists k', usys_read 0 a 1 k = Done 1 k' /\ k_ram k' = st8 (k_ram k) a c /\ stdin k' = rest /\
                   input_ok k' /\ effect (eq a) [] k k'
  end.
Proof.
  intros (Hi & Hw & Hc) Hwf Ha. rewrite usys_read_eq, (u32_small 0), (u32_small a), (u32_small 1) by lia.
  unfold sys_read. cbn [Z.eqb]. change (Z.to_nat 1) with 1%nat. cbn [read_stdin].
  pose proof (getchar_delivers (k_irqs k) (k_kbd k) (clock (k_sched k)) (k_mach k) Hi Hw) as Hd. unfold delivers in Hd.
  rewrite <- awaited_stdin in Hc |- *. unfold awaited in *.
  destruct (arrivals (k_kbd k) (k_irqs k)) as [|[n c] rest] eqn:E; [by rewrite Hd |]. cbn [fmap list_fmap snd] in *.
  destruct Hd as (s' & irqs' & m' & Hg & Hi' & Hp & Hr). rewrite Hg.
  destruct (getchar_mach _ _ _ _ _ _ _ _ _ Hg) as (_ & V1 & V2 & V3 & V4 & l & Hl).
  rewrite Hl in Hw. apply Forall_app in Hw as [_ Hw]. apply Forall_cons in Hc as [Hc0 Hc].
  cbn [mbind option_bind]. eexists. split; [reflexivity |]. rewrite Z.add_0_r, (u32_small a) by lia.
  assert (Hram : m_ram (mst8 a c m') = st8 (k_ram k) a c) by (rewrite m_ram_mst8, Hr; done).
  split; [exact Hram |]. unfold input_ok. rewrite <- awaited_stdin. unfold awaited. cbn [k_kbd k_irqs]. rewrite Hp.
  split; [done |]. split; [split; [exact Hi' |]; by split |].
  split; [| split; [by apply shows_nil |]; intros x Hx; unfold k_ram at 1; cbn [k_mach]; rewrite Hram; by apply ld8_st8_ne].
  split; [done |]. split; [done |]. split; [done |]. split; [done |].
  exists [(n, c)]. unfold awaited. cbn [k_kbd k_irqs]. by rewrite E, Hp.
Qed.

(** The text to come is no longer than the buffer and the interrupts left. *)
Lemma typed_length sh scs : (length (typed sh scs) <= length scs)%nat.
Proof.
  revert sh. induction scs as [|sc scs IH]; intros sh; cbn [typed length]; [done |].
  destruct (key sh sc) as [sh' c]. rewrite length_app. specialize (IH sh'). destruct c; simpl; lia.
Qed.

Lemma stdin_length k : (length (stdin k) <= 255 + length (k_irqs k))%nat.
Proof.
  unfold stdin, pending. rewrite length_app. pose proof (alen_queue (k_kbd k)) as Hq. unfold alen, qlen in Hq.
  pose proof (typed_length (ctrue (shift_held (k_kbd k))) (scancodes (k_irqs k))) as Ht.
  assert (Hs : (length (scancodes (k_irqs k)) <= length (k_irqs k))%nat).
  { clear. unfold scancodes. induction (k_irqs k) as [|[sc| |] l IH]; simpl; lia. }
  lia.
Qed.
End Logic.
