(* ===== verification/Shell.v ===== *)
(** * Shell: the interactive shell (userspace/shell/shell.c)

    The shell is a program over the user library: it reaches the kernel only
    through the wrappers of Ulib.v.  Its string literals are stored at the
    addresses [rodata] gives them, its local variables at the addresses of a
    [uframe].  Loops the source bounds by the keyboard's input or by a file's
    length have fuel; running out of it is [Undef], and the theorems show the
    fuel that is enough. *)
From stdpp Require Import strings.
From S2P Require Import Prelude Memory Machine Vga Console Multiboot Pmm Heap Vfs Ramfs Arch Keyboard Timer Process Scheduler Syscall Ulib.

Definition CMD_BUF_SIZE := 256.

(** [sizeof(user_dirent_t)], [sizeof(ps_entry_t)]. *)
Definition USER_DIRENT_SIZE := 68.
Definition PS_ENTRY_SIZE := 8.

(** Addresses of the local variables. *)
Record uframe := UFrame {
  u_c : Z;         (** [char c] of [readline] *)
  u_num : Z;       (** [char buf[16]] of [print_num] *)
  u_cmd : Z;       (** [char cmd[CMD_BUF_SIZE]] of [_start] *)
  u_buf : Z;       (** [char buf[512]] of [cmd_cat] *)
  u_dirents : Z;   (** [user_dirent_t entries[32]] of [cmd_ls] *)
  u_line : Z;      (** [char line[81]] of [cmd_clear] *)
  u_info : Z;      (** [meminfo_t info] of [cmd_meminfo] *)
  u_ps : Z;        (** [ps_entry_t entries[32]] of [cmd_ps] *)
}.

(** The branch never taken with enough fuel. *)
Definition no_fuel {F A} : prog F A := fun _ => Undef.

Section Shell.
Context {F : Type} (U : uframe) (rodata : list Z -> Z).

Definition print (s : Z) : prog F unit :=
  n ← uread (fun r => strlen r s);
  _ ← usys_write 1 s n;
  mret tt.

(** [print] of a literal. *)
Definition say (t : list Z) : prog F unit := print (rodata t).

Definition print_num (n : Z) : prog F unit :=
  uwrite (utoa n (u_num U) 10) ;; print (u_num U).

Definition print_prompt : prog F unit := say (lit "anubhav-os:/ $ ").

(** ["\b \b"]. *)
Definition erase : list Z := [8; 32; 8].

Fixpoint readline (fuel : nat) (buf max pos : Z) : prog F Z :=
  if pos <? max - 1 then
    match fuel with
    | O => no_fuel
    | S fuel' =>
        n ← usys_read 0 (u_c U) 1;
        if n <=? 0 then readline fuel' buf max pos
        else
          c ← uload (u_c U);
          if (c =? 10) || (c =? 13) then ustore (buf + pos) 0 ;; say nl ;; mret pos
          else if (c =? 8) || (c =? 127) then
            if 0 <? pos then
              _ ← usys_write 1 (rodata erase) 3; readline fuel' buf max (pos - 1)
            else readline fuel' buf max pos
          else
            ustore (buf + pos) c ;;
            _ ← usys_write 1 (u_c U) 1; readline fuel' buf max (pos + 1)
    end
  else ustore (buf + pos) 0 ;; mret pos.

(** The lines [cmd_help] prints. *)
Definition help_lines : list (list Z) :=
  (fun s => lit s ++ nl) <$>
  ["AnubhavOS Shell Commands:";
   "  help     — show this help";
   "  ls       — list files in ramfs";
   "  cat FILE — display file contents";
   "  echo ... — print arguments";
   "  clear    — clear the screen";
   "  uptime   — seconds since boot";
   "  meminfo  — physical memory usage";
   "  ps       — list running processes"]%string.

Fixpoint say_all (ts : list (list Z)) : prog F unit :=
  match ts with [] => mret tt | t :: ts' => say t ;; say_all ts' end.

Definition cmd_help : prog F unit := say_all help_lines.

(** One line of the listing, for the entry at [e]. *)
Definition ls_entry (e : Z) : prog F unit :=
  say (lit "  ") ;; print e ;; say (lit "  (") ;;
  n ← uload32 (e + 64); print_num n ;; say (lit " bytes)" ++ nl).

Fixpoint ls_loop (n : nat) (i : Z) : prog F unit :=
  match n with
  | O => mret tt
  | S n' => ls_entry (u_dirents U + USER_DIRENT_SIZE * i) ;; ls_loop n' (i + 1)
  end.

Definition cmd_ls : prog F unit :=
  count ← usys_readdir (u_dirents U) 32;
  if count <? 0 then say (lit "ls: readdir failed" ++ nl)
  else
    ls_loop (Z.to_nat count) 0 ;;
    if count =? 0 then say (lit "  (no files)" ++ nl) else mret tt.

(** [while ((n = sys_read(fd, buf, sizeof(buf))) > 0) sys_write(1, buf, n);] *)
Fixpoint cat_loop (fuel : nat) (fd : Z) : prog F unit :=
  match fuel with
  | O => no_fuel
  | S fuel' =>
      n ← usys_read fd (u_buf U) 512;
      if 0 <? n then _ ← usys_write 1 (u_buf U) n; cat_loop fuel' fd else mret tt
  end.

Definition cmd_cat (fuel : nat) (filename : Z) : prog F unit :=
  c ← uload filename;
  if (filename =? 0) || (c =? 0) then say (lit "cat: usage: cat <filename>" ++ nl)
  else
    fd ← usys_open filename;
    if fd <? 0 then say (lit "cat: file not found: ") ;; print filename ;; say nl
    else
      cat_loop fuel fd ;;
      _ ← usys_close fd; mret tt.

Definition cmd_echo (args : Z) : prog F unit :=
  c ← uload args;
  (if negb (args =? 0) && ctrue c then print args else mret tt) ;; say nl.

Fixpoint clear_loop (n : nat) : prog F unit :=
  match n with
  | O => mret tt
  | S n' => _ ← usys_write 1 (u_line U) 80; clear_loop n'
  end.

Definition cmd_clear : prog F unit :=
  uwrite (fun r => Some (memset (u_line U) 32 80 r)) ;;
  ustore (u_line U + 80) 0 ;;
  clear_loop 25 ;;
  say [13].

Definition cmd_uptime : prog F unit :=
  secs ← usys_uptime;
  say (lit "Uptime: ") ;; print_num secs ;; say (lit " seconds" ++ nl).

Definition meminfo_line (label : list Z) (field : Z) : prog F unit :=
  say label ;; n ← uload32 (u_info U + field); print_num (u32 (n * 4)) ;; say (lit " KB" ++ nl).

Definition cmd_meminfo : prog F unit :=
  v ← usys_meminfo (u_info U);
  if v <? 0 then say (lit "meminfo: failed" ++ nl)
  else
    say (lit "Physical Memory:" ++ nl) ;;
    meminfo_line (lit "  Total: ") 0 ;; meminfo_line (lit "  Free:  ") 4 ;; meminfo_line (lit "  Used:  ") 8.

Definition state_name (state : Z) : list Z :=
  if state =? 0 then lit "READY" else if state =? 1 then lit "RUNNING"
  else if state =? 2 then lit "BLOCKED" else if state =? 3 then lit "ZOMBIE" else lit "?".

Definition ps_entry (e : Z) : prog F unit :=
  say (lit "  ") ;; pid ← uload32 e; print_num pid ;; say (lit "   ") ;;
  st ← uload32 (e + 4); say (state_name st) ;; say nl.

Fixpoint ups_loop (n : nat) (i : Z) : prog F unit :=
  match n with
  | O => mret tt
  | S n' => ps_entry (u_ps U + PS_ENTRY_SIZE * i) ;; ups_loop n' (i + 1)
  end.

Definition cmd_ps : prog F unit :=
  count ← usys_ps (u_ps U) 32;
  if count <? 0 then say (lit "ps: failed" ++ nl)
  else say (lit "PID  STATE" ++ nl) ;; ups_loop (Z.to_nat count) 0.

(** [strcmp(cmd, t) == 0] and [strncmp(cmd, t, n) == 0]. *)
Definition cmd_is (t : list Z) : prog F bool :=
  d ← uread (fun r => strcmp r (u_cmd U) (rodata t)); mret (d =? 0).
Definition cmd_has (t : list Z) (n : Z) : prog F bool :=
  d ← uread (fun r => Some (strncmp r (u_cmd U) (rodata t) n)); mret (d =? 0).

(** The command chain of [_start]; [fuel] bounds the reads of [cat]. *)
Definition run_cmd (fuel : nat) : prog F unit :=
  b ← cmd_is (lit "help"); if (b : bool) then cmd_help else
  b ← cmd_is (lit "ls"); if (b : bool) then cmd_ls else
  b ← cmd_has (lit "cat ") 4; if (b : bool) then cmd_cat fuel (u_cmd U + 4) else
  b ← cmd_has (lit "echo ") 5; if (b : bool) then cmd_echo (u_cmd U + 5) else
  b ← cmd_is (lit "echo"); if (b : bool) then cmd_echo (rodata []) else
  b ← cmd_is (lit "clear"); if (b : bool) then cmd_clear else
  b ← cmd_is (lit "uptime"); if (b : bool) then cmd_uptime else
  b ← cmd_is (lit "meminfo"); if (b : bool) then cmd_meminfo else
  b ← cmd_is (lit "ps"); if (b : bool) then cmd_ps else
  b ← cmd_is (lit "exit"); if (b : bool) then say (lit "Goodbye!" ++ nl) ;; usys_exit 0 else
  say (lit "Unknown command: ") ;; print (u_cmd U) ;;
  say (nl ++ lit "Type 'help' for a list of commands." ++ nl).

(** At most one character per buffered byte and per interrupt to come. *)
Definition stdin_fuel (k : kstate F) : nat := S (256 + length (k_irqs k)).

(** One round of the prompt loop. *)
Definition shell_round (fuel : nat) : prog F unit :=
  print_prompt ;;
  len ← (fun k => readline (stdin_fuel k) (u_cmd U) CMD_BUF_SIZE 0 k);
  if len =? 0 then mret tt else run_cmd fuel.

Fixpoint shell_loop (rounds fuel : nat) : prog F unit :=
  match rounds with
  | O => no_fuel
  | S rounds' => shell_round fuel ;; shell_loop rounds' fuel
  end.

Definition logo : list (list Z) :=
  nl :: ((fun s => lit s ++ nl) <$>
  ["  ___                _                ___  ___";
   " / _ \              | |               |  \/  |";
   "/ /_\ \_ __  _   _| |__   __ ___   _| .  . |";
   "|  _  | '_ \| | | | '_ \ / _` \ \ / / |\/| |";
   "| | | | | | | |_| | |_) | (_| |\ V /| |  | |";
   "\_| |_/_| |_|\__,_|_.__/ \__,_| \_/ \_|  |_/"]%string) ++
  [nl; lit "Welcome to AnubhavOS! Type 'help' for commands." ++ nl ++ nl].

Definition _start (rounds fuel : nat) : prog F unit := say_all logo ;; shell_loop rounds fuel.

(** The first instruction of the program (userspace/lib/crt0.asm): [_start]
    should not return, [SYS_EXIT(0)] follows in case it does. *)
Definition _entry (rounds fuel : nat) : prog F unit := _start rounds fuel ;; usys_exit 0.
End Shell.
