(* ===== verification/ShellSpec.v ===== *)
(** * ShellSpec: what the shell does

    The shell's contract is a small command language: [edit] is the line the
    user has typed, [parse] what it asks for, [reply] the text it must print
    given the time of the clock when the line is complete.
    The proofs go from single prints up to whole sessions, over any filesystem
    that meets [FileSystem], and assume only what the compiler and the loader
    provide: the literals are stored ([lits_ok]) and the variables do not
    overlap them or each other ([frame_ok]). *)
From stdpp Require Import strings.
From S2P Require Import Prelude Memory Machine Vga Console Multiboot Pmm Heap Vfs Ramfs Arch Keyboard Timer Process Scheduler Syscall Ulib Uprog Shell.

(** ** The program's memory *)

(** The string literals of shell.c. *)
Definition literals : list (list Z) :=
  help_lines ++ logo ++ (state_name <$> [0; 1; 2; 3; 4]) ++
  (lit <$> ["anubhav-os:/ $ "; "  "; "  ("; "Uptime: "; "  Total: "; "  Free:  "; "  Used:  "; "   ";
            "help"; "ls"; "cat "; "echo "; "echo"; "clear"; "uptime"; "meminfo"; "ps"; "exit";
            "cat: file not found: "; "Unknown command: "]%string) ++
  ((fun s => lit s ++ nl) <$> ["ls: readdir failed"; " bytes)"; "  (no files)"; "cat: usage: cat <filename>"; " seconds";
            "meminfo: failed"; "Physical Memory:"; " KB"; "ps: failed"; "PID  STATE"; "Goodbye!"]%string) ++
  [erase; []; [13]; nl ++ lit "Type 'help' for a list of commands." ++ nl].

(** Membership in a list written out. *)
Ltac mem := repeat first [apply list_elem_of_here | apply list_elem_of_further].

(** ** The command language *)

Inductive request :=
| Help | Ls | Cat (name : list Z) | Echo (args : list Z) | Clear | Uptime | Meminfo | Ps | Exit | Unknown.

(** What a line asks for. *)
Definition parse (line : list Z) : request :=
  if bool_decide (line = lit "help") then Help
  else if bool_decide (line = lit "ls") then Ls
  else if bool_decide (take 4 line = lit "cat ") then Cat (drop 4 line)
  else if bool_decide (take 5 line = lit "echo ") then Echo (drop 5 line)
  else if bool_decide (line = lit "echo") then Echo []
  else if bool_decide (line = lit "clear") then Clear
  else if bool_decide (line = lit "uptime") then Uptime
  else if bool_decide (line = lit "meminfo") then Meminfo
  else if bool_decide (line = lit "ps") then Ps
  else if bool_decide (line = lit "exit") then Exit
  else Unknown.

Section Spec.
Context {F : Type} (U : uframe) (rodata : list Z -> Z).
Implicit Types (k : kstate F) (t line : list Z).

(** Every literal is stored. *)
Definition lits_ok (r : ram) : Prop := forall t, t ∈ literals -> str_at r (rodata t) t.

Definition wf k : Prop := vga_wf (k_mach k) /\ lits_ok (k_ram k).

(** The local variables and their sizes; those but the command line. *)
Definition temps : list (Z * Z) :=
  [(u_c U, 1); (u_num U, 16); (u_buf U, 512); (u_dirents U, 2176); (u_line U, 81); (u_info U, 12); (u_ps U, 256)].
Definition locals : list (Z * Z) := (u_cmd U, CMD_BUF_SIZE) :: temps.

Definition sep (a b : Z * Z) : Prop := a.1 + a.2 <= b.1 \/ b.1 + b.2 <= a.1.

(** Regions that hold no byte of a literal. *)
Definition off_lits (ls : list (Z * Z)) : Prop :=
  forall l t, l ∈ ls -> t ∈ literals -> sep l (rodata t, alen t + 1).

(** The compiler's layout: locals in the lower half of the address space, off
    the literals, the command line off the other locals, and [print_num]'s
    buffer off its callers' variables. *)
Definition frame_ok : Prop :=
  Forall (fun l => 0 < l.1 /\ l.1 + l.2 <= 0x7FFFFFFF) locals /\
  off_lits locals /\
  (forall l, l ∈ temps -> sep l (u_cmd U, CMD_BUF_SIZE)) /\
  forall l, l ∈ temps -> l = (u_num U, 16) \/ sep l (u_num U, 16).

Definition inside (ls : list (Z * Z)) (x : Z) : Prop := exists l, l ∈ ls /\ l.1 <= x < l.1 + l.2.

Context (HU : frame_ok).

Lemma local_range a n : (a, n) ∈ locals -> 0 < a /\ a + n <= 0x7FFFFFFF.
Proof using HU. destruct HU as [H _]. rewrite Forall_forall in H. intros Hin. apply (H _ Hin). Qed.

(** What only touches regions off the literals keeps them. *)
Lemma wf_effect ls txt k k' : off_lits ls -> effect (inside ls) txt k k' -> wf k -> wf k'.
Proof using.
  intros Ha (_ & (Hv & _) & Hr) [_ Hl]. split; [done |]. intros t Ht.
  eapply str_at_same; [| apply Hl, Ht]. intros x Hx. symmetry. apply Hr. intros (l & Hin & Hlx).
  specialize (Ha l t Hin Ht). unfold sep in Ha. cbn [fst snd] in Ha. lia.
Qed.

Lemma temps_locals x : inside temps x -> inside locals x.
Proof using. intros (l & Hl & Hx). exists l. split; [by apply list_elem_of_further | done]. Qed.

(** What only touches the other locals keeps the command line. *)
Lemma cmd_kept txt k k' x :
  effect (inside temps) txt k k' -> u_cmd U <= x < u_cmd U + CMD_BUF_SIZE -> ld8 (k_ram k') x = ld8 (k_ram k) x.
Proof using HU.
  intros (_ & _ & Hr) Hx. apply Hr. intros (l & Hl & Hlx). destruct HU as (_ & _ & Hc & _). specialize (Hc l Hl).
  unfold sep in Hc. cbn [fst snd] in Hc. lia.
Qed.

(** ** Printing *)

(** [p] shows [txt] and leaves RAM as it is. *)
Definition prints {A} txt (p : prog F A) k : Prop := forall W, uses W txt p k (fun _ k' => k_ram k' = k_ram k).

Lemma prints_print a s k :
  vga_wf (k_mach k) -> str_at (k_ram k) a s -> (length s <= STR_FUEL)%nat -> prints s (print a) k.
Proof using.
  intros Hwf Hs Hl W. unfold print. eapply (uses_seq W [] s); [apply uses_read; [done | by apply strlen_spec] | done |].
  intros n k1 _ _ [-> ->]. pose proof Hs as (H0 & H1 & _ & Hb). pose proof (alen_nonneg s).
  apply bytes_at_app in Hb as [Hb _]. assert (Hlen : alen s <= 4096) by (unfold alen, STR_FUEL in *; lia).
  eapply (uses_seq W s []); [| by rewrite app_nil_r |].
  { eapply uses_conseq; [apply uses_console; [done | lia | lia | lia] | done | by apply bytes_at_bytes |].
    intros ? k' [_ Hr]. exact Hr. }
  intros _ k1 (_ & (Hv & _) & _) _ Hr. by apply uses_ret.
Qed.

(** Membership and length of a literal, by evaluation. *)
Definition is_lit (t : list Z) : bool := bool_decide (t ∈ literals) && (Nat.leb (length t) 100).

Lemma is_lit_spec t : is_lit t = true -> t ∈ literals /\ (length t <= 100)%nat.
Proof using.
  unfold is_lit. intros [Hin Hlen]%andb_true_iff. apply bool_decide_eq_true in Hin. by apply Nat.leb_le in Hlen.
Qed.

Lemma prints_say t k : is_lit t = true -> wf k -> prints t (say rodata t) k.
Proof using.
  intros [Hin Hlen]%is_lit_spec [Hv Hl]. apply prints_print; [done | by apply Hl |]. unfold STR_FUEL. lia.
Qed.

(** ** The line editor *)

(** The echo goes before that of the rest. *)
Definition shown (e : list Z) (r : list Z * list Z * list Z) : list Z * list Z * list Z := (r.1.1, e ++ r.1.2, r.2).

(** The reference: what the characters [txt] make of the line typed so far, as
    the finished line, the echo and the characters left; [None] when they end
    first. *)
Fixpoint edit (max : Z) (line txt : list Z) : option (list Z * list Z * list Z) :=
  if alen line <? max - 1 then
    match txt with
    | [] => None
    | c :: txt' =>
        if (c =? 10) || (c =? 13) then Some (line, nl, txt')
        else if (c =? 8) || (c =? 127) then
          match line with
          | [] => edit max [] txt'
          | _ :: _ => shown erase <$> edit max (removelast line) txt'
          end
        else shown [c] <$> edit max (line ++ [c]) txt'
    end
  else Some (line, [], txt).

Lemma edit_full max line txt : max - 1 <= alen line -> edit max line txt = Some (line, [], txt).
Proof using. intros H. destruct txt; cbn [edit]; by replace (alen line <? max - 1) with false by lia. Qed.

Lemma edit_erase max line x c txt :
  alen (line ++ [x]) < max - 1 -> ((c =? 10) || (c =? 13)) = false -> ((c =? 8) || (c =? 127)) = true ->
  edit max (line ++ [x]) (c :: txt) = shown erase <$> edit max line txt.
Proof using.
  intros H H1 H2. cbn [edit]. replace (alen (line ++ [x]) <? max - 1) with true by lia. rewrite H1, H2.
  rewrite removelast_last. by destruct line.
Qed.

Section Readline.
Context (buf max : Z).

(** The two variables [readline] stores to: its caller's buffer and [c]. *)
Definition line_vars : list (Z * Z) := [(u_c U, 1); (buf, max)].

Definition line_buf : Prop :=
  1 <= max /\ 0 <= buf /\ buf + max <= 0x7FFFFFFF /\ 0 <= u_c U < 0x7FFFFFFF /\ sep (u_c U, 1) (buf, max) /\
  off_lits line_vars.

Context (Hbuf : line_buf).

(** The state in the middle of a line. *)
Definition editing line k : Prop :=
  wf k /\ input_ok k /\ alen line < max /\ Forall (fun c => c <> 0) line /\ bytes_at (k_ram k) buf line.

(** What [readline] owes for the text that is still to come. *)
Definition reads_line line (res : result Z F) k : Prop :=
  match edit max line (stdin k) with
  | None => res = Blocks
  | Some (line', echo, rest) =>
      exists k', res = Done (alen line') k' /\ str_at (k_ram k') buf line' /\ stdin k' = rest /\ input_ok k' /\
        effect (inside line_vars) echo k k'
  end.

Lemma touches_c x : u_c U = x -> inside line_vars x.
Proof using. intros <-. exists (u_c U, 1). split; [apply list_elem_of_here |]. cbn. lia. Qed.

Lemma touches_buf i : 0 <= i < max -> inside line_vars (buf + i).
Proof using. exists (buf, max). split; [apply list_elem_of_further, list_elem_of_here |]. cbn. lia. Qed.

(** A keystroke: after it [c] holds the character, the line is as before. *)
Lemma keystroke line k c rest :
  editing line k -> stdin k = c :: rest ->
  exists k1, usys_read 0 (u_c U) 1 k = Done 1 k1 /\ ld8 (k_ram k1) (u_c U) = c /\ 0 < c < 256 /\ stdin k1 = rest /\
    editing line k1 /\ effect (inside line_vars) [] k k1.
Proof using Hbuf.
  intros (Hwf & Hin & Hlen & Hnz & Hb) Hs. destruct Hbuf as (Hm & H0 & H1 & Hc & Ha & Hoff).
  pose proof (usys_read_stdin (u_c U) k Hin (proj1 Hwf) ltac:(lia)) as Hr. rewrite Hs in Hr.
  destruct Hr as (k1 & Hd & Hram & Hrest & Hin1 & He). apply (effect_weaken _ (inside line_vars)) in He; [| apply touches_c].
  assert (Hc0 : 0 < c < 256) by (destruct Hin as (_ & _ & Hf); rewrite Hs in Hf; by apply Forall_cons in Hf as [? _]).
  exists k1. split; [done |]. split; [by rewrite Hram, ld8_st8_eq, u8_small by lia |]. split; [done |]. split; [done |].
  split; [| done]. split; [by eapply wf_effect |]. split; [done |]. split; [done |]. split; [done |].
  rewrite Hram. eapply bytes_at_same; [| exact Hb]. apply same_on_st8. unfold sep in Ha. cbn in Ha. lia.
Qed.

(** Terminating the line. *)
Lemma end_line line k :
  editing line k -> uses (inside line_vars) [] (ustore (buf + alen line) 0) k (fun _ k' => str_at (k_ram k') buf line).
Proof using Hbuf.
  intros (Hwf & Hin & Hlen & Hnz & Hb). destruct Hbuf as (Hm & H0 & H1 & _). pose proof (alen_nonneg line).
  eapply uses_conseq; [apply uses_store; [apply Hwf |] | done | done |].
  - apply touches_buf. lia.
  - intros _ k' ->. split; [done |]. split; [lia |]. split; [done |]. apply bytes_at_app. split.
    + eapply bytes_at_same; [| exact Hb]. apply same_on_st8. lia.
    + apply bytes_at_cons. split; [apply ld8_st8_eq | done].
Qed.

(** A step that leaves the input alone keeps the line being edited. *)
Lemma editing_effect line line' txt k k' :
  effect (inside line_vars) txt k k' -> same_input k k' -> editing line k -> alen line' < max ->
  Forall (fun c => c <> 0) line' -> bytes_at (k_ram k') buf line' -> editing line' k'.
Proof using Hbuf.
  intros He Hi (Hwf & Hin & _) Hlen Hnz Hb. split; [eapply wf_effect; [apply Hbuf | done | done] |].
  split; [by apply (same_input_ok _ _ Hi) |]. done.
Qed.

(** An ordinary character is stored and echoed. *)
Lemma type_char {B} line k c (f : Z -> prog F B) :
  editing line k -> ld8 (k_ram k) (u_c U) = c -> 0 < c < 256 -> alen line + 1 < max ->
  exists n k', (ustore (buf + alen line) c ;; (usys_write 1 (u_c U) 1 ≫= f)) k = f n k' /\
    effect (inside line_vars) [c] k k' /\ same_input k k' /\ editing (line ++ [c]) k'.
Proof using Hbuf.
  intros Hed Hc Hc0 Hlen. pose proof Hed as (Hwf & Hin & _ & Hnz & Hb). pose proof Hbuf as (Hm & H0 & H1 & Huc & Ha & Hoff).
  pose proof (alen_nonneg line). unfold sep in Ha. cbn in Ha.
  destruct (uses_run (inside line_vars) [] (ustore (buf + alen line) c) (fun _ => usys_write 1 (u_c U) 1 ≫= f) k _
    (uses_store (inside line_vars) (buf + alen line) c k (proj1 Hwf) ltac:(apply touches_buf; lia))) as (_ & k1 & E1 & He1 & Hi1 & Hr1).
  pose proof (proj1 (proj1 (proj2 He1))) as Hv1.
  destruct (uses_run (inside line_vars) _ _ f k1 _ (uses_console (inside line_vars) (u_c U) 1 k1 Hv1 ltac:(lia) ltac:(lia) ltac:(lia)))
    as (n & k2 & E2 & He2 & Hi2 & _ & Hr2).
  assert (Hby : bytes (k_ram k1) (u_c U) 1 = [c]).
  { unfold bytes. change (Z.to_nat 1) with 1%nat. cbn [seq fmap list_fmap]. rewrite Z.add_0_r, Hr1, ld8_st8_ne by lia. by rewrite Hc. }
  rewrite Hby in He2. pose proof (effect_trans _ _ _ _ _ _ He1 He2) as He. cbn [app] in He.
  assert (Hi : same_input k k2) by (by eapply same_input_trans).
  exists n, k2. split; [rewrite E1; exact E2 |]. split; [done |]. split; [done |].
  eapply editing_effect; [exact He | exact Hi | exact Hed | | |].
  - unfold alen in *. rewrite length_app. cbn [length]. lia.
  - apply Forall_app. split; [done |]. constructor; [lia | done].
  - rewrite Hr2, Hr1. apply bytes_at_app. split.
    + eapply bytes_at_same; [| exact Hb]. apply same_on_st8. lia.
    + apply bytes_at_cons. split; [rewrite ld8_st8_eq; apply u8_small; lia | done].
Qed.

(** Backspace erases the last character. *)
Lemma erase_char {B} line c k (f : Z -> prog F B) :
  editing (line ++ [c]) k ->
  exists n k', (usys_write 1 (rodata erase) 3 ≫= f) k = f n k' /\
    effect (inside line_vars) erase k k' /\ same_input k k' /\ editing line k'.
Proof using Hbuf.
  intros Hed. pose proof Hed as (Hwf & Hin & Hlen & Hnz & Hb).
  destruct (proj2 Hwf erase) as (He0 & He1 & _ & Heb); [by apply is_lit_spec |].
  apply bytes_at_app in Heb as [Heb%bytes_at_bytes _]. change (alen erase) with 3 in *.
  destruct (uses_run (inside line_vars) _ _ f k _ (uses_console (inside line_vars) (rodata erase) 3 k (proj1 Hwf)
    ltac:(lia) ltac:(lia) ltac:(lia))) as (n & k2 & E2 & He2 & Hi2 & _ & Hr2).
  rewrite Heb in He2. exists n, k2. split; [exact E2 |]. split; [done |]. split; [done |].
  unfold alen in Hlen. rewrite length_app in Hlen. cbn [length] in Hlen. apply Forall_app in Hnz as [Hnz _].
  apply bytes_at_app in Hb as [Hb _].
  eapply editing_effect; [exact He2 | exact Hi2 | exact Hed | unfold alen; lia | done | by rewrite Hr2].
Qed.

(** One effect before the rest of the line. *)
Lemma reads_line_step line line1 e k k1 res :
  effect (inside line_vars) e k k1 ->
  edit max line (stdin k) = shown e <$> edit max line1 (stdin k1) ->
  reads_line line1 res k1 -> reads_line line res k.
Proof using.
  intros He Hed. unfold reads_line. rewrite Hed. destruct (edit max line1 (stdin k1)) as [[[l' echo] rest]|]; cbn [fmap option_fmap option_map fst snd]; [| done].
  intros (k' & H1 & H2 & H3 & H4 & H5). exists k'. split; [done |]. split; [done |]. split; [done |]. split; [done |].
  by eapply effect_trans.
Qed.

(** The line ended by Enter. *)
Lemma enter_line line k :
  editing line k ->
  exists k', (ustore (buf + alen line) 0 ;; say rodata nl ;; mret (alen line)) k = Done (alen line) k' /\
    str_at (k_ram k') buf line /\ same_input k k' /\ effect (inside line_vars) nl k k'.
Proof using Hbuf.
  intros Hed. pose proof Hed as (Hwf & _).
  destruct (uses_seq (inside line_vars) [] nl nl (ustore (buf + alen line) 0) (fun _ => say rodata nl ;; mret (alen line)) k
    (fun _ k' => str_at (k_ram k') buf line) (fun v k' => v = alen line /\ str_at (k_ram k') buf line))
    as (v & k' & H1 & H2 & H3 & -> & H4); [by apply end_line | done | | by exists k'].
  intros _ k1 He1 _ Hs1. eapply (uses_seq _ nl []); [apply prints_say | done |].
  - by vm_compute.
  - eapply wf_effect; [apply Hbuf | done | done].
  - intros ? k2 He2 _ Hr2. apply uses_ret; [apply He2 | by rewrite Hr2].
Qed.

(** Any other key, once it is read. *)
Lemma readline_key fuel line k c rest :
  (forall line k, editing line k -> (length (stdin k) < fuel)%nat ->
    reads_line line (readline U rodata fuel buf max (alen line) k) k) ->
  editing line k -> stdin k = rest -> ld8 (k_ram k) (u_c U) = c -> 0 < c < 256 -> (length rest < fuel)%nat ->
  alen line < max - 1 -> ((c =? 10) || (c =? 13)) = false ->
  let res := (if (c =? 8) || (c =? 127)
              then if 0 <? alen line
                   then usys_write 1 (rodata erase) 3 ≫= fun _ => readline U rodata fuel buf max (alen line - 1)
                   else readline U rodata fuel buf max (alen line)
              else ustore (buf + alen line) c ;; usys_write 1 (u_c U) 1 ≫= fun _ => readline U rodata fuel buf max (alen line + 1)) k in
  exists line1 e k1, edit max line (c :: rest) = shown e <$> edit max line1 (stdin k1) /\
    effect (inside line_vars) e k k1 /\ reads_line line1 res k1.
Proof using Hbuf.
  intros IH Hed Hs Hc Hc0 Hf Hlt Enl res. unfold res. clear res.
  destruct ((c =? 8) || (c =? 127)) eqn:Ebs; [destruct line as [|x line _] using rev_ind |].
  - exists [], [], k. split; [| split; [apply effect_refl, Hed | by apply IH; [| rewrite Hs]]].
    rewrite Hs. cbn [edit]. change (alen []) with 0 in *. replace (0 <? max - 1) with true by lia. rewrite Enl, Ebs.
    by destruct (edit max [] rest) as [[[? ?] ?]|].
  - assert (El : alen (line ++ [x]) = alen line + 1) by (unfold alen; rewrite length_app; cbn [length]; lia).
    pose proof (alen_nonneg line). replace (0 <? alen (line ++ [x])) with true by lia.
    destruct (erase_char line x k (fun _ => readline U rodata fuel buf max (alen (line ++ [x]) - 1)) Hed) as (n & k1 & E & He & Hi & Hed1).
    destruct Hed as (_ & Hin & _). destruct (same_input_ok _ _ Hi Hin) as [_ Hs1].
    exists line, erase, k1. split; [rewrite Hs1, Hs; by apply edit_erase |]. split; [done |].
    rewrite E, El. replace (alen line + 1 - 1) with (alen line) by lia. apply IH; [done | by rewrite Hs1, Hs].
  - assert (El : alen (line ++ [c]) = alen line + 1) by (unfold alen; rewrite length_app; cbn [length]; lia).
    destruct (type_char line k c (fun _ => readline U rodata fuel buf max (alen line + 1)) Hed Hc Hc0 ltac:(lia)) as (n & k1 & E & He & Hi & Hed1).
    destruct Hed as (_ & Hin & _). destruct (same_input_ok _ _ Hi Hin) as [_ Hs1].
    exists (line ++ [c]), [c], k1. split.
    { rewrite Hs1, Hs. cbn [edit]. replace (alen line <? max - 1) with true by lia. by rewrite Enl, Ebs. }
    split; [done |]. rewrite E, <- El. apply IH; [done | by rewrite Hs1, Hs].
Qed.

Lemma readline_spec fuel line k :
  editing line k -> (length (stdin k) < fuel)%nat -> reads_line line (readline U rodata fuel buf max (alen line) k) k.
Proof using Hbuf.
  revert line k. induction fuel as [|fuel IH]; intros line k Hed Hf; [lia |]. cbn [readline].
  destruct (Z.ltb_spec (alen line) (max - 1)) as [Hlt|Hge].
  2:{ unfold reads_line. rewrite edit_full by lia.
      destruct (uses_run _ _ _ (fun _ => mret (alen line)) k _ (end_line line k Hed)) as (_ & k' & E & He & Hi & Hs).
      destruct Hed as (_ & Hin & _). destruct (same_input_ok _ _ Hi Hin) as [? ?]. by exists k'. }
  destruct (stdin k) as [|c rest] eqn:Es.
  { unfold reads_line. rewrite Es. cbn [edit]. replace (alen line <? max - 1) with true by lia.
    destruct Hed as (Hwf & Hin & _). pose proof (usys_read_stdin (u_c U) k Hin (proj1 Hwf)) as Hr. rewrite Es in Hr.
    unfold mbind, prog_bind. rewrite Hr; [done |]. destruct Hbuf. lia. }
  destruct (keystroke line k c rest Hed Es) as (k1 & E1 & Hc & Hc0 & Hs1 & Hed1 & He1).
  unfold mbind at 1, prog_bind at 1. rewrite E1. cbn [Z.leb Z.compare].
  unfold mbind at 1, prog_bind at 1, uload at 1. rewrite Hc. cbn [length] in Hf.
  destruct ((c =? 10) || (c =? 13)) eqn:Enl.
  - unfold reads_line. rewrite Es. cbn [edit]. replace (alen line <? max - 1) with true by lia. rewrite Enl.
    destruct (enter_line line k1 Hed1) as (k2 & E2 & Hs2 & Hi2 & He2). pose proof Hed1 as (_ & Hin1 & _).
    destruct (same_input_ok _ _ Hi2 Hin1) as [Hin2 Hst2]. exists k2. split; [exact E2 |]. split; [done |].
    split; [by rewrite Hst2 |]. split; [done |]. exact (effect_trans _ _ _ _ _ _ He1 He2).
  - destruct (readline_key fuel line k1 c rest IH Hed1 Hs1 Hc Hc0 ltac:(lia) Hlt Enl) as (line1 & e & k2 & H1 & H2 & H3).
    eapply (reads_line_step line line1 e k k2); [exact (effect_trans _ _ _ _ _ _ He1 H2) | by rewrite Es | exact H3].
Qed.
End Readline.

(** ** Commands *)

(** [p] shows [txt], touching no variable but [print_num]'s. *)
Definition num_only : list (Z * Z) := [(u_num U, 16)].
Definition outputs {A} txt (p : prog F A) k : Prop := uses (inside num_only) txt p k (fun _ _ => True).

Lemma num_temps x : inside num_only x -> inside temps x.
Proof using. intros (l & Hl & Hx). exists l. split; [| done]. apply list_elem_of_singleton in Hl as ->. mem. Qed.

Lemma temps_wf txt k k' : effect (inside temps) txt k k' -> wf k -> wf k'.
Proof using HU.
  apply wf_effect. destruct HU as (_ & H & _). intros l t Hl. apply H. by apply list_elem_of_further.
Qed.

Lemma out_seq {A B} t1 t2 t (p : prog F A) (f : A -> prog F B) k :
  wf k -> outputs t1 p k -> t = t1 ++ t2 ->
  (forall a k1, wf k1 -> effect (inside num_only) t1 k k1 -> outputs t2 (f a) k1) -> outputs t (p ≫= f) k.
Proof using HU.
  intros Hwf Hp Ht Hf. eapply uses_seq; [exact Hp | exact Ht |]. intros a k1 He _ _. apply Hf; [| done].
  eapply temps_wf; [| exact Hwf]. eapply effect_weaken; [apply num_temps | exact He].
Qed.

Lemma out_print a s k : vga_wf (k_mach k) -> str_at (k_ram k) a s -> (length s <= 255)%nat -> outputs s (print a) k.
Proof using. intros H1 H2 H3. eapply uses_conseq; [apply prints_print; [done | done | unfold STR_FUEL; lia] | done | done | done]. Qed.

Lemma out_say t k : is_lit t = true -> wf k -> outputs t (say rodata t) k.
Proof using. intros H1 H2. eapply uses_conseq; [by apply prints_say | done | done | done]. Qed.

Lemma out_ret {A} (a : A) k : wf k -> outputs [] (mret a) k.
Proof using. intros [H _]. by apply uses_ret. Qed.

Lemma out_say_all ts k : forallb is_lit ts = true -> wf k -> outputs (concat ts) (say_all rodata ts) k.
Proof using HU.
  revert k. induction ts as [|t ts IH]; intros k Hts Hwf; cbn [say_all concat]; [by apply out_ret |].
  cbn [forallb] in Hts. apply andb_true_iff in Hts as [H1 H2].
  eapply out_seq; [done | by apply out_say | done |]. intros _ k1 Hk1 _. by apply IH.
Qed.

(** Words outside [print_num]'s buffer survive printing. *)
Lemma temp_kept a n x txt k k' :
  (a, n) ∈ temps -> (a, n) <> (u_num U, 16) -> effect (inside num_only) txt k k' -> a <= x < a + n ->
  ld8 (k_ram k') x = ld8 (k_ram k) x.
Proof using HU.
  intros Hin Hne (_ & _ & Hr) Hx. apply Hr. intros (l & Hl & Hlx). apply list_elem_of_singleton in Hl as ->.
  destruct HU as (_ & _ & _ & Hn). destruct (Hn _ Hin) as [?|Ha]; [done |]. unfold sep in Ha. cbn [fst snd] in *. lia.
Qed.

(** The decimal numeral of a 32-bit number. *)
Definition decimal (n : Z) : list Z := numeral 10 n.

Lemma temp_range a n : (a, n) ∈ temps -> 0 < a /\ a + n <= 0x7FFFFFFF.
Proof using HU. intros H. apply local_range. by apply list_elem_of_further. Qed.

Lemma out_print_num n k : wf k -> is_u32 n -> outputs (decimal n) (print_num U n) k.
Proof using HU.
  intros Hwf Hn. destruct (temp_range (u_num U) 16) as [H0 H1]; [mem |].
  destruct (utoa_spec n (u_num U) 10 (k_ram k)) as (cs & r' & Hu & Hc & Hs & _ & _ & _ & Hshort & Hfr); [lia | done | lia | lia |].
  specialize (Hshort 10%nat ltac:(lia)). change (10 ^ Z.of_nat 10) with 10000000000 in Hshort. unfold is_u32 in Hn.
  unfold print_num, decimal. rewrite (uint_chars_numeral n 10) in Hc by lia. injection Hc as ->.
  eapply (uses_seq _ [] cs); [eapply uses_write; [apply Hwf | exact Hu |] | done |].
  - intros x Hx. apply Hfr. unfold alen. destruct (Z.lt_ge_cases x (u_num U)); [lia |].
    destruct (Z.lt_ge_cases x (u_num U + 16)); [| lia]. exfalso. apply Hx. exists (u_num U, 16). split; [mem | cbn; lia].
  - intros ? k1 He _ Hr. apply out_print; [apply He | by rewrite Hr | lia].
Qed.
(** One step of a command that prints a literal. *)
Ltac say_step := eapply out_seq; [done | by apply out_say | reflexivity |]; intros ? ? ? ?.

Lemma out_load {A} t a (f : Z -> prog F A) k : outputs t (f (ld8 (k_ram k) a)) k -> outputs t (uload a ≫= f) k.
Proof using. done. Qed.

Lemma out_load32 {A} t a (f : Z -> prog F A) k : outputs t (f (ld32 (k_ram k) a)) k -> outputs t (uload32 a ≫= f) k.
Proof using. done. Qed.

Lemma cmd_help_spec k : wf k -> outputs (concat help_lines) (cmd_help rodata) k.
Proof using HU. intros Hwf. apply out_say_all; [by vm_compute | done]. Qed.

Lemma cmd_echo_spec args s k :
  wf k -> str_at (k_ram k) args s -> (length s <= 255)%nat -> args <> 0 -> outputs (s ++ nl) (cmd_echo rodata args) k.
Proof using HU.
  intros Hwf Hs Hl Ha. apply out_load. rewrite (str_at_hd _ _ _ Hs). replace (args =? 0) with false by lia. cbn [negb andb].
  eapply (out_seq s nl); [done | | done | intros; by apply out_say].
  destruct s as [|c s]; cbn [hd]; [by apply out_ret |]. destruct (str_at_cons _ _ _ _ Hs) as (_ & Hc & _).
  unfold ctrue. replace (c =? 0) with false by lia. apply out_print; [apply Hwf | done | done].
Qed.

(** The text of the [uptime] command. *)
Definition uptime_text (secs : Z) : list Z := lit "Uptime: " ++ decimal secs ++ lit " seconds" ++ nl.

Lemma cmd_uptime_spec secs k :
  wf k -> timer_get_seconds (now k) = Some secs -> outputs (uptime_text (u32 secs)) (cmd_uptime U rodata) k.
Proof using HU.
  intros Hwf Hs. unfold cmd_uptime, uptime_text.
  assert (E : usys_uptime k = Done (u32 secs) k) by (rewrite usys_uptime_eq; unfold sys_uptime; change (clock (k_sched k)) with (now k); by rewrite Hs).
  unfold outputs, uses, mbind at 1, prog_bind at 1. rewrite E. say_step.
  eapply out_seq; [done | apply out_print_num; [done | apply u32_range] | reflexivity |]. intros. by apply out_say.
Qed.

(** The reply to an unknown command. *)
Definition unknown_text (line : list Z) : list Z :=
  lit "Unknown command: " ++ line ++ nl ++ lit "Type 'help' for a list of commands." ++ nl.

Lemma unknown_spec line k :
  wf k -> str_at (k_ram k) (u_cmd U) line -> (length line <= 255)%nat ->
  outputs (unknown_text line)
    (say rodata (lit "Unknown command: ") ;; print (u_cmd U) ;;
     say rodata (nl ++ lit "Type 'help' for a list of commands." ++ nl)) k.
Proof using HU.
  intros Hwf Hs Hl. eapply out_seq; [done | by apply out_say | reflexivity |]. intros _ k1 Hw1 He1.
  eapply out_seq; [done | apply out_print; [apply Hw1 | | exact Hl] | reflexivity | intros; by apply out_say].
  eapply str_at_same; [| exact Hs]. intros x Hx. symmetry. unfold alen in Hx.
  eapply cmd_kept; [| unfold CMD_BUF_SIZE; lia]. eapply effect_weaken; [apply num_temps | exact He1].
Qed.

(** A command: shows [txt] and touches no local but the temporaries. *)
Definition command txt (p : prog F unit) k : Prop := uses (inside temps) txt p k (fun _ _ => True).

Lemma outputs_command txt (p : prog F unit) k : outputs txt p k -> command txt p k.
Proof using. intros H. eapply uses_conseq; [exact H | apply num_temps | done | done]. Qed.

Lemma temp_inside a n x : (a, n) ∈ temps -> a <= x < a + n -> inside temps x.
Proof using. intros Hin Hx. by exists (a, n). Qed.

(** A store to a temporary before the rest of a command. *)
Lemma command_write (f : ram -> option ram) r txt (p : prog F unit) k :
  wf k -> f (k_ram k) = Some r -> (forall x, ~ inside temps x -> ld8 r x = ld8 (k_ram k) x) ->
  (forall k1, wf k1 -> k_ram k1 = r -> same_kernel k k1 -> command txt p k1) -> command txt (uwrite f ;; p) k.
Proof using HU.
  intros Hwf Hf Hr Hp. eapply (uses_seq _ [] txt); [by eapply uses_write; [apply Hwf | |] | done |].
  intros ? k1 He _ Hr1. apply Hp; [by eapply temps_wf | done | apply He].
Qed.

(** ** [clear] *)

Lemma clear_loop_spec n k :
  wf k -> bytes (k_ram k) (u_line U) 80 = replicate 80 32 -> outputs (concat (replicate n (replicate 80 32))) (clear_loop U n) k.
Proof using HU.
  destruct (temp_range (u_line U) 81) as [H0 H1]; [mem |].
  revert k. induction n as [|n IH]; intros k Hwf Hb; cbn [clear_loop replicate concat]; [by apply out_ret |].
  eapply uses_seq; [apply (uses_console _ (u_line U) 80); [apply Hwf | lia | lia | lia] | by rewrite Hb |].
  intros ? k1 He _ [_ Hr]. apply IH; [| by rewrite Hr]. eapply temps_wf; [| exact Hwf].
  eapply effect_weaken; [apply num_temps | exact He].
Qed.

(** 2000 blanks and a carriage return. *)
Definition clear_text : list Z := concat (replicate 25 (replicate 80 32)) ++ [13].

Lemma cmd_clear_spec k : wf k -> command clear_text (cmd_clear U rodata) k.
Proof using HU.
  intros Hwf. destruct (temp_range (u_line U) 81) as [H0 H1]; [mem |].
  assert (Hm : forall x, ld8 (memset (u_line U) 32 80 (k_ram k)) x = if (u_line U <=? x) && (x <? u_line U + 80) then 32 else ld8 (k_ram k) x).
  { intros x. unfold memset. rewrite (fill_loop_eq (k_ram k) (u_line U) 80 (fun _ => u8 32)) by lia. by rewrite ld8_fill8. }
  eapply command_write; [done | reflexivity | |].
  { intros x Hx. rewrite Hm. destruct ((u_line U <=? x) && (x <? u_line U + 80)) eqn:E; [| done].
    exfalso. apply Hx. apply (temp_inside (u_line U) 81); [mem | lia]. }
  intros k1 Hw1 Hr1 _. eapply (uses_seq _ [] clear_text); [apply uses_store; [apply Hw1 |] | done |].
  { apply (temp_inside (u_line U) 81); [mem | lia]. }
  intros ? k2 He2 _ Hr2. pose proof (temps_wf _ _ _ He2 Hw1) as Hw2. apply outputs_command.
  eapply out_seq; [done | apply clear_loop_spec; [done |] | reflexivity | intros; by apply out_say].
  apply (bytes_at_bytes _ _ (replicate 80 32)). intros i x [-> Hi]%lookup_replicate. rewrite Hr2, Hr1, ld8_st8_ne, Hm by lia.
  by replace ((u_line U <=? u_line U + Z.of_nat i) && (u_line U + Z.of_nat i <? u_line U + 80)) with true by lia.
Qed.

(** ** [meminfo] *)

Definition meminfo_line_text (label : list Z) (pages : Z) : list Z :=
  label ++ decimal (u32 (pages * 4)) ++ lit " KB" ++ nl.

Definition meminfo_text (p : pmm) : list Z :=
  lit "Physical Memory:" ++ nl ++ meminfo_line_text (lit "  Total: ") (u32 (pmm_get_total_pages p)) ++
  meminfo_line_text (lit "  Free:  ") (u32 (pmm_get_free_pages p)) ++
  meminfo_line_text (lit "  Used:  ") (u32 (pmm_get_used_pages p)).

Lemma info_kept field txt k k' :
  effect (inside num_only) txt k k' -> 0 <= field <= 8 -> ld32 (k_ram k') (u_info U + field) = ld32 (k_ram k) (u_info U + field).
Proof using HU.
  intros He Hf. unfold ld32. by rewrite !(temp_kept (u_info U) 12 _ _ k k' ltac:(mem) ltac:(done) He) by lia.
Qed.

Lemma meminfo_line_spec label field k :
  wf k -> is_lit label = true -> 0 <= field <= 8 ->
  outputs (meminfo_line_text label (ld32 (k_ram k) (u_info U + field))) (meminfo_line U rodata label field) k.
Proof using HU.
  intros Hwf Hl Hf.
  eapply out_seq; [done | by apply out_say | reflexivity |]. intros _ k1 Hw1 He1. apply out_load32.
  rewrite (info_kept field _ _ _ He1) by lia. eapply out_seq; [done | apply out_print_num; [done | apply u32_range] | reflexivity | intros; by apply out_say].
Qed.

(** The three words of [info]. *)
Definition info_is (a b c : Z) k : Prop :=
  ld32 (k_ram k) (u_info U + 0) = a /\ ld32 (k_ram k) (u_info U + 4) = b /\ ld32 (k_ram k) (u_info U + 8) = c.

Lemma info_is_kept a b c txt k k' : effect (inside num_only) txt k k' -> info_is a b c k -> info_is a b c k'.
Proof using HU. intros He (H1 & H2 & H3). unfold info_is. by rewrite !(info_kept _ _ _ _ He) by lia. Qed.

Lemma meminfo_lines_spec a b c k :
  wf k -> info_is a b c k ->
  outputs (lit "Physical Memory:" ++ nl ++ meminfo_line_text (lit "  Total: ") a ++ meminfo_line_text (lit "  Free:  ") b ++
           meminfo_line_text (lit "  Used:  ") c)
    (say rodata (lit "Physical Memory:" ++ nl) ;; meminfo_line U rodata (lit "  Total: ") 0 ;;
     meminfo_line U rodata (lit "  Free:  ") 4 ;; meminfo_line U rodata (lit "  Used:  ") 8) k.
Proof using HU.
  intros Hwf Hi. eapply out_seq; [done | by apply out_say | by rewrite <- app_assoc |]. intros _ k1 Hw1 He1.
  pose proof (info_is_kept _ _ _ _ _ _ He1 Hi) as (E1 & Hi1). rewrite <- E1 at 1.
  eapply out_seq; [done | apply meminfo_line_spec; [done | done | lia] | reflexivity |]. intros _ k2 Hw2 He2.
  pose proof (info_is_kept _ _ _ _ _ _ He2 (conj E1 Hi1)) as (_ & E2 & E3). rewrite <- E2 at 1.
  eapply out_seq; [done | apply meminfo_line_spec; [done | done | lia] | reflexivity |]. intros _ k3 Hw3 He3.
  rewrite <- E3, <- (info_kept 8 _ _ _ He3) by lia. apply meminfo_line_spec; [done | done | lia].
Qed.

Lemma cmd_meminfo_spec k : wf k -> command (meminfo_text (k_pmm k)) (cmd_meminfo U rodata) k.
Proof using HU.
  intros Hwf. destruct (temp_range (u_info U) 12) as [H0 H1]; [mem |].
  pose (r := st32 (st32 (st32 (k_ram k) (u_info U) (pmm_get_total_pages (k_pmm k))) (u_info U + 4) (pmm_get_free_pages (k_pmm k)))
              (u_info U + 8) (pmm_get_used_pages (k_pmm k))).
  pose (k1 := upd_mach (set_ram (fun _ => r)) k).
  assert (E : usys_meminfo (u_info U) k = Done 0 k1).
  { rewrite usys_meminfo_eq, u32_small by lia. unfold sys_meminfo. by replace (u_info U =? 0) with false by lia. }
  assert (He : effect (inside temps) [] k k1).
  { apply effect_ram; [apply Hwf |]. intros x Hx. unfold r.
    destruct (Z.lt_ge_cases x (u_info U)); [by rewrite !ld8_st32_ne by lia |].
    destruct (Z.lt_ge_cases x (u_info U + 12)); [| by rewrite !ld8_st32_ne by lia].
    exfalso. apply Hx. apply (temp_inside (u_info U) 12); [mem | lia]. }
  eapply (uses_seq _ [] (meminfo_text (k_pmm k)) _ _ _ _ (fun v k' => v = 0 /\ k' = k1)); [by exists 0, k1 | done |].
  intros v k1' _ _ [-> ->]. cbn [Z.ltb Z.compare]. apply outputs_command, meminfo_lines_spec; [by eapply temps_wf |].
  unfold info_is. change (k_ram k1) with r. unfold r. rewrite Z.add_0_r.
  split; [by rewrite !ld32_st32_ne, ld32_st32_eq by lia |]. split; [by rewrite ld32_st32_ne, ld32_st32_eq by lia | by rewrite ld32_st32_eq].
Qed.

(** ** Command dispatch *)

Section Dispatch.
Context (line : list Z) (k : kstate F) (Hwf : wf k) (Hcmd : str_at (k_ram k) (u_cmd U) line) (Hlen : (length line <= 255)%nat).

Lemma cmd_is_run {A} t (f : bool -> prog F A) :
  is_lit t = true -> (cmd_is U rodata t ≫= f) k = f (bool_decide (line = t)) k.
Proof using All.
  intros [Hin Hl]%is_lit_spec. destruct (strcmp_spec (k_ram k) (u_cmd U) (rodata t) line t Hcmd (proj2 Hwf t Hin)) as (d & Hd & Hc & _).
  { unfold STR_FUEL. lia. }
  unfold cmd_is, uread, mbind, prog_bind. rewrite Hd. unfold mret, prog_ret. f_equal.
  apply eq_bool_prop_intro. rewrite bool_decide_spec. rewrite <- lexcmp_eq, <- Hc, Z.compare_eq_iff.
  destruct (Z.eqb_spec d 0); cbn; tauto.
Qed.

Lemma cmd_has_run {A} t n (f : bool -> prog F A) :
  is_lit t = true -> alen t = n -> (cmd_has U rodata t n ≫= f) k = f (bool_decide (take (Z.to_nat n) line = t)) k.
Proof using All.
  intros [Hin Hl]%is_lit_spec Hn. pose proof (proj2 Hwf t Hin) as Ht.
  pose proof (strncmp_loop_spec (Z.to_nat n) (k_ram k) (u_cmd U) (rodata t) 0 line t) as Hc. rewrite !Z.add_0_r in Hc.
  specialize (Hc Hcmd Ht (proj1 Hcmd) (proj1 Ht) ltac:(lia)). fold (strncmp (k_ram k) (u_cmd U) (rodata t) n) in Hc.
  rewrite (take_ge t) in Hc by (unfold alen in Hn; lia).
  unfold cmd_has, uread, mbind, prog_bind, mret, prog_ret. f_equal. apply eq_bool_prop_intro. rewrite bool_decide_spec.
  rewrite <- lexcmp_eq, <- Hc, Z.compare_eq_iff. destruct (Z.eqb_spec (strncmp (k_ram k) (u_cmd U) (rodata t) n) 0); cbn; tauto.
Qed.

(** The program a line selects. *)
Definition perform (fuel : nat) : prog F unit :=
  match parse line with
  | Help => cmd_help rodata
  | Ls => cmd_ls U rodata
  | Cat _ => cmd_cat U rodata fuel (u_cmd U + 4)
  | Echo _ => cmd_echo rodata (if bool_decide (line = lit "echo") then rodata [] else u_cmd U + 5)
  | Clear => cmd_clear U rodata
  | Uptime => cmd_uptime U rodata
  | Meminfo => cmd_meminfo U rodata
  | Ps => cmd_ps U rodata
  | Exit => say rodata (lit "Goodbye!" ++ nl) ;; usys_exit 0
  | Unknown => say rodata (lit "Unknown command: ") ;; print (u_cmd U) ;;
               say rodata (nl ++ lit "Type 'help' for a list of commands." ++ nl)
  end.

Lemma run_cmd_parse fuel : run_cmd U rodata fuel k = perform fuel k.
Proof using All.
  unfold run_cmd, perform, parse.
  repeat (first [rewrite cmd_is_run by done
    | rewrite (cmd_has_run (lit "cat ") 4) by done; change (Z.to_nat 4) with 4%nat
    | rewrite (cmd_has_run (lit "echo ") 5) by done; change (Z.to_nat 5) with 5%nat];
    match goal with |- context [bool_decide (?a = ?b)] => destruct (bool_decide_reflect (a = b)); [try done | try done] end).
  rewrite bool_decide_eq_false_2; [done |]. intros ->. done.
Qed.
End Dispatch.

(** ** [cat] *)

Section Files.
Context (ops : fs_ops F) `{!FileSystem ops}.

(** The caller's descriptor table, apart from the program's own data. *)
Definition fd_table k : Z * Z := (cur_proc k + 32, FD_SIZE * MAX_FDS).

Definition proc_ok k : Prop :=
  is_proc (cur_proc k) /\ k_vfs k = Some ops /\ fs_inv (k_fs k) /\
  (forall l, l ∈ locals -> sep l (cur_proc k, PROCESS_SIZE)) /\
  forall t, t ∈ literals -> sep (cur_proc k, PROCESS_SIZE) (rodata t, alen t + 1).

(** What a command may change. *)
Definition vars k : list (Z * Z) := fd_table k :: temps.

Lemma vars_wf txt k k' : proc_ok k -> effect (inside (vars k)) txt k k' -> wf k -> wf k'.
Proof using HU.
  intros (_ & _ & _ & _ & Ht). apply wf_effect. intros l t [->|Hl]%elem_of_cons Hin.
  - specialize (Ht t Hin). unfold sep, fd_table, PROCESS_SIZE, FD_SIZE, MAX_FDS in *. cbn [fst snd] in *. lia.
  - destruct HU as (_ & H & _). apply H; [by apply list_elem_of_further | done].
Qed.

Lemma proc_ok_kept k k' : same_kernel k k' -> proc_ok k -> proc_ok k'.
Proof using. intros Hs. pose proof Hs as (_ & H2 & H3 & _). unfold proc_ok. by rewrite (same_kernel_cur _ _ Hs), H2, H3. Qed.

Lemma temps_vars k x : inside temps x -> inside (vars k) x.
Proof using. intros (l & Hl & Hx). exists l. split; [by apply list_elem_of_further | done]. Qed.

(** What [cat] changes when its descriptor is [fd]. *)
Definition cat_vars k fd : list (Z * Z) := (fd_addr (cur_proc k) fd, FD_SIZE) :: temps.

Lemma cat_vars_vars k fd x : 3 <= fd < MAX_FDS -> inside (cat_vars k fd) x -> inside (vars k) x.
Proof using.
  intros Hfd (l & [->|Hl]%elem_of_cons & Hx); [| exists l; split; [by apply list_elem_of_further | done]].
  exists (fd_table k). split; [mem |]. unfold fd_table, fd_addr, FD_SIZE, MAX_FDS in *. cbn [fst snd] in *. lia.
Qed.

Lemma cat_wf fd txt k k' : 3 <= fd < MAX_FDS -> proc_ok k -> effect (inside (cat_vars k fd)) txt k k' -> wf k -> wf k'.
Proof using HU. intros Hfd Hp He. apply (vars_wf txt k k' Hp). eapply effect_weaken; [| exact He]. intros x. by apply cat_vars_vars. Qed.

Lemma cat_temp k fd x : inside temps x -> inside (cat_vars k fd) x.
Proof using. intros (l & Hl & Hx). exists l. split; [by apply list_elem_of_further | done]. Qed.

(** A change of one descriptor. *)
Lemma off_fd k fd x :
  ~ inside (cat_vars k fd) x -> x < fd_addr (cur_proc k) fd \/ fd_addr (cur_proc k) fd + FD_SIZE <= x.
Proof using.
  intros Hx. destruct (Z.lt_ge_cases x (fd_addr (cur_proc k) fd)); [lia |].
  destruct (Z.lt_ge_cases x (fd_addr (cur_proc k) fd + FD_SIZE)); [| lia].
  exfalso. apply Hx. exists (fd_addr (cur_proc k) fd, FD_SIZE). split; [mem | cbn [fst snd]; lia].
Qed.

(** One read of the loop: the next 512 bytes are in [buf]. *)
Lemma cat_read k fd i off c :
  wf k -> proc_ok k -> fd_at ops k fd i off c ->
  let bs := slice c off 512 in
  uses (inside (cat_vars k fd)) [] (usys_read fd (u_buf U) 512) k
    (fun n k' => n = alen bs /\ bytes (k_ram k') (u_buf U) n = bs /\ fd_at ops k' fd i (off + n) c).
Proof using HU.
  intros Hwf Hp Hat bs. destruct (temp_range (u_buf U) 512) as [H0 H1]; [mem |].
  pose proof Hat as (_ & Hproc & Hfd & _ & (_ & Ho & _) & Hinv & Hf). pose proof (fd_addr_in k fd Hfd) as Ha.
  assert (Hoff : 0 <= off) by (rewrite <- Ho; apply ld32_range).
  assert (Hl : alen bs = Z.min 512 (Z.max 0 (alen c - off))) by (apply length_slice; lia).
  pose proof Hp as (_ & _ & _ & Hap & _). specialize (Hap (u_buf U, 512) ltac:(mem)). unfold sep in Hap. cbn [fst snd] in Hap.
  destruct (sys_read_file ops k fd i off c (u_buf U) 512 Hat) as (k' & E & Hat' & Hs & Hb & Hfr);
    [unfold buf_ok; lia | unfold is_u32; lia |]. fold bs in E, Hat', Hb, Hfr. unfold MAX_FDS in Hfd.
  destruct (ram_only_effect (inside (cat_vars k fd)) k k') as [He Hi].
  { eapply sys_read_ram; [| exact E]. lia. }
  { apply Hwf. }
  { intros x Hx. apply Hfr.
    - destruct (Z.lt_ge_cases x (u_buf U)); [lia |]. destruct (Z.lt_ge_cases x (u_buf U + 512)); [| lia].
      exfalso. apply Hx, cat_temp, (temp_inside (u_buf U) 512); [mem | lia].
    - by apply off_fd. }
  exists (alen bs), k'. split; [| split; [done | split; [done | done]]].
  rewrite usys_read_eq, (u32_small fd), (u32_small (u_buf U)), (u32_small 512), E by lia. cbn [as_int].
  by rewrite u32_small, s32_small by lia.
Qed.

Lemma vars_same k k' : same_kernel k k' -> vars k' = vars k.
Proof using. intros H. unfold vars, fd_table. by rewrite (same_kernel_cur _ _ H). Qed.

Lemma cat_vars_same fd k k' : same_kernel k k' -> cat_vars k' fd = cat_vars k fd.
Proof using. intros H. unfold cat_vars. by rewrite (same_kernel_cur _ _ H). Qed.

Lemma fd_at_ram_same k k' fd i off c :
  same_kernel k k' -> k_ram k' = k_ram k -> fd_at ops k fd i off c -> fd_at ops k' fd i off c.
Proof using. intros Hs Hr. pose proof Hs as (_ & H2 & H3 & _). unfold fd_at. by rewrite (same_kernel_cur _ _ Hs), H2, H3, Hr. Qed.

(** The file from [off] on starts with the slice read there. *)
Lemma drop_slice c off len :
  0 <= off -> 0 <= len -> drop (Z.to_nat off) c = slice c off len ++ drop (Z.to_nat (off + alen (slice c off len))) c.
Proof using.
  intros H0 H1. unfold slice, alen. set (d := drop (Z.to_nat off) c).
  replace (Z.to_nat (off + Z.of_nat (length (take (Z.to_nat len) d)))) with (Z.to_nat off + length (take (Z.to_nat len) d))%nat by lia.
  rewrite <- drop_drop. fold d. rewrite length_take. destruct (Nat.le_gt_cases (Z.to_nat len) (length d)).
  - rewrite Nat.min_l by done. by rewrite take_drop.
  - rewrite Nat.min_r by lia. by rewrite take_ge, drop_all, app_nil_r by lia.
Qed.

Lemma cat_loop_spec fuel k fd i off c :
  wf k -> proc_ok k -> fd_at ops k fd i off c -> off <= alen c -> alen c - off + 512 <= 512 * Z.of_nat fuel ->
  uses (inside (cat_vars k fd)) (drop (Z.to_nat off) c) (cat_loop U fuel fd) k (fun _ k' => fd_at ops k' fd i (alen c) c).
Proof using HU.
  revert k off. induction fuel as [|fuel IH]; intros k off Hwf Hp Hat Hoc Hf; [lia |]. cbn [cat_loop].
  pose proof Hat as (_ & _ & Hfd & _). assert (Hoff : 0 <= off) by (destruct Hat as (_ & _ & _ & _ & (_ & <- & _) & _); apply ld32_range).
  assert (Hl : alen (slice c off 512) = Z.min 512 (Z.max 0 (alen c - off))) by (apply length_slice; lia).
  destruct (temp_range (u_buf U) 512) as [H0 H1]; [mem |].
  eapply (uses_seq _ [] (drop (Z.to_nat off) c)); [by apply cat_read | done |].
  intros n k1 He1 _ (-> & Hb & Hat1). pose proof (cat_wf fd _ _ _ Hfd Hp He1 Hwf) as Hw1.
  pose proof (proc_ok_kept _ _ (proj1 He1) Hp) as Hp1. destruct (Z.ltb_spec 0 (alen (slice c off 512))) as [Hpos|Hz].
  - eapply (uses_seq _ (slice c off 512)); [| by apply drop_slice |].
    { eapply uses_conseq; [apply (uses_console (inside (cat_vars k fd)) (u_buf U) (alen (slice c off 512)) k1) | done | exact Hb | intros ? ? H; exact H];
        [apply Hw1 | lia | lia | lia]. }
    intros v k2 He2 _ [_ Hr2]. rewrite <- (cat_vars_same fd _ _ (proj1 He1)) in He2 |- *.
    rewrite <- (cat_vars_same fd _ _ (proj1 He2)). apply IH.
    + by eapply (cat_wf fd _ k1).
    + by eapply proc_ok_kept; [apply He2 |].
    + by eapply fd_at_ram_same; [apply He2 | |].
    + lia.
    + lia.
  - rewrite drop_ge by (unfold alen in *; lia). apply uses_ret; [apply Hw1 |].
    replace (alen c) with (off + alen (slice c off 512)) by lia. exact Hat1.
Qed.

(** The descriptor [open] would use, and the file a name opens. *)
Definition free_fd k : Z := find_fd (Z.to_nat (MAX_FDS - 3)) 3 (cur_proc k) (k_ram k).
Definition file_of k (name : list Z) : Z := vfs_open (Some ops) name (k_fs k).

Lemma usys_open_run a name k :
  proc_ok k -> str_at (k_ram k) a name -> (length name <= 255)%nat ->
  usys_open a k = if (free_fd k <? 0) || (file_of k name <? 0) then Done (-1) k
                  else Done (free_fd k) (upd_mach (set_fd (cur_proc k) (free_fd k) (file_of k name) 0 1) k).
Proof using.
  intros ([Hp0 _] & Hv & Hinv & _) (Ha0 & Ha1 & Hn & Hb) Hl. pose proof (alen_nonneg name).
  assert (Hpath : cstr_at PATH_FUEL (k_ram k) a = name).
  { apply bytes_at_cstr; [done | done |]. unfold PATH_FUEL. lia. }
  rewrite usys_open_eq, u32_small by lia. unfold sys_open. rewrite Hpath, Hv. replace (cur_proc k =? 0) with false by lia.
  fold (free_fd k) (file_of k name).
  destruct (find_fd_spec (cur_proc k) (Z.to_nat (MAX_FDS - 3)) 3 (k_ram k)) as [[Hf _]|(Hf & _)]; fold (free_fd k) in Hf.
  - rewrite Hf. done.
  - unfold MAX_FDS in Hf. replace (free_fd k <? 0) with false by lia. cbn [orb]. destruct (file_of k name <? 0); [done |].
    cbn [as_int]. by rewrite u32_small, s32_small by lia.
Qed.

Lemma cat_open a name k c :
  wf k -> proc_ok k -> str_at (k_ram k) a name -> (length name <= 255)%nat ->
  0 <= free_fd k -> 0 <= file_of k name -> fs_file (k_fs k) (file_of k name) = Some c ->
  uses (inside (cat_vars k (free_fd k))) [] (usys_open a) k
    (fun fd k' => fd = free_fd k /\ fd_at ops k' fd (file_of k name) 0 c).
Proof using HU.
  intros Hwf Hp Hs Hl Hfd Hi Hc. pose proof Hp as (Hproc & Hv & Hinv & _). destruct (fs_open (k_fs k) name Hinv) as [Hr _].
  fold (file_of k name) in Hr. destruct (find_fd_spec (cur_proc k) (Z.to_nat (MAX_FDS - 3)) 3 (k_ram k)) as [[Hf _]|(Hf & _)];
    fold (free_fd k) in Hf; [lia |]. assert (Hfr : 3 <= free_fd k < MAX_FDS) by (unfold MAX_FDS in *; lia).
  destruct (set_fd_spec (cur_proc k) (k_mach k) (free_fd k) (file_of k name) 0 1) as [H1 H2];
    [unfold is_s32; lia | unfold is_u32; lia | unfold is_u8; lia |].
  exists (free_fd k), (upd_mach (set_fd (cur_proc k) (free_fd k) (file_of k name) 0 1) k).
  split. { rewrite (usys_open_run a name) by done. by replace ((free_fd k <? 0) || (file_of k name <? 0)) with false by lia. }
  destruct (ram_only_effect (inside (cat_vars k (free_fd k))) k (upd_mach (set_fd (cur_proc k) (free_fd k) (file_of k name) 0 1) k)) as [He Hin];
    [reflexivity | apply Hwf | | split; [done |]; split; [done |]].
  - intros x Hx. by apply H2, off_fd.
  - split; [done |]. split; [exact Hv |]. split; [exact Hproc |]. split; [exact Hfr |]. split; [exact Hi |]. by split.
Qed.

Lemma cat_close fd i off c k :
  wf k -> fd_at ops k fd i off c ->
  uses (inside (cat_vars k fd)) [] (usys_close fd) k (fun _ k' => fd_in_use (cur_proc k) fd (k_ram k') = 0).
Proof using HU.
  intros Hwf (Hv & [Hp0 _] & Hfd & _ & (_ & _ & Hu) & _). unfold MAX_FDS in Hfd.
  destruct (close_fd_spec (cur_proc k) (k_mach k) fd) as [(_ & _ & H1) H2].
  eexists 0, _. split.
  { rewrite usys_close_eq, u32_small by lia. unfold sys_close.
    replace ((cur_proc k =? 0) || (fd <? 3) || (MAX_FDS <=? fd)) with false by (unfold MAX_FDS; lia). rewrite Hu. reflexivity. }
  destruct (ram_only_effect (inside (cat_vars k fd)) k (upd_mach (fun m => set_fd_offset (cur_proc k) fd 0
    (set_fd_file_idx (cur_proc k) fd (-1) (set_fd_in_use (cur_proc k) fd 0 m))) k)) as [He Hin];
    [reflexivity | apply Hwf | | split; [done |]; split; [done | exact H1]].
  intros x Hx. by apply H2, off_fd.
Qed.

(** What [cat] prints. *)
Definition cat_text k (name : list Z) : list Z :=
  if bool_decide (name = []) then lit "cat: usage: cat <filename>" ++ nl
  else if (free_fd k <? 0) || (file_of k name <? 0) then lit "cat: file not found: " ++ name ++ nl
  else default [] (fs_file (k_fs k) (file_of k name)).

(** The same descriptors are in use. *)
Definition same_fds k k' : Prop :=
  forall j, 0 <= j < MAX_FDS -> ctrue (fd_in_use (cur_proc k) j (k_ram k')) = ctrue (fd_in_use (cur_proc k) j (k_ram k)).

Lemma same_fds_locals txt k k' : proc_ok k -> effect (inside locals) txt k k' -> same_fds k k'.
Proof using.
  intros (_ & _ & _ & Hap & _) (_ & _ & Hr) j Hj. unfold fd_in_use. rewrite Hr; [done |]. intros (l & Hl & Hx).
  specialize (Hap l Hl). unfold sep, PROCESS_SIZE, fd_addr, FD_SIZE, MAX_FDS in *. cbn [fst snd] in Hap. lia.
Qed.

Lemma command_vars txt (p : prog F unit) k :
  proc_ok k -> command txt p k -> uses (inside (vars k)) txt p k (fun _ k' => same_fds k k').
Proof using.
  intros Hp (a & k' & H1 & H2 & H3 & _). exists a, k'. split; [done |].
  split; [eapply effect_weaken; [apply temps_vars | exact H2] |]. split; [done |].
  eapply same_fds_locals; [done |]. eapply effect_weaken; [apply temps_locals | exact H2].
Qed.

(** Found: the whole file, and the descriptor is free again. *)
Lemma cat_found fuel a name k c :
  wf k -> proc_ok k -> str_at (k_ram k) a name -> (length name <= 255)%nat -> fs_capacity + 512 <= 512 * Z.of_nat fuel ->
  0 <= free_fd k -> 0 <= file_of k name -> fs_file (k_fs k) (file_of k name) = Some c ->
  uses (inside (vars k)) c
    (usys_open a ≫= fun fd => if fd <? 0 then say rodata (lit "cat: file not found: ") ;; print a ;; say rodata nl
                              else cat_loop U fuel fd ;; usys_close fd ;; mret tt) k (fun _ k' => same_fds k k').
Proof using HU.
  intros Hwf Hp Hs Hl Hfuel Hfd Hi Hc. pose proof Hp as (_ & _ & Hinv & Hap & _). pose proof (fs_size _ _ _ Hinv Hc).
  destruct (find_fd_spec (cur_proc k) (Z.to_nat (MAX_FDS - 3)) 3 (k_ram k)) as [[Hf _]|(Hf & Hfree & _)];
    fold (free_fd k) in Hf; [lia |]. fold (free_fd k) in Hfree. assert (Hfr : 3 <= free_fd k < MAX_FDS) by (unfold MAX_FDS in *; lia).
  assert (Hu : uses (inside (cat_vars k (free_fd k))) c
    (usys_open a ≫= fun fd => if fd <? 0 then say rodata (lit "cat: file not found: ") ;; print a ;; say rodata nl
                              else cat_loop U fuel fd ;; usys_close fd ;; mret tt) k
    (fun _ k' => fd_in_use (cur_proc k) (free_fd k) (k_ram k') = 0)).
  { eapply (uses_seq _ [] c); [by apply (cat_open a name) | done |]. intros fd k1 He1 _ [-> Hat].
    pose proof (cat_wf _ _ _ _ Hfr Hp He1 Hwf) as Hw1. pose proof (proc_ok_kept _ _ (proj1 He1) Hp) as Hp1.
    replace (free_fd k <? 0) with false by lia. rewrite <- (cat_vars_same _ _ _ (proj1 He1)).
    eapply (uses_seq _ c []); [apply (cat_loop_spec fuel k1 _ (file_of k name) 0 c); [done | done | done | apply alen_nonneg | lia] | by rewrite app_nil_r |].
    intros ? k2 He2 _ Hat2. pose proof (cat_wf _ _ _ _ Hfr Hp1 He2 Hw1) as Hw2. rewrite <- (cat_vars_same _ _ _ (proj1 He2)).
    eapply (uses_seq _ [] []); [exact (cat_close _ _ _ c k2 Hw2 Hat2) | done |]. intros ? k3 He3 _ Hz. apply uses_ret; [apply He3 |].
    assert (Ec : cur_proc k2 = cur_proc k); [| by rewrite Ec in Hz].
    by rewrite (same_kernel_cur _ _ (proj1 He2)), (same_kernel_cur _ _ (proj1 He1)). }
  destruct Hu as ([] & k' & E & He & Hin & Hz). exists tt, k'. split; [done |].
  split; [eapply effect_weaken; [| exact He]; intros x; by apply cat_vars_vars |]. split; [done |].
  intros j Hj. destruct (Z.eq_dec j (free_fd k)) as [->|Hne]; [by rewrite Hz, Hfree |]. destruct He as (_ & _ & Hr). unfold fd_in_use.
  rewrite Hr; [done |]. intros (l & [->|Hl']%elem_of_cons & Hx); unfold fd_addr, FD_SIZE, MAX_FDS in *; cbn [fst snd] in Hx; [lia |].
  specialize (Hap l (list_elem_of_further _ _ _ Hl')). unfold sep, PROCESS_SIZE in Hap. cbn [fst snd] in Hap. lia.
Qed.

(** Not found: a message. *)
Lemma cat_missing fuel a name k :
  wf k -> proc_ok k -> str_at (k_ram k) a name -> (length name <= 255)%nat ->
  (free_fd k <? 0) || (file_of k name <? 0) = true ->
  uses (inside temps) (lit "cat: file not found: " ++ name ++ nl)
    (usys_open a ≫= fun fd => if fd <? 0 then say rodata (lit "cat: file not found: ") ;; print a ;; say rodata nl
                              else cat_loop U fuel fd ;; usys_close fd ;; mret tt) k (fun _ _ => True).
Proof using HU.
  intros Hwf Hp Hs Hl E. pose proof (usys_open_run a name k Hp Hs Hl) as Ho. rewrite E in Ho.
  eapply (uses_seq _ [] _ _ _ _ _ (fun v k' => v = -1 /\ k' = k)); [exists (-1), k; split; [done |]; split; [apply effect_refl, Hwf | done] | done |].
  intros ? ? _ _ [-> ->]. cbn [Z.ltb Z.compare].
  eapply uses_seq; [by apply prints_say | reflexivity |]. intros ? k1 He1 _ Hr1. pose proof (temps_wf _ _ _ He1 Hwf) as Hw1.
  eapply uses_seq; [apply prints_print; [apply Hw1 | by rewrite Hr1 | unfold STR_FUEL; lia] | reflexivity |].
  intros ? k2 He2 _ Hr2. eapply uses_conseq; [apply prints_say; [done | by eapply temps_wf] | done | done | done].
Qed.

Lemma cmd_cat_spec fuel a name k :
  wf k -> proc_ok k -> str_at (k_ram k) a name -> (length name <= 255)%nat -> a <> 0 -> fs_capacity + 512 <= 512 * Z.of_nat fuel ->
  uses (inside (vars k)) (cat_text k name) (cmd_cat U rodata fuel a) k (fun _ k' => same_fds k k').
Proof using HU.
  intros Hwf Hp Hs Hl Ha Hfuel. unfold cat_text, cmd_cat.
  change (uses ?W ?t (uload a ≫= ?f) k ?Q) with (uses W t (f (ld8 (k_ram k) a)) k Q). cbv beta.
  rewrite (str_at_hd _ _ _ Hs). replace (a =? 0) with false by lia. cbn [orb].
  destruct name as [|c0 name]; [cbn [hd Z.eqb]; rewrite bool_decide_eq_true_2 by done | rewrite bool_decide_eq_false_2 by done; cbn [hd]].
  { apply command_vars; [done |]. eapply uses_conseq; [by apply prints_say | done | done | done]. }
  destruct (str_at_cons _ _ _ _ Hs) as (_ & Hc0 & _). replace (c0 =? 0) with false by lia. set (nm := c0 :: name) in *.
  destruct ((free_fd k <? 0) || (file_of k nm <? 0)) eqn:E.
  - apply command_vars; [done |]. by apply cat_missing.
  - pose proof Hp as (_ & _ & Hinv & _). destruct (fs_open (k_fs k) nm Hinv) as [_ Hsome]. fold (file_of k nm) in Hsome.
    destruct Hsome as [c Hc]; [lia |]. rewrite Hc. apply (cat_found fuel a nm k c); (done || lia).
Qed.

(** ** [ls] *)

Definition ls_line (e : list Z * list Z) : list Z :=
  lit "  " ++ e.1 ++ lit "  (" ++ decimal (alen e.2) ++ lit " bytes)" ++ nl.

Definition ls_text (l : list (list Z * list Z)) : list Z :=
  concat (ls_line <$> l) ++ if bool_decide (l = []) then lit "  (no files)" ++ nl else [].

(** The array [entries] holds the listing. *)
Definition listing l k : Prop :=
  dirents_at (k_ram k) (u_dirents U) l /\ (length l <= 32)%nat /\ Forall (fun e => alen e.1 < 64) l /\ names_ok l.

Lemma listing_kept l txt k k' : effect (inside num_only) txt k k' -> listing l k -> listing l k'.
Proof using HU.
  intros He (Hd & Hl & Hn & Hb). split; [| done]. intros i e Hi. destruct (Hd i e Hi) as [H1 H2].
  pose proof (lookup_lt_Some _ _ _ Hi). rewrite Forall_lookup in Hn. specialize (Hn i e Hi). cbn in Hn. unfold DIRENT_SIZE, alen in *.
  assert (Hk : forall x, u_dirents U <= x < u_dirents U + 2176 -> ld8 (k_ram k') x = ld8 (k_ram k) x).
  { intros x Hx. eapply (temp_kept (u_dirents U) 2176); [mem | done | exact He | done]. }
  split; [| unfold ld32 in *; rewrite !Hk by lia; exact H2]. eapply bytes_at_same; [| exact H1]. intros x Hx.
  unfold alen in Hx. rewrite length_app in Hx. cbn [length] in Hx. symmetry. apply Hk. lia.
Qed.

Lemma ls_entry_spec l i e k :
  wf k -> listing l k -> l !! i = Some e ->
  outputs (ls_line e) (ls_entry U rodata (u_dirents U + USER_DIRENT_SIZE * Z.of_nat i)) k.
Proof using HU.
  intros Hwf Hls Hi. pose proof Hls as (Hd & Hl & Hn & Hb). pose proof (lookup_lt_Some _ _ _ Hi).
  rewrite Forall_lookup in Hn. specialize (Hn i e Hi). unfold names_ok in Hb. rewrite Forall_lookup in Hb. specialize (Hb i e Hi). cbn in Hn, Hb.
  destruct (temp_range (u_dirents U) 2176) as [H0 H1]; [mem |]. change USER_DIRENT_SIZE with DIRENT_SIZE.
  assert (Hs : forall k', listing l k' -> str_at (k_ram k') (u_dirents U + DIRENT_SIZE * Z.of_nat i) e.1).
  { intros k' (Hd' & _). destruct (Hd' i e Hi) as [Hby _]. unfold DIRENT_SIZE, alen in *.
    split; [lia |]. split; [unfold alen; lia |]. split; [| done]. eapply Forall_impl; [exact Hb |]. cbn. lia. }
  eapply out_seq; [done | by apply out_say | reflexivity |]. intros _ k1 Hw1 He1. pose proof (listing_kept _ _ _ _ He1 Hls) as Hl1.
  eapply out_seq; [done | apply out_print; [apply Hw1 | by apply Hs | unfold alen in Hn; lia] | reflexivity |].
  intros _ k2 Hw2 He2. pose proof (listing_kept _ _ _ _ He2 Hl1) as Hl2.
  eapply out_seq; [done | by apply out_say | reflexivity |]. intros _ k3 Hw3 He3. pose proof (listing_kept _ _ _ _ He3 Hl2) as (Hd3 & _).
  apply out_load32. destruct (Hd3 i e Hi) as [_ <-].
  eapply out_seq; [done | apply out_print_num; [done | apply ld32_range] | reflexivity |]. intros. by apply out_say.
Qed.

Lemma ls_loop_spec l1 l2 k :
  wf k -> listing (l1 ++ l2) k -> outputs (concat (ls_line <$> l2)) (ls_loop U rodata (length l2) (alen l1)) k.
Proof using HU.
  revert l1 k. induction l2 as [|e l2 IH]; intros l1 k Hwf Hls; cbn [length ls_loop fmap list_fmap concat]; [by apply out_ret |].
  eapply out_seq; [done | eapply ls_entry_spec; [done | exact Hls | by apply list_lookup_middle] | reflexivity |].
  intros _ k1 Hw1 He1. replace (alen l1 + 1) with (alen (l1 ++ [e])) by (unfold alen; rewrite length_app; cbn [length]; lia).
  apply IH; [done |]. rewrite <- app_assoc. by eapply listing_kept.
Qed.

Lemma cmd_ls_spec k :
  wf k -> proc_ok k -> names_ok (fs_list (k_fs k)) ->
  command (ls_text (take 32 (fs_list (k_fs k)))) (cmd_ls U rodata) k.
Proof using HU.
  intros Hwf (_ & Hv & Hinv & _) Hnames. destruct (temp_range (u_dirents U) 2176) as [H0 H1]; [mem |].
  destruct (fs_readdir (k_fs k) (u_dirents U) 32 (k_ram k) Hinv Hnames) as (r' & E & Hd & Hfr); [lia | lia | unfold DIRENT_SIZE; lia |].
  set (l := take 32 (fs_list (k_fs k))). change (take (Z.to_nat 32) (fs_list (k_fs k))) with l in *.
  assert (Hl : (length l <= 32)%nat) by (unfold l; rewrite length_take; lia).
  pose (k1 := upd_mach (set_ram (fun _ => r')) k).
  assert (Ek : usys_readdir (u_dirents U) 32 k = Done (alen l) k1).
  { rewrite usys_readdir_eq, u32_small by lia. change (s32 (u32 32)) with 32. unfold sys_readdir. rewrite Hv, E. cbn [as_int].
    by rewrite u32_small, s32_small by (unfold alen; lia). }
  assert (He : effect (inside temps) [] k k1).
  { apply effect_ram; [apply Hwf |]. intros x Hx. apply Hfr. unfold DIRENT_SIZE, alen.
    destruct (Z.lt_ge_cases x (u_dirents U)); [lia |]. destruct (Z.lt_ge_cases x (u_dirents U + 2176)); [| lia].
    exfalso. apply Hx, (temp_inside (u_dirents U) 2176); [mem | lia]. }
  pose proof (temps_wf _ _ _ He Hwf) as Hw1.
  eapply (uses_seq _ [] (ls_text l) _ _ _ _ (fun v k' => v = alen l /\ k' = k1)); [by exists (alen l), k1 | done |].
  intros ? ? _ _ [-> ->]. pose proof (alen_nonneg l). replace (alen l <? 0) with false by lia.
  replace (Z.to_nat (alen l)) with (length l) by (unfold alen; lia).
  apply outputs_command. eapply out_seq; [done | apply (ls_loop_spec [] l) | reflexivity |].
  - done.
  - split; [exact Hd |]. split; [done |]. split; [| by apply Forall_take]. apply Forall_take. apply (fs_list_len _ Hinv).
  - intros _ k2 Hw2 _. destruct l; [by apply out_say | by apply out_ret].
Qed.

(** ** [ps] *)

Definition ps_line (e : Z * Z) : list Z := lit "  " ++ decimal e.1 ++ lit "   " ++ state_name e.2 ++ nl.
Definition ps_text (l : list (Z * Z)) : list Z := lit "PID  STATE" ++ nl ++ concat (ps_line <$> l).

(** The array [entries] holds the process list. *)
Definition ps_listing l k : Prop := ps_at (k_ram k) (u_ps U) l /\ (length l <= 32)%nat.

Lemma ps_listing_kept l txt k k' : effect (inside num_only) txt k k' -> ps_listing l k -> ps_listing l k'.
Proof using HU.
  intros He [Hd Hl]. split; [| done]. intros i e Hi. destruct (Hd i e Hi) as [H1 H2]. pose proof (lookup_lt_Some _ _ _ Hi).
  assert (Hk : forall x, u_ps U <= x < u_ps U + 256 -> ld8 (k_ram k') x = ld8 (k_ram k) x).
  { intros x Hx. eapply (temp_kept (u_ps U) 256); [mem | done | exact He | done]. }
  unfold ld32 in *. by rewrite !Hk by lia.
Qed.

Lemma is_lit_state st : is_lit (state_name st) = true.
Proof using. unfold state_name. repeat (destruct (_ =? _); [by vm_compute |]). by vm_compute. Qed.

Lemma ps_entry_spec l i e k :
  wf k -> ps_listing l k -> l !! i = Some e -> outputs (ps_line e) (ps_entry U rodata (u_ps U + PS_ENTRY_SIZE * Z.of_nat i)) k.
Proof using HU.
  intros Hwf Hls Hi. unfold PS_ENTRY_SIZE.
  eapply out_seq; [done | by apply out_say | reflexivity |]. intros _ k1 Hw1 He1. pose proof (ps_listing_kept _ _ _ _ He1 Hls) as Hl1.
  apply out_load32. destruct (proj1 Hl1 i e Hi) as [E1 _]. rewrite E1.
  eapply out_seq; [done | apply out_print_num; [done | rewrite <- E1; apply ld32_range] | reflexivity |].
  intros _ k2 Hw2 He2. pose proof (ps_listing_kept _ _ _ _ He2 Hl1) as Hl2.
  eapply out_seq; [done | by apply out_say | reflexivity |]. intros _ k3 Hw3 He3. pose proof (ps_listing_kept _ _ _ _ He3 Hl2) as Hl3.
  apply out_load32. destruct (proj1 Hl3 i e Hi) as [_ E2]. rewrite E2.
  eapply out_seq; [done | apply out_say; [apply is_lit_state | done] | reflexivity |]. intros. by apply out_say.
Qed.

Lemma ups_loop_spec l1 l2 k :
  wf k -> ps_listing (l1 ++ l2) k -> outputs (concat (ps_line <$> l2)) (ups_loop U rodata (length l2) (alen l1)) k.
Proof using HU.
  revert l1 k. induction l2 as [|e l2 IH]; intros l1 k Hwf Hls; cbn [length ups_loop fmap list_fmap concat]; [by apply out_ret |].
  eapply out_seq; [done | eapply ps_entry_spec; [done | exact Hls | by apply list_lookup_middle] | reflexivity |].
  intros _ k1 Hw1 He1. replace (alen l1 + 1) with (alen (l1 ++ [e])) by (unfold alen; rewrite length_app; cbn [length]; lia).
  apply IH; [done |]. rewrite <- app_assoc. by eapply ps_listing_kept.
Qed.

Lemma cmd_ps_spec rest k :
  wf k -> ring (k_ram k) (cur_proc k :: rest) -> Forall (off_buf (u_ps U) 32) (cur_proc k :: rest) ->
  command (ps_text (ps_info (k_ram k) <$> take 32 (cur_proc k :: rest))) (cmd_ps U rodata) k.
Proof using HU.
  intros Hwf Hring Hoff. destruct (temp_range (u_ps U) 256) as [H0 H1]; [mem |].
  pose proof (sys_ps_spec (u_ps U) 32 ltac:(lia) ltac:(lia) k rest Hring ltac:(lia) Hoff) as H.
  replace ((u_ps U =? 0) || (32 <=? 0)) with false in H by lia. cbv zeta in H. change (Z.to_nat 32) with 32%nat in H.
  set (l := ps_info (k_ram k) <$> take 32 (cur_proc k :: rest)) in *. destruct H as (k1 & E & Hat & Hk1 & Hfr).
  assert (Hl : (length l <= 32)%nat) by (unfold l; rewrite length_fmap, length_take; lia).
  assert (Ek : usys_ps (u_ps U) 32 k = Done (alen l) k1).
  { rewrite usys_ps_eq, u32_small by lia. change (s32 (u32 32)) with 32. rewrite E. cbn [as_int].
    by rewrite u32_small, s32_small by (unfold alen; lia). }
  destruct (ram_only_effect (inside temps) k k1 Hk1 (proj1 Hwf)) as [He Hi].
  { intros x Hx. apply Hfr. destruct (Z.lt_ge_cases x (u_ps U)); [lia |]. destruct (Z.lt_ge_cases x (u_ps U + 256)); [| lia].
    exfalso. apply Hx, (temp_inside (u_ps U) 256); [mem | lia]. }
  pose proof (temps_wf _ _ _ He Hwf) as Hw1.
  eapply (uses_seq _ [] (ps_text l) _ _ _ _ (fun v k' => v = alen l /\ k' = k1)); [by exists (alen l), k1 | done |].
  intros ? ? _ _ [-> ->]. pose proof (alen_nonneg l). replace (alen l <? 0) with false by lia.
  replace (Z.to_nat (alen l)) with (length l) by (unfold alen; lia).
  apply outputs_command. eapply out_seq; [done | by apply out_say | unfold ps_text; by rewrite app_assoc |].
  intros _ k2 Hw2 He2. apply (ups_loop_spec [] l); [done |]. by eapply ps_listing_kept.
Qed.

(** ** A round of the shell *)

(** Everything a round relies on, with [rest] the processes after the current
    one in the run queue. *)
Record env (rest : list Z) k : Prop := Env {
  env_wf : wf k;
  env_in : input_ok k;
  env_proc : proc_ok k;
  env_ring : ring (k_ram k) (cur_proc k :: rest);
  env_off : forall q l, In q (cur_proc k :: rest) -> l ∈ locals -> sep l (q, PROCESS_SIZE);
  env_names : names_ok (fs_list (k_fs k));
  env_timer : ticks_per_second (now k) <> 0;
}.

(** What the shell prints for a line that is complete when the clock is [t];
    [None] for [exit]. *)
Definition reply (rest : list Z) k (t : timer) line : option (list Z) :=
  match parse line with
  | Help => Some (concat help_lines)
  | Ls => Some (ls_text (take 32 (fs_list (k_fs k))))
  | Cat name => Some (cat_text k name)
  | Echo args => Some (args ++ nl)
  | Clear => Some clear_text
  | Uptime => Some (uptime_text (u32 (tick_count t / ticks_per_second t)))
  | Meminfo => Some (meminfo_text (k_pmm k))
  | Ps => Some (ps_text (ps_info (k_ram k) <$> take 32 (cur_proc k :: rest)))
  | Exit => None
  | Unknown => Some (unknown_text line)
  end.

(** Control blocks survive writes to locals and to the descriptor table. *)
Definition round_vars k : list (Z * Z) := fd_table k :: locals.

Lemma pcb_word_kept W rest txt k k' q o :
  env rest k -> effect W txt k k' -> (forall x, W x -> inside (round_vars k) x) -> In q (cur_proc k :: rest) ->
  0 <= o -> o + 4 <= 32 -> ld32 (k_ram k') (q + o) = ld32 (k_ram k) (q + o).
Proof using.
  intros Henv (_ & _ & Hr) HW Hq Ho1 Ho2. destruct Henv as [_ _ _ [Hwf _] Hoff _ _].
  assert (Hb : forall x, q <= x < q + 32 -> ld8 (k_ram k') x = ld8 (k_ram k) x).
  { intros x Hx. apply Hr. intros HWx. destruct (HW x HWx) as (l & [->|Hl]%elem_of_cons & Hlx).
    - unfold fd_table, FD_SIZE, MAX_FDS in Hlx. cbn [fst snd] in Hlx.
      destruct (wf_apart _ (cur_proc k) q Hwf ltac:(by left) Hq) as [<-|Ha]; [lia |].
      unfold Scheduler.apart, PROCESS_SIZE in Ha. lia.
    - specialize (Hoff q l Hq Hl). unfold sep, PROCESS_SIZE in Hoff. cbn [fst snd] in Hoff. lia. }
  unfold ld32. by rewrite !Hb by lia.
Qed.

Lemma round_wf W rest txt k k' :
  env rest k -> effect W txt k k' -> (forall x, W x -> inside (round_vars k) x) -> wf k'.
Proof using HU.
  intros Henv He HW. apply (effect_weaken _ _ _ _ _ HW) in He. eapply wf_effect; [| exact He | apply Henv].
  destruct (env_proc _ _ Henv) as (_ & _ & _ & _ & Ht). intros l t [->|Hl]%elem_of_cons Hin.
  - specialize (Ht t Hin). unfold sep, fd_table, PROCESS_SIZE, FD_SIZE, MAX_FDS in *. cbn [fst snd] in *. lia.
  - destruct HU as (_ & H & _). by apply H.
Qed.

Lemma env_kept W rest txt k k' :
  env rest k -> effect W txt k k' -> (forall x, W x -> inside (round_vars k) x) -> input_ok k' -> env rest k'.
Proof using HU.
  intros Henv He HW Hin. pose proof (round_wf _ _ _ _ _ Henv He HW) as Hw. pose proof He as (Hs & _). pose proof Hs as (E1 & E2 & E3 & E4 & Hrd).
  pose proof (same_kernel_cur _ _ Hs) as Ec. split.
  - done.
  - done.
  - eapply proc_ok_kept; [apply He | apply Henv].
  - rewrite Ec. eapply ring_same; [| apply Henv]. intros q Hq. unfold p_next.
    eapply pcb_word_kept; [exact Henv | exact He | exact HW | done | lia | lia].
  - rewrite Ec. apply Henv.
  - rewrite E3. apply Henv.
  - destruct Hrd as (l & _ & ->). rewrite waited_rate. apply Henv.
Qed.

Lemma find_fd_same n i cur r r' :
  (forall j, i <= j < i + Z.of_nat n -> ctrue (fd_in_use cur j r') = ctrue (fd_in_use cur j r)) -> find_fd n i cur r' = find_fd n i cur r.
Proof using.
  revert i. induction n as [|n IH]; intros i H; cbn [find_fd]; [done |]. rewrite H by lia. destruct (negb _); [done |].
  apply IH. intros j Hj. apply H. lia.
Qed.

(** A reply does not depend on the shell's own variables. *)
Lemma reply_kept W rest txt k k' :
  env rest k -> effect W txt k k' -> (forall x, W x -> inside (round_vars k) x) -> same_fds k k' ->
  forall (t : timer) line, reply rest k' t line = reply rest k t line.
Proof using.
  intros Henv He HW Hfds t line. pose proof He as (Hs & _). pose proof Hs as (E1 & E2 & E3 & E4 & _). unfold reply.
  pose proof (same_kernel_cur _ _ Hs) as Ec. rewrite E3, E4, Ec.
  assert (Hfd : free_fd k' = free_fd k).
  { unfold free_fd. rewrite Ec. apply find_fd_same. intros j Hj. apply Hfds. unfold MAX_FDS in *. lia. }
  assert (Hps : ps_info (k_ram k') <$> take 32 (cur_proc k :: rest) = ps_info (k_ram k) <$> take 32 (cur_proc k :: rest)).
  { apply list_fmap_ext. intros i q Hq. apply lookup_take_Some in Hq as [Hq _].
    apply list_elem_of_lookup_2, list_elem_of_In in Hq. unfold ps_info, p_pid, p_state.
    pose proof (pcb_word_kept _ _ _ _ _ q 0 Henv He HW Hq ltac:(lia) ltac:(lia)) as H0. rewrite Z.add_0_r in H0.
    by rewrite H0, (pcb_word_kept _ _ _ _ _ q 20 Henv He HW Hq) by lia. }
  rewrite Hps. unfold cat_text, file_of. by rewrite Hfd, E3.
Qed.

(** The argument after a command word. *)
Lemma str_at_arg r a n line w : str_at r a line -> take n line = w -> length w = n -> str_at r (a + Z.of_nat n) (drop n line).
Proof using.
  intros Hs Ht Hl. rewrite <- (take_drop n line), Ht in Hs. apply str_at_app in Hs. unfold alen in Hs. by rewrite Hl in Hs.
Qed.

Lemma parse_cat line name : parse line = Cat name -> take 4 line = lit "cat " /\ name = drop 4 line.
Proof using. unfold parse. repeat case_bool_decide; intros [=]; subst; done. Qed.

Lemma parse_echo line args :
  parse line = Echo args ->
  (line = lit "echo" /\ args = []) \/ (line <> lit "echo" /\ take 5 line = lit "echo " /\ args = drop 5 line).
Proof using.
  unfold parse. repeat case_bool_decide; intros [=]; subst; [right | by left]. split; [| done]. by intros ->.
Qed.

(** What a command does to the kernel state. *)
Definition serves rest fuel line k : Prop :=
  match reply rest k (now k) line with
  | Some txt => uses (inside (vars k)) txt (run_cmd U rodata fuel) k (fun _ k' => same_fds k k')
  | None => exists k1, effect (inside (vars k)) (lit "Goodbye!" ++ nl) k k1 /\ same_input k k1 /\ run_cmd U rodata fuel k = usys_exit 0 k1
  end.

Lemma cmd_text_serves rest fuel line k :
  env rest k -> str_at (k_ram k) (u_cmd U) line -> (length line <= 255)%nat -> fs_capacity + 512 <= 512 * Z.of_nat fuel ->
  serves rest fuel line k.
Proof using HU.
  intros Henv Hs Hl Hfuel. destruct Henv as [Hwf Hin Hp Hring Hoff Hnames Ht].
  destruct (local_range (u_cmd U) CMD_BUF_SIZE ltac:(mem)) as [Hc0 _].
  unfold serves, uses. rewrite (run_cmd_parse line k Hwf Hs Hl fuel). unfold reply, perform.
  destruct (parse line) as [| |name|args| | | | | |] eqn:Eq.
  - by apply (command_vars _ _ _ Hp), outputs_command, cmd_help_spec.
  - by apply (command_vars _ _ _ Hp), cmd_ls_spec.
  - apply parse_cat in Eq as [Ht4 ->]. apply (cmd_cat_spec fuel (u_cmd U + 4) (drop 4 line) k); try done; [| rewrite length_drop; lia | lia].
    exact (str_at_arg _ _ 4 line _ Hs Ht4 eq_refl).
  - apply (command_vars _ _ _ Hp), outputs_command. apply parse_echo in Eq as [[-> ->]|(Hne & Ht5 & ->)].
    + rewrite bool_decide_eq_true_2 by done. pose proof (proj2 Hwf [] ltac:(by apply is_lit_spec)) as He.
      change nl with ([] ++ nl). destruct (Z.eq_dec (rodata []) 0) as [Hz|Hz]; [| apply cmd_echo_spec; (done || cbn; lia)].
      apply out_load. rewrite (str_at_hd _ _ _ He), Hz. cbn [hd Z.eqb negb andb].
      eapply (out_seq []); [done | by apply out_ret | done | intros; by apply out_say].
    + rewrite bool_decide_eq_false_2 by done. apply cmd_echo_spec; [done | | rewrite length_drop; lia | lia].
      exact (str_at_arg _ _ 5 line _ Hs Ht5 eq_refl).
  - by apply (command_vars _ _ _ Hp), cmd_clear_spec.
  - apply (command_vars _ _ _ Hp), outputs_command, cmd_uptime_spec; [done |]. unfold timer_get_seconds.
    by replace (ticks_per_second (now k) =? 0) with false by lia.
  - by apply (command_vars _ _ _ Hp), cmd_meminfo_spec.
  - apply (command_vars _ _ _ Hp), cmd_ps_spec; [done | done |]. apply Forall_forall. intros q Hq. apply list_elem_of_In in Hq.
    specialize (Hoff q (u_ps U, 256) Hq ltac:(mem)). unfold off_buf, sep, PROCESS_SIZE in *. cbn [fst snd] in Hoff. lia.
  - destruct (uses_run (inside (vars k)) _ _ (fun _ => usys_exit 0) k _ (prints_say (lit "Goodbye!" ++ nl) k eq_refl Hwf _))
      as (? & k1 & E & He & Hi & _). by exists k1.
  - by apply (command_vars _ _ _ Hp), outputs_command, unknown_spec.
Qed.

Lemma edit_len max line txt line' echo rest :
  edit max line txt = Some (line', echo, rest) -> alen line <= max - 1 -> alen line' <= max - 1.
Proof using.
  revert line echo. induction txt as [|c txt IH]; intros line echo; cbn [edit]; (destruct (Z.ltb_spec (alen line) (max - 1));
    [| by intros [= <- _ _]]); [done |].
  destruct ((c =? 10) || (c =? 13)); [by intros [= <- _ _] |]. destruct ((c =? 8) || (c =? 127)).
  - destruct line as [|x l]; [by apply IH |]. destruct (edit max (removelast (x :: l)) txt) as [[[l' e'] r']|] eqn:E; [| done].
    intros [= <- _ <-] _. eapply IH; [exact E |]. pose proof (removelast_firstn_len (x :: l)) as Hr. unfold alen in *.
    rewrite Hr, length_firstn. lia.
  - destruct (edit max (line ++ [c]) txt) as [[[l' e'] r']|] eqn:E; [| done]. intros [= <- _ <-] _. eapply IH; [exact E |].
    unfold alen in *. rewrite length_app. cbn [length]. lia.
Qed.

Lemma cmd_line_buf : line_buf (u_cmd U) CMD_BUF_SIZE.
Proof using HU.
  destruct (local_range (u_cmd U) CMD_BUF_SIZE ltac:(mem)) as [H0 H1]. destruct (temp_range (u_c U) 1 ltac:(mem)) as [H2 H3].
  destruct HU as (_ & Hoff & Hc & _). unfold line_buf. split; [done |]. split; [lia |]. split; [lia |]. split; [lia |].
  split; [apply Hc; mem |]. intros l t Hl. apply Hoff. apply elem_of_cons in Hl as [->|Hl]; [mem |].
  apply list_elem_of_singleton in Hl as ->. mem.
Qed.

Lemma line_vars_locals x : inside (line_vars (u_cmd U) CMD_BUF_SIZE) x -> inside locals x.
Proof using.
  intros (l & Hl & Hx). exists l. split; [| done]. apply elem_of_cons in Hl as [->|Hl]; [mem |].
  apply list_elem_of_singleton in Hl as ->. mem.
Qed.

(** Prompt and line: what the user sees before the command runs. *)
Lemma prompt_and_line {B} (f : Z -> prog F B) rest k :
  env rest k ->
  let res := (print_prompt rodata ;; (fun k => readline U rodata (stdin_fuel k) (u_cmd U) CMD_BUF_SIZE 0 k) ≫= f) k in
  match edit CMD_BUF_SIZE [] (stdin k) with
  | None => res = Blocks
  | Some (line, echo, more) =>
      exists k1, res = f (alen line) k1 /\ effect (inside locals) (lit "anubhav-os:/ $ " ++ echo) k k1 /\
        str_at (k_ram k1) (u_cmd U) line /\ alen line <= 255 /\ stdin k1 = more /\ input_ok k1
  end.
Proof using HU.
  intros Henv res. unfold res, print_prompt. clear res.
  destruct (uses_run (inside locals) _ _ (fun _ => (fun k => readline U rodata (stdin_fuel k) (u_cmd U) CMD_BUF_SIZE 0 k) ≫= f) k _
    (prints_say (lit "anubhav-os:/ $ ") k eq_refl (env_wf _ _ Henv) _)) as (? & k0 & E0 & He0 & Hi0 & Hr0). rewrite E0.
  destruct (same_input_ok _ _ Hi0 (env_in _ _ Henv)) as [Hin0 Hst0].
  assert (Hw0 : wf k0). { split; [apply He0 |]. rewrite Hr0. apply (env_wf _ _ Henv). }
  pose proof (readline_spec (u_cmd U) CMD_BUF_SIZE cmd_line_buf (stdin_fuel k0) [] k0) as H. unfold reads_line in H. rewrite Hst0 in H.
  specialize (H ltac:(split; [done |]; split; [done |]; split; [done |]; split; [done | by intros ? ?])).
  specialize (H ltac:(rewrite <- Hst0; unfold stdin_fuel; pose proof (stdin_length k0); lia)). change (alen []) with 0 in H.
  destruct (edit CMD_BUF_SIZE [] (stdin k)) as [[[line echo] more]|] eqn:Eed; unfold mbind, prog_bind.
  - destruct H as (k1 & -> & Hs & Hst & Hin & He). exists k1. split; [done |].
    split; [eapply effect_trans; [exact He0 | eapply effect_weaken; [apply line_vars_locals | exact He]] |].
    split; [done |]. split; [apply edit_len in Eed; [unfold CMD_BUF_SIZE in Eed; lia | done] | done].
  - by rewrite H.
Qed.

(** The reply to a line, an empty line included. *)
Definition answer (rest : list Z) k (t : timer) line : option (list Z) :=
  if bool_decide (line = []) then Some [] else reply rest k t line.

(** What a round owes. *)
Definition round_ok rest (res : result unit F) k : Prop :=
  match edit CMD_BUF_SIZE [] (stdin k) with
  | None => res = Blocks
  | Some (line, echo, more) =>
      let prompt := lit "anubhav-os:/ $ " in
      match answer rest k (clock_at k more) line with
      | Some txt => exists k', res = Done tt k' /\ effect (inside (round_vars k)) (prompt ++ echo ++ txt) k k' /\
                      stdin k' = more /\ now k' = clock_at k more /\ env rest k' /\
                      forall (t : timer) l, reply rest k' t l = reply rest k t l
      | None => exists k1 k' sw, effect (inside (round_vars k)) (prompt ++ echo ++ lit "Goodbye!" ++ nl) k k1 /\
                  stdin k1 = more /\ now k1 = clock_at k more /\ res = Exits k' sw /\ sys_exit 0 k1 = Exits k' sw
      end
  end.

Lemma vars_round k x : inside (vars k) x -> inside (round_vars k) x.
Proof using. intros (l & [->|Hl]%elem_of_cons & Hx); [exists (fd_table k) | exists l]; (split; [| done]); [mem |]. do 2 apply list_elem_of_further. done. Qed.

Lemma locals_round k x : inside locals x -> inside (round_vars k) x.
Proof using. intros (l & Hl & Hx). exists l. split; [by apply list_elem_of_further | done]. Qed.

Lemma round_vars_same k k' : same_kernel k k' -> round_vars k' = round_vars k.
Proof using. intros H. unfold round_vars, fd_table. by rewrite (same_kernel_cur _ _ H). Qed.

Lemma shell_round_spec rest fuel k :
  env rest k -> fs_capacity + 512 <= 512 * Z.of_nat fuel -> round_ok rest (shell_round U rodata fuel k) k.
Proof using HU.
  intros Henv Hfuel. unfold round_ok, shell_round.
  pose proof (prompt_and_line (fun len => if len =? 0 then mret tt else run_cmd U rodata fuel) rest k Henv) as H. cbv zeta in H.
  destruct (edit CMD_BUF_SIZE [] (stdin k)) as [[[line echo] more]|]; [| exact H].
  destruct H as (k1 & Hres & He1 & Hs1 & Hlen & Hst1 & Hin1). rewrite Hres. clear Hres. cbv zeta.
  pose proof (env_kept _ _ _ _ _ Henv He1 (locals_round k) Hin1) as Henv1. unfold answer.
  pose proof (reply_kept _ _ _ _ _ Henv He1 (locals_round k) (same_fds_locals _ _ _ (env_proc _ _ Henv) He1)) as Hrep.
  assert (Hnow : now k1 = clock_at k more) by (rewrite <- Hst1; apply reads_on_now; apply He1).
  destruct line as [|c line]; [rewrite bool_decide_eq_true_2 by done | rewrite bool_decide_eq_false_2 by done].
  - exists k1. split; [done |]. rewrite app_nil_r. split; [eapply effect_weaken; [apply locals_round | exact He1] | done].
  - set (ln := c :: line) in *. assert (Hne : alen ln <> 0) by (unfold ln, alen; cbn [length]; lia).
    replace (alen ln =? 0) with false by lia.
    rewrite <- (Hrep (clock_at k more) ln), <- Hnow.
    pose proof (cmd_text_serves rest fuel ln k1 Henv1 Hs1 ltac:(unfold alen in Hlen; lia) Hfuel) as Hsv. unfold serves in Hsv.
    apply (effect_weaken _ (inside (round_vars k))) in He1; [| apply locals_round].
    assert (HW : forall x, inside (vars k1) x -> inside (round_vars k) x).
    { intros x Hx. rewrite <- (round_vars_same _ _ (proj1 He1)). by apply vars_round. }
    destruct (reply rest k1 (now k1) ln) as [txt|].
    + destruct Hsv as ([] & k2 & E2 & He2 & Hi2 & Hfds). exists k2. split; [done |].
      destruct (same_input_ok _ _ Hi2 Hin1) as [Hin2 Hst2].
      split; [rewrite app_assoc; eapply effect_trans; [exact He1 | eapply effect_weaken; [exact HW | exact He2]] |].
      split; [by rewrite Hst2 |]. split; [apply Hi2 |]. split; [eapply env_kept; [exact Henv1 | exact He2 | apply vars_round | done] |].
      intros t l. rewrite (reply_kept _ _ _ _ _ Henv1 He2 (vars_round k1) Hfds). apply Hrep.
    + destruct Hsv as (k2 & He2 & Hi2 & E2). rewrite E2, usys_exit_eq. change (s32 (u32 0)) with 0.
      assert (Ex : exists k3 sw, sys_exit 0 k2 = Exits k3 sw).
      { unfold sys_exit. destruct (scheduler_tick _ _) as [[s m] sw]. by do 2 eexists. }
      destruct Ex as (k3 & sw & Ex). rewrite Ex. exists k2, k3, sw. destruct (same_input_ok _ _ Hi2 Hin1) as [_ Hst2].
      split; [| split; [by rewrite Hst2 |]; split; [apply Hi2 | done]].
      rewrite app_assoc. eapply effect_trans; [exact He1 | eapply effect_weaken; [exact HW | exact He2]].
Qed.

(** ** Sessions *)

(** What [n] rounds print from the time [t] on for the characters [inp], each
    with the ticks waited for it; the time and the characters left.  A line is
    answered at the time its last character arrives. *)
Fixpoint transcript (ans : timer -> list Z -> option (list Z)) (n : nat) (t : timer) (inp : list (nat * Z)) :
    option (list Z * timer * list (nat * Z)) :=
  match n with
  | O => Some ([], t, inp)
  | S n' =>
      '(line, echo, more) ← edit CMD_BUF_SIZE [] (snd <$> inp);
      let used := (length inp - length more)%nat in
      let t1 := waited (take used inp) t in
      r ← ans t1 line;
      '(out, t', more') ← transcript ans n' t1 (drop used inp);
      Some (lit "anubhav-os:/ $ " ++ echo ++ r ++ out, t', more')
  end.

Lemma transcript_ext ans ans' n (t : timer) inp : (forall (t : timer) l, ans t l = ans' t l) -> transcript ans n t inp = transcript ans' n t inp.
Proof using.
  intros H. revert t inp. induction n as [|n IH]; intros t inp; cbn [transcript]; [done |].
  destruct (edit CMD_BUF_SIZE [] (snd <$> inp)) as [[[line echo] more]|]; [| done]. cbn [mbind option_bind]. rewrite H.
  destruct (ans' _ line); [| done]. cbn [mbind option_bind]. by rewrite IH.
Qed.

Lemma shell_loop_S n fuel k k' : shell_round U rodata fuel k = Done tt k' -> shell_loop U rodata (S n) fuel k = shell_loop U rodata n fuel k'.
Proof using. intros H. cbn [shell_loop]. unfold mbind, prog_bind. by rewrite H. Qed.

Lemma session_spec rest fuel n out (t : timer) more k :
  env rest k -> fs_capacity + 512 <= 512 * Z.of_nat fuel -> transcript (answer rest k) n (now k) (awaited k) = Some (out, t, more) ->
  exists k', (forall m, shell_loop U rodata (n + m) fuel k = shell_loop U rodata m fuel k') /\
    effect (inside (round_vars k)) out k k' /\ awaited k' = more /\ now k' = t /\ env rest k'.
Proof using HU.
  intros Henv Hfuel. revert k out Henv. induction n as [|n IH]; intros k out Henv; cbn [transcript].
  { intros [= <- <- <-]. exists k. split; [done |]. split; [apply effect_refl, (env_wf _ _ Henv) | done]. }
  pose proof (shell_round_spec rest fuel k Henv Hfuel) as Hr. unfold round_ok in Hr. rewrite awaited_stdin.
  destruct (edit CMD_BUF_SIZE [] (stdin k)) as [[[line echo] mid]|]; [| done]. cbn [mbind option_bind].
  fold (read_before k mid). fold (clock_at k mid).
  destruct (answer rest k (clock_at k mid) line) as [r|]; [| done]. cbn [mbind option_bind].
  destruct Hr as (k1 & E1 & He1 & Hst1 & Hnow1 & Henv1 & Hrep).
  destruct (reads_on_now k k1) as [Haw _]; [apply He1 |]. rewrite Hst1 in Haw. rewrite <- Haw, <- Hnow1.
  rewrite (transcript_ext _ (answer rest k1)) by (intros t1 l; unfold answer; by rewrite Hrep).
  destruct (transcript (answer rest k1) n (now k1) (awaited k1)) as [[[out' t'] more']|] eqn:Et; [| done]. intros [= <- <- <-].
  destruct (IH k1 out' Henv1 Et) as (k2 & Hl2 & He2 & Hst2 & Hn2 & Henv2). exists k2.
  split; [intros m; cbn [Nat.add]; rewrite (shell_loop_S _ _ _ _ E1); apply Hl2 |]. split; [| done].
  rewrite (round_vars_same _ _ (proj1 He1)) in He2. pose proof (effect_trans _ _ _ _ _ _ He1 He2) as He. by rewrite <- !app_assoc in He.
Qed.

(** A line consumes at least one character. *)
Lemma edit_consumes max line txt line' echo rest :
  edit max line txt = Some (line', echo, rest) ->
  (length rest <= length txt)%nat /\ (alen line < max - 1 -> (length rest < length txt)%nat).
Proof using.
  revert line echo. induction txt as [|c txt IH]; intros line echo; cbn [edit]; (destruct (Z.ltb_spec (alen line) (max - 1));
    [| intros [= _ _ <-]; split; [done | lia]]); [done |].
  destruct ((c =? 10) || (c =? 13)); [intros [= _ _ <-]; cbn [length]; lia |]. cbn [length]. destruct ((c =? 8) || (c =? 127)).
  - destruct line as [|x l]; [intros E; apply IH in E; lia |]. destruct (edit max (removelast (x :: l)) txt) as [[[l' e'] r']|] eqn:E; [| done].
    intros [= <- _ <-]. apply IH in E. lia.
  - destruct (edit max (line ++ [c]) txt) as [[[l' e'] r']|] eqn:E; [| done]. intros [= <- _ <-]. apply IH in E. lia.
Qed.

(** The ways a program that never returns can end. *)
Definition stops (res : result unit F) : Prop := res = Blocks \/ exists k sw, res = Exits k sw.

Lemma shell_loop_stops rest fuel rounds k :
  env rest k -> fs_capacity + 512 <= 512 * Z.of_nat fuel -> (length (stdin k) < rounds)%nat -> stops (shell_loop U rodata rounds fuel k).
Proof using HU.
  intros Henv Hfuel. revert k Henv. induction rounds as [|n IH]; intros k Henv Hn; [lia |].
  pose proof (shell_round_spec rest fuel k Henv Hfuel) as Hr. unfold round_ok in Hr.
  destruct (edit CMD_BUF_SIZE [] (stdin k)) as [[[line echo] mid]|] eqn:Ee.
  2:{ left. cbn [shell_loop]. unfold mbind, prog_bind. by rewrite Hr. }
  apply edit_consumes in Ee as [_ Hlt]. specialize (Hlt ltac:(done)). destruct (answer rest k _ line) as [r|].
  - destruct Hr as (k1 & E1 & _ & Hst1 & _ & Henv1 & _). rewrite (shell_loop_S _ _ _ _ E1). apply IH; [done | rewrite Hst1; lia].
  - destruct Hr as (k1 & k2 & sw & _ & _ & _ & E & _). right. exists k2, sw. cbn [shell_loop]. unfold mbind, prog_bind. by rewrite E.
Qed.

(** The banner of [_start]: nothing the shell relies on changes, and every
    reply stays what it was. *)
Lemma start_banner rest fuel k :
  env rest k -> exists k1, (forall rounds, _start U rodata rounds fuel k = shell_loop U rodata rounds fuel k1) /\
    effect (inside locals) (concat logo) k k1 /\ env rest k1 /\ same_input k k1 /\ forall (t : timer) l, reply rest k1 t l = reply rest k t l.
Proof using HU.
  intros Henv. assert (Hu : uses (inside locals) (concat logo) (say_all rodata logo) k (fun _ _ => True)).
  { eapply uses_conseq; [apply out_say_all; [by vm_compute | apply Henv] | intros x Hx; by apply temps_locals, num_temps | done | done]. }
  destruct Hu as (u & k1 & E & He & Hi & _). destruct (same_input_ok _ _ Hi (env_in _ _ Henv)) as [Hin Hst].
  exists k1. split; [intros rounds; unfold _start, mbind, prog_bind; by rewrite E |]. split; [exact He |].
  split; [exact (env_kept _ _ _ _ _ Henv He (locals_round k) Hin) |]. split; [exact Hi |].
  exact (reply_kept _ _ _ _ _ Henv He (locals_round k) (same_fds_locals _ _ _ (env_proc _ _ Henv) He)).
Qed.

Lemma start_stops rest fuel k :
  env rest k -> fs_capacity + 512 <= 512 * Z.of_nat fuel -> stops (_start U rodata (S (length (stdin k))) fuel k).
Proof using HU.
  intros Henv Hfuel. destruct (start_banner rest fuel k Henv) as (k1 & E & _ & Henv1 & Hi & _).
  destruct (same_input_ok _ _ Hi (env_in _ _ Henv)) as [_ Hst]. rewrite E. apply (shell_loop_stops rest); [done | done | rewrite Hst; lia].
Qed.

(** A session from the program's first instruction on. *)
Lemma entry_session rest fuel n out (t : timer) more k :
  env rest k -> fs_capacity + 512 <= 512 * Z.of_nat fuel -> transcript (answer rest k) n (now k) (awaited k) = Some (out, t, more) ->
  exists k', (forall j, _entry U rodata (n + j) fuel k = (shell_loop U rodata j fuel ;; usys_exit 0) k') /\
    effect (inside (round_vars k)) (concat logo ++ out) k k' /\ awaited k' = more /\ now k' = t /\ env rest k'.
Proof using HU.
  intros Henv Hfuel Ht. destruct (start_banner rest fuel k Henv) as (k1 & E1 & He1 & Henv1 & (I1 & I2 & I3) & Hrep).
  assert (Ea : awaited k1 = awaited k) by (unfold awaited; by rewrite I1, I2).
  rewrite (transcript_ext _ (answer rest k1)), <- Ea, <- I3 in Ht by (intros t1 l; unfold answer; by rewrite Hrep).
  destruct (session_spec rest fuel n out t more k1 Henv1 Hfuel Ht) as (k2 & E2 & He2 & Hst2 & Hn2 & Henv2). exists k2.
  split; [intros j; unfold _entry, mbind, prog_bind; by rewrite E1, E2 |]. split; [| done].
  rewrite (round_vars_same _ _ (proj1 He1)) in He2.
  eapply effect_trans; [eapply effect_weaken; [apply locals_round | exact He1] | exact He2].
Qed.

Lemma entry_stops rest fuel k :
  env rest k -> fs_capacity + 512 <= 512 * Z.of_nat fuel -> stops (_entry U rodata (S (length (stdin k))) fuel k).
Proof using HU.
  intros Henv Hfuel. destruct (start_stops rest fuel k Henv Hfuel) as [E|(k1 & sw & E)]; unfold _entry, mbind, prog_bind; rewrite E;
    [by left | right; by exists k1, sw].
Qed.
End Files.
End Spec.

(** ** A concrete shell *)

(** Literals in 128-byte slots from 0x100000, variables from 0x200000. *)
Definition demo_rodata (t : list Z) : Z := 0x100000 + 128 * Z.of_nat (from_option fst O (list_find (fun u => u = t) literals)).

Definition demo_frame : uframe :=
  UFrame 0x200000 0x200010 0x200100 0x200200 0x200400 0x201000 0x201100 0x201200.

Definition demo_text : ram :=
  fold_right (fun t r => fill8 r (demo_rodata t) (alen (t ++ [0])) (fun i => aget 0 (t ++ [0]) i)) ∅ literals.

(** The two processes of [demo_pair], and the literals. *)
Definition demo_shell_mach : mach := set_ram (fun r => r ∪ demo_text) demo_pair.

Definition demo_shell (irqs : list wake) : kstate ramfs :=
  K (Sched 0x1000 0x1000 (Timer 250 100) ∅) kbd0 (vfs_mount ramfs_ops) demo_fs1 demo_pmm irqs demo_shell_mach.

(** A literal is stored, in its area. *)
Definition stored (t : list Z) : bool :=
  bool_decide (bytes (m_ram demo_shell_mach) (demo_rodata t) (alen (t ++ [0])) = t ++ [0]) &&
  forallb (fun c => negb (c =? 0)) t && (0x100000 <=? demo_rodata t) && (demo_rodata t + alen t + 1 <=? 0x200000).

Lemma demo_stored t : t ∈ literals -> stored t = true.
Proof.
  intros Ht. assert (H : forallb stored literals = true) by (vm_compute; reflexivity).
  rewrite forallb_forall in H. apply H. by apply list_elem_of_In.
Qed.

Lemma demo_lits : lits_ok demo_rodata (m_ram demo_shell_mach).
Proof.
  intros t Ht. apply demo_stored in Ht. unfold stored in Ht. rewrite !andb_true_iff in Ht. destruct Ht as [[[H1 H2] H3] H4].
  apply bool_decide_eq_true in H1. split; [lia |]. split; [lia |]. split; [| by apply bytes_bytes_at].
  apply Forall_forall. intros c Hc. rewrite forallb_forall in H2. specialize (H2 c ltac:(by apply list_elem_of_In)). lia.
Qed.

Lemma demo_locals l : l ∈ locals demo_frame -> 0x200000 <= l.1 /\ l.1 + l.2 <= 0x202000.
Proof.
  intros Hl. apply list_elem_of_In in Hl. cbn in Hl. repeat (destruct Hl as [<-|Hl]; [cbn; unfold CMD_BUF_SIZE; lia |]). done.
Qed.

Lemma demo_frame_ok : frame_ok demo_frame demo_rodata.
Proof.
  split; [| split; [| split]].
  - apply Forall_forall. intros l Hl. apply demo_locals in Hl. lia.
  - intros l t Hl Ht. apply demo_locals in Hl. apply demo_stored in Ht. unfold stored in Ht. rewrite !andb_true_iff in Ht.
    unfold sep. cbn [fst snd]. lia.
  - intros l Hl. apply list_elem_of_In in Hl. cbn in Hl. unfold sep. repeat (destruct Hl as [<-|Hl]; [cbn; unfold CMD_BUF_SIZE; lia |]). done.
  - intros l Hl. apply list_elem_of_In in Hl. cbn in Hl. unfold sep. repeat (destruct Hl as [<-|Hl]; [cbn; (by left) || (right; lia) |]). done.
Qed.

Lemma demo_env irqs :
  Forall wake_ok irqs -> Forall (fun c => 0 < c < 256) (pending kbd0 irqs) ->
  env demo_frame demo_rodata ramfs_ops [0x2000] (demo_shell irqs).
Proof.
  intros Hw Hc. destruct demo_fs1_spec as [Hfs _].
  assert (Hsep : forall q l, In q [0x1000; 0x2000] -> l ∈ locals demo_frame -> sep l (q, PROCESS_SIZE)).
  { intros q l Hq Hl. apply demo_locals in Hl. unfold sep, PROCESS_SIZE. cbn [fst snd In] in *. lia. }
  split.
  - split; [vm_compute; repeat split; congruence | exact demo_lits].
  - split; [exact (proj1 kbd0_inv) | done].
  - split; [unfold is_proc, PROCESS_SIZE; cbn; lia |]. split; [done |]. split; [exact Hfs |].
    split; [intros l Hl; apply Hsep; [by left | done] |]. intros t Ht. apply demo_stored in Ht. unfold stored in Ht.
    rewrite !andb_true_iff in Ht. unfold sep, PROCESS_SIZE. cbn. lia.
  - eapply ring_same; [| exact demo_pair_ok]. intros q [<-|[<-|[]]]; vm_compute; reflexivity.
  - exact Hsep.
  - vm_compute. repeat constructor; lia.
  - done.
Qed.

(** ["cat hi"], ["echo ok"] and the Enter keys. *)
Definition demo_keys : list wake :=
  KeyIrq <$> [0x2E; 0x1E; 0x14; 0x39; 0x23; 0x17; 0x1C; 0x12; 0x2E; 0x23; 0x18; 0x39; 0x18; 0x25; 0x1C].

Lemma demo_env_keys : env demo_frame demo_rodata ramfs_ops [0x2000] (demo_shell demo_keys).
Proof. apply demo_env; vm_compute; repeat constructor; congruence. Qed.

(** ** Properties *)

(** C20. A session with the shell: for any number of rounds whose lines are all
    answered, the shell prints exactly the transcript the command language
    prescribes (prompt, echo of the edited line, reply, line after line), where
    [help], [ls], [cat FILE], [echo], [clear], [uptime], [meminfo], [ps] and
    unknown commands (the bare word [cat] is one) reply as [reply] says for the
    mounted filesystem, the frame allocator, the run queue and the clock at the
    time the line is complete, so [uptime] follows the timer from round to
    round; it consumes exactly those lines, leaves the clock advanced by exactly
    the timer interrupts taken while it waited and the rest of the kernel's
    state as it was, changes no byte of RAM but its own variables and its
    descriptor table, and is ready for the next round. *)
Theorem shell_session_transcript {F} (ops : fs_ops F) `{!FileSystem ops} (U : uframe) (rodata : list Z -> Z)
    (rest : list Z) (fuel n : nat) (out : list Z) (t : timer) (more : list (nat * Z)) (k : kstate F) :
  frame_ok U rodata -> env U rodata ops rest k -> fs_capacity + 512 <= 512 * Z.of_nat fuel ->
  transcript (answer ops rest k) n (now k) (awaited k) = Some (out, t, more) ->
  exists k', (forall m, shell_loop U rodata (n + m) fuel k = shell_loop U rodata m fuel k') /\
    effect (inside (round_vars U k)) out k k' /\ awaited k' = more /\ now k' = t /\ env U rodata ops rest k'.
Proof. intros HU. by apply session_spec. Qed.

(** ["uptime"], half a second, ["uptime"], ["cat hi"]. *)
Definition demo_uptime_keys : list wake := KeyIrq <$> [0x16; 0x19; 0x14; 0x17; 0x32; 0x12; 0x1C].
Definition demo_timed_keys : list wake :=
  demo_uptime_keys ++ replicate 50 TimerIrq ++ demo_uptime_keys ++ (KeyIrq <$> [0x2E; 0x1E; 0x14; 0x39; 0x23; 0x17; 0x1C]).

Lemma shell_session_transcript_witness :
  exists k', shell_loop demo_frame demo_rodata 4 65 (demo_shell demo_timed_keys) = shell_loop demo_frame demo_rodata 1 65 k' /\
    shows (lit "anubhav-os:/ $ uptime" ++ nl ++ lit "Uptime: 2 seconds" ++ nl ++
           lit "anubhav-os:/ $ uptime" ++ nl ++ lit "Uptime: 3 seconds" ++ nl ++ lit "anubhav-os:/ $ cat hi" ++ nl ++ lit "A")
      (k_mach (demo_shell demo_timed_keys)) (k_mach k') /\ awaited k' = [] /\ now k' = Timer 300 100.
Proof.
  destruct (shell_session_transcript ramfs_ops demo_frame demo_rodata [0x2000] 65 3
    (lit "anubhav-os:/ $ uptime" ++ nl ++ lit "Uptime: 2 seconds" ++ nl ++
     lit "anubhav-os:/ $ uptime" ++ nl ++ lit "Uptime: 3 seconds" ++ nl ++ lit "anubhav-os:/ $ cat hi" ++ nl ++ lit "A")
    (Timer 300 100) [] (demo_shell demo_timed_keys))
    as (k' & H1 & (_ & H2 & _) & H3 & H4 & _).
  - exact demo_frame_ok.
  - apply demo_env; vm_compute; repeat constructor; congruence.
  - vm_compute. congruence.
  - vm_compute. reflexivity.
  - exists k'. split; [exact (H1 1%nat) |]. split; [exact H2 |]. split; [exact H3 | exact H4].
Defined.

(** C21. One round of the prompt loop, on every branch: without a complete line it
    waits; an empty line is ignored; a line that is answered is replied to as
    the command language says for the clock at the time the line is complete
    (the bare word [cat] is an unknown command), leaving the clock advanced by
    the timer interrupts taken while it waited, the rest of the kernel as it
    was and, for any given time, every reply unchanged for the next round;
    [exit] says goodbye and ends in the kernel's [sys_exit] of that state,
    never returning. *)
Theorem shell_round_serves {F} (ops : fs_ops F) `{!FileSystem ops} (U : uframe) (rodata : list Z -> Z)
    (rest : list Z) (fuel : nat) (k : kstate F) :
  frame_ok U rodata -> env U rodata ops rest k -> fs_capacity + 512 <= 512 * Z.of_nat fuel ->
  match edit CMD_BUF_SIZE [] (stdin k) with
  | None => shell_round U rodata fuel k = Blocks
  | Some (line, echo, more) =>
      let prompt := lit "anubhav-os:/ $ " in
      match answer ops rest k (clock_at k more) line with
      | Some txt => exists k', shell_round U rodata fuel k = Done tt k' /\
                      effect (inside (round_vars U k)) (prompt ++ echo ++ txt) k k' /\
                      stdin k' = more /\ now k' = clock_at k more /\ env U rodata ops rest k' /\
                      forall t l, reply ops rest k' t l = reply ops rest k t l
      | None => exists k1 k' sw, effect (inside (round_vars U k)) (prompt ++ echo ++ lit "Goodbye!" ++ nl) k k1 /\
                  stdin k1 = more /\ now k1 = clock_at k more /\
                  shell_round U rodata fuel k = Exits k' sw /\ sys_exit 0 k1 = Exits k' sw
      end
  end.
Proof. intros HU. by apply shell_round_spec. Qed.

(** The keys of ["exit"]. *)
Definition demo_exit_keys : list wake := KeyIrq <$> [0x12; 0x2D; 0x17; 0x14; 0x1C].

Lemma shell_round_serves_witness :
  (exists k1 k' sw, shell_round demo_frame demo_rodata 65 (demo_shell demo_exit_keys) = Exits k' sw /\ sys_exit 0 k1 = Exits k' sw) /\
  shell_round demo_frame demo_rodata 65 (demo_shell []) = Blocks.
Proof.
  split.
  - pose proof (shell_round_serves ramfs_ops demo_frame demo_rodata [0x2000] 65 (demo_shell demo_exit_keys) demo_frame_ok) as H.
    assert (E : edit CMD_BUF_SIZE [] (stdin (demo_shell demo_exit_keys)) = Some (lit "exit", lit "exit" ++ nl, [])) by (vm_compute; reflexivity).
    rewrite E in H. change (answer ramfs_ops [0x2000] (demo_shell demo_exit_keys) (clock_at (demo_shell demo_exit_keys) []) (lit "exit"))
      with (@None (list Z)) in H.
    destruct H as (k1 & k' & sw & _ & _ & _ & H1 & H2).
    + apply demo_env; vm_compute; repeat constructor; congruence.
    + vm_compute. congruence.
    + exists k1, k', sw. split; [exact H1 | exact H2].
  - apply (shell_round_serves ramfs_ops demo_frame demo_rodata [0x2000] 65 (demo_shell []) demo_frame_ok).
    + apply demo_env; vm_compute; repeat constructor; congruence.
    + vm_compute. congruence.
Defined.

(** C23. The shell never goes wrong: whatever is typed, the program started at
    [_start] performs no undefined behaviour (no unterminated string, no
    overflowed buffer, no failed division) and does not return; it ends waiting
    for input that does not come, or in [sys_exit].  Every line takes at least
    one character, so one round more than there are characters is enough. *)
Theorem shell_never_goes_wrong {F} (ops : fs_ops F) `{!FileSystem ops} (U : uframe) (rodata : list Z -> Z)
    (rest : list Z) (fuel : nat) (k : kstate F) :
  frame_ok U rodata -> env U rodata ops rest k -> fs_capacity + 512 <= 512 * Z.of_nat fuel ->
  let res := _start U rodata (S (length (stdin k))) fuel k in
  res = Blocks \/ exists k' sw, res = Exits k' sw.
Proof. intros HU. by apply start_stops. Qed.

Lemma shell_never_goes_wrong_witness :
  let res := _start demo_frame demo_rodata (S (length (stdin (demo_shell demo_keys)))) 65 (demo_shell demo_keys) in
  res = Blocks \/ exists k' sw, res = Exits k' sw.
Proof.
  apply (shell_never_goes_wrong ramfs_ops demo_frame demo_rodata [0x2000] 65 (demo_shell demo_keys)).
  - exact demo_frame_ok.
  - exact demo_env_keys.
  - vm_compute. congruence.
Defined.

(** C22. [readline] is the line editor [edit]: for any text buffered or still to
    be typed it waits exactly when the text ends before the line does;
    otherwise it returns the length of the edited line (backspace erasing the
    last character, Enter or a full buffer ending it), stored NUL-terminated
    in the caller's buffer within its [max] bytes, having echoed exactly what
    the editor shows and consumed exactly the characters of that line, the clock
    advanced by the timer interrupts taken while it waited for them. *)
Theorem readline_edits_line {F} (U : uframe) (rodata : list Z -> Z) (buf max : Z) (k : kstate F) :
  line_buf U rodata buf max -> wf rodata k -> input_ok k ->
  let res := readline U rodata (stdin_fuel k) buf max 0 k in
  match edit max [] (stdin k) with
  | None => res = Blocks
  | Some (line, echo, more) =>
      exists k', res = Done (alen line) k' /\ str_at (k_ram k') buf line /\ alen line <= max - 1 /\ stdin k' = more /\
        now k' = clock_at k more /\ input_ok k' /\ effect (inside (line_vars U buf max)) echo k k'
  end.
Proof.
  intros Hb Hwf Hin res. pose proof (readline_spec U rodata buf max Hb (stdin_fuel k) [] k) as H. unfold reads_line in H.
  pose proof Hb as (Hm & _). specialize (H ltac:(split; [done |]; split; [done |]; split; [unfold alen; cbn; lia |]; split; [done | by intros ? ?])).
  specialize (H ltac:(unfold stdin_fuel; pose proof (stdin_length k); lia)). change (alen []) with 0 in H. fold res in H.
  destruct (edit max [] (stdin k)) as [[[line echo] more]|] eqn:E; [| done].
  destruct H as (k' & H1 & H2 & H3 & H4 & H5). exists k'. split; [done |]. split; [done |].
  split; [eapply edit_len; [exact E |]; unfold alen; cbn; lia |]. split; [done |].
  split; [rewrite <- H3; apply reads_on_now, H5 | done].
Qed.

(** ["ab"], backspace, ["c"], Enter. *)
Definition demo_edit_keys : list wake := KeyIrq <$> [0x1E; 0x30; 0x0E; 0x2E; 0x1C].

Lemma readline_edits_line_witness :
  exists k', readline demo_frame demo_rodata (stdin_fuel (demo_shell demo_edit_keys)) 0x200100 256 0 (demo_shell demo_edit_keys) = Done 2 k' /\
    str_at (k_ram k') 0x200100 (lit "ac").
Proof.
  pose proof (readline_edits_line demo_frame demo_rodata 0x200100 256 (demo_shell demo_edit_keys)) as H. cbv zeta in H.
  assert (E : edit 256 [] (stdin (demo_shell demo_edit_keys)) = Some (lit "ac", lit "ab" ++ erase ++ lit "c" ++ nl, [])) by (vm_compute; reflexivity).
  rewrite E in H. destruct H as (k' & H1 & H2 & _).
  - exact (cmd_line_buf demo_frame demo_rodata demo_frame_ok).
  - apply (demo_env demo_edit_keys); vm_compute; repeat constructor; congruence.
  - apply (demo_env demo_edit_keys); vm_compute; repeat constructor; congruence.
  - exists k'. split; [exact H1 | exact H2].
Defined.

(** [cat] prints a file: for a file the mounted filesystem finds and a free
    descriptor it opens the file, prints all its bytes in order, 512 at a time,
    and closes it, so the same descriptors are in use as before and nothing
    else of the kernel changes; a missing file or a full descriptor table gives
    the message, an empty name the usage line. *)
Theorem cat_prints_file {F} (ops : fs_ops F) `{!FileSystem ops} (U : uframe) (rodata : list Z -> Z)
    (fuel : nat) (filename : Z) (name : list Z) (k : kstate F) :
  frame_ok U rodata -> wf rodata k -> proc_ok U rodata ops k -> str_at (k_ram k) filename name ->
  (length name <= 255)%nat -> filename <> 0 -> fs_capacity + 512 <= 512 * Z.of_nat fuel ->
  exists k', cmd_cat U rodata fuel filename k = Done tt k' /\
    effect (inside (vars U k))
      (if bool_decide (name = []) then lit "cat: usage: cat <filename>" ++ nl
       else if (free_fd k <? 0) || (vfs_open (Some ops) name (k_fs k) <? 0) then lit "cat: file not found: " ++ name ++ nl
       else default [] (fs_file (k_fs k) (vfs_open (Some ops) name (k_fs k)))) k k' /\
    same_input k k' /\ same_fds k k'.
Proof.
  intros HU Hwf Hp Hs Hl Ha Hf. destruct (cmd_cat_spec U rodata HU ops fuel filename name k Hwf Hp Hs Hl Ha Hf) as ([] & k' & H).
  by exists k'.
Qed.

(** A kernel with the name ["hi"] in the command buffer. *)
Definition demo_named : kstate ramfs := upd_mach (set_ram (fun r => fill8 r 0x200100 3 (fun i => aget 0 [104; 105; 0] i))) (demo_shell []).

Lemma cat_prints_file_witness :
  exists k', cmd_cat demo_frame demo_rodata 65 0x200100 demo_named = Done tt k' /\ shows (lit "A") (k_mach demo_named) (k_mach k') /\
    same_fds demo_named k'.
Proof.
  destruct (cat_prints_file ramfs_ops demo_frame demo_rodata 65 0x200100 (lit "hi") demo_named) as (k' & H1 & (_ & H2 & _) & _ & H3).
  - exact demo_frame_ok.
  - assert (E : env demo_frame demo_rodata ramfs_ops [0x2000] (demo_shell [])) by (apply demo_env; vm_compute; repeat constructor; congruence).
    eapply (wf_effect demo_rodata [(0x200100, 3)] []); [| | apply E].
    + intros l t Hl Ht. apply list_elem_of_singleton in Hl as ->. apply demo_stored in Ht. unfold stored in Ht. rewrite !andb_true_iff in Ht.
      unfold sep. cbn [fst snd]. lia.
    + apply effect_ram; [apply E |]. intros x Hx. rewrite ld8_fill8. destruct ((0x200100 <=? x) && (x <? 0x200100 + 3)) eqn:Ex; [| reflexivity].
      exfalso. apply Hx. exists (0x200100, 3). split; [apply list_elem_of_here | cbn [fst snd]; lia].
  - apply (demo_env []); vm_compute; repeat constructor; congruence.
  - split; [lia |]. split; [vm_compute; congruence |]. split; [repeat constructor; discriminate |]. apply bytes_bytes_at. vm_compute. reflexivity.
  - cbn. lia.
  - discriminate.
  - vm_compute. congruence.
  - exists k'. split; [exact H1 |]. split; [| exact H3].
    replace (lit "A") with (if bool_decide (lit "hi" = []) then lit "cat: usage: cat <filename>" ++ nl
       else if (free_fd demo_named <? 0) || (vfs_open (Some ramfs_ops) (lit "hi") (k_fs demo_named) <? 0) then lit "cat: file not found: " ++ lit "hi" ++ nl
       else default [] (fs_file (k_fs demo_named) (vfs_open (Some ramfs_ops) (lit "hi") (k_fs demo_named)))); [exact H2 | vm_compute; reflexivity].
Defined.
