(* ===== verification/Boot.v ===== *)
(** * Boot: from the boot loader to the shell's prompt

    [kmain] (Kmain.v) run on any machine the boot loader leaves well placed
    reaches the shell: the components' contracts compose, stage by stage, with
    one account of which bytes of RAM each stage may change.  The state it
    hands over is an environment of the shell (ShellSpec.v). *)
From stdpp Require Import strings.
From S2P Require Import Prelude Memory Machine Vga Console Multiboot Pmm Heap Vmm Vfs Ramfs Mkramfs Arch Keyboard Timer Process Scheduler Syscall Exec Kmain Ulib Uprog Shell ShellSpec.

(** ** The file test *)

(** On an empty table it leaves the one file it wrote, and touches nothing of
    RAM but its buffer. *)
Lemma file_test_spec L fs m :
  holds [] fs -> bytes (m_ram m) (l_msg L) (alen msg) = msg -> 0 <= l_msg L -> l_msg L + alen msg <= W32 ->
  0 <= l_buf L -> l_buf L + 128 <= W32 ->
  exists fs' m', file_test L (Some ramfs_ops) fs m = Some (fs', m') /\ holds [(hello_txt, msg)] fs' /\
    (vga_wf m -> vga_wf m') /\
    forall x, x < l_buf L \/ l_buf L + 128 <= x -> ld8 (m_ram m') x = ld8 (m_ram m) x.
Proof.
  intros (Hwf & Huq & Hused & Hlook & _) Hmsg Hm0 Hm1 Hb0 Hb1. change (alen msg) with 22 in *.
  destruct (create_next hello_txt fs 0 Hwf Huq) as (Hcr & Hwf1 & Huq1 & Hu1 & Hl1); [done | lia | exact Hused | apply Hlook |].
  set (fs1 := aset fs 0 (new_file hello_txt (file fs 0))) in *.
  assert (Hopen1 : find_file hello_txt fs1 = 0) by (destruct (Hl1 hello_txt) as [E _]; rewrite bool_decide_eq_true_2 in E by done; lia).
  assert (Hlive1 : live fs1 0 = true) by (unfold live; by rewrite Hu1 by lia).
  assert (Hf0 : file fs1 0 = new_file hello_txt (file fs 0)) by (unfold fs1; rewrite file_aset by (done || lia); done).
  destruct (ramfs_write_spec fs1 0 (l_msg L) 0 22 (m_ram m)) as (f' & Hw & Hf' & Hn' & Hu' & Hc'); rewrite ?Hf0; try done.
  rewrite Hf0 in *. change (contents (new_file hello_txt (file fs 0))) with (@nil Z) in Hc'. rewrite Hmsg in Hc'.
  change (splice [] 0 msg) with msg in Hc'.
  set (fs2 := aset fs1 0 f') in *. rewrite <- Hf0 in Hn', Hu'.
  assert (Hwf2 : fs_wf fs2) by (by apply fs_wf_aset).
  assert (Hopen2 : find_file hello_txt fs2 = 0) by (unfold fs2; rewrite find_file_update by (done || lia); exact Hopen1).
  assert (Hf2 : file fs2 0 = f') by (unfold fs2; rewrite file_aset by (done || lia); done).
  assert (Hused2 : forall j, 0 <= j < 64 -> is_used fs2 j = (j <? 1)).
  { intros j Hj. rewrite <- Hu1 by done. unfold is_used, fs2. rewrite file_aset by (done || lia). zcase; [by rewrite E, Hu' | done]. }
  assert (Hlive2 : live fs2 0 = true) by (unfold live; by rewrite Hused2 by lia).
  destruct (ramfs_read_spec fs2 0 (l_buf L) 0 127 (m_ram m) Hwf2 Hlive2) as (r' & Hr & _ & Hfr);
    [unfold is_u32; lia | unfold is_u32; lia | lia | lia |].
  rewrite Hf2, Hc' in Hr, Hfr. change (alen (slice msg 0 127)) with 22 in *.
  unfold file_test. cbn [vfs_create vfs_open vfs_write vfs_read vfs_close ramfs_ops create open write read close].
  rewrite Hcr. change (ramfs_open hello_txt fs1) with (find_file hello_txt fs1). rewrite Hopen1. cbn [Z.leb Z.compare].
  change (alen msg) with 22. rewrite Hw. cbn [mbind option_bind].
  change (ramfs_open hello_txt fs2) with (find_file hello_txt fs2). rewrite Hopen2. cbn [Z.leb Z.compare].
  rewrite Hr. cbn [Z.ltb Z.compare mbind option_bind]. do 2 eexists. split; [reflexivity |]. split; [| split].
  - split; [done |]. split; [by apply names_unique_update; [| lia | | |] |]. split; [exact Hused2 |]. split.
    + intros n. unfold fs2. rewrite lookup_name_update by (done || lia). destruct (Hl1 n) as [-> ->]. rewrite Hlook, Hc'.
      unfold image_map. cbn [fold_left fst snd]. change (cstr hello_txt) with hello_txt.
      case_bool_decide as E; [by rewrite E, lookup_insert_eq | by rewrite lookup_insert_ne].
    + intros [|j] nc Hj; [| done]. injection Hj as <-. change (Z.of_nat 0) with 0. rewrite Hf2. unfold entry_of.
      by rewrite Hc', Hn', Hf0, (proj1 (proj2 (new_file_spec hello_txt (file fs 0) (file_wf_at fs 0 Hwf)))).
  - intros Hv. apply vga_wf_debug_print, vga_wf_klog. exact Hv.
  - intros x Hx. rewrite m_ram_debug_print, m_ram_klog, m_ram_mst8, m_ram_set_ram, ld8_st8_ne by lia. apply Hfr. lia.
Qed.

(** ** What a stage may change *)

(** From [m] to [m'] the screen stays well formed and RAM changes only inside
    [W]. *)
Definition changes (W : Z -> Prop) (m m' : mach) : Prop :=
  (vga_wf m -> vga_wf m') /\ forall x, ~ W x -> ld8 (m_ram m') x = ld8 (m_ram m) x.

(** From [m] to [m'] RAM does not change at all. *)
Definition quiet (m m' : mach) : Prop := m_ram m' = m_ram m /\ (vga_wf m -> vga_wf m').

#[export] Instance quiet_preorder : PreOrder quiet.
Proof. split; [done |]. intros m1 m2 m3 [A1 B1] [A2 B2]. split; [congruence | auto]. Qed.

Lemma changes_trans W m1 m2 m3 : changes W m1 m2 -> changes W m2 m3 -> changes W m1 m3.
Proof. intros [A1 B1] [A2 B2]. split; [auto |]. intros x Hx. by rewrite B2, B1. Qed.

Lemma changes_weaken (W W' : Z -> Prop) m m' : (forall x, W x -> W' x) -> changes W m m' -> changes W' m m'.
Proof. intros HW [A B]. split; [exact A |]. intros x Hx. apply B. auto. Qed.

Lemma quiet_changes W m m' : quiet m m' -> changes W m m'.
Proof. intros [E H]. split; [exact H |]. intros x _. by rewrite E. Qed.

Lemma changes_after W m m' m'' : changes W m m' -> quiet m' m'' -> changes W m m''.
Proof. intros H1 H2. eapply changes_trans; [exact H1 | by apply quiet_changes]. Qed.

Lemma quiet_log fmt ap m : quiet m (klog fmt ap m).
Proof. split; [apply m_ram_klog | apply vga_wf_klog]. Qed.

Lemma quiet_debug s m : quiet m (debug_print s m).
Proof. split; [apply m_ram_debug_print | apply vga_wf_debug_print]. Qed.

Lemma quiet_io e m : quiet m (do_io e m).
Proof. by split. Qed.

(** ** The screen and the tables *)

Lemma vga_wf_set_color c m : 0 <= c < 256 -> vga_wf m -> vga_wf (vga_set_color c m).
Proof. intros Hc (H1 & H2 & H3 & _). split; [done |]. split; [done |]. by split. Qed.

Lemma banner_spec m : length (vga_mem m) = 2000%nat -> vga_wf (banner m) /\ m_ram (banner m) = m_ram m.
Proof.
  intros Hl. unfold banner. split.
  - apply vga_wf_set_color; [done |]. apply vga_wf_debug_print, vga_wf_klog, vga_wf_set_color; [done |].
    unfold vga_init. apply vga_clear_spec; done.
  - unfold vga_set_color, vga_init. by rewrite m_ram_set_vga_color, m_ram_debug_print, m_ram_klog, m_ram_set_vga_color, m_ram_vga_clear.
Qed.

(** The gate of every vector once the tables are loaded. *)
Definition boot_gate (L : layout) (v : Z) : idt_entry_t :=
  if v <? 32 then gate (l_isr L v) GDT_KERNEL_CODE IDT_GATE_INT_RING0
  else if v <? 48 then gate (l_irq L (v - 32)) GDT_KERNEL_CODE IDT_GATE_INT_RING0
  else if v =? 128 then gate (l_isr L 128) GDT_KERNEL_CODE IDT_GATE_INT_RING3 else idt_zero.

(** The privilege levels of the flat segments, and the stack for ring 0. *)
Definition boot_segments (gdt : list gdt_entry_t) : Prop :=
  forall i, 1 <= i <= 4 -> seg_dpl (aget gdt_zero gdt i) = if i <=? 2 then 0 else 3.
Definition boot_tss (L : layout) (tss : ram) : Prop :=
  ld32 tss tss_esp0 = u32 (l_stack_top L) /\ ld32 tss tss_ss0 = GDT_KERNEL_DATA.

Lemma tss_init_tables L gdt m :
  gdt = (gdt_init 0 (replicate 6 gdt_zero) mach0).1 ->
  boot_segments (tss_init (l_tss L) (l_stack_top L) gdt ∅ m).1.1 /\ boot_tss L (tss_init (l_tss L) (l_stack_top L) gdt ∅ m).1.2.
Proof.
  intros ->. unfold tss_init, boot_tss, tss_esp0, tss_ss0, tss_iomap_base, st16. cbn [fst snd]. split.
  - intros i Hi. unfold gdt_set_tss_entry, gdt_set_entry at 1. rewrite aget_aset_ne by lia.
    assert (Hc : i = 1 \/ i = 2 \/ i = 3 \/ i = 4) by lia. destruct Hc as [->|[->|[->| ->]]]; vm_compute; reflexivity.
  - rewrite !ld32_st8_ne, ld32_st32_eq by lia. rewrite ld32_st32_ne, ld32_st32_eq by lia. done.
Qed.

Lemma stage_tables_spec L m :
  exists gdt' tss' idt' m', stage_tables L (replicate 6 gdt_zero) ∅ (replicate 256 idt_zero) (replicate 16 0) m = (gdt', tss', idt', replicate 16 0, m') /\
    boot_segments gdt' /\ boot_tss L tss' /\
    (forall v, 0 <= v < 256 -> aget idt_zero idt' v = boot_gate L v) /\ quiet m m'.
Proof.
  unfold stage_tables.
  assert (H1 : quiet m (gdt_init (l_gdt L) (replicate 6 gdt_zero) m).2) by apply quiet_io.
  assert (Hgdt : (gdt_init (l_gdt L) (replicate 6 gdt_zero) m).1 = (gdt_init 0 (replicate 6 gdt_zero) mach0).1) by reflexivity.
  destruct (gdt_init (l_gdt L) (replicate 6 gdt_zero) m) as [gdt1 m1]. cbn [fst] in Hgdt. set (m2 := debug_print _ m1).
  assert (H2 : quiet m2 (tss_init (l_tss L) (l_stack_top L) gdt1 ∅ m2).2) by apply quiet_io.
  pose proof (tss_init_tables L gdt1 m2 Hgdt) as [Hseg Htss].
  destruct (tss_init _ _ gdt1 ∅ m2) as [[gdt2 tss2] m3]. set (m4 := debug_print _ m3). set (idt := replicate 256 idt_zero).
  assert (H3 : quiet m4 (idt_init (l_isr L) (l_irq L) (l_idt L) (replicate 16 0) idt m4).2) by (split; [reflexivity | trivial]).
  pose proof (fun v => idt_init_entry (l_isr L) (l_irq L) (l_idt L) (replicate 16 0) idt m4 v eq_refl) as Hg.
  assert (Hh : (idt_init (l_isr L) (l_irq L) (l_idt L) (replicate 16 0) idt m4).1.1 = for_ 0 16 (fun i hs => aset hs i 0) (replicate 16 0)) by reflexivity.
  replace (for_ 0 16 (fun i hs => aset hs i 0) (replicate 16 0)) with (replicate 16 0) in Hh by (vm_compute; reflexivity).
  destruct (idt_init _ _ _ _ idt m4) as [[hs1 idt1] m5]. cbn [fst snd] in *. subst hs1.
  do 4 eexists. split; [reflexivity |]. split; [exact Hseg |]. split; [exact Htss |]. split; [exact Hg |].
  etransitivity; [exact H1 |]. etransitivity; [apply quiet_debug |]. etransitivity; [exact H2 |]. etransitivity; [apply quiet_debug |].
  etransitivity; [exact H3 |]. etransitivity; [apply quiet_debug | apply quiet_log].
Qed.

(** ** The machine the boot loader hands over *)

Definition in_image (L : layout) (a n : Z) : Prop := l_kernel_start L <= a /\ a + n <= l_kernel_end L.
Definition page_tables (L : layout) : list Z := [l_kernel_dir L; l_pt0 L; l_pt1 L].

(** The linker's layout: the page tables on pages of their own inside the
    kernel image, the file test's buffer in it too, off the tables, the message
    off both. *)
Record layout_ok (L : layout) : Prop := LayoutOk {
  lo_image : 0 < l_kernel_start L /\ l_kernel_end L < W32;
  lo_tables p : p ∈ page_tables L -> is_page p /\ in_image L p 4096 /\ sep (p, 4096) (l_buf L, 128) /\ sep (p, 4096) (l_msg L, alen msg);
  lo_distinct : l_kernel_dir L <> l_pt0 L /\ l_kernel_dir L <> l_pt1 L /\ l_pt0 L <> l_pt1 L;
  lo_buf : in_image L (l_buf L) 128;
  lo_msg : in_image L (l_msg L) (alen msg);
  lo_entries : is_u32 (l_kthread_entry L) /\ is_u32 (l_idle L) /\ is_u32 (l_trampoline L);
}.
Arguments lo_image {_} _.
Arguments lo_tables {_} _ _ _.
Arguments lo_distinct {_} _.
Arguments lo_buf {_} _.
Arguments lo_msg {_} _.
Arguments lo_entries {_} _.

(** A range outside the kernel image and below [top]. *)
Definition clear_of (L : layout) (top a n : Z) : Prop :=
  0 <= a /\ (a + n <= l_kernel_start L \/ l_kernel_end L <= a) /\ a + n <= top.

(** An initramfs image that ends at [stop]. *)
Definition image_within (r : ram) (start stop : Z) (fl : list (list Z * list Z)) : Prop :=
  image_at r start fl /\ start + 8 + 72 * alen fl <= stop /\
  forall k nc, fl !! k = Some nc -> start + ld32 r (start + 8 + 72 * Z.of_nat k + 64) + alen nc.2 <= stop.

(** What the boot loader leaves: information, a memory map with entries [es],
    and modules, the first of which is an image of the files [fl] after the
    kernel; the heap [kmain] places after them ends below the load address. *)
Record boot_ok (L : layout) (mbi : Z) (es : list multiboot_mmap_entry_t) (fl : list (list Z * list Z)) (r : ram) : Prop := BootOk {
  bo_info : clear_of L (heap_base L (multiboot_info r mbi) r) mbi 52;
  bo_mmap : ctrue (Z.land (flags (multiboot_info r mbi)) MBOOT_FLAG_MMAP) = true /\
    mmap_at r (mmap_addr (multiboot_info r mbi)) (mmap_length (multiboot_info r mbi)) 0 es;
  bo_mods : has_modules (multiboot_info r mbi) = true /\
    clear_of L (heap_base L (multiboot_info r mbi) r) (mods_addr (multiboot_info r mbi)) (MOD_SIZE * mods_count (multiboot_info r mbi));
  bo_image : let md := mboot_mod r (mods_addr (multiboot_info r mbi)) in
    l_kernel_end L <= mod_start md /\ image_within r (mod_start md) (mod_end md) fl;
  bo_msg : bytes r (l_msg L) (alen msg) = msg;
  bo_room : safe_end L (multiboot_info r mbi) r + 0xFFF < W32 /\
    heap_base L (multiboot_info r mbi) r + 0x200000 <= USER_LOAD_ADDR;
}.
Arguments bo_info {_ _ _ _ _} _.
Arguments bo_mmap {_ _ _ _ _} _.
Arguments bo_mods {_ _ _ _ _} _.
Arguments bo_image {_ _ _ _ _} _.
Arguments bo_msg {_ _ _ _ _} _.
Arguments bo_room {_ _ _ _ _} _.

(** ** What survives the stages *)

Lemma cstr_at_same n r r' a : same_on a (a + Z.of_nat n) r r' -> cstr_at n r a = cstr_at n r' a.
Proof.
  revert a. induction n as [|n IH]; intros a H; cbn [cstr_at]; [done |]. rewrite (H a) by lia.
  destruct (_ =? 0); [done |]. f_equal. apply IH. intros x Hx. apply H. lia.
Qed.

Lemma image_same r r' start stop fl :
  same_on start stop r r' -> image_within r start stop fl -> image_at r' start fl.
Proof.
  intros Hs ((H0 & H1 & Hm & Hc & He) & Hstop & Hfit). pose proof (alen_nonneg fl).
  split; [done |]. split; [done |].
  split; [rewrite <- Hm; symmetry; eapply ld32_same_on; [exact Hs | lia | lia] |].
  split; [rewrite <- Hc; symmetry; eapply ld32_same_on; [exact Hs | lia | lia] |].
  intros k nc Hk. destruct (He k nc Hk) as (E1 & E2 & E3 & E4 & E5 & E6). specialize (Hfit k nc Hk).
  pose proof (lookup_lt_Some _ _ _ Hk). pose proof (ld32_range r (start + 8 + 72 * Z.of_nat k + 64)) as Hr.
  assert (Hw : forall o, 0 <= o <= 68 -> ld32 r' (start + 8 + 72 * Z.of_nat k + o) = ld32 r (start + 8 + 72 * Z.of_nat k + o)).
  { intros o Ho. symmetry. eapply ld32_same_on; [exact Hs | lia | unfold alen in *; lia]. }
  unfold entry_at. rewrite !Hw by lia. split; [| split; [done | split; [done | split; [done | split; [done |]]]]].
  - rewrite <- E1. symmetry. apply cstr_at_same. intros x Hx. apply Hs. unfold NAME_FUEL, alen in *. lia.
  - rewrite <- E6 at 2. symmetry. apply bytes_same_on. intros x Hx. apply Hs. unfold is_u32 in Hr. lia.
Qed.

Lemma word_kept L top a n r r' o :
  (forall x, 0 <= x < top -> x < l_kernel_start L \/ l_kernel_end L <= x -> ld8 r' x = ld8 r x) ->
  clear_of L top a n -> 0 <= o -> o + 4 <= n -> ld32 r' (a + o) = ld32 r (a + o).
Proof. intros H (H0 & H1 & H2) Ho Hn. unfold ld32. rewrite !H by lia. done. Qed.

(** The heap's base is past the kernel and every module. *)
Lemma base_spec L mbi es fl r :
  layout_ok L -> boot_ok L mbi es fl r ->
  let base := heap_base L (multiboot_info r mbi) r in
  base mod 4096 = 0 /\ l_kernel_end L <= base /\ 0 < base /\
  mod_end (mboot_mod r (mods_addr (multiboot_info r mbi))) <= base.
Proof.
  intros HL HB base. destruct (bo_room HB) as [Hs _]. destruct (lo_image HL) as [Hk0 Hk1].
  destruct (safe_end_spec L (multiboot_info r mbi) r) as [H1 H2]. destruct (bo_mods HB) as [Hm _].
  pose proof (lo_buf HL) as [Hb1 Hb2].
  assert (E : base = (safe_end L (multiboot_info r mbi) r + 4095) / 4096 * 4096) by (apply heap_base_eq; lia).
  specialize (H2 Hm 0). unfold has_modules in Hm. rewrite andb_true_iff in Hm. specialize (H2 ltac:(lia)).
  unfold MOD_SIZE in H2. rewrite Z.mul_0_r, Z.add_0_r in H2.
  rewrite (u32_small (mods_addr (multiboot_info r mbi))) in H2 by apply ld32_range. lia.
Qed.

Lemma boot_info_kept L mbi es fl r r' :
  layout_ok L -> boot_ok L mbi es fl r ->
  let info := multiboot_info r mbi in
  let base := heap_base L info r in
  (forall x, 0 <= x < base -> x < l_kernel_start L \/ l_kernel_end L <= x -> ld8 r' x = ld8 r x) ->
  multiboot_info r' mbi = info /\ heap_base L info r' = base /\
  mboot_mod r' (mods_addr info) = mboot_mod r (mods_addr info) /\
  image_at r' (mod_start (mboot_mod r (mods_addr info))) fl.
Proof.
  intros HL HB info base Hr. destruct (base_spec _ _ _ _ _ HL HB) as (_ & _ & _ & Hme). destruct (bo_mods HB) as [Hm Hc].
  fold info base in Hme, Hm, Hc. assert (Hcnt : 0 < mods_count info) by (unfold has_modules in Hm; rewrite andb_true_iff in Hm; lia).
  assert (Hmod : forall o, 0 <= o -> o + 4 <= MOD_SIZE * mods_count info -> ld32 r' (mods_addr info + o) = ld32 r (mods_addr info + o)).
  { intros o. by eapply word_kept. }
  split; [| split; [| split]].
  - pose proof (word_kept _ _ _ _ _ _ 0 Hr (bo_info HB)) as H0. rewrite Z.add_0_r in H0.
    unfold info, multiboot_info. rewrite H0, !(word_kept _ _ _ _ _ _ _ Hr (bo_info HB)) by lia. done.
  - unfold base, heap_base, safe_end. rewrite Hm. do 2 f_equal. f_equal. apply for_ext. intros j t Hj.
    unfold mboot_mod. cbn [mod_end]. destruct Hc as (H0 & _ & H2). destruct (bo_room HB) as [_ Hro]. fold info base in Hro.
    unfold MOD_SIZE, USER_LOAD_ADDR in *. rewrite u32_small by lia.
    replace (mods_addr info + 16 * j + 4) with (mods_addr info + (16 * j + 4)) by lia. by rewrite Hmod by lia.
  - unfold mboot_mod. unfold MOD_SIZE in *. pose proof (Hmod 0) as H0. rewrite Z.add_0_r in H0. by rewrite H0, Hmod by lia.
  - destruct (bo_image HB) as [Hks Hi]. fold info in Hks, Hi. eapply image_same; [| exact Hi]. intros x Hx. symmetry.
    destruct Hi as ((Hs0 & _) & _). apply Hr; lia.
Qed.

(** ** Physical memory, paging, heap *)

Definition in_tables (L : layout) (x : Z) : Prop := exists p, p ∈ page_tables L /\ p <= x < p + 4096.

(** Every address below 8 MB translates to itself, writable for the kernel only. *)
Definition identity (L : layout) (r : ram) : Prop :=
  forall va, 0 <= va < 0x800000 -> walk r (l_kernel_dir L) va = Some (va - va mod 4096, Z.lor PAGE_PRESENT PAGE_WRITE).

Lemma vmm_init_changes L cr0 m :
  changes (in_tables L) m (vmm_init (l_kernel_dir L) (l_pt0 L) (l_pt1 L) cr0 m).
Proof.
  split.
  - intros H. unfold vmm_init. apply vga_wf_klog. exact H.
  - intros x Hx. rewrite init_ram.
    assert (Hp : forall p, p ∈ page_tables L -> x < p \/ p + 4096 <= x).
    { intros p Hp. destruct (Z.lt_ge_cases x p); [by left |]. destruct (Z.lt_ge_cases x (p + 4096)); [| by right].
      exfalso. apply Hx. exists p. done. }
    pose proof (Hp (l_kernel_dir L) ltac:(mem)) as H1. pose proof (Hp (l_pt0 L) ltac:(mem)) as H2. pose proof (Hp (l_pt1 L) ltac:(mem)) as H3.
    rewrite !ld8_st32_ne, !ld8_fill32 by lia. done.
Qed.

(** The table pages are as [vmm_init] fills them. *)
Definition mapped (L : layout) (r : ram) : Prop :=
  exists cr0 m, forall x, in_tables L x -> ld8 r x = ld8 (m_ram (vmm_init (l_kernel_dir L) (l_pt0 L) (l_pt1 L) cr0 m)) x.

Lemma mapped_kept L r r' : mapped L r -> (forall x, in_tables L x -> ld8 r' x = ld8 r x) -> mapped L r'.
Proof. intros (cr0 & m & H) Hr. exists cr0, m. intros x Hx. by rewrite Hr, H. Qed.

Lemma mapped_identity L r : layout_ok L -> mapped L r -> identity L r.
Proof.
  intros HL (cr0 & m & Hr) va Hva. destruct (lo_distinct HL) as (D1 & D2 & D3).
  destruct (lo_tables HL (l_kernel_dir L) ltac:(mem)) as [P1 _], (lo_tables HL (l_pt0 L) ltac:(mem)) as [P2 _],
    (lo_tables HL (l_pt1 L) ltac:(mem)) as [P3 _].
  pose proof (init_walk _ _ _ cr0 P1 P2 P3 D1 D2 D3 m) as Hw. pose proof (init_dir _ _ _ cr0 P1 P2 P3 D1 D2 D3 m) as Hd. cbv zeta in Hw, Hd.
  set (r0 := m_ram (vmm_init _ _ _ cr0 m)) in *.
  assert (Hs : forall p, p ∈ page_tables L -> page_same p r0 r) by (intros p Hp x Hx; symmetry; apply Hr; by exists p).
  assert (Hu : is_u32 va) by (unfold is_u32; lia). destruct (dir_idx_eq va Hu) as [Hdi Hir].
  rewrite (walk_frame r0 r); [rewrite Hw by done; by replace (va <? 0x800000) with true by lia | done | apply Hs; mem |].
  intros _. unfold table. rewrite Hd by done. assert (Hi : VMM_DIR_IDX va = 0 \/ VMM_DIR_IDX va = 1) by lia.
  destruct Hi as [-> | ->]; cbn [Z.eqb Pos.eqb].
  - destruct (rw_decodes _ P2) as (_ & -> & _). apply Hs. mem.
  - destruct (rw_decodes _ P3) as (_ & -> & _). apply Hs. mem.
Qed.

(** The fourth stage: the frame allocator holds, the first 8 MB are mapped, one
    free block makes the heap, and only the tables and the heap have changed. *)
Lemma stage_memory_spec L cr0 mbi es fl m :
  layout_ok L -> boot_ok L mbi es fl (m_ram m) ->
  let base := heap_base L (multiboot_info (m_ram m) mbi) (m_ram m) in
  exists s h m', stage_memory L cr0 mbi m = Some (s, h, m') /\ pmm_inv s /\
    heap_inv h (m_ram m') [Ablk (0x200000 - 16) false] /\ heap_start_addr h = base /\ heap_end_addr h = base + 0x200000 /\
    mapped L (m_ram m') /\ changes (fun x => in_tables L x \/ base <= x < base + 16) m m'.
Proof.
  intros HL HB base. destruct (base_spec _ _ _ _ _ HL HB) as (Hb4 & Hbk & Hb0 & _). fold base in Hb4, Hbk, Hb0.
  destruct (lo_image HL) as [Hk0 Hk1]. pose proof (lo_buf HL) as [Hb1 Hb2]. destruct (bo_mmap HB) as [Hf Hat].
  destruct (bo_room HB) as [_ Hro]. fold base in Hro. unfold USER_LOAD_ADDR in Hro.
  destruct (pmm_init_spec (l_kernel_start L) (l_kernel_end L) mbi m es ltac:(lia) ltac:(lia) Hf Hat) as (s & m1 & Hp & Hpi & _ & Hr1 & _).
  pose proof (pmm_init_screen _ _ _ _ _ _ Hp) as Hv1.
  unfold stage_memory. rewrite Hp. cbn [mbind option_bind].
  set (m2 := debug_print _ m1). set (m3 := vmm_init _ _ _ cr0 m2). set (m4 := debug_print _ m3).
  assert (H03 : changes (in_tables L) m m3).
  { eapply changes_trans; [| apply vmm_init_changes]. apply quiet_changes.
    etransitivity; [by split | apply quiet_debug]. }
  assert (Hr4 : m_ram m4 = m_ram m3) by apply m_ram_debug_print.
  destruct (boot_info_kept _ _ _ _ _ (m_ram m4) HL HB) as (Hi & Hbase & _).
  { fold base. intros x Hx Hout. rewrite Hr4. apply H03. intros (p & Hp' & Hpx). destruct (lo_tables HL p Hp') as (_ & [I1 I2] & _). lia. }
  rewrite Hi, Hbase. fold base.
  destruct (heap_init_inv base (2 * 1024 * 1024) m4) as [Hinv Hfr]; [lia .. |].
  pose proof (heap_init_kept base (2 * 1024 * 1024) m4) as (Hst & Hen & Hv5).
  rewrite (u32_small (base + _)) in Hen by lia.
  destruct (heap_init base (2 * 1024 * 1024) m4) as [h m5]. cbn [fst snd] in *.
  do 3 eexists. split; [reflexivity |]. rewrite m_ram_debug_print. split; [done |]. split; [exact Hinv |]. split; [done |]. split; [done |]. split.
  - exists cr0, m2. fold m3. rewrite <- Hr4. intros x (p & Hp' & Hpx). apply Hfr. destruct (lo_tables HL p Hp') as (_ & [I1 I2] & _). lia.
  - eapply changes_after; [| apply quiet_debug]. eapply changes_trans; [eapply changes_weaken; [| exact H03]; intros x Hx; by left |]. split.
    + intros H. apply Hv5, vga_wf_debug_print, H.
    + intros x Hx. rewrite Hfr, Hr4 by (assert (~ base <= x < base + 16) by tauto; lia). done.
Qed.

(** ** The idle thread *)

(** The heap's blocks with the idle thread in it, and with the shell's too. *)
Definition idle_blocks : list ablk := [Ablk 416 true; Ablk 8192 true; Ablk 2088496 false].
Definition shell_blocks : list ablk := [Ablk 416 true; Ablk 8192 true; Ablk 416 true; Ablk 8192 true; Ablk 2079856 false].

Lemma amalloc_split n a b bs :
  n + 20 <= b -> amalloc n a (Ablk b false :: bs) = Some (a + 16, Ablk n true :: Ablk (b - n - 16) false :: bs).
Proof.
  intros H. cbn [amalloc b_used b_size negb andb].
  replace (n <=? b) with true by lia. by replace (n + 20 <=? b) with true by lia.
Qed.

Lemma amalloc_skip n a b bs :
  amalloc n a (Ablk b true :: bs) = '(p, bs') ← amalloc n (a + 16 + b) bs; Some (p, Ablk b true :: bs').
Proof. done. Qed.

Lemma idle_fits base : thread_fit base [Ablk (0x200000 - 16) false] = Some (base + 16, base + 448, idle_blocks).
Proof.
  unfold thread_fit, PROCESS_SIZE, KERNEL_STACK_SIZE. rewrite amalloc_split by lia. cbn [mbind option_bind].
  rewrite amalloc_skip, amalloc_split by lia. cbn [mbind option_bind]. apply f_equal, f_equal2; [apply f_equal2; lia | reflexivity].
Qed.

Lemma shell_fits base : thread_fit base idle_blocks = Some (base + 8656, base + 9088, shell_blocks).
Proof.
  unfold thread_fit, PROCESS_SIZE, KERNEL_STACK_SIZE, idle_blocks. rewrite !amalloc_skip, amalloc_split by lia. cbn [mbind option_bind].
  rewrite !amalloc_skip, amalloc_split by lia. cbn [mbind option_bind]. apply f_equal, f_equal2; [apply f_equal2; lia | reflexivity].
Qed.

(** The fifth stage leaves the idle process current and alone in the run queue,
    and the clock at 100 Hz. *)
Lemma stage_threads_spec L hs tss h m base :
  layout_ok L -> heap_inv h (m_ram m) [Ablk (0x200000 - 16) false] -> heap_start_addr h = base -> heap_end_addr h = base + 0x200000 ->
  exists h' m', stage_threads L hs tss h m =
      Some (Ret (irq_register IRQ_TIMER (l_timer_irq L) hs, 2, Sched (base + 16) (base + 16) (Timer 0 PIT_HZ_DEFAULT) tss, h', m')) /\
    heap_inv h' (m_ram m') idle_blocks /\ heap_start_addr h' = base /\ heap_end_addr h' = base + 0x200000 /\
    ring (m_ram m') [base + 16] /\ p_pid (base + 16) (m_ram m') = 0 /\ p_state (base + 16) (m_ram m') = PROC_RUNNING /\
    changes (fun x => base <= x < base + 0x200000) m m'.
Proof.
  intros HL Hinv Hst Hen. destruct (lo_entries HL) as (He1 & He2 & _).
  destruct (lo_tables HL (l_kernel_dir L) ltac:(mem)) as [[Hd _] _]. unfold stage_threads, process_init.
  set (m1 := klog _ [] m). assert (Hr1 : m_ram m1 = m_ram m) by apply m_ram_klog.
  destruct (scheduler_init_spec (l_kernel_dir L) (l_kthread_entry L) (l_idle L) 1 (Sched 0 0 timer0 tss) h m1
    [Ablk (0x200000 - 16) false] (base + 16) (base + 448) idle_blocks) as (h' & m' & Hs & Hinv' & (K1 & K2 & K3) & Hring & Hpid & Hstate & _ & _ & _ & Hout).
  { by rewrite Hr1. } { done. } { done. } { done. } { unfold is_u32; lia. } { done. } { rewrite Hst. apply idle_fits. }
  rewrite Hs. cbn [mbind option_bind clock]. change (u32 (1 + 1)) with 2. cbn [Scheduler.tss].
  unfold timer_init. change (PIT_HZ_DEFAULT =? 0) with false. cbn [mbind option_bind].
  do 2 eexists. split; [reflexivity |]. rewrite !m_ram_debug_print, !m_ram_klog, !m_ram_outb.
  split; [exact Hinv' |]. split; [congruence |]. split; [congruence |]. split; [exact Hring |]. split; [exact Hpid |]. split; [exact Hstate |].
  eapply changes_after; [| apply quiet_debug]. eapply changes_after; [| apply quiet_log].
  eapply changes_after; [| by split]. split.
  - intros H. apply K3, vga_wf_klog, H.
  - intros x Hx. rewrite <- Hr1. apply Hout. lia.
Qed.

(** ** Files, keyboard, shell *)

Lemma stage_files_spec L m :
  layout_ok L -> bytes (m_ram m) (l_msg L) (alen msg) = msg ->
  exists fs m', stage_files L m = Some (vfs_mount ramfs_ops, fs, m') /\ holds [(hello_txt, msg)] fs /\
    changes (fun x => l_buf L <= x < l_buf L + 128) m m'.
Proof.
  intros HL Hmsg. destruct (lo_image HL) as [Hk0 Hk1]. destruct (lo_buf HL) as [Hb1 Hb2], (lo_msg HL) as [Hm1 Hm2].
  unfold stage_files, vfs_init. set (m1 := klog _ [] m).
  destruct (ramfs_init_empty files0 m1 files0_wf) as [Hwf Hemp].
  assert (Hm' : (ramfs_init files0 m1).2 = klog (lit "[RAMFS] In-memory filesystem mounted" ++ nl) [] m1 /\
    (ramfs_init files0 m1).1.2 = Some ramfs_ops) by done.
  destruct (ramfs_init files0 m1) as [[fs v] m2]. cbn [fst snd] in *. destruct Hm' as [-> ->]. set (m2' := klog _ [] m1).
  assert (Hr : m_ram m2' = m_ram m) by (unfold m2', m1; by rewrite !m_ram_klog).
  destruct (file_test_spec L fs m2' (holds_empty _ Hwf Hemp)) as (fs' & m' & Ht & Hh & Hv & Hfr); [by rewrite Hr | lia | lia | lia | lia |].
  rewrite Ht. cbn [mbind option_bind]. do 2 eexists. split; [reflexivity |]. split; [exact Hh |]. split.
  - intros H. by apply Hv, vga_wf_klog, vga_wf_klog.
  - intros x Hx. rewrite Hfr, Hr by lia. done.
Qed.

Lemma stage_keyboard_spec L hs s m :
  current s <> 0 ->
  exists m', stage_keyboard L hs s m = (kbd0, irq_register IRQ_KEYBOARD (l_keyboard_irq L) hs, m') /\ std_fds (current s) (m_ram m') /\
    changes (fun x => current s + 32 <= x < current s + PROCESS_SIZE) m m'.
Proof.
  intros Hc. unfold stage_keyboard, keyboard_init, scheduler_current. set (m1 := klog _ [] m). set (m2 := debug_print _ m1).
  replace (current s =? 0) with false by lia. destruct (init_fds_spec (current s) m2) as [Hf Hfr].
  eexists. split; [reflexivity |]. split; [exact Hf |]. split.
  - intros H. by apply init_fds_screen, vga_wf_debug_print, vga_wf_klog.
  - intros x Hx. rewrite Hfr by lia. unfold m2, m1. by rewrite m_ram_debug_print, m_ram_klog.
Qed.

Lemma image_map_in fl n c : NoDup (fst <$> fl) -> (n, c) ∈ fl -> image_map fl !! n = Some c.
Proof.
  induction fl as [|[n' c'] fl IH] using rev_ind; intros Hnd Hin; [by apply not_elem_of_nil in Hin |].
  rewrite fmap_app in Hnd. apply NoDup_app in Hnd as (Hnd & Hd & _). rewrite image_map_snoc. cbn [fst snd].
  apply elem_of_app in Hin as [Hin|Hin%list_elem_of_singleton].
  - rewrite lookup_insert_ne; [by apply IH |]. intros ->. apply (Hd n); [| apply list_elem_of_here]. by apply (list_elem_of_fmap_2 fst fl (n, c)).
  - injection Hin as -> ->. apply lookup_insert_eq.
Qed.

(** The program [exec] finds in the table. *)
Lemma program_holds fl fs c :
  holds fl fs -> NoDup (fst <$> fl) -> (lit "shell.bin", c) ∈ fl -> program ramfs_ops (lit "shell.bin") fs = c.
Proof.
  intros (Hwf & _ & _ & Hl & _) Hnd Hin. specialize (Hl (lit "shell.bin")). change (cstr (lit "shell.bin")) with (lit "shell.bin") in Hl.
  rewrite (image_map_in _ _ _ Hnd Hin) in Hl. unfold program, lookup_name in *.
  change (vfs_open (Some ramfs_ops) (lit "shell.bin") fs) with (find_file (lit "shell.bin") fs).
  destruct (find_file_spec (lit "shell.bin") fs) as [[E _]|(Hr & Hn & _)]; [rewrite E in Hl; discriminate Hl |].
  set (i := find_file (lit "shell.bin") fs) in *. clearbody i. replace (i <? 0) with false in * by lia. injection Hl as Hc.
  assert (Hlive : live fs i = true).
  { unfold live, is_used. unfold named in Hn. rewrite andb_true_iff in Hn. destruct Hn as [-> _]. lia. }
  change (fs_file fs i) with (ramfs_file fs i). unfold ramfs_file. rewrite Hlive. cbn [from_option id]. unfold id. rewrite Hc.
  assert (Hsz : alen c <= LOAD_MAX).
  { rewrite <- Hc. destruct (file_wf_at fs i Hwf) as [_ Hsz]. unfold contents. rewrite alen_bytes by lia. exact (proj2 Hsz). }
  unfold slice. rewrite drop_0. apply take_ge. unfold alen in Hsz. lia.
Qed.

Lemma heap_inv_same h r r' bs : heap_inv h r bs -> same_on (heap_start_addr h) (heap_end_addr h) r r' -> heap_inv h r' bs.
Proof. intros (H1 & H2 & H3 & H4 & H5 & Hc & H6) Hs. split_and!; try done. by eapply chain_same. Qed.

(** The seventh stage and the keyboard: the idle process keeps its place and
    gets its descriptors. *)
Lemma stage_user_spec L hs s h m base :
  layout_ok L -> l_kernel_end L <= base -> heap_inv h (m_ram m) idle_blocks -> heap_start_addr h = base ->
  bytes (m_ram m) (l_msg L) (alen msg) = msg -> ring (m_ram m) [base + 16] -> current s = base + 16 ->
  exists fs m6 m', stage_files L m = Some (vfs_mount ramfs_ops, fs, m6) /\ holds [(hello_txt, msg)] fs /\
    stage_keyboard L hs s m6 = (kbd0, irq_register IRQ_KEYBOARD (l_keyboard_irq L) hs, m') /\
    heap_inv h (m_ram m') idle_blocks /\ ring (m_ram m') [base + 16] /\ std_fds (base + 16) (m_ram m') /\
    (forall o, 0 <= o -> o + 4 <= 32 -> ld32 (m_ram m') (base + 16 + o) = ld32 (m_ram m) (base + 16 + o)) /\
    changes (fun x => l_buf L <= x < l_buf L + 128 \/ base + 48 <= x < base + 16 + PROCESS_SIZE) m m'.
Proof.
  intros HL Hkb Hinv Hst Hmsg Hring Hcur. destruct (lo_image HL) as [Hk0 _], (lo_buf HL) as [Hb1 Hb2].
  destruct (stage_files_spec L m HL Hmsg) as (fs & m6 & E6 & Hh & Hv6 & Hf6).
  destruct (stage_keyboard_spec L hs s m6) as (m7 & E7 & Hstd & Hv7 & Hf7); [lia |]. rewrite Hcur in *. unfold PROCESS_SIZE in *.
  assert (Hinv6 : heap_inv h (m_ram m6) idle_blocks).
  { eapply heap_inv_same; [exact Hinv |]. intros x Hx. symmetry. apply Hf6. lia. }
  assert (Hw : forall o, 0 <= o -> o + 4 <= 32 -> ld32 (m_ram m7) (base + 16 + o) = ld32 (m_ram m) (base + 16 + o)).
  { intros o Ho1 Ho2. unfold ld32. rewrite !Hf7, !Hf6 by lia. done. }
  exists fs, m6, m7. split; [done |]. split; [done |]. split; [done |]. split; [| split; [| split; [done | split; [done |]]]].
  - eapply (heap_inv_payload h (m_ram m6) _ _ (base + 16) 416 true); [done | rewrite Hst; by left |].
    intros x Hx. symmetry. apply Hf7. lia.
  - eapply ring_same; [| exact Hring]. intros q [<-|[]]. apply (Hw 28); lia.
  - split; [auto |]. intros x Hx. rewrite Hf7, Hf6 by lia. done.
Qed.

(** The files once the initramfs [fl] is loaded next to the test file: the
    loader drops an entry whose name is taken, a packed [hello.txt] among them,
    and what does not fit the table. *)
Definition boot_files (fl : list (list Z * list Z)) : list (list Z * list Z) := add_files [(hello_txt, msg)] fl.

Lemma boot_files_unique fl : NoDup (fst <$> boot_files fl).
Proof. apply add_files_unique, NoDup_singleton. Qed.

Lemma boot_files_few fl : alen (boot_files fl) <= 64.
Proof. by apply add_files_few. Qed.

(** A program among them comes from the initramfs. *)
Lemma boot_files_shell fl c : (lit "shell.bin", c) ∈ boot_files fl -> (lit "shell.bin", c) ∈ fl.
Proof. intros [H%list_elem_of_singleton|H]%add_files_in; [discriminate H | exact H]. Qed.

(** The last stage loads the initramfs next to the test file and starts the
    shell's program. *)
Lemma stage_shell_spec L mbi es fl c r0 y :
  layout_ok L -> boot_ok L mbi es fl r0 ->
  let base := heap_base L (multiboot_info r0 mbi) r0 in
  (lit "shell.bin", c) ∈ boot_files fl -> c <> [] ->
  (forall x, 0 <= x < base -> x < l_kernel_start L \/ l_kernel_end L <= x -> ld8 (m_ram (sys_mach y)) x = ld8 r0 x) ->
  heap_inv (sys_heap y) (m_ram (sys_mach y)) idle_blocks -> heap_start_addr (sys_heap y) = base -> heap_end_addr (sys_heap y) = base + 0x200000 ->
  ring (m_ram (sys_mach y)) [base + 16] -> run_queue (sys_sched y) = base + 16 -> sys_next_pid y = 2 ->
  sys_vfs y = vfs_mount ramfs_ops -> holds [(hello_txt, msg)] (sys_fs y) ->
  exists fs s h m', stage_shell L mbi y =
      Some (true, System (sys_gdt y) (sys_idt y) (sys_handlers y) (sys_pmm y) h 3 s (sys_kbd y) (sys_vfs y) fs m') /\
    holds (boot_files fl) fs /\ heap_inv h (m_ram m') shell_blocks /\ heap_start_addr h = base /\
    bytes (m_ram m') USER_LOAD_ADDR (alen c) = c /\
    p_pid (base + 8656) (m_ram m') = 2 /\ std_fds (base + 8656) (m_ram m') /\
    thread_ready (m_ram m') (base + 8656) (l_kernel_dir L) (l_kthread_entry L) (l_trampoline L) (base + 9088 + KERNEL_STACK_SIZE) /\
    ring (m_ram m') [base + 16; base + 8656] /\ run_queue s = base + 16 /\ current s = current (sys_sched y) /\ (clock s = clock (sys_sched y) /\ tss s = tss (sys_sched y)) /\
    (forall o, 0 <= o <= 24 -> ld32 (m_ram m') (base + 16 + o) = ld32 (m_ram (sys_mach y)) (base + 16 + o)) /\
    (forall x, base + 48 <= x < base + 16 + PROCESS_SIZE -> ld8 (m_ram m') x = ld8 (m_ram (sys_mach y)) x) /\
    changes (fun x => base <= x < base + 0x200000 \/ USER_LOAD_ADDR <= x < USER_LOAD_ADDR + alen c) (sys_mach y) m'.
Proof.
  intros HL HB base Hsh Hc Hr Hinv Hst Hen Hring Hrq Hnp Hvfs Hfs.
  destruct (boot_info_kept _ _ _ _ _ (m_ram (sys_mach y)) HL HB Hr) as (Hi & _ & Hmd & Him).
  destruct (bo_mods HB) as [Hm _]. destruct (bo_room HB) as [_ Hro]. fold base in Hro. destruct (lo_entries HL) as (He1 & _ & He3).
  destruct (lo_tables HL (l_kernel_dir L) ltac:(mem)) as [[Hd _] _].
  unfold stage_shell. rewrite Hi, Hm, Hmd. set (info := multiboot_info r0 mbi) in *. set (md := mboot_mod r0 (mods_addr info)) in *.
  set (m1 := klog _ _ (sys_mach y)). assert (Hr1 : m_ram m1 = m_ram (sys_mach y)) by apply m_ram_klog.
  destruct (initramfs_load_adds (mod_start md) (u32 (mod_end md - mod_start md)) [(hello_txt, msg)] fl (sys_fs y) m1 Hfs) as [Hh Hr2];
    [change (alen [(hello_txt, msg)]) with 1; lia | by rewrite Hr1 |]. change (add_files [(hello_txt, msg)] fl) with (boot_files fl) in Hh.
  pose proof (initramfs_load_screen (mod_start md) (u32 (mod_end md - mod_start md)) (sys_fs y) m1) as Hv2.
  destruct (initramfs_load _ _ (sys_fs y) m1) as [fs m2]. cbn [fst snd app] in *. rewrite Hr1 in Hr2.
  assert (Hprog : program ramfs_ops (lit "shell.bin") fs = c) by (eapply program_holds; [exact Hh | apply boot_files_unique | exact Hsh]).
  destruct (exec_succeeds ramfs_ops (l_kernel_dir L) (l_kthread_entry L) (l_trampoline L) 2 (lit "shell.bin") fs (sys_sched y) (sys_heap y) m2
    idle_blocks shell_blocks [base + 16] (base + 8656) (base + 9088)) as (s & h & m3 & Hex & Hinv3 & Hst3 & Hpid & Hby & Hready & Hstd & Hring3 & Hrq3 & Hcur & Hw & Hfd & Hfr);
    rewrite ?Hst, ?Hr2, ?Hprog; try done.
  { apply (proj1 Hh). }
  { rewrite Hen. exact Hro. }
  { intros q [<-|[]]. exists 416. split; [by left | done]. }
  { apply shell_fits. }
  rewrite Hprog in *. pose proof (exec_screen _ _ _ _ _ _ _ _ _ _ _ _ _ _ _ Hex) as Hv3. pose proof (exec_keeps_clock _ _ _ _ _ _ _ _ _ _ _ _ _ _ _ Hex) as Hclk.
  rewrite Hvfs, Hnp. unfold vfs_mount. rewrite Hex. cbn [mbind option_bind]. change (u32 (2 + 1)) with 3.
  do 4 eexists. split; [reflexivity |]. rewrite m_ram_klog. rewrite Hr2 in *.
  split; [exact Hh |]. split; [exact Hinv3 |]. split; [by rewrite Hst3 |]. split; [exact Hby |]. split; [exact Hpid |]. split; [exact Hstd |].
  split; [exact Hready |]. split; [exact Hring3 |]. split; [exact Hrq3 |]. split; [exact Hcur |]. split; [exact Hclk |].
  split; [intros o Ho; apply Hw; [by left | done] |].
  split; [intros x Hx; apply (Hfd (base + 16)); [by left | lia] |].
  eapply changes_after; [| apply quiet_log]. split.
  - intros H. by apply Hv3, Hv2, vga_wf_klog.
  - intros x Hx. apply Hfr; [unfold outside; rewrite Hst, Hen |]; lia.
Qed.

(** ** The whole boot *)

(** The state handed to the shell, with the heap at [base], the files [fl] in
    the initramfs (those the loader keeps: [boot_files]) and the shell's program
    [c]. *)
Record booted (L : layout) (base : Z) (fl : list (list Z * list Z)) (c : list Z) (y : system) : Prop := Booted {
  bt_segments : boot_segments (sys_gdt y);
  bt_tss : boot_tss L (tss (sys_sched y));
  bt_gates v : 0 <= v < 256 -> aget idt_zero (sys_idt y) v = boot_gate L v;
  bt_handlers : sys_handlers y = l_timer_irq L :: l_keyboard_irq L :: replicate 14 0;
  bt_frames : pmm_inv (sys_pmm y);
  bt_tables : mapped L (m_ram (sys_mach y));
  bt_paging : identity L (m_ram (sys_mach y));
  bt_heap : heap_inv (sys_heap y) (m_ram (sys_mach y)) shell_blocks /\ heap_start_addr (sys_heap y) = base;
  bt_clock : clock (sys_sched y) = Timer 0 PIT_HZ_DEFAULT;
  bt_queue : ring (m_ram (sys_mach y)) [base + 16; base + 8656] /\
    run_queue (sys_sched y) = base + 16 /\ current (sys_sched y) = base + 16 /\ sys_next_pid y = 3;
  bt_idle : p_pid (base + 16) (m_ram (sys_mach y)) = 0 /\ p_state (base + 16) (m_ram (sys_mach y)) = PROC_RUNNING /\
    std_fds (base + 16) (m_ram (sys_mach y));
  bt_shell : p_pid (base + 8656) (m_ram (sys_mach y)) = 2 /\ std_fds (base + 8656) (m_ram (sys_mach y)) /\
    thread_ready (m_ram (sys_mach y)) (base + 8656) (l_kernel_dir L) (l_kthread_entry L) (l_trampoline L) (base + 9088 + KERNEL_STACK_SIZE);
  bt_files : sys_vfs y = vfs_mount ramfs_ops /\ holds (boot_files fl) (sys_fs y);
  bt_keyboard : sys_kbd y = kbd0;
  bt_program : bytes (m_ram (sys_mach y)) USER_LOAD_ADDR (alen c) = c;
  bt_screen : vga_wf (sys_mach y);
}.
Arguments bt_segments {_ _ _ _ _} _.
Arguments bt_tss {_ _ _ _ _} _.
Arguments bt_handlers {_ _ _ _ _} _.
Arguments bt_heap {_ _ _ _ _} _.
Arguments bt_clock {_ _ _ _ _} _.
Arguments bt_queue {_ _ _ _ _} _.
Arguments bt_idle {_ _ _ _ _} _.
Arguments bt_files {_ _ _ _ _} _.
Arguments bt_keyboard {_ _ _ _ _} _.
Arguments bt_program {_ _ _ _ _} _.
Arguments bt_screen {_ _ _ _ _} _.

Lemma bind_Some_eq {A B} (f : A -> option B) a : mbind f (Some a) = f a.
Proof. done. Qed.

(** The stages in sequence. *)
Lemma kmain_stages L mbi cr0 m gdt tss idt hs m2 pm h3 m3 hs4 np s h4 m4 v fs m6 kb hs7 m7 z :
  stage_tables L (replicate 6 gdt_zero) ∅ (replicate 256 idt_zero) (replicate 16 0)
    (debug_print (lit "[serial] Multiboot OK" ++ nl)
      (klog (lit "Multiboot magic OK (0x%x)" ++ nl) [AInt MULTIBOOT_BOOTLOADER_MAGIC] (banner m))) = (gdt, tss, idt, hs, m2) ->
  stage_memory L cr0 mbi m2 = Some (pm, h3, m3) -> stage_threads L hs tss h3 m3 = Some (Ret (hs4, np, s, h4, m4)) ->
  stage_files L (syscall_init m4) = Some (v, fs, m6) -> stage_keyboard L hs4 s m6 = (kb, hs7, m7) ->
  stage_shell L mbi (System gdt idt hs7 pm h4 np s kb v fs m7) = Some z ->
  kmain L MULTIBOOT_BOOTLOADER_MAGIC mbi cr0 m = Some (Ret z).
Proof.
  intros E1 E2 E3 E4 E5 E6. unfold kmain. rewrite Z.eqb_refl. cbn [negb]. cbv zeta.
  rewrite E1, E2, bind_Some_eq, E3, bind_Some_eq, E4, bind_Some_eq, E5, E6, bind_Some_eq. reflexivity.
Qed.

Lemma kmain_spec L mbi cr0 es fl c m :
  layout_ok L -> boot_ok L mbi es fl (m_ram m) -> length (vga_mem m) = 2000%nat ->
  let base := heap_base L (multiboot_info (m_ram m) mbi) (m_ram m) in
  (lit "shell.bin", c) ∈ boot_files fl -> c <> [] ->
  exists y, kmain L MULTIBOOT_BOOTLOADER_MAGIC mbi cr0 m = Some (Ret (true, y)) /\ booted L base fl c y /\
    forall x, 0 <= x -> x < l_kernel_start L \/ l_kernel_end L <= x < base \/ base + 0x200000 <= x < USER_LOAD_ADDR \/ USER_LOAD_ADDR + alen c <= x ->
      ld8 (m_ram (sys_mach y)) x = ld8 (m_ram m) x.
Proof.
  intros HL HB Hvga base Hsh Hc.
  destruct (banner_spec m Hvga) as [Hv1 Hr1].
  set (m1 := debug_print (lit "[serial] Multiboot OK" ++ nl) (klog (lit "Multiboot magic OK (0x%x)" ++ nl) [AInt MULTIBOOT_BOOTLOADER_MAGIC] (banner m))). assert (Hvm1 : vga_wf m1) by (by apply vga_wf_debug_print, vga_wf_klog).
  destruct (stage_tables_spec L m1) as (gdt & ts & idt & m2 & E2 & Hseg & Htss & Hg & Hr2 & Hv2).
  assert (Hr : m_ram m2 = m_ram m) by (rewrite Hr2; unfold m1; by rewrite m_ram_debug_print, m_ram_klog).
  assert (HB2 : boot_ok L mbi es fl (m_ram m2)) by (rewrite Hr; exact HB).
  destruct (stage_memory_spec L cr0 mbi es fl m2 HL HB2) as (pm & h3 & m3 & E3 & Hpm & Hinv3 & Hst3 & Hen3 & Hmap3 & Hv3 & Hf3).
  rewrite Hr in Hst3, Hen3, Hf3. fold base in Hst3, Hen3, Hf3.
  destruct (stage_threads_spec L (replicate 16 0) ts h3 m3 base HL Hinv3 Hst3 Hen3)
    as (h4 & m4 & E4 & Hinv4 & Hst4 & Hen4 & Hring4 & Hpid4 & Hrun4 & Hv4 & Hf4).
  set (m5 := syscall_init m4). assert (H5 : quiet m4 m5) by (etransitivity; [apply quiet_log | apply quiet_debug]). destruct H5 as [Hr5 Hv5].
  destruct (base_spec _ _ _ _ _ HL HB) as (_ & Hkb & Hb0 & _). fold base in Hkb, Hb0. destruct (lo_image HL) as [Hk0 _].
  assert (Hmsg : bytes (m_ram m5) (l_msg L) (alen msg) = msg).
  { rewrite <- (bo_msg HB) at 2. symmetry. apply bytes_same_on. intros x Hx. rewrite Hr5. destruct (lo_msg HL) as [I1 I2].
    assert (Hnt : ~ in_tables L x).
    { intros (p & Hp & Hpx). destruct (lo_tables HL p Hp) as (_ & _ & _ & Hs). unfold sep in Hs. cbn [fst snd] in Hs. lia. }
    assert (x < base) by lia. rewrite Hf4 by lia. rewrite Hf3; [reflexivity |]. intros [Ht|?]; [exact (Hnt Ht) | lia]. }
  rewrite <- Hr5 in Hinv4, Hring4, Hpid4, Hrun4.
  destruct (stage_user_spec L (irq_register IRQ_TIMER (l_timer_irq L) (replicate 16 0)) (Sched (base + 16) (base + 16) (Timer 0 PIT_HZ_DEFAULT) ts)
    h4 m5 base HL Hkb Hinv4 Hst4 Hmsg Hring4 eq_refl) as (fs6 & m6 & m7 & E6 & Hh6 & E7 & Hinv7 & Hring7 & Hstd7 & Hw7 & Hv7 & Hf7).
  set (y := System gdt idt (irq_register IRQ_KEYBOARD (l_keyboard_irq L) (irq_register IRQ_TIMER (l_timer_irq L) (replicate 16 0))) pm h4 2
    (Sched (base + 16) (base + 16) (Timer 0 PIT_HZ_DEFAULT) ts) kbd0 (vfs_mount ramfs_ops) fs6 m7).
  assert (Hf : forall x, ~ in_tables L x -> ~ (l_buf L <= x < l_buf L + 128) -> ~ (base <= x < base + 0x200000) -> ld8 (m_ram m7) x = ld8 (m_ram m) x).
  { intros x T1 T2 T3. rewrite Hf7, Hr5, Hf4 by (unfold PROCESS_SIZE; lia). apply Hf3. intros [Ht|?]; [exact (T1 Ht) | lia]. }
  assert (Hout : forall x, x < l_kernel_start L \/ l_kernel_end L <= x -> ~ in_tables L x /\ ~ (l_buf L <= x < l_buf L + 128)).
  { intros x Hx. destruct (lo_buf HL) as [I1 I2]. split; [| lia]. intros (p & Hp & Hpx). destruct (lo_tables HL p Hp) as (_ & [I3 I4] & _). lia. }
  assert (Hy : forall x, 0 <= x < base -> x < l_kernel_start L \/ l_kernel_end L <= x -> ld8 (m_ram m7) x = ld8 (m_ram m) x).
  { intros x Hx Ho. destruct (Hout x Ho) as [T1 T2]. apply Hf; [exact T1 | exact T2 | lia]. }
  destruct (stage_shell_spec L mbi es fl c (m_ram m) y HL HB Hsh Hc Hy Hinv7 Hst4 Hen4 Hring7 eq_refl eq_refl eq_refl Hh6)
    as (fs8 & s8 & h8 & m8 & E8 & Hh8 & Hinv8 & Hst8 & Hby & Hpid8 & Hstd8 & Hready & Hring8 & Hrq8 & Hcur8 & Hck8 & Hw8 & Hfd8 & Hv8 & Hf8).
  pose proof (kmain_stages _ _ _ _ _ _ _ _ _ _ _ _ _ _ _ _ _ _ _ _ _ _ _ _ E2 E3 E4 E6 E7 E8) as E. clear E2 E3 E4 E6 E7 E8. fold base in Hinv8, Hst8, Hpid8, Hstd8, Hready, Hring8, Hrq8, Hw8, Hfd8, Hf8. unfold y in *. clear y. cbn [sys_mach sys_sched sys_gdt sys_idt sys_handlers sys_pmm sys_kbd sys_vfs current mbind option_bind] in *.
  destruct (bo_room HB) as [_ Hro]. fold base in Hro.
  assert (Hmap8 : mapped L (m_ram m8)).
  { eapply mapped_kept; [exact Hmap3 |]. intros x (p & Hp & Hpx). destruct (lo_tables HL p Hp) as (_ & [I1 I2] & Hs & _). unfold sep, USER_LOAD_ADDR in *. cbn [fst snd] in Hs.
    rewrite Hf8, Hf7, Hr5, Hf4 by (unfold PROCESS_SIZE; lia). reflexivity. }
  eexists. split; [exact E |]. split.
  - split; cbn [sys_mach sys_heap sys_sched sys_gdt sys_idt sys_handlers sys_pmm sys_kbd sys_vfs sys_fs sys_next_pid].
    + exact Hseg.
    + rewrite (proj2 Hck8). exact Htss.
    + exact Hg.
    + reflexivity.
    + exact Hpm.
    + exact Hmap8.
    + apply mapped_identity; [exact HL | exact Hmap8].
    + split; [exact Hinv8 | exact Hst8].
    + exact (proj1 Hck8).
    + split; [exact Hring8 |]. split; [exact Hrq8 |]. split; [exact Hcur8 | reflexivity].
    + unfold p_pid, p_state in *. split; [| split].
      * rewrite <- (Z.add_0_r (base + 16)), Hw8, Hw7, Z.add_0_r by lia. exact Hpid4.
      * rewrite Hw8, Hw7 by lia. exact Hrun4.
      * eapply std_fds_same; [| exact Hstd7]. intros x Hx. apply Hfd8. lia.
    + split; [exact Hpid8 |]. split; [exact Hstd8 | exact Hready].
    + split; [reflexivity | exact Hh8].
    + reflexivity.
    + exact Hby.
    + exact (Hv8 (Hv7 (Hv5 (Hv4 (Hv3 (Hv2 Hvm1)))))).
  - intros x Hx0 Hx. cbn [sys_mach]. pose proof (alen_nonneg c). destruct (lo_buf HL) as [I1 I2]. rewrite Hf8 by lia. destruct (Hout x ltac:(lia)) as [T1 T2].
    apply Hf; [exact T1 | exact T2 | lia].
Qed.

(** ** The shell's environment *)

(** The keyboard types no NUL and only bytes. *)
Lemma typed_ok sh scs : Forall (fun c => 0 < c < 256) (typed sh scs).
Proof.
  assert (Htab : forall l i, forallb (fun c => (0 <=? c) && (c <? 256)) l = true -> 0 <= aget 0 l i < 256).
  { intros l i Hl. unfold aget. destruct (l !! Z.to_nat i) as [c|] eqn:E; cbn [default from_option id]; [| lia].
    rewrite forallb_forall in Hl. specialize (Hl c ltac:(by eapply list_elem_of_In, list_elem_of_lookup_2)). lia. }
  revert sh. induction scs as [|sc scs IH]; intros sh; cbn [typed]; [constructor |].
  unfold key. destruct ((sc =? 0x2A) || (sc =? 0x36)); [apply IH |]. destruct ((sc =? 0xAA) || (sc =? 0xB6)); [apply IH |].
  destruct (128 <=? sc); [apply IH |]. set (l := if sh then _ else _). pose proof (Htab l sc ltac:(by destruct sh)) as Hc.
  destruct (Z.eqb_spec (aget 0 l sc) 0); cbn [option_list app]; [apply IH | constructor; [lia | apply IH]].
Qed.

(** Names read from RAM. *)
Lemma cstr_at_bytes n r a : Forall (fun c => 0 < c < 256) (cstr_at n r a).
Proof.
  revert a. induction n as [|n IH]; intros a; cbn [cstr_at]; [constructor |].
  destruct (Z.eqb_spec (ld8 r a) 0); [constructor |]. constructor; [pose proof (ld8_range r a); lia | apply IH].
Qed.

Lemma image_names r start fl : image_at r start fl -> names_ok fl.
Proof.
  intros (_ & _ & _ & _ & He). apply Forall_lookup. intros i [n c] Hi. destruct (He i _ Hi) as [E _]. cbn [fst] in *.
  rewrite <- E. apply cstr_at_bytes.
Qed.

(** Each literal of the shell is part of its program, loaded at
    [USER_LOAD_ADDR]. *)
Definition linked (c : list Z) (rodata : list Z -> Z) : Prop :=
  forall t, t ∈ literals -> exists o, 0 <= o /\ rodata t = USER_LOAD_ADDR + o /\ slice c o (alen t + 1) = t ++ [0].

Lemma literals_text t : t ∈ literals -> Forall (fun c => c <> 0) t.
Proof.
  intros Ht. assert (H : forallb (forallb (fun c => negb (c =? 0))) literals = true) by (vm_compute; reflexivity).
  rewrite forallb_forall in H. specialize (H t ltac:(by apply list_elem_of_In)). apply Forall_forall. intros c Hc.
  rewrite forallb_forall in H. specialize (H c ltac:(by apply list_elem_of_In)). lia.
Qed.

Lemma linked_lits c rodata r :
  linked c rodata -> bytes r USER_LOAD_ADDR (alen c) = c -> USER_LOAD_ADDR + alen c <= W32 -> lits_ok rodata r.
Proof.
  intros Hl Hb Hw t Ht. destruct (Hl t Ht) as (o & Ho & Hr & Hs). rewrite Hr. pose proof (alen_nonneg t) as Hn.
  assert (Hlen : o + alen t + 1 <= alen c).
  { pose proof (f_equal length Hs) as E. unfold slice, alen in *. rewrite length_take, length_drop, length_app in E. cbn [length] in E. lia. }
  split; [unfold USER_LOAD_ADDR; lia |]. split; [lia |]. split; [by apply literals_text |].
  intros i x Hi. rewrite <- Hs in Hi. unfold slice in Hi. apply lookup_take_Some in Hi as [Hi _]. rewrite lookup_drop in Hi.
  pose proof (lookup_lt_Some _ _ _ Hi) as Hlt.
  assert (E : aget 0 c (o + Z.of_nat i) = x) by (unfold aget; replace (Z.to_nat (o + Z.of_nat i)) with (Z.to_nat o + i)%nat by lia; by rewrite Hi).
  rewrite <- E, <- Hb, bytes_lookup by (unfold alen; lia). f_equal. lia.
Qed.

(** The kernel's state when control enters the shell, with the interrupts to come. *)
Definition user_state (irqs : list wake) (y : system) : kstate ramfs :=
  K (sys_sched y) (sys_kbd y) (sys_vfs y) (sys_fs y) (sys_pmm y) irqs (sys_mach y).

Lemma booted_env L base fl c y U rodata irqs :
  booted L base fl c y -> 0 < base -> base + 0x200000 <= USER_LOAD_ADDR -> alen c <= LOAD_MAX ->
  names_ok fl -> linked c rodata -> (forall l, l ∈ locals U -> sep l (base, 0x200000)) -> Forall wake_ok irqs ->
  env U rodata ramfs_ops [base + 8656] (user_state irqs y).
Proof.
  intros HY Hb0 Hro Hlen Hn Hl Hoff Hw. destruct (bt_queue HY) as (Hring & _ & Hcur & _). destruct (bt_files HY) as [Hv Hh].
  assert (Hin : forall q, In q [base + 16; base + 8656] -> base <= q /\ q + PROCESS_SIZE <= base + 0x200000)
    by (unfold PROCESS_SIZE; intros q [<-|[<-|[]]]; lia).
  assert (Hsep : forall q l, In q [base + 16; base + 8656] -> l ∈ locals U -> sep l (q, PROCESS_SIZE)).
  { intros q l Hq Hl'. specialize (Hin q Hq). specialize (Hoff l Hl'). unfold sep in *. cbn [fst snd] in *. lia. }
  unfold LOAD_MAX, USER_LOAD_ADDR in *.
  split; unfold cur_proc, scheduler_current, user_state, stdin; cbn [k_sched k_kbd k_vfs k_fs k_pmm k_irqs k_mach]; rewrite ?Hcur.
  - split; [exact (bt_screen HY) |]. apply (linked_lits c); [done | exact (bt_program HY) | unfold USER_LOAD_ADDR; lia].
  - unfold input_ok, stdin. cbn [k_kbd k_irqs]. rewrite (bt_keyboard HY).
    split; [exact (proj1 kbd0_inv) |]. split; [exact Hw |]. unfold pending. rewrite (proj2 kbd0_inv). apply typed_ok.
  - unfold proc_ok, cur_proc, scheduler_current. cbn [k_sched k_vfs k_fs]. rewrite Hcur.
    split; [unfold is_proc, PROCESS_SIZE; lia |]. split; [exact Hv |]. split; [exact (proj1 Hh) |].
    split; [intros l Hl'; apply Hsep; [by left | done] |]. intros t Ht. destruct (Hl t Ht) as (o & Ho & -> & _).
    unfold sep, PROCESS_SIZE, USER_LOAD_ADDR. cbn [fst snd]. lia.
  - exact Hring.
  - exact Hsep.
  - change (names_ok (ramfs_list (sys_fs y))). rewrite (holds_list _ _ Hh) by apply boot_files_few.
    apply Forall_forall. intros nc [->%list_elem_of_singleton|H]%add_files_in; [cbn; repeat constructor; lia |].
    unfold names_ok in Hn. rewrite Forall_forall in Hn. by apply Hn.
  - unfold now. cbn [k_sched]. rewrite (bt_clock HY). done.
Qed.

(** The same state after [d] timer interrupts, those taken during boot. *)
Definition after_ticks {F} (d : nat) (k : kstate F) : kstate F :=
  K (set_clock (Nat.iter d timer_tick (now k)) (k_sched k)) (k_kbd k) (k_vfs k) (k_fs k) (k_pmm k) (k_irqs k) (k_mach k).

Lemma env_after_ticks {F} (ops : fs_ops F) `{!FileSystem ops} U rodata rest d (k : kstate F) :
  env U rodata ops rest k -> env U rodata ops rest (after_ticks d k).
Proof.
  intros [H1 H2 H3 H4 H5 H6 H7]. split; [exact H1 | exact H2 | exact H3 | exact H4 | exact H5 | exact H6 |].
  pose proof (waited_rate [(d, 0)] (now k)) as E. cbn [waited fold_left fst] in E. unfold now at 1, after_ticks. cbn [k_sched set_clock clock]. by rewrite E.
Qed.

Lemma image_size r start fl n c : image_at r start fl -> (n, c) ∈ fl -> alen c <= LOAD_MAX.
Proof. intros (_ & _ & _ & _ & He) Hin. apply list_elem_of_lookup in Hin as [i Hi]. apply (He i _ Hi). Qed.

(** ** A machine to boot *)

(** A program that holds the shell's literals, 128 bytes apart, and a machine
    whose initramfs is the one the Makefile packs: a [hello.txt] of its own, and
    the program. *)
Definition demo_program : list Z := concat ((fun t => t ++ replicate (128 - length t) 0) <$> literals).
Definition demo_text_at (t : list Z) : Z := USER_LOAD_ADDR + 128 * Z.of_nat (from_option fst O (list_find (fun u => u = t) literals)).

Definition packed_hello : list Z :=
  lit "Welcome to AnubhavOS!" ++ nl ++ lit "This is a hobby operating system built from scratch." ++ nl ++
  lit "Type 'help' for a list of commands." ++ nl.

Definition demo_initrd : list Z := Eval vm_compute in
  default [] (snd (mkramfs_main 3 (Some [HostEntry hello_txt true (alen packed_hello) true true packed_hello;
    HostEntry (lit "shell.bin") true (alen demo_program) true true demo_program]) true)).

Definition demo_boot : mach :=
  set_ram (fun r =>
    let r := st32 (m_ram boot_mach) 0xA004 (0x181000 + alen demo_initrd) in
    fill8 r 0x181000 (alen demo_initrd) (fun i => aget 0 demo_initrd i)) boot_mach.

Definition demo_files : list (list Z * list Z) := [(hello_txt, packed_hello); (lit "shell.bin", demo_program)].
Definition demo_mmap : list multiboot_mmap_entry_t := [MmapEntry 20 0x100000 0 0x700000 0 1].

Lemma demo_layout_ok : layout_ok demo_layout.
Proof.
  split; unfold in_image, demo_layout; cbn; try (unfold is_u32; lia).
  - intros p Hp. apply list_elem_of_In in Hp. cbn in Hp. unfold is_page, sep, alen. cbn.
    repeat (destruct Hp as [<-|Hp]; [lia |]). done.
  - unfold alen. cbn. lia.
Qed.

Lemma demo_info_eq : multiboot_info (m_ram demo_boot) 0x9000 = MultibootInfo 72 0 1 0xA000 24 0xB000.
Proof. vm_compute. reflexivity. Qed.

Lemma demo_end : safe_end demo_layout (MultibootInfo 72 0 1 0xA000 24 0xB000) (m_ram demo_boot) = 0x181000 + alen demo_initrd.
Proof. vm_compute. reflexivity. Qed.

Lemma demo_base : heap_base demo_layout (MultibootInfo 72 0 1 0xA000 24 0xB000) (m_ram demo_boot) = 0x183000.
Proof. vm_compute. reflexivity. Qed.

Lemma demo_module : mboot_mod (m_ram demo_boot) 0xA000 = MbootMod 0x181000 (0x181000 + alen demo_initrd).
Proof. vm_compute. reflexivity. Qed.

Lemma lookup_two {A} (e1 e2 x : A) k : [e1; e2] !! k = Some x -> (k = O /\ x = e1) \/ (k = 1%nat /\ x = e2).
Proof. destruct k as [|[|k]]; [intros [= <-]; by left | intros [= <-]; by right | done]. Qed.

Lemma demo_image_within : image_within (m_ram demo_boot) 0x181000 (0x181000 + alen demo_initrd) demo_files.
Proof.
  split; [| split].
  - split; [lia |]. split; [vm_compute; congruence |]. split; [vm_compute; reflexivity |]. split; [vm_compute; reflexivity |].
    intros k nc [[-> ->]|[-> ->]]%lookup_two; (split; [vm_compute; reflexivity |]; split; [vm_compute; reflexivity |];
    split; [vm_compute; reflexivity |]; split; [vm_compute; congruence |]; split; [vm_compute; congruence | vm_compute; reflexivity]).
  - vm_compute. congruence.
  - intros k nc [[-> ->]|[-> ->]]%lookup_two; vm_compute; congruence.
Qed.

Lemma demo_boot_ok : boot_ok demo_layout 0x9000 demo_mmap demo_files (m_ram demo_boot).
Proof.
  split; rewrite ?demo_info_eq; cbn [mods_addr mods_count flags mmap_addr mmap_length]; rewrite ?demo_base, ?demo_end, ?demo_module; cbn [mod_start mod_end].
  - unfold clear_of. cbn. lia.
  - split; [reflexivity |]. vm_compute. repeat split; congruence.
  - split; [reflexivity |]. unfold clear_of, MOD_SIZE. cbn. lia.
  - split; [cbn; lia | exact demo_image_within].
  - vm_compute. reflexivity.
  - split; [vm_compute; reflexivity | unfold USER_LOAD_ADDR; lia].
Qed.

(** The shell's variables on the boot stack. *)
Definition demo_stack : uframe :=
  UFrame 0x170000 0x170010 0x170100 0x170200 0x170400 0x171000 0x171100 0x171200.

Lemma demo_linked : linked demo_program demo_text_at.
Proof.
  intros t Ht. exists (128 * Z.of_nat (from_option fst O (list_find (fun u => u = t) literals))). split; [lia |]. split; [reflexivity |].
  assert (H : forallb (fun t => bool_decide (slice demo_program (128 * Z.of_nat (from_option fst O (list_find (fun u => u = t) literals))) (alen t + 1) = t ++ [0])) literals = true)
    by (vm_compute; reflexivity).
  rewrite forallb_forall in H. apply list_elem_of_In in Ht. exact (bool_decide_eq_true_1 _ (H t Ht)).
Qed.

Lemma demo_stack_range l : l ∈ locals demo_stack -> 0x170000 <= l.1 /\ l.1 + l.2 <= 0x172000.
Proof.
  intros Hl. apply list_elem_of_In in Hl. cbn in Hl. repeat (destruct Hl as [<-|Hl]; [cbn; unfold CMD_BUF_SIZE; lia |]). done.
Qed.

Lemma demo_stack_ok : frame_ok demo_stack demo_text_at.
Proof.
  split; [| split; [| split]].
  - apply Forall_forall. intros l Hl. apply demo_stack_range in Hl. lia.
  - intros l t Hl Ht. apply demo_stack_range in Hl. unfold sep, demo_text_at, USER_LOAD_ADDR. cbn [fst snd]. lia.
  - intros l Hl. apply list_elem_of_In in Hl. cbn in Hl. unfold sep. repeat (destruct Hl as [<-|Hl]; [cbn; unfold CMD_BUF_SIZE; lia |]). done.
  - intros l Hl. apply list_elem_of_In in Hl. cbn in Hl. unfold sep. repeat (destruct Hl as [<-|Hl]; [cbn; (by left) || (right; lia) |]). done.
Qed.

(** The packed [hello.txt] is dropped. *)
Lemma demo_boot_files : boot_files demo_files = [(hello_txt, msg); (lit "shell.bin", demo_program)].
Proof. vm_compute. reflexivity. Qed.

Lemma demo_shell_in : (lit "shell.bin", demo_program) ∈ boot_files demo_files.
Proof. rewrite demo_boot_files. apply list_elem_of_further, list_elem_of_here. Qed.

Lemma demo_program_some : demo_program <> [].
Proof. intros H. apply (f_equal length) in H. vm_compute in H. discriminate H. Qed.

(** ** Properties *)

(** C11. Booting works: on every machine a boot loader leaves with the kernel's
    layout respected, a memory map, and a first module that is an initramfs
    [fl], [kmain] loads it next to the test file [hello.txt] it has written
    before, dropping the entries whose name is taken (the [hello.txt] the
    Makefile packs, repeated names) or for which the table of 64 has no room;
    if a non-empty [shell.bin] is among the files kept, it returns control to
    the shell's program in the state [booted] describes: the flat segments, the
    TSS with the boot stack for ring 0, all 256 interrupt gates and the two
    interrupt handlers installed, the frame allocator consistent, the first
    8 MB mapped to themselves, the heap holding exactly two threads, the idle
    process current and first in the run queue with the READY shell thread
    after it, both with their standard descriptors, the clock at 100 Hz, the
    files kept in the table in order and no others, the program's bytes at
    0x600000 and a well-formed screen; and outside the kernel image, the heap
    and the loaded program no byte of RAM has changed. *)
Theorem kmain_launches_shell (L : layout) (mbi cr0 : Z) (es : list multiboot_mmap_entry_t) (fl : list (list Z * list Z))
    (c : list Z) (m : mach) :
  layout_ok L -> boot_ok L mbi es fl (m_ram m) -> length (vga_mem m) = 2000%nat ->
  let base := heap_base L (multiboot_info (m_ram m) mbi) (m_ram m) in
  (lit "shell.bin", c) ∈ boot_files fl -> c <> [] ->
  exists y, kmain L MULTIBOOT_BOOTLOADER_MAGIC mbi cr0 m = Some (Ret (true, y)) /\ booted L base fl c y /\
    forall x, 0 <= x -> x < l_kernel_start L \/ l_kernel_end L <= x < base \/ base + 0x200000 <= x < USER_LOAD_ADDR \/ USER_LOAD_ADDR + alen c <= x ->
      ld8 (m_ram (sys_mach y)) x = ld8 (m_ram m) x.
Proof. apply kmain_spec. Qed.

Lemma kmain_launches_shell_witness :
  exists y, kmain demo_layout MULTIBOOT_BOOTLOADER_MAGIC 0x9000 0x11 demo_boot = Some (Ret (true, y)) /\
    booted demo_layout 0x183000 demo_files demo_program y.
Proof.
  pose proof (kmain_launches_shell demo_layout 0x9000 0x11 demo_mmap demo_files demo_program demo_boot demo_layout_ok demo_boot_ok) as H.
  cbv zeta in H. rewrite demo_info_eq, demo_base in H. destruct H as (y & H1 & H2 & _).
  - reflexivity.
  - exact demo_shell_in.
  - exact demo_program_some.
  - exists y. split; [exact H1 | exact H2].
Defined.

(** C12. From power-on to the prompt: with the shell's literals in its program and
    its variables off the heap, [kmain] hands over a state whose files are those
    of the initramfs next to the kernel's own [hello.txt] (which hides a packed
    one), and in which the program at 0x600000, started at its first
    instruction however many timer interrupts [d] boot took, prints the banner
    and then, for any number of rounds whose lines are all answered, exactly the
    transcript the command language prescribes for the characters typed on the
    keyboard, those files and the clock, which the timer interrupts taken
    between the characters advance ([uptime] tells the seconds; the bare word
    [cat] is an unknown command), and is ready for more; and whatever is typed
    it never goes wrong: it waits for input or exits. *)
Theorem boot_serves_sessions (L : layout) (mbi cr0 : Z) (es : list multiboot_mmap_entry_t) (fl : list (list Z * list Z))
    (c : list Z) (m : mach) (U : uframe) (rodata : list Z -> Z) (d : nat) (irqs : list wake) :
  layout_ok L -> boot_ok L mbi es fl (m_ram m) -> length (vga_mem m) = 2000%nat ->
  let base := heap_base L (multiboot_info (m_ram m) mbi) (m_ram m) in
  (lit "shell.bin", c) ∈ boot_files fl -> c <> [] ->
  linked c rodata -> frame_ok U rodata -> (forall l, l ∈ locals U -> sep l (base, 0x200000)) -> Forall wake_ok irqs ->
  exists y, kmain L MULTIBOOT_BOOTLOADER_MAGIC mbi cr0 m = Some (Ret (true, y)) /\
    let k := after_ticks d (user_state irqs y) in
    stdin k = typed false (scancodes irqs) /\ awaited k = typing false 0 irqs /\
    now k = Nat.iter d timer_tick (Timer 0 PIT_HZ_DEFAULT) /\
    ramfs_list (k_fs k) = boot_files fl /\ (forall n, lookup_name (k_fs k) n = image_map (boot_files fl) !! cstr n) /\
    (forall n out t more, transcript (answer ramfs_ops [base + 8656] k) n (now k) (awaited k) = Some (out, t, more) ->
       exists k', (forall j, _entry U rodata (n + j) 65 k = (shell_loop U rodata j 65 ;; usys_exit 0) k') /\
         shows (concat logo ++ out) (k_mach k) (k_mach k') /\ awaited k' = more /\ now k' = t) /\
    (_entry U rodata (S (length (stdin k))) 65 k = Blocks \/
     exists k' sw, _entry U rodata (S (length (stdin k))) 65 k = Exits k' sw).
Proof.
  intros HL HB Hvga base Hsh Hc Hl HU Hoff Hw.
  destruct (kmain_spec L mbi cr0 es fl c m HL HB Hvga Hsh Hc) as (y & Hk & HY & _). fold base in HY.
  destruct (base_spec _ _ _ _ _ HL HB) as (_ & _ & Hb0 & _). fold base in Hb0. destruct (bo_room HB) as [_ Hro]. fold base in Hro.
  destruct (bo_image HB) as [_ [Him _]].
  pose proof (booted_env L base fl c y U rodata irqs HY Hb0 Hro (image_size _ _ _ _ _ Him (boot_files_shell _ _ Hsh)) (image_names _ _ _ Him) Hl Hoff Hw) as Henv0.
  exists y. split; [exact Hk |]. intros k. pose proof (env_after_ticks ramfs_ops U rodata _ d _ Henv0) as Henv. fold k in Henv.
  split; [| split; [| split; [| split; [| split; [| split]]]]].
  - unfold stdin, pending, k, user_state. cbn [k_kbd k_irqs after_ticks]. by rewrite (bt_keyboard HY), (proj2 kbd0_inv).
  - unfold awaited, arrivals, k, user_state. cbn [k_kbd k_irqs after_ticks]. by rewrite (bt_keyboard HY), (proj2 kbd0_inv).
  - unfold now, k, after_ticks, user_state. cbn [k_sched set_clock clock]. unfold now. cbn [k_sched]. by rewrite (bt_clock HY).
  - apply holds_list; [exact (proj2 (bt_files HY)) | apply boot_files_few].
  - destruct (bt_files HY) as [_ (_ & _ & _ & Hlk & _)]. exact Hlk.
  - intros n out t more Ht.
    destruct (entry_session U rodata HU ramfs_ops _ 65 n out t more k Henv ltac:(vm_compute; congruence) Ht) as (k' & E & (_ & Hs & _) & Hst & Hnow & _).
    exists k'. split; [exact E |]. split; [exact Hs |]. split; [exact Hst | exact Hnow].
  - exact (entry_stops U rodata HU ramfs_ops _ 65 k Henv ltac:(vm_compute; congruence)).
Qed.

(** ["uptime"], then, half a second later, ["uptime"] again. *)
Definition demo_two_uptimes : list wake := demo_uptime_keys ++ replicate 50 TimerIrq ++ demo_uptime_keys.

Lemma boot_serves_sessions_witness :
  exists y k', kmain demo_layout MULTIBOOT_BOOTLOADER_MAGIC 0x9000 0x11 demo_boot = Some (Ret (true, y)) /\
    ramfs_list (sys_fs y) = [(hello_txt, msg); (lit "shell.bin", demo_program)] /\
    _entry demo_stack demo_text_at 3 65 (after_ticks 470 (user_state demo_two_uptimes y)) = (shell_loop demo_stack demo_text_at 1 65 ;; usys_exit 0) k' /\
    shows (concat logo ++ lit "anubhav-os:/ $ uptime" ++ nl ++ lit "Uptime: 4 seconds" ++ nl ++
           lit "anubhav-os:/ $ uptime" ++ nl ++ lit "Uptime: 5 seconds" ++ nl) (sys_mach y) (k_mach k').
Proof.
  pose proof (boot_serves_sessions demo_layout 0x9000 0x11 demo_mmap demo_files demo_program demo_boot demo_stack demo_text_at 470 demo_two_uptimes
    demo_layout_ok demo_boot_ok) as H.
  cbv zeta in H. rewrite demo_info_eq, demo_base in H. destruct H as (y & H1 & _ & Haw & Hnow & Hfs & _ & H2 & _).
  - reflexivity.
  - exact demo_shell_in.
  - exact demo_program_some.
  - exact demo_linked.
  - exact demo_stack_ok.
  - intros l Hl. apply demo_stack_range in Hl. unfold sep. cbn [fst snd]. lia.
  - repeat constructor; lia.
  - rewrite demo_boot_files in Hfs.
    destruct (H2 2%nat (lit "anubhav-os:/ $ uptime" ++ nl ++ lit "Uptime: 4 seconds" ++ nl ++
      lit "anubhav-os:/ $ uptime" ++ nl ++ lit "Uptime: 5 seconds" ++ nl) (Timer 520 100) []) as (k' & E & Hs & _).
    + rewrite Haw, Hnow. generalize (after_ticks 470 (user_state demo_two_uptimes y)). intros k. vm_compute. reflexivity.
    + exists y, k'. split; [exact H1 |]. split; [exact Hfs |]. split; [exact (E 1%nat) | exact Hs].
Defined.
