(* ===== verification/Interrupt.v ===== *)
(** * Interrupt: from the processor's trap to the C handlers and back

    The stubs of kernel/arch/idt.asm, instruction by instruction, between the
    processor's interrupt delivery and [iret] (processor semantics) and the C
    handlers of Arch.v, Syscall.v, Keyboard.v and kernel.c.  [regs_at] reads the
    [registers_t] the stubs build on the stack. *)
From stdpp Require Import strings.
From S2P Require Import Prelude Memory Machine Vga Console Multiboot Pmm Heap Vmm Vfs Ramfs Arch Keyboard Timer Process Scheduler Syscall Exec Kmain Ulib.

(** ** The processor *)

Record xcpu := Xcpu {
  x_eax : Z; x_ecx : Z; x_edx : Z; x_ebx : Z; x_esp : Z; x_ebp : Z; x_esi : Z; x_edi : Z;
  x_eip : Z; x_cs : Z; x_eflags : Z; x_ss : Z;
  x_ds : Z; x_es : Z; x_fs : Z; x_gs : Z;
}.

Definition set_xesp (v : Z) (c : xcpu) : xcpu :=
  Xcpu (x_eax c) (x_ecx c) (x_edx c) (x_ebx c) v (x_ebp c) (x_esi c) (x_edi c)
       (x_eip c) (x_cs c) (x_eflags c) (x_ss c) (x_ds c) (x_es c) (x_fs c) (x_gs c).

Definition set_xeax (v : Z) (c : xcpu) : xcpu :=
  Xcpu v (x_ecx c) (x_edx c) (x_ebx c) (x_esp c) (x_ebp c) (x_esi c) (x_edi c)
       (x_eip c) (x_cs c) (x_eflags c) (x_ss c) (x_ds c) (x_es c) (x_fs c) (x_gs c).

Definition set_segs (ds es fs gs : Z) (c : xcpu) : xcpu :=
  Xcpu (x_eax c) (x_ecx c) (x_edx c) (x_ebx c) (x_esp c) (x_ebp c) (x_esi c) (x_edi c)
       (x_eip c) (x_cs c) (x_eflags c) (x_ss c) ds es fs gs.

(** CS, EIP, EFLAGS, SS and ESP, as control transfers load them. *)
Definition jump_to (cs eip eflags ss esp : Z) (c : xcpu) : xcpu :=
  Xcpu (x_eax c) (x_ecx c) (x_edx c) (x_ebx c) esp (x_ebp c) (x_esi c) (x_edi c)
       eip cs eflags ss (x_ds c) (x_es c) (x_fs c) (x_gs c).

(** Vectors for which the processor pushes an error code. *)
Definition pushes_error (v : Z) : bool :=
  (v =? 8) || ((10 <=? v) && (v <=? 14)) || (v =? 17) || (v =? 21).

(** Words pushed in this order. *)
Definition asm_pushes (ws : list Z) (st : Z * ram) : Z * ram := foldl (fun st w => asm_push w st) st ws.

(** Delivery of vector [v] through the IDT: from ring 3 the stack is the one the
    TSS gives for ring 0; SS and ESP (on a change of ring), EFLAGS, CS, EIP and
    the error code are pushed, and control goes to the gate's target with
    interrupts off.  [None]: no gate, or an [int] instruction ([soft]) in a ring
    the gate does not admit. *)
Definition deliver (idt : list idt_entry_t) (tss : ram) (soft : bool) (v err : Z) (c : xcpu) (r : ram) : option (xcpu * ram) :=
  let g := aget idt_zero idt v in
  let ring := x_cs c mod 4 in
  if gate_present g && negb (soft && (gate_dpl g <? ring)) then
    let '(ss, st) :=
      if ring =? 0 then (x_ss c, (x_esp c, r))
      else (u16 (ld32 tss tss_ss0), asm_pushes [x_ss c; x_esp c] (ld32 tss tss_esp0, r)) in
    let st := asm_pushes [x_eflags c; x_cs c; x_eip c] st in
    let '(sp, r) := if pushes_error v then asm_push err st else st in
    Some (jump_to (selector g) (gate_offset g) (Z.clearbit (x_eflags c) 9) ss sp c, r)
  else None.

(** A selector that ring 3 may not keep is replaced by the null selector. *)
Definition outer_seg (gdt : list gdt_entry_t) (sel : Z) : Z :=
  if seg_dpl (aget gdt_zero gdt (sel / 8)) <? 3 then 0 else sel.

(** [iret] in ring 0. *)
Definition iret (gdt : list gdt_entry_t) (st : xcpu * ram) : xcpu * ram :=
  let (c, r) := st in
  let sp := x_esp c in
  let eip := ld32 r sp in
  let cs := u16 (ld32 r (u32 (sp + 4))) in
  let fl := ld32 r (u32 (sp + 8)) in
  if cs mod 4 =? 0 then (jump_to cs eip fl (x_ss c) (u32 (sp + 12)) c, r)
  else
    (set_segs (outer_seg gdt (x_ds c)) (outer_seg gdt (x_es c)) (outer_seg gdt (x_fs c)) (outer_seg gdt (x_gs c))
       (jump_to cs eip fl (u16 (ld32 r (u32 (sp + 16)))) (ld32 r (u32 (sp + 12))) c), r).

(** ** Instructions *)

Definition push_imm (v : Z) (st : xcpu * ram) : xcpu * ram :=
  let '(sp, r) := asm_push v (x_esp (fst st), snd st) in (set_xesp sp (fst st), r).

Definition pusha (st : xcpu * ram) : xcpu * ram :=
  let (c, r) := st in
  let '(sp, r) := asm_pushes [x_eax c; x_ecx c; x_edx c; x_ebx c; x_esp c; x_ebp c; x_esi c; x_edi c] (x_esp c, r) in
  (set_xesp sp c, r).

Definition mov_ax (v : Z) (st : xcpu * ram) : xcpu * ram :=
  let c := fst st in (set_xeax (x_eax c - x_eax c mod 65536 + v) c, snd st).

(** [mov ds, ax] to [mov gs, ax]. *)
Definition mov_segs_ax (st : xcpu * ram) : xcpu * ram :=
  let c := fst st in let ax := u16 (x_eax c) in (set_segs ax ax ax ax c, snd st).

Definition push_esp (st : xcpu * ram) : xcpu * ram := push_imm (x_esp (fst st)) st.

Definition add_esp (n : Z) (st : xcpu * ram) : xcpu * ram :=
  (set_xesp (u32 (x_esp (fst st) + n)) (fst st), snd st).

(** The stored ESP is skipped. *)
Definition popa (st : xcpu * ram) : xcpu * ram :=
  let (c, r) := st in
  let w i := ld32 r (u32 (x_esp c + 4 * i)) in
  (Xcpu (w 7) (w 6) (w 5) (w 4) (u32 (x_esp c + 32)) (w 2) (w 1) (w 0)
        (x_eip c) (x_cs c) (x_eflags c) (x_ss c) (x_ds c) (x_es c) (x_fs c) (x_gs c), r).

Definition run (code : list (xcpu * ram -> xcpu * ram)) (st : xcpu * ram) : xcpu * ram := foldl (fun st i => i st) st code.

(** ** The stubs *)

(** The vectors of the [ISR_ERR] macro. *)
Definition isr_err (v : Z) : bool := existsb (Z.eqb v) [8; 10; 11; 12; 13; 14; 17; 21].

(** [isrN] and [irqN] up to the jump. *)
Definition stub (v : Z) : list (xcpu * ram -> xcpu * ram) :=
  if isr_err v then [push_imm v] else [push_imm 0; push_imm v].

(** The common stubs before the [call], which pushes [ret], and after it; they
    differ in the handler only. *)
Definition common_enter (ret : Z) : list (xcpu * ram -> xcpu * ram) :=
  [pusha; mov_ax 0x10; mov_segs_ax; push_esp; push_imm ret].

Definition common_leave (gdt : list gdt_entry_t) : list (xcpu * ram -> xcpu * ram) :=
  [add_esp 4; popa; add_esp 8; iret gdt].

(** [registers_t] at [p]. *)
Definition regs_at (r : ram) (p : Z) : registers_t :=
  let w i := ld32 r (p + 4 * i) in
  Regs (w 0) (w 1) (w 2) (w 3) (w 4) (w 5) (w 6) (w 7) (w 8) (w 9) (w 10) (w 11) (w 12) (w 13) (w 14).

(** ** The trap, whole *)


Section Trap.
Context {F : Type} (L : layout) (gdt : list gdt_entry_t) (idt : list idt_entry_t) (tss : ram) (hs : list Z).

(** The handlers [kmain] registers, by address; [scancode] is the byte at the
    keyboard's data port. *)
Definition call_irq (scancode f : Z) (st : mach * (sched * kbd)) : mach * (sched * kbd) :=
  let '(m, (s, kb)) := st in
  if f =? l_timer_irq L then (m, (set_clock (timer_irq_tick (clock s)) s, kb))
  else if f =? l_keyboard_irq L then (m, (s, keyboard_irq_handler scancode kb))
  else st.

(** [irq_handler] on the kernel's state. *)
Definition handle_irq (scancode int_no : Z) (k : kstate F) : kstate F :=
  let '(m, (s, kb)) := irq_handler (call_irq scancode) hs int_no (k_mach k, (k_sched k, k_kbd k)) in
  K s kb (k_vfs k) (k_fs k) (k_pmm k) (k_irqs k) m.

(** The address of a vector's stub, and the vector of the stub at an address. *)
Definition stub_addr (v : Z) : Z :=
  if v <? 32 then l_isr L v else if v <? 48 then l_irq L (v - 32) else l_isr L 128.
Definition vectors : list Z := (Z.of_nat <$> seq 0 48) ++ [128].
Definition stub_at (a : Z) : option Z := find (fun v => a =? stub_addr v) vectors.

(** Back from the handler to the interrupted code: the handler's [ret], then
    the rest of the stub. *)
Definition resume (c : xcpu) (k : kstate F) : kstate F * xcpu :=
  let (c, r) := run (add_esp 4 :: common_leave gdt) (c, k_ram k) in
  (upd_mach (set_ram (fun _ => r)) k, c).

(** Vector [v] raised in [k] with the processor in [c]: where it continues and
    the kernel's state there.  [ret] is the address after the stub's [call]. *)
Definition interrupt (soft : bool) (v err scancode cr2 ret : Z) (c : xcpu) (k : kstate F) : option (outcome (result xcpu F)) :=
  '(c, r) ← deliver idt tss soft v err c (k_ram k);
  n ← stub_at (x_eip c);
  let (c, r) := run (stub n ++ common_enter ret) (c, r) in
  let k := upd_mach (set_ram (fun _ => r)) k in
  let regs := ld32 r (u32 (x_esp c + 4)) in
  let g := regs_at r regs in
  if (32 <=? n) && (n <? 48) then
    let (k, c) := resume c (handle_irq scancode (r_int_no g) k) in Some (Ret (Done c k))
  else
    Some (match isr_handler k_mach syscall_handler cr2 g k with
          | Halted m => Halted m
          | Ret (Done g' k) =>
              let (k, c) := resume c (upd_mach (mst32 (u32 (regs + 28)) (r_eax g')) k) in Ret (Done c k)
          | Ret Blocks => Ret Blocks
          | Ret Undef => Ret Undef
          | Ret (Exits k sw) => Ret (Exits k sw)
          end).
End Trap.

(** ** The stack *)

Lemma asm_pushes_spec ws sp r :
  4 * alen ws <= sp -> sp < W32 ->
  (asm_pushes ws (sp, r)).1 = sp - 4 * alen ws /\
  (forall i, 0 <= i < alen ws -> ld32 (asm_pushes ws (sp, r)).2 (sp - 4 - 4 * i) = u32 (aget 0 ws i)) /\
  forall x, x < sp - 4 * alen ws \/ sp <= x -> ld8 (asm_pushes ws (sp, r)).2 x = ld8 r x.
Proof.
  induction ws as [|w ws IH] using rev_ind; intros Hsp Hw.
  { change (alen []) with 0 in *. cbn [asm_pushes foldl fst snd]. split; [cbn; lia |]. split; [intros i Hi; lia | done]. }
  unfold asm_pushes in *. rewrite foldl_app. cbn [foldl].
  assert (Hl : alen (ws ++ [w]) = alen ws + 1) by (unfold alen; rewrite length_app; cbn; lia). rewrite Hl in *.
  pose proof (alen_nonneg ws) as Hn. destruct (IH ltac:(lia) Hw) as (H1 & H2 & H3).
  destruct (foldl _ (sp, r) ws) as [sp1 r1]. cbn [fst snd] in *. subst sp1. unfold asm_push. cbn [fst snd].
  rewrite u32_small by lia. split; [lia |]. split.
  - intros i Hi. destruct (Z.eq_dec i (alen ws)) as [->|Hne].
    + replace (sp - 4 - 4 * alen ws) with (sp - 4 * alen ws - 4) by lia. rewrite ld32_st32_eq. f_equal.
      unfold aget, alen. by rewrite Nat2Z.id, lookup_app_r, Nat.sub_diag by lia.
    + rewrite ld32_st32_ne, H2 by lia. f_equal. unfold aget, alen in *. rewrite lookup_app_l by lia. done.
  - intros x Hx. rewrite ld8_st32_ne by lia. apply H3. lia.
Qed.

Lemma asm_pushes_app ws ws' st : asm_pushes ws' (asm_pushes ws st) = asm_pushes (ws ++ ws') st.
Proof. unfold asm_pushes. by rewrite foldl_app. Qed.

(** ** Entry *)

(** 32-bit registers, 16-bit selectors. *)
Definition xcpu_wf (c : xcpu) : Prop :=
  (is_u32 (x_eax c) /\ is_u32 (x_ecx c) /\ is_u32 (x_edx c) /\ is_u32 (x_ebx c) /\ is_u32 (x_esp c) /\ is_u32 (x_ebp c) /\
   is_u32 (x_esi c) /\ is_u32 (x_edi c) /\ is_u32 (x_eip c) /\ is_u32 (x_eflags c)) /\
  0 <= x_cs c < 65536 /\ 0 <= x_ss c < 65536.

(** The stack an interrupt uses, and what is pushed on it up to the vector. *)
Definition trap_stack (tss : ram) (c : xcpu) : Z := if x_cs c mod 4 =? 0 then x_esp c else ld32 tss tss_esp0.
Definition trap_words (v err : Z) (c : xcpu) : list Z :=
  (if x_cs c mod 4 =? 0 then [] else [x_ss c; x_esp c]) ++
  [x_eflags c; x_cs c; x_eip c; if pushes_error v then err else 0; v].

(** All the words, the last two being the handler's argument and return address. *)
Definition frame_words (tss : ram) (v err ret : Z) (c : xcpu) : list Z :=
  let sp := trap_stack tss c - 4 * alen (trap_words v err c) in
  trap_words v err c ++ [x_eax c; x_ecx c; x_edx c; x_ebx c; sp; x_ebp c; x_esi c; x_edi c] ++ [sp - 32; ret].

Lemma isr_err_ok v : v ∈ vectors -> isr_err v = pushes_error v.
Proof.
  intros Hv. assert (H : forallb (fun v => Bool.eqb (isr_err v) (pushes_error v)) vectors = true) by (vm_compute; reflexivity).
  rewrite forallb_forall in H. apply list_elem_of_In in Hv. exact (Bool.eqb_prop _ _ (H v Hv)).
Qed.

Lemma trap_words_len v err c : alen (trap_words v err c) = if x_cs c mod 4 =? 0 then 5 else 7.
Proof. unfold trap_words, alen. by destruct (x_cs c mod 4 =? 0). Qed.

Lemma ax_seg a : u16 (a - a mod 65536 + 0x10) = 0x10.
Proof. unfold u16. replace (a - a mod 65536 + 0x10) with (0x10 + (a / 65536) * 65536) by lia. by rewrite Z.mod_add. Qed.

(** Pushes of the stubs, on a stack [st]. *)
Lemma run_push v c st : push_imm v (set_xesp st.1 c, st.2) = (set_xesp (asm_push v st).1 c, (asm_push v st).2).
Proof. by destruct st. Qed.

Lemma run_pushes ws c st : run (push_imm <$> ws) (set_xesp st.1 c, st.2) = (set_xesp (asm_pushes ws st).1 c, (asm_pushes ws st).2).
Proof.
  revert st. induction ws as [|w ws IH]; intros st; [done |]. unfold run, asm_pushes in *. cbn [fmap list_fmap foldl]. rewrite run_push. apply IH.
Qed.

Lemma run_pusha c st :
  pusha (set_xesp st.1 c, st.2) =
  (let st2 := asm_pushes [x_eax c; x_ecx c; x_edx c; x_ebx c; st.1; x_ebp c; x_esi c; x_edi c] st in (set_xesp st2.1 c, st2.2)).
Proof.
  destruct st as [sp r]. unfold pusha. cbn [fst snd set_xesp x_eax x_ecx x_edx x_ebx x_esp x_ebp x_esi x_edi].
  by destruct (asm_pushes _ (sp, r)).
Qed.

Lemma run_segs sp r c :
  mov_segs_ax (mov_ax 0x10 (set_xesp sp c, r)) = (set_xesp sp (set_segs 0x10 0x10 0x10 0x10 (set_xeax (x_eax c - x_eax c mod 65536 + 0x10) c)), r).
Proof.
  unfold mov_ax, mov_segs_ax. cbn [fst snd]. cbn [set_xeax set_xesp x_eax]. by rewrite ax_seg.
Qed.

(** The common stub. *)
Lemma run_common ret c st :
  run (common_enter ret) (set_xesp st.1 c, st.2) =
  (let st2 := asm_pushes [x_eax c; x_ecx c; x_edx c; x_ebx c; st.1; x_ebp c; x_esi c; x_edi c] st in
   let st3 := asm_pushes [st2.1; ret] st2 in
   (set_xesp st3.1 (set_segs 0x10 0x10 0x10 0x10 (set_xeax (x_eax c - x_eax c mod 65536 + 0x10) c)), st3.2)).
Proof.
  unfold common_enter, run. cbn [foldl]. rewrite run_pusha. cbv zeta. set (st2 := asm_pushes _ st). rewrite run_segs. unfold push_esp. cbn [fst].
  change (x_esp (set_xesp st2.1 _)) with st2.1. rewrite run_push, run_push. reflexivity.
Qed.

(** The processor and the stub together push [trap_words]. *)
Lemma run_stub idt tss soft v err c r c1 r1 :
  deliver idt tss soft v err c r = Some (c1, r1) -> v ∈ vectors ->
  let st := asm_pushes (trap_words v err c) (trap_stack tss c, r) in
  let g := aget idt_zero idt v in
  run (stub v) (c1, r1) =
  (set_xesp st.1 (jump_to (selector g) (gate_offset g) (Z.clearbit (x_eflags c) 9)
     (if x_cs c mod 4 =? 0 then x_ss c else u16 (ld32 tss tss_ss0)) 0 c), st.2).
Proof.
  intros Hd Hv. cbv zeta. set (g := aget idt_zero idt v).
  set (c0 := jump_to (selector g) (gate_offset g) (Z.clearbit (x_eflags c) 9) (if x_cs c mod 4 =? 0 then x_ss c else u16 (ld32 tss tss_ss0)) 0 c).
  set (ws := (if x_cs c mod 4 =? 0 then [] else [x_ss c; x_esp c]) ++ [x_eflags c; x_cs c; x_eip c] ++ if pushes_error v then [err] else []).
  assert (E : (c1, r1) = (set_xesp (asm_pushes ws (trap_stack tss c, r)).1 c0, (asm_pushes ws (trap_stack tss c, r)).2)).
  { unfold deliver in Hd. fold g in Hd. destruct (gate_present g && _); [| discriminate Hd]. unfold ws, c0, trap_stack.
    destruct (x_cs c mod 4 =? 0); rewrite <- !asm_pushes_app; try change (asm_pushes [] (x_esp c, r)) with (x_esp c, r);
      match type of Hd with context [asm_pushes [x_eflags c; x_cs c; x_eip c] ?s] => set (st := asm_pushes [x_eflags c; x_cs c; x_eip c] s) in * end;
      clearbody st; destruct (pushes_error v), st as [sp r0]; injection Hd as <- <-; reflexivity. }
  rewrite E. assert (Es : stub v = push_imm <$> if pushes_error v then [v] else [0; v]) by (unfold stub; rewrite (isr_err_ok v Hv); by destruct (pushes_error v)).
  rewrite Es, run_pushes, asm_pushes_app.
  assert (Ew : ws ++ (if pushes_error v then [v] else [0; v]) = trap_words v err c).
  { unfold ws, trap_words. rewrite <- app_assoc. f_equal. by destruct (pushes_error v). }
  by rewrite Ew.
Qed.

(** From the trap to the C handler: the stack holds [frame_words] and its
    argument points past the last two. *)
Lemma enter_spec idt tss soft v err ret c r c1 r1 :
  deliver idt tss soft v err c r = Some (c1, r1) -> v ∈ vectors ->
  4 * alen (frame_words tss v err ret c) <= trap_stack tss c -> trap_stack tss c < W32 ->
  exists c2, run (stub v ++ common_enter ret) (c1, r1) = (c2, (asm_pushes (frame_words tss v err ret c) (trap_stack tss c, r)).2) /\
    x_esp c2 = trap_stack tss c - 4 * alen (frame_words tss v err ret c) /\
    x_ss c2 = (if x_cs c mod 4 =? 0 then x_ss c else u16 (ld32 tss tss_ss0)) /\
    x_ds c2 = 0x10 /\ x_es c2 = 0x10 /\ x_fs c2 = 0x10 /\ x_gs c2 = 0x10.
Proof.
  intros Hd Hv Hlen Hw. unfold run. rewrite foldl_app. fold (run (stub v) (c1, r1)). rewrite (run_stub _ _ _ _ _ _ _ _ _ Hd Hv). cbv zeta.
  change (foldl _ ?st (common_enter ret)) with (run (common_enter ret) st). rewrite run_common. cbv zeta.
  unfold frame_words in *. set (tw := trap_words v err c) in *. set (ts := trap_stack tss c) in *.
  assert (Hl : forall sp, alen (tw ++ [x_eax c; x_ecx c; x_edx c; x_ebx c; sp; x_ebp c; x_esi c; x_edi c]) = alen tw + 8)
    by (intros sp; unfold alen; rewrite length_app; cbn [length]; lia).
  assert (Hl2 : forall sp l, alen (tw ++ [x_eax c; x_ecx c; x_edx c; x_ebx c; sp; x_ebp c; x_esi c; x_edi c] ++ [l; ret]) = alen tw + 10)
    by (intros sp l; unfold alen; rewrite !length_app; cbn [length]; lia).
  rewrite Hl2 in Hlen. pose proof (alen_nonneg tw) as Hn.
  destruct (asm_pushes_spec tw ts r) as (E1 & _); [lia | lia |]. rewrite E1.
  cbn [x_eax x_ecx x_edx x_ebx x_ebp x_esi x_edi jump_to]. set (w8 := [x_eax c; x_ecx c; x_edx c; x_ebx c; _; x_ebp c; x_esi c; x_edi c]).
  destruct (asm_pushes_spec (tw ++ w8) ts r) as (E2 & _); [unfold w8; rewrite Hl; lia | lia |].
  replace (ts - 4 * alen (tw ++ w8)) with (ts - 4 * alen tw - 32) in E2 by (unfold w8; rewrite Hl; lia).
  rewrite (asm_pushes_app tw w8), E2, asm_pushes_app, <- app_assoc.
  destruct (asm_pushes_spec (tw ++ w8 ++ [ts - 4 * alen tw - 32; ret]) ts r) as (E3 & _); [unfold w8; rewrite Hl2; lia | lia |].
  eexists. split; [reflexivity |]. cbn [x_esp set_xesp x_ss x_ds x_es x_fs x_gs set_segs set_xeax jump_to]. by rewrite E3.
Qed.

Definition frame_ptr (tss : ram) (c : xcpu) : Z := trap_stack tss c - (if x_cs c mod 4 =? 0 then 52 else 60).

(** The room an interrupt needs on its stack. *)
Definition stack_room (tss : ram) (c : xcpu) : Prop := 68 <= trap_stack tss c /\ trap_stack tss c + 8 <= W32.

Lemma frame_words_len tss v err ret c : 4 * alen (frame_words tss v err ret c) = trap_stack tss c - frame_ptr tss c + 8.
Proof. unfold frame_words, frame_ptr, trap_words, alen. destruct (x_cs c mod 4 =? 0); cbn [app length]; lia. Qed.

Lemma frame_words_eq tss v err ret c :
  frame_words tss v err ret c = trap_words v err c ++
    [x_eax c; x_ecx c; x_edx c; x_ebx c; frame_ptr tss c + 32; x_ebp c; x_esi c; x_edi c; frame_ptr tss c; ret].
Proof.
  unfold frame_words. rewrite trap_words_len.
  replace (trap_stack tss c - 4 * (if x_cs c mod 4 =? 0 then 5 else 7)) with (frame_ptr tss c + 32)
    by (unfold frame_ptr; destruct (x_cs c mod 4 =? 0); lia).
  by replace (frame_ptr tss c + 32 - 32) with (frame_ptr tss c) by lia.
Qed.

(** The registers the handler finds are those of the interrupted code. *)
Lemma frame_regs tss v err ret c r :
  xcpu_wf c -> is_u32 v -> is_u32 err -> stack_room tss c ->
  let p := frame_ptr tss c in
  let r2 := (asm_pushes (frame_words tss v err ret c) (trap_stack tss c, r)).2 in
  ld32 r2 (p - 4) = p /\
  exists u s, regs_at r2 p = Regs (x_edi c) (x_esi c) (x_ebp c) (p + 32) (x_ebx c) (x_edx c) (x_ecx c) (x_eax c)
      v (if pushes_error v then err else 0) (x_eip c) (x_cs c) (x_eflags c) u s /\
    (x_cs c mod 4 <> 0 -> u = x_esp c /\ s = x_ss c).
Proof.
  intros Hc Hv He Hroom p r2. pose proof (frame_words_len tss v err ret c) as Hlen. fold p in Hlen. unfold stack_room in Hroom.
  assert (Hp : trap_stack tss c - p = if x_cs c mod 4 =? 0 then 52 else 60) by (unfold p, frame_ptr; lia).
  destruct (asm_pushes_spec (frame_words tss v err ret c) (trap_stack tss c) r) as (_ & H & _);
    [destruct (x_cs c mod 4 =? 0); lia | lia |]. fold r2 in H.
  destruct Hc as (Hg & Hs).
  assert (He' : is_u32 (if pushes_error v then err else 0)) by (destruct (pushes_error v); [done | unfold is_u32; lia]).
  rewrite frame_words_eq in H. fold p in H. unfold trap_words in H. set (e := if pushes_error v then err else 0) in *.
  set (ts := trap_stack tss c) in *. clearbody r2 ts p e. unfold is_u32 in *.
  set (ws := _ ++ [x_eax c; _; _; _; _; _; _; _; _; _]) in H.
  assert (Hw : forall i j w, p + 4 * j = ts - 4 - 4 * i -> 0 <= i < alen ws -> aget 0 ws i = w -> 0 <= w < W32 -> ld32 r2 (p + 4 * j) = w).
  { intros i j w E Hi Ha Hu. rewrite E, H, Ha by done. by apply u32_small. }
  clear H. unfold regs_at. destruct (Z.eqb_spec (x_cs c mod 4) 0) as [Hr|Hr]; cbn [app] in ws.
  - assert (Hl : alen ws = 15) by reflexivity. rewrite Hl in Hw.
    split; [replace (p - 4) with (p + 4 * -1) by lia; apply (Hw 13); [lia | lia | reflexivity | lia] |].
    do 2 eexists. split; [| intros; lia].
    rewrite (Hw 12 0 (x_edi c)), (Hw 11 1 (x_esi c)), (Hw 10 2 (x_ebp c)), (Hw 9 3 (p + 32)), (Hw 8 4 (x_ebx c)), (Hw 7 5 (x_edx c)),
      (Hw 6 6 (x_ecx c)), (Hw 5 7 (x_eax c)), (Hw 4 8 v), (Hw 3 9 e), (Hw 2 10 (x_eip c)), (Hw 1 11 (x_cs c)), (Hw 0 12 (x_eflags c));
      try reflexivity; lia.
  - assert (Hl : alen ws = 17) by reflexivity. rewrite Hl in Hw.
    split; [replace (p - 4) with (p + 4 * -1) by lia; apply (Hw 15); [lia | lia | reflexivity | lia] |].
    do 2 eexists. split.
    + rewrite (Hw 14 0 (x_edi c)), (Hw 13 1 (x_esi c)), (Hw 12 2 (x_ebp c)), (Hw 11 3 (p + 32)), (Hw 10 4 (x_ebx c)), (Hw 9 5 (x_edx c)),
        (Hw 8 6 (x_ecx c)), (Hw 7 7 (x_eax c)), (Hw 6 8 v), (Hw 5 9 e), (Hw 4 10 (x_eip c)), (Hw 3 11 (x_cs c)), (Hw 2 12 (x_eflags c));
        try reflexivity; lia.
    + intros _. split; [apply (Hw 1 13) | apply (Hw 0 14)]; try reflexivity; lia.
Qed.

(** ** Return *)

(** The interrupted code's processor, with EAX replaced: in ring 0 the data
    segments are the kernel's, in ring 3 what [iret] leaves of them. *)
Definition resumed (gdt : list gdt_entry_t) (a : Z) (c : xcpu) : xcpu :=
  let s := if x_cs c mod 4 =? 0 then 0x10 else outer_seg gdt 0x10 in set_segs s s s s (set_xeax a c).

Lemma leave_spec gdt tss c c2 r a d n e u s :
  xcpu_wf c -> stack_room tss c ->
  let p := frame_ptr tss c in
  x_esp c2 = p - 8 -> (x_cs c mod 4 = 0 -> x_ss c2 = x_ss c) -> x_ds c2 = 0x10 -> x_es c2 = 0x10 -> x_fs c2 = 0x10 -> x_gs c2 = 0x10 ->
  regs_at r p = Regs (x_edi c) (x_esi c) (x_ebp c) d (x_ebx c) (x_edx c) (x_ecx c) a n e (x_eip c) (x_cs c) (x_eflags c) u s ->
  (x_cs c mod 4 <> 0 -> u = x_esp c /\ s = x_ss c) ->
  run (add_esp 4 :: common_leave gdt) (c2, r) = (resumed gdt a c, r).
Proof.
  intros (Hg & Hcs & Hss) Hroom p Hsp Hs2 Hds Hes Hfs Hgs Hregs Hus. unfold stack_room in Hroom.
  assert (Hp : p = trap_stack tss c - (if x_cs c mod 4 =? 0 then 52 else 60)) by reflexivity.
  assert (Hts : x_cs c mod 4 = 0 -> trap_stack tss c = x_esp c) by (intros E; unfold trap_stack; by rewrite E).
  unfold regs_at in Hregs. injection Hregs as W0 W1 W2 W3 W4 W5 W6 W7 W8 W9 W10 W11 W12 W13 W14.
  assert (Hb : 8 <= p /\ p + 52 <= trap_stack tss c /\ (x_cs c mod 4 <> 0 -> p + 60 <= trap_stack tss c))
    by (rewrite Hp; destruct (Z.eqb_spec (x_cs c mod 4) 0); lia).
  clearbody p. cbn [run foldl common_leave].
  assert (E1 : add_esp 4 (add_esp 4 (c2, r)) = (set_xesp p c2, r)).
  { unfold add_esp. cbn [fst snd x_esp set_xesp]. rewrite Hsp, (u32_small (p - 8 + 4)), u32_small by lia.
    by replace (p - 8 + 4 + 4) with p by lia. }
  rewrite E1. unfold popa. cbn [x_esp x_eip x_cs x_eflags x_ss x_ds x_es x_fs x_gs set_xesp].
  assert (Hu : forall k, 0 <= k <= 56 -> u32 (p + k) = p + k) by (intros k Hk; apply u32_small; lia).
  rewrite !(Hu (4 * _)) by lia. rewrite W0, W1, W2, W4, W5, W6, W7, (Hu 32) by lia.
  unfold add_esp. cbn [fst snd x_esp set_xesp]. replace (p + 32 + 8) with (p + 40) by lia. rewrite (Hu 40) by lia.
  unfold iret. cbn [x_esp set_xesp]. change (4 * 10) with 40 in W10. change (4 * 11) with 44 in W11. change (4 * 12) with 48 in W12.
  change (4 * 13) with 52 in W13. change (4 * 14) with 56 in W14. rewrite W10.
  replace (p + 40 + 4) with (p + 44) by lia. replace (p + 40 + 8) with (p + 48) by lia.
  replace (p + 40 + 12) with (p + 52) by lia. replace (p + 40 + 16) with (p + 56) by lia. rewrite !Hu by lia. rewrite W11, W12, W13, W14. unfold resumed. rewrite (u16_small (x_cs c)) by lia.
  destruct (Z.eqb_spec (x_cs c mod 4) 0) as [Hr|Hr].
  - unfold jump_to, set_segs, set_xeax. cbn. rewrite Hs2, Hds, Hes, Hfs, Hgs by done. do 2 f_equal. rewrite <- (Hts Hr). lia.
  - destruct (Hus Hr) as [-> ->]. unfold jump_to, set_segs, set_xeax. cbn. rewrite Hds, Hes, Hfs, Hgs, u16_small by lia. done.
Qed.

(** ** Through the gates *)

Section Gates.
Context {F : Type} (L : layout) (gdt : list gdt_entry_t) (idt : list idt_entry_t) (tss : ram) (hs : list Z).
Implicit Types (c : xcpu) (k : kstate F).

(** Every stub's vector has a present gate that leads to it; only 0x80 admits
    ring 3.  The stubs are at different addresses. *)
Definition gates_ok : Prop :=
  (forall v, v ∈ vectors -> let g := aget idt_zero idt v in
     gate_present g = true /\ gate_offset g = stub_addr L v /\ gate_dpl g = if v =? 128 then 3 else 0) /\
  forall v w, v ∈ vectors -> w ∈ vectors -> stub_addr L v = stub_addr L w -> v = w.

Context (Hgates : gates_ok).

Lemma stub_found v : v ∈ vectors -> stub_at L (stub_addr L v) = Some v.
Proof using Hgates.
  intros Hv. unfold stub_at. destruct (find _ vectors) as [w|] eqn:E.
  - apply find_some in E as [Hw E]. apply Z.eqb_eq in E. f_equal. symmetry.
    destruct Hgates as [_ Hinj]. apply Hinj; [done | by apply list_elem_of_In | done].
  - apply list_elem_of_In in Hv. pose proof (find_none _ _ E v Hv) as H. cbn beta in H. lia.
Qed.

Lemma deliver_vector soft v err c r :
  v ∈ vectors -> (soft = true -> v = 128) -> exists c1 r1, deliver idt tss soft v err c r = Some (c1, r1) /\ x_eip c1 = stub_addr L v.
Proof using Hgates.
  intros Hv Hs. destruct Hgates as [Hg _]. destruct (Hg v Hv) as (H1 & H2 & H3). unfold deliver. rewrite H1, H2, H3.
  assert (Hsoft : soft && ((if v =? 128 then 3 else 0) <? x_cs c mod 4) = false).
  { destruct soft; [| done]. rewrite (Hs eq_refl). cbn [andb Z.eqb Pos.eqb]. lia. }
  rewrite Hsoft. cbn [negb andb]. destruct (x_cs c mod 4 =? 0), (pushes_error v); do 2 eexists; (split; [reflexivity | reflexivity]).
Qed.

(** The kernel's state with the frame on the stack. *)
Definition framed (v err ret : Z) c k : kstate F :=
  upd_mach (set_ram (fun r => (asm_pushes (frame_words tss v err ret c) (trap_stack tss c, r)).2)) k.

Lemma vectors_u32 v : v ∈ vectors -> is_u32 v.
Proof using.
  intros Hv. unfold vectors in Hv. apply elem_of_app in Hv as [Hv|Hv%list_elem_of_singleton]; [| subst v; unfold is_u32; lia].
  apply list_elem_of_fmap in Hv as (i & -> & Hi). apply elem_of_seq in Hi. unfold is_u32. lia.
Qed.

(** Up to the handler: its argument, the registers it sees, and what the rest of
    the stub does once it returns in a state that has kept the frame. *)
Lemma interrupt_enter soft v err ret c k :
  xcpu_wf c -> stack_room tss c -> v ∈ vectors -> (soft = true -> v = 128) -> is_u32 err ->
  let p := frame_ptr tss c in
  exists c1 r1 c2 u s, deliver idt tss soft v err c (k_ram k) = Some (c1, r1) /\ stub_at L (x_eip c1) = Some v /\
    run (stub v ++ common_enter ret) (c1, r1) = (c2, k_ram (framed v err ret c k)) /\ u32 (x_esp c2 + 4) = p - 4 /\
    ld32 (k_ram (framed v err ret c k)) (p - 4) = p /\
    regs_at (k_ram (framed v err ret c k)) p =
      Regs (x_edi c) (x_esi c) (x_ebp c) (p + 32) (x_ebx c) (x_edx c) (x_ecx c) (x_eax c)
        v (if pushes_error v then err else 0) (x_eip c) (x_cs c) (x_eflags c) u s /\
    forall k' a, (forall i, 0 <= i < 60 -> i < 28 \/ 32 <= i -> ld8 (k_ram k') (p + i) = ld8 (k_ram (framed v err ret c k)) (p + i)) ->
      ld32 (k_ram k') (p + 28) = a -> resume gdt c2 k' = (k', resumed gdt a c).
Proof using Hgates.
  intros Hc Hroom Hv Hsoft He p. destruct (deliver_vector soft v err c (k_ram k) Hv Hsoft) as (c1 & r1 & Hd & Hip).
  assert (Hlen : 4 * alen (frame_words tss v err ret c) <= trap_stack tss c).
  { rewrite frame_words_len. unfold frame_ptr, stack_room in *. destruct (x_cs c mod 4 =? 0); lia. }
  unfold stack_room in Hroom.
  destruct (enter_spec _ _ _ _ _ ret _ _ _ _ Hd Hv Hlen ltac:(lia)) as (c2 & Hrun & Hsp & Hss & Hds & Hes & Hfs & Hgs).
  destruct (frame_regs tss v err ret c (k_ram k) Hc (vectors_u32 v Hv) He Hroom) as (Harg & u & s & Hregs & Hus).
  rewrite frame_words_len in Hsp. fold p in Hsp, Harg, Hregs. change (asm_pushes _ _).2 with (k_ram (framed v err ret c k)) in Hrun, Harg, Hregs.
  assert (Hp : 8 <= p /\ p + 60 <= W32) by (unfold p, frame_ptr; destruct (x_cs c mod 4 =? 0); lia).
  exists c1, r1, c2, u, s. split; [exact Hd |]. split; [rewrite Hip; by apply stub_found |]. split; [exact Hrun |].
  split; [rewrite Hsp, u32_small by lia; lia |]. split; [exact Harg |]. split; [exact Hregs |].
  intros k' a Hsame Ha. unfold resume.
  rewrite (leave_spec gdt tss c c2 (k_ram k') a (p + 32) v (if pushes_error v then err else 0) u s); try done; fold p.
  - destruct k' as [? ? ? ? ? ? []]. reflexivity.
  - lia.
  - intros Hr. rewrite Hss, Hr. done.
  - assert (Hw : forall i, 0 <= i < 15 -> i <> 7 -> ld32 (k_ram k') (p + 4 * i) = ld32 (k_ram (framed v err ret c k)) (p + 4 * i)).
    { intros i Hi Hne. unfold ld32. rewrite <- !Z.add_assoc, !Hsame by lia. done. }
    unfold regs_at in *. injection Hregs as W0 W1 W2 W3 W4 W5 W6 W7 W8 W9 W10 W11 W12 W13 W14.
    change (p + 4 * 7) with (p + 28). rewrite Ha, !Hw by lia. by rewrite W0, W1, W2, W3, W4, W5, W6, W8, W9, W10, W11, W12, W13, W14.
Qed.

Lemma handle_irq_ram scancode n k : k_ram (handle_irq L hs scancode n k) = k_ram k.
Proof using.
  unfold handle_irq, irq_handler. cbn [fst snd]. set (i := u8 (n - 32)).
  assert (Hm : m_ram (pic_send_eoi i (k_mach k)) = k_ram k) by (unfold pic_send_eoi; by destruct (8 <=? i)).
  destruct ((i <? 16) && _); [| done]. unfold call_irq. destruct (aget 0 hs i =? l_timer_irq L); [done |].
  by destruct (aget 0 hs i =? l_keyboard_irq L).
Qed.

(** A hardware interrupt: the handler runs and the interrupted code goes on. *)
Lemma irq_spec v scancode cr2 ret c k :
  xcpu_wf c -> stack_room tss c -> 32 <= v < 48 ->
  interrupt L gdt idt tss hs false v 0 scancode cr2 ret c k =
    Some (Ret (Done (resumed gdt (x_eax c) c) (handle_irq L hs scancode v (framed v 0 ret c k)))).
Proof using Hgates.
  intros Hc Hroom Hv.
  assert (Hin : v ∈ vectors).
  { unfold vectors. apply elem_of_app. left. apply list_elem_of_fmap. exists (Z.to_nat v). split; [lia |]. apply elem_of_seq. lia. }
  destruct (interrupt_enter false v 0 ret c k Hc Hroom Hin ltac:(done) ltac:(unfold is_u32; lia))
    as (c1 & r1 & c2 & u & s & E1 & E2 & E3 & E4 & E5 & E6 & Hres).
  unfold interrupt. rewrite E1. cbn [mbind option_bind]. rewrite E2. cbn [mbind option_bind]. rewrite E3, E4, E5, E6.
  replace ((32 <=? v) && (v <? 48)) with true by lia. cbn [r_int_no].
  change (upd_mach (set_ram (fun _ => k_ram (framed v 0 ret c k))) k) with (framed v 0 ret c k).
  rewrite (Hres _ (x_eax c)); [done | by intros i _ _; rewrite handle_irq_ram |].
  rewrite handle_irq_ram. unfold regs_at in E6. injection E6 as _ _ _ _ _ _ _ E7 _. exact E7.
Qed.

(** The dispatcher reads four registers and writes EAX. *)
Lemma syscall_handler_eax (k : kstate F) (a b c d : Z) :
  exists res, (forall v k', res = Done v k' -> is_u32 v) /\
    forall g, r_eax g = a -> r_ebx g = b -> r_ecx g = c -> r_edx g = d ->
    syscall_handler g k = match res with Done v k' => Done (set_eax v g) k' | Blocks => Blocks | Undef => Undef | Exits k' sw => Exits k' sw end.
Proof using.
  set (out := fun (r : result Z F) => match r with Done v k' => Done (u32 v) k' | Blocks => Blocks | Undef => Undef | Exits k' sw => Exits k' sw end).
  assert (Hof : forall r v k', out r = Done v k' -> is_u32 v) by (intros [] v k'; cbn; try done; intros [= <- <-]; apply u32_range).
  assert (Hret : forall g r, ret_eax g r = match out r with Done v k' => Done (set_eax v g) k' | Blocks => Blocks | Undef => Undef | Exits k' sw => Exits k' sw end)
    by (intros g []; done).
  unfold syscall_handler.
  destruct (a =? SYS_WRITE) eqn:E1; [exists (out (sys_write b c d k)) |].
  2: destruct (a =? SYS_READ) eqn:E2; [exists (out (sys_read b c d k)) |].
  3: destruct (a =? SYS_OPEN) eqn:E3; [exists (out (sys_open b k)) |].
  4: destruct (a =? SYS_CLOSE) eqn:E4; [exists (out (sys_close b k)) |].
  5: destruct (a =? SYS_EXIT) eqn:E5; [exists (out (sys_exit (s32 b) k)) |].
  6: destruct (a =? SYS_GETPID) eqn:E6; [exists (Done (sys_getpid k) k) |].
  7: destruct (a =? SYS_READDIR) eqn:E7; [exists (out (sys_readdir b (s32 c) k)) |].
  8: destruct (a =? SYS_UPTIME) eqn:E8; [exists (out (sys_uptime k)) |].
  9: destruct (a =? SYS_MEMINFO) eqn:E9; [exists (out (sys_meminfo b k)) |].
  10: destruct (a =? SYS_PS) eqn:E10; [exists (out (sys_ps b (s32 c) k)) | exists (Done (u32 (-1)) k)].
  all: split; [| intros g -> -> -> ->; rewrite ?E1, ?E2, ?E3, ?E4, ?E5, ?E6, ?E7, ?E8, ?E9, ?E10; (apply Hret || reflexivity)].
  all: try (intros v k'; apply Hof).
  all: intros v k' [= <- <-].
  2: apply u32_range.
  unfold sys_getpid. destruct (cur_proc k =? 0); [unfold is_u32; lia | apply ld32_range].
Qed.

(** Where the caller of [int 0x80] goes on. *)
Definition after_syscall c (p : Z) (res : result Z F) : result xcpu F :=
  match res with
  | Done a k' => Done (resumed gdt a c) (upd_mach (mst32 (p + 28) a) k')
  | Blocks => Blocks
  | Undef => Undef
  | Exits k' sw => Exits k' sw
  end.

(** A system call: the wrapper's [int80] is the whole path. *)
Lemma syscall_spec scancode cr2 ret c k :
  xcpu_wf c -> stack_room tss c ->
  let p := frame_ptr tss c in
  let k1 := framed 128 0 ret c k in
  let res := int80 (x_eax c) (x_ebx c) (x_ecx c) (x_edx c) k1 in
  (forall a k2, res = Done a k2 -> forall i, 0 <= i < 60 -> ld8 (k_ram k2) (p + i) = ld8 (k_ram k1) (p + i)) ->
  interrupt L gdt idt tss hs true 128 0 scancode cr2 ret c k = Some (Ret (after_syscall c p res)).
Proof using Hgates.
  intros Hc Hroom p k1 res Hkept.
  destruct (interrupt_enter true 128 0 ret c k Hc Hroom ltac:(apply elem_of_app; right; by apply list_elem_of_singleton) ltac:(done) ltac:(unfold is_u32; lia))
    as (c1 & r1 & c2 & u & s & E1 & E2 & E3 & E4 & E5 & E6 & Hres). fold p k1 in E3, E4, E5, E6, Hres.
  unfold interrupt. rewrite E1. cbn [mbind option_bind]. rewrite E2. cbn [mbind option_bind]. rewrite E3, E4, E5, E6.
  cbn [Z.leb Z.ltb Z.compare Pos.compare Pos.compare_cont andb]. change (upd_mach (set_ram (fun _ => k_ram k1)) k) with k1.
  unfold isr_handler. cbn [r_int_no Z.eqb Pos.eqb].
  destruct (syscall_handler_eax k1 (x_eax c) (x_ebx c) (x_ecx c) (x_edx c)) as (out & Hu & Hout).
  pose proof Hc as ((A1 & A2 & A3 & A4 & _) & _).
  assert (Hi : res = out).
  { unfold res, int80. rewrite !u32_small by assumption. rewrite Hout by reflexivity. by destruct out. }
  rewrite Hout by reflexivity. unfold after_syscall. rewrite Hi in Hkept |- *. destruct out as [a k2| | |k2 sw]; try done.
  cbn [r_eax set_eax]. specialize (Hkept a k2 eq_refl). specialize (Hu a k2 eq_refl).
  assert (Hp : 8 <= p /\ p + 60 <= W32) by (unfold p, frame_ptr, stack_room in *; destruct (x_cs c mod 4 =? 0); lia).
  rewrite (u32_small (p + 28)) by lia. rewrite (Hres _ a); [done | |].
  - intros i Hi1 Hi2. unfold upd_mach, k_ram. cbn [k_mach]. rewrite m_ram_mst32, ld8_st32_ne by lia. by apply Hkept.
  - unfold upd_mach, k_ram. cbn [k_mach]. rewrite m_ram_mst32, ld32_st32_eq. by apply u32_small.
Qed.

(** A fault: the report shows the faulting code's registers, and the machine stops. *)
Lemma exception_spec v err scancode cr2 ret c k :
  xcpu_wf c -> stack_room tss c -> 0 <= v < 32 -> is_u32 err ->
  exists u s, interrupt L gdt idt tss hs false v err scancode cr2 ret c k =
    Some (khalt (exception_report cr2
      (Regs (x_edi c) (x_esi c) (x_ebp c) (frame_ptr tss c + 32) (x_ebx c) (x_edx c) (x_ecx c) (x_eax c)
         v (if pushes_error v then err else 0) (x_eip c) (x_cs c) (x_eflags c) u s) (k_mach (framed v err ret c k)))).
Proof using Hgates.
  intros Hc Hroom Hv He.
  assert (Hin : v ∈ vectors).
  { unfold vectors. apply elem_of_app. left. apply list_elem_of_fmap. exists (Z.to_nat v). split; [lia |]. apply elem_of_seq. lia. }
  destruct (interrupt_enter false v err ret c k Hc Hroom Hin ltac:(done) He) as (c1 & r1 & c2 & u & s & E1 & E2 & E3 & E4 & E5 & E6 & _).
  exists u, s. unfold interrupt. rewrite E1. cbn [mbind option_bind]. rewrite E2. cbn [mbind option_bind]. rewrite E3, E4, E5, E6.
  replace ((32 <=? v) && (v <? 48)) with false by lia.
  change (upd_mach (set_ram (fun _ => k_ram (framed v err ret c k))) k) with (framed v err ret c k).
  unfold isr_handler. cbn [r_int_no]. replace (v =? 0x80) with false by lia. reflexivity.
Qed.
End Gates.
