(* ===== verification/Running.v ===== *)
(** * Running: the kernel after boot

    The state [kmain] hands over (Boot.v) with the trap path of Interrupt.v:
    hardware interrupts, exceptions and system calls taken by the code that
    runs on it. *)
From stdpp Require Import strings.
From S2P Require Import Prelude Memory Machine Vga Console Multiboot Pmm Heap Vmm Vfs Ramfs Arch Keyboard Timer Process Scheduler Syscall Exec Kmain Ulib Uprog Shell ShellSpec Boot Interrupt.

(** ** The gates *)

(** The stubs have addresses of their own. *)
Definition stubs_ok (L : layout) : Prop :=
  (forall v, v ∈ vectors -> is_u32 (stub_addr L v)) /\
  forall v w, v ∈ vectors -> w ∈ vectors -> stub_addr L v = stub_addr L w -> v = w.

Lemma vectors_range v : v ∈ vectors -> 0 <= v < 48 \/ v = 128.
Proof.
  intros Hv. unfold vectors in Hv. apply elem_of_app in Hv as [Hv|Hv%list_elem_of_singleton]; [left | by right].
  apply list_elem_of_fmap in Hv as (i & -> & Hi). apply elem_of_seq in Hi. lia.
Qed.

Lemma booted_gates L base fl c y : booted L base fl c y -> stubs_ok L -> gates_ok L (sys_idt y).
Proof.
  intros HY [Hu Hinj]. split; [| exact Hinj]. intros v Hv. specialize (Hu v Hv). pose proof (vectors_range v Hv) as Hr.
  cbv zeta. rewrite (bt_gates _ _ _ _ _ HY) by lia. unfold boot_gate, stub_addr in *. repeat zcase; try lia;
    (split; [reflexivity |]); (split; [by apply gate_offset_gate | reflexivity]).
Qed.

(** ** What interrupts change *)

Lemma framed_frame {F} tss v err ret c (k : kstate F) x :
  stack_room tss c -> x < frame_ptr tss c - 8 \/ trap_stack tss c <= x ->
  ld8 (k_ram (framed tss v err ret c k)) x = ld8 (k_ram k) x.
Proof.
  intros Hroom Hx. unfold stack_room in Hroom. pose proof (frame_words_len tss v err ret c) as Hlen.
  assert (Hp : trap_stack tss c - frame_ptr tss c <= 60) by (unfold frame_ptr; destruct (x_cs c mod 4 =? 0); lia).
  apply (asm_pushes_spec (frame_words tss v err ret c) (trap_stack tss c) (k_ram k)); lia.
Qed.

(** Code in ring 0 with the kernel's data segments is resumed as it was. *)
Lemma resumed_kernel gdt c :
  x_cs c mod 4 = 0 -> x_ds c = 0x10 -> x_es c = 0x10 -> x_fs c = 0x10 -> x_gs c = 0x10 -> resumed gdt (x_eax c) c = c.
Proof.
  intros Hr H1 H2 H3 H4. unfold resumed. rewrite Hr. cbn [Z.eqb]. destruct c. cbn in *. by subst.
Qed.

Lemma resumed_kernel_eax gdt a c :
  x_cs c mod 4 = 0 -> x_ds c = 0x10 -> x_es c = 0x10 -> x_fs c = 0x10 -> x_gs c = 0x10 -> resumed gdt a c = set_xeax a c.
Proof.
  intros Hr H1 H2 H3 H4. unfold resumed. rewrite Hr. cbn [Z.eqb]. destruct c. cbn in *. by subst.
Qed.

(** The caller of a system call goes on with the result [a] in EAX and every
    other general register, EIP, CS, EFLAGS, ESP and SS as they were; but the
    data segments are the kernel's in ring 0 and null in an outer ring. *)
Definition goes_on (a : Z) (c c' : xcpu) : Prop :=
  let s := if x_cs c mod 4 =? 0 then 0x10 else 0 in
  x_eax c' = a /\ x_ecx c' = x_ecx c /\ x_edx c' = x_edx c /\ x_ebx c' = x_ebx c /\ x_esp c' = x_esp c /\ x_ebp c' = x_ebp c /\
  x_esi c' = x_esi c /\ x_edi c' = x_edi c /\ x_eip c' = x_eip c /\ x_cs c' = x_cs c /\ x_eflags c' = x_eflags c /\ x_ss c' = x_ss c /\
  x_ds c' = s /\ x_es c' = s /\ x_fs c' = s /\ x_gs c' = s.

Lemma resumed_goes_on gdt a c : boot_segments gdt -> goes_on a c (resumed gdt a c).
Proof.
  intros Hg. assert (E : outer_seg gdt 0x10 = 0) by (unfold outer_seg; change (0x10 / 8) with 2; rewrite Hg by lia; reflexivity).
  unfold goes_on, resumed. rewrite E. destruct c. repeat (split; [reflexivity |]). reflexivity.
Qed.

(** The two handlers are functions of their own. *)
Definition handlers_ok (L : layout) : Prop :=
  l_timer_irq L <> 0 /\ l_keyboard_irq L <> 0 /\ l_timer_irq L <> l_keyboard_irq L.

Definition eoi (line : Z) : list ioev := Outb PIC1_CMD PIC_EOI :: (if 8 <=? line then [Outb PIC2_CMD PIC_EOI] else []).

(** What a line's interrupt does to the kernel. *)
Lemma handle_irq_spec {F} L line scancode (k : kstate F) :
  handlers_ok L -> 0 <= line < 16 ->
  handle_irq L (l_timer_irq L :: l_keyboard_irq L :: replicate 14 0) scancode (32 + line) k =
  K (if line =? 0 then set_clock (timer_tick (clock (k_sched k))) (k_sched k) else k_sched k)
    (if line =? 1 then keyboard_irq_handler scancode (k_kbd k) else k_kbd k)
    (k_vfs k) (k_fs k) (k_pmm k) (k_irqs k)
    (Mach (k_ram k) (vga_mem (k_mach k)) (vga_col (k_mach k)) (vga_row (k_mach k)) (vga_color (k_mach k)) (eoi line ++ io (k_mach k))).
Proof.
  intros (H1 & H2 & H3) Hl. unfold handle_irq, irq_handler. cbn [fst snd]. replace (32 + line - 32) with line by lia.
  rewrite u8_small by lia. replace (line <? 16) with true by lia. cbn [andb].
  assert (Hm : pic_send_eoi line (k_mach k) =
    Mach (k_ram k) (vga_mem (k_mach k)) (vga_col (k_mach k)) (vga_row (k_mach k)) (vga_color (k_mach k)) (eoi line ++ io (k_mach k)))
    by (unfold pic_send_eoi, eoi; by destruct (8 <=? line)).
  rewrite Hm. destruct (Z.eq_dec line 0) as [->|Hn0]; [| destruct (Z.eq_dec line 1) as [->|Hn1]].
  - change (aget 0 _ 0) with (l_timer_irq L). unfold ctrue. replace (l_timer_irq L =? 0) with false by lia. cbn [negb call_irq].
    rewrite Z.eqb_refl. reflexivity.
  - change (aget 0 _ 1) with (l_keyboard_irq L). unfold ctrue. replace (l_keyboard_irq L =? 0) with false by lia. cbn [negb call_irq].
    replace (l_keyboard_irq L =? l_timer_irq L) with false by lia. rewrite Z.eqb_refl. reflexivity.
  - assert (E : aget 0 (l_timer_irq L :: l_keyboard_irq L :: replicate 14 0) line = 0).
    { unfold aget. replace (Z.to_nat line) with (S (S (Z.to_nat (line - 2)))) by lia. cbn [lookup list_lookup].
      destruct (replicate 14 0 !! Z.to_nat (line - 2)) eqn:E; [| done]. by apply lookup_replicate in E as [-> _]. }
    rewrite E. cbn [ctrue Z.eqb negb]. replace (line =? 0) with false by lia. by replace (line =? 1) with false by lia.
Qed.

(** ** A booted machine *)

Lemma demo_booted : exists y, kmain demo_layout MULTIBOOT_BOOTLOADER_MAGIC 0x9000 0x11 demo_boot = Some (Ret (true, y)) /\
  booted demo_layout 0x183000 demo_files demo_program y.
Proof.
  pose proof (kmain_spec demo_layout 0x9000 0x11 demo_mmap demo_files demo_program demo_boot demo_layout_ok demo_boot_ok) as H.
  cbv zeta in H. rewrite demo_info_eq, demo_base in H. destruct H as (y & H1 & H2 & _).
  - reflexivity.
  - exact demo_shell_in.
  - exact demo_program_some.
  - exists y. split; [exact H1 | exact H2].
Qed.

Lemma demo_stubs_ok : stubs_ok demo_layout.
Proof.
  split.
  - intros v Hv. apply vectors_range in Hv. unfold is_u32, stub_addr, demo_layout. cbn [l_isr l_irq]. repeat zcase; lia.
  - intros v w Hv Hw. apply vectors_range in Hv, Hw. unfold stub_addr, demo_layout. cbn [l_isr l_irq]. repeat zcase; lia.
Qed.

Lemma demo_handlers_ok : handlers_ok demo_layout.
Proof. unfold handlers_ok, demo_layout. cbn. lia. Qed.

(** Code in the shell, on the boot stack; a program in ring 3. *)
Definition demo_xcpu : xcpu := Xcpu 6 0 0 0 0x17D000 0 0 0 0x600010 0x08 0x202 0x10 0x10 0x10 0x10 0x10.
Definition demo_xcpu3 : xcpu := Xcpu 1 2 3 4 0xBFFFFF00 5 6 7 0x400010 0x1B 0x202 0x23 0x23 0x23 0x23 0x23.
Definition demo_tss : ram := st32 (st32 ∅ tss_ss0 0x10) tss_esp0 0x17F000.

Lemma demo_xcpu_wf : xcpu_wf demo_xcpu /\ stack_room demo_tss demo_xcpu.
Proof. unfold xcpu_wf, stack_room, is_u32. vm_compute. intuition congruence. Qed.

Lemma demo_xcpu3_wf : xcpu_wf demo_xcpu3 /\ stack_room demo_tss demo_xcpu3.
Proof. unfold xcpu_wf, stack_room, is_u32. vm_compute. intuition congruence. Qed.

(** ** Properties *)

(** C17. Interrupts are transparent: after boot, a hardware interrupt on any line,
    taken through the processor, the gate, the assembly stub and the C handler,
    always returns to the interrupted code with every general register, EIP,
    CS, EFLAGS, ESP and SS as they were (code with the kernel's data segments
    resumes exactly as it was), having counted one tick (timer), buffered one
    key (keyboard) or nothing (other lines), acknowledged the interrupt at the
    PIC, and changed no byte of RAM outside its stack frame. *)
Theorem interrupts_transparent {F} (L : layout) (base : Z) (fl : list (list Z * list Z)) (prog : list Z) (y : system)
    (gdt : list gdt_entry_t) (tss : ram) (line scancode cr2 ret : Z) (c : xcpu) (k : kstate F) :
  booted L base fl prog y -> stubs_ok L -> handlers_ok L -> xcpu_wf c -> stack_room tss c -> 0 <= line < 16 ->
  exists k', interrupt L gdt (sys_idt y) tss (sys_handlers y) false (32 + line) 0 scancode cr2 ret c k =
      Some (Ret (Done (resumed gdt (x_eax c) c) k')) /\
    (x_cs c mod 4 = 0 -> x_ds c = 0x10 -> x_es c = 0x10 -> x_fs c = 0x10 -> x_gs c = 0x10 -> resumed gdt (x_eax c) c = c) /\
    k_sched k' = (if line =? 0 then set_clock (timer_tick (clock (k_sched k))) (k_sched k) else k_sched k) /\
    k_kbd k' = (if line =? 1 then keyboard_irq_handler scancode (k_kbd k) else k_kbd k) /\
    k_vfs k' = k_vfs k /\ k_fs k' = k_fs k /\ k_pmm k' = k_pmm k /\ term_of (k_mach k') = term_of (k_mach k) /\
    io (k_mach k') = eoi line ++ io (k_mach k) /\
    forall x, x < frame_ptr tss c - 8 \/ trap_stack tss c <= x -> ld8 (k_ram k') x = ld8 (k_ram k) x.
Proof.
  intros HY HS HH Hc Hroom Hl. rewrite (bt_handlers HY). eexists. split.
  { rewrite (irq_spec L gdt (sys_idt y) tss _ (booted_gates _ _ _ _ _ HY HS)) by (done || lia). by rewrite handle_irq_spec by done. }
  split; [apply resumed_kernel |]. do 7 (split; [reflexivity |]). intros x Hx. by apply (framed_frame tss (32 + line) 0 ret c k x Hroom).
Qed.

Lemma interrupts_transparent_witness :
  exists y k', interrupt demo_layout [] (sys_idt y) demo_tss (sys_handlers y) false 32 0 0 0 0x101800 demo_xcpu (user_state [] y) =
      Some (Ret (Done demo_xcpu k')) /\ tick_count (clock (k_sched k')) = 1.
Proof.
  destruct demo_booted as (y & _ & HY). exists y.
  destruct (interrupts_transparent demo_layout 0x183000 demo_files demo_program y [] demo_tss 0 0 0 0x101800 demo_xcpu (user_state [] y))
    as (k' & H1 & H2 & H3 & _).
  - exact HY.
  - exact demo_stubs_ok.
  - exact demo_handlers_ok.
  - apply demo_xcpu_wf.
  - apply demo_xcpu_wf.
  - lia.
  - exists k'. split; [rewrite <- (H2 eq_refl eq_refl eq_refl eq_refl eq_refl) at 2; exact H1 |].
    rewrite H3. cbn [Z.eqb user_state k_sched]. rewrite (bt_clock HY). reflexivity.
Defined.

(** C18. A system call is a function call: after boot, [int 0x80] in any ring runs
    exactly what the wrappers' model [int80] runs on the caller's EAX, EBX, ECX
    and EDX.  Provided the call, if it returns, has not overwritten the 60 bytes
    of its own stack frame, a call that returns lets the caller go on after the
    instruction with the result in EAX and every other general register, EIP,
    CS, EFLAGS, ESP and SS as they were, the data segments being the kernel's in
    ring 0 (code that had them loses nothing) and null selectors in an outer
    ring; a call that blocks, exits or has no defined result does so for the
    caller. *)
Theorem syscalls_return {F} (L : layout) (base : Z) (fl : list (list Z * list Z)) (prog : list Z) (y : system)
    (tss : ram) (scancode cr2 ret : Z) (c : xcpu) (k : kstate F) :
  booted L base fl prog y -> stubs_ok L -> xcpu_wf c -> stack_room tss c ->
  let p := frame_ptr tss c in
  let k1 := framed tss 128 0 ret c k in
  let res := int80 (x_eax c) (x_ebx c) (x_ecx c) (x_edx c) k1 in
  (forall a k2, res = Done a k2 -> forall i, 0 <= i < 60 -> ld8 (k_ram k2) (p + i) = ld8 (k_ram k1) (p + i)) ->
  exists res', interrupt L (sys_gdt y) (sys_idt y) tss (sys_handlers y) true 128 0 scancode cr2 ret c k = Some (Ret res') /\
    match res with
    | Done a k2 =>
        exists c', res' = Done c' (upd_mach (mst32 (p + 28) a) k2) /\ goes_on a c c' /\
          (x_cs c mod 4 = 0 -> x_ds c = 0x10 -> x_es c = 0x10 -> x_fs c = 0x10 -> x_gs c = 0x10 -> c' = set_xeax a c)
    | Blocks => res' = Blocks
    | Undef => res' = Undef
    | Exits k2 sw => res' = Exits k2 sw
    end.
Proof.
  intros HY HS Hc Hroom p k1 res Hkept. eexists.
  split; [exact (syscall_spec L (sys_gdt y) (sys_idt y) tss _ (booted_gates _ _ _ _ _ HY HS) scancode cr2 ret c k Hc Hroom Hkept) |].
  fold p k1 res. unfold after_syscall. destruct res as [a k2| | |k2 sw]; try reflexivity.
  eexists. split; [reflexivity |]. split; [apply resumed_goes_on, (bt_segments HY) |]. intros. by apply resumed_kernel_eax.
Qed.

(** [getpid] from the shell. *)
Lemma syscalls_return_witness :
  exists y k', interrupt demo_layout (sys_gdt y) (sys_idt y) demo_tss (sys_handlers y) true 128 0 0 0 0x101800 demo_xcpu (user_state [] y) =
      Some (Ret (Done (set_xeax 0 demo_xcpu) k')).
Proof.
  destruct demo_booted as (y & _ & HY). exists y.
  pose proof (syscalls_return demo_layout 0x183000 demo_files demo_program y demo_tss 0 0 0x101800 demo_xcpu (user_state [] y) HY demo_stubs_ok
    (proj1 demo_xcpu_wf) (proj2 demo_xcpu_wf)) as H. cbv zeta in H.
  set (k1 := framed demo_tss 128 0 0x101800 demo_xcpu (user_state [] y)) in *.
  assert (E : int80 (x_eax demo_xcpu) (x_ebx demo_xcpu) (x_ecx demo_xcpu) (x_edx demo_xcpu) k1 = Done 0 k1).
  { unfold int80, syscall_handler. cbn [r_eax demo_xcpu x_eax Z.eqb Pos.eqb u32 SYS_WRITE SYS_READ SYS_OPEN SYS_CLOSE SYS_EXIT SYS_GETPID].
    assert (Hp : sys_getpid k1 = 0); [| cbn; by rewrite Hp].
    unfold sys_getpid. assert (Hcur : cur_proc k1 = 0x183010) by (unfold cur_proc, scheduler_current; exact (proj1 (proj2 (proj2 (bt_queue HY))))).
    rewrite Hcur. cbn [Z.eqb]. destruct (bt_idle HY) as (Hpid & _). unfold p_pid, ld32 in *.
    rewrite !(framed_frame demo_tss 128 0 0x101800 demo_xcpu (user_state [] y)) by (apply demo_xcpu_wf || (right; vm_compute; congruence)). exact Hpid. }
  rewrite E in H. destruct H as (res' & H1 & c' & -> & _ & H2); [intros a k2 [= <- <-]; done |].
  rewrite H2 in H1 by reflexivity. eexists. exact H1.
Defined.

(** C19. Faults stop the machine: after boot, every processor exception (vectors 0
    to 31, with or without an error code) ends in [khalt] after a report of the
    faulting code's own registers and error code, whatever ring it ran in. *)
Theorem exceptions_halt {F} (L : layout) (base : Z) (fl : list (list Z * list Z)) (prog : list Z) (y : system)
    (gdt : list gdt_entry_t) (tss : ram) (v err scancode cr2 ret : Z) (c : xcpu) (k : kstate F) :
  booted L base fl prog y -> stubs_ok L -> xcpu_wf c -> stack_room tss c -> 0 <= v < 32 -> is_u32 err ->
  exists g, interrupt L gdt (sys_idt y) tss (sys_handlers y) false v err scancode cr2 ret c k =
      Some (khalt (exception_report cr2 g (k_mach (framed tss v err ret c k)))) /\
    r_int_no g = v /\ r_err_code g = (if pushes_error v then err else 0) /\
    r_eip g = x_eip c /\ r_cs g = x_cs c /\ r_eflags g = x_eflags c /\
    r_eax g = x_eax c /\ r_ebx g = x_ebx c /\ r_ecx g = x_ecx c /\ r_edx g = x_edx c /\
    r_esi g = x_esi c /\ r_edi g = x_edi c /\ r_ebp g = x_ebp c.
Proof.
  intros HY HS Hc Hroom Hv He.
  destruct (exception_spec L gdt (sys_idt y) tss (sys_handlers y) (booted_gates _ _ _ _ _ HY HS) v err scancode cr2 ret c k Hc Hroom Hv He)
    as (u & s & E). eexists. split; [exact E |]. done.
Qed.

(** A page fault of a program in ring 3. *)
Lemma exceptions_halt_witness :
  exists y g, interrupt demo_layout [] (sys_idt y) demo_tss (sys_handlers y) false 14 6 0 0xDEAD000 0x101800 demo_xcpu3 (user_state [] y) =
      Some (khalt (exception_report 0xDEAD000 g (k_mach (framed demo_tss 14 6 0x101800 demo_xcpu3 (user_state [] y))))) /\
    r_int_no g = 14 /\ r_err_code g = 6 /\ r_eip g = 0x400010.
Proof.
  destruct demo_booted as (y & _ & HY). exists y.
  destruct (exceptions_halt demo_layout 0x183000 demo_files demo_program y [] demo_tss 14 6 0 0xDEAD000 0x101800 demo_xcpu3 (user_state [] y))
    as (g & H1 & H2 & H3 & H4 & _).
  - exact HY.
  - exact demo_stubs_ok.
  - apply demo_xcpu3_wf.
  - apply demo_xcpu3_wf.
  - lia.
  - unfold is_u32. lia.
  - exists g. split; [exact H1 |]. split; [exact H2 |]. split; [exact H3 | exact H4].
Defined.

(** C39. The stubs do not restore the data segments (a flaw): with the segments
    [gdt_init] builds, code in ring 3 that is interrupted on any line goes on
    with null selectors in DS, ES, FS and GS, whatever it had in them, because
    the stub loads the kernel's selector, never saves the old one, and [iret] to
    an outer ring clears selectors of a more privileged segment. *)
Theorem ring3_loses_data_segments {F} (L : layout) (base : Z) (fl : list (list Z * list Z)) (prog : list Z) (y : system)
    (line scancode cr2 ret : Z) (c : xcpu) (k : kstate F) :
  booted L base fl prog y -> stubs_ok L -> xcpu_wf c -> stack_room (tss (sys_sched y)) c -> 0 <= line < 16 -> x_cs c mod 4 = 3 ->
  exists c' k', interrupt L (sys_gdt y) (sys_idt y) (tss (sys_sched y)) (sys_handlers y) false (32 + line) 0 scancode cr2 ret c k =
      Some (Ret (Done c' k')) /\
    x_eip c' = x_eip c /\ x_esp c' = x_esp c /\ x_ds c' = 0 /\ x_es c' = 0 /\ x_fs c' = 0 /\ x_gs c' = 0.
Proof.
  intros HY HS Hc Hroom Hl Hr.
  rewrite (irq_spec L (sys_gdt y) (sys_idt y) _ _ (booted_gates _ _ _ _ _ HY HS)) by (done || lia).
  do 2 eexists. split; [reflexivity |]. unfold resumed. replace (x_cs c mod 4 =? 0) with false by lia.
  assert (E : outer_seg (sys_gdt y) 0x10 = 0) by (unfold outer_seg; change (0x10 / 8) with 2; rewrite (bt_segments HY) by lia; reflexivity).
  rewrite E. done.
Qed.

Lemma ring3_loses_data_segments_witness :
  exists y c' k', interrupt demo_layout (sys_gdt y) (sys_idt y) (tss (sys_sched y)) (sys_handlers y) false 32 0 0 0 0x101800 demo_xcpu3 (user_state [] y) =
      Some (Ret (Done c' k')) /\ x_ds demo_xcpu3 = 0x23 /\ x_ds c' = 0.
Proof.
  destruct demo_booted as (y & _ & HY). exists y.
  destruct (ring3_loses_data_segments demo_layout 0x183000 demo_files demo_program y 0 0 0 0x101800 demo_xcpu3 (user_state [] y)) as (c' & k' & H1 & _ & _ & H2 & _).
  - exact HY.
  - exact demo_stubs_ok.
  - apply demo_xcpu3_wf.
  - unfold stack_room, trap_stack. destruct (bt_tss HY) as [E _]. cbn [demo_xcpu3 x_cs]. change (0x1B mod 4 =? 0) with false. rewrite E. vm_compute. split; congruence.
  - lia.
  - reflexivity.
  - exists c', k'. split; [exact H1 |]. split; [reflexivity | exact H2].
Defined.
