(* ===== verification/Invariant.v ===== *)
(** * Invariant: what every system call keeps

    The invariant of the kernel's state [kernel_ok] over a heap, the processes
    in it and the page tables, and its preservation by each system call, for
    callers that are not trusted beyond giving buffers outside the memory
    [in_kernel].  Every call is shown to end well, no branch of undefined
    behaviour taken, but the write that [overruns] a file. *)
From stdpp Require Import strings.
From S2P Require Import Prelude Memory Machine Vga Console Multiboot Pmm Heap Vmm Vfs Ramfs Arch Keyboard Timer Process Scheduler Syscall Exec Kmain Ulib Uprog Boot.

(** ** Descriptors and files *)

(** An open descriptor is on a file that exists, at a position inside it. *)
Definition fd_ok (fs : ramfs) (r : ram) (p i : Z) : Prop :=
  ctrue (fd_in_use p i r) = true -> 0 <= fd_file_idx p i r ->
  live fs (fd_file_idx p i r) = true /\ fd_offset p i r <= size (file fs (fd_file_idx p i r)).

(** The standard streams are never files. *)
Definition fds_ok (fs : ramfs) (r : ram) (p : Z) : Prop :=
  (forall i, 0 <= i < MAX_FDS -> fd_ok fs r p i) /\ forall i, 0 <= i < 3 -> fd_is p r i (-1) 0 1.

Lemma std_fds_ok fs r p : std_fds p r -> fds_ok fs r p.
Proof.
  intros H. split; intros i Hi.
  - destruct (H i Hi) as (E & _). unfold fd_ok. rewrite E. lia.
  - specialize (H i). replace (i <? 3) with true in H by lia. apply H. unfold MAX_FDS. lia.
Qed.

(** Files are not removed and do not shrink. *)
Definition fs_grows (fs fs' : ramfs) : Prop :=
  forall j, live fs j = true -> live fs' j = true /\ size (file fs j) <= size (file fs' j).

#[export] Instance fs_grows_preorder : PreOrder fs_grows.
Proof.
  split; [intros fs j Hj; split; [done | lia] |]. intros a b c H1 H2 j Hj. destruct (H1 j Hj) as [Hb ?], (H2 j (proj1 (H1 j Hj))). split; [done | lia].
Qed.

Lemma fd_ok_kept fs fs' r r' p i :
  fd_ok fs r p i -> fs_grows fs fs' -> (forall x, fd_addr p i <= x < fd_addr p i + FD_SIZE -> ld8 r' x = ld8 r x) -> fd_ok fs' r' p i.
Proof.
  intros H Hg Hr. unfold fd_ok, fd_in_use, fd_file_idx, fd_offset, ld32, FD_SIZE in *. rewrite !Hr by lia.
  intros H1 H2. destruct (H H1 H2) as [Hl Ho]. destruct (Hg _ Hl). split; [done | lia].
Qed.

Lemma fd_is_kept r r' p i a b c :
  fd_is p r i a b c -> (forall x, fd_addr p i <= x < fd_addr p i + FD_SIZE -> ld8 r' x = ld8 r x) -> fd_is p r' i a b c.
Proof.
  intros H Hr. unfold fd_is, fd_in_use, fd_file_idx, fd_offset, ld32, FD_SIZE in *. by rewrite !Hr by lia.
Qed.

(** Any write that starts inside a file and does not wrap. *)
Lemma ramfs_write_any fs i buf off len r :
  fs_wf fs -> live fs i = true -> 0 <= off <= size (file fs i) -> 0 <= len -> off + len < W32 ->
  let n := Z.min len (RAMFS_MAX_FILE_SIZE - off) in
  exists f', ramfs_write i buf off len r fs = Some (n, aset fs i f') /\ file_wf f' /\ name f' = name (file fs i) /\
    used f' = used (file fs i) /\ size f' = Z.max (size (file fs i)) (off + n).
Proof.
  intros Hwf Hl Ho Hlen Hw n. pose proof (file_wf_at fs i Hwf) as [Hn Hsz]. unfold live, is_used in Hl. rewrite !andb_true_iff in Hl.
  destruct Hl as [[Hi0 Hi1] Hu]. unfold ramfs_write, RAMFS_MAX_FILES, RAMFS_MAX_FILE_SIZE in *.
  replace ((i <? 0) || (64 <=? i)) with false by lia. rewrite Hu. cbn [negb].
  assert (En : (if 32 * 1024 <? u32 (off + len) then u32 (32 * 1024 - off) else len) = n)
    by (rewrite (u32_small (off + len)), (u32_small (32 * 1024 - off)) by lia; destruct (Z.ltb_spec (32 * 1024) (off + len)); lia).
  rewrite En. replace ((0 <? n) && (32 * 1024 <? off + n)) with false by lia. rewrite (u32_small (off + n)), s32_small by (unfold is_s32; lia).
  eexists. split; [reflexivity |]. cbn [name used size]. unfold file_wf. cbn [name size].
  assert (Es : (if size (file fs i) <? off + n then off + n else size (file fs i)) = Z.max (size (file fs i)) (off + n))
    by (destruct (Z.ltb_spec (size (file fs i)) (off + n)); lia).
  rewrite Es. split_and!; try done; unfold RAMFS_MAX_FILE_SIZE; lia.
Qed.

Lemma fs_grows_aset fs i f : fs_wf fs -> 0 <= i < 64 -> used f = used (file fs i) -> size (file fs i) <= size f -> fs_grows fs (aset fs i f).
Proof.
  intros Hwf Hi Hu Hs j Hj. unfold live, is_used in *. rewrite !andb_true_iff in *. destruct Hj as [[Hj0 Hj1] Hj].
  rewrite file_aset by (done || lia). destruct (Z.eqb_spec j i) as [->|]; [rewrite Hu |]; split_and!; try done; lia.
Qed.

(** A listing stays in its buffer. *)
Lemma readdir_frame n i count entries max fs r x :
  0 <= count -> 0 <= entries -> entries + DIRENT_SIZE * max <= W32 -> x < entries \/ entries + DIRENT_SIZE * max <= x ->
  ld8 (readdir_loop n i count entries max fs r).2 x = ld8 r x.
Proof.
  revert i count r. induction n as [|n IH]; intros i count r Hc He Hw Hx; cbn [readdir_loop]; [done |].
  destruct (Z.ltb_spec count max) as [Hlt|]; [| done]. destruct (ctrue _); rewrite IH by (done || lia); [| done].
  unfold put_dirent, DIRENT_SIZE in *. rewrite u32_small by lia. set (nm := take 63 _).
  assert (Hnm : 0 <= alen nm <= 63) by (unfold alen, nm; rewrite length_take; lia).
  rewrite ld8_st32_ne, ld8_st8_ne, ld8_fill8 by lia. zcase; [lia | done].
Qed.

Lemma ramfs_readdir_frame entries max fs r x :
  0 <= entries -> entries + DIRENT_SIZE * max <= W32 -> x < entries \/ entries + DIRENT_SIZE * max <= x ->
  ld8 (ramfs_readdir entries max fs r).2 x = ld8 r x.
Proof. intros He Hw Hx. unfold ramfs_readdir. apply readdir_frame; [lia | exact He | exact Hw | exact Hx]. Qed.

(** Waiting for a key. *)
Lemma ticks_in_range n t : is_u32 (tick_count t) -> is_u32 (tick_count (Nat.iter n timer_tick t)).
Proof. intros H. destruct n; [exact H | apply u32_range]. Qed.

Lemma getchar_keeps irqs s t m c s' irqs' t' m' :
  kbd_inv s -> Forall wake_ok irqs -> keyboard_getchar irqs s t m = Some (c, s', irqs', t', m') ->
  kbd_inv s' /\ Forall wake_ok irqs' /\ (is_u32 (tick_count t) -> is_u32 (tick_count t')) /\ ticks_per_second t' = ticks_per_second t /\
  (vga_wf m -> vga_wf m') /\ m_ram m' = m_ram m.
Proof.
  intros Hs Hw Hg. pose proof (getchar_delivers irqs s t m Hs Hw) as Hd. unfold delivers in Hd.
  destruct (getchar_mach _ _ _ _ _ _ _ _ _ Hg) as (Hr & V1 & V2 & V3 & V4 & l & Hl).
  destruct (arrivals s irqs) as [|[n c0] rest]; [congruence |]. destruct Hd as (s1 & irqs1 & m1 & Hg1 & Hi & _). rewrite Hg in Hg1.
  injection Hg1 as -> -> -> -> ->. subst irqs. apply Forall_app in Hw as [_ Hw]. split; [done |]. split; [done |].
  split; [apply ticks_in_range |]. split; [exact (waited_rate [(n, c0)] t) |]. split; [| done]. unfold vga_wf. by rewrite V1, V2, V3, V4.
Qed.

(** ** The kernel's memory *)

Section Kernel.
Context (L : layout) (h : heap) (bs : list ablk) (ps : list Z).

Definition in_header (x : Z) : Prop := exists q s u, In (q, s, u) (payloads (heap_start_addr h) bs) /\ q - 16 <= x < q.
Definition in_proc (x : Z) : Prop := exists p, p ∈ ps /\ p <= x < p + PROCESS_SIZE.

(** The block headers of the heap, the control blocks and the page tables: what
    programs must leave alone (other heap blocks are their stacks). *)
Definition in_kernel (x : Z) : Prop := in_header x \/ in_proc x \/ in_tables L x.

(** Where these are: every control block is a block of the heap, and the page
    tables lie below it. *)
Record placed : Prop := Placed {
  pl_live p : p ∈ ps -> exists sz, In (p, sz, true) (payloads (heap_start_addr h) bs) /\ PROCESS_SIZE <= sz;
  pl_sizes : Forall (fun b => 0 <= b_size b) bs;
  pl_tables x : in_tables L x -> x < heap_start_addr h;
  pl_few : (length ps <= S SEARCH_BOUND)%nat;
}.

Definition devices_ok (k : kstate ramfs) : Prop :=
  vga_wf (k_mach k) /\ kbd_inv (k_kbd k) /\ Forall wake_ok (k_irqs k) /\ is_u32 (tick_count (clock (k_sched k))) /\
  0 < ticks_per_second (clock (k_sched k)) /\ pmm_inv (k_pmm k).

Record kernel_ok (k : kstate ramfs) : Prop := KernelOk {
  ko_devices : devices_ok k;
  ko_heap : heap_inv h (k_ram k) bs;
  ko_paging : mapped L (k_ram k);
  ko_queue : run_queue (k_sched k) <> 0;
  ko_ring : exists rest, ring (k_ram k) (cur_proc k :: rest) /\ cur_proc k :: rest ≡ₚ ps;
  ko_mount : k_vfs k = vfs_mount ramfs_ops;
  ko_files : fs_wf (k_fs k) /\ names_unique (k_fs k);
  ko_fds p : p ∈ ps -> fds_ok (k_fs k) (k_ram k) p;
}.

Context (HP : placed).

Lemma proc_apart_header p x : p ∈ ps -> p <= x < p + PROCESS_SIZE -> ~ in_header x.
Proof using HP.
  intros Hp Hx (q & s & u & Hq & Hqx). destruct (pl_live HP p Hp) as (sz & Hin & Hsz).
  destruct (Z.eq_dec q p) as [->|Hne]; [lia |].
  pose proof (payloads_disjoint _ _ _ _ _ _ _ _ (pl_sizes HP) Hin Hq Hne). pose proof (payloads_low _ _ _ _ _ (pl_sizes HP) Hq). lia.
Qed.

Lemma proc_apart_tables p x : p ∈ ps -> p <= x < p + PROCESS_SIZE -> ~ in_tables L x.
Proof using HP.
  intros Hp Hx Ht. destruct (pl_live HP p Hp) as (sz & Hin & _). apply (pl_tables HP) in Ht.
  pose proof (payloads_low _ _ _ _ _ (pl_sizes HP) Hin). lia.
Qed.

Lemma heap_kept r r' : heap_inv h r bs -> (forall x, in_header x -> ld8 r' x = ld8 r x) -> heap_inv h r' bs.
Proof using.
  intros (H1 & H2 & H3 & H4 & H5 & Hc & H6) Hr. split_and!; try done.
  eapply chain_headers; [exact Hc |]. intros q s u Hq x Hx. symmetry. apply Hr. by exists q, s, u.
Qed.

Lemma cur_in k : kernel_ok k -> cur_proc k ∈ ps.
Proof using. intros H. destruct (ko_ring k H) as (rest & _ & <-). apply list_elem_of_here. Qed.

Lemma procs_apart p q x y : p ∈ ps -> q ∈ ps -> p <> q -> p <= x < p + PROCESS_SIZE -> q <= y < q + PROCESS_SIZE -> x <> y.
Proof using HP.
  intros Hp Hq Hne Hx Hy. destruct (pl_live HP p Hp) as (s1 & H1 & ?), (pl_live HP q Hq) as (s2 & H2 & ?).
  pose proof (payloads_disjoint _ _ _ _ _ _ _ _ (pl_sizes HP) H1 H2 ltac:(congruence)). lia.
Qed.

(** A change of the state that reaches only the bytes [W] of the kernel's
    memory, all in control blocks, none in a link of the ring. *)
Lemma kernel_ok_change (W : Z -> Prop) k k' :
  kernel_ok k -> (forall x, W x -> in_proc x) -> (forall q o, q ∈ ps -> 28 <= o < 32 -> ~ W (q + o)) ->
  (forall x, in_kernel x -> ~ W x -> ld8 (k_ram k') x = ld8 (k_ram k) x) ->
  (forall q, q ∈ ps -> fds_ok (k_fs k') (k_ram k') q) -> devices_ok k' -> cur_proc k' ∈ ps ->
  run_queue (k_sched k') = run_queue (k_sched k) -> k_vfs k' = k_vfs k -> fs_wf (k_fs k') -> names_unique (k_fs k') ->
  kernel_ok k'.
Proof using HP.
  intros H HW Hn Hr Hfd Hd Hcur Hrq Hv Hwf Hu. split; try done.
  - eapply heap_kept; [apply H |]. intros x Hx. apply Hr; [by left |]. intros (p & Hp & Hpx)%HW. by apply (proc_apart_header p x).
  - eapply mapped_kept; [apply H |]. intros x Hx. apply Hr; [by right; right |]. intros (p & Hp & Hpx)%HW. by apply (proc_apart_tables p x).
  - rewrite Hrq. apply H.
  - destruct (ko_ring k H) as (rest & Hring & Hperm). rewrite <- Hperm in Hcur. apply list_elem_of_split in Hcur as (l1 & l2 & E).
    exists (l2 ++ l1). split; [| rewrite <- Hperm, E; by rewrite (Permutation_app_comm l1)].
    rewrite E in Hring. apply ring_rotate in Hring. eapply ring_same; [| exact Hring]. intros q Hq.
    assert (Hq' : q ∈ ps) by (rewrite <- Hperm, E, (Permutation_app_comm l1); by apply list_elem_of_In). unfold p_next, ld32.
    assert (Hb : forall o, 28 <= o < 32 -> ld8 (k_ram k') (q + o) = ld8 (k_ram k) (q + o)).
    { intros o Ho. apply Hr; [| by apply Hn]. right. left. exists q. split; [done |]. unfold PROCESS_SIZE. lia. }
    rewrite <- !Z.add_assoc, !Hb by lia. done.
  - rewrite Hv. apply H.
Qed.

Lemma fd_range p i : 0 <= i < MAX_FDS -> p + 32 <= fd_addr p i /\ fd_addr p i + FD_SIZE <= p + PROCESS_SIZE.
Proof using. unfold fd_addr, FD_SIZE, PROCESS_SIZE, MAX_FDS. lia. Qed.

(** Descriptors elsewhere survive. *)
Lemma fds_kept (W : Z -> Prop) fs fs' r r' q :
  fds_ok fs r q -> fs_grows fs fs' -> (forall x, q + 32 <= x < q + PROCESS_SIZE -> ~ W x -> ld8 r' x = ld8 r x) ->
  (forall i x, 0 <= i < 3 -> fd_addr q i <= x < fd_addr q i + FD_SIZE -> ~ W x) ->
  (forall i, 0 <= i < MAX_FDS -> fd_ok fs' r' q i \/ forall x, fd_addr q i <= x < fd_addr q i + FD_SIZE -> ~ W x) -> fds_ok fs' r' q.
Proof using.
  intros [F1 F2] Hg Hr H3 Hw. split; intros i Hi.
  - pose proof (fd_range q i Hi). destruct (Hw i Hi) as [|Ho]; [done |]. eapply fd_ok_kept; [by apply F1 | done |].
    intros x Hx. apply Hr; [lia | by apply Ho].
  - pose proof (fd_range q i ltac:(unfold MAX_FDS; lia)). eapply fd_is_kept; [by apply F2 |]. intros x Hx. apply Hr; [lia | by apply (H3 i)].
Qed.

(** The change is in descriptor [i] of a process, which stays in order. *)
Lemma kernel_ok_fd k k' p i :
  kernel_ok k -> p ∈ ps -> 3 <= i < MAX_FDS ->
  (forall x, in_kernel x -> ~ fd_addr p i <= x < fd_addr p i + FD_SIZE -> ld8 (k_ram k') x = ld8 (k_ram k) x) ->
  fd_ok (k_fs k') (k_ram k') p i -> devices_ok k' -> cur_proc k' = cur_proc k -> run_queue (k_sched k') = run_queue (k_sched k) ->
  k_vfs k' = k_vfs k -> fs_wf (k_fs k') -> names_unique (k_fs k') -> fs_grows (k_fs k) (k_fs k') ->
  kernel_ok k'.
Proof using HP.
  intros H Hp Hi Hr Hfd Hd Hcur Hrq Hv Hwf Hu Hg. pose proof (fd_range p i ltac:(lia)) as Hrange.
  assert (Hne : forall q x, q ∈ ps -> q <> p -> q <= x < q + PROCESS_SIZE -> ~ fd_addr p i <= x < fd_addr p i + FD_SIZE).
  { intros q x Hq Hqp Hx Hf. by apply (procs_apart q p x x); try done; lia. }
  eapply (kernel_ok_change (fun x => fd_addr p i <= x < fd_addr p i + FD_SIZE)); try done.
  - intros x Hx. exists p. split; [done | lia].
  - intros q o Hq Ho. destruct (Z.eq_dec q p) as [->|Hqp]; [lia |]. apply (Hne q); [done | done | unfold PROCESS_SIZE; lia].
  - intros q Hq. eapply (fds_kept (fun x => fd_addr p i <= x < fd_addr p i + FD_SIZE)); [by apply (ko_fds k H) | done | | |].
    + intros x Hx. apply Hr. right. left. exists q. split; [done | lia].
    + intros j x Hj Hx. pose proof (fd_range q j ltac:(unfold MAX_FDS; lia)).
      destruct (Z.eq_dec q p) as [->|Hqp]; [unfold fd_addr, FD_SIZE in *; lia | apply (Hne q); [done | done | lia]].
    + intros j Hj. pose proof (fd_range q j Hj). destruct (Z.eq_dec q p) as [->|Hqp].
      * destruct (Z.eq_dec j i) as [->|Hji]; [by left |]. right. intros x Hx. unfold fd_addr, FD_SIZE in *. lia.
      * right. intros x Hx. apply (Hne q); [done | done | lia].
  - rewrite Hcur. by apply cur_in.
Qed.

(** The change is in the first 28 bytes of control blocks: identity, saved
    stack pointer, state and exit code. *)
Lemma kernel_ok_state k k' :
  kernel_ok k ->
  (forall x, in_kernel x -> (forall q, q ∈ ps -> ~ q <= x < q + 28) -> ld8 (k_ram k') x = ld8 (k_ram k) x) ->
  devices_ok k' -> cur_proc k' ∈ ps -> run_queue (k_sched k') = run_queue (k_sched k) -> k_vfs k' = k_vfs k -> k_fs k' = k_fs k ->
  kernel_ok k'.
Proof using HP.
  intros H Hr Hd Hcur Hrq Hv Hf. destruct (ko_files k H) as [Hwf Hu].
  assert (Hne : forall q x, q ∈ ps -> q + 28 <= x < q + PROCESS_SIZE -> ~ exists p, p ∈ ps /\ p <= x < p + 28).
  { intros q x Hq Hx (p & Hp & Hpx). destruct (Z.eq_dec p q) as [->|Hpq]; [lia |]. by apply (procs_apart p q x x); try done; unfold PROCESS_SIZE in *; lia. }
  eapply (kernel_ok_change (fun x => exists p, p ∈ ps /\ p <= x < p + 28)); rewrite ?Hf; try done.
  - intros x (p & Hp & Hx). exists p. split; [done |]. unfold PROCESS_SIZE. lia.
  - intros q o Hq Ho. apply (Hne q); [done |]. unfold PROCESS_SIZE. lia.
  - intros x Hx Hw. apply Hr; [done |]. intros q Hq Hqx. apply Hw. by exists q.
  - intros q Hq. eapply (fds_kept (fun x => exists p, p ∈ ps /\ p <= x < p + 28)); [by apply (ko_fds k H) | done | | |].
    + intros x Hx Hw. apply Hr; [right; left; exists q; split; [done | lia] |]. intros p Hp Hpx. apply Hw. by exists p.
    + intros j x Hj Hx. pose proof (fd_range q j ltac:(unfold MAX_FDS; lia)). apply (Hne q); [done | lia].
    + intros j Hj. right. intros x Hx. pose proof (fd_range q j Hj). apply (Hne q); [done | lia].
Qed.

(** A change outside the kernel's memory. *)
Lemma kernel_ok_outside k k' :
  kernel_ok k -> (forall x, in_kernel x -> ld8 (k_ram k') x = ld8 (k_ram k) x) ->
  devices_ok k' -> cur_proc k' = cur_proc k -> run_queue (k_sched k') = run_queue (k_sched k) ->
  k_vfs k' = k_vfs k -> k_fs k' = k_fs k -> kernel_ok k'.
Proof using HP.
  intros H Hr Hd Hcur Hrq Hv Hf. pose proof (cur_in k H) as Hc. destruct (ko_files k H) as [Hwf Hu].
  apply (kernel_ok_fd k k' (cur_proc k) 3); rewrite ?Hf; try done; [by intros x Hx _; apply Hr |].
  eapply fd_ok_kept; [apply (proj1 (ko_fds k H _ Hc)); unfold MAX_FDS; lia | done |]. intros x Hx. apply Hr. right. left. exists (cur_proc k).
  split; [done |]. unfold fd_addr, FD_SIZE, PROCESS_SIZE in *. lia.
Qed.

(** ** Console and files *)

(** A call that ends well returns, waits for input or exits; the state it leaves
    satisfies the invariant, and outside the kernel's memory only [W] changed.
    An exit switches from the caller to the new current process, if at all. *)
Definition ends_well (W : Z -> Prop) (k : kstate ramfs) (res : result Z ramfs) : Prop :=
  match res with
  | Done _ k' => kernel_ok k' /\ forall x, ~ in_kernel x -> ~ W x -> ld8 (k_ram k') x = ld8 (k_ram k) x
  | Blocks => True
  | Undef => False
  | Exits k' sw => kernel_ok k' /\ forall p q, sw = Some (p, q) -> p = cur_proc k /\ q = cur_proc k'
  end.

Lemma ends_refl W k a : kernel_ok k -> ends_well W k (Done a k).
Proof using. done. Qed.

(** Text on the screen. *)
Lemma sys_write_console k buf len fd :
  kernel_ok k -> fd = 1 \/ fd = 2 -> ends_well (fun _ => False) k (sys_write fd buf len k).
Proof using HP.
  intros H Hfd. unfold sys_write. replace ((fd =? 1) || (fd =? 2)) with true by lia. cbn [ends_well].
  match goal with |- context [upd_mach ?f k] => set (g := f) end. set (m' := g (k_mach k)). assert (Hm : vga_wf m' /\ m_ram m' = k_ram k).
  { apply (for_ind (fun _ m => vga_wf m /\ m_ram m = k_ram k)); [split; [apply (ko_devices k H) | done] |].
    intros j m _ [Hw Hr]. split; [by apply vga_putchar_spec | by rewrite m_ram_vga_putchar]. }
  destruct Hm as [Hw Hr].
  assert (Hram : forall x, ld8 (k_ram (upd_mach g k)) x = ld8 (k_ram k) x) by (intros x; unfold k_ram, upd_mach; cbn [k_mach]; fold m'; by rewrite Hr).
  split; [| intros x _ _; exact (Hram x)].
  apply (kernel_ok_outside k); try done. destruct (ko_devices k H) as (_ & Hd). by split.
Qed.

(** A usable descriptor is on a file, in bounds. *)
Lemma usable_file k fd :
  kernel_ok k -> 0 <= fd -> fd_usable fd k = true ->
  3 <= fd < MAX_FDS /\ live (k_fs k) (fd_file_idx (cur_proc k) fd (k_ram k)) = true /\
  0 <= fd_offset (cur_proc k) fd (k_ram k) <= size (file (k_fs k) (fd_file_idx (cur_proc k) fd (k_ram k))).
Proof using.
  intros H Hfd Hu. unfold fd_usable in Hu. rewrite !andb_true_iff in Hu. destruct Hu as (((_ & Hlt) & Huse) & Hidx).
  destruct (ko_fds k H _ (cur_in k H)) as [F1 F2].
  assert (H3 : 3 <= fd).
  { destruct (Z.lt_ge_cases fd 3); [| lia]. destruct (F2 fd ltac:(lia)) as (E & _). rewrite E in Hidx. lia. }
  split; [lia |]. destruct (F1 fd ltac:(lia) Huse ltac:(lia)) as [Hl Ho]. split; [done |].
  split; [apply ld32_range | done].
Qed.

(** Moving a position inside the file. *)
Lemma advance_ok k fd n :
  kernel_ok k -> 0 <= fd -> fd_usable fd k = true -> 0 <= n ->
  fd_offset (cur_proc k) fd (k_ram k) + n <= size (file (k_fs k) (fd_file_idx (cur_proc k) fd (k_ram k))) ->
  kernel_ok (advance fd n k) /\ forall x, ~ in_kernel x -> ld8 (k_ram (advance fd n k)) x = ld8 (k_ram k) x.
Proof using HP.
  intros H Hfd Hu Hn Hle. destruct (usable_file k fd H Hfd Hu) as (H3 & Hl & Ho). pose proof (cur_in k H) as Hc.
  pose proof (fd_range (cur_proc k) fd ltac:(lia)) as Ha. destruct (ko_files k H) as [Hwf Huq]. pose proof (file_wf_at (k_fs k) (fd_file_idx (cur_proc k) fd (k_ram k)) Hwf) as [_ Hsz].
  set (off := fd_offset (cur_proc k) fd (k_ram k)) in *. unfold RAMFS_MAX_FILE_SIZE in Hsz.
  assert (Hr : k_ram (advance fd n k) = st32 (k_ram k) (fd_addr (cur_proc k) fd + 4) (off + n))
    by (unfold advance; fold off; rewrite u32_small by lia; done). unfold FD_SIZE in Ha.
  split.
  - apply (kernel_ok_fd k _ (cur_proc k) fd); try done; [| | apply H].
    + intros x _ Hx. unfold FD_SIZE in Hx. rewrite Hr. apply ld8_st32_ne. lia.
    + rewrite Hr. change (k_fs (advance fd n k)) with (k_fs k). intros _ _. unfold fd_file_idx, fd_offset in *.
      rewrite ld32_st32_ne, ld32_st32_eq, u32_small by lia. done.
  - intros x Hx. rewrite Hr. apply ld8_st32_ne.
    destruct (Z.lt_ge_cases x (cur_proc k)); [lia |]. destruct (Z.lt_ge_cases x (cur_proc k + PROCESS_SIZE)); [| lia].
    exfalso. apply Hx. right. left. by exists (cur_proc k).
Qed.

(** The one call without a defined result: a write through a descriptor that is
    on a file, of a length that wraps the file's position. *)
Definition overruns (num fd len : Z) (k : kstate ramfs) : bool :=
  (num =? SYS_WRITE) && negb ((fd =? 1) || (fd =? 2)) && fd_usable fd k && (W32 <=? fd_offset (cur_proc k) fd (k_ram k) + len).

Lemma sys_write_overruns k fd buf len :
  kernel_ok k -> 0 <= fd -> is_u32 len -> overruns SYS_WRITE fd len k = true -> sys_write fd buf len k = Undef.
Proof using HP.
  intros H Hfd Hlen Ho. unfold overruns in Ho. rewrite Z.eqb_refl in Ho. cbn [andb] in Ho. rewrite !andb_true_iff in Ho. destruct Ho as [[Hn Hu] Hw].
  apply negb_true_iff in Hn. unfold sys_write. rewrite Hn, Hu. cbn [negb]. destruct (usable_file k fd H Hfd Hu) as (_ & Hl & Hr).
  destruct (ko_files k H) as [Hwf _]. pose proof (file_wf_at (k_fs k) (fd_file_idx (cur_proc k) fd (k_ram k)) Hwf) as [_ Hsz].
  unfold is_u32, RAMFS_MAX_FILE_SIZE in *. rewrite (ko_mount k H). cbn [vfs_mount vfs_write ramfs_ops write].
  rewrite ramfs_write_wraps; [done | done | unfold is_u32; lia | done | unfold RAMFS_MAX_FILE_SIZE; lia].
Qed.

Lemma sys_write_ends k fd buf len :
  kernel_ok k -> 0 <= fd -> 0 <= len -> overruns SYS_WRITE fd len k = false -> ends_well (fun _ => False) k (sys_write fd buf len k).
Proof using HP.
  intros H Hfd Hlen Hov. destruct (decide (fd = 1 \/ fd = 2)) as [|Hne]; [by apply sys_write_console |].
  assert (Hw : fd_usable fd k = true -> fd_offset (cur_proc k) fd (k_ram k) + len < W32).
  { intros Hu. unfold overruns in Hov. rewrite Z.eqb_refl, Hu in Hov. replace ((fd =? 1) || (fd =? 2)) with false in Hov by lia. cbn [andb negb] in Hov. lia. }
  unfold sys_write. replace ((fd =? 1) || (fd =? 2)) with false by lia. destruct (fd_usable fd k) eqn:Hu; [| by apply ends_refl]. cbn [negb].
  specialize (Hw eq_refl). destruct (usable_file k fd H Hfd Hu) as (H3 & Hl & Ho). destruct (ko_files k H) as [Hwf Huq].
  set (i := fd_file_idx (cur_proc k) fd (k_ram k)) in *. set (off := fd_offset (cur_proc k) fd (k_ram k)) in *.
  pose proof (file_wf_at (k_fs k) i Hwf) as [_ Hsz].
  destruct (ramfs_write_any (k_fs k) i buf off len (k_ram k) Hwf Hl Ho Hlen Hw) as (f' & Ew & Hf' & Hn & Hus & Hs).
  rewrite (ko_mount k H). cbn [vfs_mount vfs_write ramfs_ops write]. rewrite Ew. set (n := Z.min len (RAMFS_MAX_FILE_SIZE - off)) in *.
  assert (Hi : 0 <= i < 64) by (unfold live in Hl; lia).
  set (k1 := upd_fs (aset (k_fs k) i f') k).
  assert (Hk1 : kernel_ok k1).
  { assert (Hg : fs_grows (k_fs k) (aset (k_fs k) i f')) by (apply fs_grows_aset; try done; lia).
    apply (kernel_ok_fd k k1 (cur_proc k) 3); try done; [by apply cur_in | | apply H | by apply fs_wf_aset | by apply names_unique_update].
    eapply fd_ok_kept; [apply (proj1 (ko_fds k H _ (cur_in k H))); unfold MAX_FDS; lia | exact Hg | done]. }
  cbn [ends_well]. destruct (Z.ltb_spec 0 n); [| done].
  destruct (advance_ok k1 fd n Hk1 Hfd Hu ltac:(lia)) as [A1 A2]; [| by split; [| intros x Hx _; apply A2]].
  change (k_fs k1) with (aset (k_fs k) i f'). change (cur_proc k1) with (cur_proc k). change (k_ram k1) with (k_ram k). fold i off.
  rewrite file_aset, Z.eqb_refl by done. lia.
Qed.

(** A change of RAM outside the kernel's memory. *)
Lemma kernel_ok_ram k r : kernel_ok k -> (forall x, in_kernel x -> ld8 r x = ld8 (k_ram k) x) -> kernel_ok (upd_mach (set_ram (fun _ => r)) k).
Proof using HP. intros H Hr. apply (kernel_ok_outside k); try done. exact (ko_devices k H). Qed.

Lemma read_stdin_ok n buf i k k' :
  kernel_ok k -> 0 <= buf -> 0 <= i -> buf + i + Z.of_nat n <= W32 -> (forall x, buf + i <= x < buf + i + Z.of_nat n -> ~ in_kernel x) ->
  read_stdin n buf i k = Some k' ->
  kernel_ok k' /\ forall x, ~ buf + i <= x < buf + i + Z.of_nat n -> ld8 (k_ram k') x = ld8 (k_ram k) x.
Proof using HP.
  revert i k. induction n as [|n IH]; intros i k H Hb Hi Hw Hout; cbn [read_stdin]; [by intros [= <-] |].
  destruct (keyboard_getchar _ _ _ _) as [[[[[c kb] irqs] t] m]|] eqn:E; [| done]. cbn [mbind option_bind].
  destruct (ko_devices k H) as (D1 & D2 & D3 & D4 & D5 & D6). destruct (getchar_keeps _ _ _ _ _ _ _ _ _ D2 D3 E) as (E1 & E2 & E5 & E6 & E3 & E4).
  rewrite u32_small by lia. set (k1 := K _ _ _ _ _ _ _).
  assert (Hr : k_ram k1 = st8 (k_ram k) (buf + i) c) by (unfold k1, k_ram; cbn [k_mach]; by rewrite m_ram_mst8, E4).
  assert (Hf : forall x, x <> buf + i -> ld8 (k_ram k1) x = ld8 (k_ram k) x) by (intros x Hx; rewrite Hr; by apply ld8_st8_ne).
  intros Hrd. apply IH in Hrd as [A1 A2].
  - split; [done |]. intros x Hx. rewrite A2, Hf by lia. done.
  - apply (kernel_ok_outside k); try done.
    + intros x Hx. apply Hf. intros ->. by apply (Hout (buf + i)); [lia |].
    + unfold devices_ok, k1. cbn [k_mach k_kbd k_irqs k_sched k_pmm set_clock clock]. rewrite E6. exact (conj (E3 D1) (conj E1 (conj E2 (conj (E5 D4) (conj D5 D6))))).
  - done.
  - lia.
  - lia.
  - intros x Hx. apply Hout. lia.
Qed.

Lemma sys_read_ends k fd buf len :
  kernel_ok k -> 0 <= fd -> is_u32 len -> 0 <= buf -> buf + len <= W32 -> (forall x, buf <= x < buf + len -> ~ in_kernel x) ->
  ends_well (fun x => buf <= x < buf + len) k (sys_read fd buf len k).
Proof using HP.
  intros H Hfd Hlen Hb Hw Hout. pose proof Hlen as [Hl0 _]. unfold sys_read. destruct (Z.eqb_spec fd 0) as [->|Hne].
  { destruct (read_stdin _ _ _ _) as [k'|] eqn:E; [| done]. apply read_stdin_ok in E as [A1 A2]; try done; try lia.
    - split; [done |]. intros x _ Hx. apply A2. lia.
    - intros x Hx. apply Hout. lia. }
  destruct (fd_usable fd k) eqn:Hu; [| by apply ends_refl]. cbn [negb].
  destruct (usable_file k fd H Hfd Hu) as (H3 & Hl & Ho). destruct (ko_files k H) as [Hwf Huq].
  rewrite (ko_mount k H). cbn [vfs_mount vfs_read ramfs_ops read].
  set (i := fd_file_idx (cur_proc k) fd (k_ram k)) in *. set (off := fd_offset (cur_proc k) fd (k_ram k)) in *.
  pose proof (file_wf_at (k_fs k) i Hwf) as [_ Hsz]. unfold RAMFS_MAX_FILE_SIZE in Hsz.
  destruct (ramfs_read_spec (k_fs k) i buf off len (k_ram k) Hwf Hl ltac:(unfold is_u32; lia) Hlen Hb Hw) as (r' & Er & _ & Hf).
  rewrite Er. set (n := alen (slice _ off len)) in *.
  assert (Hn : n = Z.min len (Z.max 0 (size (file (k_fs k) i) - off)))
    by (unfold n; rewrite length_slice by lia; unfold contents; rewrite alen_bytes by lia; done).
  set (k1 := upd_mach (set_ram (fun _ => r')) k).
  assert (Hin : forall x, in_kernel x -> ld8 r' x = ld8 (k_ram k) x).
  { intros x Hx. apply Hf. destruct (Z.lt_ge_cases x buf); [lia |]. destruct (Z.lt_ge_cases x (buf + n)); [| lia].
    exfalso. apply (Hout x); [lia | done]. }
  assert (Hk1 : kernel_ok k1) by (by apply kernel_ok_ram).
  assert (Hfd1 : forall x, fd_addr (cur_proc k) fd <= x < fd_addr (cur_proc k) fd + FD_SIZE -> ld8 r' x = ld8 (k_ram k) x).
  { intros x Hx. apply Hin. right. left. exists (cur_proc k). split; [by apply cur_in |]. pose proof (fd_range (cur_proc k) fd ltac:(lia)). lia. }
  assert (Efd : fd_usable fd k1 = true /\ fd_file_idx (cur_proc k) fd r' = i /\ fd_offset (cur_proc k) fd r' = off).
  { unfold fd_usable. change (cur_proc k1) with (cur_proc k). change (k_ram k1) with r'. unfold i, off, fd_usable in *.
    unfold fd_in_use, fd_file_idx, fd_offset, ld32, FD_SIZE in *. rewrite !Hfd1 by lia. done. }
  destruct Efd as (U1 & U2 & U3). cbn [ends_well]. assert (Hk1f : forall x, ~ in_kernel x -> ~ buf <= x < buf + len -> ld8 r' x = ld8 (k_ram k) x) by (intros x _ Hx; apply Hf; lia).
  destruct (Z.ltb_spec 0 n); [| by split].
  destruct (advance_ok k1 fd n Hk1 Hfd U1 ltac:(lia)) as [A1 A2].
  - change (cur_proc k1) with (cur_proc k). change (k_ram k1) with r'. change (k_fs k1) with (k_fs k). rewrite U2, U3. lia.
  - split; [done |]. intros x Hx Hx2. rewrite A2 by done. by apply Hk1f.
Qed.

(** ** Descriptors *)

Lemma outside_fd k fd x : kernel_ok k -> 0 <= fd < MAX_FDS -> ~ in_kernel x -> ~ fd_addr (cur_proc k) fd <= x < fd_addr (cur_proc k) fd + FD_SIZE.
Proof using.
  intros H Hfd Hx Hf. pose proof (fd_range (cur_proc k) fd Hfd). apply Hx. right. left. exists (cur_proc k). split; [by apply cur_in | lia].
Qed.

(** Rewriting a descriptor of the current process. *)
Lemma kernel_ok_set_fd k m' fd i o u :
  kernel_ok k -> 3 <= fd < MAX_FDS -> fd_is (cur_proc k) (m_ram m') fd i o u -> same_but_fd (cur_proc k) fd (k_ram k) (m_ram m') ->
  vga_wf m' -> (ctrue u = true -> 0 <= i -> live (k_fs k) i = true /\ o <= size (file (k_fs k) i)) ->
  ends_well (fun _ => False) k (Done 0 (upd_mach (fun _ => m') k)).
Proof using HP.
  intros H Hfd (F1 & F2 & F3) Hs Hv Hok. destruct (ko_files k H) as [Hwf Huq].
  assert (Hf : forall x, ~ fd_addr (cur_proc k) fd <= x < fd_addr (cur_proc k) fd + FD_SIZE -> ld8 (m_ram m') x = ld8 (k_ram k) x) by (intros x Hx; apply Hs; lia).
  split.
  - apply (kernel_ok_fd k _ (cur_proc k) fd); try done.
    + by apply cur_in.
    + intros x _. apply Hf.
    + unfold fd_ok, k_ram, upd_mach. cbn [k_mach k_fs]. rewrite F1, F2, F3. exact Hok.
    + destruct (ko_devices k H) as (_ & Hd). exact (conj Hv Hd).
  - intros x Hx _. apply Hf. apply outside_fd; [done | lia | done].
Qed.

Lemma sys_open_ends k path : kernel_ok k -> ends_well (fun _ => False) k (sys_open path k).
Proof using HP.
  intros H. unfold sys_open. destruct (cur_proc k =? 0); [by apply ends_refl |].
  destruct (find_fd_spec (cur_proc k) (Z.to_nat (MAX_FDS - 3)) 3 (k_ram k)) as [[-> _]|(Hr & _)]; [by apply ends_refl |].
  set (fd := find_fd _ 3 _ _) in *. change (Z.of_nat (Z.to_nat (MAX_FDS - 3))) with 29 in Hr. replace (fd <? 0) with false by lia.
  rewrite (ko_mount k H). cbn [vfs_mount vfs_open ramfs_ops open]. set (path' := cstr_at _ _ _).
  destruct (ramfs_open_spec path' (k_fs k)) as [Hi Hl]. set (i := ramfs_open path' (k_fs k)) in *. destruct (Z.ltb_spec i 0); [by apply ends_refl |].
  destruct (set_fd_spec (cur_proc k) (k_mach k) fd i 0 1) as [F1 F2]; [unfold is_s32; lia | unfold is_u32; lia | unfold is_u8; lia |].
  apply (kernel_ok_set_fd k (set_fd (cur_proc k) fd i 0 1 (k_mach k)) fd i 0 1); try done; [apply (ko_devices k H) |].
  intros _ _. split; [by apply Hl |]. destruct (ko_files k H) as [Hwf _]. by apply (file_wf_at (k_fs k) i Hwf).
Qed.

Lemma sys_close_ends k fd : kernel_ok k -> ends_well (fun _ => False) k (sys_close fd k).
Proof using HP.
  intros H. unfold sys_close. destruct ((cur_proc k =? 0) || (fd <? 3) || (MAX_FDS <=? fd)) eqn:E; [by apply ends_refl |].
  destruct (negb _); [by apply ends_refl |]. cbv zeta. destruct (close_fd_spec (cur_proc k) (k_mach k) fd) as [F1 F2].
  apply (kernel_ok_set_fd k (set_fd_offset (cur_proc k) fd 0 (set_fd_file_idx (cur_proc k) fd (-1) (set_fd_in_use (cur_proc k) fd 0 (k_mach k)))) fd (-1) 0 0);
    try done; [lia | apply (ko_devices k H)].
Qed.

(** ** Information *)

(** RAM changes in a buffer outside the kernel's memory only. *)
Lemma ends_buffer k a r buf n :
  kernel_ok k -> (forall x, buf <= x < buf + n -> ~ in_kernel x) -> (forall x, x < buf \/ buf + n <= x -> ld8 r x = ld8 (k_ram k) x) ->
  ends_well (fun x => buf <= x < buf + n) k (Done a (upd_mach (set_ram (fun _ => r)) k)).
Proof using HP.
  intros H Hout Hr. split; [apply kernel_ok_ram; [done |] |].
  - intros x Hx. apply Hr. destruct (Z.lt_ge_cases x buf); [lia |]. destruct (Z.lt_ge_cases x (buf + n)); [| lia]. by destruct (Hout x).
  - intros x _ Hx. apply Hr. lia.
Qed.

Lemma sys_readdir_ends k entries max :
  kernel_ok k -> 0 <= entries -> entries + DIRENT_SIZE * Z.max 0 max <= W32 ->
  (forall x, entries <= x < entries + DIRENT_SIZE * Z.max 0 max -> ~ in_kernel x) ->
  ends_well (fun x => entries <= x < entries + DIRENT_SIZE * Z.max 0 max) k (sys_readdir entries max k).
Proof using HP.
  intros H He Hw Hout. unfold sys_readdir. rewrite (ko_mount k H). cbn [vfs_mount vfs_readdir ramfs_ops readdir].
  destruct (ramfs_readdir entries max (k_fs k) (k_ram k)) as [n r] eqn:E. apply ends_buffer; [done | done |]. intros x Hx.
  pose proof (ramfs_readdir_frame entries max (k_fs k) (k_ram k) x) as Hf. rewrite E in Hf. unfold DIRENT_SIZE in *. apply Hf; lia.
Qed.

Lemma sys_uptime_ends k : kernel_ok k -> ends_well (fun _ => False) k (sys_uptime k).
Proof using.
  intros H. destruct (ko_devices k H) as (_ & _ & _ & _ & Ht & _). unfold sys_uptime, timer_get_seconds.
  replace (ticks_per_second _ =? 0) with false by lia. by apply ends_refl.
Qed.

Lemma sys_meminfo_ends k info :
  kernel_ok k -> (info <> 0 -> forall x, info <= x < info + 12 -> ~ in_kernel x) ->
  ends_well (fun x => info <= x < info + (if info =? 0 then 0 else 12)) k (sys_meminfo info k).
Proof using HP.
  intros H Hout. unfold sys_meminfo. destruct (Z.eqb_spec info 0) as [->|Hne]; [by apply ends_refl |].
  refine (ends_buffer k 0 (st32 (st32 (st32 (k_ram k) info _) (info + 4) _) (info + 8) _) info 12 H (Hout Hne) _).
  intros x Hx. by rewrite !ld8_st32_ne by lia.
Qed.

Lemma sys_ps_ends k entries max :
  kernel_ok k -> 0 <= entries -> max < 2147483648 -> entries + 8 * Z.max 0 max <= W32 ->
  (forall x, entries <= x < entries + 8 * Z.max 0 max -> ~ in_kernel x) ->
  ends_well (fun x => entries <= x < entries + 8 * Z.max 0 max) k (sys_ps entries max k).
Proof using HP.
  intros H He Hm Hw Hout. destruct (ko_ring k H) as (rest & Hring & Hperm).
  assert (Hoff : 0 < max -> Forall (off_buf entries max) (cur_proc k :: rest)).
  { intros Hpos. apply Forall_forall. intros q Hq. rewrite Hperm in Hq. unfold off_buf.
    assert (Hin : forall x, q <= x < q + PROCESS_SIZE -> ~ entries <= x < entries + 8 * max).
    { intros x Hx Hb. apply (Hout x); [lia |]. right. left. by exists q. }
    pose proof (Hin q) as H1. pose proof (Hin entries) as H2. unfold PROCESS_SIZE in *. lia. }
  destruct (Z.le_gt_cases max 0) as [Hneg|Hpos].
  { unfold sys_ps. replace ((entries =? 0) || (max <=? 0)) with true by lia. by apply ends_refl. }
  pose proof (sys_ps_spec entries max He ltac:(lia) k rest Hring Hm (Hoff Hpos)) as Hs.
  destruct ((entries =? 0) || (max <=? 0)); [rewrite Hs; by apply ends_refl |]. cbv zeta in Hs. destruct Hs as (k' & E & _ & Ek & Hf).
  rewrite E, Ek. apply ends_buffer; [done | done |]. intros x Hx. apply Hf. lia.
Qed.

(** ** Exit *)

Lemma sys_exit_ends k code : kernel_ok k -> ends_well (fun _ => False) k (sys_exit code k).
Proof using HP.
  intros H. destruct (ko_ring k H) as (rest & Hring & Hperm).
  assert (Hlen : (length rest <= SEARCH_BOUND)%nat) by (pose proof (pl_few HP) as Hf; rewrite <- Hperm in Hf; cbn [length] in Hf; lia).
  destruct (ko_devices k H) as (D1 & D2 & D3 & D4 & D5 & D6).
  destruct (sys_exit_spec code k rest (ko_queue k H) Hring Hlen) as (s' & m' & sw & -> & _ & _ & _ & Hq & Hck & Hv & Hf & Hsw).
  assert (Hcur : current s' ∈ ps /\ forall p q, sw = Some (p, q) -> p = cur_proc k /\ q = current s').
  { rewrite <- Hperm. destruct (List.find _ rest) as [nxt|].
    - destruct Hsw as (Hin & -> & -> & _). split; [right; by apply list_elem_of_In | by intros p q [= <- <-]].
    - destruct Hsw as (-> & -> & _). split; [apply list_elem_of_here | done]. }
  destruct Hcur as [Hcur Hpq]. split; [| exact Hpq].
  apply (kernel_ok_state k); try done.
  - intros x _ Hx. apply Hf. intros q Hin. specialize (Hx q ltac:(rewrite <- Hperm; by apply list_elem_of_In)). lia.
  - unfold devices_ok. cbn [k_mach k_kbd k_irqs k_sched k_pmm]. rewrite Hck. cbn [timer_tick tick_count ticks_per_second].
    split; [exact (Hv D1) |]. split; [exact D2 |]. split; [exact D3 |]. split; [apply u32_range |]. by split.
Qed.

(** ** The dispatcher *)

(** The buffer a call writes: address and length. *)
Definition out_buffer (num b c d : Z) : Z * Z :=
  if num =? SYS_READ then (c, d)
  else if num =? SYS_READDIR then (b, DIRENT_SIZE * Z.max 0 (s32 c))
  else if num =? SYS_MEMINFO then (b, if b =? 0 then 0 else 12)
  else if num =? SYS_PS then (b, 8 * Z.max 0 (s32 c))
  else (0, 0).

(** The arguments of a call: the buffer it writes lies in the address space and
    outside the kernel's memory. *)
Definition call_ok (num b c d : Z) : Prop :=
  let '(a, n) := out_buffer num b c d in a + n <= W32 /\ forall x, a <= x < a + n -> ~ in_kernel x.

Definition written (num b c d x : Z) : Prop := let '(a, n) := out_buffer num b c d in a <= x < a + n.

Lemma ends_weaken (W W' : Z -> Prop) k res : (forall x, W x -> W' x) -> ends_well W k res -> ends_well W' k res.
Proof using. intros HW. destruct res; cbn; try done; intros [H1 H2]; split; try done. intros x Hx Hw. apply H2; auto. Qed.

Lemma int80_ends k num b c d :
  kernel_ok k -> is_u32 num -> is_u32 b -> is_u32 c -> is_u32 d -> call_ok num b c d ->
  if overruns num b d k then int80 num b c d k = Undef else ends_well (written num b c d) k (int80 num b c d k).
Proof using HP.
  intros H Hn Hb Hc Hd Hok. destruct (overruns num b d k) eqn:Hov.
  { assert (Hnum : num = SYS_WRITE) by (unfold overruns in Hov; rewrite !andb_true_iff in Hov; lia). subst num.
    unfold int80, syscall_handler. cbn [r_eax r_ebx r_ecx r_edx]. rewrite !u32_small, Z.eqb_refl by done.
    by rewrite sys_write_overruns by (done || apply Hb). }
  assert (Hret : forall g (res : result Z ramfs),
    ends_well (written num b c d) k res ->
    ends_well (written num b c d) k match ret_eax g res with Done g' k' => Done (r_eax g') k' | Blocks => Blocks | Undef => Undef | Exits k' sw => Exits k' sw end)
    by (by intros g []).
  unfold int80, syscall_handler. cbn [r_eax r_ebx r_ecx r_edx]. rewrite !u32_small by done. unfold is_u32 in *.
  assert (Hnone : forall res, ends_well (fun _ => False) k res -> ends_well (written num b c d) k res) by (intros res; apply ends_weaken; by intros x []).
  unfold call_ok, written in *. destruct (out_buffer num b c d) as [a n] eqn:Eb. unfold out_buffer in Eb. destruct Hok as (Ha & Hout).
  destruct (Z.eqb_spec num SYS_WRITE) as [->|]; [apply Hret, Hnone, sys_write_ends; (done || lia) |].
  destruct (Z.eqb_spec num SYS_READ) as [->|]; [injection Eb as <- <-; apply Hret, sys_read_ends; (done || lia) |].
  destruct (Z.eqb_spec num SYS_OPEN) as [->|]; [apply Hret, Hnone, sys_open_ends; done |].
  destruct (Z.eqb_spec num SYS_CLOSE) as [->|]; [apply Hret, Hnone, sys_close_ends; done |].
  destruct (Z.eqb_spec num SYS_EXIT) as [->|]; [apply Hret, Hnone, sys_exit_ends; done |].
  destruct (Z.eqb_spec num SYS_GETPID) as [->|]; [by apply ends_refl |].
  destruct (Z.eqb_spec num SYS_READDIR) as [->|]; [injection Eb as <- <-; apply Hret, sys_readdir_ends; (done || lia) |].
  destruct (Z.eqb_spec num SYS_UPTIME) as [->|]; [apply Hret, Hnone, sys_uptime_ends; done |].
  destruct (Z.eqb_spec num SYS_MEMINFO) as [->|].
  { injection Eb as <- <-. apply Hret, sys_meminfo_ends; [done |]. intros Hb0. by replace (b =? 0) with false in Hout by lia. }
  destruct (Z.eqb_spec num SYS_PS) as [->|]; [| by apply ends_refl].
  injection Eb as <- <-. apply Hret, sys_ps_ends; try done; [lia |]. apply s32_range.
Qed.
End Kernel.

(** Only a read from the keyboard waits, only [SYS_EXIT] exits. *)
Lemma int80_shape {F} (k : kstate F) num b c d :
  is_u32 num -> is_u32 b ->
  match int80 num b c d k with
  | Blocks => num = SYS_READ /\ b = 0
  | Exits _ _ => num = SYS_EXIT
  | _ => True
  end.
Proof.
  intros Hn Hb. unfold int80, syscall_handler. cbn [r_eax r_ebx r_ecx r_edx]. rewrite (u32_small num), (u32_small b) by done.
  destruct (num =? SYS_WRITE).
  { unfold sys_write. destruct (_ || _); [done |]. destruct (negb _); [done |]. by destruct (vfs_write _ _ _ _ _ _ _) as [[]|]. }
  destruct (Z.eqb_spec num SYS_READ) as [->|].
  { unfold sys_read. destruct (Z.eqb_spec b 0) as [->|]; [by destruct (read_stdin _ _ _ _) |]. destruct (negb _); [done |]. by destruct (vfs_read _ _ _ _ _ _ _). }
  destruct (num =? SYS_OPEN); [unfold sys_open; by repeat case_match |]. destruct (num =? SYS_CLOSE); [unfold sys_close; by repeat case_match |].
  destruct (Z.eqb_spec num SYS_EXIT) as [->|]; [unfold sys_exit; by destruct (scheduler_tick _ _) as [[]] |]. destruct (num =? SYS_GETPID); [done |].
  destruct (num =? SYS_READDIR); [unfold sys_readdir; by destruct (vfs_readdir _ _ _ _ _) |]. destruct (num =? SYS_UPTIME); [unfold sys_uptime; by destruct (timer_get_seconds _) |].
  destruct (num =? SYS_MEMINFO); [unfold sys_meminfo; by destruct (_ =? 0) |]. destruct (num =? SYS_PS); [| done].
  unfold sys_ps. destruct (_ || _); [done |]. destruct (_ =? 0); [done |]. by destruct (ps_loop _ _ _ _ _ _ _).
Qed.
