(* ===== verification/Steps.v ===== *)
(** * Steps: the machine after boot as a transition system

    From the state [kmain] hands over, programs that are not trusted beyond
    keeping out of the kernel's memory run, raise interrupts and system calls
    through the trap path of Interrupt.v, and exit to the next thread.  The
    invariant of Invariant.v holds in every state they can reach. *)
From stdpp Require Import strings.
From S2P Require Import Prelude Memory Machine Vga Console Multiboot Pmm Heap Vmm Vfs Ramfs Arch Keyboard Timer Process Scheduler Syscall Exec Kmain Ulib Uprog Shell ShellSpec Boot Interrupt Running Invariant.

(** What the switch writes: four registers on the old stack and the old stack
    pointer in the old control block. *)
Lemma context_switch_frame x r a :
  16 <= esp x -> esp x + 12 <= W32 -> let p := ld32 r (esp x + 4) in
  0 <= p -> p + 8 <= W32 -> ~ esp x - 16 <= a < esp x -> ~ p <= a < p + 28 -> ld8 (context_switch x r).2 a = ld8 r a.
Proof.
  intros H1 H2 p H3 H4 Ha Hp. unfold context_switch.
  change (asm_push (ebx x) (asm_push (esi x) (asm_push (edi x) (asm_push (ebp x) (esp x, r))))) with (asm_pushes [ebp x; edi x; esi x; ebx x] (esp x, r)).
  destruct (asm_pushes_spec [ebp x; edi x; esi x; ebx x] (esp x) r) as (E1 & _ & E2); [unfold alen; cbn [length]; lia | lia |].
  destruct (asm_pushes _ (esp x, r)) as [sp r1]. cbn [fst snd] in E1, E2 |- *. unfold alen in E1, E2. cbn [length] in E1, E2.
  rewrite (u32_small (sp + 20)) by lia. replace (sp + 20) with (esp x + 4) by lia.
  assert (Ep : ld32 r1 (esp x + 4) = p) by (unfold p, ld32; rewrite !E2 by lia; done). rewrite Ep, (u32_small (p + 4)) by lia.
  rewrite ld8_st32_ne by lia. apply E2. lia.
Qed.

(** The two control blocks of a booted heap at [base]: idle and shell. *)
Definition boot_procs (base : Z) : list Z := [base + 16; base + 8656].

Section Steps.
Context (L : layout) (base : Z) (y : system).

Definition kernel_mem : Z -> Prop := in_kernel L (sys_heap y) shell_blocks (boot_procs base).
Definition running_ok : kstate ramfs -> Prop := kernel_ok L (sys_heap y) shell_blocks (boot_procs base).

(** Where a trap in [k] pushes: [registers_t], all fields, and the handler's
    argument and return address. *)
Definition in_frame (k : kstate ramfs) (c : xcpu) (x : Z) : Prop :=
  let p := frame_ptr (tss (k_sched k)) c in p - 8 <= x < p + 60.

(** The processor can take a trap: its stack has room outside the kernel's
    memory. *)
Definition trap_ok (k : kstate ramfs) (c : xcpu) : Prop :=
  xcpu_wf c /\ stack_room (tss (k_sched k)) c /\ forall x, in_frame k c x -> ~ kernel_mem x.

(** A system call with proper arguments, whose buffer is not the trap frame. *)
Definition syscall_ok (k : kstate ramfs) (c : xcpu) : Prop :=
  call_ok L (sys_heap y) shell_blocks (boot_procs base) (x_eax c) (x_ebx c) (x_ecx c) (x_edx c) /\
  forall x, in_frame k c x -> ~ written (x_eax c) (x_ebx c) (x_ecx c) (x_edx c) x.

(** [int 0x80] and hardware interrupts in state [k]. *)
Definition system_call (cr2 ret : Z) (c : xcpu) (k : kstate ramfs) : option (outcome (result xcpu ramfs)) :=
  interrupt L (sys_gdt y) (sys_idt y) (tss (k_sched k)) (sys_handlers y) true 128 0 0 cr2 ret c k.
Definition hardware_irq (line scancode cr2 ret : Z) (c : xcpu) (k : kstate ramfs) : option (outcome (result xcpu ramfs)) :=
  interrupt L (sys_gdt y) (sys_idt y) (tss (k_sched k)) (sys_handlers y) false (32 + line) 0 scancode cr2 ret c k.

(** The stack of a call [context_switch(p, q)]: room for four registers outside
    the kernel's memory, then the return address and the arguments. *)
Definition switch_ok (x : cpu) (r : ram) (p q : Z) : Prop :=
  16 <= esp x /\ esp x + 12 <= W32 /\ ld32 r (esp x + 4) = p /\ ld32 r (esp x + 8) = q /\
  forall a, esp x - 16 <= a < esp x -> ~ kernel_mem a.

Inductive kstep : kstate ramfs -> kstate ramfs -> Prop :=
| step_program k r irqs :       (** a program computes; the keys to come change *)
    (forall x, kernel_mem x -> ld8 r x = ld8 (k_ram k) x) -> Forall wake_ok irqs ->
    kstep k (K (k_sched k) (k_kbd k) (k_vfs k) (k_fs k) (k_pmm k) irqs (set_ram (fun _ => r) (k_mach k)))
| step_irq k k' c c' line scancode cr2 ret :
    trap_ok k c -> 0 <= line < 16 -> 0 <= scancode < 256 ->
    hardware_irq line scancode cr2 ret c k = Some (Ret (Done c' k')) -> kstep k k'
| step_call k k' c c' cr2 ret :
    trap_ok k c -> syscall_ok k c -> system_call cr2 ret c k = Some (Ret (Done c' k')) -> kstep k k'
| step_exit k k' c cr2 ret p q r x x' r' :   (** the last call, then the switch *)
    trap_ok k c -> syscall_ok k c -> system_call cr2 ret c k = Some (Ret (Exits k' (Some (p, q)))) ->
    (forall a, kernel_mem a -> ld8 r a = ld8 (k_ram k') a) -> switch_ok x r p q -> context_switch x r = (x', r') ->
    kstep k (upd_mach (set_ram (fun _ => r')) k').

Context (fl : list (list Z * list Z)) (prog : list Z).
Context (HY : booted L base fl prog y) (HL : layout_ok L) (Hbase : l_kernel_end L <= base) (HS : stubs_ok L) (HH : handlers_ok L).

Lemma base_pos : 0 < base.
Proof using HL Hbase.
  destruct (lo_image HL) as [H1 H2]. destruct (lo_buf HL) as [H3 H4]. lia.
Qed.

Lemma boot_placed : placed L (sys_heap y) shell_blocks (boot_procs base).
Proof using HY HL Hbase.
  destruct (bt_heap HY) as [_ Hst]. split.
  - intros p Hp. rewrite Hst. unfold boot_procs in Hp. apply list_elem_of_In in Hp. exists 416. unfold PROCESS_SIZE.
    destruct Hp as [<-|[<-|[]]]; (split; [cbn [payloads shell_blocks In b_size b_used] | lia]); [by left | right; right; left].
    f_equal. f_equal. lia.
  - unfold shell_blocks. repeat constructor; cbn [b_size]; lia.
  - intros x (p & Hp & Hx). destruct (lo_tables HL p Hp) as (_ & [I1 I2] & _). rewrite Hst. lia.
  - unfold boot_procs, SEARCH_BOUND. cbn [length]. lia.
Qed.

Lemma boot_running irqs : Forall wake_ok irqs -> running_ok (user_state irqs y).
Proof using HY HL Hbase.
  intros Hw. pose proof base_pos as Hpos. destruct (bt_queue HY) as (Hring & Hrq & Hcur & _). destruct (bt_files HY) as [Hv Hh].
  destruct (bt_heap HY) as [Hheap Hst]. destruct Hh as (Hwf & Hu & _).
  split.
  - unfold devices_ok, user_state. cbn [k_mach k_kbd k_irqs k_sched k_pmm]. rewrite (bt_clock HY), (bt_keyboard HY).
    cbn [tick_count ticks_per_second]. split; [exact (bt_screen HY) |]. split; [apply kbd0_inv |]. split; [done |]. split; [unfold is_u32; lia |].
    split; [unfold PIT_HZ_DEFAULT; lia | exact (bt_frames _ _ _ _ _ HY)].
  - exact Hheap.
  - exact (bt_tables _ _ _ _ _ HY).
  - change (run_queue (k_sched (user_state irqs y))) with (run_queue (sys_sched y)). lia.
  - exists [base + 8656]. assert (E : cur_proc (user_state irqs y) = base + 16) by exact Hcur. rewrite E. split; [exact Hring | reflexivity].
  - exact Hv.
  - split; [exact Hwf | exact Hu].
  - intros p Hp. apply list_elem_of_In in Hp. destruct Hp as [<-|[<-|[]]]; apply std_fds_ok; [apply (bt_idle HY) | apply (bt_shell _ _ _ _ _ HY)].
Qed.

(** ** Every step keeps the invariant *)

Lemma frame_top (k : kstate ramfs) c : trap_stack (tss (k_sched k)) c <= frame_ptr (tss (k_sched k)) c + 60.
Proof using. unfold frame_ptr. destruct (x_cs c mod 4 =? 0); lia. Qed.

Lemma framed_running k c v ret : running_ok k -> trap_ok k c -> running_ok (framed (tss (k_sched k)) v 0 ret c k).
Proof using HY HL Hbase.
  intros H (Hc & Hroom & Hout). apply (kernel_ok_outside _ _ _ _ boot_placed k); try done; [| exact (ko_devices _ _ _ _ _ H)].
  intros x Hx. apply framed_frame; [done |]. unfold in_frame in Hout. cbv zeta in Hout. pose proof (frame_top k c).
  destruct (Z.lt_ge_cases x (frame_ptr (tss (k_sched k)) c - 8)); [by left |]. destruct (Z.lt_ge_cases x (trap_stack (tss (k_sched k)) c)); [| by right].
  exfalso. apply (Hout x); [lia | done].
Qed.

Lemma irq_running k k' c c' line scancode cr2 ret :
  running_ok k -> trap_ok k c -> 0 <= line < 16 -> 0 <= scancode < 256 ->
  hardware_irq line scancode cr2 ret c k = Some (Ret (Done c' k')) -> running_ok k'.
Proof using HY HL Hbase HS HH.
  intros H Ht Hl Hsc. pose proof (framed_running k c (32 + line) ret H Ht) as H1. destruct Ht as (Hc & Hroom & _). unfold hardware_irq.
  rewrite (irq_spec L _ (sys_idt y) _ _ (booted_gates _ _ _ _ _ HY HS)) by (done || lia). rewrite (bt_handlers HY).
  set (k1 := framed _ _ _ _ _ _) in *. intros [= _ <-]. rewrite handle_irq_spec by done.
  destruct (ko_devices _ _ _ _ _ H1) as (D1 & D2 & D3 & D4 & D5 & D6).
  apply (kernel_ok_outside _ _ _ _ boot_placed k1); try done; unfold cur_proc, scheduler_current; cbn [k_sched].
  - unfold devices_ok. cbn [k_mach k_kbd k_irqs k_sched k_pmm]. split; [exact D1 |]. split; [| split; [exact D3 |]].
    + destruct (line =? 1); [by apply keyboard_irq_spec | done].
    + destruct (line =? 0); [| by split]. cbn [set_clock clock timer_tick tick_count ticks_per_second]. split; [apply u32_range | by split].
  - by destruct (line =? 0).
  - by destruct (line =? 0).
Qed.

(** The trap frame is no descriptor: the call that overruns does so on entry. *)
Lemma overruns_framed k c ret num fd len :
  running_ok k -> trap_ok k c -> 0 <= fd -> overruns num fd len (framed (tss (k_sched k)) 128 0 ret c k) = overruns num fd len k.
Proof using HY HL Hbase.
  intros H (_ & Hroom & Hout) Hfd. set (k1 := framed _ _ _ _ _ _). change (cur_proc k1) with (cur_proc k).
  assert (Hb : fd < MAX_FDS -> forall x, fd_addr (cur_proc k) fd <= x < fd_addr (cur_proc k) fd + FD_SIZE -> ld8 (k_ram k1) x = ld8 (k_ram k) x).
  { intros Hlt x Hx. pose proof (fd_range (cur_proc k) fd ltac:(lia)) as Hr.
    assert (Hk : kernel_mem x) by (right; left; exists (cur_proc k); split; [by apply (cur_in _ _ _ _ _ H) | lia]).
    apply framed_frame; [done |]. unfold in_frame in Hout. cbv zeta in Hout. pose proof (frame_top k c).
    destruct (Z.lt_ge_cases x (frame_ptr (tss (k_sched k)) c - 8)); [by left |]. destruct (Z.lt_ge_cases x (trap_stack (tss (k_sched k)) c)); [| by right].
    exfalso. apply (Hout x); [lia | done]. }
  unfold overruns, fd_usable. change (cur_proc k1) with (cur_proc k).
  destruct (Z.ltb_spec fd MAX_FDS) as [Hlt|Hge]; [| by rewrite !andb_false_r].
  specialize (Hb Hlt). unfold fd_in_use, fd_file_idx, fd_offset, ld32, FD_SIZE in *. by rewrite !Hb by lia.
Qed.

(** What a system call gives, trap and all. *)
Lemma call_running k c cr2 ret :
  running_ok k -> trap_ok k c -> syscall_ok k c ->
  let k1 := framed (tss (k_sched k)) 128 0 ret c k in
  let res := int80 (x_eax c) (x_ebx c) (x_ecx c) (x_edx c) k1 in
  system_call cr2 ret c k = Some (Ret (after_syscall (sys_gdt y) c (frame_ptr (tss (k_sched k)) c) res)) /\
  running_ok k1 /\
  if overruns (x_eax c) (x_ebx c) (x_edx c) k then res = Undef
  else ends_well L (sys_heap y) shell_blocks (boot_procs base) (written (x_eax c) (x_ebx c) (x_ecx c) (x_edx c)) k1 res.
Proof using HY HL Hbase HS.
  intros H Ht [Hok Hfr] k1 res. pose proof (framed_running k c 128 ret H Ht) as H1. fold k1 in H1.
  pose proof (overruns_framed k c ret (x_eax c) (x_ebx c) (x_edx c) H Ht) as Hov. fold k1 in Hov.
  destruct Ht as (Hc & Hroom & Hout). pose proof Hc as ((A1 & A2 & A3 & A4 & _) & _). specialize (Hov (proj1 A4)).
  pose proof (int80_ends _ _ _ _ boot_placed k1 _ _ _ _ H1 A1 A4 A2 A3 Hok) as He. fold res in He. rewrite Hov in He. split; [| by split].
  unfold system_call. apply syscall_spec; [exact (booted_gates _ _ _ _ _ HY HS) | done | done |].
  intros a k2 E i Hi. fold k1 res in E. rewrite E in He. destruct (overruns _ _ _ k); [discriminate He |]. destruct He as [_ Hf].
  apply Hf; [apply Hout | apply Hfr]; unfold in_frame; lia.
Qed.

Lemma step_running k k' : running_ok k -> kstep k k' -> running_ok k'.
Proof using HY HL Hbase HS HH.
  intros H Hs. destruct Hs as [k r irqs Hr Hw | k k' c c' line scancode cr2 ret Ht Hl Hsc E | k k' c c' cr2 ret Ht Hok E | k k' c cr2 ret p q r x x' r' Ht Hok E Hr Hsw Hcs].
  - apply (kernel_ok_outside _ _ _ _ boot_placed k); try done. destruct (ko_devices _ _ _ _ _ H) as (D1 & D2 & D3 & D4). by split.
  - by eapply irq_running.
  - destruct (call_running k c cr2 ret H Ht Hok) as (E1 & _ & He). rewrite E1 in E. unfold after_syscall in E.
    destruct (int80 _ _ _ _ _) as [a k2| | |]; try discriminate E. injection E as _ <-. destruct (overruns _ _ _ k); [discriminate He |]. destruct He as [Hk2 _].
    destruct Ht as (_ & _ & Hout). apply (kernel_ok_outside _ _ _ _ boot_placed k2); try done; [| exact (ko_devices _ _ _ _ _ Hk2)].
    intros x Hx. unfold k_ram, upd_mach. cbn [k_mach]. rewrite m_ram_mst32. apply ld8_st32_ne. specialize (Hout x). unfold in_frame in Hout. cbv zeta in Hout.
    destruct (decide (frame_ptr (tss (k_sched k)) c + 28 <= x < frame_ptr (tss (k_sched k)) c + 28 + 4)); [| lia]. exfalso. apply Hout; [lia | exact Hx].
  - destruct (call_running k c cr2 ret H Ht Hok) as (E1 & _ & He). rewrite E1 in E. unfold after_syscall in E.
    destruct (int80 _ _ _ _ _) as [| | |k2 sw]; try discriminate E. injection E as <- ->. destruct (overruns _ _ _ k); [discriminate He |]. destruct He as [Hk2 Hpq].
    destruct (Hpq p q eq_refl) as [-> ->]. change (cur_proc (framed _ _ _ _ _ _)) with (cur_proc k) in Hsw. pose proof (cur_in _ _ _ _ _ H) as Hcur.
    assert (Hp : is_proc (cur_proc k)) by (destruct (ko_ring _ _ _ _ _ H) as (rest & [Hwf _] & _); exact (Forall_inv (proj1 Hwf))).
    destruct Hp as [Hp0 Hp1]. unfold PROCESS_SIZE in Hp1. destruct Hsw as (S1 & S2 & S3 & S4 & Sout).
    apply (kernel_ok_state _ _ _ _ boot_placed k2); try done; [| exact (ko_devices _ _ _ _ _ Hk2) | exact (cur_in _ _ _ _ _ Hk2)].
    intros a Ha Hq. change (k_ram (upd_mach _ k2)) with r'. rewrite <- (Hr a Ha). replace r' with (context_switch x r).2 by (by rewrite Hcs).
    apply context_switch_frame; rewrite ?S3; try lia; [| by apply Hq]. intros Hin. exact (Sout a Hin Ha).
Qed.

Lemma reachable_running irqs k : Forall wake_ok irqs -> rtc kstep (user_state irqs y) k -> running_ok k.
Proof using HY HL Hbase HS HH.
  intros Hw Hsteps. pose proof (boot_running irqs Hw) as H0.
  induction Hsteps as [k|k1 k2 k3 Hs _ IH]; [exact H0 |]. apply IH. by eapply step_running.
Qed.
End Steps.

(** ** Properties *)

(** C13. The kernel's invariant, from power-on: [kmain] on any well-placed machine
    hands over a state from which no sequence of program computations,
    interrupts on any line, system calls and exits with their context switches
    leads to a state where the heap's chain of blocks, the page tables, the ring
    of processes, the file table, a descriptor table, the keyboard ring, the
    clock, the frame allocator or the screen is malformed.  Programs compute
    outside the kernel's memory (heap headers, control blocks, page tables);
    traps find room for their frame there; a call may have any number and
    arguments, of any length, as long as the buffer it writes lies outside the
    kernel's memory and its own trap frame.  A call that has no defined result
    is not a step: by [system_calls_in_bounds] that is the write to a file whose
    position plus length reaches [2 ^ 32], after which nothing is claimed. *)
Theorem kernel_invariant (L : layout) (mbi cr0 : Z) (es : list multiboot_mmap_entry_t) (fl : list (list Z * list Z)) (prog : list Z)
    (m : mach) (y : system) (irqs : list wake) (k : kstate ramfs) :
  let base := heap_base L (multiboot_info (m_ram m) mbi) (m_ram m) in
  layout_ok L -> stubs_ok L -> handlers_ok L -> boot_ok L mbi es fl (m_ram m) -> length (vga_mem m) = 2000%nat ->
  (lit "shell.bin", prog) ∈ boot_files fl -> prog <> [] -> Forall wake_ok irqs ->
  kmain L MULTIBOOT_BOOTLOADER_MAGIC mbi cr0 m = Some (Ret (true, y)) ->
  rtc (kstep L base y) (user_state irqs y) k ->
  kernel_ok L (sys_heap y) shell_blocks (boot_procs base) k.
Proof.
  intros base HL HS HH HB Hvga Hsh Hpr Hw Hk Hsteps.
  destruct (kmain_spec L mbi cr0 es fl prog m HL HB Hvga Hsh Hpr) as (y' & E & HY & _). rewrite Hk in E.
  assert (y' = y) by congruence. subst y'. clear E Hk. fold base in HY.
  destruct (base_spec _ _ _ _ _ HL HB) as (_ & Hkb & _). fold base in Hkb.
  exact (reachable_running L base y fl prog HY HL Hkb HS HH irqs k Hw Hsteps).
Qed.


(** ** A run *)

Lemma demo_base_ok : l_kernel_end demo_layout <= 0x183000.
Proof. vm_compute. congruence. Qed.

(** Its kernel memory: the page tables and the heap. *)
Lemma demo_kernel_mem y x : booted demo_layout 0x183000 demo_files demo_program y ->
  kernel_mem demo_layout 0x183000 y x -> 0x113000 <= x < 0x116000 \/ 0x183000 <= x.
Proof.
  intros HY. destruct (bt_heap HY) as [_ Hst]. pose proof (boot_placed demo_layout 0x183000 y _ _ HY demo_layout_ok demo_base_ok) as HP.
  intros [(q & s & u & Hq & Hqx)|[(p & Hp & Hpx)|(p & Hp & Hpx)]].
  - pose proof (payloads_low _ _ _ _ _ (pl_sizes _ _ _ _ HP) Hq). lia.
  - apply list_elem_of_In in Hp. destruct Hp as [<-|[<-|[]]]; lia.
  - unfold page_tables, demo_layout in Hp. cbn [l_kernel_dir l_pt0 l_pt1] in Hp. apply list_elem_of_In in Hp. destruct Hp as [<-|[<-|[<-|[]]]]; lia.
Qed.

(** Code in the shell that asks for the state of the memory, on the boot stack. *)
Definition demo_caller : xcpu := Xcpu 9 0 0 0x17C000 0x17D000 0 0 0 0x600010 0x08 0x202 0x10 0x10 0x10 0x10 0x10.

Lemma demo_frame k x : in_frame k demo_caller x -> 0x17CFC4 <= x < 0x17D008.
Proof. unfold in_frame, frame_ptr, trap_stack, demo_caller. cbn [x_cs x_esp]. change (0x08 mod 4 =? 0) with true. cbv iota. lia. Qed.

Lemma demo_trap y k : booted demo_layout 0x183000 demo_files demo_program y -> trap_ok demo_layout 0x183000 y k demo_caller.
Proof.
  intros HY. split; [unfold xcpu_wf, is_u32, demo_caller; cbn; lia |]. split; [unfold stack_room, trap_stack, demo_caller; cbn [x_cs x_esp]; change (0x08 mod 4 =? 0) with true; cbv iota; lia |].
  intros x Hx%demo_frame Hk%demo_kernel_mem; [lia | done].
Qed.


(** A timer interrupt in the shell. *)
Lemma demo_tick y : booted demo_layout 0x183000 demo_files demo_program y ->
  exists k, kstep demo_layout 0x183000 y (user_state [] y) k /\ tick_count (clock (k_sched k)) = 1.
Proof.
  intros HY. pose proof (demo_trap y (user_state [] y) HY) as Ht. destruct Ht as (Hc & Hroom & Hout) eqn:E. clear E.
  pose proof (irq_spec demo_layout (sys_gdt y) (sys_idt y) (tss (k_sched (user_state [] y))) (sys_handlers y) (booted_gates _ _ _ _ _ HY demo_stubs_ok)
    32 0 0 0x101800 demo_caller (user_state [] y) Hc Hroom ltac:(lia)) as Hi.
  eexists. split; [eapply (step_irq demo_layout 0x183000 y _ _ demo_caller _ 0 0 0 0x101800); [exact (demo_trap y _ HY) | lia | lia | exact Hi] |].
  rewrite (bt_handlers HY), (handle_irq_spec demo_layout 0) by (exact demo_handlers_ok || lia). cbn [k_sched Z.eqb].
  change (k_sched (framed _ _ _ _ _ (user_state [] y))) with (sys_sched y). rewrite (bt_clock HY). reflexivity.
Qed.

Lemma kernel_invariant_witness :
  exists y k, rtc (kstep demo_layout 0x183000 y) (user_state [] y) k /\ tick_count (clock (k_sched k)) = 1 /\
    kernel_ok demo_layout (sys_heap y) shell_blocks (boot_procs 0x183000) k.
Proof.
  destruct demo_booted as (y & Hk & HY). destruct (demo_tick y HY) as (k & Hs & Ht). exists y, k. split; [by apply rtc_once |]. split; [exact Ht |].
  pose proof (kernel_invariant demo_layout 0x9000 0x11 demo_mmap demo_files demo_program demo_boot y [] k) as H.
  cbv zeta in H. rewrite demo_info_eq, demo_base in H. apply H.
  - exact demo_layout_ok.
  - exact demo_stubs_ok.
  - exact demo_handlers_ok.
  - exact demo_boot_ok.
  - reflexivity.
  - exact demo_shell_in.
  - exact demo_program_some.
  - constructor.
  - exact Hk.
  - by apply rtc_once.
Defined.

