(* ===== verification/Lifecycle.v ===== *)
(** * Lifecycle: from the boot loader's jump to the last exit

    The kernel's entry in assembly (boot/boot.asm) before [kmain], and what
    leaving the shell does after it: [kmain] runs the first shell as the idle
    process while [exec] has queued a thread for the same program, so the first
    exit starts a second shell and the second one halts the machine. *)
From stdpp Require Import strings.
From S2P Require Import Prelude Memory Machine Vga Console Multiboot Pmm Heap Vmm Vfs Ramfs Arch Keyboard Timer Process Scheduler Syscall Exec Kmain Ulib Uprog Shell ShellSpec Boot Interrupt Running.

(** ** The entry point *)

(** [boot_start] up to [kmain]'s first instruction; [ret] is the address after
    the [call]. *)
Definition boot_start (stack_top ret : Z) : list (xcpu * ram -> xcpu * ram) :=
  [fun st => (set_xesp stack_top st.1, st.2); fun st => push_imm (x_ebx st.1) st; fun st => push_imm (x_eax st.1) st; push_imm ret].

(** [gdt_flush(gdtr)]: the far jump loads CS and the moves the data segments and
    SS; the load of GDTR is the event [Lgdt] of the caller. *)
Definition gdt_flush (st : xcpu * ram) : xcpu * ram :=
  let (c, r) := st in
  let eax := ld32 r (u32 (x_esp c + 4)) in
  (Xcpu (eax - eax mod 65536 + 0x10) (x_ecx c) (x_edx c) (x_ebx c) (u32 (x_esp c + 4)) (x_ebp c) (x_esi c) (x_edi c)
     (ld32 r (x_esp c)) 0x08 (x_eflags c) 0x10 0x10 0x10 0x10 0x10, r).

(** [idt_flush(idtr)], but for the load of IDTR. *)
Definition idt_flush (st : xcpu * ram) : xcpu * ram :=
  let (c, r) := st in
  (jump_to (x_cs c) (ld32 r (x_esp c)) (x_eflags c) (x_ss c) (u32 (x_esp c + 4)) (set_xeax (ld32 r (u32 (x_esp c + 4))) c), r).

(** The rest of the boot and the first shell run with the kernel's segments: any
    trap resumes them exactly as they were. *)
Lemma flushed_resumes gdt st : let c := (idt_flush (gdt_flush st)).1 in resumed gdt (x_eax c) c = c.
Proof. destruct st as [c r]. by apply resumed_kernel. Qed.

(** The machine from the boot loader's jump: [kmain] takes its arguments from
    the stack. *)
Definition power_on (L : layout) (cr0 ret : Z) (c : xcpu) (m : mach) : option (outcome (bool * system)) :=
  let (c, r) := run (boot_start (l_stack_top L) ret) (c, m_ram m) in
  kmain L (ld32 r (u32 (x_esp c + 4))) (ld32 r (u32 (x_esp c + 8))) cr0 (set_ram (fun _ => r) m).

(** The return address and the arguments on the boot stack. *)
Definition boot_frame (L : layout) (ret : Z) (c : xcpu) (m : mach) : mach :=
  set_ram (fun r => (asm_pushes [x_ebx c; x_eax c; ret] (l_stack_top L, r)).2) m.

Lemma power_on_eq L cr0 ret c m :
  12 <= l_stack_top L < W32 -> is_u32 (x_eax c) -> is_u32 (x_ebx c) ->
  power_on L cr0 ret c m = kmain L (x_eax c) (x_ebx c) cr0 (boot_frame L ret c m) /\
  forall x, x < l_stack_top L - 12 \/ l_stack_top L <= x -> ld8 (m_ram (boot_frame L ret c m)) x = ld8 (m_ram m) x.
Proof.
  intros Ht Ha Hb. set (ws := [x_ebx c; x_eax c; ret]).
  destruct (asm_pushes_spec ws (l_stack_top L) (m_ram m)) as (H1 & H2 & H3); [unfold ws, alen; cbn [length]; lia | lia |].
  unfold alen, ws in H1, H2, H3. cbn [length] in H1, H2, H3. fold ws in H1, H2, H3. split; [| exact H3].
  assert (E : run (boot_start (l_stack_top L) ret) (c, m_ram m) =
    (set_xesp (asm_pushes ws (l_stack_top L, m_ram m)).1 c, (asm_pushes ws (l_stack_top L, m_ram m)).2)).
  { exact (run_pushes ws c (l_stack_top L, m_ram m)). }
  unfold power_on, boot_frame. rewrite E. cbn [x_esp set_xesp]. rewrite H1, !u32_small by lia.
  pose proof (H2 0 ltac:(lia)) as E0. pose proof (H2 1 ltac:(lia)) as E1. change (aget 0 ws 0) with (x_ebx c) in E0. change (aget 0 ws 1) with (x_eax c) in E1.
  rewrite u32_small in E0, E1 by done.
  replace (l_stack_top L - 4 * Z.of_nat 3 + 4) with (l_stack_top L - 4 - 4 * 1) by lia.
  replace (l_stack_top L - 4 * Z.of_nat 3 + 8) with (l_stack_top L - 4 - 4 * 0) by lia. rewrite E0, E1. reflexivity.
Qed.

(** From the boot loader's jump to the shell. *)
Theorem power_on_launches_shell (L : layout) (mbi cr0 ret : Z) (es : list multiboot_mmap_entry_t) (fl : list (list Z * list Z))
    (prog : list Z) (c : xcpu) (m : mach) :
  let m1 := boot_frame L ret c m in
  layout_ok L -> 12 <= l_stack_top L < W32 -> x_eax c = MULTIBOOT_BOOTLOADER_MAGIC -> x_ebx c = mbi -> is_u32 mbi ->
  boot_ok L mbi es fl (m_ram m1) -> length (vga_mem m) = 2000%nat ->
  (lit "shell.bin", prog) ∈ boot_files fl -> prog <> [] ->
  exists y, power_on L cr0 ret c m = Some (Ret (true, y)) /\ booted L (heap_base L (multiboot_info (m_ram m1) mbi) (m_ram m1)) fl prog y.
Proof.
  intros m1 HL Ht Ha Hb Hm HB Hv Hsh Hpr.
  destruct (kmain_spec L mbi cr0 es fl prog m1 HL HB Hv Hsh Hpr) as (y & E & HY & _). exists y. split; [| exact HY].
  destruct (power_on_eq L cr0 ret c m Ht) as [-> _]; [rewrite Ha; unfold is_u32; vm_compute; split; congruence | by rewrite Hb |].
  by rewrite Ha, Hb.
Qed.

(** ** Leaving the shell *)

(** The thread [exec] queued: it calls the loaded program and halts should it
    return. *)
Definition shell_trampoline {F} (entry : prog F unit) (k : kstate F) : outcome (result unit F) :=
  match entry k with
  | Done _ k => khalt (klog (lit "[EXEC] Shell returned, halting" ++ nl) [] (k_mach k))
  | Blocks => Ret Blocks
  | Undef => Ret Undef
  | Exits k sw => Ret (Exits k sw)
  end.

Section Exit.
Context (L : layout) (base : Z) (fl : list (list Z * list Z)) (prog : list Z) (y : system).
Context (HY : booted L base fl prog y) (HL : layout_ok L) (Hbase : 0 < base) (Hroom : base + 0x200000 <= USER_LOAD_ADDR).

Let idle := base + 16.
Let shell := base + 8656.
Let top := base + 9088 + KERNEL_STACK_SIZE.

(** The first shell: the boot thread, as the idle process, with the heap as
    [kmain] left it but for its descriptors. *)
Definition first_shell (k : kstate ramfs) : Prop :=
  current (k_sched k) = idle /\ run_queue (k_sched k) = idle /\
  forall x, base <= x < base + 0x200000 -> x < idle + 32 \/ idle + PROCESS_SIZE <= x -> ld8 (k_ram k) x = ld8 (m_ram (sys_mach y)) x.

Lemma first_shell_word k a : first_shell k -> base <= a -> a + 4 <= base + 0x200000 -> a + 4 <= idle + 32 \/ idle + PROCESS_SIZE <= a ->
  ld32 (k_ram k) a = ld32 (m_ram (sys_mach y)) a.
Proof using. intros (_ & _ & H) H1 H2 H3. unfold ld32. by rewrite !H by lia. Qed.

Lemma first_shell_ring k : first_shell k -> ring (k_ram k) [cur_proc k; shell] /\ ready (k_ram k) shell = true.
Proof using HY.
  intros H. pose proof H as (Hc & _ & _). change (cur_proc k) with (current (k_sched k)). rewrite Hc.
  destruct (bt_queue HY) as (Hring & _). destruct (bt_shell _ _ _ _ _ HY) as (_ & _ & (Hst & _)). split.
  - eapply ring_same; [| exact Hring]. intros q Hq. unfold p_next. apply first_shell_word; try done; unfold idle, shell, PROCESS_SIZE in *;
      destruct Hq as [<-|[<-|[]]]; lia.
  - unfold ready, p_state in *. rewrite (first_shell_word k (shell + 20) H) by (unfold idle, shell, PROCESS_SIZE; lia).
    unfold shell. rewrite Hst. reflexivity.
Qed.

(** The state the first exit leaves: the idle process a zombie, the queued
    thread current, its stack as [exec] built it. *)
Definition second_starts (s : sched) (r : ram) : Prop :=
  current s = shell /\ run_queue s = idle /\ ring r [idle; shell] /\ p_state idle r = PROC_ZOMBIE /\ p_state shell r = PROC_RUNNING /\
  ld32 (tss s) tss_esp0 = top /\ p_page_dir shell r = l_kernel_dir L /\ p_esp shell r = top - 24 /\
  ld32 r (top - 24) = 0 /\ ld32 r (top - 20) = 0 /\ ld32 r (top - 16) = 0 /\ ld32 r (top - 12) = 0 /\
  ld32 r (top - 8) = l_kthread_entry L /\ ld32 r (top - 4) = l_trampoline L.

Lemma first_exit k code : first_shell k ->
  exists s1 m1, sys_exit code k = Exits (K s1 (k_kbd k) (k_vfs k) (k_fs k) (k_pmm k) (k_irqs k) m1) (Some (idle, shell)) /\
    p_exit_code idle (m_ram m1) = u32 code /\ second_starts s1 (m_ram m1) /\
    clock s1 = timer_tick (clock (k_sched k)) /\ (vga_wf (k_mach k) -> vga_wf m1) /\
    forall x, x < base \/ base + 0x200000 <= x -> ld8 (m_ram m1) x = ld8 (k_ram k) x.
Proof using HY Hbase.
  intros H. destruct (first_shell_ring k H) as [Hring Hrdy]. pose proof H as (Hc & Hq & _).
  destruct (sys_exit_spec code k [shell]) as (s1 & m1 & sw & E & R1 & R2 & R3 & R4 & Rc & Rv & R5 & R6);
    [rewrite Hq; unfold idle; lia | exact Hring | cbn; unfold SEARCH_BOUND; lia |].
  cbn [List.find] in R6. rewrite Hrdy in R6. destruct R6 as (_ & -> & R7 & R8 & R9).
  assert (Ec : cur_proc k = idle) by exact Hc. rewrite Ec in *. exists s1, m1. split; [exact E |]. split; [exact R3 |].
  destruct (bt_shell _ _ _ _ _ HY) as (_ & _ & (T1 & T2 & T3 & T4 & T5 & T6 & T7 & T8 & T9 & T10)).
  assert (Hf : forall x, x < base \/ base + 48 <= x -> x < shell \/ shell + 28 <= x -> ld8 (m_ram m1) x = ld8 (k_ram k) x).
  { intros x Hx Hx'. apply R5. intros q [<-|[<-|[]]]; unfold idle, shell in *; lia. }
  assert (Hw : forall a, base + 432 <= a -> a + 4 <= base + 0x200000 -> a + 4 <= shell + 20 \/ shell + 28 <= a -> ld32 (m_ram m1) a = ld32 (m_ram (sys_mach y)) a).
  { intros a A1 A2 A3. rewrite <- (first_shell_word k a H) by (unfold idle, PROCESS_SIZE; lia). unfold ld32.
    assert (Hb : forall o, 0 <= o < 4 -> ld8 (m_ram m1) (a + o) = ld8 (k_ram k) (a + o)).
    { intros o Ho. apply R5. intros q [<-|[<-|[]]]; unfold idle, shell in *; lia. }
    rewrite <- (Z.add_0_r a) at 1. rewrite !Hb, Z.add_0_r by lia. done. }
  unfold p_page_dir, p_esp, p_kernel_stack_top in *. split.
  - unfold second_starts, p_page_dir, p_esp. rewrite !Hw by (unfold top, shell, idle, KERNEL_STACK_SIZE; lia).
    split; [exact R7 |]. split; [by rewrite R4 |]. split; [exact R1 |]. split; [exact R2 |]. split; [exact R8 |]. split.
    + rewrite R9. unfold tss_set_kernel_stack. rewrite ld32_st32_eq. unfold p_kernel_stack_top.
      rewrite (first_shell_word k) by (unfold idle, shell, PROCESS_SIZE; done || lia). fold shell top in T3. rewrite T3. apply u32_small.
      rewrite <- T3. apply ld32_range.
    + by split_and!.
  - split; [exact Rc |]. split; [exact Rv |]. intros x Hx. apply R5. intros q [<-|[<-|[]]]; unfold idle, shell; lia.
Qed.

(** The switch away from [idle] on processor [x]: its stack is outside the heap. *)
Definition switches (r0 r : ram) (x : cpu) : Prop :=
  call_frame x r idle shell /\ (esp x <= base \/ base + 0x200000 <= esp x - 16) /\ same_on base (base + 0x200000) r0 r.

Lemma second_switch s r0 r x ret : second_starts s r0 -> switches r0 r x ->
  exists x1 r1 x2 r2, context_switch x r = (x1, r1) /\ eip x1 = l_kthread_entry L /\ cr3 x1 = l_kernel_dir L /\
    run_kthread_entry ret x1 r1 = (x2, r2) /\ eip x2 = l_trampoline L /\ iflag x2 = true /\ esp x2 = top - 4 /\
    forall a, ~ esp x - 16 <= a < esp x -> ~ idle + 4 <= a < idle + 8 -> ~ top - 4 <= a < top -> ld8 r2 a = ld8 r a.
Proof using Hbase Hroom.
  intros (_ & _ & _ & _ & _ & _ & S1 & S2 & S3 & S4 & S5 & S6 & S7 & S8) (Hcf & Hst & Hs).
  unfold USER_LOAD_ADDR, top, shell, idle, KERNEL_STACK_SIZE in *. set (r1 := save_ram x (base + 16) r).
  assert (Hw : forall a, base + 24 <= a -> a + 4 <= base + 0x200000 -> ld32 r1 a = ld32 r0 a).
  { intros a H1 H2. unfold r1. rewrite save_ram_frame32 by lia. symmetry. eapply ld32_same_on; [exact Hs | lia | lia]. }
  assert (Esp : p_esp (base + 8656) r1 = base + 9088 + 8192 - 24) by (unfold p_esp in *; rewrite Hw by lia; exact S2).
  pose proof (context_switch_eq x r _ _ Hcf) as E. cbv zeta in E. fold r1 in E. rewrite Esp in E. specialize (E ltac:(lia)).
  replace (base + 9088 + 8192 - 24 + 16) with (base + 9088 + 8192 - 8) in E by lia.
  unfold p_page_dir in *. rewrite (u32_small (base + 9088 + 8192 - 24 + 20)), !Hw, S1, S7 in E by lia.
  replace (base + 9088 + 8192 - 24 + 20) with (base + 9088 + 8192 - 4) in E by lia.
  do 4 eexists. split; [exact E |]. split; [reflexivity |]. split; [reflexivity |]. unfold run_kthread_entry, asm_push. cbn [esp fst snd ebx esi edi ebp cr3].
  rewrite Hw, S8, (u32_small (base + 9088 + 8192 - 4 + 4)) by lia. replace (base + 9088 + 8192 - 4 + 4 - 4) with (base + 9088 + 8192 - 4) by lia.
  rewrite (u32_small (base + 9088 + 8192 - 4)) by lia. split; [reflexivity |]. do 3 (split; [reflexivity |]).
  intros a H1 H2 H3. rewrite ld8_st32_ne by lia. apply save_ram_frame; lia.
Qed.

(** Words of the control blocks the switch does not reach, and the ring. *)
Lemma second_ring s r0 r2 : second_starts s r0 ->
  (forall x, base <= x < shell + 32 -> ~ idle + 4 <= x < idle + 8 -> ld8 r2 x = ld8 r0 x) ->
  ring r2 [shell; idle] /\ p_state idle r2 = PROC_ZOMBIE.
Proof using.
  intros (_ & _ & Hring & Hz & _) Hr. unfold shell, idle in *.
  assert (Hw : forall q o, In q [base + 16; base + 8656] -> 20 <= o -> o + 4 <= 32 -> ld32 r2 (q + o) = ld32 r0 (q + o)).
  { intros q o Hin H1 H2. unfold ld32. destruct Hin as [<-|[<-|[]]]; rewrite !Hr by lia; done. }
  split; [| unfold p_state in *; rewrite Hw; [exact Hz | by left | lia | lia]].
  apply (ring_rotate _ [base + 16] [base + 8656]). eapply ring_same; [| exact Hring]. intros q Hin. apply Hw; [done | lia | lia].
Qed.

(** The second shell: the queued thread, with the heap as the switch left it
    but for its descriptors and its stack. *)
Definition second_shell (r2 : ram) (k : kstate ramfs) : Prop :=
  current (k_sched k) = shell /\ run_queue (k_sched k) = idle /\
  forall x, base <= x < shell + 32 -> ld8 (k_ram k) x = ld8 r2 x.

Lemma second_exit s r0 r2 k code : second_starts s r0 ->
  (forall x, base <= x < shell + 32 -> ~ idle + 4 <= x < idle + 8 -> ld8 r2 x = ld8 r0 x) -> second_shell r2 k ->
  exists k3, sys_exit code k = Exits k3 None /\ p_state shell (k_ram k3) = PROC_ZOMBIE /\ hd_error (io (k_mach k3)) = Some CliHlt.
Proof using Hbase.
  intros Hs Hr (Hc & Hq & Hk).
  assert (Hr' : forall x, base <= x < shell + 32 -> ~ idle + 4 <= x < idle + 8 -> ld8 (k_ram k) x = ld8 r0 x) by (intros x Hx Hn; rewrite Hk, Hr by done; done).
  destruct (second_ring s r0 (k_ram k) Hs Hr') as [Hring Hz]. assert (Ec : cur_proc k = shell) by exact Hc. rewrite <- Ec in Hring.
  destruct (sys_exit_spec code k [idle]) as (s3 & m3 & sw & E & _ & R2 & _ & _ & _ & _ & _ & R6);
    [rewrite Hq; unfold idle; lia | exact Hring | cbn; unfold SEARCH_BOUND; lia |].
  assert (Hn : ready (k_ram k) idle = false) by (unfold ready; rewrite Hz; reflexivity).
  cbn [List.find] in R6. rewrite Hn in R6. destruct R6 as (-> & _ & Hio). eexists. split; [exact E |]. split; [| exact Hio].
  rewrite <- Ec. exact R2.
Qed.

(** The environment of the second shell, with its own frame [U2]. *)
Lemma second_env U1 U2 rodata k s1 m1 r2 :
  env U1 rodata ramfs_ops [shell] k -> linked prog rodata -> frame_ok U2 rodata ->
  (forall q l, In q [shell; idle] -> l ∈ locals U2 -> sep l (q, PROCESS_SIZE)) ->
  second_starts s1 (m_ram m1) -> clock s1 = timer_tick (clock (k_sched k)) -> (vga_wf (k_mach k) -> vga_wf m1) ->
  (forall x, base <= x < shell + 32 -> ~ idle + 4 <= x < idle + 8 -> ld8 r2 x = ld8 (m_ram m1) x) ->
  (forall x, USER_LOAD_ADDR <= x < W32 -> ld8 r2 x = ld8 (k_ram k) x) ->
  env U2 rodata ramfs_ops [idle] (K s1 (k_kbd k) (k_vfs k) (k_fs k) (k_pmm k) (k_irqs k) (set_ram (fun _ => r2) m1)).
Proof using Hbase Hroom.
  intros [[Hv Hlit] Hin (_ & Hvf & Hfs & _) _ _ Hn Ht] Hl HU Hoff Hs Hck Hvm Hr Hp.
  destruct (second_ring s1 _ r2 Hs Hr) as [Hring _]. pose proof Hs as (Hc & _).
  unfold USER_LOAD_ADDR in *.
  split; unfold cur_proc, scheduler_current; cbn [k_sched]; rewrite ?Hc; try done.
  - split; [exact (Hvm Hv) |]. intros t Hin'. pose proof (Hlit t Hin') as Hst. eapply str_at_same; [| exact Hst]. destruct (Hl t Hin') as (o & Ho & Er & _).
    pose proof Hst as (_ & Hhi & _). unfold USER_LOAD_ADDR in Er. intros x Hx. symmetry. apply Hp. lia.
  - unfold proc_ok, cur_proc, scheduler_current. cbn [k_sched k_vfs k_fs]. rewrite Hc.
    split; [unfold is_proc, shell, PROCESS_SIZE; lia |]. split; [exact Hvf |]. split; [exact Hfs |].
    split; [intros l Hl'; apply Hoff; [by left | done] |]. intros t Hin'. destruct (Hl t Hin') as (o & Ho & -> & _).
    unfold sep, shell, PROCESS_SIZE, USER_LOAD_ADDR. cbn [fst snd]. lia.
  - unfold now. cbn [k_sched]. rewrite Hck. exact Ht.
Qed.
End Exit.

(** C16. Leaving the shell: after boot, whatever the first shell did outside the
    heap and to its descriptors, its exit makes the idle process a zombie with
    the exit code and switches to the thread [exec] queued; that switch enters
    [kthread_entry], which calls the trampoline to the same program, with
    interrupts on, in the kernel's address space, on the thread's own stack;
    and the exit of that second shell finds nothing to run and halts. *)
Theorem exit_restarts_then_halts (L : layout) (base : Z) (fl : list (list Z * list Z)) (prog : list Z) (y : system)
    (k : kstate ramfs) (code : Z) :
  booted L base fl prog y -> 0 < base -> base + 0x200000 <= USER_LOAD_ADDR -> first_shell base y k ->
  let idle := base + 16 in
  let shell := base + 8656 in
  let top := base + 9088 + KERNEL_STACK_SIZE in
  exists k1, sys_exit code k = Exits k1 (Some (idle, shell)) /\ cur_proc k1 = shell /\ run_queue (k_sched k1) = idle /\
    p_state idle (k_ram k1) = PROC_ZOMBIE /\ p_exit_code idle (k_ram k1) = u32 code /\ p_state shell (k_ram k1) = PROC_RUNNING /\
    ld32 (tss (k_sched k1)) tss_esp0 = top /\
    forall x r ret, switches base (k_ram k1) r x ->
      exists x1 r1 x2 r2, context_switch x r = (x1, r1) /\ eip x1 = l_kthread_entry L /\ cr3 x1 = l_kernel_dir L /\
        run_kthread_entry ret x1 r1 = (x2, r2) /\ eip x2 = l_trampoline L /\ iflag x2 = true /\ esp x2 = top - 4 /\
        forall k2 code2, second_shell base r2 k2 ->
          exists k3, sys_exit code2 k2 = Exits k3 None /\ p_state shell (k_ram k3) = PROC_ZOMBIE /\ hd_error (io (k_mach k3)) = Some CliHlt.
Proof.
  intros HY Hb Hro Hk idle shell top. destruct (first_exit L base fl prog y HY Hb k code Hk) as (s1 & m1 & E & Hcode & Hs & _ & _ & _).
  eexists. split; [exact E |]. pose proof Hs as (Hc & Hq & _ & Hz & Hrun & Htss & _).
  split; [exact Hc |]. split; [exact Hq |]. split; [exact Hz |]. split; [exact Hcode |]. split; [exact Hrun |]. split; [exact Htss |].
  intros x r ret Hsw. destruct (second_switch L base Hb Hro s1 _ r x ret Hs Hsw) as (x1 & r1 & x2 & r2 & E1 & E2 & E3 & E4 & E5 & E6 & E7 & Hf).
  exists x1, r1, x2, r2. do 7 (split; [done |]). intros k2 code2 H2. apply (second_exit L base Hb s1 _ r2 k2 code2 Hs); [| exact H2].
  intros a Ha Hn. destruct Hsw as (_ & Hst & Hsame). unfold KERNEL_STACK_SIZE in Hf. rewrite Hf by lia. symmetry. apply Hsame. lia.
Qed.

(** C15. The second shell serves sessions: when the first shell exits and the
    switch goes to the queued thread (from a stack below the heap, the loaded
    program untouched), the trampoline runs the program again, which prints the
    banner and then exactly the transcript of the command language for the
    characters still to be read, with the same files and the clock going on (the
    exit itself counts one tick, then the timer interrupts taken while the shell
    waits for its characters; the bare word [cat] is an unknown command); and it
    never goes wrong or returns to the trampoline. *)
Theorem second_shell_serves (L : layout) (base : Z) (fl : list (list Z * list Z)) (prog : list Z) (y : system)
    (U1 U2 : uframe) (rodata : list Z -> Z) (k : kstate ramfs) (code : Z) :
  let idle := base + 16 in
  let shell := base + 8656 in
  booted L base fl prog y -> 0 < base -> base + 0x200000 <= USER_LOAD_ADDR -> first_shell base y k ->
  env U1 rodata ramfs_ops [shell] k -> linked prog rodata -> frame_ok U2 rodata ->
  (forall q l, In q [shell; idle] -> l ∈ locals U2 -> sep l (q, PROCESS_SIZE)) ->
  exists k1, sys_exit code k = Exits k1 (Some (idle, shell)) /\
    forall x r ret, switches base (k_ram k1) r x -> esp x <= base -> same_on USER_LOAD_ADDR W32 (k_ram k1) r ->
      let (x1, r1) := context_switch x r in
      let (x2, r2) := run_kthread_entry ret x1 r1 in
      let k2 := upd_mach (set_ram (fun _ => r2)) k1 in
      eip x2 = l_trampoline L /\ stdin k2 = stdin k /\ awaited k2 = awaited k /\ now k2 = timer_tick (now k) /\ k_fs k2 = k_fs k /\
      (forall n out t more, transcript (answer ramfs_ops [idle] k2) n (now k2) (awaited k2) = Some (out, t, more) ->
         exists k', (forall j, shell_trampoline (_entry U2 rodata (n + j) 65) k2 =
                               shell_trampoline (shell_loop U2 rodata j 65 ;; usys_exit 0) k') /\
           shows (concat logo ++ out) (k_mach k2) (k_mach k') /\ awaited k' = more /\ now k' = t) /\
      (shell_trampoline (_entry U2 rodata (S (length (stdin k2))) 65) k2 = Ret Blocks \/
       exists k3 sw, shell_trampoline (_entry U2 rodata (S (length (stdin k2))) 65) k2 = Ret (Exits k3 sw)).
Proof.
  intros idle shell HY Hb Hro Hk Henv Hl HU Hoff.
  destruct (first_exit L base fl prog y HY Hb k code Hk) as (s1 & m1 & E & _ & Hs & Hck & Hvm & Hfr).
  eexists. split; [exact E |]. intros x r ret Hsw Hesp Hsame.
  destruct (second_switch L base Hb Hro s1 _ r x ret Hs Hsw) as (x1 & r1 & x2 & r2 & -> & _ & _ & -> & Htr & _ & _ & Hf).
  destruct Hsw as (_ & _ & Hheap). unfold USER_LOAD_ADDR, KERNEL_STACK_SIZE in *.
  assert (Henv2 : env U2 rodata ramfs_ops [idle] (K s1 (k_kbd k) (k_vfs k) (k_fs k) (k_pmm k) (k_irqs k) (set_ram (fun _ => r2) m1))).
  { apply (second_env L base prog Hb Hro U1 U2 rodata k s1 m1 r2 Henv Hl HU Hoff Hs Hck Hvm).
    - intros a Ha Hn. rewrite Hf by lia. symmetry. apply Hheap. lia.
    - intros a Ha. unfold USER_LOAD_ADDR in Ha. rewrite Hf by lia. rewrite <- (Hfr a) by lia. symmetry. apply Hsame. lia. }
  cbv zeta. unfold upd_mach. cbn [k_sched k_kbd k_vfs k_fs k_pmm k_irqs k_mach]. set (k2 := K s1 (k_kbd k) (k_vfs k) (k_fs k) (k_pmm k) (k_irqs k) (set_ram (fun _ => r2) m1)) in *.
  split; [exact Htr |]. split; [reflexivity |]. split; [reflexivity |]. split; [exact Hck |]. split; [reflexivity |]. split.
  - intros n out t more Ht.
    destruct (entry_session U2 rodata HU ramfs_ops _ 65 n out t more k2 Henv2 ltac:(vm_compute; congruence) Ht) as (k' & E2 & (_ & Hsh & _) & Hst & Hnow & _).
    exists k'. split; [intros j; unfold shell_trampoline; by rewrite E2 |]. split; [exact Hsh |]. split; [exact Hst | exact Hnow].
  - destruct (entry_stops U2 rodata HU ramfs_ops _ 65 k2 Henv2 ltac:(vm_compute; congruence)) as [E2|(k3 & sw & E2)];
      unfold shell_trampoline; rewrite E2; [by left | right; by exists k3, sw].
Qed.

(** ** A run *)

(** The boot thread about to switch, on a stack below the heap. *)
Definition demo_switcher : cpu := Cpu 0 0 0 0 0x17C000 0 0x113000 false.
Definition demo_switch_ram (r : ram) : ram := st32 (st32 r 0x17C004 0x183010) 0x17C008 0x1851D0.

Lemma demo_switches r : switches 0x183000 r (demo_switch_ram r) demo_switcher.
Proof.
  split; [| split; [cbn [demo_switcher esp]; lia |]].
  - unfold call_frame, cpu_wf, is_u32, demo_switcher, PROCESS_SIZE. cbn [ebx esi edi ebp esp]. unfold demo_switch_ram.
    replace (0x17C000 + 4) with 0x17C004 by lia. replace (0x17C000 + 8) with 0x17C008 by lia.
    rewrite ld32_st32_ne, !ld32_st32_eq by lia. rewrite !u32_small by lia. lia.
  - intros a Ha. unfold demo_switch_ram. by rewrite !ld8_st32_ne by lia.
Qed.

Lemma demo_first_shell y irqs : booted demo_layout 0x183000 demo_files demo_program y -> first_shell 0x183000 y (user_state irqs y).
Proof. intros HY. destruct (bt_queue HY) as (_ & Hq & Hc & _). split; [exact Hc |]. split; [exact Hq | done]. Qed.

Lemma exit_restarts_then_halts_witness :
  exists y k1 x2 r2 k3, sys_exit 0 (user_state [] y) = Exits k1 (Some (0x183010, 0x1851D0)) /\
    run_kthread_entry 0x103010 (context_switch demo_switcher (demo_switch_ram (k_ram k1))).1 (context_switch demo_switcher (demo_switch_ram (k_ram k1))).2 = (x2, r2) /\
    eip x2 = l_trampoline demo_layout /\ sys_exit 0 (upd_mach (set_ram (fun _ => r2)) k1) = Exits k3 None.
Proof.
  destruct demo_booted as (y & _ & HY). exists y.
  destruct (exit_restarts_then_halts demo_layout 0x183000 demo_files demo_program y (user_state [] y) 0) as (k1 & E & Hc & Hq & _ & _ & _ & _ & H).
  - exact HY.
  - lia.
  - unfold USER_LOAD_ADDR. lia.
  - exact (demo_first_shell y [] HY).
  - destruct (H demo_switcher (demo_switch_ram (k_ram k1)) 0x103010 (demo_switches _)) as (x1 & r1 & x2 & r2 & E1 & _ & _ & E2 & E3 & _ & _ & H2).
    destruct (H2 (upd_mach (set_ram (fun _ => r2)) k1) 0) as (k3 & E4 & _); [split; [exact Hc |]; split; [exact Hq | done] |].
    exists k1, x2, r2, k3. split; [exact E |]. split; [by rewrite E1 |]. split; [exact E3 | exact E4].
Defined.

(** 99 ticks, then ["uptime"] and Enter. *)
Definition demo_late_keys : list wake := replicate 99 TimerIrq ++ demo_uptime_keys.

Lemma second_shell_serves_witness :
  exists y k1 k', sys_exit 0 (user_state demo_late_keys y) = Exits k1 (Some (0x183010, 0x1851D0)) /\
    let (x1, r1) := context_switch demo_switcher (demo_switch_ram (k_ram k1)) in
    let k2 := upd_mach (set_ram (fun _ => (run_kthread_entry 0x103010 x1 r1).2)) k1 in
    shell_trampoline (_entry demo_stack demo_text_at 2 65) k2 = shell_trampoline (shell_loop demo_stack demo_text_at 1 65 ;; usys_exit 0) k' /\
    shows (concat logo ++ lit "anubhav-os:/ $ uptime" ++ nl ++ lit "Uptime: 1 seconds" ++ nl) (k_mach k2) (k_mach k').
Proof.
  destruct demo_booted as (y & _ & HY). exists y.
  destruct (second_shell_serves demo_layout 0x183000 demo_files demo_program y demo_stack demo_stack demo_text_at (user_state demo_late_keys y) 0) as (k1 & E & H).
  - exact HY.
  - lia.
  - unfold USER_LOAD_ADDR. lia.
  - exact (demo_first_shell y demo_late_keys HY).
  - apply (booted_env demo_layout 0x183000 demo_files demo_program y demo_stack demo_text_at demo_late_keys HY).
    + lia.
    + unfold USER_LOAD_ADDR. lia.
    + vm_compute. congruence.
    + repeat constructor; lia.
    + exact demo_linked.
    + intros l Hl. apply demo_stack_range in Hl. unfold sep. cbn [fst snd]. lia.
    + repeat constructor; lia.
  - exact demo_linked.
  - exact demo_stack_ok.
  - intros q l Hq Hl. apply demo_stack_range in Hl. unfold sep, PROCESS_SIZE. cbn [fst snd]. destruct Hq as [<-|[<-|[]]]; lia.
  - exists k1. specialize (H demo_switcher (demo_switch_ram (k_ram k1)) 0x103010 (demo_switches _)).
    destruct (context_switch demo_switcher (demo_switch_ram (k_ram k1))) as [x1 r1]. destruct (run_kthread_entry 0x103010 x1 r1) as [x2 r2].
    destruct H as (_ & _ & Haw & Hnow & _ & H2 & _).
    + cbn [demo_switcher esp]. lia.
    + intros a Ha. unfold demo_switch_ram, USER_LOAD_ADDR in *. by rewrite !ld8_st32_ne by lia.
    + destruct (H2 1%nat (lit "anubhav-os:/ $ uptime" ++ nl ++ lit "Uptime: 1 seconds" ++ nl) (Timer 100 100) []) as (k' & E2 & Hs & _).
      * assert (Hin : awaited (user_state demo_late_keys y) = typing false 0 demo_late_keys)
          by (unfold awaited, arrivals, user_state; cbn [k_kbd k_irqs]; rewrite (bt_keyboard HY), (proj2 kbd0_inv); reflexivity).
        assert (Hclk : now (user_state demo_late_keys y) = Timer 0 100) by exact (bt_clock HY).
        rewrite Haw, Hin, Hnow, Hclk. generalize (upd_mach (set_ram (fun _ => r2)) k1). intros k2. vm_compute. reflexivity.
      * exists k'. split; [exact E |]. split; [exact (E2 1%nat) | exact Hs].
Defined.
